(* ===== verification/_CoqProject ===== *)
-Q . S2P
Prelude.v
Interfaces.v
Profiles.v
Jobs.v
Storage.v
NumericStrcmp.v
Outputs.v
Machines.v
Workload.v
Tracers.v
Ipp.v
PState.v
Writer.v
NumberParsing.v
Workflow.v
WorkflowFacts.v
Context.v
ContextFacts.v
ContextSteps.v
OutputFiles.v
Server.v
Actors.v
Guarantee.v
TaskExecution.v
SwitchProcesses.v
EnvTrace.v
Main.v
JobsExecution.v
TaskProgress.v
Replay.v
Submitters.v
Reader.v
System.v
ServerSteps.v
SystemProtocol.v
SystemProcesses.v
SystemSubmitters.v
ServerFacts.v
ServerExamples.v
ServerBook.v
SystemFacts.v
SystemSafety.v
SystemWaits.v
JobsExecutionFacts.v
JobsExecutionExamples.v
SubmittersFacts.v
SubmittersExamples.v
EventSubmitterFacts.v
ReaderFacts.v
ReaderExamples.v
WorkflowRuns.v
WorkflowExamples.v
Simulation.v
MainFacts.v
SimulationFacts.v
SystemStart.v
SimulationExamples.v
SystemExamples.v
WaitsExamples.v
