(* ===== verification/Prelude.v ===== *)
(** * Batsim, a verification development: prelude and documentation

    Batsim simulates a batch scheduler: it reads a platform and workloads, and a
    decision process (the scheduler, a program of its own, connected by a socket)
    decides with JSON messages when and where the jobs are executed.  SimGrid gives
    the simulated time, the hosts and the processes ("actors").  This library models
    the C++ code of src/src as functions on explicit states and proves what makes
    its components correct.  This file is the root of the library: its documentation
    first, then what all the components share.

    ** How the program is modelled

    - An error is a value of [result]: [Abort] for [xbt_assert] and [xbt_die],
      [Throw] for an exception, [Undef] for what C++ leaves undefined (a null
      pointer, an index out of a vector, a JSON accessor on another type).  The three
      are kept apart, since [catch] blocks only see exceptions.
    - Objects that are shared through pointers (profiles, jobs, tasks of workflows)
      are addresses ([positive]) in heaps ([gmap positive]): two names of a profile
      may be the same address, and a null pointer in a map is [Some None].
    - [int], [unsigned int] and [long] are [Z] with their wrap-around written out
      ([i32], [u32], [stoi], [strtol_value]) where the code computes with them on
      data of the user; the counters of the server, which only count objects, are
      plain [Z].
    - [double] and [long double] are exact rationals [Q]; the tracers have [fl] for
      the quotients that may be infinite or not a number.
    - A file is the text written to it; the fixed-size buffers and [snprintf] are
      modelled with their sizes (Outputs.v), the formats [%lf], [%g] and [%d] written
      out.
    - A process that blocks is a [proc] (Actors.v): a tree whose nodes are the blocking
      calls of SimGrid (sleep, wait for a message, wait for a parallel task, wait until a message
      that has been put in a mailbox is received: [send_message] is a rendezvous).  A run
      is relative to an environment [allowed], which says what the others may have
      done to the shared data when a blocking call returns.  [runs] is the relation
      of complete runs; [wp] says that every run ends, in a state that satisfies the
      postcondition, [wlp] that those which end do.  Each theorem on a process states
      what it asks of its environment.
    - The processes together are a transition system (System.v): a state has the
      shared data, the processes that are blocked and what they wait for, the messages
      received; a label says which process runs next, until its next blocking call, as
      the maestro of SimGrid does, or that time passes.  The labels are free: any
      order of the processes, any duration of the tasks and of the deliveries.  The
      server is one of the processes; an iteration of its loop that sends a message
      back to a submitter is cut where it waits ([sends_back], [goes_on]).
    - Code that is not in src/ is a parameter, with its documented behaviour as
      named laws when a theorem needs them: [IntervalSet], [SimGrid], [RapidJson],
      [BoostString], [FileSystem] (Interfaces.v), [PugiXml] (Workflow.v), [Redox]
      (Storage.v), [Docopt] (Main.v), and function arguments for regular expressions
      ([str_find], [replace_id], [regex_match]), the shuffle of colours, the setters of
      the footprint plugin, the text exchanged on the socket.  Interfaces.v has
      concrete instances ([Concrete]), on which every witness evaluates.

    ** The files

    - Prelude.v, Interfaces.v: this documentation, the result monad, lemmas on folds,
      lists and rationals, record updates; the interfaces of libraries.
    - Profiles.v (profiles.cpp): the data of each type of profile, their parser, their
      removal.  Jobs.v (jobs.cpp): identifiers, states, task trees, jobs, their parser
      and container.  Workload.v (workload.cpp): loading, check of validity, collection
      of unused profiles, the container of workloads.
    - NumericStrcmp.v, Machines.v (machines.cpp, permissions.cpp): the order of names,
      the creation of machines, their states, counters and time accounting, start and
      end of jobs, energy and footprints, zones.  PState.v (pstate.cpp): the switches
      in progress; SwitchProcesses.v: the two processes that switch a machine.
    - Outputs.v, Tracers.v (export.cpp): the buffers, the Paje trace, the CSV tracers
      and the metrics of a schedule.  OutputFiles.v: their opening and their closing.
    - Ipp.v (ipp.hpp, events.cpp): messages between processes, events and their files.
      Writer.v (protocol.cpp): the messages to the scheduler.
    - NumberParsing.v: [stoi], [stod], [strtol], [strtod] on text.  Workflow.v,
      WorkflowFacts.v (workflow.cpp): tasks, edges, the XML reader, the container.
    - Context.v, ContextFacts.v (context.hpp): [BatsimContext] as a record, with the
      live processes and the messages sent, and the primitives on it; ContextSteps.v:
      what every step leaves of it.
    - Server.v (server.cpp): every handler, the dispatch, one iteration of the loop;
      ServerFacts.v, ServerExamples.v: the step relation of the server and its theorems;
      ServerSteps.v: what an iteration leaves of the context; ServerBook.v: the abstract
      book of jobs that the server implements.
    - Actors.v: processes, environments, [runs], [wp], [wlp]; Guarantee.v: what the
      segments of a process guarantee to the others.
    - TaskExecution.v (task_execution.cpp): the matrices of parallel tasks.
      JobsExecution.v (jobs_execution.cpp): task trees, the process of a job, the killer,
      the waiter; TaskProgress.v: a reference definition of the progress of a task tree,
      which is what a kill reports; JobsExecutionFacts.v and JobsExecutionExamples.v.  Replay.v: the
      processes that replay SMPI and usage traces.
    - Submitters.v (job_submitter.cpp, event_submitter.cpp): the static submitters, the
      workflow submitter, the launcher of batexec; SubmittersFacts.v and
      SubmittersExamples.v for the static one of jobs, EventSubmitterFacts.v for that of
      events, WorkflowRuns.v and WorkflowExamples.v for the workflow one.
    - Storage.v (storage.cpp): the keys and operations of the Redis storage.
    - Reader.v (protocol.cpp, network.cpp): the messages of the scheduler, every handler,
      the process that exchanges a request and its reply; ReaderFacts.v, ReaderExamples.v.
    - EnvTrace.v (environmental_footprint_tracer_reader.cpp): the trace of the
      environment and the processes that apply it.
    - Main.v (batsim.cpp): arguments, configuration, loading, first processes.
      Simulation.v (batsim.cpp, machines.cpp): [prepare_simulation], which composes what
      [main] does before the engine runs, and [main] with the calls of the libraries.
      MainFacts.v, SimulationFacts.v, SimulationExamples.v.
    - System.v (server.cpp, ipp.cpp, and the processes of the other files): the
      transition system of the processes.  SystemProtocol.v: the rules they follow, with
      ghost states; SystemProcesses.v, SystemSubmitters.v: each process follows them,
      whatever the others do within them; SystemFacts.v, SystemSafety.v: so the whole
      system does; SystemStart.v: it starts as [main] prepares it; SystemWaits.v: when
      everybody waits.  SystemExamples.v, WaitsExamples.v: two simulations, from their
      command lines.

    ** What the theorems show

    - The whole system, in every interleaving, from what [main] prepares
      ([main_starts_the_system]): the data of the server are those of a run of the
      server alone ([system_refines_server]), so the accounting of the jobs holds in the
      system ([system_job_accounting]); each job is announced once
      ([jobs_announced_once]);
      messages have the data of their type ([messages_have_their_types]); the machines are
      consistent ([system_machines_consistent]).  With a workflow the processes may block
      each other for ever ([everyone_waits_forever], with a simulation that does); without
      one, the server waits for nobody and whoever sends it a message is served
      ([senders_are_served]).
    - Server: it implements a book of jobs ([server_implements_book]); the counters agree with the states of the jobs in every reachable state
      ([job_accounting]); the end of the simulation is announced once, when nothing is
      left, and once acknowledged the final checks hold
      ([end_of_simulation_announced]); the handlers that matter, on every branch
      ([execute_job_spec], [kill_jobs_spec], [job_submitted_spec],
      [change_job_state_only_starts_jobs]).
    - Processes: the workflow submitter runs every task of an acyclic workflow, in an
      order that respects the edges, under the limit, and ends
      ([workflow_submitter_runs_every_task]); the static submitters follow the dates
      ([static_job_submitter_follows_dates], [static_event_submitter_follows_dates]); the
      reader implements the timetable of a
      message ([parse_and_apply_message_follows_events]); a walltime bounds the runtime
      of a job, but for the time of its messages to the scheduler, which the code does not
      deduct ([walltime_bounds_runtime]).  A blocking send takes time, the latency of the
      platform at least: in these four theorems it takes at most [delay], a parameter,
      and the dates drift by as much for each message sent.  How a job ends or is killed
      ([finish_job_spec], [kill_job_spec]); a sequence runs its parts in order
      ([sequence_tasks_in_order]); a usage trace is replayed action by action
      ([usage_trace_is_replayed]).
    - Machines and switches: the invariant of the counters and of the time
      ([machines_life_invariant]), creation, start and end of jobs, one acknowledgement
      for each request of switch ([switch_request_acknowledged_once]); the comparator
      of names is a strict total order as long as the numbers fit an [int], and equals
      a lexicographic reference.
    - Profiles: their removal ([remove_profile_spec]) and the collection of those that
      nothing uses, in one pass ([remove_unreferenced_profiles_spec]).
    - Parsers: the values accepted are well formed (profiles, jobs, events, workflows,
      mappings, registrations, executions, arguments), and identifiers are read back.
    - Start: a simulation whose arguments are accepted has everything its processes
      need ([accepted_arguments], [prepare_simulation_spec]), within the limit of
      machines ([load_workloads_and_workflows_limit]).
    - Outputs: buffers lose nothing, the Paje trace declares the jobs before it uses them,
      also when they are killed ([paje_declares_jobs_before_use]), the metrics
      are those of the jobs written ([jobs_tracer_metrics]), the initial power states are those of the machines.
    - Errors that modelling showed: theorems state them as the code behaves, for example
      [fixed_footprint_cannot_start], [accepted_execute_job],
      [change_job_state_only_starts_jobs],
      [return_code_only_tells_input_errors], [remove_circular_profile_diverges],
      [unknown_type_is_usage_trace]; a failure of the exchange with the scheduler closes
      the outputs ([broken_connection_closes_outputs]).

    ** Fuel

    Recursions that the code does not bound take fuel: the removal of profiles and the
    task trees (the rank of a profile among those it reaches is enough, which exists
    when there is no circular sequence: [remove_profile_spec],
    [sequence_tasks_in_order]; without it the code diverges,
    [remove_circular_profile_diverges]); the search of zones (the number of zones);
    the comparator of names (the lengths of the names); the loop of the workflow
    submitter (the number of tasks is enough, proved in its theorem); the polls of a
    task that receives a message ([poll_message_terminates]).  A computation that runs
    out of fuel fails, so that it never passes for a result; the theorems that conclude
    that there is one ask for the fuel that is enough.

    ** Not modelled

    The sockets and the wall-clock measures of network.cpp, the usage text of
    batsim.cpp, what SimGrid and its plugins do (the calls are listed by
    [library_calls]), the freeing of memory, but for the destructor of messages
    ([destroy_message]), the unit tests.  [Submitter::submitter_type] is kept although
    no code reads it.  The storage is not part of the context: the submitters and the
    reader take its operations as arguments.  In the system, the message of a sender
    that is killed before its delivery stays in the mailbox, and the theorems on the
    announcements ask that dynamic registration is disabled, since a scheduler may
    register and announce whatever it likes.  When the exchange with the scheduler
    throws, network.cpp closes the outputs and throws another exception: an error has no
    state here, so that the files are those of the state in which the process was last
    resumed ([connection_broken]); what it changes since then is in no file.

    ** What could follow

    The storage in the context, for the keys that the submitters write and the reader
    reads; the system with dynamic registration, whose jobs the scheduler announces. *)

From Stdlib Require Export ZArith QArith Qabs Lqa Lia Sorted Ascii String.
From stdpp Require Export base gmap sets list strings sorting numbers pretty.

(** stdpp and QArith both define operations on rationals; the development
    works in [Z_scope] by default and writes [%Q] for dates. *)
#[global] Open Scope string_scope.
#[global] Open Scope Z_scope.
#[global] Open Scope list_scope.
Declare Scope batsim_scope.
Delimit Scope batsim_scope with batsim.
#[global] Open Scope batsim_scope.
Create HintDb batsim.
Create Rewrite HintDb batsim.

(** ** Errors and the result monad

    [xbt_assert] and [xbt_die] abort the process; C++ exceptions are thrown;
    reading out of a vector's bounds, dereferencing a null pointer or calling an
    accessor on a value of the wrong type is undefined behaviour.  The model
    keeps the three apart. *)
Inductive error : Type :=
| Abort (msg : string)
| Throw (msg : string)
| Undef (msg : string).

Inductive result (A : Type) : Type :=
| Ok (a : A)
| Err (e : error).
Arguments Ok {A} _.
Arguments Err {A} _.

#[export] Instance result_ret : MRet result := fun A a => Ok a.
#[export] Instance result_bind : MBind result := fun A B f r =>
  match r with Ok a => f a | Err e => Err e end.
#[export] Instance result_fmap : FMap result := fun A B f r =>
  match r with Ok a => Ok (f a) | Err e => Err e end.

#[export] Instance error_eq_dec : EqDecision error.
Proof. solve_decision. Defined.

#[export] Instance result_eq_dec {A} `{EqDecision A} : EqDecision (result A).
Proof. solve_decision. Defined.

Definition xbt_assert (b : bool) (msg : string) : result unit :=
  if b then Ok tt else Err (Abort msg).

Definition xbt_die {A} (msg : string) : result A := Err (Abort msg).

Definition of_option {A} (e : error) (o : option A) : result A :=
  match o with Some a => Ok a | None => Err e end.

Definition is_ok {A} (r : result A) : bool :=
  match r with Ok _ => true | Err _ => false end.

(** A [for] loop over a container, threading a state and stopping at the
    first error. *)
Fixpoint foldM {S A} (f : S -> A -> result S) (s : S) (l : list A) : result S :=
  match l with
  | [] => Ok s
  | a :: l => s' ← f s a; foldM f s' l
  end.

Fixpoint mapM_r {A B} (f : A -> result B) (l : list A) : result (list B) :=
  match l with
  | [] => Ok []
  | a :: l => b ← f a; bs ← mapM_r f l; Ok (b :: bs)
  end.

Lemma Ok_bind {A B} (x : A) (f : A -> result B) : (Ok x ≫= f) = f x.
Proof. done. Qed.

Lemma bind_Ok {A B} (r : result A) (f : A -> result B) b :
  r ≫= f = Ok b <-> exists a, r = Ok a /\ f a = Ok b.
Proof.
  destruct r as [a|e]; cbn; split; intros H; [by eauto|by naive_solver|done|].
  by destruct H as (?&?&?).
Qed.

Lemma xbt_assert_Ok b msg u : xbt_assert b msg = Ok u <-> b = true.
Proof. destruct b, u; cbn; split; congruence. Qed.

Lemma of_option_Ok {A} e (o : option A) a : of_option e o = Ok a <-> o = Some a.
Proof. destruct o; cbn; split; congruence. Qed.

Lemma foldM_app {S A} (f : S -> A -> result S) s l1 l2 :
  foldM f s (l1 ++ l2) = foldM f s l1 ≫= fun s' => foldM f s' l2.
Proof.
  revert s; induction l1 as [|a l1 IH]; intros s; cbn; [done|].
  destruct (f s a) as [s'|e]; cbn; [apply IH|done].
Qed.

(** Rule of invariants for [foldM]: what each iteration preserves, the loop
    preserves. *)
Lemma foldM_inv {S A} (P : S -> Prop) (f : S -> A -> result S) l s s' :
  P s ->
  (forall s a s', a ∈ l -> P s -> f s a = Ok s' -> P s') ->
  foldM f s l = Ok s' -> P s'.
Proof.
  revert s; induction l as [|a l IH]; intros s Hs Hstep; cbn.
  - by intros [= <-].
  - intros (s1 & H1 & H2)%bind_Ok. eapply IH; [| |exact H2].
    + eapply Hstep; [by left|exact Hs|exact H1].
    + intros; eapply Hstep; [by right|..]; done.
Qed.

(** The same with the remaining elements visible in the invariant. *)
Lemma foldM_inv_rest {S A} (P : S -> list A -> Prop) (f : S -> A -> result S) l s s' :
  P s l ->
  (forall s a l s', P s (a :: l) -> f s a = Ok s' -> P s' l) ->
  foldM f s l = Ok s' -> P s' [].
Proof.
  revert s; induction l as [|a l IH]; intros s Hs Hstep; cbn.
  - by intros [= <-].
  - intros (s1 & H1 & H2)%bind_Ok. eapply IH; [|done|exact H2]. eauto.
Qed.

(** A loop none of whose iterations can fail does not fail. *)
Lemma foldM_total {S A} (P : S -> Prop) (f : S -> A -> result S) l s :
  P s ->
  (forall s a, a ∈ l -> P s -> exists s', f s a = Ok s' /\ P s') ->
  exists s', foldM f s l = Ok s' /\ P s'.
Proof.
  revert s; induction l as [|a l IH]; intros s Hs Hstep; cbn; [by eauto|].
  destruct (Hstep s a) as (s1 & -> & H1); [by left|done|]. cbn.
  apply IH; [done|]. intros s2 a2 Ha2. apply Hstep. by right.
Qed.

Lemma mapM_r_length {A B} (f : A -> result B) l l' :
  mapM_r f l = Ok l' -> length l' = length l.
Proof.
  revert l'; induction l as [|a l IH]; cbn; intros l'; [by intros [= <-]|].
  intros (b & _ & (bs & Hbs & [= <-])%bind_Ok)%bind_Ok. cbn. f_equal. eauto.
Qed.

Lemma mapM_r_Forall {A B} (P : B -> Prop) (f : A -> result B) l l' :
  (forall a b, f a = Ok b -> P b) -> mapM_r f l = Ok l' -> Forall P l'.
Proof.
  intros Hf; revert l'; induction l as [|a l IH]; cbn; intros l'; [by intros [= <-]|].
  intros (b & Hb & (bs & Hbs & [= <-])%bind_Ok)%bind_Ok. constructor; eauto.
Qed.

Lemma mapM_r_total {A B} (f : A -> result B) l :
  (forall a, a ∈ l -> exists b, f a = Ok b) -> exists bs, mapM_r f l = Ok bs.
Proof.
  induction l as [|a l IH]; intros Hf; cbn; [by eexists|].
  destruct (Hf a) as [b ->]; [by left|]. destruct IH as [bs ->]; [|by eexists].
  intros a' Ha'. apply Hf. by right.
Qed.

Lemma mapM_r_lookup {A B} (f : A -> result B) l bs k a :
  mapM_r f l = Ok bs -> l !! k = Some a -> exists b, bs !! k = Some b /\ f a = Ok b.
Proof.
  revert bs k; induction l as [|a' l IH]; intros bs k; cbn; [done|].
  intros (b & Hb & (bs' & Hbs & [= <-])%bind_Ok)%bind_Ok. destruct k as [|k]; cbn; [|by apply IH].
  intros [= ->]. by exists b.
Qed.

(** ** Tactics *)

(** [inv_ok] decomposes every hypothesis saying that a monadic computation
    returned, into the values its steps returned and the guards that passed. *)
Ltac inv_ok_step :=
  match goal with
  | H : (_ ≫= _) = Ok _ |- _ => apply bind_Ok in H as (?&?&?)
  | H : mbind _ _ = Ok _ |- _ => apply bind_Ok in H as (?&?&?)
  | H : xbt_assert _ _ = Ok _ |- _ => apply xbt_assert_Ok in H
  | H : of_option _ _ = Ok _ |- _ => apply of_option_Ok in H
  | H : xbt_die _ = Ok _ |- _ => discriminate H
  | H : Err _ = Ok _ |- _ => discriminate H
  | H : Ok _ = Ok _ |- _ => injection H as H
  | H : (let '(_, _) := ?p in _) = Ok _ |- _ => destruct p
  | x : unit |- _ => destruct x
  | H : negb _ = true |- _ => apply negb_true_iff in H
  | H : andb _ _ = true |- _ => apply andb_true_iff in H as [? ?]
  | H : bool_decide _ = true |- _ => apply bool_decide_eq_true in H
  | H : bool_decide _ = false |- _ => apply bool_decide_eq_false in H
  end.
Ltac inv_ok := repeat inv_ok_step; subst.

(** Case analysis on the scrutinee of a [match] or [if] in a hypothesis. *)
Ltac case_in H :=
  match type of H with
  | context [match ?x with _ => _ end] =>
      lazymatch x with
      | context [match _ with _ => _ end] => fail
      | _ => destruct x eqn:?
      end
  end.

(** ** Record update

    [r <| f := v |>] is [r] with its field [f] set to [v].  A record declares
    its eta expansion once; the setter of a field is read off it. *)
Class Eta (R : Type) := eta_of : R -> R.
Class Setter {R T : Type} (proj : R -> T) := update : (T -> T) -> R -> R.
#[global] Arguments update {R T} proj {Setter} g r /.

Ltac derive_setter :=
  match goal with
  | |- @Setter ?R ?T ?proj =>
      let inst := constr:(_ : Eta R) in
      let e := eval hnf in inst in
      let p := eval pattern proj in e in
      match p with
      | ?F _ => exact (fun g => F (fun r => g (proj r)))
      end
  end.
#[export] Hint Extern 1 (Setter _) => derive_setter : typeclass_instances.

Notation "r <| f := v |>" := (update f (fun _ => v) r)
  (at level 12, left associativity, f constr at next level) : batsim_scope.
Notation "r <| f ::= g |>" := (update f g r)
  (at level 12, left associativity, f constr at next level) : batsim_scope.

(** ** Machine integers

    C's [int] and [unsigned int] are 32 bits wide, [long] and [unsigned long]
    64 bits wide (the LP64 data model of the supported platforms). *)
Definition u32 (z : Z) : Z := z `mod` 2 ^ 32.
Definition u64 (z : Z) : Z := z `mod` 2 ^ 64.
Definition i32 (z : Z) : Z := (z + 2 ^ 31) `mod` 2 ^ 32 - 2 ^ 31.
Definition LONG_MAX : Z := 2 ^ 63 - 1.
Definition LONG_MIN : Z := - 2 ^ 63.
Definition INT_MIN : Z := - 2 ^ 31.
Definition INT_MAX : Z := 2 ^ 31 - 1.

Lemma i32_small z : - 2 ^ 31 <= z < 2 ^ 31 -> i32 z = z.
Proof. intros H. unfold i32. rewrite Z.mod_small; lia. Qed.

Lemma u32_bounds z : 0 <= u32 z < 2 ^ 32.
Proof. unfold u32. apply Z.mod_pos_bound. lia. Qed.

Lemma u32_small z : 0 <= z < 2 ^ 32 -> u32 z = z.
Proof. intros H. unfold u32. by rewrite Z.mod_small. Qed.

(** ** Dates and amounts

    [double] and [long double] values are modelled by the rationals: every
    finite floating-point number is one, comparisons are exact, and only the
    rounding of sums, products and quotients is idealised. *)
#[export] Instance Q_eq_dec : EqDecision Q.
Proof. solve_decision. Defined.

Definition Qltb (x y : Q) : bool := negb (Qle_bool y x).
Infix "<?q" := Qltb (at level 70) : batsim_scope.
Infix "<=?q" := Qle_bool (at level 70) : batsim_scope.
Infix "=?q" := Qeq_bool (at level 70) : batsim_scope.

Lemma Qltb_lt x y : Qltb x y = true <-> (x < y)%Q.
Proof.
  unfold Qltb. rewrite negb_true_iff, <- not_true_iff_false, Qle_bool_iff.
  split; [apply Qnot_le_lt|apply Qlt_not_le].
Qed.
Lemma Qltb_ge x y : Qltb x y = false <-> (y <= x)%Q.
Proof. unfold Qltb. by rewrite negb_false_iff, Qle_bool_iff. Qed.
Lemma Qleb_gt x y : Qle_bool x y = false <-> (y < x)%Q.
Proof. rewrite <- Qltb_lt. unfold Qltb. by rewrite negb_true_iff. Qed.

Fixpoint Qsum (l : list Q) : Q :=
  match l with [] => 0%Q | q :: l => (q + Qsum l)%Q end.

Lemma Qsum_app l1 l2 : (Qsum (l1 ++ l2) == Qsum l1 + Qsum l2)%Q.
Proof. induction l1 as [|q l1 IH]; cbn; [ring|]. rewrite IH. ring. Qed.

Lemma Qsum_replicate n q : (Qsum (replicate n q) == inject_Z (Z.of_nat n) * q)%Q.
Proof.
  induction n as [|n IH]; [cbn; ring|].
  rewrite Nat2Z.inj_succ, <- Z.add_1_l, inject_Z_plus. cbn [replicate Qsum].
  rewrite IH. ring.
Qed.

#[export] Instance Qsum_perm : Proper (Permutation ==> Qeq) Qsum.
Proof.
  intros l1 l2 H. induction H as [| ? ? ? ? IH | | ? ? ? ? IH1 ? IH2]; cbn; try ring.
  - by rewrite IH.
  - by rewrite IH1.
Qed.

Ltac qify :=
  repeat match goal with
  | H : Qltb _ _ = true |- _ => apply Qltb_lt in H
  | H : Qltb _ _ = false |- _ => apply Qltb_ge in H
  | H : Qle_bool _ _ = true |- _ => apply Qle_bool_iff in H
  | H : Qle_bool _ _ = false |- _ => apply Qleb_gt in H
  | H : Qeq_bool _ _ = true |- _ => apply Qeq_bool_iff in H
  | H : Qeq_bool _ _ = false |- _ => apply Qeq_bool_neq in H
  | |- Qltb _ _ = true => apply Qltb_lt
  | |- Qltb _ _ = false => apply Qltb_ge
  | |- Qle_bool _ _ = true => apply Qle_bool_iff
  | |- Qle_bool _ _ = false => apply Qleb_gt
  end.
Ltac qlra := qify; lra.

(** ** Counting

    [count_if p l] is the number of elements of [l] that satisfy [p], as an
    integer, so that counters of type [int] compare with it. *)
Fixpoint count_if {A} (p : A -> bool) (l : list A) : Z :=
  match l with
  | [] => 0
  | a :: l => (if p a then 1 else 0) + count_if p l
  end.

Lemma count_if_app {A} (p : A -> bool) l1 l2 :
  count_if p (l1 ++ l2) = count_if p l1 + count_if p l2.
Proof. induction l1 as [|a l1 IH]; cbn [count_if app]; [done|]. lia. Qed.

Lemma count_if_nonneg {A} (p : A -> bool) l : 0 <= count_if p l.
Proof. induction l as [|a l IH]; cbn [count_if]; [done|]. destruct (p a); lia. Qed.

Lemma count_if_in {A} (p : A -> bool) l a : a ∈ l -> p a = true -> 1 <= count_if p l.
Proof.
  induction 1 as [a l|a b l Hin IH]; intros Hp; cbn [count_if].
  - rewrite Hp. pose proof (count_if_nonneg p l). lia.
  - specialize (IH Hp). destruct (p b); lia.
Qed.

Lemma count_if_length {A} (p : A -> bool) l : count_if p l <= Z.of_nat (length l).
Proof. induction l as [|a l IH]; cbn [count_if length]; [done|]. destruct (p a); lia. Qed.

Lemma count_if_insert {A} (p : A -> bool) (l : list A) i a b :
  l !! i = Some a ->
  count_if p (<[i:=b]> l) =
    count_if p l - (if p a then 1 else 0) + (if p b then 1 else 0).
Proof.
  revert i; induction l as [|c l IH]; intros [|i] Hl; csimpl; try done.
  - injection Hl as ->. lia.
  - rewrite (IH i) by done. lia.
Qed.

#[export] Instance count_if_perm {A} (p : A -> bool) :
  Proper (Permutation ==> eq) (count_if p).
Proof. intros l1 l2 H. induction H; cbn [count_if]; lia. Qed.

Lemma count_if_ext {A} (p q : A -> bool) l :
  (forall a, a ∈ l -> p a = q a) -> count_if p l = count_if q l.
Proof.
  induction l as [|a l IH]; intros H; cbn [count_if]; [done|].
  rewrite (H a) by left. rewrite IH; [done|]. intros; apply H; by right.
Qed.

#[global] Hint Resolve count_if_nonneg : batsim.

(** ** Strings *)
Fixpoint str_concat (l : list string) : string :=
  match l with [] => "" | s :: l => s +:+ str_concat l end.

Definition str_contains_char (c : ascii) (s : string) : bool :=
  existsb (Ascii.eqb c) (list_ascii_of_string s).

Lemma str_app_assoc (s1 s2 s3 : string) : (s1 +:+ s2) +:+ s3 = s1 +:+ (s2 +:+ s3).
Proof. induction s1 as [|c s1 IH]; [done|]. change (String c ((s1 +:+ s2) +:+ s3) = String c (s1 +:+ (s2 +:+ s3))). by rewrite IH. Qed.

Lemma str_app_nil_r (s : string) : s +:+ "" = s.
Proof. induction s as [|c s IH]; [done|]. change (String c (s +:+ "") = String c s). by rewrite IH. Qed.

Lemma str_concat_app l1 l2 : str_concat (l1 ++ l2) = str_concat l1 +:+ str_concat l2.
Proof.
  induction l1 as [|s l1 IH]; [done|]. cbn [str_concat app].
  by rewrite IH, str_app_assoc.
Qed.

Lemma str_length_app (s1 s2 : string) :
  String.length (s1 +:+ s2) = (String.length s1 + String.length s2)%nat.
Proof.
  induction s1 as [|c s1 IH]; [done|].
  change (S (String.length (s1 +:+ s2)) = S (String.length s1 + String.length s2)).
  by rewrite IH.
Qed.
