(* ===== verification/Interfaces.v ===== *)
(** * The libraries Batsim is built on, as interfaces

    Batsim links against intervalset (sets of integers), SimGrid (the
    simulation engine: clock, hosts, power states, energy plugins) and Boost
    (string splitting).  None of them is part of the repository.  Each is a
    type class of the operations the code calls, with a second class for the
    laws of their documentation that theorems rely on, and a concrete
    instance on which witnesses evaluate. *)

From S2P Require Import Prelude.

(** ** intervalset *)

Class IntervalSet (IS : Type) := {
  is_empty : IS;
  elements_of : IS -> list Z;              (* elements_begin .. elements_end *)
  is_size : IS -> Z;
  is_contains : IS -> Z -> bool;
  is_insert : IS -> Z -> IS;
  is_remove : IS -> Z -> IS;
  is_diff : IS -> IS -> IS;                (* operator- *)
  is_inter : IS -> IS -> IS;               (* operator& *)
  is_union : IS -> IS -> IS;               (* operator+ *)
  is_at : IS -> Z -> result Z;             (* operator[] *)
  first_element : IS -> result Z;
  to_string_hyphen : IS -> string -> string -> string;
  from_string_hyphen : string -> string -> string -> result IS;
}.

Class IntervalSetLaws (IS : Type) `{IntervalSet IS} : Prop := {
  elements_sorted : forall s, StronglySorted Z.lt (elements_of s);
  is_empty_spec : elements_of is_empty = [];
  is_size_elements : forall s, is_size s = Z.of_nat (length (elements_of s));
  is_contains_spec : forall s x, is_contains s x = true <-> x ∈ elements_of s;
  is_insert_spec : forall s x y, y ∈ elements_of (is_insert s x) <-> y = x \/ y ∈ elements_of s;
  is_remove_spec : forall s x y, y ∈ elements_of (is_remove s x) <-> y ≠ x /\ y ∈ elements_of s;
  is_diff_spec : forall s t x, x ∈ elements_of (is_diff s t) <-> x ∈ elements_of s /\ x ∉ elements_of t;
  is_inter_spec : forall s t x, x ∈ elements_of (is_inter s t) <-> x ∈ elements_of s /\ x ∈ elements_of t;
  is_union_spec : forall s t x, x ∈ elements_of (is_union s t) <-> x ∈ elements_of s \/ x ∈ elements_of t;
  is_at_spec : forall s (i : nat) x, elements_of s !! i = Some x -> is_at s (Z.of_nat i) = Ok x;
  first_element_spec : forall s x l, elements_of s = x :: l -> first_element s = Ok x;
}.

Lemma StronglySorted_NoDup (l : list Z) : StronglySorted Z.lt l -> NoDup l.
Proof.
  induction 1 as [|a l Hs IH Hall]; constructor; [|done].
  intros Hin. rewrite Forall_forall in Hall. specialize (Hall _ Hin). lia.
Qed.

(** Two strictly sorted lists with the same elements are equal. *)
Lemma StronglySorted_ext (l1 l2 : list Z) :
  StronglySorted Z.lt l1 -> StronglySorted Z.lt l2 ->
  (forall x, x ∈ l1 <-> x ∈ l2) -> l1 = l2.
Proof.
  intros H1; revert l2. induction H1 as [|a l1 Hs1 IH Ha]; intros l2 H2 Hext.
  - destruct l2 as [|b l2]; [done|]. exfalso. assert (b ∈ []) by (apply Hext; left).
    by eapply not_elem_of_nil.
  - destruct H2 as [|b l2 Hs2 Hb].
    { exfalso. assert (a ∈ []) by (apply Hext; left). by eapply not_elem_of_nil. }
    rewrite Forall_forall in Ha, Hb.
    assert (a = b) as ->.
    { assert (a ∈ b :: l2) as Hab by (apply Hext; left).
      assert (b ∈ a :: l1) as Hba by (apply Hext; left).
      apply elem_of_cons in Hab as [?|Hab], Hba as [?|Hba]; try done.
      specialize (Ha _ Hba). specialize (Hb _ Hab). lia. }
    f_equal. apply IH; [done|]. intros x. split; intros Hx.
    + assert (x ∈ b :: l2) as Hin by (apply Hext; by right).
      apply elem_of_cons in Hin as [->|?]; [|done]. specialize (Ha _ Hx). lia.
    + assert (x ∈ b :: l1) as Hin by (apply Hext; by right).
      apply elem_of_cons in Hin as [->|?]; [|done]. specialize (Hb _ Hx). lia.
Qed.

Section IntervalSetFacts.
Context {IS : Type} `{IntervalSetLaws IS}.

Lemma elements_NoDup (s : IS) : NoDup (elements_of s).
Proof. apply StronglySorted_NoDup, elements_sorted. Qed.

Lemma is_contains_false (s : IS) x : is_contains s x = false <-> x ∉ elements_of s.
Proof. rewrite <- is_contains_spec. by destruct (is_contains s x). Qed.

Lemma is_size_zero (s : IS) : is_size s = 0 <-> elements_of s = [].
Proof. rewrite is_size_elements. destruct (elements_of s); cbn; split; try done; lia. Qed.

Lemma is_size_nonneg (s : IS) : 0 <= is_size s.
Proof. rewrite is_size_elements. lia. Qed.
End IntervalSetFacts.

(** ** SimGrid

    The engine's state is abstract: hosts are handles, and the engine stores
    the clock, the current power state of each host and what the energy and
    environmental-footprint plugins account for. *)
Class SimGrid (Engine Host : Type) := {
  get_clock : Engine -> Q;
  get_pstate : Engine -> Host -> Z;
  set_pstate : Engine -> Host -> Z -> Engine;
  host_name : Host -> string;
  host_properties : Host -> gmap string string;
  get_pstate_count : Host -> Z;
  get_pstate_speed : Host -> Z -> Q;
  sg_host_get_speed : Engine -> Host -> Q;
  sg_host_get_consumed_energy : Engine -> Host -> Q;
  sg_host_get_wattmin_at : Engine -> Host -> Z -> Q;
  sg_host_get_carbon_operational_footprint : Engine -> Host -> Q;
  sg_host_get_carbon_embodied_footprint : Engine -> Host -> Q;
  sg_host_get_water_onsite_footprint : Engine -> Host -> Q;
  sg_host_get_water_offsite_footprint : Engine -> Host -> Q;
  sg_host_get_water_embodied_footprint : Engine -> Host -> Q;
  sg_host_get_carbon_intensity : Engine -> Host -> Q;
  sg_host_get_water_intensity : Engine -> Host -> Q;
  sg_host_get_pue : Engine -> Host -> Q;
  sg_host_get_wue : Engine -> Host -> Q;
}.

Class SimGridLaws (Engine Host : Type) `{SimGrid Engine Host} : Prop := {
  get_set_pstate : forall e h p, get_pstate (set_pstate e h p) h = p;
  get_set_pstate_ne : forall e h h' p, h ≠ h' ->
    get_pstate (set_pstate e h p) h' = get_pstate e h';
  clock_set_pstate : forall e h p, get_clock (set_pstate e h p) = get_clock e;
}.

(** ** Boost.StringAlgo

    [split_compress sep s] is [boost::split] with [is_any_of(sep)] and
    [token_compress_on]: adjacent separators are merged. *)
Class BoostString := {
  split_compress : ascii -> string -> list string;
  trim : string -> string;
  lexical_cast_uint : string -> option Z;   (* None: bad_lexical_cast *)
}.

Class BoostStringLaws `{BoostString} : Prop := {
  split_compress_single : forall sep s,
    str_contains_char sep s = false -> split_compress sep s = [s];
  split_compress_pair : forall sep s1 s2,
    str_contains_char sep s1 = false -> str_contains_char sep s2 = false ->
    split_compress sep (s1 +:+ String sep s2) = [s1; s2];
}.

(** ** RapidJSON

    A parsed value, its type tests and its accessors.  An accessor applied to a
    value of another type violates its documented precondition ([RAPIDJSON_ASSERT]),
    hence the [result].  [serialize] is [Accept] of a [Writer] on a string buffer. *)
Class RapidJson (V : Type) := {
  IsObject : V -> bool;
  IsArray : V -> bool;
  IsString : V -> bool;
  IsNumber : V -> bool;
  IsInt : V -> bool;
  members : V -> list (string * V);        (* MemberBegin .. MemberEnd *)
  array_values : V -> list V;
  GetString : V -> result string;
  GetDouble : V -> result Q;
  GetInt : V -> result Z;
  serialize : V -> string;
  parse_json : string -> option V;         (* None: HasParseError() *)
}.

Section RapidJsonOps.
Context {V : Type} `{RapidJson V}.

Fixpoint assoc_member (l : list (string * V)) (key : string) : option V :=
  match l with
  | [] => None
  | (k, v) :: l => if String.eqb k key then Some v else assoc_member l key
  end.

Definition FindMember (v : V) (key : string) : option V := assoc_member (members v) key.
Definition HasMember (v : V) (key : string) : bool :=
  match FindMember v key with Some _ => true | None => false end.
Definition MemberCount (v : V) : Z := Z.of_nat (length (members v)).

(** [v[key]]: the member must exist. *)
Definition member_at (v : V) (key : string) : result V :=
  of_option (Undef "rapidjson operator[]") (FindMember v key).

(** The three-step idiom of the parsers: the member exists, it passes the type
    test, its value is read. *)
Definition require_member (v : V) (key : string) (test : V -> bool) : result V :=
  xbt_assert (HasMember v key) "no such field";;
  x ← member_at v key;
  xbt_assert (test x) "field of another type";;
  Ok x.

Lemma member_at_Ok v key x : member_at v key = Ok x <-> FindMember v key = Some x.
Proof. apply of_option_Ok. Qed.

Lemma require_member_Ok v key test x :
  require_member v key test = Ok x <-> FindMember v key = Some x /\ test x = true.
Proof.
  unfold require_member, member_at, HasMember. destruct (FindMember v key) as [y|]; cbn.
  - destruct (test y) eqn:Ht; cbn; split; [|by intros [[= <-] ?]|done|].
    + intros [= <-]. done.
    + intros [[= <-] ?]. congruence.
  - split; [done|]. by intros [? _].
Qed.
End RapidJsonOps.

(** ** The file system, as the loaders see it *)
Class FileSystem := {
  fs_is_directory : string -> bool;
  fs_is_regular_file : string -> bool;
  fs_parent_path : string -> string;
  fs_lines : string -> option (list string);   (* None: the file cannot be opened *)
  trim_right : string -> string;               (* boost::trim_right *)
}.

(** ** Concrete instances, on which witnesses evaluate *)
Module Concrete.
(** Sets of integers as strictly sorted lists. *)
Fixpoint zinsert (x : Z) (l : list Z) : list Z :=
  match l with
  | [] => [x]
  | y :: l' => if x <? y then x :: l else if x =? y then l else y :: zinsert x l'
  end.

Lemma elem_of_zinsert x l y : y ∈ zinsert x l <-> y = x \/ y ∈ l.
Proof.
  induction l as [|z l IH]; cbn [zinsert]; [set_solver|].
  destruct (Z.ltb_spec x z); [set_solver|].
  destruct (Z.eqb_spec x z); [subst; set_solver|]. set_solver.
Qed.

Lemma zinsert_sorted x l : StronglySorted Z.lt l -> StronglySorted Z.lt (zinsert x l).
Proof.
  induction 1 as [|z l Hs IH Hz]; cbn [zinsert]; [repeat constructor|].
  destruct (Z.ltb_spec x z).
  - constructor; [by constructor|]. constructor; [done|].
    eapply Forall_impl; [exact Hz|]. cbn; lia.
  - destruct (Z.eqb_spec x z); [by constructor|]. constructor; [done|].
    rewrite Forall_forall in Hz |- *. intros y [->|Hy]%elem_of_zinsert; [lia|auto].
Qed.

Definition zsort (l : list Z) : list Z := foldr zinsert [] l.

Lemma zsort_sorted l : StronglySorted Z.lt (zsort l).
Proof. induction l; cbn; [constructor|by apply zinsert_sorted]. Qed.

Lemma elem_of_zsort l x : x ∈ zsort l <-> x ∈ l.
Proof. induction l; cbn; [done|]. rewrite elem_of_zinsert. set_solver. Qed.

(** [boost::split] as a fold over the characters. *)
Fixpoint split_go (sep : ascii) (prev_sep : bool) (cur : string) (s : string) : list string :=
  match s with
  | EmptyString => [cur]
  | String c s =>
      if Ascii.eqb c sep
      then (if prev_sep then split_go sep true cur s else cur :: split_go sep true "" s)
      else split_go sep false (cur +:+ String c "") s
  end.
Definition split_fun (sep : ascii) (s : string) : list string := split_go sep false "" s.

Definition uint_fun (s : string) : option Z :=
  match s with
  | EmptyString => None
  | _ => foldl (fun acc c =>
           acc ← acc;
           let d := Z.of_N (N_of_ascii c) - 48 in
           if (0 <=? d) && (d <? 10) then Some (10 * acc + d) else None)
           (Some 0) (list_ascii_of_string s)
  end.

(** Intervals written like "1 3-5". *)
Definition interval_of_string (joiner : ascii) (s : string) : option (list Z) :=
  match uint_fun <$> split_fun joiner s with
  | [Some a] => Some [a]
  | [Some a; Some b] => Some (seqZ a (b - a + 1))
  | _ => None
  end.
Definition intervals_of_string (s sep joiner : string) : result (list Z) :=
  match sep, joiner with
  | String sep _, String joiner _ =>
      foldr (fun t r => r ← r; i ← of_option (Throw "invalid interval") (interval_of_string joiner t); Ok (i ++ r))
        (Ok []) (split_fun sep s)
  | _, _ => Err (Throw "invalid interval")
  end.

(** The instance works on the sorted lists themselves; [zsort] normalises. *)
#[export] Instance zlist_intervals : IntervalSet (list Z) := {
  is_empty := [];
  elements_of l := zsort l;
  is_size l := Z.of_nat (length (zsort l));
  is_contains l x := bool_decide (x ∈ zsort l);
  is_insert l x := zinsert x l;
  is_remove l x := filter (fun y => y ≠ x) l;
  is_diff l m := filter (fun y => y ∉ m) l;
  is_inter l m := filter (fun y => y ∈ m) l;
  is_union l m := l ++ m;
  is_at l i := if i <? 0 then Err (Undef "IntervalSet[]")
               else of_option (Undef "IntervalSet[]") (zsort l !! Z.to_nat i);
  first_element l := of_option (Undef "IntervalSet::first_element") (head (zsort l));
  to_string_hyphen l sep joiner := String.concat sep (pretty <$> zsort l);
  from_string_hyphen := intervals_of_string;
}.

#[export] Instance zlist_laws : IntervalSetLaws (list Z).
Proof.
  constructor; intros; cbn -[zsort] in *; rewrite ?elem_of_zsort.
  - apply zsort_sorted.
  - done.
  - done.
  - by rewrite bool_decide_eq_true, elem_of_zsort.
  - apply elem_of_zinsert.
  - rewrite list_elem_of_filter. tauto.
  - rewrite list_elem_of_filter. tauto.
  - rewrite list_elem_of_filter. tauto.
  - apply elem_of_app.
  - destruct (Z.ltb_spec (Z.of_nat i) 0); [lia|]. rewrite Nat2Z.id. by rewrite H.
  - by rewrite H.
Qed.

(** A SimGrid engine whose hosts are numbered. *)
Record host := mk_host { h_num : N; h_name : string; h_props : gmap string string;
                         h_speeds : list Q }.
#[export] Instance host_eq_dec : EqDecision host.
Proof. solve_decision. Defined.

Record engine := mk_engine { e_clock : Q; e_pstates : list (host * Z); e_energy : Q }.

Fixpoint assoc_pstate (h : host) (l : list (host * Z)) : Z :=
  match l with
  | [] => 0
  | (h', p) :: l => if decide (h = h') then p else assoc_pstate h l
  end.

#[export] Instance concrete_simgrid : SimGrid engine host := {
  get_clock := e_clock;
  get_pstate e h := assoc_pstate h (e_pstates e);
  set_pstate e h p := mk_engine (e_clock e) ((h, p) :: e_pstates e) (e_energy e);
  host_name := h_name;
  host_properties := h_props;
  get_pstate_count h := Z.of_nat (length (h_speeds h));
  get_pstate_speed h p := default 0%Q (h_speeds h !! Z.to_nat p);
  sg_host_get_speed e h := default 0%Q (head (h_speeds h));
  sg_host_get_consumed_energy e _ := e_energy e;
  sg_host_get_wattmin_at _ _ _ := 1%Q;
  sg_host_get_carbon_operational_footprint _ _ := 1%Q;
  sg_host_get_carbon_embodied_footprint _ _ := 1%Q;
  sg_host_get_water_onsite_footprint _ _ := 1%Q;
  sg_host_get_water_offsite_footprint _ _ := 1%Q;
  sg_host_get_water_embodied_footprint _ _ := 1%Q;
  sg_host_get_carbon_intensity _ _ := 1%Q;
  sg_host_get_water_intensity _ _ := 1%Q;
  sg_host_get_pue _ _ := 1%Q;
  sg_host_get_wue _ _ := 1%Q;
}.

#[export] Instance concrete_simgrid_laws : SimGridLaws engine host.
Proof.
  constructor; intros; cbn; [by rewrite decide_True|by rewrite decide_False|done].
Qed.

(** JSON values. *)
Inductive json :=
| JNull
| JInt (z : Z)
| JNum (q : Q)
| JStr (s : string)
| JArr (l : list json)
| JObj (l : list (string * json)).

#[export] Instance concrete_json : RapidJson json := {
  IsObject v := match v with JObj _ => true | _ => false end;
  IsArray v := match v with JArr _ => true | _ => false end;
  IsString v := match v with JStr _ => true | _ => false end;
  IsNumber v := match v with JNum _ | JInt _ => true | _ => false end;
  IsInt v := match v with JInt _ => true | _ => false end;
  members v := match v with JObj l => l | _ => [] end;
  array_values v := match v with JArr l => l | _ => [] end;
  GetString v := match v with JStr s => Ok s | _ => Err (Undef "GetString") end;
  GetDouble v := match v with JNum q => Ok q | JInt z => Ok (inject_Z z)
                            | _ => Err (Undef "GetDouble") end;
  GetInt v := match v with JInt z => Ok z | _ => Err (Undef "GetInt") end;
  serialize _ := "{}";
  parse_json _ := Some (JObj []);
}.

#[export] Instance no_files : FileSystem := {
  fs_is_directory _ := false;
  fs_is_regular_file _ := false;
  fs_parent_path _ := "";
  fs_lines _ := None;
  trim_right s := s;
}.

Definition trim_left (s : string) : string :=
  (fix go s := match s with
               | String " " s' => go s'
               | _ => s
               end) s.
Definition trim_fun (s : string) : string :=
  String.rev (trim_left (String.rev (trim_left s))).

#[export] Instance concrete_boost : BoostString := {
  split_compress := split_fun;
  trim := trim_fun;
  lexical_cast_uint := uint_fun;
}.

Lemma split_go_no_sep sep b cur s :
  str_contains_char sep s = false -> split_go sep b cur s = [cur +:+ s].
Proof.
  revert b cur; induction s as [|c s IH]; intros b cur; cbn [split_go].
  - intros _. by rewrite str_app_nil_r.
  - unfold str_contains_char. cbn [list_ascii_of_string existsb].
    intros [H1 H2]%orb_false_iff. rewrite Ascii.eqb_sym, H1.
    rewrite IH by done. by rewrite str_app_assoc.
Qed.

Lemma split_go_pair sep b cur s1 s2 :
  str_contains_char sep s1 = false -> str_contains_char sep s2 = false ->
  (s1 = "" -> b = false) ->
  split_go sep b cur (s1 +:+ String sep s2) = [cur +:+ s1; s2].
Proof.
  revert b cur; induction s1 as [|c s1 IH]; intros b cur H1 H2 Hb.
  - change ("" +:+ String sep s2) with (String sep s2). cbn [split_go].
    rewrite Ascii.eqb_refl, Hb by done.
    rewrite split_go_no_sep by done. by rewrite str_app_nil_r.
  - unfold str_contains_char in H1. cbn [list_ascii_of_string existsb] in H1.
    apply orb_false_iff in H1 as [H1a H1b].
    change (String c s1 +:+ String sep s2) with (String c (s1 +:+ String sep s2)).
    cbn [split_go]. rewrite Ascii.eqb_sym, H1a.
    rewrite IH by done. by rewrite str_app_assoc.
Qed.

#[export] Instance concrete_boost_laws : BoostStringLaws.
Proof.
  constructor; intros; cbn; unfold split_fun.
  - by rewrite split_go_no_sep.
  - by rewrite split_go_pair.
Qed.
End Concrete.
