(* ===== verification/Profiles.v ===== *)
(** * Profiles (src/profiles.hpp, src/profiles.cpp)

    The profile types and their data, the parser of JSON profile descriptions
    and the container [Profiles] with its removal of no longer needed profiles.
    [std::shared_ptr<Profile>] is a pointer ([ProfilePtr]) into a heap of profile
    objects, because profiles are shared between the container, the jobs and the
    sequences that are made of them. *)

From S2P Require Import Prelude Interfaces.

Inductive ProfileType : Type :=
| UNSET
| DELAY
| PARALLEL
| PARALLEL_HOMOGENEOUS
| PARALLEL_HOMOGENEOUS_TOTAL_AMOUNT
| SMPI
| USAGE_TRACE
| SEQUENCE
| PARALLEL_HOMOGENEOUS_PFS
| DATA_STAGING
| SCHEDULER_SEND
| SCHEDULER_RECV.

#[export] Instance ProfileType_eq_dec : EqDecision ProfileType.
Proof. solve_decision. Defined.

Abbreviation ProfilePtr := positive (only parsing).

(** The [void * data] of a profile, one constructor per [...ProfileData]
    structure.  The message of a [send] profile is kept as its JSON text. *)
Inductive ProfileData : Type :=
| DelayProfileData (delay : Q)
| ParallelProfileData (nb_res : Z) (cpu : list Q) (com : list Q)
| ParallelHomogeneousProfileData (cpu com : Q)
| ParallelHomogeneousTotalAmountProfileData (cpu com : Q)
| SmpiProfileData (trace_filenames : list string)
| UsageTraceProfileData (trace_filenames : list string)
| SequenceProfileData (repeat : Z) (sequence : list string) (profile_sequence : list ProfilePtr)
| ParallelHomogeneousPFSProfileData (bytes_to_read bytes_to_write : Q) (storage_label : string)
| DataStagingProfileData (nb_bytes : Q) (from_storage_label to_storage_label : string)
| SchedulerSendProfileData (message : string) (sleeptime : Q)
| SchedulerRecvProfileData (regex on_success on_failure on_timeout : string) (polltime : Q).

Record Profile := mk_Profile {
  p_type : ProfileType;
  p_data : ProfileData;
  p_json_description : string;
  p_name : string;
  p_return_code : Z;
}.
#[export] Instance eta_Profile : Eta Profile := fun r =>
  mk_Profile (p_type r) (p_data r) (p_json_description r) (p_name r) (p_return_code r).

Abbreviation profile_heap := (gmap positive Profile).

Definition is_parallel_task (p : Profile) : bool :=
  bool_decide (p_type p = PARALLEL) ||
  bool_decide (p_type p = PARALLEL_HOMOGENEOUS) ||
  bool_decide (p_type p = PARALLEL_HOMOGENEOUS_TOTAL_AMOUNT) ||
  bool_decide (p_type p = PARALLEL_HOMOGENEOUS_PFS) ||
  bool_decide (p_type p = DATA_STAGING).

Definition profile_type_to_string (t : ProfileType) : string :=
  match t with
  | DELAY => "DELAY"
  | PARALLEL => "PARALLEL"
  | PARALLEL_HOMOGENEOUS => "PARALLEL_HOMOGENEOUS"
  | PARALLEL_HOMOGENEOUS_TOTAL_AMOUNT => "PARALLEL_HOMOGENEOUS_TOTAL_AMOUNT"
  | SMPI => "SMPI"
  | USAGE_TRACE => "USAGE_TRACE"
  | SEQUENCE => "SEQUENCE"
  | PARALLEL_HOMOGENEOUS_PFS => "PARALLEL_HOMOGENEOUS_PFS"
  | DATA_STAGING => "DATA_STAGING"
  | SCHEDULER_SEND => "SCHEDULER_SEND"
  | SCHEDULER_RECV => "SCHEDULER_RECV"
  | UNSET => "unset"
  end.

(** The data structure of a type of profile. *)
Definition data_of_type (t : ProfileType) (d : ProfileData) : bool :=
  match t, d with
  | DELAY, DelayProfileData _
  | PARALLEL, ParallelProfileData _ _ _
  | PARALLEL_HOMOGENEOUS, ParallelHomogeneousProfileData _ _
  | PARALLEL_HOMOGENEOUS_TOTAL_AMOUNT, ParallelHomogeneousTotalAmountProfileData _ _
  | SMPI, SmpiProfileData _
  | USAGE_TRACE, UsageTraceProfileData _
  | SEQUENCE, SequenceProfileData _ _ _
  | PARALLEL_HOMOGENEOUS_PFS, ParallelHomogeneousPFSProfileData _ _ _
  | DATA_STAGING, DataStagingProfileData _ _ _
  | SCHEDULER_SEND, SchedulerSendProfileData _ _
  | SCHEDULER_RECV, SchedulerRecvProfileData _ _ _ _ _ => true
  | _, _ => false
  end.

(** [Profile::~Profile] deletes the data as those of the type of the profile; an
    unknown type is only reported.  Here a profile has data of some type. *)
Definition destroy_profile (p : Profile) : result unit :=
  if bool_decide (p_type p = UNSET) || data_of_type (p_type p) (p_data p) then Ok tt
  else Err (Undef "delete of another data type").

(** ** [Profile::from_json], one definition per profile type *)
Section FromJson.
Context {V : Type} `{RapidJson V} `{FileSystem}.

(** A member that must be a number. *)
Definition require_number (v : V) (key : string) : result Q :=
  x ← require_member v key IsNumber; GetDouble x.

Definition require_string (v : V) (key : string) : result string :=
  x ← require_member v key IsString; GetString x.

(** [if (json_desc.HasMember(key)) s = json_desc[key].GetString();] *)
Definition optional_string (v : V) (key : string) (dflt : string) : result string :=
  if HasMember v key then x ← member_at v key; GetString x else Ok dflt.

Definition from_json_delay (v : V) : result ProfileData :=
  delay ← require_number v "delay";
  xbt_assert (0 <?q delay)%Q "non-strictly-positive 'delay' field";;
  Ok (DelayProfileData delay).

(** A non-negative number, read from an element of an array. *)
Definition read_amount (x : V) : result Q :=
  xbt_assert (IsNumber x) "all elements must be numbers";;
  q ← GetDouble x;
  xbt_assert (0 <=?q q)%Q "all elements must be non-negative";;
  Ok q.

Definition from_json_parallel (v : V) : result ProfileData :=
  xbt_assert (HasMember v "cpu") "no 'cpu' field";;
  xbt_assert (HasMember v "com") "no 'com' field";;
  cpu ← member_at v "cpu";
  xbt_assert (IsArray cpu) "non-array 'cpu' field";;
  xbt_assert (0 <? Z.of_nat (length (array_values cpu))) "invalid-sized array 'cpu'";;
  let nb_res := u32 (Z.of_nat (length (array_values cpu))) in
  cpu_vec ← mapM_r read_amount (array_values cpu);
  com ← member_at v "com";
  xbt_assert (IsArray com) "non-array 'com' field";;
  xbt_assert (Z.of_nat (length (array_values com)) =? u32 (nb_res * nb_res)) "incoherent 'com' size";;
  com_vec ← mapM_r read_amount (array_values com);
  Ok (ParallelProfileData nb_res cpu_vec com_vec).

Definition read_cpu_com (v : V) : result (Q * Q) :=
  cpu ← require_number v "cpu";
  xbt_assert (0 <=?q cpu)%Q "non-positive 'cpu' field";;
  com ← require_number v "com";
  xbt_assert (0 <=?q com)%Q "non-positive 'com' field";;
  Ok (cpu, com).

Definition from_json_parallel_homogeneous (v : V) : result ProfileData :=
  '(cpu, com) ← read_cpu_com v; Ok (ParallelHomogeneousProfileData cpu com).

Definition from_json_parallel_homogeneous_total (v : V) : result ProfileData :=
  '(cpu, com) ← read_cpu_com v; Ok (ParallelHomogeneousTotalAmountProfileData cpu com).

Definition from_json_composed (v : V) : result ProfileData :=
  repeat ← (if HasMember v "repeat" then
              x ← member_at v "repeat";
              xbt_assert (IsInt x) "non-integral 'repeat' field";;
              r ← GetInt x;
              xbt_assert (0 <=? r) "negative 'repeat' field";;
              Ok (u32 r)
            else Ok 1);
  xbt_assert (0 <? repeat) "non-strictly-positive 'repeat' field";;
  seq ← require_member v "seq" IsArray;
  xbt_assert (0 <? Z.of_nat (length (array_values seq))) "'seq' must be strictly positive";;
  names ← mapM_r GetString (array_values seq);
  Ok (SequenceProfileData repeat names []).

(** Members that default to 0 when unset. *)
Definition optional_number (v : V) (key : string) : result Q :=
  if HasMember v key then
    x ← member_at v key;
    xbt_assert (IsNumber x) "non-number field";;
    GetDouble x
  else Ok 0%Q.

Definition from_json_parallel_homogeneous_pfs (v : V) : result ProfileData :=
  xbt_assert (HasMember v "bytes_to_read" || HasMember v "bytes_to_write")
    "no 'bytes_to_read' or 'bytes_to_write' field";;
  rd ← optional_number v "bytes_to_read";
  wr ← optional_number v "bytes_to_write";
  label ← (if HasMember v "storage" || HasMember v "host" then
             let key := if HasMember v "storage" then "storage" else "host" in
             x ← member_at v key;
             xbt_assert (IsString x) "non-string storage field";;
             GetString x
           else Ok "pfs");
  Ok (ParallelHomogeneousPFSProfileData rd wr label).

Definition from_json_data_staging (v : V) : result ProfileData :=
  nb_bytes ← require_number v "nb_bytes";
  xbt_assert (0 <=?q nb_bytes)%Q "non-positive 'nb_bytes' field";;
  from ← require_string v "from";
  to ← require_string v "to";
  Ok (DataStagingProfileData nb_bytes from to).

(** An optional strictly positive duration. *)
Definition optional_duration (v : V) (key : string) (dflt : Q) : result Q :=
  if HasMember v key then
    x ← member_at v key;
    xbt_assert (IsNumber x) "non-number duration";;
    q ← GetDouble x;
    xbt_assert (0 <?q q)%Q "non-positive duration";;
    Ok q
  else Ok dflt.

Definition from_json_send (v : V) : result ProfileData :=
  msg ← require_member v "msg" IsObject;
  sleeptime ← optional_duration v "sleeptime" (1 # 10000000)%Q;
  Ok (SchedulerSendProfileData (serialize msg) sleeptime).

Definition from_json_recv (v : V) : result ProfileData :=
  regex ← optional_string v "regex" ".*";
  on_success ← optional_string v "success" "";
  on_failure ← optional_string v "failure" "";
  on_timeout ← optional_string v "timeout" "";
  polltime ← optional_duration v "polltime" (5 # 1000)%Q;
  Ok (SchedulerRecvProfileData regex on_success on_failure on_timeout polltime).

(** The trace file lists one file name per rank. *)
Definition read_trace_filenames (v : V) (is_from_a_file : bool) (json_filename : string)
  : result (list string) :=
  trace_filename ← require_string v "trace";
  xbt_assert is_from_a_file "SMPI profile from another source than a file workload";;
  let base_dir := fs_parent_path json_filename in
  xbt_assert (fs_is_directory base_dir) "directory does not exist";;
  let trace_path := base_dir +:+ "/" +:+ trace_filename in
  xbt_assert (fs_is_regular_file trace_path) "invalid 'trace' field";;
  match fs_lines trace_path with
  | None => xbt_die "Cannot open file"
  | Some lines =>
      Ok ((fun line => fs_parent_path trace_path +:+ "/" +:+ trim_right line) <$> lines)
  end.

Definition from_json_trace (v : V) (profile_type : string) (is_from_a_file : bool)
  (json_filename : string) : result (ProfileType * ProfileData) :=
  trace_filenames ← read_trace_filenames v is_from_a_file json_filename;
  if String.eqb profile_type "smpi"
  then Ok (SMPI, SmpiProfileData trace_filenames)
  else Ok (USAGE_TRACE, UsageTraceProfileData trace_filenames).

(** The dispatch on the 'type' field.  The last condition of the code is
    [profile_type == "smpi" || "usage_trace"], whose second operand is a non-null
    pointer: it always holds, so that every unknown type is read as a usage
    trace and the [xbt_die] of the final [else] is never reached. *)
Definition from_json_data (profile_type : string) (v : V) (is_from_a_file : bool)
  (json_filename : string) : result (ProfileType * ProfileData) :=
  if String.eqb profile_type "delay" then pair DELAY <$> from_json_delay v
  else if String.eqb profile_type "parallel" then pair PARALLEL <$> from_json_parallel v
  else if String.eqb profile_type "parallel_homogeneous" then
    pair PARALLEL_HOMOGENEOUS <$> from_json_parallel_homogeneous v
  else if String.eqb profile_type "parallel_homogeneous_total" then
    pair PARALLEL_HOMOGENEOUS_TOTAL_AMOUNT <$> from_json_parallel_homogeneous_total v
  else if String.eqb profile_type "composed" then pair SEQUENCE <$> from_json_composed v
  else if String.eqb profile_type "parallel_homogeneous_pfs" then
    pair PARALLEL_HOMOGENEOUS_PFS <$> from_json_parallel_homogeneous_pfs v
  else if String.eqb profile_type "data_staging" then
    pair DATA_STAGING <$> from_json_data_staging v
  else if String.eqb profile_type "send" then pair SCHEDULER_SEND <$> from_json_send v
  else if String.eqb profile_type "recv" then pair SCHEDULER_RECV <$> from_json_recv v
  else if String.eqb profile_type "smpi" || true then
    from_json_trace v profile_type is_from_a_file json_filename
  else xbt_die "Cannot create the profile of unknown type".

Definition Profile_from_json (profile_name : string) (json_desc : V) (is_from_a_file : bool)
  (json_filename : string) : result Profile :=
  xbt_assert (IsObject json_desc) "profile value must be an object";;
  profile_type ← require_string json_desc "type";
  return_code ← (if HasMember json_desc "ret"
                 then x ← member_at json_desc "ret"; GetInt x else Ok 0);
  '(t, data) ← from_json_data profile_type json_desc is_from_a_file json_filename;
  Ok (mk_Profile t data (serialize json_desc) profile_name return_code).

(** The overload used for profiles that the scheduler registers. *)
Definition Profile_from_json_str (profile_name json_str : string) : result Profile :=
  match parse_json json_str with
  | None => xbt_die "Cannot be parsed"
  | Some doc => Profile_from_json profile_name doc false "unset"
  end.
End FromJson.

(** ** The container *)

(** [_profiles]: a null pointer stands for a profile that existed in the past. *)
Abbreviation Profiles := (gmap string (option positive)).

Definition Profiles_exists (ps : Profiles) (profile_name : string) : bool :=
  match ps !! profile_name with Some _ => true | None => false end.

Definition Profiles_at (ps : Profiles) (profile_name : string) : result positive :=
  match ps !! profile_name with
  | None => Err (Abort "Cannot get profile: it does not exist")
  | Some None => Err (Abort "Cannot get profile: it existed some time ago but is no longer accessible")
  | Some (Some p) => Ok p
  end.

Definition add_profile (ps : Profiles) (profile_name : string) (p : positive) : result Profiles :=
  xbt_assert (negb (Profiles_exists ps profile_name)) "a profile with this name already exists";;
  Ok (<[profile_name := Some p]> ps).

Definition nb_profiles (ps : Profiles) : Z := Z.of_nat (size ps).

(** Dereferencing a [ProfilePtr]. *)
Definition deref_profile (h : profile_heap) (p : positive) : result Profile :=
  of_option (Undef "dangling profile pointer") (h !! p).

(** The sub-profiles of a profile: [profile_data->profile_sequence] when its type
    is SEQUENCE. *)
Definition sub_profiles (p : Profile) : result (list positive) :=
  if bool_decide (p_type p = SEQUENCE) then
    match p_data p with
    | SequenceProfileData _ _ subs => Ok subs
    | _ => Err (Undef "static_cast of another data type")
    end
  else Ok [].

(** The recursion of [remove_profile] is bounded by the stack; running out of
    [fuel] is running out of stack. *)
Fixpoint remove_profile (fuel : nat) (h : profile_heap) (ps : Profiles) (profile_name : string)
  : result Profiles :=
  match fuel with
  | O => Err (Undef "stack overflow")
  | S fuel =>
      match ps !! profile_name with
      | None => Err (Abort "Profile never existed in this workload")
      | Some None => Ok ps
      | Some (Some ptr) =>
          p ← deref_profile h ptr;
          subs ← sub_profiles p;
          ps' ← foldM (fun ps sub =>
                         q ← deref_profile h sub;
                         remove_profile fuel h ps (p_name q)) ps subs;
          Ok (<[profile_name := None]> ps')
      end
  end.

(** [Profiles::load_from_json]: the profiles are created in a heap, [next] being
    the next free address. *)
Section LoadFromJson.
Context {V : Type} `{RapidJson V} `{FileSystem}.

Definition load_one_profile (filename : string)
  (st : profile_heap * positive * Profiles) (kv : string * V)
  : result (profile_heap * positive * Profiles) :=
  let '(h, next, ps) := st in
  let '(key, value) := kv in
  p ← Profile_from_json key value true filename;
  xbt_assert (negb (Profiles_exists ps key)) "duplication of profile name";;
  Ok (<[next := p]> h, Pos.succ next, <[key := Some next]> ps).

Definition Profiles_load_from_json (doc : V) (filename : string)
  (st : profile_heap * positive * Profiles) : result (profile_heap * positive * Profiles) :=
  xbt_assert (IsObject doc) "not a JSON object";;
  profiles ← require_member doc "profiles" IsObject;
  foldM (load_one_profile filename) st (members profiles).
End LoadFromJson.

(** ** Theorems *)

(** What the parser guarantees of a profile it accepts. *)
Definition data_wf (t : ProfileType) (d : ProfileData) : Prop :=
  match t, d with
  | DELAY, DelayProfileData delay => (0 < delay)%Q
  | PARALLEL, ParallelProfileData nb_res cpu com =>
      nb_res = u32 (Z.of_nat (length cpu)) /\ cpu ≠ [] /\
      Z.of_nat (length com) = u32 (nb_res * nb_res) /\
      Forall (fun q => (0 <= q)%Q) cpu /\ Forall (fun q => (0 <= q)%Q) com
  | PARALLEL_HOMOGENEOUS, ParallelHomogeneousProfileData cpu com
  | PARALLEL_HOMOGENEOUS_TOTAL_AMOUNT, ParallelHomogeneousTotalAmountProfileData cpu com =>
      (0 <= cpu)%Q /\ (0 <= com)%Q
  | SEQUENCE, SequenceProfileData repeat seq subs => 0 < repeat < 2 ^ 32 /\ seq ≠ [] /\ subs = []
  | PARALLEL_HOMOGENEOUS_PFS, ParallelHomogeneousPFSProfileData _ _ _ => True
  | DATA_STAGING, DataStagingProfileData nb_bytes _ _ => (0 <= nb_bytes)%Q
  | SCHEDULER_SEND, SchedulerSendProfileData _ sleeptime => (0 < sleeptime)%Q
  | SCHEDULER_RECV, SchedulerRecvProfileData _ _ _ _ polltime => (0 < polltime)%Q
  | SMPI, SmpiProfileData _ => True
  | USAGE_TRACE, UsageTraceProfileData _ => True
  | _, _ => False
  end.

Section FromJsonFacts.
Context {V : Type} `{RapidJson V} `{FileSystem}.

Lemma pair_fmap_Ok {A B} (a : A) (r : result B) t d :
  pair a <$> r = Ok (t, d) -> t = a /\ r = Ok d.
Proof. destruct r; cbn; [by intros [= <- <-]|done]. Qed.

Lemma read_amounts_nonneg (l : list V) qs :
  mapM_r read_amount l = Ok qs -> Forall (fun q => (0 <= q)%Q) qs.
Proof.
  apply mapM_r_Forall. unfold read_amount. intros x q Hq. inv_ok. by qify.
Qed.

Lemma read_cpu_com_nonneg (v : V) cpu com :
  read_cpu_com v = Ok (cpu, com) -> (0 <= cpu)%Q /\ (0 <= com)%Q.
Proof. unfold read_cpu_com. intros Hr. inv_ok. simplify_eq. split; by qify. Qed.

Lemma optional_duration_pos (v : V) key dflt q :
  (0 < dflt)%Q -> optional_duration v key dflt = Ok q -> (0 < q)%Q.
Proof.
  unfold optional_duration. intros Hd. destruct (HasMember v key); intros Hr; inv_ok; by qify.
Qed.

Lemma from_json_parallel_wf (v : V) d : from_json_parallel v = Ok d -> data_wf PARALLEL d.
Proof.
  unfold from_json_parallel. intros Hr. inv_ok. cbn.
  repeat match goal with
  | Hm : mapM_r read_amount _ = Ok _ |- _ =>
      pose proof (mapM_r_length _ _ _ Hm); apply read_amounts_nonneg in Hm
  end.
  split_and!; try done; try congruence.
  - intros ->. cbn in *. lia.
  - match goal with Hl : length ?l = _ |- context [length ?l] => rewrite Hl end.
    by apply Z.eqb_eq.
Qed.

Lemma from_json_composed_wf (v : V) d : from_json_composed v = Ok d -> data_wf SEQUENCE d.
Proof.
  unfold from_json_composed. intros Hr. inv_ok. cbn.
  repeat match goal with
  | Hm : mapM_r GetString _ = Ok _ |- _ => pose proof (mapM_r_length _ _ _ Hm); clear Hm
  end.
  split_and!; try done; try lia.
  - destruct (HasMember v "repeat"); inv_ok; [|lia]. apply u32_bounds.
  - intros ->. cbn in *. lia.
Qed.

Lemma from_json_homogeneous_wf (v : V) d :
  (from_json_parallel_homogeneous v = Ok d -> data_wf PARALLEL_HOMOGENEOUS d) /\
  (from_json_parallel_homogeneous_total v = Ok d -> data_wf PARALLEL_HOMOGENEOUS_TOTAL_AMOUNT d).
Proof.
  unfold from_json_parallel_homogeneous, from_json_parallel_homogeneous_total.
  split; intros Hr; inv_ok; by eapply read_cpu_com_nonneg.
Qed.

Lemma from_json_message_wf (v : V) d :
  (from_json_send v = Ok d -> data_wf SCHEDULER_SEND d) /\
  (from_json_recv v = Ok d -> data_wf SCHEDULER_RECV d).
Proof.
  unfold from_json_send, from_json_recv.
  split; intros Hr; inv_ok; (eapply optional_duration_pos; [|done]); reflexivity.
Qed.

Lemma from_json_data_wf ty (v : V) b f t d :
  from_json_data ty v b f = Ok (t, d) -> data_wf t d.
Proof.
  unfold from_json_data.
  repeat match goal with
  | |- (if String.eqb ty ?s then _ else _) = _ -> _ =>
      destruct (String.eqb ty s); [intros [-> Hd]%pair_fmap_Ok|]
  end.
  - unfold from_json_delay in Hd. inv_ok. cbn. by qify.
  - by apply from_json_parallel_wf in Hd.
  - by apply from_json_homogeneous_wf in Hd.
  - by apply from_json_homogeneous_wf in Hd.
  - by apply from_json_composed_wf in Hd.
  - unfold from_json_parallel_homogeneous_pfs in Hd. by inv_ok.
  - unfold from_json_data_staging in Hd. inv_ok. cbn. by qify.
  - by apply from_json_message_wf in Hd.
  - by apply from_json_message_wf in Hd.
  - rewrite orb_true_r. unfold from_json_trace. intros Hr. inv_ok.
    case_match; by simplify_eq.
Qed.

Lemma data_wf_destroyed p : data_wf (p_type p) (p_data p) -> destroy_profile p = Ok tt.
Proof. unfold destroy_profile. by destruct (p_type p), (p_data p). Qed.

(** C37. Every profile that the parser accepts has the data of its type, with
    amounts that are not negative, durations that are positive and, for a
    parallel profile, a communication matrix of the square of its size (in
    [unsigned int]); its destructor deletes these data as what they are. *)
Theorem Profile_from_json_wf name (v : V) b f p :
  Profile_from_json name v b f = Ok p ->
  p_name p = name /\ data_wf (p_type p) (p_data p) /\ destroy_profile p = Ok tt.
Proof.
  unfold Profile_from_json. intros Hr. inv_ok. cbn.
  split; [done|]. assert (data_wf p0 p1) as Hwf by by eapply from_json_data_wf.
  split; [done|]. by apply data_wf_destroyed.
Qed.

Definition known_types : list string :=
  ["delay"; "parallel"; "parallel_homogeneous"; "parallel_homogeneous_total"; "composed";
   "parallel_homogeneous_pfs"; "data_staging"; "send"; "recv"; "smpi"].

(** A profile whose type is none of the known ones is not refused: it is read
    as a usage trace. *)
Theorem unknown_type_is_usage_trace ty (v : V) b f :
  ty ∉ known_types ->
  from_json_data ty v b f =
    (ts ← read_trace_filenames v b f; Ok (USAGE_TRACE, UsageTraceProfileData ts)).
Proof.
  unfold known_types. intros Hty.
  assert (forall s, s ∈ known_types -> String.eqb ty s = false) as Hne.
  { intros s Hs. apply String.eqb_neq. intros ->. done. }
  unfold from_json_data, from_json_trace. rewrite orb_true_r.
  repeat (rewrite Hne; [|unfold known_types; set_solver]). done.
Qed.
End FromJsonFacts.

(** ** Removal of profiles *)

Lemma deref_profile_Ok h s q : h !! s = Some q -> deref_profile h s = Ok q.
Proof. unfold deref_profile. by intros ->. Qed.

(** [uses h ps a b]: the live profile named [a] is, or is made of, the one
    named [b]. *)
Inductive uses (h : profile_heap) (ps : Profiles) : string -> string -> Prop :=
| uses_refl a : uses h ps a a
| uses_step a ptr p subs sub q b :
    ps !! a = Some (Some ptr) -> h !! ptr = Some p -> sub_profiles p = Ok subs ->
    sub ∈ subs -> h !! sub = Some q -> uses h ps (p_name q) b ->
    uses h ps a b.

(** A container as the loader builds it: a live entry points to a profile of
    that name, whose sub-profiles are known to the container, and a rank
    decreases from a sequence to what it is made of (no circular sequence). *)
Definition container_ok (h : profile_heap) (rank : string -> nat) (ps : Profiles) : Prop :=
  forall name ptr, ps !! name = Some (Some ptr) ->
    exists p subs, h !! ptr = Some p /\ p_name p = name /\ sub_profiles p = Ok subs /\
      forall s, s ∈ subs -> exists q, h !! s = Some q /\ is_Some (ps !! p_name q) /\
                                (rank (p_name q) < rank name)%nat.

(** [cleared h ps0 names ps]: [ps] is [ps0] with exactly what [names] use set
    to null. *)
Definition cleared (h : profile_heap) (ps0 : Profiles) (names : list string) (ps : Profiles) : Prop :=
  forall n, (forall a, a ∈ names -> uses h ps0 a n -> ps !! n = Some None) /\
            (ps !! n = ps0 !! n \/
             ps !! n = Some None /\ exists a, a ∈ names /\ uses h ps0 a n).

Section RemoveProfile.
Context (h : profile_heap) (rank : string -> nat) (ps0 : Profiles).
Context (Hok : container_ok h rank ps0).

Lemma uses_trans a b c : uses h ps0 a b -> uses h ps0 b c -> uses h ps0 a c.
Proof. induction 1; [done|]. intros. econstructor; eauto. Qed.

(** A null entry uses nothing but itself. *)
Lemma uses_null a b : ps0 !! a = Some None -> uses h ps0 a b -> b = a.
Proof. intros Ha Hu. destruct Hu; [done|]. congruence. Qed.

Lemma cleared_nil : cleared h ps0 [] ps0.
Proof. intros n. split; [|by left]. intros a Ha. by apply not_elem_of_nil in Ha. Qed.

Lemma cleared_live names ps n ptr :
  cleared h ps0 names ps -> ps !! n = Some (Some ptr) -> ps0 !! n = Some (Some ptr).
Proof. intros Hc Hn. destruct (Hc n) as [_ [Heq|[Heq _]]]; congruence. Qed.

(** Removing a name that is already null clears nothing more. *)
Lemma cleared_dead names ps name :
  cleared h ps0 names ps -> ps !! name = Some None -> cleared h ps0 (name :: names) ps.
Proof.
  intros Hc Hn n. split.
  - intros a [->|Ha]%elem_of_cons Hu; [|by eapply (Hc n)].
    destruct (Hc name) as [_ [Heq|[_ (b & Hb & Hub)]]].
    + rewrite Hn in Heq. by rewrite (uses_null name n).
    + eapply (Hc n); [exact Hb|]. by eapply uses_trans.
  - destruct (Hc n) as [_ [?|[? (b & ? & ?)]]]; [by left|right].
    split; [done|]. exists b. split; [by right|done].
Qed.

Lemma cleared_insert names subnames ps name :
  cleared h ps0 (subnames ++ names) ps ->
  (forall n, uses h ps0 name n -> n = name \/ exists a, a ∈ subnames /\ uses h ps0 a n) ->
  (forall a, a ∈ subnames -> uses h ps0 name a) ->
  cleared h ps0 (name :: names) (<[name := None]> ps).
Proof.
  intros Hc Hinv Hsub n. destruct (decide (n = name)) as [->|Hne].
  { rewrite lookup_insert_eq. split; [done|right].
    split; [done|]. exists name. split; [by left|constructor]. }
  rewrite lookup_insert_ne by done. destruct (Hc n) as [H1 H2]. split.
  - intros a [->|Ha]%elem_of_cons Hu; [|by eapply H1; [apply elem_of_app; right|]].
    destruct (Hinv _ Hu) as [->|(a & Ha & Hua)]; [done|].
    eapply H1; [apply elem_of_app; by left|done].
  - destruct H2 as [?|[? (a & [Ha|Ha]%elem_of_app & Hu)]]; [by left|right..].
    + split; [done|]. exists name. split; [by left|]. eapply uses_trans; eauto.
    + split; [done|]. exists a. split; [by right|done].
Qed.

Definition sub_names (subs : list positive) : list string :=
  omap (fun s => p_name <$> h !! s) subs.

Lemma elem_of_sub_names subs a :
  a ∈ sub_names subs <-> exists s q, s ∈ subs /\ h !! s = Some q /\ p_name q = a.
Proof.
  unfold sub_names. rewrite list_elem_of_omap. split.
  - intros (s & Hs & Hq). apply fmap_Some in Hq as (q & ? & ->). eauto.
  - intros (s & q & Hs & Hq & <-). exists s. split; [done|]. apply fmap_Some. by exists q.
Qed.

(** The loop on the sub-profiles, given that each removal behaves. *)
Lemma remove_subs fuel subs names ps :
  (forall s, s ∈ subs -> exists q, h !! s = Some q /\
     forall names ps, cleared h ps0 names ps ->
       exists ps', remove_profile fuel h ps (p_name q) = Ok ps' /\
                   cleared h ps0 (p_name q :: names) ps') ->
  cleared h ps0 names ps ->
  exists ps',
    foldM (fun ps sub => q ← deref_profile h sub; remove_profile fuel h ps (p_name q)) ps subs
      = Ok ps' /\ cleared h ps0 (sub_names subs ++ names) ps'.
Proof.
  revert names ps; induction subs as [|s subs IH]; intros names ps Hall Hc; [by eauto|].
  destruct (Hall s) as (q & Hq & Hrem); [by left|].
  destruct (Hrem _ _ Hc) as (ps1 & H1 & Hc1).
  destruct (IH _ ps1 (fun s Hs => Hall s ltac:(by right)) Hc1) as (ps2 & H2 & Hc2).
  exists ps2. cbn [foldM]. rewrite (deref_profile_Ok _ _ _ Hq). cbn. rewrite H1. split; [exact H2|].
  intros n. destruct (Hc2 n) as [Ha Hb].
  assert (forall a, a ∈ sub_names subs ++ p_name q :: names <-> a ∈ p_name q :: sub_names subs ++ names)
    as Hperm by set_solver.
  cbn [sub_names omap list_omap]. rewrite Hq. cbn. split.
  - intros a Hin. apply Ha, Hperm, Hin.
  - destruct Hb as [?|[? (a & Hin & ?)]]; [by left|right].
    split; [done|]. exists a. by split; [apply Hperm|].
Qed.

Lemma remove_profile_cleared fuel : forall name names ps,
  is_Some (ps0 !! name) -> (rank name < fuel)%nat -> cleared h ps0 names ps ->
  exists ps', remove_profile fuel h ps name = Ok ps' /\ cleared h ps0 (name :: names) ps'.
Proof.
  induction fuel as [|fuel IH]; intros name names ps Hdom Hrank Hc; [lia|].
  cbn [remove_profile]. destruct (ps !! name) as [[ptr|]|] eqn:Hn.
  - pose proof (cleared_live _ _ _ _ Hc Hn) as Hn0.
    destruct (Hok _ _ Hn0) as (p & subs & Hp & Hname & Hsubs & Hall).
    rewrite (deref_profile_Ok _ _ _ Hp). cbn. rewrite Hsubs. cbn.
    destruct (remove_subs fuel subs names ps) as (ps' & -> & Hc'); [|done|].
    { intros s Hs. destruct (Hall s Hs) as (q & Hq & Hdomq & Hr). exists q. split; [done|].
      intros names' ps' Hc'. apply IH; [done|lia|done]. }
    cbn. eexists. split; [done|]. eapply cleared_insert; [exact Hc'|..].
    + intros n Hu. inversion Hu as [|? ptr' p' subs' sub q ? Hl Hp' Hs' Hin Hq Hu']; [by left|]. subst.
      right. simplify_eq. assert (subs' = subs) as -> by congruence.
      exists (p_name q). split; [|done].
      apply elem_of_sub_names. by exists sub, q.
    + intros a (s & q & Hs & Hq & <-)%elem_of_sub_names. econstructor; eauto. constructor.
  - exists ps. split; [done|]. by apply cleared_dead.
  - exfalso. destruct Hdom as [x Hx]. destruct (Hc name) as [_ [?|[? _]]]; congruence.
Qed.

(** C36. Without circular sequences, removing a profile terminates and sets to null
    exactly the profile and what it is made of, directly or not. *)
Theorem remove_profile_spec fuel name :
  is_Some (ps0 !! name) -> (rank name < fuel)%nat ->
  exists ps', remove_profile fuel h ps0 name = Ok ps' /\ cleared h ps0 [name] ps'.
Proof. intros. apply remove_profile_cleared; [done..|apply cleared_nil]. Qed.
End RemoveProfile.

(** Removing a sequence whose first element is itself never returns. *)
Theorem remove_circular_profile_diverges h ps name ptr p sub subs fuel :
  ps !! name = Some (Some ptr) -> h !! ptr = Some p ->
  sub_profiles p = Ok (sub :: subs) -> p_name <$> h !! sub = Some name ->
  remove_profile fuel h ps name = Err (Undef "stack overflow").
Proof.
  intros Hn Hp Hs Hsub. induction fuel as [|fuel IH]; [done|].
  cbn [remove_profile]. rewrite Hn. rewrite (deref_profile_Ok _ _ _ Hp). cbn. rewrite Hs. cbn.
  destruct (h !! sub) as [q|] eqn:Hq; cbn in Hsub; [|done]. injection Hsub as Hsub.
  rewrite (deref_profile_Ok _ _ _ Hq). cbn. by rewrite Hsub, IH.
Qed.

Module ProfileExamples.
Import Concrete.

Definition delay_json : json := JObj [("type", JStr "delay"); ("delay", JInt 3)].
Example Profile_from_json_wf_witness :
  Profile_from_json "d" delay_json true "w.json" = Ok (mk_Profile DELAY (DelayProfileData 3) "{}" "d" 0) /\
  data_wf DELAY (DelayProfileData 3).
Proof.
  split; [reflexivity|].
  refine (proj1 (proj2 (Profile_from_json_wf "d" delay_json true "w.json" (mk_Profile DELAY (DelayProfileData 3) "{}" "d" 0) _))).
  reflexivity.
Defined.

Definition two_ranks : FileSystem := {|
  fs_is_directory _ := true; fs_is_regular_file _ := true; fs_parent_path _ := ".";
  fs_lines _ := Some ["r0"; "r1"]; trim_right s := s |}.
Definition typo_json : json := JObj [("type", JStr "dleay"); ("trace", JStr "t")].
Example unknown_type_is_usage_trace_witness :
  @from_json_data json _ two_ranks "dleay" typo_json true "w.json"
    = Ok (USAGE_TRACE, UsageTraceProfileData ["./r0"; "./r1"]).
Proof.
  refine (eq_trans (@unknown_type_is_usage_trace json _ two_ranks "dleay" typo_json true "w.json" _) _); [|reflexivity].
  apply (bool_decide_unpack _). exact I.
Defined.

Definition a_delay (name : string) : Profile := mk_Profile DELAY (DelayProfileData 1) "" name 0.
Definition a_sequence (name : string) (subs : list positive) : Profile :=
  mk_Profile SEQUENCE (SequenceProfileData 1 [] subs) "" name 0.
Definition heap : profile_heap := {[1%positive := a_sequence "s" [2%positive]; 2%positive := a_delay "d"; 3%positive := a_delay "e"]}.
Definition container : Profiles := {["s" := Some 1%positive; "d" := Some 2%positive; "e" := Some 3%positive]}.
Definition rank (name : string) : nat := if String.eqb name "s" then 1 else 0.

Example remove_profile_spec_witness :
  exists ps', remove_profile 2 heap container "s" = Ok ps' /\ ps' !! "d" = Some None /\ ps' !! "e" = container !! "e".
Proof.
  destruct (remove_profile_spec heap rank container) with (fuel := 2%nat) (name := "s") as (ps' & Hr & Hc).
  - intros name ptr. unfold container. rewrite !lookup_insert_Some, lookup_singleton_Some.
    intros [[<- [= <-]]|[_ [[<- [= <-]]|[_ [<- [= <-]]]]]].
    + exists (a_sequence "s" [2%positive]), [2%positive]. split_and!; [done..|].
      intros s [->|[]%not_elem_of_nil]%elem_of_cons. exists (a_delay "d"). split_and!; [done|by eexists|cbn; lia].
    + exists (a_delay "d"), []. split_and!; [done..|]. intros s []%not_elem_of_nil.
    + exists (a_delay "e"), []. split_and!; [done..|]. intros s []%not_elem_of_nil.
  - by eexists.
  - cbn. lia.
  - exists ps'. vm_compute in Hr. injection Hr as <-. done.
Defined.

Definition circular : profile_heap := {[1%positive := a_sequence "s" [1%positive]]}.
Example remove_circular_profile_diverges_witness :
  remove_profile 50 circular {["s" := Some 1%positive]} "s" = Err (Undef "stack overflow").
Proof.
  apply (remove_circular_profile_diverges circular {["s" := Some 1%positive]} "s" 1%positive
           (a_sequence "s" [1%positive]) 1%positive [] 50); reflexivity.
Defined.
End ProfileExamples.
