(* ===== verification/Jobs.v ===== *)
(** * Jobs (src/jobs.hpp, src/jobs.cpp)

    Job identifiers and their textual form, job states, the task tree of a job
    under execution ([BatTask]), the [Job] object and the container [Jobs].
    Jobs are shared objects: a [JobPtr] is an address in a heap of jobs. *)

From S2P Require Import Prelude Interfaces Profiles.

(** ** Job identifiers *)

Record JobIdentifier := mk_JobIdentifier {
  ji_workload_name : string;
  ji_job_name : string;
  ji_representation : string;
}.

#[export] Instance JobIdentifier_eq_dec : EqDecision JobIdentifier.
Proof. solve_decision. Defined.

Definition representation (workload_name job_name : string) : string :=
  workload_name +:+ String "!" job_name.

Definition is_lexically_valid (workload_name job_name : string) : bool :=
  negb (str_contains_char "!" workload_name) && negb (str_contains_char "!" job_name).

(** [JobIdentifier(workload_name, job_name)] *)
Definition JobIdentifier_of_names (workload_name job_name : string) : result JobIdentifier :=
  xbt_assert (is_lexically_valid workload_name job_name) "name contains a '!'";;
  Ok (mk_JobIdentifier workload_name job_name (representation workload_name job_name)).

(** [JobIdentifier(job_id_str)] *)
Definition JobIdentifier_of_string `{BoostString} (job_id_str : string) : result JobIdentifier :=
  match split_compress "!" job_id_str with
  | [w; j] => JobIdentifier_of_names w j
  | _ => Err (Abort "Invalid string job identifier")
  end.

Definition ji_to_string (id : JobIdentifier) : string := ji_representation id.

(** [operator==] and [operator<] compare the representations. *)
Definition ji_eqb (a b : JobIdentifier) : bool := String.eqb (ji_to_string a) (ji_to_string b).
Definition ji_ltb (a b : JobIdentifier) : bool := String.ltb (ji_to_string a) (ji_to_string b).

(** ** Job states *)

Inductive JobState : Type :=
| JOB_STATE_NOT_SUBMITTED
| JOB_STATE_SUBMITTED
| JOB_STATE_RUNNING
| JOB_STATE_COMPLETED_SUCCESSFULLY
| JOB_STATE_COMPLETED_FAILED
| JOB_STATE_COMPLETED_WALLTIME_REACHED
| JOB_STATE_COMPLETED_KILLED
| JOB_STATE_REJECTED.

#[export] Instance JobState_eq_dec : EqDecision JobState.
Proof. solve_decision. Defined.

Definition job_state_to_string (state : JobState) : string :=
  match state with
  | JOB_STATE_NOT_SUBMITTED => "NOT_SUBMITTED"
  | JOB_STATE_SUBMITTED => "SUBMITTED"
  | JOB_STATE_RUNNING => "RUNNING"
  | JOB_STATE_COMPLETED_SUCCESSFULLY => "COMPLETED_SUCCESSFULLY"
  | JOB_STATE_COMPLETED_FAILED => "COMPLETED_FAILED"
  | JOB_STATE_COMPLETED_WALLTIME_REACHED => "COMPLETED_WALLTIME_REACHED"
  | JOB_STATE_COMPLETED_KILLED => "COMPLETED_KILLED"
  | JOB_STATE_REJECTED => "REJECTED"
  end.

Definition job_state_from_string (state : string) : result JobState :=
  if String.eqb state "NOT_SUBMITTED" then Ok JOB_STATE_NOT_SUBMITTED
  else if String.eqb state "SUBMITTED" then Ok JOB_STATE_SUBMITTED
  else if String.eqb state "RUNNING" then Ok JOB_STATE_RUNNING
  else if String.eqb state "COMPLETED_SUCCESSFULLY" then Ok JOB_STATE_COMPLETED_SUCCESSFULLY
  else if String.eqb state "COMPLETED_FAILED" then Ok JOB_STATE_COMPLETED_FAILED
  else if String.eqb state "COMPLETED_KILLED" then Ok JOB_STATE_COMPLETED_KILLED
  else if String.eqb state "COMPLETED_WALLTIME_REACHED" then Ok JOB_STATE_COMPLETED_WALLTIME_REACHED
  else if String.eqb state "REJECTED" then Ok JOB_STATE_REJECTED
  else Err (Abort "Invalid job state").

(** ** Task trees

    [ptask] is the running parallel task; what the code reads of it is its
    remaining ratio of work ([None]: not started, or not a parallel profile).
    An unset [current_task_index] is [(unsigned int) -1]. *)
Inductive BatTask : Type := mk_BatTask {
  bt_profile : positive;
  bt_io_profile : option positive;
  bt_ptask : option Q;
  bt_delay_task_start : Q;
  bt_delay_task_required : Q;
  bt_sub_tasks : list BatTask;
  bt_current_task_index : Z;
  bt_current_task_progress_ratio : Q;
}.
#[export] Instance eta_BatTask : Eta BatTask := fun r =>
  mk_BatTask (bt_profile r) (bt_io_profile r) (bt_ptask r) (bt_delay_task_start r)
    (bt_delay_task_required r) (bt_sub_tasks r) (bt_current_task_index r)
    (bt_current_task_progress_ratio r).

Definition unset_index : Z := 2 ^ 32 - 1.

(** [BatTask(parent_job, profile)] *)
Definition new_BatTask (profile : positive) : BatTask :=
  mk_BatTask profile None None (-1)%Q (-1)%Q [] unset_index 0%Q.

Definition compute_leaf_progress (h : profile_heap) (now : Q) (t : BatTask) : result BatTask :=
  p ← deref_profile h (bt_profile t);
  xbt_assert (bool_decide (length (bt_sub_tasks t) = 0%nat)) "Leaves should not contain sub tasks";;
  if is_parallel_task p then
    match bt_ptask t with
    | Some remaining_ratio => Ok (t <| bt_current_task_progress_ratio := (1 - remaining_ratio)%Q |>)
    | None => Ok (t <| bt_current_task_progress_ratio := 0%Q |>)
    end
  else if bool_decide (p_type p = DELAY) then
    xbt_assert (negb (bt_delay_task_start t =?q (-1)%Q)) "Internal error";;
    let runtime := (now - bt_delay_task_start t)%Q in
    if (bt_delay_task_required t =?q 0)%Q
    then Ok (t <| bt_current_task_progress_ratio := 1%Q |>)
    else Ok (t <| bt_current_task_progress_ratio := (runtime / bt_delay_task_required t)%Q |>)
  else Ok t.

(** [BatTask::compute_tasks_progress]; the sub-task index must be within the
    vector. *)
Fixpoint compute_tasks_progress (h : profile_heap) (now : Q) (t : BatTask) : result BatTask :=
  p ← deref_profile h (bt_profile t);
  if bool_decide (p_type p = SEQUENCE) then
    subs ← (fix go (l : list BatTask) (i : Z) : result (list BatTask) :=
              match l with
              | [] => Err (Undef "sub_tasks out of range")
              | s :: l =>
                  if i =? 0
                  then s' ← compute_tasks_progress h now s; Ok (s' :: l)
                  else l' ← go l (i - 1); Ok (s :: l')
              end) (bt_sub_tasks t) (bt_current_task_index t);
    Ok (t <| bt_sub_tasks := subs |>)
  else compute_leaf_progress h now t.

(** ** The job object *)

Section Job.
Context {IS : Type} `{IntervalSet IS}.

Record Job := mk_Job {
  workload : string;                       (* the name of its Workload *)
  id : JobIdentifier;
  task : option BatTask;
  json_description : string;
  execution_actors : gset positive;
  incoming_message_buffer : list string;
  allocation : IS;
  smpi_ranks_to_hosts_mapping : list Z;
  metadata : string;
  state : JobState;
  starting_time : Q;
  runtime : Q;
  kill_requested : bool;
  consumed_energy : Q;
  consumed_carbon : Q;
  consumed_water : Q;
  profile : positive;
  submission_time : Q;
  walltime : Q;
  requested_nb_res : Z;
  return_code : Z;
}.

#[export] Instance eta_Job : Eta Job := fun r =>
  mk_Job (workload r) (id r) (task r) (json_description r) (execution_actors r)
    (incoming_message_buffer r) (allocation r) (smpi_ranks_to_hosts_mapping r)
    (metadata r) (state r) (starting_time r) (runtime r) (kill_requested r)
    (consumed_energy r) (consumed_carbon r) (consumed_water r) (profile r)
    (submission_time r) (walltime r) (requested_nb_res r) (return_code r).

Definition is_complete (j : Job) : bool :=
  bool_decide (state j = JOB_STATE_COMPLETED_SUCCESSFULLY) ||
  bool_decide (state j = JOB_STATE_COMPLETED_KILLED) ||
  bool_decide (state j = JOB_STATE_COMPLETED_FAILED) ||
  bool_decide (state j = JOB_STATE_REJECTED) ||
  bool_decide (state j = JOB_STATE_COMPLETED_WALLTIME_REACHED).

(** The order in which a submitter sends its jobs. *)
Definition job_comparator_subtime_number (a b : Job) : bool :=
  if (submission_time a =?q submission_time b)%Q
  then String.ltb (ji_to_string (id a)) (ji_to_string (id b))
  else (submission_time a <?q submission_time b)%Q.

Definition compute_job_progress (h : profile_heap) (now : Q) (j : Job) : result Job :=
  match task j with
  | None => Err (Abort "Internal error")
  | Some t => t' ← compute_tasks_progress h now t; Ok (j <| task := Some t' |>)
  end.

(** ** The parser of job descriptions *)
Section FromJson.
Context {V : Type} `{RapidJson V} `{BoostString}.
(** [std::string::find] and the textual replacement of the "id" member of the
    description by [std::regex_replace]. *)
Context (str_find : string -> string -> bool) (replace_id : string -> string -> string).

Definition job_id_str_of_json (v : V) : result string :=
  xbt_assert (HasMember v "id") "one job has no 'id' field";;
  x ← member_at v "id";
  xbt_assert (IsString x || IsInt x) "job id should be a string or an integer";;
  if IsString x then GetString x
  else if IsInt x then z ← GetInt x; Ok (pretty z) else Ok "".

Definition job_id_of_json (workload_name : string) (v : V) : result JobIdentifier :=
  job_id_str ← job_id_str_of_json v;
  if negb (str_find job_id_str workload_name)
  then JobIdentifier_of_names workload_name job_id_str
  else JobIdentifier_of_string job_id_str.

Definition walltime_of_json (v : V) : result Q :=
  w ← (if HasMember v "walltime" then
         x ← member_at v "walltime";
         xbt_assert (IsNumber x) "non-number 'walltime' field";;
         GetDouble x
       else Ok (-1)%Q);
  xbt_assert ((w =?q (-1)%Q) || (0 <?q w)%Q) "invalid walltime";;
  Ok w.

Definition requested_nb_res_of_json (v : V) : result Z :=
  x ← require_member v "res" IsInt;
  r ← GetInt x;
  xbt_assert (0 <=? r) "negative 'res' field";;
  Ok (u32 r).

(** The description with the job identifier replaced must still be a valid one. *)
Definition check_description (description : string) : result unit :=
  match parse_json description with
  | None => xbt_die "The output string is not valid JSON"
  | Some doc =>
      xbt_assert (IsObject doc) "not valid JSON";;
      x ← require_member doc "id" IsString;
      x ← require_member doc "subtime" IsNumber;
      xbt_assert (match FindMember doc "walltime" with
                  | Some w => IsNumber w | None => true end) "'walltime' is not a number";;
      x ← require_member doc "res" IsInt;
      x ← require_member doc "profile" IsString;
      Ok tt
  end.

Definition smpi_mapping_of_json (nb_res : Z) (v : V) : result (list Z) :=
  if HasMember v "smpi_ranks_to_hosts_mapping" then
    x ← member_at v "smpi_ranks_to_hosts_mapping";
    xbt_assert (IsArray x) "non-array 'smpi_ranks_to_hosts_mapping' field";;
    mapM_r (fun y =>
              xbt_assert (IsInt y) "rank does not point to an integral number";;
              host_number ← GetInt y;
              xbt_assert ((0 <=? host_number) && (u32 host_number <? nb_res)) "invalid rank value";;
              Ok host_number) (array_values x)
  else Ok [].

Definition Job_from_json (workload_name : string) (profiles : Profiles) (v : V) : result Job :=
  xbt_assert (IsObject v) "one job is not an object";;
  jid ← job_id_of_json workload_name v;
  subtime ← require_number v "subtime";
  wall ← walltime_of_json v;
  nb_res ← requested_nb_res_of_json v;
  profile_name ← require_string v "profile";
  xbt_assert (Profiles_exists profiles profile_name) "the profile does not exist";;
  p ← Profiles_at profiles profile_name;
  let description := replace_id (serialize v) (ji_to_string jid) in
  check_description description;;
  mapping ← smpi_mapping_of_json nb_res v;
  Ok (mk_Job workload_name jid None description ∅ [] is_empty mapping ""
        JOB_STATE_NOT_SUBMITTED (-1)%Q (-1)%Q false (-1)%Q 0%Q 0%Q p subtime wall nb_res (-1)).

Definition Job_from_json_str (workload_name : string) (profiles : Profiles) (json_str : string)
  : result Job :=
  match parse_json json_str with
  | None => xbt_die "Cannot be parsed"
  | Some doc => Job_from_json workload_name profiles doc
  end.
End FromJson.
End Job.
#[global] Arguments Job : clear implicits.

Abbreviation JobPtr := positive (only parsing).
Abbreviation job_heap IS := (gmap positive (Job IS)).

Definition deref_job {IS} (h : job_heap IS) (j : positive) : result (Job IS) :=
  of_option (Undef "dangling job pointer") (h !! j).

(** ** The container *)

(** [_jobs] and [_jobs_met] are hash maps on identifiers, that is on their
    representations. *)
Record Jobs := mk_Jobs {
  jobs_map : gmap string positive;
  jobs_met : gset string;
}.
#[export] Instance eta_Jobs : Eta Jobs := fun r => mk_Jobs (jobs_map r) (jobs_met r).

Definition empty_Jobs : Jobs := mk_Jobs ∅ ∅.

Definition Jobs_exists (js : Jobs) (job_id : JobIdentifier) : bool :=
  bool_decide (ji_to_string job_id ∈ jobs_met js).

Definition Jobs_at (js : Jobs) (job_id : JobIdentifier) : result positive :=
  of_option (Abort "Cannot get job: it does not exist") (jobs_map js !! ji_to_string job_id).

Definition add_job (js : Jobs) (job_id : JobIdentifier) (j : positive) : result Jobs :=
  xbt_assert (negb (Jobs_exists js job_id)) "A job with this name already exists";;
  Ok (mk_Jobs (<[ji_to_string job_id := j]> (jobs_map js))
              ({[ji_to_string job_id]} ∪ jobs_met js)).

(** [Jobs::delete_job]: the name of the profile to collect is read before the
    job leaves the map. *)
Definition delete_job {IS} (fuel : nat) (jh : job_heap IS) (ph : profile_heap)
  (js : Jobs) (profiles : Profiles) (job_id : JobIdentifier) (garbage_collect_profiles : bool)
  : result (Jobs * Profiles) :=
  xbt_assert (Jobs_exists js job_id) "The job does not exist";;
  match jobs_map js !! ji_to_string job_id with
  | None => Err (Undef "_jobs[job_id] is a null pointer")
  | Some jp =>
      j ← deref_job jh jp;
      p ← deref_profile ph (profile j);
      let js' := js <| jobs_map := delete (ji_to_string job_id) (jobs_map js) |> in
      if garbage_collect_profiles
      then profiles' ← remove_profile fuel ph profiles (p_name p); Ok (js', profiles')
      else Ok (js', profiles)
  end.

Definition contains_smpi_job {IS} (jh : job_heap IS) (ph : profile_heap) (js : Jobs) : result bool :=
  foldM (fun found (kv : string * positive) =>
           if found : bool then Ok true else
           j ← deref_job jh kv.2;
           p ← deref_profile ph (profile j);
           Ok (bool_decide (p_type p = SMPI)))
        false (map_to_list (jobs_map js)).

Definition nb_jobs (js : Jobs) : Z := Z.of_nat (size (jobs_map js)).

(** ** Theorems *)

Lemma str_contains_char_app c (s1 s2 : string) :
  str_contains_char c (s1 +:+ s2) = str_contains_char c s1 || str_contains_char c s2.
Proof.
  induction s1 as [|a s1 IH]; [done|].
  change (String a s1 +:+ s2) with (String a (s1 +:+ s2)).
  unfold str_contains_char in *. cbn. by rewrite IH, orb_assoc.
Qed.

(** A string has one decomposition around a separator that its left part does
    not contain. *)
Lemma split_at_separator_inj c (a1 a2 b1 b2 : string) :
  str_contains_char c a1 = false -> str_contains_char c a2 = false ->
  a1 +:+ String c b1 = a2 +:+ String c b2 -> a1 = a2 /\ b1 = b2.
Proof.
  revert a2; induction a1 as [|x a1 IH]; intros [|y a2] H1 H2 Heq.
  - by injection Heq.
  - injection Heq as -> _. unfold str_contains_char in H2. cbn in H2.
    by rewrite Ascii.eqb_refl in H2.
  - injection Heq as -> _. unfold str_contains_char in H1. cbn in H1.
    by rewrite Ascii.eqb_refl in H1.
  - injection Heq as -> Heq. unfold str_contains_char in H1, H2. cbn in H1, H2.
    apply orb_false_iff in H1 as [_ H1], H2 as [_ H2].
    by destruct (IH a2 H1 H2 Heq) as [-> ->].
Qed.

Lemma is_lexically_valid_iff w j :
  is_lexically_valid w j = true <->
  str_contains_char "!" w = false /\ str_contains_char "!" j = false.
Proof. unfold is_lexically_valid. by rewrite andb_true_iff, !negb_true_iff. Qed.

Lemma JobIdentifier_of_names_Ok w j i :
  JobIdentifier_of_names w j = Ok i ->
  is_lexically_valid w j = true /\ i = mk_JobIdentifier w j (representation w j).
Proof. unfold JobIdentifier_of_names. intros Hi. by inv_ok. Qed.

(** C38. Printing a job identifier and parsing the text gives the identifier back. *)
Theorem job_identifier_roundtrip `{BoostStringLaws} w j i :
  JobIdentifier_of_names w j = Ok i -> JobIdentifier_of_string (ji_to_string i) = Ok i.
Proof.
  intros [Hv ->]%JobIdentifier_of_names_Ok. pose proof Hv as [Hw Hj]%is_lexically_valid_iff.
  unfold JobIdentifier_of_string, ji_to_string, representation. cbn.
  rewrite split_compress_pair by done. unfold JobIdentifier_of_names. by rewrite Hv.
Qed.

(** Identifiers that the code accepts are equal (as the hash maps compare
    them, by their text) exactly when their workload and job names are. *)
Theorem job_identifier_injective w1 j1 w2 j2 i1 i2 :
  JobIdentifier_of_names w1 j1 = Ok i1 -> JobIdentifier_of_names w2 j2 = Ok i2 ->
  ji_eqb i1 i2 = true <-> w1 = w2 /\ j1 = j2.
Proof.
  intros [[H1 _]%is_lexically_valid_iff ->]%JobIdentifier_of_names_Ok
         [[H2 _]%is_lexically_valid_iff ->]%JobIdentifier_of_names_Ok.
  unfold ji_eqb, ji_to_string, representation. cbn. rewrite String.eqb_eq. split.
  - intros Heq. by apply split_at_separator_inj in Heq.
  - by intros [-> ->].
Qed.

Lemma job_state_roundtrip s : job_state_from_string (job_state_to_string s) = Ok s.
Proof. by destruct s. Qed.

(** What the container guarantees: the jobs in memory are registered. *)
Definition Jobs_inv (js : Jobs) : Prop := dom (jobs_map js) ⊆ jobs_met js.

Lemma add_job_inv js i j js' : Jobs_inv js -> add_job js i j = Ok js' -> Jobs_inv js'.
Proof.
  unfold add_job, Jobs_inv. intros Hi Ha. inv_ok. cbn. rewrite dom_insert_L. set_solver.
Qed.

Lemma delete_job_inv {IS} fuel (jh : job_heap IS) ph js ps i gc js' ps' :
  Jobs_inv js -> delete_job fuel jh ph js ps i gc = Ok (js', ps') -> Jobs_inv js'.
Proof.
  unfold delete_job, Jobs_inv. intros Hi Hd. inv_ok. case_match; [|done]. inv_ok.
  destruct gc; inv_ok; simplify_eq; cbn; rewrite dom_delete_L; set_solver.
Qed.

(** A deleted job can no longer be accessed, its identifier stays
    registered and can not be given to a new job; the other jobs are untouched. *)
Theorem delete_job_spec {IS} fuel (jh : job_heap IS) ph js ps i gc js' ps' j :
  delete_job fuel jh ph js ps i gc = Ok (js', ps') ->
  Jobs_at js' i = Err (Abort "Cannot get job: it does not exist") /\
  Jobs_exists js' i = true /\
  add_job js' i j = Err (Abort "A job with this name already exists") /\
  (forall i', ji_eqb i i' = false -> Jobs_at js' i' = Jobs_at js i') /\
  (forall i', Jobs_exists js' i' = Jobs_exists js i').
Proof.
  unfold delete_job. intros Hd. inv_ok. case_match; [|done]. inv_ok.
  assert (js' = js <| jobs_map := delete (ji_to_string i) (jobs_map js) |>) as ->.
  { destruct gc; by inv_ok; simplify_eq. }
  unfold Jobs_at, add_job, Jobs_exists, ji_eqb in *. cbn. split_and!.
  - by rewrite lookup_delete_eq.
  - done.
  - match goal with Hm : bool_decide _ = true |- _ => by rewrite Hm end.
  - intros i' Hne%String.eqb_neq. by rewrite lookup_delete_ne.
  - done.
Qed.

(** A job added under a fresh identifier is the one the identifier gives
    access to, and adding it again is refused. *)
Theorem add_job_spec js i j j' js' :
  add_job js i j = Ok js' ->
  Jobs_exists js i = false /\ Jobs_at js' i = Ok j /\ Jobs_exists js' i = true /\
  add_job js' i j' = Err (Abort "A job with this name already exists").
Proof.
  unfold add_job. intros Ha. inv_ok. unfold Jobs_at, Jobs_exists in *. cbn.
  rewrite lookup_insert_eq. split_and!; try done.
  - apply bool_decide_eq_true. set_solver.
  - rewrite bool_decide_eq_true_2; [done|set_solver].
Qed.

Section FromJsonFacts.
Context {IS : Type} `{IntervalSet IS} {V : Type} `{RapidJson V} `{BoostString}.
Context (str_find : string -> string -> bool) (replace_id : string -> string -> string).

(** A job that the parser accepts is not submitted yet, has either no
    walltime or a positive one, a number of resources that fits an unsigned
    integer, a profile its workload knows, and a rank mapping within its
    resources. *)
Theorem Job_from_json_wf w ps v j :
  Job_from_json (IS := IS) str_find replace_id w ps v = Ok j ->
  state j = JOB_STATE_NOT_SUBMITTED /\ is_complete j = false /\
  (walltime j == -1 \/ 0 < walltime j)%Q /\
  0 <= requested_nb_res j < 2 ^ 32 /\
  (exists name, ps !! name = Some (Some (profile j))) /\
  Forall (fun r => 0 <= r /\ u32 r < requested_nb_res j) (smpi_ranks_to_hosts_mapping j).
Proof.
  unfold Job_from_json. intros Hj. inv_ok. cbn. split_and!; try done.
  - match goal with Hw : walltime_of_json _ = Ok _ |- _ => unfold walltime_of_json in Hw end.
    inv_ok. match goal with Hb : _ || _ = true |- _ => apply orb_true_iff in Hb as [Hb|Hb] end; qify; auto.
  - match goal with Hn : requested_nb_res_of_json _ = Ok _ |- _ =>
      unfold requested_nb_res_of_json in Hn end. inv_ok. apply u32_bounds.
  - match goal with Hn : requested_nb_res_of_json _ = Ok _ |- _ =>
      unfold requested_nb_res_of_json in Hn end. inv_ok. apply u32_bounds.
  - match goal with Hp : Profiles_at _ ?name = Ok _ |- _ => unfold Profiles_at in Hp; exists name end.
    repeat case_match; by simplify_eq.
  - match goal with Hm : smpi_mapping_of_json _ _ = Ok ?l |- _ =>
      rename l into m; rename Hm into Hmap end.
    unfold smpi_mapping_of_json in Hmap. destruct (HasMember _ _); inv_ok; [|constructor].
    match goal with Hm : mapM_r _ _ = Ok m |- _ => eapply mapM_r_Forall; [|exact Hm] end. intros y r Hr. cbv beta in Hr. inv_ok. lia.
Qed.
End FromJsonFacts.

Module JobExamples.
Import Concrete.

Definition w0_1 : JobIdentifier :=
  match JobIdentifier_of_names "w0" "1" with Ok i => i | Err _ => mk_JobIdentifier "" "" "" end.

Example job_identifier_roundtrip_witness :
  ji_to_string w0_1 = "w0!1" /\ JobIdentifier_of_string (ji_to_string w0_1) = Ok w0_1.
Proof. split; [reflexivity|]. apply (job_identifier_roundtrip "w0" "1" w0_1). reflexivity. Defined.

Example job_identifier_injective_witness : ji_eqb w0_1 w0_1 = true <-> "w0" = "w0" /\ "1" = "1".
Proof. apply (job_identifier_injective "w0" "1" "w0" "1" w0_1 w0_1); reflexivity. Defined.

Definition a_job : Job (list Z) :=
  mk_Job "w0" w0_1 None "" ∅ [] [] [] "" JOB_STATE_NOT_SUBMITTED (-1) (-1) false 0 0 0 1%positive 0 (-1) 1 (-1).
Definition a_heap : job_heap (list Z) := {[1%positive := a_job]}.
Definition profiles : profile_heap := {[1%positive := mk_Profile DELAY (DelayProfileData 1) "" "d" 0]}.
Definition one_job : Jobs := mk_Jobs {["w0!1" := 1%positive]} {["w0!1"]}.

Example delete_job_spec_witness :
  exists js' ps', delete_job 1 a_heap profiles one_job {["d" := Some 1%positive]} w0_1 true = Ok (js', ps') /\
    add_job js' w0_1 2%positive = Err (Abort "A job with this name already exists").
Proof.
  do 2 eexists. split; [reflexivity|].
  eapply (delete_job_spec 1 a_heap profiles one_job {["d" := Some 1%positive]} w0_1 true _ _ 2%positive). reflexivity.
Defined.

Example add_job_spec_witness :
  exists js', add_job empty_Jobs w0_1 1%positive = Ok js' /\ Jobs_at js' w0_1 = Ok 1%positive.
Proof.
  eexists. split; [reflexivity|]. eapply (add_job_spec empty_Jobs w0_1 1%positive 2%positive). reflexivity.
Defined.

Definition description : json :=
  JObj [("id", JStr "1"); ("subtime", JInt 3); ("walltime", JInt 10); ("res", JInt 4); ("profile", JStr "d")].
Definition echo : RapidJson json := {|
  IsObject := IsObject; IsArray := IsArray; IsString := IsString; IsNumber := IsNumber; IsInt := IsInt;
  members := members; array_values := array_values; GetString := GetString; GetDouble := GetDouble;
  GetInt := GetInt; serialize _ := "d"; parse_json _ := Some description |}.
Definition parsed : Job (list Z) :=
  match @Job_from_json (list Z) _ json echo _ (fun _ _ => false) (fun s _ => s) "w0" {["d" := Some 1%positive]} description
  with Ok j => j | Err _ => a_job end.
Example Job_from_json_wf_witness : requested_nb_res parsed = 4 /\ (walltime parsed == -1 \/ 0 < walltime parsed)%Q.
Proof.
  split; [reflexivity|].
  refine (proj1 (proj2 (proj2 (@Job_from_json_wf (list Z) _ json echo _ (fun _ _ => false) (fun s _ => s) "w0"
            {["d" := Some 1%positive]} description parsed _)))). reflexivity.
Defined.
End JobExamples.
