(* ===== verification/Storage.v ===== *)
(** * The data storage (src/storage.hpp, src/storage.cpp)

    The descriptions of jobs and profiles may go through a Redis server; keys are
    prefixed by the name of the instance.  The client library is the class
    [Redox]. *)

From S2P Require Import Prelude Interfaces Jobs.

(** The client: [None] is the exception of [get]; [set] and [del] say whether they
    succeeded. *)
Class Redox (Db : Type) := {
  redox_connect : Db -> string -> Z -> bool * Db;
  redox_disconnect : Db -> Db;
  redox_get : Db -> string -> option string;
  redox_set : Db -> string -> string -> bool * Db;
  redox_del : Db -> string -> bool * Db;
}.

(** Its documentation: a key that has been set is read back. *)
Class RedoxLaws (Db : Type) `{Redox Db} : Prop := {
  redox_get_set : forall db key value db', redox_set db key value = (true, db') -> redox_get db' key = Some value;
  redox_get_set_ne : forall db key value key' b db', redox_set db key value = (b, db') -> key ≠ key' ->
    redox_get db' key' = redox_get db key';
}.

Record RedisStorage (Db : Type) := mk_RedisStorage {
  rs_is_connected : bool;
  rs_redox : Db;
  rs_instance_key_prefix : string;
  rs_key_subparts_separator : string;
}.
Arguments mk_RedisStorage {Db}. Arguments rs_is_connected {Db}. Arguments rs_redox {Db}.
Arguments rs_instance_key_prefix {Db}. Arguments rs_key_subparts_separator {Db}.
#[export] Instance eta_RedisStorage {Db} : Eta (RedisStorage Db) := fun r =>
  mk_RedisStorage (rs_is_connected r) (rs_redox r) (rs_instance_key_prefix r) (rs_key_subparts_separator r).

(** ** Keys *)

Definition job_key (job_id : JobIdentifier) : string := "job_" +:+ ji_to_string job_id.
Definition profile_key (workload_name profile_name : string) : string :=
  "profile_" +:+ workload_name +:+ String "!" profile_name.

Section Storage.
Context {Db : Type} `{Redox Db}.
Implicit Types (s : RedisStorage Db).

Definition new_RedisStorage (redox : Db) : RedisStorage Db := mk_RedisStorage false redox "" ":".

Definition build_key s (user_given_key : string) : string :=
  rs_instance_key_prefix s +:+ rs_key_subparts_separator s +:+ user_given_key.

Definition set_instance_key_prefix (key_prefix : string) s : RedisStorage Db :=
  s <| rs_instance_key_prefix := key_prefix |>.

Definition connect_to_server (host : string) (port : Z) s : result (RedisStorage Db) :=
  xbt_assert (negb (rs_is_connected s)) "Already connected";;
  let '(connected, db) := redox_connect (rs_redox s) host port in
  xbt_assert connected "Error: could not connect to Redis server";;
  Ok (s <| rs_is_connected := connected |> <| rs_redox := db |>).

(** The storage is still marked as connected. *)
Definition disconnect s : result (RedisStorage Db) :=
  xbt_assert (rs_is_connected s) "Not connected";;
  Ok (s <| rs_redox ::= redox_disconnect |>).

(** A key without a value gives the empty text. *)
Definition get (key : string) s : result string :=
  xbt_assert (rs_is_connected s) "Not connected";;
  Ok (default "" (redox_get (rs_redox s) (build_key s key))).

Definition set (key value : string) s : result (bool * RedisStorage Db) :=
  xbt_assert (rs_is_connected s) "Not connected";;
  let '(ret, db) := redox_set (rs_redox s) (build_key s key) value in
  let s := s <| rs_redox := db |> in
  if ret : bool then
    v ← get key s;
    xbt_assert (String.eqb v value) "Batsim <-> Redis communications are inconsistent!";;
    Ok (ret, s)
  else Ok (ret, s).

Definition del (key : string) s : result (bool * RedisStorage Db) :=
  xbt_assert (rs_is_connected s) "Not connected";;
  let '(ret, db) := redox_del (rs_redox s) (build_key s key) in
  Ok (ret, s <| rs_redox := db |>).
End Storage.

(** ** Theorems *)

(** Two keys of jobs or profiles are equal only for the same job or profile, as long
    as the names of the workloads have no separator. *)
Lemma app_separator_inj w1 w2 a b :
  str_contains_char "!" w1 = false -> str_contains_char "!" w2 = false ->
  w1 +:+ String "!" a = w2 +:+ String "!" b -> w1 = w2 /\ a = b.
Proof.
  revert w2. induction w1 as [|c w1 IH]; intros [|c2 w2]; unfold str_contains_char; cbn [list_ascii_of_string existsb].
  - by intros _ _ [= ->].
  - intros _ [Hc _]%orb_false_iff [= <- _]. done.
  - intros [Hc _]%orb_false_iff _ [= -> _]. done.
  - intros [_ H1]%orb_false_iff [_ H2]%orb_false_iff.
    change (String c w1 +:+ String "!" a) with (String c (w1 +:+ String "!" a)).
    change (String c2 w2 +:+ String "!" b) with (String c2 (w2 +:+ String "!" b)). intros [= -> He].
    destruct (IH w2 H1 H2 He) as [-> ->]. done.
Qed.

Section Facts.
Context {Db : Type} `{RedoxLaws Db}.
Implicit Types (s : RedisStorage Db).

Lemma build_key_inj s k1 k2 : build_key s k1 = build_key s k2 -> k1 = k2.
Proof. unfold build_key. by intros Hk%(inj (String.app _))%(inj (String.app _)). Qed.

(** Whatever has been stored under the key of a job is read back, until the key
    of the same job is set again: storing never aborts when the client keeps its
    promises, and the descriptions of other jobs and of profiles are not touched. *)
Theorem stored_job_is_read_back s w j w' p job_id value :
  rs_is_connected s = true ->
  JobIdentifier_of_names w j = Ok job_id -> str_contains_char "!" w' = false ->
  exists ret s', set (job_key job_id) value s = Ok (ret, s') /\ rs_is_connected s' = true /\
    (ret = true -> get (job_key job_id) s' = Ok value) /\
    (forall other w2 j2, JobIdentifier_of_names w2 j2 = Ok other -> (w2, j2) ≠ (w, j) ->
       get (job_key other) s' = get (job_key other) s) /\
    get (profile_key w' p) s' = get (profile_key w' p) s.
Proof.
  intros Hcon Hid Hw'.
  assert (forall key v ret db, redox_set (rs_redox s) (build_key s key) v = (ret, db) ->
            forall key', key ≠ key' -> get key' (s <| rs_redox := db |>) = get key' s) as Hother.
  { intros key v ret db Hset key' Hne. unfold get. change (rs_is_connected (s <| rs_redox := db |>)) with (rs_is_connected s).
    rewrite Hcon. cbn [xbt_assert]. rewrite !Ok_bind. do 2 f_equal.
    change (rs_redox (s <| rs_redox := db |>)) with db. change (build_key (s <| rs_redox := db |>) key') with (build_key s key').
    eapply redox_get_set_ne; [exact Hset|]. by intros Hk%build_key_inj. }
  unfold set. rewrite Hcon. cbn [xbt_assert]. rewrite Ok_bind.
  destruct (redox_set (rs_redox s) (build_key s (job_key job_id)) value) as [ret db] eqn:Hset.
  set (s' := s <| rs_redox := db |>).
  assert (ret = true -> get (job_key job_id) s' = Ok value) as Hget.
  { intros ->. unfold get. change (rs_is_connected s') with (rs_is_connected s). rewrite Hcon. cbn [xbt_assert]. rewrite Ok_bind.
    change (rs_redox s') with db. change (build_key s' (job_key job_id)) with (build_key s (job_key job_id)).
    by rewrite (redox_get_set _ _ _ _ Hset). }
  exists ret, s'. split.
  { destruct ret; [|done]. rewrite (Hget eq_refl), Ok_bind, String.eqb_refl. done. }
  split; [exact Hcon|]. split; [exact Hget|].
  apply JobIdentifier_of_names_Ok in Hid as [Hval ->]. apply is_lexically_valid_iff in Hval as [Hw Hj]. split.
  - intros other w2 j2 Hid2 Hne. apply JobIdentifier_of_names_Ok in Hid2 as [Hval2 ->].
    apply is_lexically_valid_iff in Hval2 as [Hw2 Hj2].
    apply (Hother _ _ _ _ Hset). unfold job_key, ji_to_string, representation. cbn. intros Hk%(inj (String.app "job_")).
    apply Hne. apply app_separator_inj in Hk as [-> ->]; done.
  - apply (Hother _ _ _ _ Hset). unfold job_key, profile_key. cbn. discriminate.
Qed.
End Facts.
