(* ===== verification/NumericStrcmp.v ===== *)
(** * Ordering machine names (src/machines.cpp)

    [string_numeric_comparator] compares two strings in which maximal runs of
    digits are read as numbers, and [machine_comparator_name] breaks its ties
    with [strcmp].  The theorems relate the pointer-based loop to a
    lexicographic comparison of tokens, and show on which names the result is
    the strict order that [std::sort] requires. *)

From S2P Require Import Prelude.

(** ** The code *)

Definition char_code (c : ascii) : Z := Z.of_N (N_of_ascii c).

(** The value of a [char], which is signed on the supported platforms. *)
Definition char_value (c : ascii) : Z :=
  if char_code c <? 128 then char_code c else char_code c - 256.

Definition isdigit (c : ascii) : bool := (48 <=? char_code c) && (char_code c <=? 57).

(** The digits that [strtol] reads, and where it stops. *)
Fixpoint read_digits (acc : Z) (p : list ascii) : Z * list ascii :=
  match p with
  | c :: p' => if isdigit c then read_digits (10 * acc + (char_code c - 48)) p' else (acc, p)
  | [] => (acc, [])
  end.

(** [strtol(p, &end_p, 10)] at a digit: the value saturates at [LONG_MAX]. *)
Definition strtol (p : list ascii) : Z * list ascii :=
  let '(v, end_p) := read_digits 0 p in (Z.min v LONG_MAX, end_p).

(** The loop of [string_numeric_comparator], [p1] and [p2] being the remaining
    characters of the two strings. *)
Fixpoint comparator_loop (fuel : nat) (p1 p2 : list ascii) : result Z :=
  match fuel with
  | O => Err (Undef "out of fuel")
  | S fuel =>
      match p1, p2 with
      | c1 :: q1, c2 :: q2 =>
          if isdigit c1 && isdigit c2 then
            let '(int1, end_p1) := strtol p1 in
            let '(int2, end_p2) := strtol p2 in
            xbt_assert (negb (int1 =? LONG_MIN) && negb (int1 =? LONG_MAX)) "Numeric overflow";;
            xbt_assert (negb (int2 =? LONG_MIN) && negb (int1 =? LONG_MAX)) "Numeric overflow";;
            if negb (int1 =? int2) then Ok (i32 (int1 - int2))
            else comparator_loop fuel end_p1 end_p2
          else if negb (char_value c1 =? char_value c2) then Ok (char_value c1 - char_value c2)
          else comparator_loop fuel q1 q2
      | _ :: _, [] => Ok 1
      | [], _ :: _ => Ok (-1)
      | [], [] => Ok 0
      end
  end.

Definition string_numeric_comparator (s1 s2 : string) : result Z :=
  comparator_loop (S (String.length s1)) (list_ascii_of_string s1) (list_ascii_of_string s2).

(** Lexicographic comparison of lists. *)
Fixpoint lex {A} (cmp : A -> A -> comparison) (l1 l2 : list A) : comparison :=
  match l1, l2 with
  | [], [] => Eq
  | [], _ :: _ => Lt
  | _ :: _, [] => Gt
  | a :: l1, b :: l2 => match cmp a b with Eq => lex cmp l1 l2 | c => c end
  end.

(** The sign of [strcmp], which compares characters as [unsigned char]. *)
Definition strcmp (s1 s2 : string) : Z :=
  match lex (fun a b => char_code a ?= char_code b) (list_ascii_of_string s1) (list_ascii_of_string s2) with
  | Lt => -1 | Eq => 0 | Gt => 1
  end.

Definition machine_comparator_name (n1 n2 : string) : result bool :=
  cmp_ret ← string_numeric_comparator n1 n2;
  let cmp_ret := if cmp_ret =? 0 then strcmp n1 n2 else cmp_ret in
  Ok (cmp_ret <? 0).

(** ** Reference: comparison of tokens *)

Inductive token := TNum (z : Z) | TChar (c : Z).

Fixpoint tokenize_from (cur : option Z) (p : list ascii) : list token :=
  match p with
  | [] => match cur with Some v => [TNum v] | None => [] end
  | c :: p =>
      if isdigit c
      then tokenize_from (Some (10 * default 0 cur + (char_code c - 48))) p
      else match cur with
           | Some v => TNum v :: TChar (char_value c) :: tokenize_from None p
           | None => TChar (char_value c) :: tokenize_from None p
           end
  end.
Definition tokenize (s : string) : list token := tokenize_from None (list_ascii_of_string s).

(** A number compares with another character as any digit does. *)
Definition token_compare (a b : token) : comparison :=
  match a, b with
  | TNum x, TNum y => x ?= y
  | TChar x, TChar y => x ?= y
  | TNum _, TChar y => 48 ?= y
  | TChar x, TNum _ => x ?= 48
  end.

(** Names whose numbers fit an [int], and whose characters are not taken for
    digits (which holds of all tokens that come from a string). *)
Definition token_ok (t : token) : Prop :=
  match t with TNum x => 0 <= x < 2 ^ 31 | TChar c => c < 48 \/ 57 < c end.
Definition name_ok (s : string) : Prop := Forall token_ok (tokenize s).

(** ** Theorems *)

Lemma isdigit_iff c : isdigit c = true <-> 48 <= char_code c <= 57.
Proof. unfold isdigit. rewrite andb_true_iff, !Z.leb_le. done. Qed.

Lemma char_code_bounds c : 0 <= char_code c < 256.
Proof.
  unfold char_code. split; [lia|]. pose proof (N_ascii_bounded c). lia.
Qed.

Lemma char_code_inj c1 c2 : char_code c1 = char_code c2 -> c1 = c2.
Proof.
  unfold char_code. intros H%N2Z.inj.
  rewrite <- (ascii_N_embedding c1), <- (ascii_N_embedding c2). by rewrite H.
Qed.

Lemma char_value_digit c : isdigit c = true -> char_value c = char_code c.
Proof.
  rewrite isdigit_iff. unfold char_value. intros H.
  destruct (Z.ltb_spec (char_code c) 128); lia.
Qed.

Lemma char_value_not_digit c : isdigit c = false -> char_value c < 48 \/ 57 < char_value c.
Proof.
  intros H. assert (~ 48 <= char_code c <= 57) as Hn by (rewrite <- isdigit_iff; congruence).
  pose proof (char_code_bounds c). unfold char_value.
  destruct (Z.ltb_spec (char_code c) 128); lia.
Qed.

Lemma tokenize_from_digits p acc :
  tokenize_from (Some acc) p =
    TNum (fst (read_digits acc p)) :: tokenize_from None (snd (read_digits acc p)).
Proof.
  revert acc; induction p as [|c p IH]; intros acc; cbn; [done|].
  destruct (isdigit c) eqn:Hc; [apply IH|]. cbn. by rewrite Hc.
Qed.

Lemma tokenize_digit c p v q :
  isdigit c = true -> read_digits 0 (c :: p) = (v, q) ->
  tokenize_from None (c :: p) = TNum v :: tokenize_from None q.
Proof.
  intros Hc. cbn [read_digits tokenize_from]. rewrite Hc. cbn [default].
  intros Hr. rewrite tokenize_from_digits. change (default 0 None) with 0. by rewrite Hr.
Qed.

Lemma read_digits_length p acc : (length (snd (read_digits acc p)) <= length p)%nat.
Proof.
  revert acc; induction p as [|c p IH]; intros acc; cbn; [done|].
  destruct (isdigit c); [|done]. specialize (IH (10 * acc + (char_code c - 48))). lia.
Qed.

Lemma read_digits_shorter c p acc v q :
  isdigit c = true -> read_digits acc (c :: p) = (v, q) -> (length q <= length p)%nat.
Proof.
  intros Hc. cbn. rewrite Hc. intros Hr.
  pose proof (read_digits_length p (10 * acc + (char_code c - 48))) as Hl. by rewrite Hr in Hl.
Qed.

Lemma read_digits_bound p acc : 0 <= acc -> acc <= fst (read_digits acc p).
Proof.
  revert acc; induction p as [|c p IH]; intros acc Hacc; cbn; [done|].
  destruct (isdigit c) eqn:Hc; [|done]. apply isdigit_iff in Hc.
  specialize (IH (10 * acc + (char_code c - 48))). lia.
Qed.

(** The sign of the returned [int] as a comparison. *)
Definition sign_of (r : Z) : comparison := r ?= 0.

Lemma sign_sub a b : sign_of (a - b) = (a ?= b).
Proof. unfold sign_of. destruct (Z.compare_spec a b), (Z.compare_spec (a - b) 0); lia || done. Qed.

(** A number that fits an [int] passes the overflow guards. *)
Lemma int_no_overflow v : 0 <= v < 2 ^ 31 ->
  Z.min v LONG_MAX = v /\ (v =? LONG_MIN) = false /\ (v =? LONG_MAX) = false.
Proof.
  change (2 ^ 31) with 2147483648. change LONG_MAX with 9223372036854775807.
  change LONG_MIN with (-9223372036854775808). intros H.
  rewrite Z.min_l, !Z.eqb_neq by lia. lia.
Qed.

Lemma comparator_loop_tokens fuel p1 p2 :
  (length p1 < fuel)%nat ->
  Forall token_ok (tokenize_from None p1) -> Forall token_ok (tokenize_from None p2) ->
  exists r, comparator_loop fuel p1 p2 = Ok r /\
    sign_of r = lex token_compare (tokenize_from None p1) (tokenize_from None p2).
Proof.
  revert p1 p2; induction fuel as [|fuel IH]; intros p1 p2 Hf H1 H2; [lia|].
  cbn [comparator_loop]. destruct p1 as [|c1 q1], p2 as [|c2 q2]; cbn [length] in Hf.
  - by exists 0.
  - exists (-1). split; [done|]. cbn. destruct (isdigit c2); [|done]. by rewrite tokenize_from_digits.
  - exists 1. split; [done|]. cbn. destruct (isdigit c1); [|done]. by rewrite tokenize_from_digits.
  - destruct (isdigit c1) eqn:Hd1, (isdigit c2) eqn:Hd2; cbn [andb].
    + unfold strtol.
      destruct (read_digits 0 (c1 :: q1)) as [v1 e1] eqn:Hr1.
      destruct (read_digits 0 (c2 :: q2)) as [v2 e2] eqn:Hr2.
      rewrite (tokenize_digit _ _ _ _ Hd1 Hr1) in H1 |- *.
      rewrite (tokenize_digit _ _ _ _ Hd2 Hr2) in H2 |- *.
      apply Forall_cons in H1 as [Hv1 H1], H2 as [Hv2 H2]. cbn in Hv1, Hv2.
      pose proof (read_digits_shorter _ _ _ _ _ Hd1 Hr1).
      destruct (int_no_overflow v1 Hv1) as (-> & Hm1 & HM1).
      destruct (int_no_overflow v2 Hv2) as (-> & Hm2 & HM2).
      rewrite Hm1, Hm2, HM1. cbn.
      destruct (Z.eqb_spec v1 v2) as [->|Hne]; cbn.
      * rewrite Z.compare_refl. by apply IH; [lia|..].
      * eexists; split; [done|]. rewrite i32_small by lia. rewrite sign_sub.
        by destruct (Z.compare_spec v1 v2).
    + apply char_value_not_digit in Hd2 as Hn2. apply char_value_digit in Hd1 as Hn1.
      apply isdigit_iff in Hd1 as Hb1.
      rewrite (proj2 (Z.eqb_neq _ _)) by lia. cbn [negb]. eexists; split; [done|].
      rewrite sign_sub. cbn [tokenize_from]. rewrite Hd1, Hd2, tokenize_from_digits. cbn -[Z.compare].
      destruct (Z.compare_spec (char_value c1) (char_value c2)),
               (Z.compare_spec 48 (char_value c2)); lia || done.
    + apply char_value_not_digit in Hd1 as Hn1. apply char_value_digit in Hd2 as Hn2.
      apply isdigit_iff in Hd2 as Hb2.
      rewrite (proj2 (Z.eqb_neq _ _)) by lia. cbn [negb]. eexists; split; [done|].
      rewrite sign_sub. cbn [tokenize_from]. rewrite Hd1, Hd2, tokenize_from_digits. cbn -[Z.compare].
      destruct (Z.compare_spec (char_value c1) (char_value c2)),
               (Z.compare_spec (char_value c1) 48); lia || done.
    + cbn [tokenize_from] in H1, H2 |- *. rewrite Hd1 in H1 |- *. rewrite Hd2 in H2 |- *.
      apply Forall_cons in H1 as [_ H1], H2 as [_ H2]. cbn [lex token_compare].
      destruct (Z.eqb_spec (char_value c1) (char_value c2)) as [->|Hne]; cbn [negb].
      * rewrite Z.compare_refl. by apply IH; [lia|..].
      * eexists; split; [done|]. rewrite sign_sub.
        by destruct (Z.compare_spec (char_value c1) (char_value c2)).
Qed.

Lemma list_ascii_length s : length (list_ascii_of_string s) = String.length s.
Proof. induction s; cbn; congruence. Qed.

(** On names whose numbers fit an [int], the comparator terminates without
    error and its sign is the lexicographic comparison of the tokens. *)
Theorem comparator_is_token_order s1 s2 :
  name_ok s1 -> name_ok s2 ->
  exists r, string_numeric_comparator s1 s2 = Ok r /\
    sign_of r = lex token_compare (tokenize s1) (tokenize s2).
Proof.
  intros H1 H2. apply comparator_loop_tokens; [|done..]. rewrite list_ascii_length. lia.
Qed.

(** Without the bound on numbers the loop still terminates: it either returns
    or reports an overflow. *)
Lemma comparator_loop_terminates fuel p1 p2 :
  (length p1 < fuel)%nat ->
  (exists r, comparator_loop fuel p1 p2 = Ok r) \/
  comparator_loop fuel p1 p2 = Err (Abort "Numeric overflow").
Proof.
  revert p1 p2; induction fuel as [|fuel IH]; intros p1 p2 Hf; [lia|].
  cbn [comparator_loop]. destruct p1 as [|c1 q1], p2 as [|c2 q2]; cbn [length] in Hf; eauto.
  destruct (isdigit c1) eqn:Hd1, (isdigit c2); cbn [andb];
    [|destruct (negb _); [by eauto|apply IH; lia]..].
  unfold strtol. destruct (read_digits 0 (c1 :: q1)) as [v1 e1] eqn:Hr1.
  destruct (read_digits 0 (c2 :: q2)) as [v2 e2].
  pose proof (read_digits_shorter _ _ _ _ _ Hd1 Hr1).
  destruct (Z.min v1 LONG_MAX =? LONG_MIN), (Z.min v1 LONG_MAX =? LONG_MAX),
    (Z.min v2 LONG_MAX =? LONG_MIN); cbn; try by right.
  destruct (negb _); [by eauto|apply IH; lia].
Qed.

(** The comparator terminates on every pair of strings. *)
Theorem comparator_terminates s1 s2 :
  (exists r, string_numeric_comparator s1 s2 = Ok r) \/
  string_numeric_comparator s1 s2 = Err (Abort "Numeric overflow").
Proof. apply comparator_loop_terminates. rewrite list_ascii_length. lia. Qed.

(** ** Lexicographic orders *)

Section Lex.
Context {A : Type} (cmp : A -> A -> comparison) (ok : A -> Prop).
Context (cmp_antisym : forall a b, ok a -> ok b -> cmp b a = CompOpp (cmp a b)).
Context (cmp_trans : forall a b c, ok a -> ok b -> ok c ->
           cmp a b = Lt -> cmp b c = Lt -> cmp a c = Lt).
Context (cmp_eq_l : forall a b c, ok a -> ok b -> ok c -> cmp a b = Eq -> cmp a c = cmp b c).

Lemma lex_antisym l1 l2 :
  Forall ok l1 -> Forall ok l2 -> lex cmp l2 l1 = CompOpp (lex cmp l1 l2).
Proof.
  intros H1; revert l2; induction H1 as [|a l1 Ha H1 IH]; intros [|b l2] H2; [done..|].
  apply Forall_cons in H2 as [Hb H2]. cbn. rewrite (cmp_antisym a b) by done.
  destruct (cmp a b); cbn; auto.
Qed.

Lemma cmp_eq_r a b c : ok a -> ok b -> ok c -> cmp b c = Eq -> cmp a b = cmp a c.
Proof.
  intros Ha Hb Hc He. rewrite (cmp_antisym b a), (cmp_antisym c a) by done.
  by rewrite (cmp_eq_l b c a).
Qed.

Lemma lex_eq_l l1 l2 l3 :
  Forall ok l1 -> Forall ok l2 -> Forall ok l3 ->
  lex cmp l1 l2 = Eq -> lex cmp l1 l3 = lex cmp l2 l3.
Proof.
  intros H1; revert l2 l3; induction H1 as [|a l1 Ha H1 IH]; intros [|b l2] [|c l3] H2 H3; try done.
  - apply Forall_cons in H2 as [Hb H2], H3 as [Hc H3]. cbn.
    destruct (cmp a b) eqn:Hab; try done. intros He.
    rewrite (cmp_eq_l a b c) by done. destruct (cmp b c); auto.
Qed.

Lemma lex_trans l1 l2 l3 :
  Forall ok l1 -> Forall ok l2 -> Forall ok l3 ->
  lex cmp l1 l2 = Lt -> lex cmp l2 l3 = Lt -> lex cmp l1 l3 = Lt.
Proof.
  intros H1; revert l2 l3; induction H1 as [|a l1 Ha H1 IH]; intros [|b l2] [|c l3] H2 H3; try done.
  apply Forall_cons in H2 as [Hb H2], H3 as [Hc H3]. cbn.
  destruct (cmp a b) eqn:Hab, (cmp b c) eqn:Hbc; try done; intros Hl1 Hl2.
  - rewrite (cmp_eq_l a b c) by done. rewrite Hbc. eauto.
  - rewrite (cmp_eq_l a b c) by done. by rewrite Hbc.
  - rewrite <- (cmp_eq_r a b c) by done. by rewrite Hab.
  - by rewrite (cmp_trans a b c).
Qed.
End Lex.

Lemma token_antisym a b : token_ok a -> token_ok b -> token_compare b a = CompOpp (token_compare a b).
Proof. destruct a, b; cbn -[Z.compare]; intros; apply Z.compare_antisym. Qed.

Lemma token_trans a b c : token_ok a -> token_ok b -> token_ok c ->
  token_compare a b = Lt -> token_compare b c = Lt -> token_compare a c = Lt.
Proof. destruct a, b, c; cbn -[Z.compare]; rewrite ?Z.compare_lt_iff; lia. Qed.

Lemma token_eq_l a b c : token_ok a -> token_ok b -> token_ok c ->
  token_compare a b = Eq -> token_compare a c = token_compare b c.
Proof. destruct a, b, c; cbn -[Z.compare]; rewrite ?Z.compare_eq_iff; intros; subst; done || lia. Qed.

Definition code_compare (a b : ascii) : comparison := char_code a ?= char_code b.

Lemma strcmp_lex s1 s2 :
  sign_of (strcmp s1 s2) = lex code_compare (list_ascii_of_string s1) (list_ascii_of_string s2).
Proof. unfold strcmp, code_compare. by destruct (lex _ _ _). Qed.

Lemma code_lex_eq l1 l2 : lex code_compare l1 l2 = Eq -> l1 = l2.
Proof.
  revert l2; induction l1 as [|a l1 IH]; intros [|b l2]; cbn; try done.
  unfold code_compare at 1. destruct (Z.compare_spec (char_code a) (char_code b)); try done.
  intros Hl. f_equal; [by apply char_code_inj|auto].
Qed.

Lemma list_ascii_inj s1 s2 : list_ascii_of_string s1 = list_ascii_of_string s2 -> s1 = s2.
Proof.
  intros H. rewrite <- (string_of_list_ascii_of_string s1), <- (string_of_list_ascii_of_string s2).
  by rewrite H.
Qed.

(** The order on names: tokens first, then characters. *)
Definition name_compare (n1 n2 : string) : comparison :=
  match lex token_compare (tokenize n1) (tokenize n2) with
  | Eq => lex code_compare (list_ascii_of_string n1) (list_ascii_of_string n2)
  | c => c
  end.

Lemma machine_comparator_name_compare n1 n2 :
  name_ok n1 -> name_ok n2 ->
  machine_comparator_name n1 n2 = Ok (bool_decide (name_compare n1 n2 = Lt)).
Proof.
  intros H1 H2. destruct (comparator_is_token_order n1 n2 H1 H2) as (r & Hr & Hs).
  unfold machine_comparator_name. rewrite Hr. cbn. f_equal.
  unfold name_compare. rewrite <- Hs. unfold sign_of.
  destruct (Z.compare_spec r 0) as [->|Hlt|Hgt].
  - cbn. rewrite <- strcmp_lex. unfold sign_of.
    destruct (Z.compare_spec (strcmp n1 n2) 0), (Z.ltb_spec (strcmp n1 n2) 0); try lia; done.
  - rewrite (proj2 (Z.eqb_neq _ _)) by lia. destruct (Z.ltb_spec r 0); [done|lia].
  - rewrite (proj2 (Z.eqb_neq _ _)) by lia. destruct (Z.ltb_spec r 0); [lia|done].
Qed.

Lemma code_laws : (forall a b, True -> True -> code_compare b a = CompOpp (code_compare a b)) /\
  (forall a b c, True -> True -> True -> code_compare a b = Lt -> code_compare b c = Lt -> code_compare a c = Lt) /\
  (forall a b c, True -> True -> True -> code_compare a b = Eq -> code_compare a c = code_compare b c).
Proof.
  unfold code_compare. split_and!; intros *.
  - intros; apply Z.compare_antisym.
  - rewrite !Z.compare_lt_iff. lia.
  - rewrite Z.compare_eq_iff. intros _ _ _ H. by rewrite H.
Qed.

Lemma Forall_True {A} (l : list A) : Forall (fun _ => True) l.
Proof. induction l; by constructor. Qed.
#[export] Hint Resolve Forall_True : batsim.

(** C24. On names whose numbers fit an [int], [machine_comparator_name] is a strict
    total order: irreflexive, transitive, and two different names are comparable.
    This is what [std::sort] requires of it. *)
Theorem machine_comparator_strict_total_order n1 n2 n3 :
  name_ok n1 -> name_ok n2 -> name_ok n3 ->
  machine_comparator_name n1 n1 = Ok false /\
  (machine_comparator_name n1 n2 = Ok true -> machine_comparator_name n2 n3 = Ok true ->
   machine_comparator_name n1 n3 = Ok true) /\
  (n1 ≠ n2 -> machine_comparator_name n1 n2 = Ok true \/ machine_comparator_name n2 n1 = Ok true).
Proof.
  intros H1 H2 H3. rewrite !machine_comparator_name_compare by done.
  destruct code_laws as (Ca & Ct & Ce).
  pose proof (lex_antisym _ _ token_antisym _ _ H1 H1) as Hrefl.
  pose proof (fun l1 l2 => lex_antisym _ _ Ca l1 l2 (Forall_True _) (Forall_True _)) as Casym.
  unfold name_compare. split_and!.
  - do 2 f_equal. apply bool_decide_eq_false.
    destruct (lex token_compare _ _); try done.
    specialize (Casym (list_ascii_of_string n1) (list_ascii_of_string n1)).
    by destruct (lex code_compare _ _).
  - intros [= Hl1%bool_decide_eq_true] [= Hl2%bool_decide_eq_true].
    do 2 f_equal. apply bool_decide_eq_true.
    destruct (lex token_compare (tokenize n1) (tokenize n2)) eqn:E12; try done.
    + rewrite (lex_eq_l _ _ token_eq_l _ _ (tokenize n3) H1 H2 H3 E12).
      destruct (lex token_compare (tokenize n2) (tokenize n3)); try done.
      exact (lex_trans _ _ Ca Ct Ce _ _ _ (Forall_True _) (Forall_True _) (Forall_True _) Hl1 Hl2).
    + destruct (lex token_compare (tokenize n2) (tokenize n3)) eqn:E23; try done.
      * assert (lex token_compare (tokenize n1) (tokenize n3) = Lt) as ->; [|done].
        rewrite (lex_antisym _ _ token_antisym _ _ H3 H1).
        assert (lex token_compare (tokenize n3) (tokenize n2) = Eq) as E32
          by (rewrite (lex_antisym _ _ token_antisym _ _ H2 H3), E23; done).
        rewrite (lex_eq_l _ _ token_eq_l _ _ (tokenize n1) H3 H2 H1 E32).
        by rewrite (lex_antisym _ _ token_antisym _ _ H1 H2), E12.
      * by rewrite (lex_trans _ _ token_antisym token_trans token_eq_l _ _ _ H1 H2 H3 E12 E23).
  - intros Hne. rewrite (lex_antisym _ _ token_antisym _ _ H1 H2).
    destruct (lex token_compare (tokenize n1) (tokenize n2)); cbn; [|by left|by right].
    rewrite (Casym (list_ascii_of_string n1)).
    destruct (lex code_compare _ _) eqn:E; [|by left|by right].
    apply code_lex_eq, list_ascii_inj in E. done.
Qed.

(** Beyond [int], the comparator confuses numbers: the difference of two
    [long] is truncated to [int], so that 0 and 2^32 compare as equal and 0 is not
    below 2^31 but above it, and only the first string is checked for overflow. *)
Theorem comparator_truncates_large_numbers :
  string_numeric_comparator "m0" "m4294967296" = Ok 0 /\
  string_numeric_comparator "m4294967295" "m0" = Ok (-1) /\
  string_numeric_comparator "m1" "m99999999999999999999" = Ok 2 /\
  string_numeric_comparator "m99999999999999999999" "m1" = Err (Abort "Numeric overflow").
Proof. vm_compute. done. Qed.

(** The unit tests of src/unittest/test_numeric_strcmp.cpp, on the model. *)
Example unit_tests_combined :
  (fun '(s1, s2) => sign_of <$> string_numeric_comparator s1 s2) <$>
    [("machine9", "machine10"); ("machine10", "machine9"); ("machine09", "machine9");
     ("qb0_qr0_qmobo1", "qb0_qr0_qmobo2"); ("qb00_qr01_qmobo02", "qb0_qr1_qmobo2"); ("me", "meh")]
  = [Ok Lt; Ok Gt; Ok Eq; Ok Lt; Ok Eq; Ok Lt].
Proof. vm_compute. done. Qed.

Module NumericStrcmpExamples.
Lemma name_ok_decide s : forallb (fun t => match t with TNum x => (0 <=? x) && (x <? 2 ^ 31)
                                           | TChar c => (c <? 48) || (57 <? c) end) (tokenize s) = true -> name_ok s.
Proof.
  rewrite forallb_forall. intros Hs. apply Forall_forall. intros t Ht%list_elem_of_In. specialize (Hs t Ht).
  destruct t; cbn; [apply andb_true_iff in Hs|apply orb_true_iff in Hs]; lia.
Qed.

Example comparator_is_token_order_witness :
  exists r, string_numeric_comparator "node2" "node10" = Ok r /\
    sign_of r = lex token_compare (tokenize "node2") (tokenize "node10").
Proof. apply (comparator_is_token_order "node2" "node10"); apply name_ok_decide; reflexivity. Defined.

Example machine_comparator_strict_total_order_witness : machine_comparator_name "m2" "m11" = Ok true.
Proof.
  refine (proj1 (proj2 (machine_comparator_strict_total_order "m2" "m10" "m11" _ _ _)) _ _);
    try (apply name_ok_decide; reflexivity); reflexivity.
Defined.
End NumericStrcmpExamples.
