(* ===== verification/Outputs.v ===== *)
(** * Buffered output and the Pajé trace (src/export.hpp, src/export.cpp)

    The conversions of [printf] that the exports use, the [WriteBuffer] that all
    the exports write through, and the [PajeTracer], a small state machine that
    must be initialised before use and declares each job before mentioning it. *)

From S2P Require Import Prelude Interfaces Profiles Jobs.

(** ** Conversions of printf *)

Definition nl : string := String "010" "".
Definition dq : string := String "034" "".

(** [%d], [%lu], [std::to_string] of an integer. *)
Definition fmt_d (z : Z) : string := pretty z.

(** Rounding of the quotient of two natural numbers, to nearest, ties to even. *)
Definition round_half_even (n d : Z) : Z :=
  let q := n / d in
  let r := n mod d in
  if 2 * r <? d then q
  else if d <? 2 * r then q + 1
  else if Z.even q then q else q + 1.

Fixpoint zeros (n : nat) : string := match n with O => "" | S n => String "0" (zeros n) end.

Definition pad_zeros (width : nat) (s : string) : string := zeros (width - String.length s) +:+ s.

Definition sign_str (x : Q) : string := if Qnum x <? 0 then "-" else "".

(** Decimal notation with [prec] digits after the point. *)
Definition fmt_fixed (prec : nat) (x : Q) : string :=
  let r := round_half_even (Z.abs (Qnum x) * 10 ^ Z.of_nat prec) (Zpos (Qden x)) in
  let ip := r / 10 ^ Z.of_nat prec in
  let fp := r mod 10 ^ Z.of_nat prec in
  sign_str x +:+ fmt_d ip +:+ (if prec is O then "" else String "." (pad_zeros prec (fmt_d fp))).

(** [%lf], [%Lf], [std::to_string] of a floating-point number. *)
Definition fmt_lf (x : Q) : string := fmt_fixed 6 x.

(** [%g]: six significant digits, trailing zeros removed. *)
Fixpoint leading_zeros (fuel : nat) (n d : Z) : Z :=
  match fuel with
  | O => 0
  | S fuel => if d <=? 10 * n then 1 else 1 + leading_zeros fuel (10 * n) d
  end.

(** The exponent [e] of a positive number: [10^e <= n/d < 10^(e+1)]. *)
Definition decimal_exponent (n d : Z) : Z :=
  if d <=? n then Z.of_nat (String.length (fmt_d (n / d))) - 1
  else - leading_zeros (String.length (fmt_d d)) n d.

Fixpoint drop_zeros (l : list ascii) : list ascii :=
  match l with
  | c :: l' => if Ascii.eqb c "0" then drop_zeros l'
               else if Ascii.eqb c "." then l' else l
  | [] => []
  end.
Definition strip_zeros (s : string) : string :=
  if str_contains_char "." s
  then string_of_list_ascii (List.rev (drop_zeros (List.rev (list_ascii_of_string s))))
  else s.

Definition scale (n d k : Z) : Z * Z := if 0 <=? k then (n * 10 ^ k, d) else (n, d * 10 ^ (- k)).

Definition fmt_g (x : Q) : string :=
  if Qnum x =? 0 then "0" else
  let n := Z.abs (Qnum x) in
  let d := Zpos (Qden x) in
  let e := decimal_exponent n d in
  let '(n', d') := scale n d (5 - e) in
  let m := round_half_even n' d' in
  let '(m, e) := if m =? 10 ^ 6 then (10 ^ 5, e + 1) else (m, e) in
  if (-4 <=? e) && (e <? 6)
  then strip_zeros (fmt_fixed (Z.to_nat (5 - e)) x)
  else
    let digits := fmt_d m in
    sign_str x +:+ strip_zeros (String.substring 0 1 digits +:+ String "." (String.substring 1 5 digits))
      +:+ "e" +:+ (if e <? 0 then "-" else "+") +:+ pad_zeros 2 (fmt_d (Z.abs e)).

(** [snprintf] into a buffer of [buf_size] characters, followed by the check
    that the buffer has not been filled. *)
Definition snprintf (buf_size : Z) (text : string) : result string :=
  xbt_assert (Z.of_nat (String.length text) <? buf_size - 1)
    "Writing error: buffer has been completely filled";;
  Ok text.

Example fmt_examples :
  fmt_lf (3 # 2) = "1.500000" /\ fmt_lf (- (1 # 3)) = "-0.333333" /\ fmt_lf (2000000001 # 1000000000) = "2.000000" /\
  fmt_g (3 # 2) = "1.5" /\ fmt_g 100000 = "100000" /\ fmt_g 1000000 = "1e+06" /\ fmt_g (1 # 100000) = "1e-05" /\
  fmt_g (9999995 # 10) = "1e+06" /\ fmt_g 1234567 = "1.23457e+06" /\ fmt_g (- (1 # 10)) = "-0.1" /\ fmt_g 0 = "0".
Proof. vm_compute. repeat split. Qed.

(** ** WriteBuffer *)

Record WriteBuffer := mk_WriteBuffer {
  wb_file : string;      (* what has been written into the file *)
  wb_buffer : string;    (* buffer[0 .. buffer_pos) *)
  wb_size : Z;           (* buffer_size *)
}.
#[export] Instance eta_WriteBuffer : Eta WriteBuffer := fun r =>
  mk_WriteBuffer (wb_file r) (wb_buffer r) (wb_size r).

Definition buffer_pos (wb : WriteBuffer) : Z := Z.of_nat (String.length (wb_buffer wb)).

Definition default_buffer_size : Z := 64 * 1024.

(** The file is truncated when it is opened. *)
Definition new_WriteBuffer (buffer_size : Z) : result WriteBuffer :=
  xbt_assert (0 <? buffer_size) "Invalid buffer size";;
  Ok (mk_WriteBuffer "" "" buffer_size).

Definition flush_buffer (wb : WriteBuffer) : WriteBuffer :=
  mk_WriteBuffer (wb_file wb +:+ wb_buffer wb) "" (wb_size wb).

Definition append_text (wb : WriteBuffer) (text : string) : WriteBuffer :=
  let text_length := Z.of_nat (String.length text) in
  if buffer_pos wb + text_length <? wb_size wb
  then wb <| wb_buffer := wb_buffer wb +:+ text |>
  else
    let wb := flush_buffer wb in
    if text_length <? wb_size wb
    then wb <| wb_buffer := text |>
    else wb <| wb_file := wb_file wb +:+ text |>.

(** The destructor. *)
Definition close_WriteBuffer (wb : WriteBuffer) : WriteBuffer :=
  if 0 <? buffer_pos wb then flush_buffer wb else wb.

(** What the tracers share, [flush] and [close_buffer]: closing
    the buffer writes what is left of it, so that the file is complete. *)

Definition tracer_flush (wbuf : option WriteBuffer) : result (option WriteBuffer) :=
  wb ← of_option (Abort "wrong call: _wbuf is null") wbuf;
  Ok (Some (flush_buffer wb)).

(** The file, and the tracer without its buffer. *)
Definition tracer_close_buffer (wbuf : option WriteBuffer) : result (string * option WriteBuffer) :=
  wb ← of_option (Abort "wrong call: _wbuf is null") wbuf;
  Ok (wb_file (close_WriteBuffer wb), None).

(** Everything handed to the buffer so far. *)
Definition written (wb : WriteBuffer) : string := wb_file wb +:+ wb_buffer wb.

Definition wb_wf (wb : WriteBuffer) : Prop := buffer_pos wb < wb_size wb.

Lemma append_text_written wb text : written (append_text wb text) = written wb +:+ text.
Proof.
  unfold append_text, written, flush_buffer. destruct (_ <? _); cbn.
  - by rewrite str_app_assoc.
  - destruct (_ <? _); cbn; by rewrite ?str_app_nil_r.
Qed.

Lemma append_text_wf wb text : 0 < wb_size wb -> wb_wf wb -> wb_wf (append_text wb text).
Proof.
  unfold append_text, wb_wf, flush_buffer, buffer_pos. intros Hs Hw.
  destruct (Z.ltb_spec (Z.of_nat (String.length (wb_buffer wb)) + Z.of_nat (String.length text)) (wb_size wb)); cbn.
  - rewrite str_length_app. lia.
  - destruct (Z.ltb_spec (Z.of_nat (String.length text)) (wb_size wb)); cbn; lia.
Qed.

Lemma append_text_size wb text : wb_size (append_text wb text) = wb_size wb.
Proof. unfold append_text. destruct (_ <? _); [done|]. cbn. by destruct (_ <? _). Qed.

Lemma close_written wb : wb_file (close_WriteBuffer wb) = written wb.
Proof.
  unfold close_WriteBuffer, written, buffer_pos.
  destruct (Z.ltb_spec 0 (Z.of_nat (String.length (wb_buffer wb)))); [done|].
  destruct (wb_buffer wb); [by rewrite str_app_nil_r|cbn in *; lia].
Qed.

#[export] Hint Rewrite append_text_written append_text_size close_written : batsim.

Lemma append_texts_written wb texts :
  written (foldl append_text wb texts) = written wb +:+ str_concat texts.
Proof.
  revert wb; induction texts as [|t texts IH]; intros wb; cbn; [by rewrite str_app_nil_r|].
  by rewrite IH, append_text_written, str_app_assoc.
Qed.

(** Whatever the buffer size and the sequence of texts, the closed file
    holds the texts in order and nothing else; in between, the buffer never
    overflows and the file followed by the buffer is what was appended. *)
Theorem write_buffer_contents size texts wb :
  new_WriteBuffer size = Ok wb ->
  let wb' := foldl append_text wb texts in
  wb_file (close_WriteBuffer wb') = str_concat texts /\
  buffer_pos wb' < size /\
  wb_file (flush_buffer wb') = wb_file (close_WriteBuffer wb').
Proof.
  unfold new_WriteBuffer. intros Hn. inv_ok. apply Z.ltb_lt in H. cbn.
  rewrite close_written, append_texts_written. split_and!; [done| |].
  - assert (forall wb, 0 < wb_size wb -> wb_wf wb ->
      wb_wf (foldl append_text wb texts) /\ wb_size (foldl append_text wb texts) = wb_size wb) as Hwf.
    { induction texts as [|t texts IH]; intros wb Hs Hw; cbn; [done|].
      rewrite <- (append_text_size wb t). apply IH; [by rewrite append_text_size|by apply append_text_wf]. }
    destruct (Hwf (mk_WriteBuffer "" "" size)) as [Hw Hs]; [done|done|].
    unfold wb_wf in Hw. by rewrite Hs in Hw.
  - by rewrite <- append_texts_written.
Qed.

Example write_buffer_contents_witness :
  wb_file (close_WriteBuffer (foldl append_text (mk_WriteBuffer "" "" 4) ["ab"; "c"; "defgh"; "i"])) = "abcdefghi".
Proof.
  destruct (write_buffer_contents 4 ["ab"; "c"; "defgh"; "i"] (mk_WriteBuffer "" "" 4)) as [H _]; [reflexivity|].
  exact H.
Defined.

(** ** The Pajé tracer *)

Inductive PajeTracerState := UNINITIALIZED | INITIALIZED | FINALIZED.
#[export] Instance PajeTracerState_eq_dec : EqDecision PajeTracerState.
Proof. solve_decision. Defined.

Record PajeTracer := mk_PajeTracer {
  pt_log_launchings : bool;
  pt_wbuf : option WriteBuffer;
  pt_jobs : gmap string string;      (* JobIdentifier -> Pajé representation *)
  pt_colors : list string;
  pt_state : PajeTracerState;
  pt_nb_total_jobs : Z;
}.
#[export] Instance eta_PajeTracer : Eta PajeTracer := fun r =>
  mk_PajeTracer (pt_log_launchings r) (pt_wbuf r) (pt_jobs r) (pt_colors r) (pt_state r) (pt_nb_total_jobs r).

Module Paje.
Definition rootType := "root_ct".
Definition machineType := "machine_ct".
Definition machineState := "machine_state".
Definition schedulerType := "scheduler_ct".
Definition killerType := "killer_ct".
Definition killEventKiller := "kk".
Definition killEventMachine := "km".
Definition utilizationVarType := "vu_vt".
Definition mstateWaiting := "w".
Definition mstateLaunching := "l".
Definition root := "root".
Definition scheduler := "sc".
Definition killer := "k".
Definition machinePrefix := "m".
Definition jobPrefix := "j".
Definition waitingColor := dq +:+ "0.0 0.0 0.0" +:+ dq.
Definition launchingColor := dq +:+ "0.3 0.3 0.3" +:+ dq.
Definition utilizationColor := dq +:+ "0.0 0.5 0.0" +:+ dq.

Definition DEFINE_CONTAINER_TYPE := "1".
Definition CREATE_CONTAINER := "2".
Definition DESTROY_CONTAINER := "3".
Definition DEFINE_STATE_TYPE := "4".
Definition DEFINE_ENTITY_VALUE := "5".
Definition SET_STATE := "6".
Definition DEFINE_EVENT_TYPE := "7".
Definition NEW_EVENT := "8".
Definition DEFINE_VARIABLE_TYPE := "9".
Definition SET_VARIABLE := "10".

Definition quoted (s : string) : string := dq +:+ s +:+ dq.

(** A line of blank-separated words. *)
Definition line (words : list string) : string := String.concat " " words +:+ nl.

(** [*_wbuf] *)
Definition the_wbuf (o : option WriteBuffer) : result WriteBuffer :=
  of_option (Undef "null WriteBuffer pointer") o.

(** Formatting into a bounded buffer, then appending. *)
Definition print (buf_size : Z) (text : string) (t : PajeTracer) : result PajeTracer :=
  text ← snprintf buf_size text;
  wb ← the_wbuf (pt_wbuf t);
  Ok (t <| pt_wbuf := Some (append_text wb text) |>).

(** [generate_colors] *)
Definition hsv_to_rgb (h s v : Q) : Q * Q * Q :=
  if (s =?q 0)%Q then (v, v, v) else
  let h := (h / 60)%Q in
  let i := Qnum h / Zpos (Qden h) in
  let f := (h - inject_Z i)%Q in
  let p := (v * (1 - s))%Q in
  let q := (v * (1 - s * f))%Q in
  let t := (v * (1 - s * (1 - f)))%Q in
  match i with
  | 0 => (v, t, p)
  | 1 => (q, v, p)
  | 2 => (p, v, t)
  | 3 => (p, q, v)
  | 4 => (t, p, v)
  | _ => (v, p, q)
  end.

Definition color_of (color_count i : Z) : result string :=
  let hueFraction := (360 / inject_Z color_count)%Q in
  let '(r, g, b) := hsv_to_rgb (inject_Z i * hueFraction)%Q 1 1 in
  snprintf 256 (quoted (fmt_lf r +:+ " " +:+ fmt_lf g +:+ " " +:+ fmt_lf b)).

Definition generate_colors (color_count : Z) : result (list string) :=
  xbt_assert (0 <? color_count) "wrong call: color_count must be strictly positive";;
  mapM_r (fun i => color_of color_count (Z.of_nat i)) (seq 0 (Z.to_nat color_count)).

(** [PajeTracer(log_launchings)]: [shuffle] is the outcome of [std::shuffle]
    with a randomly seeded generator. *)
Definition new_PajeTracer (shuffle : list string -> list string) (log_launchings : bool)
  : result PajeTracer :=
  colors ← generate_colors 64;
  Ok (mk_PajeTracer log_launchings None ∅ (shuffle colors) UNINITIALIZED 0).

Definition set_filename (t : PajeTracer) : result PajeTracer :=
  xbt_assert (match pt_wbuf t with None => true | _ => false end)
    "Double call of PajeTracer::set_filename";;
  wb ← new_WriteBuffer default_buffer_size;
  Ok (t <| pt_wbuf := Some wb |>).

Definition set_state_line (time : Q) (machine_id : Z) (value : string) : string :=
  line [SET_STATE; fmt_lf time; machineState; machinePrefix +:+ fmt_d machine_id; value].

Definition set_machine_idle (machine_id : Z) (time : Q) (t : PajeTracer) : result PajeTracer :=
  print 256 (set_state_line time machine_id mstateWaiting) t.

Definition entity_line (job_id : JobIdentifier) (color : string) : string :=
  line [DEFINE_ENTITY_VALUE; jobPrefix +:+ ji_to_string job_id; machineState;
        quoted (ji_to_string job_id); color].

Definition register_new_job (job_id : JobIdentifier) (t : PajeTracer) : result PajeTracer :=
  xbt_assert (negb (bool_decide (is_Some (pt_jobs t !! ji_to_string job_id))))
    "Cannot register new job: it already exists";;
  color ← (match pt_colors t with
           | [] => Err (Undef "modulo by zero")
           | _ => of_option (Undef "_colors out of range")
                    (pt_colors t !! Z.to_nat (pt_nb_total_jobs t mod Z.of_nat (length (pt_colors t))))
           end);
  let t := t <| pt_nb_total_jobs := u32 (pt_nb_total_jobs t + 1) |> in
  t ← print 256 (entity_line job_id color) t;
  Ok (t <| pt_jobs := <[ji_to_string job_id := jobPrefix +:+ ji_to_string job_id]> (pt_jobs t) |>).

Definition set_machine_as_computing_job (machine_id : Z) (job_id : JobIdentifier) (time : Q)
  (t : PajeTracer) : result PajeTracer :=
  t ← (match pt_jobs t !! ji_to_string job_id with
       | None => register_new_job job_id t
       | Some _ => Ok t
       end);
  repr ← of_option (Undef "end iterator") (pt_jobs t !! ji_to_string job_id);
  print 256 (set_state_line time machine_id repr) t.

Definition add_job_launching (used_machine_ids : list Z) (time : Q) (t : PajeTracer) : result PajeTracer :=
  xbt_assert (bool_decide (pt_state t = INITIALIZED)) "Bad addJobLaunching call";;
  if pt_log_launchings t
  then foldM (fun t machineID => print 256 (set_state_line time machineID mstateLaunching) t) t used_machine_ids
  else Ok t.

Definition add_job_kill {IS} `{IntervalSet IS} (job_id : JobIdentifier) (used_machine_ids : IS) (time : Q)
  (associate_kill_to_machines : bool) (t : PajeTracer) : result PajeTracer :=
  xbt_assert (bool_decide (pt_state t = INITIALIZED)) "Bad addJobKill call";;
  t ← print 256 (line [NEW_EVENT; fmt_lf time; killEventKiller; killer; quoted (ji_to_string job_id)]) t;
  if associate_kill_to_machines
  then foldM (fun t machine_id =>
         print 256 (line [NEW_EVENT; fmt_lf time; killEventMachine;
                          machinePrefix +:+ fmt_d machine_id; quoted (ji_to_string job_id)]) t)
         t (elements_of used_machine_ids)
  else Ok t.

(** The event definitions at the top of the trace: a number, a name, and the
    fields as they are spelled (some with trailing blanks). *)
Definition event_def (name number : string) (fields : list string) (tail : string) : string :=
  "%EventDef " +:+ name +:+ " " +:+ number +:+ nl +:+
  str_concat ((fun f => "% " +:+ f +:+ nl) <$> fields) +:+ "%EndEventDef" +:+ tail +:+ nl +:+ nl.

Definition header : string :=
  str_concat [
    event_def "PajeDefineContainerType" DEFINE_CONTAINER_TYPE ["Type string"; "Alias string"; "Name string"] "";
    event_def "PajeCreateContainer" CREATE_CONTAINER
      ["Time date "; "Type string  "; "Alias string "; "Name string   "; "Container string  "] "";
    event_def "PajeDestroyContainer" DESTROY_CONTAINER ["Time date"; "Name string "; "Type string"] "";
    event_def "PajeDefineStateType" DEFINE_STATE_TYPE ["Alias string "; "Type string "; "Name string "] "";
    event_def "PajeDefineEntityValue" DEFINE_ENTITY_VALUE
      ["Alias string  "; "Type string  "; "Name string  "; "Color color "] "";
    event_def "PajeSetState" SET_STATE
      ["Time date  "; "Type string  "; "Container string  "; "Value string  "] " ";
    event_def "PajeDefineEventType" DEFINE_EVENT_TYPE ["Type string"; "Alias string"; "Name string"] "";
    event_def "PajeNewEvent" NEW_EVENT ["Time date"; "Type string"; "Container string"; "Value string"] "";
    event_def "PajeDefineVariableType" DEFINE_VARIABLE_TYPE
      ["Type string"; "Alias string"; "Name string"; "Color string"] "";
    event_def "PajeSetVariable" SET_VARIABLE
      ["Time date"; "Type string"; "Container string"; "Value double"] ""].

Definition container_types : string :=
  str_concat [
    "# Container types creation" +:+ nl;
    line [DEFINE_CONTAINER_TYPE; "0"; rootType; quoted "Machines"];
    line [DEFINE_CONTAINER_TYPE; rootType; machineType; quoted "Machine"];
    line [DEFINE_CONTAINER_TYPE; "0"; schedulerType; quoted "Scheduler"];
    line [DEFINE_CONTAINER_TYPE; schedulerType; killerType; quoted "Killer"]; nl].

Definition event_types : string :=
  str_concat [
    "# Event types creation" +:+ nl;
    line [DEFINE_EVENT_TYPE; killerType; killEventKiller; quoted "Job kill"];
    line [DEFINE_EVENT_TYPE; machineType; killEventMachine; quoted "Job kill"]; nl].

Definition variable_types : string :=
  str_concat [
    "# Variable types creation" +:+ nl;
    line [DEFINE_VARIABLE_TYPE; schedulerType; utilizationVarType; quoted "Utilization"; utilizationColor]; nl].

Definition containers_creation (time : Q) : string :=
  "# Containers creation" +:+ nl +:+
  line [CREATE_CONTAINER; fmt_lf time; rootType; root; quoted "Machines"; "0"].

Definition machine_container (time : Q) (m : Z * string) : string :=
  line [CREATE_CONTAINER; fmt_lf time; machineType; machinePrefix +:+ fmt_d m.1; quoted m.2; root].

Definition scheduler_containers (time : Q) : string :=
  str_concat [
    line [CREATE_CONTAINER; fmt_lf time; schedulerType; scheduler; quoted "Scheduler"; "0"];
    line [CREATE_CONTAINER; fmt_lf time; killerType; killer; quoted "Killer"; scheduler]; nl].

Definition states_creation : string :=
  str_concat [
    "# States creation" +:+ nl;
    line [DEFINE_STATE_TYPE; machineState; machineType; quoted "Machine state"]; nl].

Definition state_values : string :=
  str_concat [
    "# Creation of the different values the machine state can be" +:+ nl;
    line [DEFINE_ENTITY_VALUE; mstateWaiting; machineState; quoted "Waiting"; waitingColor];
    line [DEFINE_ENTITY_VALUE; mstateLaunching; machineState; quoted "Launching"; launchingColor];
    nl; "# Begin of events" +:+ nl].

(** [machines] lists the identifier and the name of each machine. *)
Definition initialize (machines : list (Z * string)) (time : Q) (t : PajeTracer) : result PajeTracer :=
  xbt_assert (bool_decide (pt_state t = UNINITIALIZED)) "Bad PajeTracer::initialize call";;
  let buf_size := 8 * 1024 in
  t ← foldM (fun t text => print buf_size text t) t
        ([header; container_types; event_types; variable_types; containers_creation time]
           ++ (machine_container time <$> machines)
           ++ [scheduler_containers time; states_creation; state_values]
           ++ ((fun m => set_state_line time m.1 mstateWaiting) <$> machines));
  Ok (t <| pt_state := INITIALIZED |>).

Definition finalize (machines : list (Z * string)) (time : Q) (t : PajeTracer)
  : result (PajeTracer * string) :=
  xbt_assert (bool_decide (pt_state t = INITIALIZED)) "Bad PajeTracer::finalize call";;
  t ← foldM (fun t text => print 256 text t) t
        ([nl +:+ "# End of events, containers destruction" +:+ nl]
           ++ ((fun m => line [DESTROY_CONTAINER; fmt_lf time; machinePrefix +:+ fmt_d m.1; machineType]) <$> machines)
           ++ [line [DESTROY_CONTAINER; fmt_lf time; root; rootType]]);
  wb ← the_wbuf (pt_wbuf t);
  let file := wb_file (close_WriteBuffer (flush_buffer wb)) in
  Ok (t <| pt_wbuf := None |> <| pt_state := FINALIZED |>, file).
End Paje.

(** ** Theorems on the Pajé trace *)

Section PajeFacts.
Context {IS : Type} `{IntervalSet IS}.

(** The calls that a simulation makes between the initialisation and the end. *)
Inductive paje_call :=
| CallRegister (job_id : JobIdentifier)
| CallIdle (machine_id : Z) (time : Q)
| CallComputing (machine_id : Z) (job_id : JobIdentifier) (time : Q)
| CallLaunching (used_machine_ids : list Z) (time : Q)
| CallKill (job_id : JobIdentifier) (used_machine_ids : IS) (time : Q) (associate_kill_to_machines : bool).

Definition run_paje_call (t : PajeTracer) (c : paje_call) : result PajeTracer :=
  match c with
  | CallRegister j => Paje.register_new_job j t
  | CallIdle m time => Paje.set_machine_idle m time t
  | CallComputing m j time => Paje.set_machine_as_computing_job m j time t
  | CallLaunching ms time => Paje.add_job_launching ms time t
  | CallKill j ms time associate => Paje.add_job_kill j ms time associate t
  end.

(** The events of a kill: one of the scheduler, then one for each machine. *)
Definition kill_lines (j : JobIdentifier) (ms : IS) (time : Q) (associate : bool) : list string :=
  let event container_type container :=
    Paje.line [Paje.NEW_EVENT; fmt_lf time; container_type; container; Paje.quoted (ji_to_string j)] in
  event Paje.killEventKiller Paje.killer ::
  (if associate then (fun m => event Paje.killEventMachine (Paje.machinePrefix +:+ fmt_d m)) <$> elements_of ms else []).

(** What these calls must print: a job is declared, with the next color, just
    before the first state that mentions it, and never again; the launchings are
    printed when asked, and a kill declares no job. *)
Fixpoint expected_trace (log_launchings : bool) (colors : list string) (known : gset string) (n : Z) (calls : list paje_call)
  : list string :=
  let declare j := Paje.entity_line j (default "" (colors !! Z.to_nat (n mod Z.of_nat (length colors)))) in
  match calls with
  | [] => []
  | CallRegister j :: calls => declare j :: expected_trace log_launchings colors ({[ji_to_string j]} ∪ known) (u32 (n + 1)) calls
  | CallIdle m time :: calls =>
      Paje.set_state_line time m Paje.mstateWaiting :: expected_trace log_launchings colors known n calls
  | CallComputing m j time :: calls =>
      let use := Paje.set_state_line time m (Paje.jobPrefix +:+ ji_to_string j) in
      if decide (ji_to_string j ∈ known)
      then use :: expected_trace log_launchings colors known n calls
      else declare j :: use :: expected_trace log_launchings colors ({[ji_to_string j]} ∪ known) (u32 (n + 1)) calls
  | CallLaunching ms time :: calls =>
      (if log_launchings then (fun m => Paje.set_state_line time m Paje.mstateLaunching) <$> ms else []) ++
      expected_trace log_launchings colors known n calls
  | CallKill j ms time associate :: calls =>
      kill_lines j ms time associate ++ expected_trace log_launchings colors known n calls
  end.

Definition paje_output (t : PajeTracer) : string :=
  match pt_wbuf t with Some wb => written wb | None => "" end.

(** The representation of a registered job is its prefixed identifier. *)
Definition paje_wf (t : PajeTracer) : Prop :=
  forall k r, pt_jobs t !! k = Some r -> r = Paje.jobPrefix +:+ k.

(** Besides what is printed. *)
Definition tracer_state (t : PajeTracer) := (pt_log_launchings t, pt_jobs t, pt_colors t, pt_nb_total_jobs t, pt_state t).

(** These lines are printed, and nothing else happens. *)
Definition printed (lines : list string) (t t' : PajeTracer) : Prop :=
  paje_output t' = paje_output t +:+ str_concat lines /\ tracer_state t' = tracer_state t.

Lemma printed_nothing t : printed [] t t.
Proof. split; [by rewrite str_app_nil_r|done]. Qed.

Lemma printed_app l1 l2 t1 t2 t3 : printed l1 t1 t2 -> printed l2 t2 t3 -> printed (l1 ++ l2) t1 t3.
Proof. intros [Ho1 Hs1] [Ho2 Hs2]. split; [by rewrite Ho2, Ho1, str_concat_app, str_app_assoc|congruence]. Qed.

Lemma print_output size text t t' : Paje.print size text t = Ok t' -> printed [text] t t'.
Proof.
  unfold Paje.print, snprintf, Paje.the_wbuf. intros Hp. inv_ok. split; [|done]. unfold paje_output. cbn.
  match goal with Hw : pt_wbuf t = Some _ |- _ => rewrite Hw end. by rewrite append_text_written, str_app_nil_r.
Qed.

Lemma print_all_output {A} size (f : A -> string) l t t' :
  foldM (fun t a => Paje.print size (f a) t) t l = Ok t' -> printed (f <$> l) t t'.
Proof.
  revert t; induction l as [|a l IH]; intros t; cbn [foldM]; [intros [= <-]; apply printed_nothing|].
  intros (t1 & H1%print_output & H2%IH)%bind_Ok. by apply (printed_app [f a] _ t t1).
Qed.

Lemma add_job_kill_output j ms time associate t t' :
  Paje.add_job_kill j ms time associate t = Ok t' -> printed (kill_lines j ms time associate) t t'.
Proof.
  unfold Paje.add_job_kill. intros (u & _ & (t1 & H1%print_output & Hr)%bind_Ok)%bind_Ok.
  apply (printed_app [_] _ t t1 t'); [exact H1|].
  destruct associate; [by eapply print_all_output|]. injection Hr as <-. apply printed_nothing.
Qed.

Lemma add_job_launching_output ms time t t' :
  Paje.add_job_launching ms time t = Ok t' ->
  printed (if pt_log_launchings t then (fun m => Paje.set_state_line time m Paje.mstateLaunching) <$> ms else []) t t'.
Proof.
  unfold Paje.add_job_launching. intros (u & _ & Hr)%bind_Ok.
  destruct (pt_log_launchings t); [by eapply print_all_output|]. injection Hr as <-. apply printed_nothing.
Qed.

Lemma register_new_job_spec j t t' :
  Paje.register_new_job j t = Ok t' ->
  exists color,
    pt_colors t !! Z.to_nat (pt_nb_total_jobs t mod Z.of_nat (length (pt_colors t))) = Some color /\
    paje_output t' = paje_output t +:+ Paje.entity_line j color /\
    pt_jobs t' = <[ji_to_string j := Paje.jobPrefix +:+ ji_to_string j]> (pt_jobs t) /\
    pt_log_launchings t' = pt_log_launchings t /\
    pt_colors t' = pt_colors t /\ pt_nb_total_jobs t' = u32 (pt_nb_total_jobs t + 1).
Proof.
  unfold Paje.register_new_job. intros Hr. inv_ok.
  destruct (pt_colors t) as [|c cs] eqn:Hc; [done|]. inv_ok. eexists. split; [done|].
  match goal with Hp : Paje.print _ _ _ = _ |- _ => apply print_output in Hp as [Ho [= Hl Hj Hcs Hn _]] end.
  cbn in Ho, Hj, Hcs, Hn, Hl |- *. rewrite str_app_nil_r in Ho. unfold paje_output in *. cbn in *. by rewrite Hj, <- Hc, <- Hcs.
Qed.

Lemma paje_continues lines t t1 (known : gset string) n calls text :
  printed lines t t1 ->
  text = paje_output t1 +:+ str_concat (expected_trace (pt_log_launchings t1) (pt_colors t1) known n calls) ->
  text = paje_output t +:+ str_concat (lines ++ expected_trace (pt_log_launchings t) (pt_colors t) known n calls).
Proof. intros [Ho [= Hl _ Hc _ _]] ->. by rewrite Ho, Hl, Hc, str_concat_app, str_app_assoc. Qed.

(** C39. On any sequence of calls that succeeds, launchings and kills included, the
    trace grows by exactly the expected lines: each job is declared once, at the latest
    before its first use as the state of a machine, and a kill declares nothing nor forgets that a
    job is declared. *)
Theorem paje_declares_jobs_before_use calls t t' :
  paje_wf t -> foldM run_paje_call t calls = Ok t' ->
  paje_output t' = paje_output t +:+
    str_concat (expected_trace (pt_log_launchings t) (pt_colors t) (dom (pt_jobs t)) (pt_nb_total_jobs t) calls) /\
  paje_wf t'.
Proof.
  revert t; induction calls as [|c calls IH]; intros t Hwf; cbn [foldM].
  - intros [= <-]. cbn. by rewrite str_app_nil_r.
  - intros (t1 & H1 & H2)%bind_Ok.
    assert (forall lines, printed lines t t1 -> 
      paje_output t' = paje_output t +:+ str_concat (lines ++
        expected_trace (pt_log_launchings t) (pt_colors t) (dom (pt_jobs t)) (pt_nb_total_jobs t) calls) /\ paje_wf t') as Hsimple.
    { intros lines Hp. pose proof Hp as [_ [= _ Hj _ Hn _]].
      destruct (IH t1) as [Ho Hwf']; [by intros k r; rewrite Hj; apply Hwf|done|]. split; [|done].
      rewrite Hj, Hn in Ho. by eapply paje_continues. }
    destruct c as [j|m time|m j time|ms time|j ms time associate]; cbn [run_paje_call] in H1.
    + apply register_new_job_spec in H1 as (color & Hcol & Ho1 & Hj1 & Hl1 & Hc1 & Hn1).
      destruct (IH t1) as [-> Hwf']; [|done|].
      { intros k r'. rewrite Hj1. intros [[<- <-]|[_ Hk]]%lookup_insert_Some; [done|by apply Hwf]. }
      split; [|done]. cbn [expected_trace str_concat].
      by rewrite Ho1, Hl1, Hj1, Hc1, Hn1, Hcol, dom_insert_L, !str_app_assoc.
    + by apply print_output, (Hsimple [_]) in H1.
    + unfold Paje.set_machine_as_computing_job in H1.
      apply bind_Ok in H1 as (t0 & H0 & (repr & Hr%of_option_Ok & Hp%print_output)%bind_Ok).
      destruct (pt_jobs t !! ji_to_string j) as [r|] eqn:Hreg.
      * injection H0 as <-. cbn [expected_trace].
        rewrite decide_True by (apply elem_of_dom; eauto). apply Hwf in Hr as ->. by apply (Hsimple [_]).
      * apply register_new_job_spec in H0 as (color & Hcol & Ho1 & Hj1 & Hl1 & Hc1 & Hn1).
        rewrite Hj1, lookup_insert_eq in Hr. injection Hr as <-. pose proof Hp as [Ho [= Hl Hj Hc Hn _]].
        destruct (IH t1) as [-> Hwf']; [|done|].
        { intros k r'. rewrite Hj, Hj1. intros [[<- <-]|[_ Hk]]%lookup_insert_Some; [done|by apply Hwf]. }
        split; [|done]. cbn [expected_trace]. rewrite decide_False by (by apply not_elem_of_dom). cbn [str_concat] in *.
        rewrite str_app_nil_r in Ho.
        by rewrite Ho, Hl, Hj, Hc, Hn, Ho1, Hl1, Hj1, Hc1, Hn1, Hcol, dom_insert_L, !str_app_assoc.
    + by apply add_job_launching_output, Hsimple in H1.
    + by apply add_job_kill_output, Hsimple in H1.
Qed.
End PajeFacts.
Arguments paje_call : clear implicits.

Definition example_colors : list string :=
  match Paje.generate_colors 4 with Ok l => l | Err _ => [] end.

Module PajeExamples.
Import Concrete.

Definition example_tracer : PajeTracer :=
  mk_PajeTracer false (Some (mk_WriteBuffer "" "" 64)) ∅ example_colors INITIALIZED 0.

(** The job is killed while it computes on the second machine again. *)
Definition example_calls : list (paje_call (list Z)) :=
  let j := mk_JobIdentifier "w" "1" "w!1" in
  [CallComputing 0 j 1; CallKill j [0] 2 true; CallComputing 1 j 2; CallIdle 0 (5 # 2)].

Example paje_declares_jobs_before_use_witness :
  exists t', foldM run_paje_call example_tracer example_calls = Ok t' /\
    paje_output t' =
      "5 jw!1 machine_state " +:+ dq +:+ "w!1" +:+ dq +:+ " " +:+
        dq +:+ "1.000000 0.000000 0.000000" +:+ dq +:+ nl +:+
      "6 1.000000 machine_state m0 jw!1" +:+ nl +:+
      "8 2.000000 kk k " +:+ dq +:+ "w!1" +:+ dq +:+ nl +:+
      "8 2.000000 km m0 " +:+ dq +:+ "w!1" +:+ dq +:+ nl +:+
      "6 2.000000 machine_state m1 jw!1" +:+ nl +:+
      "6 2.500000 machine_state m0 w" +:+ nl.
Proof.
  destruct (foldM run_paje_call example_tracer example_calls) as [t'|e] eqn:Hrun; [|by vm_compute in Hrun].
  exists t'. split; [done|].
  apply paje_declares_jobs_before_use in Hrun as [-> _]; [by vm_compute|].
  intros k r Hk. cbn in Hk. by rewrite lookup_empty in Hk.
Defined.
End PajeExamples.
