(* ===== verification/Machines.v ===== *)
(** * Machines (src/machines.hpp, src/machines.cpp, src/permissions.hpp, src/permissions.cpp)

    Roles and permissions, the [Machine] object, the container [Machines] with its
    counters of machines per state, its creation from the hosts of the platform,
    and the updates that job executions make.  [Machine *] pointers held by
    several vectors are indices into the vector of all machines. *)

From S2P Require Import Prelude Interfaces Profiles Jobs NumericStrcmp Outputs.

(** ** Roles *)

Module roles.
Definition NONE := 0x0.
Definition COMPUTE_FLOPS := 0x1.
Definition RECEIVE_BYTES := 0x2.
Definition SEND_BYTES := 0x4.
Definition ALTER_STATE := 0x8.
Definition MASTER := NONE.
Definition COMPUTE_NODE := Z.lor (Z.lor COMPUTE_FLOPS RECEIVE_BYTES) SEND_BYTES.
Definition STORAGE := Z.lor RECEIVE_BYTES SEND_BYTES.

(** [map_str_to_role.at(str)]; [std::out_of_range] becomes [std::invalid_argument]. *)
Definition permissions_from_role (str : string) : result Z :=
  if String.eqb str "" then Ok COMPUTE_NODE
  else if String.eqb str "master" then Ok MASTER
  else if String.eqb str "compute_node" then Ok COMPUTE_NODE
  else if String.eqb str "storage" then Ok STORAGE
  else Err (Throw "Cannot create any role from string description").
End roles.

(** ** States of machines and power states *)

Inductive MachineState :=
| SLEEPING
| IDLE
| COMPUTING
| TRANSITING_FROM_SLEEPING_TO_COMPUTING
| TRANSITING_FROM_COMPUTING_TO_SLEEPING
| UNAVAILABLE.
#[export] Instance MachineState_eq_dec : EqDecision MachineState.
Proof. solve_decision. Defined.

Definition MachineState_to_N (s : MachineState) : N :=
  match s with
  | SLEEPING => 0 | IDLE => 1 | COMPUTING => 2
  | TRANSITING_FROM_SLEEPING_TO_COMPUTING => 3
  | TRANSITING_FROM_COMPUTING_TO_SLEEPING => 4 | UNAVAILABLE => 5
  end%N.
Definition MachineState_of_N (n : N) : MachineState :=
  match n with
  | 0 => SLEEPING | 1 => IDLE | 2 => COMPUTING
  | 3 => TRANSITING_FROM_SLEEPING_TO_COMPUTING
  | 4 => TRANSITING_FROM_COMPUTING_TO_SLEEPING | _ => UNAVAILABLE
  end%N.
#[export] Instance MachineState_countable : Countable MachineState.
Proof. apply (inj_countable' MachineState_to_N MachineState_of_N). by intros []. Defined.

(** The vector [machine_states] that several functions start with. *)
Definition machine_states : list MachineState :=
  [SLEEPING; IDLE; COMPUTING; TRANSITING_FROM_SLEEPING_TO_COMPUTING;
   TRANSITING_FROM_COMPUTING_TO_SLEEPING; UNAVAILABLE].

Definition machine_state_to_string (state : MachineState) : string :=
  match state with
  | SLEEPING => "sleeping"
  | IDLE => "idle"
  | COMPUTING => "computing"
  | TRANSITING_FROM_SLEEPING_TO_COMPUTING => "switching_on"
  | TRANSITING_FROM_COMPUTING_TO_SLEEPING => "switching_off"
  | UNAVAILABLE => "unavailable"
  end.

Inductive PStateType := COMPUTATION_PSTATE | SLEEP_PSTATE | TRANSITION_VIRTUAL_PSTATE.
#[export] Instance PStateType_eq_dec : EqDecision PStateType.
Proof. solve_decision. Defined.

Record SleepPState := mk_SleepPState {
  sleep_pstate : Z;
  switch_on_virtual_pstate : Z;
  switch_off_virtual_pstate : Z;
}.

(** ** [std::set<JobPtr>]: pointers in increasing order *)
Fixpoint pset_insert (x : positive) (l : list positive) : list positive :=
  match l with
  | [] => [x]
  | y :: l' => if (x <? y)%positive then x :: l
               else if (x =? y)%positive then l else y :: pset_insert x l'
  end.
Definition pset_erase (x : positive) (l : list positive) : list positive :=
  filter (fun y => y ≠ x) l.

(** ** Machine *)

Record Machine (Host : Type) := mk_Machine {
  m_id : Z;
  m_name : string;
  m_host : Host;
  m_permissions : Z;
  m_state : MachineState;
  m_jobs_being_computed : list positive;
  m_pstates : gmap Z PStateType;
  m_sleep_pstates : gmap Z SleepPState;
  m_last_state_change_date : Q;
  m_time_spent_in_each_state : gmap MachineState Q;
  m_properties : gmap string string;
  m_zone_properties : gmap string string;
}.
Arguments mk_Machine {Host}.
Arguments m_id {Host}. Arguments m_name {Host}. Arguments m_host {Host}.
Arguments m_permissions {Host}. Arguments m_state {Host}.
Arguments m_jobs_being_computed {Host}. Arguments m_pstates {Host}.
Arguments m_sleep_pstates {Host}. Arguments m_last_state_change_date {Host}.
Arguments m_time_spent_in_each_state {Host}. Arguments m_properties {Host}.
Arguments m_zone_properties {Host}.
#[export] Instance eta_Machine {Host} : Eta (Machine Host) := fun r =>
  mk_Machine (m_id r) (m_name r) (m_host r) (m_permissions r) (m_state r) (m_jobs_being_computed r)
    (m_pstates r) (m_sleep_pstates r) (m_last_state_change_date r) (m_time_spent_in_each_state r)
    (m_properties r) (m_zone_properties r).

Definition zero_time_spent : gmap MachineState Q := list_to_map ((fun s => (s, 0%Q)) <$> machine_states).

(** [Machine(machines)], then its name and host; the identifier is not set yet. *)
Definition new_Machine {Host} (name : string) (host : Host) : Machine Host :=
  mk_Machine 0 name host roles.NONE IDLE [] ∅ ∅ 0 zero_time_spent ∅ ∅.

Definition has_role {Host} (m : Machine Host) (role : Z) : bool :=
  Z.land role (m_permissions m) =? role.

Definition has_pstate {Host} (m : Machine Host) (pstate : Z) : bool :=
  match m_pstates m !! pstate with Some _ => true | None => false end.

(** [machine->pstates[ps]]: [operator[]] of a map inserts a default element, and
    the default power state type is the first of the enumeration. *)
Definition pstates_at {Host} (m : Machine Host) (ps : Z) : PStateType * Machine Host :=
  match m_pstates m !! ps with
  | Some t => (t, m)
  | None => (COMPUTATION_PSTATE, m <| m_pstates ::= <[ps := COMPUTATION_PSTATE]> |>)
  end.

Definition jobs_being_computed_as_string {IS Host} (jh : job_heap IS) (m : Machine Host) : result string :=
  ids ← mapM_r (fun jp => j ← deref_job jh jp; Ok (ji_to_string (id j))) (m_jobs_being_computed m);
  Ok (String.concat ", " ids).

(** The text that [display_machine] logs; a [std::map<int, _>] is gone through in the
    order of its keys. *)
Definition key_le {A} (a b : Z * A) : Prop := a.1 <= b.1.
#[export] Instance key_le_dec {A} : RelDecision (key_le (A := A)) := fun a b => decide (a.1 <= b.1).
Definition in_key_order {A} (m : gmap Z A) : list (Z * A) := merge_sort key_le (map_to_list m).

Definition pstates_of_type {Host} (m : Machine Host) (t : PStateType) : list string :=
  (fun kv => fmt_d kv.1) <$> List.filter (fun kv : Z * PStateType => bool_decide (kv.2 = t)) (in_key_order (m_pstates m)).

Definition display_pstates (title : string) (pstates : list string) : string :=
  "  " +:+ title +:+ "  = [" +:+ nl +:+ String.concat ", " pstates +:+ "]" +:+ nl.

Definition display_sleep_pstate (s : SleepPState) : string :=
  "    sleep_ps=" +:+ fmt_d (sleep_pstate s) +:+ ", on_ps=" +:+ fmt_d (switch_on_virtual_pstate s) +:+
  ", off_ps=" +:+ fmt_d (switch_off_virtual_pstate s) +:+ nl.

Definition display_energy {Host} (m : Machine Host) : string :=
  display_pstates "pstates" ((fun kv => fmt_d kv.1) <$> in_key_order (m_pstates m)) +:+
  display_pstates "computation pstates" (pstates_of_type m COMPUTATION_PSTATE) +:+
  display_pstates "sleep pstates" (pstates_of_type m SLEEP_PSTATE) +:+
  display_pstates "virtual transition pstates" (pstates_of_type m TRANSITION_VIRTUAL_PSTATE) +:+
  str_concat ((fun kv => display_sleep_pstate kv.2) <$> in_key_order (m_sleep_pstates m)).

Definition display_machine {IS Host} (jh : job_heap IS) (is_energy_used : bool) (m : Machine Host) : result string :=
  jobs ← jobs_being_computed_as_string jh m;
  Ok ("Machine" +:+ nl +:+
      "  id = " +:+ fmt_d (m_id m) +:+ nl +:+
      "  name = '" +:+ m_name m +:+ "'" +:+ nl +:+
      "  state = " +:+ machine_state_to_string (m_state m) +:+ nl +:+
      "  jobs_being_computed = [" +:+ jobs +:+ "]" +:+ nl +:+
      (if is_energy_used then display_energy m else "")).

(** ** Machines *)

Record Machines (Host : Type) := mk_Machines {
  ms_machines : list (Machine Host);
  ms_storage_nodes : list nat;
  ms_compute_nodes : list nat;
  ms_master_machine : option (Machine Host);
  ms_tracer : bool;       (* whether _tracer points to the context's PajeTracer *)
  ms_nb_machines_in_each_state : gmap MachineState Z;
}.
Arguments mk_Machines {Host}.
Arguments ms_machines {Host}. Arguments ms_storage_nodes {Host}.
Arguments ms_compute_nodes {Host}. Arguments ms_master_machine {Host}.
Arguments ms_tracer {Host}. Arguments ms_nb_machines_in_each_state {Host}.
#[export] Instance eta_Machines {Host} : Eta (Machines Host) := fun r =>
  mk_Machines (ms_machines r) (ms_storage_nodes r) (ms_compute_nodes r) (ms_master_machine r)
    (ms_tracer r) (ms_nb_machines_in_each_state r).

Definition new_Machines {Host} : Machines Host :=
  mk_Machines [] [] [] None false (list_to_map ((fun s => (s, 0)) <$> machine_states)).

Definition count_of (counts : gmap MachineState Z) (s : MachineState) : Z := default 0 (counts !! s).

Section Machines.
Context {Host : Type}.
Implicit Types (ms : Machines Host) (m : Machine Host).

Definition exists_ ms (machineID : Z) : bool :=
  (0 <=? machineID) && (machineID <? Z.of_nat (length (ms_machines ms))).

(** [operator[]] *)
Definition machine_at ms (machineID : Z) : result (Machine Host) :=
  xbt_assert (exists_ ms machineID) "Cannot get machine: it does not exist";;
  of_option (Undef "_machines out of range") (ms_machines ms !! Z.to_nat machineID).

(** [_machines[static_cast<size_t>(machine_id)]], without a check. *)
Definition machine_unchecked ms (machine_id : Z) : result (Machine Host) :=
  if machine_id <? 0 then Err (Undef "_machines out of range")
  else of_option (Undef "_machines out of range") (ms_machines ms !! Z.to_nat machine_id).

Definition machine_by_name_or_null ms (name : string) : option nat :=
  fst <$> list_find (fun m => m_name m = name) (ms_machines ms).

Definition master_machine ms : result (Machine Host) :=
  of_option (Abort "Trying to access the master machine, which does not exist.") (ms_master_machine ms).

Definition nb_machines ms : Z := u32 (Z.of_nat (length (ms_machines ms))).
Definition nb_compute_machines ms : Z := u32 (Z.of_nat (length (ms_compute_nodes ms))).
Definition nb_storage_machines ms : Z := u32 (Z.of_nat (length (ms_storage_nodes ms))).

(** The text that [display_debug] logs. *)
Definition display_debug ms : string :=
  "Machines debug information:" +:+ nl +:+
  "There are " +:+ fmt_d (Z.of_nat (length (ms_machines ms))) +:+ " machines." +:+ nl +:+
  "Mobs : [" +:+ String.concat ", " ((fun m => m_name m +:+ "(" +:+ fmt_d (m_id m) +:+ ")") <$> ms_machines ms) +:+ "]".

Definition set_tracer ms : Machines Host := ms <| ms_tracer := true |>.

Definition update_nb_machines_in_each_state (old_state new_state : MachineState)
  (counts : gmap MachineState Z) : gmap MachineState Z :=
  let counts := <[old_state := count_of counts old_state - 1]> counts in
  <[new_state := count_of counts new_state + 1]> counts.

(** Storing a machine object back, under a valid index. *)
Definition store_machine ms (machine_id : Z) m : Machines Host :=
  ms <| ms_machines ::= <[Z.to_nat machine_id := m]> |>.

(** [Machine::update_machine_state] on the machine object [m] of index
    [machine_id], [current_date] being the engine's clock. *)
Definition update_machine_state (current_date : Q) ms (machine_id : Z) (new_state : MachineState)
  : result (Machines Host) :=
  m ← machine_unchecked ms machine_id;
  let delta_time := (current_date - m_last_state_change_date m)%Q in
  xbt_assert (0 <=?q delta_time)%Q "time inconsistency: time has decreased since last call";;
  let time_spent := default 0%Q (m_time_spent_in_each_state m !! m_state m) in
  let m' := m <| m_time_spent_in_each_state ::= <[m_state m := (time_spent + delta_time)%Q]> |>
              <| m_state := new_state |> <| m_last_state_change_date := current_date |> in
  Ok (store_machine ms machine_id m'
        <| ms_nb_machines_in_each_state ::= update_nb_machines_in_each_state (m_state m) new_state |>).
End Machines.

(** ** The trace of the machine states (export.cpp) *)

Record MachineStateTracer := mk_MachineStateTracer {
  mst_context : bool;                 (* whether _context has been set *)
  mst_wbuf : option WriteBuffer;
}.
#[export] Instance eta_MachineStateTracer : Eta MachineStateTracer := fun r =>
  mk_MachineStateTracer (mst_context r) (mst_wbuf r).

Definition traced_states : list MachineState :=
  [SLEEPING; TRANSITING_FROM_SLEEPING_TO_COMPUTING; TRANSITING_FROM_COMPUTING_TO_SLEEPING; IDLE; COMPUTING].

Definition machine_state_set_filename (t : MachineStateTracer) : result MachineStateTracer :=
  xbt_assert (match mst_wbuf t with None => true | _ => false end)
    "Double call of MachineStateTracer::set_filename";;
  wb ← new_WriteBuffer default_buffer_size;
  let header := "time," +:+ String.concat "," ((fun s => "nb_" +:+ machine_state_to_string s) <$> traced_states) +:+ nl in
  Ok (t <| mst_wbuf := Some (flush_buffer (append_text wb header)) |>).

Definition machine_state_flush (t : MachineStateTracer) : result MachineStateTracer :=
  wbuf ← tracer_flush (mst_wbuf t); Ok (t <| mst_wbuf := wbuf |>).
Definition machine_state_close_buffer (t : MachineStateTracer) : result (string * MachineStateTracer) :=
  '(file, wbuf) ← tracer_close_buffer (mst_wbuf t); Ok (file, t <| mst_wbuf := wbuf |>).

Definition write_machine_states (date : Q) (numbers : gmap MachineState Z) (t : MachineStateTracer)
  : result MachineStateTracer :=
  xbt_assert (mst_context t) "wrong call: _context is null";;
  wb ← of_option (Abort "wrong call: _wbuf is null") (mst_wbuf t);
  counts ← mapM_r (fun s => of_option (Throw "out_of_range") (numbers !! s)) traced_states;
  text ← snprintf 256 (String.concat "," (fmt_g date :: (fmt_d <$> counts)) +:+ nl);
  Ok (t <| mst_wbuf := Some (append_text wb text) |>).

(** ** Job executions *)

Section JobRunEnd.
Context {IS Host : Type} `{IntervalSet IS}.
Context (jh : job_heap IS) (now : Q) (trace_machine_states : bool).

(** The part of the context that these functions modify. *)
Record machines_view := mk_view {
  v_machines : Machines Host;
  v_paje : PajeTracer;
  v_states : MachineStateTracer;
}.
#[export] Instance eta_view : Eta machines_view := fun r =>
  mk_view (v_machines r) (v_paje r) (v_states r).

Definition trace_top_job (machine_id : Z) (top : positive) (v : machines_view) : result machines_view :=
  if ms_tracer (v_machines v) then
    j ← deref_job jh top;
    p ← Paje.set_machine_as_computing_job machine_id (id j) now (v_paje v);
    Ok (v <| v_paje := p |>)
  else Ok v.

Definition job_run_on_machine (job : positive) (v : machines_view) (machine_id : Z) : result machines_view :=
  ms ← update_machine_state now (v_machines v) machine_id COMPUTING;
  m ← machine_unchecked ms machine_id;
  let previous_top_job := head (m_jobs_being_computed m) in
  let jobs := pset_insert job (m_jobs_being_computed m) in
  let ms := store_machine ms machine_id (m <| m_jobs_being_computed := jobs |>) in
  let v := v <| v_machines := ms |> in
  top ← of_option (Undef "begin of an empty set") (head jobs);
  if bool_decide (previous_top_job = Some top) then Ok v
  else trace_top_job (m_id m) top v.

Definition trace_states_if_needed (v : machines_view) : result machines_view :=
  if trace_machine_states then
    t ← write_machine_states now (ms_nb_machines_in_each_state (v_machines v)) (v_states v);
    Ok (v <| v_states := t |>)
  else Ok v.

Definition update_machines_on_job_run (job : positive) (used_machines : IS) (v : machines_view)
  : result machines_view :=
  v ← foldM (job_run_on_machine job) v (elements_of used_machines);
  trace_states_if_needed v.

Definition job_end_on_machine (job : positive) (v : machines_view) (machine_id : Z) : result machines_view :=
  m ← machine_unchecked (v_machines v) machine_id;
  xbt_assert (negb (bool_decide (m_jobs_being_computed m = []))) "no job is being computed on the machine";;
  let previous_top_job := head (m_jobs_being_computed m) in
  let jobs := pset_erase job (m_jobs_being_computed m) in
  xbt_assert (bool_decide (job ∈ m_jobs_being_computed m)) "could not erase job from jobs being computed";;
  let m := m <| m_jobs_being_computed := jobs |> in
  let ms := store_machine (v_machines v) machine_id m in
  match jobs with
  | [] =>
      if bool_decide (m_state m = UNAVAILABLE) then Ok (v <| v_machines := ms |>)
      else
        ms ← update_machine_state now ms machine_id IDLE;
        let v := v <| v_machines := ms |> in
        if ms_tracer ms then
          p ← Paje.set_machine_idle (m_id m) now (v_paje v);
          Ok (v <| v_paje := p |>)
        else Ok v
  | top :: _ =>
      let v := v <| v_machines := ms |> in
      if bool_decide (previous_top_job = Some top) then Ok v
      else trace_top_job (m_id m) top v
  end.

Definition update_machines_on_job_end (job : positive) (used_machines : IS) (v : machines_view)
  : result machines_view :=
  v ← foldM (job_end_on_machine job) v (elements_of used_machines);
  trace_states_if_needed v.
End JobRunEnd.
Arguments machines_view : clear implicits.
Arguments mk_view {Host}. Arguments v_machines {Host}. Arguments v_paje {Host}. Arguments v_states {Host}.

(** ** Energy and environmental footprint *)

Section Footprint.
Context {IS Engine Host : Type} `{IntervalSet IS} `{SimGrid Engine Host}.
Context (e : Engine).

(** The accumulation loops over hosts. *)
Definition sum_over (f : Host -> Q) (hosts : list Host) : Q :=
  foldl (fun total h => (total + f h)%Q) 0%Q hosts.

Definition hosts_of (ms : Machines Host) : list Host := m_host <$> ms_machines ms.

Definition guarded (used : bool) (total : Q) : Q := if used then total else (-1)%Q.

Definition total_consumed_energy (energy_used : bool) (ms : Machines Host) : Q :=
  guarded energy_used (sum_over (sg_host_get_consumed_energy e) (hosts_of ms)).
Definition total_wattmin (energy_used : bool) (ms : Machines Host) : Q :=
  guarded energy_used (sum_over (fun h => sg_host_get_wattmin_at e h (get_pstate e h)) (hosts_of ms)).
Definition total_carbon_footprint (environmental_footprint_used : bool) (ms : Machines Host) : Q :=
  guarded environmental_footprint_used (sum_over (sg_host_get_carbon_operational_footprint e) (hosts_of ms)).
Definition total_carbon_operational (environmental_footprint_used : bool) (ms : Machines Host) : Q :=
  guarded environmental_footprint_used (sum_over (sg_host_get_carbon_operational_footprint e) (hosts_of ms)).
Definition total_carbon_embodied (environmental_footprint_used : bool) (ms : Machines Host) : Q :=
  guarded environmental_footprint_used (sum_over (sg_host_get_carbon_embodied_footprint e) (hosts_of ms)).
Definition total_water_onsite (environmental_footprint_used : bool) (ms : Machines Host) : Q :=
  guarded environmental_footprint_used (sum_over (sg_host_get_water_onsite_footprint e) (hosts_of ms)).
Definition total_water_offsite (environmental_footprint_used : bool) (ms : Machines Host) : Q :=
  guarded environmental_footprint_used (sum_over (sg_host_get_water_offsite_footprint e) (hosts_of ms)).
Definition total_water_embodied (environmental_footprint_used : bool) (ms : Machines Host) : Q :=
  guarded environmental_footprint_used (sum_over (sg_host_get_water_embodied_footprint e) (hosts_of ms)).

(** On-site and off-site water are added one after the other for each host. *)
Definition sum_water (hosts : list Host) : Q :=
  foldl (fun total h =>
           let total := (total + sg_host_get_water_onsite_footprint e h)%Q in
           (total + sg_host_get_water_offsite_footprint e h)%Q) 0%Q hosts.
Definition total_water_footprint (environmental_footprint_used : bool) (ms : Machines Host) : Q :=
  guarded environmental_footprint_used (sum_water (hosts_of ms)).

(** The same quantities on a set of machines. *)
Definition hosts_on (ms : Machines Host) (machines : IS) : result (list Host) :=
  mapM_r (fun machine_id => m ← machine_at ms machine_id; Ok (m_host m)) (elements_of machines).

Definition consumed_energy_on_machines (energy_used : bool) (ms : Machines Host) (machines : IS) : result Q :=
  if negb energy_used then Ok 0%Q else
  hosts ← hosts_on ms machines; Ok (sum_over (sg_host_get_consumed_energy e) hosts).
Definition carbon_footprint_on_machines (environmental_footprint_used : bool) (ms : Machines Host)
  (machines : IS) : result Q :=
  if negb environmental_footprint_used then Ok 0%Q else
  hosts ← hosts_on ms machines; Ok (sum_over (sg_host_get_carbon_operational_footprint e) hosts).
Definition water_footprint_on_machines (environmental_footprint_used : bool) (ms : Machines Host)
  (machines : IS) : result Q :=
  if negb environmental_footprint_used then Ok 0%Q else
  hosts ← hosts_on ms machines; Ok (sum_water hosts).
End Footprint.

(** ** Zones of the platform *)

(** A SimGrid zone: its name, its properties, the hosts of the zone and of its
    descendants ([get_all_hosts]), and its children. *)
Inductive NetZone (Host : Type) := mk_NetZone {
  z_name : string;
  z_properties : list (string * string);
  z_all_hosts : list Host;
  z_children : list (NetZone Host);
}.
Arguments mk_NetZone {Host}. Arguments z_name {Host}. Arguments z_properties {Host}.
Arguments z_all_hosts {Host}. Arguments z_children {Host}.

Fixpoint zone_size {Host} (z : NetZone Host) : nat :=
  S (list_sum (zone_size <$> z_children z)).

Section Zones.
Context {Engine Host : Type} `{SimGrid Engine Host}.

(** The breadth-first search of a zone by its name, [q] being the queue. *)
Fixpoint find_zone_loop (fuel : nat) (name : string) (q : list (NetZone Host))
  : result (option (NetZone Host)) :=
  match fuel with
  | O => Err (Undef "out of fuel")
  | S fuel =>
      match q with
      | [] => Ok None
      | z :: q =>
          if String.eqb (z_name z) name then Ok (Some z)
          else find_zone_loop fuel name (q ++ z_children z)
      end
  end.
Definition find_zone_by_name_machines (root : NetZone Host) (name : string) : result (option (NetZone Host)) :=
  find_zone_loop (S (zone_size root)) name [root].

(** The common shape of the [zone_...] functions: a sum over the hosts of a zone. *)
Definition zone_sum (root : NetZone Host) (used : bool) (sum : list Host -> Q) (zone_name : string) : result Q :=
  if negb used then Ok (-1)%Q else
  z ← find_zone_by_name_machines root zone_name;
  match z with
  | None => Err (Abort "NetZone not found")
  | Some z => Ok (sum (z_all_hosts z))
  end.

(** The value of a property in a zone: that of its first host. *)
Definition zone_first (root : NetZone Host) (used : bool) (get : Host -> Q) (zone_name : string) : result Q :=
  if negb used then Ok (-1)%Q else
  z ← find_zone_by_name_machines root zone_name;
  match z with
  | None => Err (Abort "NetZone not found")
  | Some z => Ok (match z_all_hosts z with [] => (-1)%Q | h :: _ => get h end)
  end.

Definition zone_carbon_intensity (e : Engine) root used := zone_first root used (sg_host_get_carbon_intensity e).
Definition zone_water_intensity (e : Engine) root used := zone_first root used (sg_host_get_water_intensity e).
Definition zone_pue (e : Engine) root used := zone_first root used (sg_host_get_pue e).
Definition zone_wue (e : Engine) root used := zone_first root used (sg_host_get_wue e).

Definition zone_carbon_footprint (e : Engine) root used := zone_sum root used (sum_over (sg_host_get_carbon_operational_footprint e)).
Definition zone_water_footprint (e : Engine) root used := zone_sum root used (sum_water e).
Definition zone_carbon_operational (e : Engine) root used := zone_sum root used (sum_over (sg_host_get_carbon_operational_footprint e)).
Definition zone_carbon_embodied (e : Engine) root used := zone_sum root used (sum_over (sg_host_get_carbon_embodied_footprint e)).
Definition zone_water_onsite (e : Engine) root used := zone_sum root used (sum_over (sg_host_get_water_onsite_footprint e)).
Definition zone_water_offsite (e : Engine) root used := zone_sum root used (sum_over (sg_host_get_water_offsite_footprint e)).
Definition zone_water_embodied (e : Engine) root used := zone_sum root used (sum_over (sg_host_get_water_embodied_footprint e)).

(** The properties of a zone are those of its ancestors, overridden by its
    own; every machine of the zone receives them, then the children proceed. *)
Definition set_zone_properties (props : gmap string string) (ms : Machines Host) (h : Host) : Machines Host :=
  match machine_by_name_or_null ms (host_name h) with
  | Some i => ms <| ms_machines ::= alter (fun m : Machine Host => m <| m_zone_properties := props |>) i |>
  | None => ms
  end.

Fixpoint attach_zone_properties_to_machines (current_zone : NetZone Host)
  (parent_properties : gmap string string) (ms : Machines Host) : Machines Host :=
  let props := foldl (fun ps (kv : string * string) => <[kv.1 := kv.2]> ps) parent_properties (z_properties current_zone) in
  let ms := foldl (set_zone_properties props) ms (z_all_hosts current_zone) in
  foldl (fun ms z => attach_zone_properties_to_machines z props ms) ms (z_children current_zone).
End Zones.

(** ** Creation from the hosts of the platform *)

Section Create.
Context {Engine Host : Type} `{SimGrid Engine Host} `{BoostString}.
Context (e : Engine) (energy_used : bool) (role_map : gmap string string).

Definition check_pstate_range (nb_pstates ps : Z) : result unit :=
  xbt_assert ((0 <=? ps) && (ps <? nb_pstates)) "the pstate does not exist".

Definition check_virtual_pstate (m : Machine Host) (ps : Z) : result unit :=
  match m_pstates m !! ps with
  | Some t => xbt_assert (bool_decide (t = TRANSITION_VIRTUAL_PSTATE)) "pstate combinations are forbidden"
  | None => Ok tt
  end.

(** One colon-separated triplet of the [sleep_pstates] property.  A sleep
    power state defined twice is only reported on the error log. *)
Definition add_sleep_pstate (nb_pstates : Z) (m : Machine Host) (triplet : string) : result (Machine Host) :=
  match split_compress ":" triplet with
  | [s0; s1; s2] =>
      match lexical_cast_uint (trim s0), lexical_cast_uint (trim s1), lexical_cast_uint (trim s2) with
      | Some sleep_ps, Some off_ps, Some on_ps =>
          let sleep_ps := i32 sleep_ps in
          let off_ps := i32 off_ps in
          let on_ps := i32 on_ps in
          check_pstate_range nb_pstates sleep_ps;;
          check_pstate_range nb_pstates on_ps;;
          check_pstate_range nb_pstates off_ps;;
          check_virtual_pstate m on_ps;;
          check_virtual_pstate m off_ps;;
          Ok (m <| m_sleep_pstates ::= <[sleep_ps := mk_SleepPState sleep_ps on_ps off_ps]> |>
                <| m_pstates ::= fun ps =>
                     <[off_ps := TRANSITION_VIRTUAL_PSTATE]> (<[on_ps := TRANSITION_VIRTUAL_PSTATE]>
                       (<[sleep_ps := SLEEP_PSTATE]> ps)) |>)
      | _, _, _ => Err (Abort "impossible to convert the pstates to unsigned integers")
      end
  | _ => Err (Abort "invalid 'sleep_pstates' property")
  end.

(** The remaining power states are computation ones. *)
Definition add_computation_pstate (m : Machine Host) (ps : Z) : Machine Host :=
  if has_pstate m ps then m else m <| m_pstates ::= <[ps := COMPUTATION_PSTATE]> |>.

Definition read_pstates (m : Machine Host) : result (Machine Host) :=
  let nb_pstates := get_pstate_count (m_host m) in
  m ← (match m_properties m !! "sleep_pstates" with
       | Some sleep_states_str => foldM (add_sleep_pstate nb_pstates) m (split_compress "," sleep_states_str)
       | None => Ok m
       end);
  Ok (foldl add_computation_pstate m (Z.of_nat <$> seq 0 (Z.to_nat nb_pstates))).

Definition check_speeds (m : Machine Host) : result unit :=
  if Z.land (m_permissions m) roles.COMPUTE_FLOPS =? roles.COMPUTE_FLOPS then
    if energy_used then
      foldM (fun _ (mit : Z * PStateType) =>
               match mit.2 with
               | COMPUTATION_PSTATE =>
                   xbt_assert (0 <?q get_pstate_speed (m_host m) mit.1)%Q "non-positive computing speed"
               | _ => Ok tt
               end) tt (map_to_list (m_pstates m))
    else xbt_assert (0 <?q sg_host_get_speed e (m_host m))%Q "non-positive computing speed"
  else Ok tt.

Definition role_properties (host : Host) : gmap string string :=
  let props := host_properties host in
  let props :=
    match role_map !! host_name host with
    | Some role =>
        match props !! "role" with
        | Some r => <["role" := r +:+ "," +:+ role]> props
        | None => <["role" := role]> props
        end
    | None => props
    end in
  (* properties["role"] inserts an empty string when there is none *)
  match props !! "role" with Some _ => props | None => <["role" := ""]> props end.

Definition role_of (host : Host) : result Z :=
  roles.permissions_from_role (default "" (role_properties host !! "role")).

Definition create_machine (host : Host) : result (Machine Host) :=
  permissions ← role_of host;
  let m := new_Machine (host_name host) host
             <| m_properties := role_properties host |> <| m_permissions := permissions |> in
  m ← (if energy_used then read_pstates m else Ok m);
  check_speeds m;;
  Ok m.

Record classified := mk_classified {
  c_compute : list (Machine Host);
  c_storage : list (Machine Host);
  c_master : option (Machine Host);
}.

Definition classify (c : classified) (m : Machine Host) : result classified :=
  if m_permissions m =? roles.COMPUTE_NODE
  then Ok (mk_classified (c_compute c ++ [m]) (c_storage c) (c_master c))
  else if m_permissions m =? roles.STORAGE
  then Ok (mk_classified (c_compute c) (c_storage c ++ [m]) (c_master c))
  else if m_permissions m =? roles.MASTER
  then match c_master c with
       | None => Ok (mk_classified (c_compute c) (c_storage c) (Some (m <| m_id := -1 |>)))
       | Some _ => Err (Abort "There are two master hosts...")
       end
  else Ok c.

Definition create_and_classify (c : classified) (host : Host) : result classified :=
  m ← create_machine host; classify c m.

(** [std::sort], as an insertion sort with a comparator that may abort. *)
Fixpoint insertM {A} (lt : A -> A -> result bool) (x : A) (l : list A) : result (list A) :=
  match l with
  | [] => Ok [x]
  | y :: l' => b ← lt x y; if b : bool then Ok (x :: l) else l'' ← insertM lt x l'; Ok (y :: l'')
  end.
Fixpoint sortM {A} (lt : A -> A -> result bool) (l : list A) : result (list A) :=
  match l with
  | [] => Ok []
  | x :: l => l ← sortM lt l; insertM lt x l
  end.

(** [sort_machines_by_ascending_name]: its parameter is a copy of the caller's
    vector of pointers, so that the caller sees the identifiers the function
    writes into the machines, but not the order. *)
Definition sort_machines_by_ascending_name (machines_vect : list (Machine Host))
  : result (list (Machine Host)) :=
  sorted ← sortM (fun a b => machine_comparator_name (m_name a.2) (m_name b.2)) (imap pair machines_vect);
  Ok (foldl (fun v (p : nat * (nat * Machine Host)) =>
               alter (fun m : Machine Host => m <| m_id := Z.of_nat p.1 |>) p.2.1 v)
            machines_vect (imap pair sorted)).

Definition limit_compute_nodes (limit_machine_count : Z) (compute : list (Machine Host))
  : result (list (Machine Host)) :=
  if 0 <? limit_machine_count then
    xbt_assert (limit_machine_count <=? Z.of_nat (length compute)) "Impossible to compute on M machines";;
    Ok (take (Z.to_nat limit_machine_count) compute)
  else Ok compute.

Definition number_machines (l : list (Machine Host)) : list (Machine Host) :=
  imap (fun i m => m <| m_id := Z.of_nat i |>) l.

Definition create_machines (hosts : list Host) (root : NetZone Host) (limit_machine_count : Z)
  (ms : Machines Host) : result (Machines Host) :=
  xbt_assert (bool_decide (ms_machines ms = [])) "machines already created";;
  xbt_assert ((limit_machine_count =? -1) || (0 <? limit_machine_count)) "Bad call to Machines::create_machines()";;
  c ← foldM create_and_classify (mk_classified [] [] (ms_master_machine ms)) hosts;
  compute ← sort_machines_by_ascending_name (c_compute c);
  compute ← limit_compute_nodes limit_machine_count compute;
  let nc := length compute in
  let machines := number_machines (compute ++ c_storage c) in
  let ms := ms <| ms_machines := machines |> <| ms_compute_nodes := seq 0 nc |>
               <| ms_storage_nodes := seq nc (length (c_storage c)) |>
               <| ms_master_machine := c_master c |> in
  let ms := attach_zone_properties_to_machines root ∅ ms in
  match ms_master_machine ms with
  | None => Err (Abort "Cannot find the 'master' role in the platform file")
  | Some _ => Ok (ms <| ms_nb_machines_in_each_state ::= <[IDLE := i32 (Z.of_nat nc)]> |>)
  end.
End Create.

(** ** Theorems: counters and time *)

(** How many machines are in a state, and the counters' invariant: they count
    all machines but the [k] ones left out when the counter of idle machines is
    initialised. *)
Definition nb_in_state {Host} (s : MachineState) (l : list (Machine Host)) : Z :=
  count_if (fun m => bool_decide (m_state m = s)) l.

Definition counters_ok {Host} (k : Z) (ms : Machines Host) : Prop :=
  forall s, count_of (ms_nb_machines_in_each_state ms) s =
    nb_in_state s (ms_machines ms) - (if decide (s = IDLE) then k else 0).

(** The time spent in the states of a machine adds up to the date of its last
    change. *)
Definition spent {Host} (m : Machine Host) (s : MachineState) : Q :=
  default 0%Q (m_time_spent_in_each_state m !! s).

Definition time_wf {Host} (m : Machine Host) : Prop :=
  (Qsum (spent m <$> machine_states) == m_last_state_change_date m)%Q /\
  (forall s, 0 <= spent m s)%Q.

(** A machine in the computing state computes a job. *)
Definition computes {Host} (m : Machine Host) : Prop := m_state m = COMPUTING -> m_jobs_being_computed m ≠ [].

Record machines_ok {Host} (k : Z) (ms : Machines Host) : Prop := {
  mo_counters : counters_ok k ms;
  mo_times : Forall time_wf (ms_machines ms);
  mo_computes : Forall computes (ms_machines ms);
}.

(** The machines stay consistent. *)
Definition machines_kept {Host} (ms ms' : Machines Host) : Prop := forall k, machines_ok k ms -> machines_ok k ms'.

#[export] Instance machines_kept_preorder {Host} : PreOrder (machines_kept (Host := Host)).
Proof. split; [by intros ms k|]. intros ms1 ms2 ms3 H12 H23 k Hk. by apply H23, H12. Qed.

Section MachineFacts.
Context {Host : Type}.
Implicit Types (ms : Machines Host) (m : Machine Host).

Lemma machine_unchecked_Ok ms i m :
  machine_unchecked ms i = Ok m <-> 0 <= i /\ ms_machines ms !! Z.to_nat i = Some m.
Proof.
  unfold machine_unchecked. destruct (Z.ltb_spec i 0).
  - split; [done|lia].
  - rewrite of_option_Ok. naive_solver.
Qed.

Lemma machine_at_Ok ms i m :
  machine_at ms i = Ok m <-> 0 <= i /\ ms_machines ms !! Z.to_nat i = Some m.
Proof.
  unfold machine_at, exists_. destruct (Z.leb_spec 0 i); cbn; [|split; [done|lia]].
  destruct (Z.ltb_spec i (Z.of_nat (length (ms_machines ms)))); cbn.
  - rewrite of_option_Ok. naive_solver.
  - split; [done|]. intros [_ Hl%lookup_lt_Some]. lia.
Qed.

Lemma update_machine_state_Ok now ms i s ms' :
  update_machine_state now ms i s = Ok ms' ->
  exists m, machine_unchecked ms i = Ok m /\ (m_last_state_change_date m <= now)%Q /\
    ms' = store_machine ms i
      (m <| m_time_spent_in_each_state ::= <[m_state m := (spent m (m_state m) + (now - m_last_state_change_date m))%Q]> |>
         <| m_state := s |> <| m_last_state_change_date := now |>)
      <| ms_nb_machines_in_each_state ::= update_nb_machines_in_each_state (m_state m) s |>.
Proof.
  unfold update_machine_state. intros H. inv_ok. eexists. split; [done|]. split; [by qlra|done].
Qed.

Lemma count_of_update old new counts s :
  count_of (update_nb_machines_in_each_state old new counts) s =
    count_of counts s - (if decide (old = s) then 1 else 0) + (if decide (new = s) then 1 else 0).
Proof.
  unfold update_nb_machines_in_each_state, count_of.
  destruct (decide (new = s)) as [->|Hn].
  - rewrite lookup_insert_eq. cbn. destruct (decide (old = s)) as [->|Ho].
    + rewrite lookup_insert_eq. cbn. lia.
    + rewrite lookup_insert_ne by done. lia.
  - rewrite lookup_insert_ne by done. destruct (decide (old = s)) as [->|Ho].
    + rewrite lookup_insert_eq. cbn. lia.
    + rewrite lookup_insert_ne by done. lia.
Qed.

Lemma store_machines ms i m : ms_machines (store_machine ms i m) = <[Z.to_nat i := m]> (ms_machines ms).
Proof. done. Qed.

Lemma nb_in_state_insert s (l : list (Machine Host)) i m m' :
  l !! i = Some m ->
  nb_in_state s (<[i:=m']> l) =
    nb_in_state s l - (if decide (m_state m = s) then 1 else 0) + (if decide (m_state m' = s) then 1 else 0).
Proof.
  intros Hl. unfold nb_in_state. rewrite (count_if_insert _ _ _ m) by done.
  by rewrite !bool_decide_decide; repeat case_decide.
Qed.

(** Replacing a machine by one in the same state does not change the counts. *)
Lemma counters_ok_store k ms i m m' :
  machine_unchecked ms i = Ok m -> m_state m' = m_state m ->
  counters_ok k ms -> counters_ok k (store_machine ms i m').
Proof.
  intros [Hi Hl]%machine_unchecked_Ok Hs Hk s.
  rewrite store_machines, (nb_in_state_insert _ _ _ m) by done. rewrite Hs. change (ms_nb_machines_in_each_state (store_machine ms i m')) with (ms_nb_machines_in_each_state ms).
  rewrite (Hk s). lia.
Qed.

Lemma counters_ok_update k now ms i s ms' :
  update_machine_state now ms i s = Ok ms' -> counters_ok k ms -> counters_ok k ms'.
Proof.
  intros (m & [Hi Hl]%machine_unchecked_Ok & Hd & ->)%update_machine_state_Ok Hk s'. csimpl.
  rewrite count_of_update, (nb_in_state_insert _ _ _ m) by done. rewrite (Hk s'). cbn. lia.
Qed.

Lemma spent_insert m s q s' :
  default 0%Q (<[s := q]> (m_time_spent_in_each_state m) !! s') = if decide (s = s') then q else spent m s'.
Proof. destruct (decide (s = s')) as [->|]; by rewrite ?lookup_insert_eq, ?lookup_insert_ne. Qed.

Lemma Qsum_spent_insert m s q :
  (Qsum ((fun s' => default 0%Q (<[s := q]> (m_time_spent_in_each_state m) !! s')) <$> machine_states) ==
   Qsum (spent m <$> machine_states) - spent m s + q)%Q.
Proof. cbn [machine_states fmap list_fmap Qsum]. rewrite !spent_insert. destruct s; repeat case_decide; try done; ring. Qed.

Lemma time_wf_new name (host : Host) : time_wf (new_Machine name host).
Proof. split; [by vm_compute|]. intros []; vm_compute; discriminate. Qed.

Lemma time_wf_advance m now s :
  (m_last_state_change_date m <= now)%Q -> time_wf m ->
  time_wf (m <| m_time_spent_in_each_state ::= <[m_state m := (spent m (m_state m) + (now - m_last_state_change_date m))%Q]> |>
         <| m_state := s |> <| m_last_state_change_date := now |>).
Proof.
  intros Hd [Hsum Hpos]. split.
  - unfold spent at 1. cbn -[machine_states].
    rewrite Qsum_spent_insert, Hsum. ring.
  - intros s'. unfold spent. cbn. rewrite spent_insert. case_decide; [|apply Hpos].
    specialize (Hpos (m_state m)). unfold spent in Hpos. lra.
Qed.

Lemma Forall_store (P : Machine Host -> Prop) ms i m :
  Forall P (ms_machines ms) -> P m -> Forall P (ms_machines (store_machine ms i m)).
Proof. intros HP Hm. cbn. by apply Forall_insert. Qed.

Lemma time_wf_update now ms i s ms' :
  update_machine_state now ms i s = Ok ms' ->
  Forall time_wf (ms_machines ms) -> Forall time_wf (ms_machines ms').
Proof.
  intros (m & [Hi Hl]%machine_unchecked_Ok & Hd & ->)%update_machine_state_Ok Hwf.
  apply (Forall_store time_wf); [done|]. apply time_wf_advance; [done|].
  by eapply Forall_lookup_1.
Qed.
End MachineFacts.
#[export] Hint Resolve counters_ok_store counters_ok_update time_wf_update : batsim.

(** ** Theorems: job executions *)

Section PSetFacts.
Lemma elem_of_pset_insert x l y : y ∈ pset_insert x l <-> y = x \/ y ∈ l.
Proof.
  induction l as [|z l IH]; cbn [pset_insert]; [set_solver|].
  destruct (Pos.ltb_spec x z); [set_solver|].
  destruct (Pos.eqb_spec x z); [subst; set_solver|]. set_solver.
Qed.

Lemma pset_insert_sorted x l : StronglySorted Pos.lt l -> StronglySorted Pos.lt (pset_insert x l).
Proof.
  induction 1 as [|z l Hs IH Hz]; cbn [pset_insert]; [repeat constructor|].
  destruct (Pos.ltb_spec x z).
  - constructor; [by constructor|]. constructor; [done|].
    eapply Forall_impl; [exact Hz|]. cbn; lia.
  - destruct (Pos.eqb_spec x z); [by constructor|]. constructor; [done|].
    rewrite Forall_forall in Hz |- *. intros y [->|Hy]%elem_of_pset_insert; [lia|auto].
Qed.

Lemma pset_erase_sorted x l : StronglySorted Pos.lt l -> StronglySorted Pos.lt (pset_erase x l).
Proof.
  unfold pset_erase. induction 1 as [|z l Hs IH Hz]; [constructor|]. rewrite filter_cons.
  case_decide; [|done]. constructor; [done|]. rewrite Forall_forall in Hz |- *.
  intros y [_ Hy]%list_elem_of_filter. auto.
Qed.

(** A job that was not there is removed without a trace. *)
Lemma pset_erase_insert x l : x ∉ l -> pset_erase x (pset_insert x l) = l.
Proof.
  unfold pset_erase. induction l as [|z l IH]; cbn [pset_insert]; intros Hx.
  - rewrite filter_cons_False; [done|tauto].
  - apply not_elem_of_cons in Hx as [Hne Hx].
    assert (filter (fun y => y ≠ x) (z :: l) = z :: l) as Hall.
    { rewrite filter_cons_True by done. f_equal. clear IH.
      induction l as [|w l IHl]; [done|]. apply not_elem_of_cons in Hx as [? ?].
      rewrite filter_cons_True by done. f_equal. auto. }
    destruct (Pos.ltb_spec x z); [by rewrite filter_cons_False by tauto|].
    destruct (Pos.eqb_spec x z); [done|]. rewrite filter_cons_True by done. by rewrite IH.
Qed.
End PSetFacts.

Section JobRunEndFacts.
Context {IS Host : Type} `{IntervalSetLaws IS}.
Context (jh : job_heap IS) (now : Q) (trace_machine_states : bool).
Implicit Types (v : machines_view Host) (m : Machine Host).

(** A machine whose state changes at date [now]. *)
Definition in_state (s : MachineState) m : Machine Host :=
  m <| m_time_spent_in_each_state ::= <[m_state m := (spent m (m_state m) + (now - m_last_state_change_date m))%Q]> |>
    <| m_state := s |> <| m_last_state_change_date := now |>.

Definition started (job : positive) m : Machine Host :=
  in_state COMPUTING m <| m_jobs_being_computed ::= pset_insert job |>.

Definition ended (job : positive) m : Machine Host :=
  let m' := m <| m_jobs_being_computed ::= pset_erase job |> in
  if bool_decide (m_jobs_being_computed m' = []) && negb (bool_decide (m_state m = UNAVAILABLE))
  then in_state IDLE m' else m'.

Lemma ended_jobs job m : m_jobs_being_computed (ended job m) = pset_erase job (m_jobs_being_computed m).
Proof. unfold ended. cbv zeta. by destruct (_ && _). Qed.

Lemma ended_state job m :
  m_state (ended job m) =
    (if bool_decide (pset_erase job (m_jobs_being_computed m) = []) && negb (bool_decide (m_state m = UNAVAILABLE))
     then IDLE else m_state m).
Proof. unfold ended. csimpl. by destruct (_ && _). Qed.

Lemma trace_top_job_machines i top v v' :
  trace_top_job jh now i top v = Ok v' -> v_machines v' = v_machines v.
Proof. unfold trace_top_job. destruct (ms_tracer _); intros Hr; by inv_ok. Qed.

Lemma job_run_on_machine_Ok job v i v' :
  job_run_on_machine jh now job v i = Ok v' ->
  exists m, machine_unchecked (v_machines v) i = Ok m /\ (m_last_state_change_date m <= now)%Q /\
    v_machines v' = store_machine (v_machines v) i (started job m)
      <| ms_nb_machines_in_each_state ::= update_nb_machines_in_each_state (m_state m) COMPUTING |>.
Proof.
  unfold job_run_on_machine. intros (ms & Hu & Hr)%bind_Ok.
  apply update_machine_state_Ok in Hu as (m & Hm & Hd & ->). exists m. split_and!; [done..|].
  apply machine_unchecked_Ok in Hm as [Hi Hl].
  assert (Z.to_nat i < length (ms_machines (v_machines v)))%nat by by eapply lookup_lt_Some.
  apply bind_Ok in Hr as (m1 & Hm1%machine_unchecked_Ok & Hr).
  destruct Hm1 as [_ Hm1]. csimpl in Hm1. rewrite list_lookup_insert_eq in Hm1 by done.
  injection Hm1 as <-. apply bind_Ok in Hr as (top & _ & Hr).
  assert (v_machines v' = store_machine (v_machines v) i (started job m)
      <| ms_nb_machines_in_each_state ::= update_nb_machines_in_each_state (m_state m) COMPUTING |>); [|done].
  destruct (bool_decide _).
  - injection Hr as <-. unfold store_machine, started, in_state. csimpl. by rewrite list_insert_insert_eq.
  - apply trace_top_job_machines in Hr as ->.
    unfold store_machine, started, in_state. csimpl. by rewrite list_insert_insert_eq.
Qed.

Lemma job_end_on_machine_Ok job v i v' :
  job_end_on_machine jh now job v i = Ok v' ->
  exists m, machine_unchecked (v_machines v) i = Ok m /\ job ∈ m_jobs_being_computed m /\
    (m_jobs_being_computed (ended job m) = [] -> m_state m ≠ UNAVAILABLE -> (m_last_state_change_date m <= now)%Q) /\
    ms_machines (v_machines v') = <[Z.to_nat i := ended job m]> (ms_machines (v_machines v)) /\
    ms_nb_machines_in_each_state (v_machines v') =
      (if bool_decide (pset_erase job (m_jobs_being_computed m) = []) && negb (bool_decide (m_state m = UNAVAILABLE))
       then update_nb_machines_in_each_state (m_state m) IDLE else fun c => c)
        (ms_nb_machines_in_each_state (v_machines v)).
Proof.
  unfold job_end_on_machine. intros (m & Hm & Hr)%bind_Ok. exists m.
  pose proof Hm as [Hi Hl]%machine_unchecked_Ok.
  assert (Z.to_nat i < length (ms_machines (v_machines v)))%nat by by eapply lookup_lt_Some.
  apply bind_Ok in Hr as ([] & _ & Hr). apply bind_Ok in Hr as ([] & Hin & Hr).
  apply xbt_assert_Ok, bool_decide_eq_true in Hin. split; [done|]. split; [done|].
  unfold ended. csimpl. destruct (pset_erase job (m_jobs_being_computed m)) as [|top jobs] eqn:He.
  - rewrite bool_decide_eq_true_2 by done. csimpl in Hr; change (m_state (update m_jobs_being_computed (fun _ => []) m)) with (m_state m) in Hr. case_bool_decide; cbn [negb andb].
    + injection Hr as <-. csimpl. rewrite ?He. split; [by intros|by rewrite ?He].
    + apply bind_Ok in Hr as (ms & Hu & Hr).
      apply update_machine_state_Ok in Hu as (m1 & [_ Hm1]%machine_unchecked_Ok & Hd & ->).
      csimpl in Hm1. rewrite list_lookup_insert_eq in Hm1 by done. injection Hm1 as <-.
      cbn in Hd. split; [done|].
      assert (exists p, v' = v <| v_machines := store_machine
        (store_machine (v_machines v) i (m <| m_jobs_being_computed := [] |>)) i
        (in_state IDLE (m <| m_jobs_being_computed := [] |>))
        <| ms_nb_machines_in_each_state ::= update_nb_machines_in_each_state (m_state m) IDLE |> |>
        <| v_paje := p |>) as [p ->].
      { destruct (ms_tracer _); inv_ok; by eexists. }
      csimpl. rewrite list_insert_insert_eq, ?He. done.
  - rewrite bool_decide_eq_false_2 by done. cbn [andb]. split; [done|].
    destruct (bool_decide _).
    + injection Hr as <-. csimpl. by rewrite ?He.
    + apply trace_top_job_machines in Hr as ->. csimpl. by rewrite ?He.
Qed.
End JobRunEndFacts.

(** A loop over distinct machines that replaces each by its image under [f]
    acts on them independently. *)
Lemma foldM_machines {S Host} (machines_of : S -> Machines Host) (f : Machine Host -> Machine Host) (P : Machine Host -> Prop)
  (step : S -> Z -> result S) l v v' :
  (forall v i v', step v i = Ok v' -> exists m, machine_unchecked (machines_of v) i = Ok m /\ P m /\
     ms_machines (machines_of v') = <[Z.to_nat i := f m]> (ms_machines (machines_of v))) ->
  NoDup l -> foldM step v l = Ok v' ->
  (forall i m, ms_machines (machines_of v) !! i = Some m ->
     ms_machines (machines_of v') !! i = Some (if decide (Z.of_nat i ∈ l) then f m else m)) /\
  (forall i, i ∈ l -> exists m, machine_unchecked (machines_of v) i = Ok m /\ P m).
Proof.
  intros Hstep Hnd; revert v; induction Hnd as [|i l Hi Hnd IH]; intros v; cbn [foldM].
  - intros [= <-]. split; [done|]. by intros i []%not_elem_of_nil.
  - intros (v1 & H1 & H2)%bind_Ok. destruct (Hstep _ _ _ H1) as (m & Hm & HP & Hms).
    destruct (IH _ H2) as [IH1 IH2]. pose proof Hm as [Hi0 Hl]%machine_unchecked_Ok. split.
    + intros k mk Hk. destruct (decide (k = Z.to_nat i)) as [->|Hne].
      * simplify_eq. rewrite (IH1 _ (f m)).
        -- rewrite Z2Nat.id by done. rewrite decide_False by done. by rewrite decide_True by left.
        -- rewrite Hms, list_lookup_insert_eq; [done|by eapply lookup_lt_Some].
      * rewrite (IH1 _ mk) by by rewrite Hms, list_lookup_insert_ne by done.
        assert (Z.of_nat k ≠ i) by lia. do 2 f_equal. repeat case_decide; set_solver.
    + intros k [->|Hk]%elem_of_cons; [by eauto|].
      destruct (IH2 _ Hk) as (mk & [Hk0 Hmk]%machine_unchecked_Ok & HPk).
      assert (k ≠ i) by (intros ->; done).
      exists mk. split; [|done]. apply machine_unchecked_Ok. split; [done|].
      rewrite Hms, list_lookup_insert_ne in Hmk by lia. done.
Qed.

Section JobTheorems.
Context {IS Host : Type} `{IntervalSetLaws IS}.
Context (jh : job_heap IS) (now : Q) (trace_machine_states : bool).
Implicit Types (v : machines_view Host) (m : Machine Host).

Lemma trace_states_machines v v' :
  trace_states_if_needed now trace_machine_states v = Ok v' -> v_machines v' = v_machines v.
Proof. unfold trace_states_if_needed. destruct trace_machine_states; intros Hr; by inv_ok. Qed.

Lemma job_run_machines job (used : IS) v v' :
  update_machines_on_job_run jh now trace_machine_states job used v = Ok v' ->
  (forall i m, ms_machines (v_machines v) !! i = Some m ->
     ms_machines (v_machines v') !! i =
       Some (if decide (Z.of_nat i ∈ elements_of used) then started now job m else m)) /\
  (forall i, i ∈ elements_of used -> exists m, machine_unchecked (v_machines v) i = Ok m).
Proof.
  unfold update_machines_on_job_run. intros (v1 & H1 & ->%trace_states_machines)%bind_Ok.
  eapply (foldM_machines v_machines (started now job) (fun _ => True)) in H1 as [Hm Hin].
  - split; [exact Hm|]. intros i Hi. destruct (Hin i Hi) as (m & ? & _). by exists m.
  - intros v2 i v3 (m & Hm & _ & ->)%job_run_on_machine_Ok. by exists m.
  - apply elements_NoDup.
Qed.

Lemma job_end_machines job (used : IS) v v' :
  update_machines_on_job_end jh now trace_machine_states job used v = Ok v' ->
  (forall i m, ms_machines (v_machines v) !! i = Some m ->
     ms_machines (v_machines v') !! i =
       Some (if decide (Z.of_nat i ∈ elements_of used) then ended now job m else m)) /\
  (forall i, i ∈ elements_of used -> exists m,
     machine_unchecked (v_machines v) i = Ok m /\ job ∈ m_jobs_being_computed m).
Proof.
  unfold update_machines_on_job_end. intros (v1 & H1 & ->%trace_states_machines)%bind_Ok.
  eapply (foldM_machines v_machines (ended now job) (fun m => job ∈ m_jobs_being_computed m)) in H1 as [Hm Hin].
  - by split.
  - intros v2 i v3 (m & Hm & Hj & _ & -> & _)%job_end_on_machine_Ok. by exists m.
  - apply elements_NoDup.
Qed.

(** Starting a job puts exactly the machines of its allocation in the
    computing state, with the job among the jobs they compute, and leaves the
    other machines as they are. *)
Theorem update_machines_on_job_run_spec job (used : IS) v v' :
  update_machines_on_job_run jh now trace_machine_states job used v = Ok v' ->
  (forall i m, ms_machines (v_machines v) !! i = Some m ->
     ms_machines (v_machines v') !! i =
       Some (if decide (Z.of_nat i ∈ elements_of used) then started now job m else m)) /\
  (forall m, m_state (started now job m) = COMPUTING /\
     (forall j, j ∈ m_jobs_being_computed (started now job m) <-> j = job \/ j ∈ m_jobs_being_computed m)) /\
  (forall i, i ∈ elements_of used -> exists m, machine_unchecked (v_machines v) i = Ok m).
Proof.
  intros [Hm Hin]%job_run_machines. split_and!; [exact Hm| |exact Hin].
  intros m. split; [done|]. intros j. cbn. apply elem_of_pset_insert.
Qed.

(** Ending a job removes it from exactly the machines of its allocation,
    each of which was computing it; a machine left without any job becomes idle
    unless it is unavailable, and the other machines do not change. *)
Theorem update_machines_on_job_end_spec job (used : IS) v v' :
  update_machines_on_job_end jh now trace_machine_states job used v = Ok v' ->
  (forall i m, ms_machines (v_machines v) !! i = Some m ->
     ms_machines (v_machines v') !! i =
       Some (if decide (Z.of_nat i ∈ elements_of used) then ended now job m else m)) /\
  (forall i, i ∈ elements_of used -> exists m,
     machine_unchecked (v_machines v) i = Ok m /\ job ∈ m_jobs_being_computed m) /\
  (forall m, m_jobs_being_computed (ended now job m) = pset_erase job (m_jobs_being_computed m) /\
     m_state (ended now job m) =
       (if bool_decide (pset_erase job (m_jobs_being_computed m) = []) && negb (bool_decide (m_state m = UNAVAILABLE))
        then IDLE else m_state m)).
Proof.
  intros [Hm Hin]%job_end_machines. split_and!; [exact Hm|exact Hin|].
  intros m. by rewrite ended_jobs, ended_state.
Qed.

Definition machines_inv (k : Z) v : Prop :=
  counters_ok k (v_machines v) /\ Forall time_wf (ms_machines (v_machines v)).

Lemma job_run_on_machine_inv k job v i v' :
  job_run_on_machine jh now job v i = Ok v' -> machines_inv k v -> machines_inv k v'.
Proof.
  intros (m & [Hi Hl]%machine_unchecked_Ok & Hd & Hv)%job_run_on_machine_Ok [Hc Ht]. split.
  - intros s. rewrite Hv. csimpl.
    rewrite count_of_update, (nb_in_state_insert _ _ _ m) by done. rewrite (Hc s). cbn. lia.
  - rewrite Hv. apply (Forall_store time_wf); [done|].
    assert (time_wf m) as Hm by by eapply Forall_lookup_1.
    exact (time_wf_advance m now COMPUTING Hd Hm).
Qed.

Lemma job_end_on_machine_inv k job v i v' :
  job_end_on_machine jh now job v i = Ok v' -> machines_inv k v -> machines_inv k v'.
Proof.
  intros (m & [Hi Hl]%machine_unchecked_Ok & _ & Hd & Hms & Hnb)%job_end_on_machine_Ok [Hc Ht].
  assert (time_wf m) as Hm by by eapply Forall_lookup_1. split.
  - intros s. rewrite Hms, Hnb, (nb_in_state_insert _ _ _ m) by done. unfold ended. cbn.
    destruct (_ && _); cbn; rewrite ?count_of_update, (Hc s); lia.
  - rewrite Hms. apply Forall_insert; [done|]. rewrite ended_jobs in Hd.
    unfold ended. cbv zeta. destruct (_ && _) eqn:Hb; [|exact Hm].
    apply andb_true_iff in Hb as [He%bool_decide_eq_true Hb%negb_true_iff%bool_decide_eq_false].
    apply (time_wf_advance (m <| m_jobs_being_computed ::= pset_erase job |>) now IDLE); [exact (Hd He Hb)|exact Hm].
Qed.
End JobTheorems.

(** When a job that the machines of an allocation were not computing starts on
    them and ends later, each of them computes the same jobs as before, in the same
    order, and is idle if there are none and computing otherwise; the other
    machines do not change at all. *)
Theorem job_run_end_roundtrip {IS Host} `{IntervalSetLaws IS} (jh jh' : job_heap IS) now later trace job (used : IS)
    (v v1 v2 : machines_view Host) :
  update_machines_on_job_run jh now trace job used v = Ok v1 ->
  update_machines_on_job_end jh' later trace job used v1 = Ok v2 ->
  forall i m, ms_machines (v_machines v) !! i = Some m -> job ∉ m_jobs_being_computed m ->
  exists m2, ms_machines (v_machines v2) !! i = Some m2 /\
    m_jobs_being_computed m2 = m_jobs_being_computed m /\
    (Z.of_nat i ∈ elements_of used ->
       m_state m2 = if bool_decide (m_jobs_being_computed m = []) then IDLE else COMPUTING) /\
    (Z.of_nat i ∉ elements_of used -> m2 = m).
Proof.
  intros [Hrun _]%job_run_machines [Hend _]%job_end_machines i m Hm Hj.
  eexists. split; [by apply Hend, Hrun|]. destruct (decide (Z.of_nat i ∈ elements_of used)) as [Hi|Hi]; [|done].
  rewrite ended_jobs, ended_state.
  change (m_jobs_being_computed (started now job m)) with (pset_insert job (m_jobs_being_computed m)).
  change (m_state (started now job m)) with COMPUTING.
  rewrite pset_erase_insert by done. split_and!; [done| |done].
  intros _. by destruct (bool_decide (m_jobs_being_computed m = [])).
Qed.

(** ** Theorems: creation *)

(** What the steps of the creation that follow [create_machine] do not change. *)
Definition core {Host} (m : Machine Host) :=
  (m_host m, m_name m, m_permissions m, m_state m, m_jobs_being_computed m,
   m_last_state_change_date m, m_time_spent_in_each_state m).

(** A machine just created on a host. *)
Definition fresh {Host} (m : Machine Host) : Prop :=
  m_state m = IDLE /\ m_jobs_being_computed m = [] /\ time_wf m.

Lemma fresh_core {Host} (m m' : Machine Host) : core m = core m' -> fresh m -> fresh m'.
Proof.
  unfold core, fresh, time_wf, spent. intros [= Hh Hn Hp Hs Hj Hd Ht]. by rewrite Hs, Hj, Hd, Ht.
Qed.

Section CreateFacts.
Context {Engine Host : Type} `{SimGrid Engine Host} `{BoostString}.
Context (e : Engine) (energy_used : bool) (role_map : gmap string string).
Implicit Types (m : Machine Host).

Lemma add_sleep_pstate_core n m t m' : add_sleep_pstate n m t = Ok m' -> core m' = core m.
Proof.
  unfold add_sleep_pstate. destruct (split_compress ":" t) as [|s0 [|s1 [|s2 []]]]; try done.
  destruct (lexical_cast_uint (trim s0)), (lexical_cast_uint (trim s1)), (lexical_cast_uint (trim s2)); try done.
  intros Hr. by inv_ok.
Qed.

Lemma add_computation_pstates_core l m : core (foldl add_computation_pstate m l) = core m.
Proof.
  revert m; induction l as [|ps l IH]; intros m; cbn; [done|]. rewrite IH.
  unfold add_computation_pstate. by destruct (has_pstate m ps).
Qed.

Lemma read_pstates_core m m' : read_pstates m = Ok m' -> core m' = core m.
Proof.
  unfold read_pstates. intros (m1 & H1 & [= <-])%bind_Ok.
  rewrite add_computation_pstates_core. destruct (m_properties m !! _); [|by injection H1 as <-].
  revert H1. apply (foldM_inv (fun m1 => core m1 = core m)); [done|].
  intros m2 t m3 _ <-. apply add_sleep_pstate_core.
Qed.

Lemma create_machine_Ok host m :
  create_machine e energy_used role_map host = Ok m ->
  m_host m = host /\ role_of role_map host = Ok (m_permissions m) /\ fresh m.
Proof.
  unfold create_machine. intros (p & Hp & Hr)%bind_Ok. inv_ok.
  set (m0 := _ <| m_permissions := p |>) in *.
  assert (core m = core m0) as Hc.
  { destruct energy_used; [by apply read_pstates_core|congruence]. }
  assert (fresh m) as Hf.
  { eapply fresh_core; [symmetry; exact Hc|]. split_and!; [done..|].
    destruct (time_wf_new (host_name host) host) as [Ha Hb]. split; [exact Ha|exact Hb]. }
  unfold core in Hc. injection Hc as Hh _ Hpm _ _ _ _. cbn in Hh, Hpm. by rewrite Hh, Hpm.
Qed.

Definition has_permissions (p : Z) (host : Host) : bool := bool_decide (role_of role_map host = Ok p).

Definition classified_ok (processed : list Host) (c : classified) : Prop :=
  m_host <$> c_compute c = List.filter (has_permissions roles.COMPUTE_NODE) processed /\
  m_host <$> c_storage c = List.filter (has_permissions roles.STORAGE) processed /\
  Forall fresh (c_compute c) /\ Forall fresh (c_storage c).

Lemma create_and_classify_ok processed c host c' :
  create_and_classify e energy_used role_map c host = Ok c' ->
  classified_ok processed c -> classified_ok (processed ++ [host]) c'.
Proof.
  unfold create_and_classify. intros (m & Hm & Hc)%bind_Ok (Hcc & Hcs & Hfc & Hfs).
  apply create_machine_Ok in Hm as (Hh & Hr & Hf).
  unfold classified_ok. rewrite !List.filter_app. cbn [List.filter]. unfold has_permissions at 2 4.
  rewrite Hr. unfold classify in Hc.
  destruct (Z.eqb_spec (m_permissions m) roles.COMPUTE_NODE) as [->|Hn1].
  { injection Hc as <-. cbn [c_compute c_storage]. rewrite fmap_app, Hcc, Hcs. cbn. rewrite Hh, app_nil_r.
    split_and!; [done..| |done]. apply Forall_app_2; [done|]. by constructor. }
  destruct (Z.eqb_spec (m_permissions m) roles.STORAGE) as [->|Hn2].
  { injection Hc as <-. cbn [c_compute c_storage]. rewrite fmap_app, Hcc, Hcs. cbn. rewrite Hh, app_nil_r.
    split_and!; [done..|]. apply Forall_app_2; [done|]. by constructor. }
  rewrite !bool_decide_eq_false_2 by congruence. rewrite !app_nil_r.
  destruct (m_permissions m =? roles.MASTER); [destruct (c_master c)|]; inv_ok; done.
Qed.

Lemma classify_all_ok c0 hosts c :
  foldM (create_and_classify e energy_used role_map) (mk_classified [] [] c0) hosts = Ok c ->
  classified_ok hosts c.
Proof.
  intros Hf. cut (exists processed, hosts = processed ++ [] /\ classified_ok processed c).
  { intros (p & -> & Hc). by rewrite app_nil_r. }
  revert Hf. apply (foldM_inv_rest (fun c rest => exists processed, hosts = processed ++ rest /\ classified_ok processed c)).
  - exists []. split; [done|]. split_and!; done || constructor.
  - intros c1 h rest c2 (p & -> & Hc) Hs. exists (p ++ [h]). split; [by rewrite <- app_assoc|].
    by eapply create_and_classify_ok.
Qed.

Lemma sort_core (l l' : list (Machine Host)) : sort_machines_by_ascending_name l = Ok l' -> core <$> l' = core <$> l.
Proof.
  unfold sort_machines_by_ascending_name. intros (sorted & _ & [= <-])%bind_Ok.
  generalize (imap pair sorted) as ranks. intros ranks. revert l.
  induction ranks as [|r ranks IH]; intros l; cbn; [done|]. rewrite IH.
  apply list_eq. intros i. rewrite !list_lookup_fmap, list_lookup_alter.
  case_decide; [|done]. subst. by destruct (l !! _).
Qed.

Lemma number_machines_core (l : list (Machine Host)) : core <$> number_machines l = core <$> l.
Proof.
  unfold number_machines. apply list_eq. intros i.
  rewrite !list_lookup_fmap, list_lookup_imap. by destruct (l !! i).
Qed.

(** The zones only write the zone properties. *)
Definition core_id m := (core m, m_id m).

Lemma set_zone_properties_core props (ms : Machines Host) h :
  let ms' := set_zone_properties props ms h in
  core_id <$> ms_machines ms' = core_id <$> ms_machines ms /\
  ms' <| ms_machines := ms_machines ms |> = ms.
Proof.
  unfold set_zone_properties. destruct (machine_by_name_or_null ms (host_name h)) as [i|]; cbn.
  - split; [|by destruct ms]. apply list_eq. intros k.
    rewrite !list_lookup_fmap, list_lookup_alter. case_decide; [|done]. subst. by destruct (ms_machines ms !! _).
  - split; [done|by destruct ms].
Qed.
End CreateFacts.

Section CreateTheorems.
Context {Engine Host : Type} `{SimGrid Engine Host} `{BoostString}.
Context (e : Engine) (energy_used : bool) (role_map : gmap string string).
Implicit Types (ms : Machines Host) (m : Machine Host).

Definition zone_rel ms ms' : Prop :=
  core_id <$> ms_machines ms' = core_id <$> ms_machines ms /\
  ms' <| ms_machines := ms_machines ms |> = ms.

Lemma zone_rel_refl ms : zone_rel ms ms.
Proof. split; [done|by destruct ms]. Qed.

Lemma zone_rel_trans ms1 ms2 ms3 : zone_rel ms1 ms2 -> zone_rel ms2 ms3 -> zone_rel ms1 ms3.
Proof.
  destruct ms1, ms2, ms3. intros [H1 H2] [H3 H4]. cbn in *. split; cbn in *; congruence.
Qed.

Lemma set_zone_properties_list props (hosts : list Host) ms :
  zone_rel ms (foldl (set_zone_properties props) ms hosts).
Proof.
  revert ms; induction hosts as [|h hosts IH]; intros ms; cbn; [apply zone_rel_refl|].
  eapply zone_rel_trans; [apply set_zone_properties_core|apply IH].
Qed.

Lemma attach_zone_properties_rel :
  forall (z : NetZone Host) props ms, zone_rel ms (attach_zone_properties_to_machines z props ms).
Proof.
  fix IH 1. intros [n ps hs cs] props ms.
  assert (forall props' ms', zone_rel ms' (foldl (fun ms z => attach_zone_properties_to_machines z props' ms) ms' cs)) as Hcs.
  { intros props'. induction cs as [|z cs IHcs]; intros ms'; [apply zone_rel_refl|].
    cbn [foldl]. eapply zone_rel_trans; [apply IH|apply IHcs]. }
  cbn [attach_zone_properties_to_machines z_properties z_all_hosts z_children].
  eapply zone_rel_trans; [apply set_zone_properties_list|apply Hcs].
Qed.

(** The machines whose number is limited: the first ones, when a limit is given. *)
Definition limited {A} (limit : Z) (l : list A) : list A :=
  if 0 <? limit then take (Z.to_nat limit) l else l.

Lemma limit_compute_nodes_Ok limit (l l' : list (Machine Host)) :
  limit_compute_nodes limit l = Ok l' -> l' = limited limit l.
Proof. unfold limit_compute_nodes, limited. destruct (0 <? limit); intros Hr; by inv_ok. Qed.

Lemma limited_fmap {A B} (f : A -> B) limit l : f <$> limited limit l = limited limit (f <$> l).
Proof. unfold limited. destruct (0 <? limit); [apply fmap_take|done]. Qed.

Lemma Forall_limited {A} (P : A -> Prop) limit l : Forall P l -> Forall P (limited limit l).
Proof. unfold limited. destruct (0 <? limit); [apply Forall_take|done]. Qed.

Lemma Forall_fresh_core (l l' : list (Machine Host)) :
  core <$> l' = core <$> l -> Forall fresh l -> Forall fresh l'.
Proof.
  intros Hc Hl. apply Forall_lookup_2. intros i m' Hm'.
  assert ((core <$> l') !! i = Some (core m')) as Hi by by rewrite list_lookup_fmap, Hm'.
  rewrite Hc, list_lookup_fmap in Hi. destruct (l !! i) as [m|] eqn:Hm; [|done].
  apply (inj Some) in Hi. eapply fresh_core; [exact Hi|]. by eapply Forall_lookup_1.
Qed.

Lemma core_hosts (l l' : list (Machine Host)) : core <$> l' = core <$> l -> m_host <$> l' = m_host <$> l.
Proof.
  intros Hc. assert (forall l : list (Machine Host), m_host <$> l = (fun c => c.1.1.1.1.1.1) <$> (core <$> l)) as Hf.
  { intros k. by rewrite <- list_fmap_compose. }
  by rewrite !Hf, Hc.
Qed.

Lemma core_id_core (l l' : list (Machine Host)) : core_id <$> l' = core_id <$> l -> core <$> l' = core <$> l.
Proof.
  intros Hc. assert (forall l : list (Machine Host), core <$> l = fst <$> (core_id <$> l)) as Hf.
  { intros k. by rewrite <- list_fmap_compose. }
  by rewrite !Hf, Hc.
Qed.

(** The machines that [create_machines] makes, before the zones. *)
Lemma create_machines_Ok hosts root limit ms ms' :
  create_machines e energy_used role_map hosts root limit ms = Ok ms' ->
  exists c compute, classified_ok role_map hosts c /\
    core <$> compute = limited limit (core <$> c_compute c) /\
    core_id <$> ms_machines ms' = core_id <$> number_machines (compute ++ c_storage c) /\
    ms_compute_nodes ms' = seq 0 (length compute) /\
    ms_storage_nodes ms' = seq (length compute) (length (c_storage c)) /\
    ms_nb_machines_in_each_state ms' =
      <[IDLE := i32 (Z.of_nat (length compute))]> (ms_nb_machines_in_each_state ms).
Proof.
  unfold create_machines.
  intros ([] & _ & ([] & _ & (c & Hc & (s & Hs & (compute & Hl & Hr)%bind_Ok)%bind_Ok)%bind_Ok)%bind_Ok)%bind_Ok.
  exists c, compute. apply classify_all_ok in Hc. apply sort_core in Hs.
  apply limit_compute_nodes_Ok in Hl as ->.
  match type of Hr with context [attach_zone_properties_to_machines root ∅ ?m] =>
    pose proof (attach_zone_properties_rel root ∅ m) as [Hz1 Hz2];
    destruct (attach_zone_properties_to_machines root ∅ m) as [machines sto comp master tr nb] end.
  cbn in Hr, Hz1, Hz2. injection Hz2 as -> -> -> -> ->.
  destruct (c_master c); [|done]. injection Hr as <-. cbn.
  rewrite limited_fmap, Hs. done.
Qed.

Lemma nb_in_state_fresh s (l : list (Machine Host)) :
  Forall fresh l -> nb_in_state s l = if decide (s = IDLE) then Z.of_nat (length l) else 0.
Proof.
  intros Hf. induction Hf as [|m l (Hs & _) Hl IH]; cbn [nb_in_state count_if length].
  - by case_decide.
  - unfold nb_in_state in IH. rewrite Hs, IH. repeat case_decide; case_bool_decide; congruence || lia.
Qed.

Lemma limited_length {A} limit (l : list A) : (length (limited limit l) <= length l)%nat.
Proof. unfold limited. destruct (0 <? limit); [rewrite length_take|]; lia. Qed.

Lemma create_machines_state hosts root limit ms' :
  Z.of_nat (length hosts) < 2 ^ 31 ->
  create_machines e energy_used role_map hosts root limit new_Machines = Ok ms' ->
  Forall fresh (ms_machines ms') /\ counters_ok (Z.of_nat (length (ms_storage_nodes ms'))) ms'.
Proof.
  intros Hlen (c & compute & (Hcc & Hcs & Hfc & Hfs) & Hcomp & Hms & Hcn & Hsn & Hnb)%create_machines_Ok.
  pose proof (core_id_core _ _ Hms) as Hcore. rewrite number_machines_core in Hcore.
  assert (Forall fresh (ms_machines ms')) as Hfresh.
  { apply (Forall_fresh_core (limited limit (c_compute c) ++ c_storage c)).
    - by rewrite Hcore, !fmap_app, Hcomp, limited_fmap.
    - apply Forall_app_2; [by apply Forall_limited|done]. }
  split; [done|]. intros s.
  assert (length (ms_machines ms') = length compute + length (c_storage c))%nat as Hlm.
  { rewrite <- (length_fmap core), Hcore, length_fmap. apply length_app. }
  assert (length compute <= length hosts)%nat as Hle.
  { rewrite <- (length_fmap core), Hcomp. etransitivity; [apply limited_length|].
    rewrite length_fmap, <- (length_fmap m_host), Hcc. apply List.filter_length_le. }
  rewrite Hnb, Hsn, length_seq, i32_small, nb_in_state_fresh by done || lia.
  unfold count_of. destruct (decide (s = IDLE)) as [->|Hne].
  - rewrite lookup_insert_eq. cbn. lia.
  - rewrite lookup_insert_ne by done. by destruct s.
Qed.

(** C30. Creating the machines of a platform numbers them from 0, compute nodes
    first and storage nodes after; compute nodes come in the order of the hosts
    of the engine, cut to the requested number, although the source sorts them
    by name; all machines are idle and have not spent time in any state. *)
Theorem create_machines_spec hosts root limit ms' :
  Z.of_nat (length hosts) < 2 ^ 31 ->
  create_machines e energy_used role_map hosts root limit new_Machines = Ok ms' ->
  (forall i m, ms_machines ms' !! i = Some m -> m_id m = Z.of_nat i) /\
  m_host <$> ms_machines ms' =
    limited limit (List.filter (has_permissions role_map roles.COMPUTE_NODE) hosts) ++
    List.filter (has_permissions role_map roles.STORAGE) hosts /\
  ms_compute_nodes ms' ++ ms_storage_nodes ms' = seq 0 (length (ms_machines ms')) /\
  Forall fresh (ms_machines ms').
Proof.
  intros Hlen Hcr. destruct (create_machines_state _ _ _ _ Hlen Hcr) as [Hfresh _].
  apply create_machines_Ok in Hcr as (c & compute & (Hcc & Hcs & _) & Hcomp & Hms & Hcn & Hsn & _).
  pose proof (core_id_core _ _ Hms) as Hcore. rewrite number_machines_core in Hcore.
  split_and!; [| | |done].
  - intros i m Hm. assert ((core_id <$> ms_machines ms') !! i = Some (core_id m)) as Hi
      by by rewrite list_lookup_fmap, Hm.
    rewrite Hms, list_lookup_fmap in Hi. unfold number_machines in Hi. rewrite list_lookup_imap in Hi.
    destruct ((compute ++ c_storage c) !! i); [|done]. by injection Hi as _ _ _ _ _ _ _ <-.
  - rewrite (core_hosts _ _ Hcore), fmap_app, Hcs, <- Hcc. f_equal.
    rewrite <- limited_fmap. apply core_hosts. by rewrite Hcomp, limited_fmap.
  - rewrite Hcn, Hsn, <- seq_app, <- (length_fmap core (ms_machines ms')), Hcore, length_fmap.
    by rewrite length_app.
Qed.
End CreateTheorems.

(** ** Theorems: a whole life of the machines *)

Inductive machine_op (IS : Type) :=
| OpRun (job : positive) (used : IS)
| OpEnd (job : positive) (used : IS)
| OpState (machine_id : Z) (new_state : MachineState).
Arguments OpRun {IS}. Arguments OpEnd {IS}. Arguments OpState {IS}.

Section Lives.
Context {IS Host : Type} `{IntervalSet IS}.
Context (jh : job_heap IS) (trace_machine_states : bool).

Definition run_machine_op (v : machines_view Host) (op : Q * machine_op IS) : result (machines_view Host) :=
  let '(now, op) := op in
  match op with
  | OpRun job used => update_machines_on_job_run jh now trace_machine_states job used v
  | OpEnd job used => update_machines_on_job_end jh now trace_machine_states job used v
  | OpState i s => ms ← update_machine_state now (v_machines v) i s; Ok (v <| v_machines := ms |>)
  end.

Lemma job_run_inv now job used k (v v' : machines_view Host) :
  update_machines_on_job_run jh now trace_machine_states job used v = Ok v' -> machines_inv k v -> machines_inv k v'.
Proof.
  unfold update_machines_on_job_run. intros (v1 & H1 & H2)%bind_Ok Hv. unfold machines_inv.
  rewrite (trace_states_machines _ _ _ _ H2). change (machines_inv k v1).
  revert H1. apply foldM_inv; [done|]. intros ???? Hi Hr. by eapply job_run_on_machine_inv.
Qed.

Lemma job_end_inv now job used k (v v' : machines_view Host) :
  update_machines_on_job_end jh now trace_machine_states job used v = Ok v' -> machines_inv k v -> machines_inv k v'.
Proof.
  unfold update_machines_on_job_end. intros (v1 & H1 & H2)%bind_Ok Hv. unfold machines_inv.
  rewrite (trace_states_machines _ _ _ _ H2). change (machines_inv k v1).
  revert H1. apply foldM_inv; [done|]. intros ???? Hi Hr. by eapply job_end_on_machine_inv.
Qed.

Lemma started_computes now job (m : Machine Host) : computes (started now job m).
Proof.
  intros _ Hn. change (pset_insert job (m_jobs_being_computed m) = []) in Hn.
  apply (not_elem_of_nil job). rewrite <- Hn. apply elem_of_pset_insert. by left.
Qed.

Lemma ended_computes now job (m : Machine Host) : computes m -> computes (ended now job m).
Proof.
  intros Hm. unfold computes. rewrite ended_jobs, ended_state. destruct (bool_decide (pset_erase _ _ = [])) eqn:He.
  - destruct (bool_decide (m_state m = UNAVAILABLE)) eqn:Hu; cbn; [|done]. apply bool_decide_eq_true in Hu. congruence.
  - by apply bool_decide_eq_false in He.
Qed.

Lemma job_run_kept now job used (v v' : machines_view Host) :
  update_machines_on_job_run jh now trace_machine_states job used v = Ok v' -> machines_kept (v_machines v) (v_machines v').
Proof.
  intros Hr k [Hc Ht Hm]. destruct (job_run_inv _ _ _ k _ _ Hr (conj Hc Ht)) as [Hc' Ht']. split; [done|done|].
  revert Hr. unfold update_machines_on_job_run. intros (v1 & H1 & ->%trace_states_machines)%bind_Ok. revert H1.
  apply (foldM_inv (fun v => Forall computes (ms_machines (v_machines v)))); [done|].
  intros v2 i v3 _ Hv (m & _ & _ & ->)%job_run_on_machine_Ok. apply (Forall_store computes); [done|apply started_computes].
Qed.

Lemma job_end_kept now job used (v v' : machines_view Host) :
  update_machines_on_job_end jh now trace_machine_states job used v = Ok v' -> machines_kept (v_machines v) (v_machines v').
Proof.
  intros Hr k [Hc Ht Hm]. destruct (job_end_inv _ _ _ k _ _ Hr (conj Hc Ht)) as [Hc' Ht']. split; [done|done|].
  revert Hr. unfold update_machines_on_job_end. intros (v1 & H1 & ->%trace_states_machines)%bind_Ok. revert H1.
  apply (foldM_inv (fun v => Forall computes (ms_machines (v_machines v)))); [done|].
  intros v2 i v3 _ Hv (m & [_ Hl]%machine_unchecked_Ok & _ & _ & -> & _)%job_end_on_machine_Ok.
  apply Forall_insert; [done|]. apply ended_computes. by eapply Forall_lookup_1.
Qed.

Lemma update_machine_state_kept now i s (ms ms' : Machines Host) :
  (forall m, machine_unchecked ms i = Ok m -> s = COMPUTING -> m_jobs_being_computed m ≠ []) ->
  update_machine_state now ms i s = Ok ms' -> machines_kept ms ms'.
Proof.
  intros Hs Hu k [Hc Ht Hm]. split; [by eapply counters_ok_update|by eapply time_wf_update|].
  apply update_machine_state_Ok in Hu as (m & Hu & _ & ->). apply (Forall_store computes); [done|].
  unfold computes. cbn. by apply Hs.
Qed.

(** A power state that is looked up may be added. *)
Lemma pstates_kept i p (m : Machine Host) (ms : Machines Host) : machine_at ms i = Ok m -> machines_kept ms (store_machine ms i (pstates_at m p).2).
Proof.
  intros Hm k [Hc Ht Hw]. apply machine_at_Ok in Hm as [Hi Hm].
  assert (m_state (pstates_at m p).2 = m_state m /\ (time_wf m -> time_wf (pstates_at m p).2) /\
          (computes m -> computes (pstates_at m p).2)) as (Hs & Htm & Hcm)
    by (unfold pstates_at; by destruct (m_pstates m !! p)).
  split.
  - intros s. change (ms_machines (store_machine ms i ?m')) with (<[Z.to_nat i := m']> (ms_machines ms)).
    rewrite (nb_in_state_insert _ _ _ m) by done. specialize (Hc s). cbn in *. rewrite Hc, Hs. lia.
  - apply (Forall_store time_wf); [done|]. apply Htm. by eapply Forall_lookup_1.
  - apply (Forall_store computes); [done|]. apply Hcm. by eapply Forall_lookup_1.
Qed.

Lemma run_machine_op_inv k v op v' :
  run_machine_op v op = Ok v' -> machines_inv k v -> machines_inv k v'.
Proof.
  destruct op as [now [job used|job used|i s]]; cbn.
  - apply job_run_inv.
  - apply job_end_inv.
  - intros (ms & Hu & [= <-])%bind_Ok [Hc Ht]. split; cbn.
    + by eapply counters_ok_update.
    + by eapply time_wf_update.
Qed.

(** From the creation of the machines on, whatever jobs start and end and
    whatever other state changes are made: the counter of each state is the
    number of machines in that state, the storage machines being left out of the
    counter of idle ones, and for every machine the times spent in the states
    are not negative and add up to the date of its last change. *)
Theorem machines_life_invariant `{!SimGrid Engine Host} `{BoostString} (e : Engine) energy_used role_map
    hosts root limit ms paje states ops v' :
  Z.of_nat (length hosts) < 2 ^ 31 ->
  create_machines e energy_used role_map hosts root limit new_Machines = Ok ms ->
  foldM run_machine_op (mk_view ms paje states) ops = Ok v' ->
  (forall s, count_of (ms_nb_machines_in_each_state (v_machines v')) s =
     nb_in_state s (ms_machines (v_machines v')) -
     (if decide (s = IDLE) then Z.of_nat (length (ms_storage_nodes ms)) else 0)) /\
  Forall time_wf (ms_machines (v_machines v')).
Proof.
  intros Hlen Hcr Hops. destruct (create_machines_state _ _ _ _ _ _ _ Hlen Hcr) as [Hfresh Hc].
  assert (machines_inv (Z.of_nat (length (ms_storage_nodes ms))) v') as [? ?]; [|done].
  revert Hops. apply foldM_inv.
  - split; [done|]. cbn. eapply Forall_impl; [exact Hfresh|]. by intros m (_ & _ & Ht).
  - intros v op v1 _ Hv Hr. by eapply run_machine_op_inv.
Qed.
End Lives.

(** ** Theorems: zones and footprints *)

(** The zones of a platform, in no particular order. *)
Inductive in_zone {Host} (z : NetZone Host) : NetZone Host -> Prop :=
| in_zone_self : in_zone z z
| in_zone_child root child : child ∈ z_children root -> in_zone z child -> in_zone z root.

Section ZoneFacts.
Context {Host : Type}.
Implicit Types (z root : NetZone Host).

Definition queue_size (q : list (NetZone Host)) : nat := list_sum (zone_size <$> q).

Lemma queue_size_app q1 q2 : queue_size (q1 ++ q2) = (queue_size q1 + queue_size q2)%nat.
Proof. unfold queue_size. by rewrite fmap_app, list_sum_app. Qed.

Lemma queue_size_cons z q : queue_size (z :: q) = S (queue_size (z_children z) + queue_size q).
Proof. destruct z. done. Qed.

(** With a fuel above the number of zones, the search ends; it returns a zone of
    that name, and fails only when there is none. *)
Lemma find_zone_loop_spec fuel name q :
  (queue_size q < fuel)%nat ->
  (exists z, find_zone_loop fuel name q = Ok (Some z) /\ z_name z = name /\
     exists r, r ∈ q /\ in_zone z r) \/
  (find_zone_loop fuel name q = Ok None /\
     forall z r, r ∈ q -> in_zone z r -> z_name z ≠ name).
Proof.
  revert q; induction fuel as [|fuel IH]; intros q Hf; [lia|].
  cbn [find_zone_loop]. destruct q as [|z q].
  { right. split; [done|]. by intros z r []%not_elem_of_nil. }
  rewrite queue_size_cons in Hf. destruct (String.eqb_spec (z_name z) name) as [Hn|Hn].
  { left. exists z. split_and!; [done..|]. exists z. split; [by left|constructor]. }
  destruct (IH (q ++ z_children z)) as [(z' & Hz & Hn' & r & Hr & Hin)|(Hz & Hno)].
  { rewrite queue_size_app. lia. }
  - left. exists z'. split_and!; [done..|]. apply elem_of_app in Hr as [Hr|Hr].
    + exists r. split; [by right|done].
    + exists z. split; [by left|]. by eapply in_zone_child.
  - right. split; [done|]. intros z' r [->|Hr]%elem_of_cons Hin.
    + destruct Hin as [|root child Hc Hin]; [done|]. apply (Hno z' child); [|done].
      apply elem_of_app. by right.
    + apply (Hno z' r); [|done]. apply elem_of_app. by left.
Qed.

(** The breadth-first search of a zone terminates: it returns a zone of the
    platform with the requested name when there is one, and nothing otherwise. *)
Theorem find_zone_by_name_spec root name :
  (exists z, find_zone_by_name_machines root name = Ok (Some z) /\ z_name z = name /\ in_zone z root) \/
  (find_zone_by_name_machines root name = Ok None /\ forall z, in_zone z root -> z_name z ≠ name).
Proof.
  unfold find_zone_by_name_machines.
  destruct (find_zone_loop_spec (S (zone_size root)) name [root])
    as [(z & Hz & Hn & r & ->%list_elem_of_singleton & Hin)|(Hz & Hno)].
  - unfold queue_size. cbn. lia.
  - left. by exists z.
  - right. split; [done|]. intros z Hin. apply (Hno z root); [by left|done].
Qed.
End ZoneFacts.

Section FootprintFacts.
Context {Engine Host : Type} `{SimGrid Engine Host} (e : Engine).

Lemma sum_over_acc (f : Host -> Q) hosts acc :
  (foldl (fun total h => (total + f h)%Q) acc hosts == acc + Qsum (f <$> hosts))%Q.
Proof.
  revert acc; induction hosts as [|h hosts IH]; intros acc; cbn; [ring|]. rewrite IH. ring.
Qed.

Lemma sum_water_acc hosts acc :
  (foldl (fun total h =>
     let total := (total + sg_host_get_water_onsite_footprint e h)%Q in
     (total + sg_host_get_water_offsite_footprint e h)%Q) acc hosts ==
   acc + Qsum (sg_host_get_water_onsite_footprint e <$> hosts)
       + Qsum (sg_host_get_water_offsite_footprint e <$> hosts))%Q.
Proof.
  revert acc; induction hosts as [|h hosts IH]; intros acc; cbn; [ring|]. rewrite IH. ring.
Qed.

(** The water footprint of the platform is the sum of its on-site and
    off-site parts, and the carbon footprint is the operational one: embodied
    amounts are in neither. *)
Theorem operational_totals ms :
  (total_water_footprint e true ms == total_water_onsite e true ms + total_water_offsite e true ms)%Q /\
  total_carbon_footprint e true ms = total_carbon_operational e true ms /\
  total_water_footprint e false ms = (-1)%Q /\ total_carbon_footprint e false ms = (-1)%Q.
Proof.
  split_and!; [|done..].
  unfold total_water_footprint, total_water_onsite, total_water_offsite, guarded, sum_water, sum_over.
  rewrite sum_water_acc, !sum_over_acc. ring.
Qed.
End FootprintFacts.

(** ** Examples, on which the theorems apply *)

Module MachineExamples.
Import Concrete.

Definition a_host (n : N) (name role : string) : host := mk_host n name {["role" := role]} [1%Q].
Definition hosts : list host :=
  [a_host 0 "m10" "compute_node"; a_host 1 "m2" "compute_node"; a_host 2 "top" "master"; a_host 3 "disk" "storage"].
Definition root : NetZone host := mk_NetZone "root" [] hosts [].
Definition an_engine : engine := mk_engine 0 [] 0.

Definition created : result (Machines host) := create_machines an_engine false ∅ hosts root (-1) new_Machines.
Definition ms : Machines host := match created with Ok ms => ms | Err _ => new_Machines end.

Lemma created_ok : create_machines an_engine false ∅ hosts root (-1) new_Machines = Ok ms.
Proof. vm_compute. reflexivity. Qed.

Definition v : machines_view host :=
  mk_view ms (mk_PajeTracer false None ∅ [] UNINITIALIZED 0) (mk_MachineStateTracer false None).

Definition ops : list (Q * machine_op (list Z)) :=
  [(1%Q, OpRun 7 [0; 1]); (2%Q, OpRun 8 [1]); (3%Q, OpEnd 7 [0; 1]); (5%Q, OpState 2 UNAVAILABLE)].
Definition after (l : list (Q * machine_op (list Z))) : machines_view host :=
  match foldM (run_machine_op ∅ false) v l with Ok v' => v' | Err _ => v end.

Example create_machines_spec_witness :
  m_name <$> ms_machines ms = ["m10"; "m2"; "disk"] /\ m_id <$> ms_machines ms = [0; 1; 2] /\
  ms_compute_nodes ms ++ ms_storage_nodes ms = seq 0 (length (ms_machines ms)).
Proof.
  destruct (create_machines_spec an_engine false ∅ hosts root (-1) ms) as (_ & _ & H & _);
    [vm_compute; reflexivity|exact created_ok|].
  split; [vm_compute; reflexivity|]. split; [vm_compute; reflexivity|exact H].
Defined.

Example machines_life_invariant_witness :
  count_of (ms_nb_machines_in_each_state (v_machines (after ops))) COMPUTING =
    nb_in_state COMPUTING (ms_machines (v_machines (after ops))) - 0 /\
  nb_in_state COMPUTING (ms_machines (v_machines (after ops))) = 1.
Proof.
  destruct (machines_life_invariant ∅ false an_engine false ∅ hosts root (-1) ms
              (v_paje v) (v_states v) ops (after ops)) as [H _];
    [vm_compute; reflexivity|exact created_ok|vm_compute; reflexivity|].
  split; [exact (H COMPUTING)|vm_compute; reflexivity].
Defined.

Example update_machines_on_job_run_spec_witness :
  m_state <$> ms_machines (v_machines (after [(1%Q, OpRun 7 [1])])) = [IDLE; COMPUTING; IDLE] /\
  exists m, machine_unchecked (v_machines v) 1 = Ok m.
Proof.
  destruct (update_machines_on_job_run_spec ∅ 1 false 7 [1] v (after [(1%Q, OpRun 7 [1])])) as (_ & _ & H);
    [vm_compute; reflexivity|].
  split; [vm_compute; reflexivity|]. apply H. cbn. apply elem_of_zsort. set_solver.
Defined.

Example update_machines_on_job_end_spec_witness :
  m_state <$> ms_machines (v_machines (after [(1%Q, OpRun 7 [1]); (2%Q, OpEnd 7 [1])])) = [IDLE; IDLE; IDLE] /\
  exists m, machine_unchecked (v_machines (after [(1%Q, OpRun 7 [1])])) 1 = Ok m /\ 7%positive ∈ m_jobs_being_computed m.
Proof.
  destruct (update_machines_on_job_end_spec ∅ 2 false 7 [1] (after [(1%Q, OpRun 7 [1])])
              (after [(1%Q, OpRun 7 [1]); (2%Q, OpEnd 7 [1])])) as (_ & H & _); [vm_compute; reflexivity|].
  split; [vm_compute; reflexivity|]. apply H. cbn. apply elem_of_zsort. set_solver.
Defined.

Definition ran : machines_view host := after [(1%Q, OpRun 7 [1])].
Definition ran_and_ended : machines_view host := after [(1%Q, OpRun 7 [1]); (2%Q, OpEnd 7 [1])].
Example job_run_end_roundtrip_witness :
  m_state <$> ms_machines (v_machines ran) !! 1%nat = Some COMPUTING /\
  exists m2, ms_machines (v_machines ran_and_ended) !! 1%nat = Some m2 /\ m_jobs_being_computed m2 = [].
Proof.
  split; [vm_compute; reflexivity|].
  destruct (job_run_end_roundtrip ∅ ∅ 1 2 false 7 [1] v ran ran_and_ended) with (i := 1%nat)
    (m := default (new_Machine "" (a_host 0 "" "")) (ms_machines ms !! 1%nat)) as (m2 & Hm & Hj & _);
    [vm_compute; reflexivity..|apply not_elem_of_nil|].
  exists m2. split; [exact Hm|exact Hj].
Defined.
End MachineExamples.
