(* ===== verification/Workload.v ===== *)
(** * Workloads (src/workload.hpp, src/workload.cpp, and the loaders of src/jobs.cpp, src/profiles.cpp)

    A workload owns a container of jobs and a container of profiles; [Workloads]
    maps names to workloads and is how the rest of the program reaches a job.
    The objects themselves live in the two heaps of [store]. *)

From S2P Require Import Prelude Interfaces Profiles Jobs.

Record Workload := mk_Workload {
  wl_name : string;
  wl_file : string;
  wl_jobs : Jobs;
  wl_profiles : Profiles;
  wl_is_static : bool;
}.
#[export] Instance eta_Workload : Eta Workload := fun r =>
  mk_Workload (wl_name r) (wl_file r) (wl_jobs r) (wl_profiles r) (wl_is_static r).

Definition new_static_workload (workload_name workload_file : string) : Workload :=
  mk_Workload workload_name workload_file empty_Jobs ∅ true.

Definition new_dynamic_workload (workload_name : string) : Workload :=
  new_static_workload workload_name "dynamic" <| wl_is_static := false |>.

(** [std::map<std::string, Workload *>] *)
Abbreviation Workloads := (gmap string Workload).

(** The heaps of jobs and profiles, with their next free addresses. *)
Record store (IS : Type) := mk_store {
  s_jobs : job_heap IS;
  s_profiles : profile_heap;
  s_next_job : positive;
  s_next_profile : positive;
}.
Arguments mk_store {IS}. Arguments s_jobs {IS}. Arguments s_profiles {IS}.
Arguments s_next_job {IS}. Arguments s_next_profile {IS}.
#[export] Instance eta_store {IS} : Eta (store IS) := fun r =>
  mk_store (s_jobs r) (s_profiles r) (s_next_job r) (s_next_profile r).

Section Workload.
Context {IS : Type} `{IntervalSet IS}.
Implicit Types (st : store IS) (w : Workload).

(** ** Validity *)

(** The pointers to what a sequence is made of are resolved by name. *)
Definition resolve_sequence (profiles : Profiles) (ph : profile_heap) (ptr : positive) : result profile_heap :=
  p ← deref_profile ph ptr;
  if bool_decide (p_type p = SEQUENCE) then
    match p_data p with
    | SequenceProfileData repeat sequence subs =>
        new_subs ← mapM_r (fun prof =>
                     xbt_assert (Profiles_exists profiles prof) "the used profile does not exist";;
                     Profiles_at profiles prof) sequence;
        Ok (<[ptr := p <| p_data := SequenceProfileData repeat sequence (subs ++ new_subs) |>]> ph)
    | _ => Err (Undef "static_cast of another data type")
    end
  else Ok ph.

Definition check_single_job_validity (ph : profile_heap) (w : Workload) (j : Job IS) : result unit :=
  p ← deref_profile ph (profile j);
  xbt_assert (Profiles_exists (wl_profiles w) (p_name p)) "the associated profile does not exist";;
  if bool_decide (p_type p = PARALLEL) then
    match p_data p with
    | ParallelProfileData nb_res _ _ =>
        xbt_assert (nb_res =? requested_nb_res j) "the requested number of resources does not match"
    | _ => Err (Undef "static_cast of another data type")
    end
  else Ok tt.

Definition check_validity (w : Workload) (st : store IS) : result (store IS) :=
  ph ← foldM (fun ph (mit : string * option positive) =>
                match mit.2 with
                | None => Err (Undef "null profile pointer")
                | Some ptr => resolve_sequence (wl_profiles w) ph ptr
                end) (s_profiles st) (map_to_list (wl_profiles w));
  foldM (fun _ (mit : string * positive) =>
           j ← deref_job (s_jobs st) mit.2;
           check_single_job_validity ph w j) tt (map_to_list (jobs_map (wl_jobs w)));;
  Ok (st <| s_profiles := ph |>).

(** ** Unreferenced profiles *)

(** The reference count of a profile: the entry of its container, the jobs that
    run it, the sequences made of it. *)
Definition use_count (ps : Profiles) st (ptr : positive) : Z :=
  count_if (fun mit => bool_decide (mit.2 = Some ptr)) (map_to_list ps) +
  count_if (fun mit => bool_decide (profile mit.2 = ptr)) (map_to_list (s_jobs st)) +
  foldr (fun mit total =>
           match sub_profiles mit.2 with
           | Ok subs => count_if (fun s => bool_decide (s = ptr)) subs
           | Err _ => 0
           end + total) 0 (map_to_list (s_profiles st)).

(** Setting the last pointer to null destroys the profile. *)
Definition remove_if_unreferenced (acc : Profiles * store IS) (name : string) : Profiles * store IS :=
  let '(ps, st) := acc in
  match ps !! name with
  | Some (Some ptr) =>
      if use_count ps st ptr <? 2
      then (<[name := None]> ps, st <| s_profiles ::= delete ptr |>)
      else acc
  | _ => acc
  end.

Definition remove_unreferenced_profiles (ps : Profiles) st : Profiles * store IS :=
  foldl remove_if_unreferenced (ps, st) (map_to_list ps).*1.

(** ** Loading *)
Section Load.
Context {V : Type} `{RapidJson V} `{BoostString} `{FileSystem}.
Context (str_find : string -> string -> bool) (replace_id : string -> string -> string).

Definition load_one_job (w : Workload) (acc : Jobs * store IS) (json : V) : result (Jobs * store IS) :=
  let '(js, st) := acc in
  j ← Job_from_json str_find replace_id (wl_name w) (wl_profiles w) json;
  xbt_assert (negb (Jobs_exists js (id j))) "duplication of job id";;
  Ok (mk_Jobs (<[ji_to_string (id j) := s_next_job st]> (jobs_map js)) ({[ji_to_string (id j)]} ∪ jobs_met js),
      st <| s_jobs ::= <[s_next_job st := j]> |> <| s_next_job ::= Pos.succ |>).

Definition Jobs_load_from_json (w : Workload) (doc : V) (st : store IS) : result (Jobs * store IS) :=
  xbt_assert (IsObject doc) "not a JSON object";;
  jobs ← require_member doc "jobs" IsArray;
  foldM (load_one_job w) (wl_jobs w, st) (array_values jobs).

(** [Workload::load_from_json] on the content of the file; the number of
    machines is returned with the workload. *)
Definition Workload_load_from_json (content json_filename : string) (w : Workload) (st : store IS)
  : result (Z * Workload * store IS) :=
  doc ← of_option (Abort "could not be parsed") (parse_json content);
  xbt_assert (IsObject doc) "not a JSON object";;
  nb_res_node ← require_member doc "nb_res" IsInt;
  nb_machines ← GetInt nb_res_node;
  xbt_assert (0 <? nb_machines) "the value of the 'nb_res' field is invalid";;
  '(ph, next, ps) ← Profiles_load_from_json doc json_filename (s_profiles st, s_next_profile st, wl_profiles w);
  let st := st <| s_profiles := ph |> <| s_next_profile := next |> in
  let w := w <| wl_profiles := ps |> in
  '(js, st) ← Jobs_load_from_json w doc st;
  let w := w <| wl_jobs := js |> in
  st ← check_validity w st;
  let '(ps, st) := remove_unreferenced_profiles (wl_profiles w) st in
  Ok (nb_machines, w <| wl_profiles := ps |>, st).
End Load.

(** ** Workloads *)

Implicit Types ws : Workloads.

(** [std::map::at] *)
Definition Workloads_at ws (workload_name : string) : result Workload :=
  of_option (Throw "out_of_range") (ws !! workload_name).

Definition Workloads_exists ws (workload_name : string) : bool :=
  bool_decide (is_Some (ws !! workload_name)).

Definition nb_workloads ws : Z := u32 (Z.of_nat (size ws)).

Definition nb_static_workloads ws : Z :=
  foldl (fun count (mit : string * Workload) => u32 (count + if wl_is_static mit.2 then 1 else 0)) 0 (map_to_list ws).

Definition job_at ws (job_id : JobIdentifier) : result positive :=
  w ← Workloads_at ws (ji_workload_name job_id);
  Jobs_at (wl_jobs w) job_id.

Definition job_is_registered ws (job_id : JobIdentifier) : result bool :=
  w ← Workloads_at ws (ji_workload_name job_id);
  Ok (Jobs_exists (wl_jobs w) job_id).

Definition job_profile_is_registered st ws (job_id : JobIdentifier) : result bool :=
  jp ← job_at ws job_id;
  j ← deref_job (s_jobs st) jp;
  w ← Workloads_at ws (ji_workload_name job_id);
  p ← deref_profile (s_profiles st) (profile j);
  Ok (Profiles_exists (wl_profiles w) (p_name p)).

Definition delete_one_job (fuel : nat) st (garbage_collect_profiles : bool) ws (job_id : JobIdentifier)
  : result Workloads :=
  w ← Workloads_at ws (ji_workload_name job_id);
  '(js, ps) ← delete_job fuel (s_jobs st) (s_profiles st) (wl_jobs w) (wl_profiles w) job_id garbage_collect_profiles;
  Ok (<[ji_workload_name job_id := w <| wl_jobs := js |> <| wl_profiles := ps |>]> ws).

Definition delete_jobs (fuel : nat) st (job_ids : list JobIdentifier) (garbage_collect_profiles : bool) ws
  : result Workloads :=
  foldM (delete_one_job fuel st garbage_collect_profiles) ws job_ids.

Definition insert_workload (workload_name : string) (w : Workload) ws : result Workloads :=
  xbt_assert (negb (Workloads_exists ws workload_name)) "workload already exists";;
  xbt_assert (negb (Workloads_exists ws (wl_name w))) "workload already exists";;
  Ok (<[workload_name := w <| wl_name := workload_name |>]> ws).

Definition Workloads_contains_smpi_job st ws : result bool :=
  foldM (fun found (mit : string * Workload) =>
           if found : bool then Ok true
           else contains_smpi_job (s_jobs st) (s_profiles st) (wl_jobs mit.2))
        false (map_to_list ws).

(** The calls of [SMPI_app_instance_register]: an instance and its number of ranks. *)
Definition register_smpi_job st (mit : string * positive) : result (list (string * Z)) :=
  j ← deref_job (s_jobs st) mit.2;
  p ← deref_profile (s_profiles st) (profile j);
  if bool_decide (p_type p = SMPI) then
    match p_data p with
    | SmpiProfileData trace_filenames => Ok [(ji_to_string (id j), i32 (Z.of_nat (length trace_filenames)))]
    | _ => Err (Undef "static_cast of another data type")
    end
  else Ok [].

Definition register_smpi_applications st (w : Workload) : result (list (string * Z)) :=
  concat (A := _) <$> mapM_r (register_smpi_job st) (map_to_list (jobs_map (wl_jobs w))).

Definition Workloads_register_smpi_applications st ws : result (list (string * Z)) :=
  concat (A := _) <$> mapM_r (fun mit : string * Workload => register_smpi_applications st mit.2) (map_to_list ws).
End Workload.

(** ** Theorems *)

Lemma delete_job_Ok {IS} fuel (jh : job_heap IS) ph js ps i gc js' ps' :
  delete_job fuel jh ph js ps i gc = Ok (js', ps') ->
  js' = js <| jobs_map := delete (ji_to_string i) (jobs_map js) |> /\ Jobs_exists js i = true.
Proof.
  unfold delete_job. intros Hd. inv_ok. case_match; [|done]. inv_ok.
  destruct gc; by inv_ok; simplify_eq.
Qed.

Section WorkloadFacts.
Context {IS : Type} `{IntervalSet IS}.
Implicit Types (st : store IS) (w : Workload).

Lemma delete_one_job_Ok fuel st gc ws i ws' :
  delete_one_job fuel st gc ws i = Ok ws' ->
  exists w w', ws !! ji_workload_name i = Some w /\ ws' = <[ji_workload_name i := w']> ws /\
    Jobs_exists (wl_jobs w) i = true /\
    wl_jobs w' = wl_jobs w <| jobs_map := delete (ji_to_string i) (jobs_map (wl_jobs w)) |>.
Proof.
  unfold delete_one_job, Workloads_at. intros (w & Hw%of_option_Ok & Hr)%bind_Ok.
  apply bind_Ok in Hr as ([js ps] & [-> He]%delete_job_Ok & [= <-]). by eexists _, _.
Qed.

Definition same_id (i d : JobIdentifier) : bool :=
  String.eqb (ji_workload_name i) (ji_workload_name d) && String.eqb (ji_to_string i) (ji_to_string d).

Lemma same_id_refl i : same_id i i = true.
Proof. unfold same_id. by rewrite !String.eqb_refl. Qed.

Lemma delete_one_job_effect fuel st gc ws d ws' i :
  delete_one_job fuel st gc ws d = Ok ws' ->
  job_is_registered ws' i = job_is_registered ws i /\
  job_at ws' i = (if same_id i d then Err (Abort "Cannot get job: it does not exist") else job_at ws i).
Proof.
  intros (w & w' & Hw & -> & He & Hj)%delete_one_job_Ok.
  unfold job_is_registered, job_at, Workloads_at, same_id.
  destruct (String.eqb_spec (ji_workload_name i) (ji_workload_name d)) as [Heq|Hne]; cbn [andb].
  - rewrite Heq, lookup_insert_eq, Hw. cbn. unfold Jobs_exists, Jobs_at. rewrite Hj. cbn. split; [done|].
    destruct (String.eqb_spec (ji_to_string i) (ji_to_string d)) as [Hs|Hs].
    + by rewrite Hs, lookup_delete_eq.
    + by rewrite lookup_delete_ne by done.
  - by rewrite lookup_insert_ne by done.
Qed.

Lemma delete_jobs_effect fuel st gc ids ws ws' i :
  delete_jobs fuel st ids gc ws = Ok ws' ->
  job_is_registered ws' i = job_is_registered ws i /\
  job_at ws' i =
    (if existsb (same_id i) ids then Err (Abort "Cannot get job: it does not exist") else job_at ws i).
Proof.
  unfold delete_jobs. revert ws; induction ids as [|d ids IH]; intros ws; cbn [foldM existsb].
  - by intros [= <-].
  - intros (ws1 & H1 & Hr)%bind_Ok.
    destruct (delete_one_job_effect _ _ _ _ _ _ i H1) as [R1 A1], (IH _ Hr) as [-> ->].
    rewrite R1, A1. split; [done|]. by destruct (same_id i d), (existsb (same_id i) ids).
Qed.

Lemma delete_jobs_registered fuel st gc ids ws ws' i :
  delete_jobs fuel st ids gc ws = Ok ws' -> i ∈ ids -> job_is_registered ws i = Ok true.
Proof.
  unfold delete_jobs. revert ws; induction ids as [|d ids IH]; intros ws; cbn [foldM].
  - by intros _ []%not_elem_of_nil.
  - intros (ws1 & H1 & Hr)%bind_Ok [->|Hi]%elem_of_cons.
    + apply delete_one_job_Ok in H1 as (w & w' & Hw & _ & He & _).
      unfold job_is_registered, Workloads_at. rewrite Hw. cbn. by rewrite He.
    + destruct (delete_one_job_effect _ _ _ _ _ _ i H1) as [<- _]. by eapply IH.
Qed.

(** Deleting jobs hides exactly these jobs; but they remain registered, so
    that the handlers, which ask [job_is_registered] before they call [job_at],
    let a deleted job through and abort with another message. *)
Theorem delete_jobs_spec fuel st gc ids ws ws' :
  delete_jobs fuel st ids gc ws = Ok ws' ->
  (forall i, i ∈ ids -> job_is_registered ws' i = Ok true /\
     job_at ws' i = Err (Abort "Cannot get job: it does not exist")) /\
  (forall i, existsb (same_id i) ids = false ->
     job_is_registered ws' i = job_is_registered ws i /\ job_at ws' i = job_at ws i).
Proof.
  intros Hd. split; intros i Hi; destruct (delete_jobs_effect _ _ _ _ _ _ i Hd) as [-> ->].
  - split; [by eapply delete_jobs_registered|].
    assert (existsb (same_id i) ids = true) as ->; [|done].
    apply existsb_exists. exists i. split; [by apply list_elem_of_In|apply same_id_refl].
  - by rewrite Hi.
Qed.

(** ** Validity *)

(** The profile heap agrees with another one but for the sub-profiles of
    sequences. *)
Definition same_shape (ph ph' : profile_heap) : Prop :=
  forall ptr, match ph !! ptr, ph' !! ptr with
  | Some p, Some p' => p_type p' = p_type p /\ p_name p' = p_name p /\
      (p_type p ≠ SEQUENCE -> p' = p)
  | None, None => True
  | _, _ => False
  end.

Lemma same_shape_refl ph : same_shape ph ph.
Proof. intros ptr. by destruct (ph !! ptr). Qed.

Lemma same_shape_trans ph1 ph2 ph3 : same_shape ph1 ph2 -> same_shape ph2 ph3 -> same_shape ph1 ph3.
Proof.
  intros H12 H23 ptr. specialize (H12 ptr). specialize (H23 ptr).
  destruct (ph1 !! ptr), (ph2 !! ptr), (ph3 !! ptr); try done.
  destruct H12 as (T1 & N1 & E1), H23 as (T2 & N2 & E2). split_and!; [congruence..|].
  intros Hs. rewrite E2 by congruence. auto.
Qed.

Lemma resolve_sequence_Ok ps ph ptr ph' :
  resolve_sequence ps ph ptr = Ok ph' ->
  exists p, ph !! ptr = Some p /\
    (p_type p ≠ SEQUENCE /\ ph' = ph \/
     exists repeat sequence subs new_subs,
       p_type p = SEQUENCE /\ p_data p = SequenceProfileData repeat sequence subs /\
       Forall2 (fun n s => ps !! n = Some (Some s)) sequence new_subs /\
       ph' = <[ptr := p <| p_data := SequenceProfileData repeat sequence (subs ++ new_subs) |>]> ph).
Proof.
  unfold resolve_sequence, deref_profile. intros (p & Hp%of_option_Ok & Hr)%bind_Ok. exists p.
  split; [done|]. case_bool_decide as Ht; [right|left; by injection Hr as <-].
  destruct (p_data p) eqn:Hd; try done. apply bind_Ok in Hr as (new_subs & Hm & [= <-]).
  eexists _, _, _, _. split_and!; [done..| |done].
  clear Hd. revert new_subs Hm. induction sequence as [|n l IH]; intros new_subs Hm; cbn in Hm.
  - injection Hm as <-. constructor.
  - apply bind_Ok in Hm as (s & Hs & (l' & Hl & [= <-])%bind_Ok).
    apply bind_Ok in Hs as ([] & _ & Hs). unfold Profiles_at in Hs.
    constructor; [|by apply IH]. repeat case_match; by simplify_eq.
Qed.

(** A sequence of the workload before the resolution, and after. *)
Definition unresolved (ph : profile_heap) (ptr : positive) : Prop :=
  forall p, ph !! ptr = Some p -> sub_profiles p = Ok [] \/ p_type p ≠ SEQUENCE.

Definition resolved (ps : Profiles) (ph : profile_heap) (ptr : positive) : Prop :=
  exists p, ph !! ptr = Some p /\
    (p_type p = SEQUENCE -> exists repeat sequence subs,
       p_data p = SequenceProfileData repeat sequence subs /\
       Forall2 (fun n s => ps !! n = Some (Some s)) sequence subs).

Lemma resolve_all (ps : Profiles) (l : list (string * option positive)) ph ph' :
  NoDup (omap snd l) ->
  (forall ptr, ptr ∈ omap snd l -> unresolved ph ptr) ->
  foldM (fun ph (mit : string * option positive) =>
           match mit.2 with
           | None => Err (Undef "null profile pointer")
           | Some ptr => resolve_sequence ps ph ptr
           end) ph l = Ok ph' ->
  same_shape ph ph' /\ (forall ptr, ptr ∈ omap snd l -> resolved ps ph' ptr) /\
  (forall ptr, ptr ∉ omap snd l -> ph' !! ptr = ph !! ptr).
Proof.
  revert ph; induction l as [|[n [ptr|]] l IH]; intros ph Hnd Hun; cbn [foldM omap list_omap snd].
  - intros [= <-]. split_and!; [apply same_shape_refl|by intros ptr []%not_elem_of_nil|done].
  - intros (ph1 & H1 & Hr)%bind_Ok. cbn in Hnd, Hun. apply NoDup_cons in Hnd as [Hnin Hnd].
    apply resolve_sequence_Ok in H1 as (p & Hp & Hcase).
    assert (same_shape ph ph1 /\ resolved ps ph1 ptr /\ forall q, q ≠ ptr -> ph1 !! q = ph !! q) as (S1 & R1 & U1).
    { destruct Hcase as [[Ht ->]|(rep & sq & subs & new & Ht & Hd & Hall & ->)].
      - split_and!; [apply same_shape_refl| |done]. exists p. split; [done|]. by intros ?.
      - assert (subs = []) as ->.
        { destruct (Hun ptr ltac:(by left) p Hp) as [Hs|Hs]; [|done].
          unfold sub_profiles in Hs. rewrite bool_decide_eq_true_2, Hd in Hs by done. congruence. }
        split_and!.
        + intros q. destruct (decide (q = ptr)) as [->|Hne].
          * rewrite lookup_insert_eq, Hp. by split_and!.
          * rewrite lookup_insert_ne by done. by destruct (ph !! q).
        + eexists. rewrite lookup_insert_eq. split; [done|]. intros _. by eexists _, _, _.
        + intros q Hq. by rewrite lookup_insert_ne. }
    destruct (IH ph1 Hnd) as (S2 & R2 & U2); [|done|].
    { intros q Hq. unfold unresolved. rewrite U1 by (intros ->; done). apply Hun. by right. }
    split_and!.
    + by eapply same_shape_trans.
    + intros q [->|Hq]%elem_of_cons; [|by apply R2].
      unfold resolved. rewrite U2 by done. done.
    + intros q [Hne Hq]%not_elem_of_cons. by rewrite U2, U1.
  - done.
Qed.

Lemma NoDup_omap_snd (l : list (string * option positive)) :
  NoDup l -> (forall x y ptr, x ∈ l -> y ∈ l -> x.2 = Some ptr -> y.2 = Some ptr -> x = y) ->
  NoDup (omap snd l).
Proof.
  induction 1 as [|[n o] l Hx Hnd IH]; intros Hinj; cbn [omap list_omap snd]; [constructor|].
  assert (NoDup (omap snd l)) as Hl.
  { apply IH. intros x y ptr Hin Hin'. apply Hinj; by right. }
  destruct o as [ptr|]; [|done]. cbn. constructor; [|done].
  intros (y & Hy & Hs)%list_elem_of_omap. apply Hx.
  by rewrite (Hinj (n, Some ptr) y ptr) by (done || by left || by right).
Qed.

(** Two names of the container are two profiles. *)
Definition distinct_profiles (ps : Profiles) : Prop :=
  forall n1 n2 ptr, ps !! n1 = Some (Some ptr) -> ps !! n2 = Some (Some ptr) -> n1 = n2.

Lemma elem_of_live_profiles (ps : Profiles) ptr :
  ptr ∈ omap snd (map_to_list ps) <-> exists n, ps !! n = Some (Some ptr).
Proof.
  rewrite list_elem_of_omap. split.
  - intros ([n o] & Hin%elem_of_map_to_list & Ho). cbn in Ho. subst. by exists n.
  - intros [n Hn]. exists (n, Some ptr). split; [by apply elem_of_map_to_list|done].
Qed.

Lemma NoDup_live_profiles (ps : Profiles) : distinct_profiles ps -> NoDup (omap snd (map_to_list ps)).
Proof.
  intros Hd. apply NoDup_omap_snd; [apply NoDup_map_to_list|].
  intros [n1 o1] [n2 o2] ptr H1%elem_of_map_to_list H2%elem_of_map_to_list Ho1 Ho2. cbn in *. subst.
  by rewrite (Hd n1 n2 ptr).
Qed.

(** What a validated job satisfies. *)
Definition job_valid (ps : Profiles) (ph : profile_heap) (j : Job IS) : Prop :=
  exists p, ph !! profile j = Some p /\ is_Some (ps !! p_name p) /\
    (p_type p = PARALLEL -> exists nb_res cpu com,
       p_data p = ParallelProfileData nb_res cpu com /\ nb_res = requested_nb_res j).

Lemma check_single_job_validity_Ok ph w j u :
  check_single_job_validity ph w j = Ok u -> job_valid (wl_profiles w) ph j.
Proof.
  unfold check_single_job_validity, deref_profile. intros (p & Hp%of_option_Ok & Hr)%bind_Ok.
  apply bind_Ok in Hr as ([] & He%xbt_assert_Ok & Hr). exists p. split; [done|]. split.
  - unfold Profiles_exists in He. by destruct (wl_profiles w !! p_name p).
  - intros Ht. rewrite bool_decide_eq_true_2 in Hr by done.
    destruct (p_data p); try done. apply xbt_assert_Ok, Z.eqb_eq in Hr. by eexists _, _, _.
Qed.

(** A workload that passes the validity check has every sequence linked,
    in order, to the profiles that its names designate, and every job has a
    known profile that, when parallel, is of the size the job requests. *)
Theorem check_validity_spec w st st' :
  distinct_profiles (wl_profiles w) ->
  (forall n ptr, wl_profiles w !! n = Some (Some ptr) -> unresolved (s_profiles st) ptr) ->
  check_validity w st = Ok st' ->
  (forall n ptr, wl_profiles w !! n = Some (Some ptr) -> resolved (wl_profiles w) (s_profiles st') ptr) /\
  same_shape (s_profiles st) (s_profiles st') /\ s_jobs st' = s_jobs st /\
  (forall i jp, jobs_map (wl_jobs w) !! i = Some jp ->
     exists j, s_jobs st !! jp = Some j /\ job_valid (wl_profiles w) (s_profiles st') j).
Proof.
  intros Hd Hun Hr. unfold check_validity in Hr. apply bind_Ok in Hr as (ph & Hph & Hr).
  apply bind_Ok in Hr as ([] & Hjobs & [= <-]).
  apply resolve_all in Hph as (Hs & Hres & _); [|by apply NoDup_live_profiles|].
  2:{ intros ptr [n Hn]%elem_of_live_profiles. by eapply Hun. }
  split_and!; [|done|done|].
  - intros n ptr Hn. apply Hres, elem_of_live_profiles. by exists n.
  - intros i jp Hi. cbn.
    assert ((i, jp) ∈ map_to_list (jobs_map (wl_jobs w))) as Hin by by apply elem_of_map_to_list.
    clear -Hjobs Hin. revert Hjobs Hin. generalize (map_to_list (jobs_map (wl_jobs w))) as l.
    induction l as [|[i' jp'] l IH]; cbn [foldM]; [by intros _ []%not_elem_of_nil|].
    intros ([] & H1 & Hr)%bind_Ok [[= <- <-]|Hin]%elem_of_cons; [|by apply IH].
    apply bind_Ok in H1 as (j & Hj%of_option_Ok & Hv). exists j. split; [done|].
    by eapply check_single_job_validity_Ok.
Qed.

(** ** Unreferenced profiles *)

Lemma count_if_zero {A} (p : A -> bool) (l : list A) : count_if p l = 0 <-> forall a, a ∈ l -> p a = false.
Proof.
  split.
  - intros Hz a Ha. destruct (p a) eqn:Hp; [|done]. pose proof (count_if_in p l a Ha Hp). lia.
  - induction l as [|a l IH]; intros Hl; cbn [count_if]; [done|]. rewrite (Hl a) by by left.
    rewrite IH; [done|]. intros b Hb. apply Hl. by right.
Qed.

(** A job runs the profile; a sequence is made of it. *)
Definition run_by_job st (ptr : positive) : Prop := exists jp j, s_jobs st !! jp = Some j /\ profile j = ptr.
Definition in_sequence st (ptr : positive) : Prop :=
  exists q p subs, s_profiles st !! q = Some p /\ sub_profiles p = Ok subs /\ ptr ∈ subs.
(** Besides the entry [n] of its container, something points to the profile. *)
Definition pointed_to (ps : Profiles) st (n : string) (ptr : positive) : Prop :=
  (exists n', n' ≠ n /\ ps !! n' = Some (Some ptr)) \/ run_by_job st ptr \/ in_sequence st ptr.

Definition sequence_uses (ptr : positive) (mit : positive * Profile) : Z :=
  match sub_profiles mit.2 with Ok subs => count_if (fun s => bool_decide (s = ptr)) subs | Err _ => 0 end.

Lemma sum_zero {A} (f : A -> Z) (l : list A) :
  (forall a, 0 <= f a) -> 0 <= foldr (fun a total => f a + total) 0 l /\
  (foldr (fun a total => f a + total) 0 l = 0 <-> forall a, a ∈ l -> f a = 0).
Proof.
  intros Hf. induction l as [|a l [IH0 IH]]; cbn [foldr]; [split; [done|]; split; [by intros _ a []%not_elem_of_nil|done]|].
  pose proof (Hf a). split; [lia|]. split.
  - intros Hz b [->|Hb]%elem_of_cons; [lia|]. apply IH; [lia|done].
  - intros Hz. rewrite (Hz a) by by left. apply IH. intros b Hb. apply Hz. by right.
Qed.

(** What the reference count tells of a profile that has an entry: it is the only
    reference or not. *)
Lemma use_count_alone ps st n ptr :
  ps !! n = Some (Some ptr) -> (use_count ps st ptr < 2 <-> ~ pointed_to ps st n ptr).
Proof.
  intros Hn. unfold use_count.
  assert (exists l, map_to_list ps ≡ₚ (n, Some ptr) :: l /\ forall n' o, (n', o) ∈ l <-> n' ≠ n /\ ps !! n' = Some o) as (l & Hl & Hin).
  { exists (map_to_list (delete n ps)). split.
    - rewrite <- map_to_list_insert by apply lookup_delete_eq. by rewrite insert_delete_id.
    - intros n' o. rewrite elem_of_map_to_list, lookup_delete_Some. naive_solver. }
  rewrite Hl. cbn [count_if snd]. rewrite bool_decide_true by done.
  pose proof (count_if_nonneg (fun mit : string * option positive => bool_decide (mit.2 = Some ptr)) l) as H1.
  pose proof (count_if_nonneg (fun mit : positive * Job IS => bool_decide (profile mit.2 = ptr)) (map_to_list (s_jobs st))) as H2.
  assert (forall mit, 0 <= sequence_uses ptr mit) as Huses.
  { intros mit. unfold sequence_uses. destruct (sub_profiles _); [apply count_if_nonneg|done]. }
  destruct (sum_zero (sequence_uses ptr) (map_to_list (s_profiles st)) Huses) as [H3 Hseq].
  change (foldr _ 0 (map_to_list (s_profiles st)))
    with (foldr (fun mit total => sequence_uses ptr mit + total) 0 (map_to_list (s_profiles st))).
  transitivity (count_if (fun mit : string * option positive => bool_decide (mit.2 = Some ptr)) l = 0 /\
    count_if (fun mit : positive * Job IS => bool_decide (profile mit.2 = ptr)) (map_to_list (s_jobs st)) = 0 /\
    foldr (fun mit total => sequence_uses ptr mit + total) 0 (map_to_list (s_profiles st)) = 0); [lia|].
  rewrite !count_if_zero, Hseq. split.
  - intros (Hnames & Hjobs & Hsubs) [(n' & Hne & Hn')|[(jp & j & Hj & Hp)|(q & p & subs & Hq & Hs & Hptr)]].
    + specialize (Hnames (n', Some ptr) ltac:(by apply Hin)). by rewrite bool_decide_true in Hnames.
    + specialize (Hjobs (jp, j) ltac:(by apply elem_of_map_to_list)). by rewrite bool_decide_true in Hjobs.
    + specialize (Hsubs (q, p) ltac:(by apply elem_of_map_to_list)). unfold sequence_uses in Hsubs. cbn [snd] in Hsubs.
      rewrite Hs, count_if_zero in Hsubs. specialize (Hsubs ptr Hptr). by rewrite bool_decide_true in Hsubs.
  - intros Hnot. split_and!.
    + intros [n' o] [Hne Hn']%Hin. apply bool_decide_eq_false. cbn. intros ->. apply Hnot. left. by exists n'.
    + intros [jp j] Hj%elem_of_map_to_list. apply bool_decide_eq_false. cbn. intros Hp. apply Hnot. right. left. by exists jp, j.
    + intros [q p] Hq%elem_of_map_to_list. unfold sequence_uses. cbn [snd]. destruct (sub_profiles p) as [subs|] eqn:Hs; [|done].
      apply count_if_zero. intros s Hsub. apply bool_decide_eq_false. intros ->. apply Hnot. right. right. by exists q, p, subs.
Qed.

(** What holds after each entry: the entries [seen] have been considered. *)
Record removing (ps : Profiles) st (seen : list string) (ps' : Profiles) st' : Prop := {
  rm_jobs : s_jobs st' = s_jobs st;
  rm_entries n : ps' !! n = ps !! n \/
    exists ptr, ps !! n = Some (Some ptr) /\ ps' !! n = Some None /\ s_profiles st' !! ptr = None /\ ~ pointed_to ps' st' n ptr;
  rm_profiles ptr : s_profiles st' !! ptr = s_profiles st !! ptr \/
    exists n, ps !! n = Some (Some ptr) /\ ps' !! n = Some None;
  rm_all n ptr : n ∈ seen -> ps !! n = Some (Some ptr) -> ~ pointed_to ps st n ptr -> ps' !! n = Some None;
}.

(** Less points to a profile when entries and profiles are removed. *)
Lemma pointed_to_mono ps st ps' st' n ptr :
  s_jobs st' = s_jobs st -> (forall n' q, ps' !! n' = Some (Some q) -> ps !! n' = Some (Some q)) ->
  (forall q p, s_profiles st' !! q = Some p -> s_profiles st !! q = Some p) ->
  pointed_to ps' st' n ptr -> pointed_to ps st n ptr.
Proof.
  intros Hj Hps Hst [(n' & Hne & Hn')|[(jp & j & Hjp & Hp)|(q & p & subs & Hq & Hrest)]].
  - left. exists n'. auto.
  - right. left. exists jp, j. by rewrite <- Hj.
  - right. right. exists q, p, subs. auto.
Qed.

Lemma removing_step ps st seen ps1 st1 name :
  removing ps st seen ps1 st1 ->
  removing ps st (seen ++ [name]) (remove_if_unreferenced (ps1, st1) name).1 (remove_if_unreferenced (ps1, st1) name).2.
Proof.
  intros [Hjobs Hent Hprof Hall].
  assert (forall n q, ps1 !! n = Some (Some q) -> ps !! n = Some (Some q)) as Hsub.
  { intros n q Hn. destruct (Hent n) as [<-|(ptr & _ & Hno & _)]; [done|congruence]. }
  assert (forall q p, s_profiles st1 !! q = Some p -> s_profiles st !! q = Some p) as Hsubp.
  { intros q p Hq. destruct (Hprof q) as [<-|(n & Hn & Hno)]; [done|].
    destruct (Hent n) as [He|(ptr & Hn' & _ & Hnone & _)]; congruence. }
  assert (forall n ptr, n ∈ seen ++ [name] -> ps !! n = Some (Some ptr) -> ~ pointed_to ps st n ptr ->
            ps1 !! n = Some None \/ n = name /\ ps1 !! name = Some (Some ptr) /\ ~ pointed_to ps1 st1 name ptr) as Hstep.
  { intros n ptr [Hn|<-%list_elem_of_singleton]%elem_of_app Hptr Hnot; [left; by eapply Hall|].
    destruct (Hent n) as [He|(ptr' & _ & He & _)]; [right|by left]. rewrite He. split; [done|]. split; [done|].
    intros Hp. apply Hnot. by eapply pointed_to_mono. }
  cbn [remove_if_unreferenced]. destruct (ps1 !! name) as [[q|]|] eqn:Hname; cbn [fst snd].
  2,3: constructor; try done; intros n ptr Hn Hptr Hnot; by destruct (Hstep n ptr Hn Hptr Hnot) as [?|(_ & ? & _)].
  pose proof (use_count_alone ps1 st1 name q Hname) as Hcount.
  destruct (Z.ltb_spec (use_count ps1 st1 q) 2) as [Hlt|Hge]; cbn [fst snd].
  - apply Hcount in Hlt as Halone.
    assert (forall n ptr, pointed_to (<[name:=None]> ps1) (st1 <| s_profiles ::= delete q |>) n ptr -> pointed_to ps1 st1 n ptr) as Hmono.
    { intros n ptr. apply pointed_to_mono; [done| |].
      - intros n' q' [[_ ?]|[_ ?]]%lookup_insert_Some; done.
      - cbn. intros q' p [_ ?]%lookup_delete_Some. done. }
    constructor; [done| | |].
    + intros n. destruct (decide (n = name)) as [->|Hne].
      * right. exists q. split; [by apply Hsub|]. split; [apply lookup_insert_eq|]. split; [apply lookup_delete_eq|].
        intros Hp. by apply Halone, Hmono.
      * rewrite lookup_insert_ne by done. destruct (Hent n) as [He|(ptr & Hn & Hno & Hnone & Hnot)]; [by left|right].
        exists ptr. split; [done|]. split; [done|]. split; [by apply lookup_delete_None; right|]. intros Hp. by apply Hnot, Hmono.
    + intros ptr. cbn. destruct (decide (ptr = q)) as [->|Hne].
      * right. exists name. split; [by apply Hsub|apply lookup_insert_eq].
      * rewrite lookup_delete_ne by done. destruct (Hprof ptr) as [?|(n & Hn & Hno)]; [by left|right]. exists n. split; [done|].
        rewrite lookup_insert_ne; [done|]. intros <-. congruence.
    + intros n ptr Hn Hptr Hnot. destruct (decide (n = name)) as [->|Hne]; [apply lookup_insert_eq|].
      rewrite lookup_insert_ne by done. destruct (Hstep n ptr Hn Hptr Hnot) as [?|(-> & _)]; done.
  - constructor; try done. intros n ptr Hn Hptr Hnot.
    destruct (Hstep n ptr Hn Hptr Hnot) as [?|(-> & Hq & Halone)]; [done|]. simplify_eq. apply Hcount in Halone. lia.
Qed.

Lemma removing_all ps st names : forall seen ps1 st1 ps' st',
  removing ps st seen ps1 st1 -> foldl remove_if_unreferenced (ps1, st1) names = (ps', st') ->
  removing ps st (seen ++ names) ps' st'.
Proof.
  induction names as [|name names IH]; intros seen ps1 st1 ps' st' Hr; cbn [foldl].
  - intros [= <- <-]. by rewrite app_nil_r.
  - intros Hf. pose proof (removing_step _ _ _ _ _ name Hr) as Hs.
    destruct (remove_if_unreferenced (ps1, st1) name) as [ps2 st2]. cbn [fst snd] in Hs.
    specialize (IH _ _ _ _ _ Hs Hf). by rewrite <- app_assoc in IH.
Qed.

(** C35. Removing the unreferenced profiles of a container: a profile that only its
    entry points to, that is, which no other entry, job or sequence uses, is removed;
    the entry of a removed profile is null, the profile is freed, and nothing that
    remains points to it, neither a job nor a sequence that is kept; the other entries
    and the other profiles are unchanged, so that those of the jobs are all kept. *)
Theorem remove_unreferenced_profiles_spec ps st ps' st' :
  remove_unreferenced_profiles ps st = (ps', st') ->
  s_jobs st' = s_jobs st /\
  (forall n ptr, ps !! n = Some (Some ptr) -> ~ pointed_to ps st n ptr -> ps' !! n = Some None) /\
  (forall n, ps' !! n = ps !! n \/
     exists ptr, ps !! n = Some (Some ptr) /\ ps' !! n = Some None /\ s_profiles st' !! ptr = None /\ ~ pointed_to ps' st' n ptr) /\
  (forall ptr, s_profiles st' !! ptr = s_profiles st !! ptr \/ exists n, ps !! n = Some (Some ptr) /\ ps' !! n = Some None) /\
  (forall jp j n, s_jobs st !! jp = Some j -> ps !! n = Some (Some (profile j)) ->
     ps' !! n = Some (Some (profile j)) /\ s_profiles st' !! profile j = s_profiles st !! profile j).
Proof.
  intros Hr. assert (removing ps st [] ps st) as Hstart.
  { constructor; [done|by left|by left|by intros n ptr []%not_elem_of_nil]. }
  destruct (removing_all _ _ _ _ _ _ _ _ Hstart Hr) as [Hjobs Hent Hprof Hall]. cbn [app] in Hall.
  split; [done|]. split; [|split; [done|split; [done|]]].
  - intros n ptr Hn. apply Hall; [|done]. apply list_elem_of_fmap. exists (n, Some ptr). split; [done|]. by apply elem_of_map_to_list.
  - assert (forall n jp j, s_jobs st !! jp = Some j -> ps !! n = Some (Some (profile j)) -> ps' !! n = ps !! n) as Hkept.
    { intros n jp j Hj Hn. destruct (Hent n) as [?|(ptr & Hptr & _ & _ & Hnot)]; [done|]. exfalso. apply Hnot.
      right. left. exists jp, j. rewrite Hjobs. split; [done|congruence]. }
    intros jp j n Hj Hn. split; [by rewrite (Hkept n jp j)|].
    destruct (Hprof (profile j)) as [?|(n' & Hn' & Hno)]; [done|]. rewrite (Hkept n' jp j) in Hno by done. congruence.
Qed.
End WorkloadFacts.

Module WorkloadExamples.
Import Concrete JobExamples.

Definition a_workload : Workload := mk_Workload "w0" "w0.json" one_job {["d" := Some 1%positive]} true.
Definition a_store : store (list Z) := mk_store a_heap profiles 2 2.
Definition workloads : Workloads := {["w0" := a_workload]}.

Example delete_jobs_spec_witness :
  exists ws', delete_jobs 1 a_store [w0_1] true workloads = Ok ws' /\
    job_is_registered ws' w0_1 = Ok true /\ job_at ws' w0_1 = Err (Abort "Cannot get job: it does not exist").
Proof.
  destruct (delete_jobs 1 a_store [w0_1] true workloads) as [ws'|] eqn:E; [|by vm_compute in E].
  exists ws'. split; [reflexivity|].
  exact (proj1 (delete_jobs_spec 1 a_store true [w0_1] workloads ws' E) w0_1 (list_elem_of_here w0_1 [])).
Defined.

Definition profiles_with_sequence : profile_heap :=
  <[2%positive := mk_Profile SEQUENCE (SequenceProfileData 2 ["d"] []) "" "s" 0]> profiles.
Definition sequence_workload : Workload :=
  mk_Workload "w0" "w0.json" one_job {["d" := Some 1%positive; "s" := Some 2%positive]} true.
Definition sequence_store : store (list Z) := mk_store a_heap profiles_with_sequence 2 3.

Example check_validity_spec_witness :
  exists st', check_validity sequence_workload sequence_store = Ok st' /\
    resolved (wl_profiles sequence_workload) (s_profiles st') 2%positive.
Proof.
  destruct (check_validity sequence_workload sequence_store) as [st'|] eqn:E; [|by vm_compute in E].
  exists st'. split; [reflexivity|].
  refine (proj1 (check_validity_spec sequence_workload sequence_store st' _ _ E) "s" 2%positive _); [| |reflexivity].
  - intros n1 n2 ptr. cbn [wl_profiles sequence_workload].
    rewrite !lookup_insert_Some, !lookup_singleton_Some.
    intros [[<- [= <-]]|[_ [<- [= <-]]]] [[<- H2]|[_ [<- H2]]]; by inversion H2.
  - intros n ptr. cbn [wl_profiles sequence_workload s_profiles sequence_store].
    rewrite !lookup_insert_Some, !lookup_singleton_Some. intros Hn p Hp.
    destruct Hn as [[_ [= <-]]|[_ [_ [= <-]]]]; vm_compute in Hp; injection Hp as <-; [by right|by left].
Defined.

Example remove_unreferenced_profiles_spec_witness :
  exists ps' st', remove_unreferenced_profiles (wl_profiles sequence_workload) sequence_store = (ps', st') /\
    ps' !! "s" = Some None /\ ps' !! "d" = Some (Some 1%positive).
Proof.
  destruct (remove_unreferenced_profiles (wl_profiles sequence_workload) sequence_store) as [ps' st'] eqn:E.
  destruct (remove_unreferenced_profiles_spec _ _ ps' st' E) as (_ & Halone & _ & _ & Hjobs).
  exists ps', st'. split; [done|]. split.
  - apply (Halone "s" 2%positive); [reflexivity|].
    intros [(n' & Hne & Hn')|[(jp & j & Hj & Hp)|(q & p & subs & Hq & Hs & Hin)]].
    + cbn in Hn'. rewrite lookup_insert_Some, lookup_singleton_Some in Hn'. by destruct Hn' as [[_ ?]|[? [? _]]].
    + change (a_heap !! jp = Some j) in Hj. unfold a_heap in Hj. apply lookup_singleton_Some in Hj as [_ <-]. discriminate Hp.
    + cbn in Hq. unfold profiles_with_sequence, profiles in Hq. rewrite lookup_insert_Some, lookup_singleton_Some in Hq.
      destruct Hq as [[_ <-]|[_ [_ <-]]]; injection Hs as <-; by apply not_elem_of_nil in Hin.
  - exact (proj1 (Hjobs 1%positive a_job "d" eq_refl eq_refl)).
Defined.
End WorkloadExamples.
