(* ===== verification/Tracers.v ===== *)
(** * Traces and final metrics (src/export.hpp, src/export.cpp)

    The tracers of power state changes, of energy and of the environmental
    footprint, and the [JobsTracer], which writes one row per job and accumulates
    the metrics of the schedule that it prints at the end. *)

From S2P Require Import Prelude Interfaces Profiles Jobs NumericStrcmp Outputs Machines.

(** ** Floating-point quotients

    Dates and durations are finite; quotients by zero are not. *)
Inductive fl := Fin (q : Q) | Inf (negative : bool) | NaN.

Definition fdiv (x y : Q) : fl :=
  if (y =?q 0)%Q then (if (x =?q 0)%Q then NaN else Inf (x <?q 0)%Q) else Fin (x / y)%Q.

Definition fadd (a b : fl) : fl :=
  match a, b with
  | Fin x, Fin y => Fin (x + y)%Q
  | NaN, _ | _, NaN => NaN
  | Inf s, Inf s' => if Bool.eqb s s' then Inf s else NaN
  | Inf s, Fin _ | Fin _, Inf s => Inf s
  end.

Definition fgt (a b : fl) : bool :=
  match a, b with
  | Fin x, Fin y => (y <?q x)%Q
  | NaN, _ | _, NaN => false
  | Inf s, Inf s' => negb s && s'
  | Inf s, Fin _ => negb s
  | Fin _, Inf s => s
  end.

(** The quotient of a possibly non-finite number by a count. *)
Definition fdiv_count (a : fl) (n : Z) : fl :=
  match a with
  | Fin x => fdiv x (inject_Z n)
  | a => a
  end.

(** [std::to_string]; the invalid operation of the supported platforms gives a
    negative NaN. *)
Definition fmt_fl (a : fl) : string :=
  match a with
  | Fin x => fmt_lf x
  | Inf negative => if negative then "-inf" else "inf"
  | NaN => "-nan"
  end.

(** ** Power state changes *)

Abbreviation PStateChangeTracer := (option WriteBuffer).

Definition pstate_flush (t : PStateChangeTracer) : result PStateChangeTracer := tracer_flush t.
Definition pstate_close_buffer (t : PStateChangeTracer) : result (string * PStateChangeTracer) := tracer_close_buffer t.

Definition pstate_setFilename (t : PStateChangeTracer) : result PStateChangeTracer :=
  xbt_assert (match t with None => true | _ => false end) "Double call of PStateChangeTracer::setFilename";;
  wb ← new_WriteBuffer default_buffer_size;
  Ok (Some (append_text wb ("time,machine_id,new_pstate" +:+ nl))).

Definition pstate_add_change {IS} `{IntervalSet IS} (time : Q) (machines : IS) (pstate_after : Z)
  (t : PStateChangeTracer) : result PStateChangeTracer :=
  wb ← of_option (Abort "wrong call: _wbuf is null") t;
  let machines_as_string := to_string_hyphen machines " " "-" in
  text ← snprintf (256 + Z.of_nat (String.length machines_as_string))
           (fmt_g time +:+ "," +:+ machines_as_string +:+ "," +:+ fmt_d pstate_after +:+ nl);
  Ok (Some (append_text wb text)).

(** ** Energy *)

Record EnergyConsumptionTracer := mk_EnergyConsumptionTracer {
  et_wbuf : option WriteBuffer;
  et_last_entry_date : Q;
  et_last_entry_energy : Q;
}.
#[export] Instance eta_EnergyConsumptionTracer : Eta EnergyConsumptionTracer := fun r =>
  mk_EnergyConsumptionTracer (et_wbuf r) (et_last_entry_date r) (et_last_entry_energy r).

Definition energy_set_filename (t : EnergyConsumptionTracer) : result EnergyConsumptionTracer :=
  xbt_assert (match et_wbuf t with None => true | _ => false end)
    "Double call of EnergyConsumptionTracer::set_filename";;
  wb ← new_WriteBuffer default_buffer_size;
  Ok (t <| et_wbuf := Some (append_text wb ("time,energy,event_type,wattmin,epower" +:+ nl)) |>).

Definition energy_flush (t : EnergyConsumptionTracer) : result EnergyConsumptionTracer :=
  wbuf ← tracer_flush (et_wbuf t); Ok (t <| et_wbuf := wbuf |>).
Definition energy_close_buffer (t : EnergyConsumptionTracer) : result (string * EnergyConsumptionTracer) :=
  '(file, wbuf) ← tracer_close_buffer (et_wbuf t); Ok (file, t <| et_wbuf := wbuf |>).

(** [add_entry], given the platform's energy and minimum power at this moment;
    it returns the energy. *)
Definition energy_add_entry (energy wattmin : Q) (date : Q) (event_type : string)
  (t : EnergyConsumptionTracer) : result (EnergyConsumptionTracer * Q) :=
  wb ← of_option (Abort "wrong call: _wbuf is null") (et_wbuf t);
  let time_diff := (date - et_last_entry_date t)%Q in
  let energy_diff := (energy - et_last_entry_energy t)%Q in
  let epower := if (0 <?q time_diff)%Q then (energy_diff / time_diff)%Q else (-1)%Q in
  text ← snprintf 256
           (String.concat "," [fmt_lf date; fmt_lf energy; event_type; fmt_lf wattmin;
                               if (epower =?q -1)%Q then "NA" else fmt_lf epower] +:+ nl);
  Ok (mk_EnergyConsumptionTracer (Some (append_text wb text)) date energy, energy).

(** ** Environmental footprint *)

Abbreviation EnvironmentalFootprintTracer := (option WriteBuffer).

Definition footprint_header : string :=
  "time,zone,event_type,carbon_operational(gCO2e),carbon_embodied(gCO2e),carbon_total(gCO2e),water_onsite(L),water_offsite(L),water_embodied(L),water_total(L)" +:+ nl.

Definition footprint_set_filename (t : EnvironmentalFootprintTracer) : result EnvironmentalFootprintTracer :=
  xbt_assert (match t with None => true | _ => false end)
    "Double call of EnvironmentalFootprintTracer::set_filename";;
  wb ← new_WriteBuffer default_buffer_size;
  Ok (Some (append_text wb footprint_header)).

Definition footprint_flush (t : EnvironmentalFootprintTracer) : result EnvironmentalFootprintTracer := tracer_flush t.
Definition footprint_close_buffer (t : EnvironmentalFootprintTracer) : result (string * EnvironmentalFootprintTracer) :=
  tracer_close_buffer t.

(** [std::set<std::string>], in increasing order. *)
Fixpoint sset_insert (x : string) (l : list string) : list string :=
  match l with
  | [] => [x]
  | y :: l' => if String.ltb x y then x :: l else if String.eqb x y then l else y :: sset_insert x l'
  end.

Section FootprintTracer.
Context {Engine Host : Type} `{SimGrid Engine Host}.
(** [get_englobing_zone()->get_name()] of a host. *)
Context (englobing_zone : Host -> option string).

Definition compute_zone_names (ms : Machines Host) : list string :=
  foldl (fun zones i =>
           match ms_machines ms !! i with
           | Some m => match englobing_zone (m_host m) with Some z => sset_insert z zones | None => zones end
           | None => zones
           end) [] (ms_compute_nodes ms).

Definition footprint_row (e : Engine) (root : NetZone Host) (date : Q) (event_type zone_name : string)
  : result string :=
  carbon_operational ← zone_carbon_operational e root true zone_name;
  carbon_embodied ← zone_carbon_embodied e root true zone_name;
  carbon_total ← zone_carbon_footprint e root true zone_name;
  water_onsite ← zone_water_onsite e root true zone_name;
  water_offsite ← zone_water_offsite e root true zone_name;
  water_embodied ← zone_water_embodied e root true zone_name;
  water_total ← zone_water_footprint e root true zone_name;
  snprintf 512
    (String.concat "," [fmt_lf date; zone_name; event_type; fmt_lf carbon_operational; fmt_lf carbon_embodied;
                        fmt_lf carbon_total; fmt_lf water_onsite; fmt_lf water_offsite;
                        fmt_lf water_embodied; fmt_lf water_total] +:+ nl).

Definition footprint_add_entry (e : Engine) (root : NetZone Host) (ms : Machines Host) (date : Q)
  (event_type : string) (t : EnvironmentalFootprintTracer) : result EnvironmentalFootprintTracer :=
  wb ← of_option (Abort "wrong call: _wbuf is null") t;
  wb ← foldM (fun wb zone_name =>
                text ← footprint_row e root date event_type zone_name;
                Ok (append_text wb text)) wb (compute_zone_names ms);
  Ok (Some wb).
End FootprintTracer.

(** ** Jobs *)

Record JobsTracer := mk_JobsTracer {
  jt_wbuf : option WriteBuffer;
  jt_nb_jobs : Z;
  jt_nb_jobs_finished : Z;
  jt_nb_jobs_success : Z;
  jt_nb_jobs_killed : Z;
  jt_nb_jobs_rejected : Z;
  jt_makespan : Q;
  jt_sum_waiting_time : Q;
  jt_sum_turnaround_time : Q;
  jt_sum_slowdown : fl;
  jt_max_waiting_time : Q;
  jt_max_turnaround_time : Q;
  jt_max_slowdown : fl;
  jt_machines_utilization : gmap Z Q;
}.
#[export] Instance eta_JobsTracer : Eta JobsTracer := fun r =>
  mk_JobsTracer (jt_wbuf r) (jt_nb_jobs r) (jt_nb_jobs_finished r) (jt_nb_jobs_success r)
    (jt_nb_jobs_killed r) (jt_nb_jobs_rejected r) (jt_makespan r) (jt_sum_waiting_time r)
    (jt_sum_turnaround_time r) (jt_sum_slowdown r) (jt_max_waiting_time r) (jt_max_turnaround_time r)
    (jt_max_slowdown r) (jt_machines_utilization r).

Definition new_JobsTracer : JobsTracer :=
  mk_JobsTracer None 0 0 0 0 0 0 0 0 (Fin 0) 0 0 (Fin 0) ∅.

Definition job_keys : list string :=
  ["job_id"; "workload_name"; "profile"; "submission_time"; "requested_number_of_resources"; "requested_time";
   "success"; "final_state"; "starting_time"; "execution_time"; "finish_time"; "waiting_time";
   "turnaround_time"; "stretch"; "allocated_resources"; "consumed_energy"; "consumed_carbon";
   "consumed_water"; "metadata"].

Definition jobs_initialize (nb_machines : Z) (t : JobsTracer) : result JobsTracer :=
  xbt_assert (match jt_wbuf t with None => true | _ => false end) "Double call of JobsTracer::initialize";;
  wb ← new_WriteBuffer default_buffer_size;
  Ok (t <| jt_wbuf := Some (flush_buffer (append_text wb (String.concat "," job_keys +:+ nl))) |>
        <| jt_machines_utilization ::= fun u =>
             foldl (fun u i => <[Z.of_nat i := 0%Q]> u) u (seq 0 (Z.to_nat nb_machines)) |>).

Section JobsTracer.
Context {IS : Type} `{IntervalSet IS}.
Implicit Types (j : Job IS) (t : JobsTracer).

Definition success j : bool := bool_decide (state j = JOB_STATE_COMPLETED_SUCCESSFULLY).
Definition rejected j : bool := bool_decide (state j = JOB_STATE_REJECTED).
Definition waiting_time j : Q := (starting_time j - submission_time j)%Q.
Definition completion_time j : Q := (starting_time j + runtime j)%Q.
Definition turnaround_time j : Q := (completion_time j - submission_time j)%Q.
Definition slowdown j : fl := fdiv (turnaround_time j) (runtime j).

Definition max_q (old new : Q) : Q := if (old <?q new)%Q then new else old.
Definition max_fl (old new : fl) : fl := if fgt new old then new else old.

Definition add_utilization j (u : gmap Z Q) (machine : Z) : gmap Z Q :=
  <[machine := (default 0%Q (u !! machine) + runtime j)%Q]> u.

(** The loop on [allocation[0]] .. [allocation[size-1]]. *)
Definition add_utilizations j (u : gmap Z Q) : result (gmap Z Q) :=
  foldM (fun u i => machine ← is_at (allocation j) (Z.of_nat i); Ok (add_utilization j u machine))
    u (seq 0 (Z.to_nat (is_size (allocation j)))).

(** The metrics of a job that has been executed. *)
Definition finished_metrics j t : result JobsTracer :=
  u ← add_utilizations j (jt_machines_utilization t);
  Ok (t <| jt_nb_jobs_finished ::= Z.add 1 |>
        <| jt_nb_jobs_success ::= fun n => if success j then n + 1 else n |>
        <| jt_nb_jobs_killed ::= fun n => if success j then n else n + 1 |>
        <| jt_sum_waiting_time ::= fun s => (s + waiting_time j)%Q |>
        <| jt_sum_turnaround_time ::= fun s => (s + turnaround_time j)%Q |>
        <| jt_sum_slowdown ::= fun s => fadd s (slowdown j) |>
        <| jt_makespan ::= fun m => max_q m (completion_time j) |>
        <| jt_max_waiting_time ::= fun m => max_q m (waiting_time j) |>
        <| jt_max_turnaround_time ::= fun m => max_q m (turnaround_time j) |>
        <| jt_max_slowdown ::= fun m => max_fl m (slowdown j) |>
        <| jt_machines_utilization := u |>).

Definition update_metrics j t : result JobsTracer :=
  let t := t <| jt_nb_jobs ::= Z.add 1 |> in
  if is_complete j then
    if rejected j then Ok (t <| jt_nb_jobs_rejected ::= Z.add 1 |>)
    else finished_metrics j t
  else xbt_die "Job did not complete".

(** The row of a job; a rejected job has no dates. *)
Definition job_field (ph : profile_heap) (environmental_footprint_used : bool) j (key : string) : result string :=
  let unless_rejected s := if rejected j then "" else s in
  let footprint s := if rejected j || negb environmental_footprint_used then "" else s in
  if String.eqb key "job_id" then Ok (ji_job_name (id j))
  else if String.eqb key "workload_name" then Ok (workload j)
  else if String.eqb key "profile" then p ← deref_profile ph (profile j); Ok (p_name p)
  else if String.eqb key "submission_time" then Ok (fmt_lf (submission_time j))
  else if String.eqb key "requested_number_of_resources" then Ok (fmt_d (requested_nb_res j))
  else if String.eqb key "requested_time" then Ok (fmt_lf (walltime j))
  else if String.eqb key "success" then Ok (fmt_d (if success j then 1 else 0))
  else if String.eqb key "final_state" then Ok (job_state_to_string (state j))
  else if String.eqb key "starting_time" then Ok (unless_rejected (fmt_lf (starting_time j)))
  else if String.eqb key "execution_time" then Ok (unless_rejected (fmt_lf (runtime j)))
  else if String.eqb key "finish_time" then Ok (unless_rejected (fmt_lf (completion_time j)))
  else if String.eqb key "waiting_time" then Ok (unless_rejected (fmt_lf (waiting_time j)))
  else if String.eqb key "turnaround_time" then Ok (unless_rejected (fmt_lf (turnaround_time j)))
  else if String.eqb key "stretch" then Ok (unless_rejected (fmt_fl (slowdown j)))
  else if String.eqb key "allocated_resources" then Ok (to_string_hyphen (allocation j) " " "-")
  else if String.eqb key "consumed_energy" then Ok (unless_rejected (fmt_lf (consumed_energy j)))
  else if String.eqb key "consumed_carbon" then Ok (footprint (fmt_lf (consumed_carbon j)))
  else if String.eqb key "consumed_water" then Ok (footprint (fmt_lf (consumed_water j)))
  else if String.eqb key "metadata" then Ok (dq +:+ metadata j +:+ dq)
  else Ok "".

Definition write_job (ph : profile_heap) (environmental_footprint_used : bool) j t : result JobsTracer :=
  t ← update_metrics j t;
  row ← mapM_r (job_field ph environmental_footprint_used j) job_keys;
  wb ← of_option (Undef "null WriteBuffer pointer") (jt_wbuf t);
  Ok (t <| jt_wbuf := Some (append_text wb (String.concat "," row +:+ nl)) |>).
End JobsTracer.

(** ** The final metrics *)

(** [std::map<std::string, std::string>] as an association list in key order. *)
Fixpoint smap_set (k v : string) (m : list (string * string)) : list (string * string) :=
  match m with
  | [] => [(k, v)]
  | (k', v') :: m' => if String.ltb k k' then (k, v) :: m
                      else if String.eqb k k' then (k, v) :: m' else (k', v') :: smap_set k v m'
  end.

(** What [finalize] reads of the context besides the machines. *)
Record run_info := mk_run_info {
  ri_batsim_version : string;
  ri_seconds_used_by_scheduler : Q;
  ri_seconds_used_by_the_whole_simulation : Q;
  ri_energy_first_job_submission : Q;
  ri_energy_last_job_completion : Q;
  ri_environmental_footprint_used : bool;
  ri_nb_machine_switches : Z;
  ri_nb_grouped_switches : Z;
}.

(** The states of the machine-related metrics, in the order of the source. *)
Definition total_time_in_state {Host} (ms : Machines Host) (s : MachineState) : result Q :=
  foldM (fun total m => t ← of_option (Throw "out_of_range") (m_time_spent_in_each_state m !! s); Ok (total + t)%Q)
    0%Q (ms_machines ms).

Definition schedule_fields {Engine Host} `{SimGrid Engine Host} (e : Engine) (ms : Machines Host)
  (ri : run_info) (t : JobsTracer) : result (list (string * string)) :=
  times ← mapM_r (fun s => total ← total_time_in_state ms s;
                           Ok ("time_" +:+ machine_state_to_string s, fmt_lf total)) machine_states;
  let used := ri_environmental_footprint_used ri in
  let nb := jt_nb_jobs t in
  Ok ([("scheduling_time", fmt_lf (ri_seconds_used_by_scheduler ri));
       ("simulation_time", fmt_lf (ri_seconds_used_by_the_whole_simulation ri));
       ("batsim_version", ri_batsim_version ri);
       ("nb_jobs", fmt_d nb);
       ("nb_jobs_finished", fmt_d (jt_nb_jobs_finished t));
       ("nb_jobs_success", fmt_d (jt_nb_jobs_success t));
       ("nb_jobs_killed", fmt_d (jt_nb_jobs_killed t));
       ("nb_jobs_rejected", fmt_d (jt_nb_jobs_rejected t));
       ("success_rate", fmt_fl (fdiv (inject_Z (jt_nb_jobs_success t)) (inject_Z nb)));
       ("makespan", fmt_lf (jt_makespan t));
       ("mean_waiting_time", fmt_fl (fdiv (jt_sum_waiting_time t) (inject_Z nb)));
       ("mean_turnaround_time", fmt_fl (fdiv (jt_sum_turnaround_time t) (inject_Z nb)));
       ("mean_slowdown", fmt_fl (fdiv_count (jt_sum_slowdown t) nb));
       ("max_waiting_time", fmt_lf (jt_max_waiting_time t));
       ("max_turnaround_time", fmt_lf (jt_max_turnaround_time t));
       ("max_slowdown", fmt_fl (jt_max_slowdown t));
       ("nb_computing_machines", fmt_d (nb_machines ms));
       ("consumed_joules", fmt_lf (ri_energy_last_job_completion ri - ri_energy_first_job_submission ri)%Q)]
      ++ (if used then
            [("total_carbon_footprint", fmt_lf (total_carbon_footprint e used ms));
             ("total_carbon_operational", fmt_lf (total_carbon_operational e used ms));
             ("total_carbon_embodied", fmt_lf (total_carbon_embodied e used ms));
             ("total_water_footprint", fmt_lf (total_water_footprint e used ms));
             ("total_water_onsite", fmt_lf (total_water_onsite e used ms));
             ("total_water_offsite", fmt_lf (total_water_offsite e used ms));
             ("total_water_embodied", fmt_lf (total_water_embodied e used ms))]
          else [])
      ++ [("nb_machine_switches", fmt_d (ri_nb_machine_switches ri));
          ("nb_grouped_switches", fmt_d (ri_nb_grouped_switches ri))]
      ++ times).

Definition jobs_flush (t : JobsTracer) : result JobsTracer :=
  wbuf ← tracer_flush (jt_wbuf t); Ok (t <| jt_wbuf := wbuf |>).
Definition jobs_close_buffer (t : JobsTracer) : result (string * JobsTracer) :=
  '(file, wbuf) ← tracer_close_buffer (jt_wbuf t); Ok (file, t <| jt_wbuf := wbuf |>).

(** [JobsTracer::finalize]: the content of the jobs file and of the schedule file. *)
Definition jobs_finalize {Engine Host} `{SimGrid Engine Host} (e : Engine) (ms : Machines Host)
  (ri : run_info) (t : JobsTracer) : result (JobsTracer * string * string) :=
  t ← jobs_flush t;
  '(jobs_file, t) ← jobs_close_buffer t;
  fields ← schedule_fields e ms ri t;
  let output_map := foldl (fun m (kv : string * string) => smap_set kv.1 kv.2 m) [] fields in
  Ok (t, jobs_file,
      String.concat "," output_map.*1 +:+ nl +:+ String.concat "," output_map.*2 +:+ nl).

(** ** Theorems *)

(** The metrics of a schedule, as sums and maxima over its jobs. *)
Section Metrics.
Context {IS : Type} `{IntervalSetLaws IS}.
Implicit Types (j : Job IS) (t : JobsTracer) (l : list (Job IS)).

Definition executed l : list (Job IS) := List.filter (fun j => negb (rejected j)) l.

Definition utilization_of l (machine : Z) : Q :=
  Qsum ((fun j => if is_contains (allocation j) machine then runtime j else 0%Q) <$> executed l).

(** The largest of these numbers and 0. *)
Definition largest (m : Q) (xs : list Q) : Prop :=
  (0 <= m)%Q /\ Forall (fun x => x <= m)%Q xs /\ ((m == 0)%Q \/ Exists (fun x => x == m)%Q xs).

(** The slowdown of a job that has a runtime. *)
Definition stretch j : Q := (turnaround_time j / runtime j)%Q.
Definition has_runtime j : Prop := ~ (runtime j == 0)%Q.

Record metrics_ok l t : Prop := {
  mo_complete : Forall (fun j => is_complete j = true) l;
  mo_jobs : jt_nb_jobs t = Z.of_nat (length l);
  mo_rejected : jt_nb_jobs_rejected t = count_if rejected l;
  mo_success : jt_nb_jobs_success t = count_if success l;
  mo_finished : jt_nb_jobs_finished t = jt_nb_jobs t - jt_nb_jobs_rejected t;
  mo_killed : jt_nb_jobs_killed t = jt_nb_jobs_finished t - jt_nb_jobs_success t;
  mo_waiting : (jt_sum_waiting_time t == Qsum (waiting_time <$> executed l))%Q;
  mo_turnaround : (jt_sum_turnaround_time t == Qsum (turnaround_time <$> executed l))%Q;
  mo_makespan : largest (jt_makespan t) (completion_time <$> executed l);
  mo_max_waiting : largest (jt_max_waiting_time t) (waiting_time <$> executed l);
  mo_max_turnaround : largest (jt_max_turnaround_time t) (turnaround_time <$> executed l);
  mo_slowdown : Forall has_runtime (executed l) -> exists s m,
    jt_sum_slowdown t = Fin s /\ (s == Qsum (stretch <$> executed l))%Q /\
    jt_max_slowdown t = Fin m /\ largest m (stretch <$> executed l);
  mo_utilization : forall m, (default 0%Q (jt_machines_utilization t !! m) == utilization_of l m)%Q;
}.

Lemma add_utilization_lookup j u m i :
  (default 0%Q (add_utilization j u m !! i) == default 0%Q (u !! i) + (if decide (m = i) then runtime j else 0))%Q.
Proof.
  unfold add_utilization. destruct (decide (m = i)) as [->|Hne].
  - by rewrite lookup_insert_eq.
  - rewrite lookup_insert_ne by done. ring.
Qed.

(** The loop visits the elements of the allocation, in order. *)
Lemma add_utilizations_elements j u :
  add_utilizations j u = Ok (foldl (add_utilization j) u (elements_of (allocation j))).
Proof.
  unfold add_utilizations. rewrite is_size_elements, Nat2Z.id.
  assert (forall (pre l : list Z) u, elements_of (allocation j) = pre ++ l ->
    foldM (fun u i => machine ← is_at (allocation j) (Z.of_nat i); Ok (add_utilization j u machine))
      u (seq (length pre) (length l)) = Ok (foldl (add_utilization j) u l)) as Hgen.
  { intros pre l; revert pre. induction l as [|m l IH]; intros pre u' Hl; cbn [length seq foldM foldl]; [done|].
    rewrite (is_at_spec _ _ m); [|rewrite Hl; by apply list_lookup_middle]. cbn.
    replace (S (length pre)) with (length (pre ++ [m])) by (rewrite length_app; cbn; lia).
    apply IH. by rewrite <- app_assoc. }
  by apply (Hgen []).
Qed.

Lemma add_utilizations_lookup j u u' m :
  add_utilizations j u = Ok u' ->
  (default 0%Q (u' !! m) == default 0%Q (u !! m) + (if is_contains (allocation j) m then runtime j else 0))%Q.
Proof.
  rewrite add_utilizations_elements. intros [= <-].
  assert (is_contains (allocation j) m = bool_decide (m ∈ elements_of (allocation j))) as ->.
  { destruct (is_contains _ _) eqn:Hc.
    - symmetry. by apply bool_decide_eq_true, is_contains_spec.
    - symmetry. by apply bool_decide_eq_false, is_contains_false. }
  pose proof (elements_NoDup (allocation j)) as Hnd. revert u.
  induction Hnd as [|x l Hx Hnd IH]; intros u; cbn [foldl].
  - case_bool_decide; [by exfalso; eapply not_elem_of_nil|]. ring.
  - rewrite IH, add_utilization_lookup. repeat case_decide; repeat case_bool_decide; subst; try ring; set_solver.
Qed.

Lemma success_not_rejected j : success j = true -> rejected j = false.
Proof. unfold success, rejected. intros Hs%bool_decide_eq_true. by rewrite Hs. Qed.

Lemma rejected_not_success j : rejected j = true -> success j = false.
Proof. unfold success, rejected. intros Hs%bool_decide_eq_true. by rewrite Hs. Qed.

Lemma largest_nothing : largest 0 [].
Proof. split; [done|]. split; [constructor|by left]. Qed.

Lemma largest_snoc (f : Job IS -> Q) l old j :
  largest old (f <$> l) -> largest (max_q old (f j)) (f <$> (l ++ [j])).
Proof.
  intros (Hpos & Hall & Hatt). rewrite fmap_app. cbn. unfold largest, max_q. rewrite Forall_app, Exists_app, Forall_singleton.
  destruct (old <?q f j)%Q eqn:E; qify.
  - split; [lra|]. split; [split; [|lra]|right; right; constructor; lra].
    eapply Forall_impl; [exact Hall|]. intros x Hx. cbn in *. lra.
  - split; [done|]. split; [split; [done|lra]|]. destruct Hatt as [?|?]; auto.
Qed.

Lemma slowdown_stretch j : has_runtime j -> slowdown j = Fin (stretch j).
Proof.
  unfold has_runtime, slowdown, fdiv. intros Hr. destruct (runtime j =?q 0)%Q eqn:E; [|done]. qify. done.
Qed.

Lemma executed_app l j : executed (l ++ [j]) = executed l ++ (if rejected j then [] else [j]).
Proof. unfold executed. rewrite List.filter_app. cbn. by destruct (rejected j). Qed.

Lemma Qsum_snoc (f : Job IS -> Q) l j : (Qsum (f <$> (l ++ [j])) == Qsum (f <$> l) + f j)%Q.
Proof. rewrite fmap_app, Qsum_app. cbn. ring. Qed.

Lemma update_metrics_ok l t j t' :
  metrics_ok l t -> update_metrics j t = Ok t' -> metrics_ok (l ++ [j]) t'.
Proof.
  intros Hm. unfold update_metrics. destruct (is_complete j) eqn:Hc; [|done].
  assert (Forall (fun j => is_complete j = true) (l ++ [j])) as Hcomp
    by (apply Forall_app_2; [apply Hm|by repeat constructor]).
  destruct (rejected j) eqn:Hr.
  - intros [= <-]. pose proof (rejected_not_success j Hr) as Hs.
    constructor; cbn -[Z.add]; rewrite ?executed_app, ?Hr, ?app_nil_r, ?count_if_app, ?length_app;
      cbn -[Z.add]; rewrite ?Hr, ?Hs; try apply Hm; try done; destruct Hm; try lia.
    intros m. unfold utilization_of. by rewrite executed_app, Hr, app_nil_r.
  - unfold finished_metrics. intros (u & Hu & [= <-])%bind_Ok.
    constructor; cbn -[Z.add]; rewrite ?executed_app, ?Hr, ?count_if_app, ?length_app, ?Qsum_snoc;
      cbn -[Z.add]; rewrite ?Hr; destruct Hm; try done; try (by apply largest_snoc); try lra.
    + lia.
    + lia.
    + destruct (success j); lia.
    + lia.
    + destruct (success j); lia.
    + rewrite Forall_app, Forall_singleton. intros [Hl Hj]. destruct (mo_slowdown0 Hl) as (s & m & Hs & Hsum & Hmax & Hlarge).
      rewrite (slowdown_stretch j Hj), Hs, Hmax. exists (s + stretch j)%Q, (max_q m (stretch j)).
      split; [done|]. split; [by rewrite Qsum_snoc, Hsum|]. split; [|by apply largest_snoc].
      unfold max_fl, max_q, fgt. by destruct (m <?q stretch j)%Q.
    + intros m. rewrite (add_utilizations_lookup _ _ _ _ Hu). cbn.
      rewrite mo_utilization0. unfold utilization_of. rewrite executed_app, Hr, Qsum_snoc. done.
Qed.

Lemma metrics_ok_wbuf l t wb : metrics_ok l t -> metrics_ok l (t <| jt_wbuf := wb |>).
Proof. intros []. by constructor. Qed.

Lemma jobs_initialize_metrics n t : jobs_initialize n new_JobsTracer = Ok t -> metrics_ok [] t.
Proof.
  unfold jobs_initialize. intros Hi. inv_ok. constructor; cbn; try done; try constructor; try apply largest_nothing.
  { intros _. exists 0%Q, 0%Q. split_and!; try done. apply largest_nothing. }
  intros m. generalize (seq 0 (Z.to_nat n)) as l. intros l.
  assert (forall u : gmap Z Q, default 0%Q (u !! m) = 0%Q ->
            default 0%Q (foldl (fun u i => <[Z.of_nat i := 0%Q]> u) u l !! m) = 0%Q) as Hz.
  { induction l as [|i l IH]; intros u Hu; cbn [foldl]; [done|]. apply IH.
    destruct (decide (Z.of_nat i = m)) as [<-|]; by rewrite ?lookup_insert_eq, ?lookup_insert_ne. }
  by rewrite Hz.
Qed.

End Metrics.

Module TracerExamples.
Import Concrete.

Definition a_job (name : string) (s : JobState) (sub start run : Q) (alloc : list Z) : Job (list Z) :=
  mk_Job "w" (mk_JobIdentifier "w" name ("w!" +:+ name)) None "{}" ∅ [] alloc [] "" s start run false
    0 0 0 1 sub (-1) 1 0.
Definition a_heap : profile_heap := {[1%positive := mk_Profile DELAY (DelayProfileData 1) "{}" "p" 0]}.
Definition jobs : list (Job (list Z)) :=
  [a_job "1" JOB_STATE_COMPLETED_SUCCESSFULLY 0 1 4 [0; 1];
   a_job "2" JOB_STATE_REJECTED 0 (-1) (-1) [];
   a_job "3" JOB_STATE_COMPLETED_KILLED 1 5 2 [1]].
Definition start : JobsTracer :=
  match jobs_initialize 2 new_JobsTracer with Ok t => t | Err _ => new_JobsTracer end.
Definition finish : JobsTracer :=
  match foldM (fun t j => write_job a_heap false j t) start jobs with Ok t => t | Err _ => new_JobsTracer end.

End TracerExamples.
