(* ===== verification/Ipp.v ===== *)
(** * Events and messages between processes (src/events.hpp, src/events.cpp, src/ipp.hpp, src/ipp.cpp)

    External events and their files, and the messages that the processes of the
    simulation exchange.  The [void * data] of a message is [MessageData]: a null
    pointer, or one of the message structures. *)

From S2P Require Import Prelude Interfaces Profiles Jobs.

(** ** External events *)

Inductive EventType := EVENT_MACHINE_AVAILABLE | EVENT_MACHINE_UNAVAILABLE | EVENT_GENERIC.
#[export] Instance EventType_eq_dec : EqDecision EventType.
Proof. solve_decision. Defined.

Definition event_type_to_string (type : EventType) : string :=
  match type with
  | EVENT_MACHINE_AVAILABLE => "machine_available"
  | EVENT_MACHINE_UNAVAILABLE => "machine_unavailable"
  | EVENT_GENERIC => "generic"
  end.

Definition event_type_from_string (type_str : string) (unknown_as_generic : bool) : result EventType :=
  if String.eqb type_str "machine_available" then Ok EVENT_MACHINE_AVAILABLE
  else if String.eqb type_str "machine_unavailable" then Ok EVENT_MACHINE_UNAVAILABLE
  else if unknown_as_generic then Ok EVENT_GENERIC
  else Err (Abort "Unknown event type").

(** The order of the enumeration, used by the comparator. *)
Definition event_type_rank (t : EventType) : Z :=
  match t with EVENT_MACHINE_AVAILABLE => 0 | EVENT_MACHINE_UNAVAILABLE => 1 | EVENT_GENERIC => 2 end.

Inductive EventData (IS : Type) :=
| MachineAvailabilityEventData (machine_ids : IS)
| GenericEventData (json_desc_str : string).
Arguments MachineAvailabilityEventData {IS}. Arguments GenericEventData {IS}.

Record Event (IS : Type) := mk_Event {
  ev_type : EventType;
  ev_timestamp : Q;
  ev_data : EventData IS;
}.
Arguments mk_Event {IS}. Arguments ev_type {IS}. Arguments ev_timestamp {IS}. Arguments ev_data {IS}.

Section Events.
Context {IS : Type} `{IntervalSet IS}.

Section FromJson.
Context {V : Type} `{RapidJson V}.

Definition Event_from_json (json_desc : V) (unknown_as_generic : bool) : result (Event IS) :=
  xbt_assert (IsObject json_desc) "one event is not an object";;
  t ← require_member json_desc "type" IsString;
  ts ← require_member json_desc "timestamp" IsNumber;
  type_str ← GetString t;
  type ← event_type_from_string type_str unknown_as_generic;
  timestamp ← GetDouble ts;
  xbt_assert (0 <=?q timestamp)%Q "one event has a non-positive timestamp.";;
  match type with
  | EVENT_MACHINE_AVAILABLE | EVENT_MACHINE_UNAVAILABLE =>
      r ← require_member json_desc "resources" IsString;
      resources ← GetString r;
      match from_string_hyphen resources " " "-" with
      | Ok machine_ids => Ok (mk_Event type timestamp (MachineAvailabilityEventData machine_ids))
      | Err _ => Err (Throw "Invalid JSON message")
      end
  | EVENT_GENERIC =>
      if unknown_as_generic
      then Ok (mk_Event type timestamp (GenericEventData (serialize json_desc)))
      else xbt_die "one event has an unknown event type."
  end.

(** One event per non-empty line, in the order of the file. *)
Definition load_event_line (unknown_as_generic : bool) (events : list (Event IS)) (line : string)
  : result (list (Event IS)) :=
  if bool_decide (line = "") then Ok events else
  doc ← of_option (Abort "an event could not be parsed") (parse_json line);
  xbt_assert (IsObject doc) "an event could not be parsed";;
  event ← Event_from_json doc unknown_as_generic;
  Ok (events ++ [event]).

Definition event_comparator_timestamp_number (a b : Event IS) : bool :=
  if (ev_timestamp a =?q ev_timestamp b)%Q
  then event_type_rank (ev_type a) <? event_type_rank (ev_type b)
  else (ev_timestamp a <?q ev_timestamp b)%Q.

(** The order in which the comparator does not put two elements upside down. *)
Definition event_le (a b : Event IS) : Prop := event_comparator_timestamp_number b a = false.
#[export] Instance event_le_dec : RelDecision event_le :=
  fun a b => decide (event_comparator_timestamp_number b a = false).

(** [EventList::load_from_json]; [std::sort] is a merge sort. *)
Definition EventList_load_from_json `{FileSystem} (json_filename : string) (unknown_as_generic : bool)
  (events : list (Event IS)) : result (list (Event IS)) :=
  lines ← of_option (Abort "Cannot read file") (fs_lines json_filename);
  events ← foldM (load_event_line unknown_as_generic) events lines;
  Ok (merge_sort event_le events).
End FromJson.
End Events.

(** ** Messages *)

Inductive IPMessageType :=
| JOB_SUBMITTED
| JOB_REGISTERED_BY_DP
| PROFILE_REGISTERED_BY_DP
| JOB_COMPLETED
| PSTATE_MODIFICATION
| SCHED_EXECUTE_JOB
| SCHED_CHANGE_JOB_STATE
| SCHED_REJECT_JOB
| SCHED_KILL_JOB
| SCHED_CALL_ME_LATER
| SCHED_TELL_ME_ENERGY
| SCHED_TELL_ME_CARBON_FOOTPRINT
| SCHED_TELL_ME_WATER_FOOTPRINT
| SCHED_SET_JOB_METADATA
| SCHED_WAIT_ANSWER
| WAIT_QUERY
| SCHED_READY
| WAITING_DONE
| KILLING_DONE
| SUBMITTER_HELLO
| SUBMITTER_CALLBACK
| SUBMITTER_BYE
| SWITCHED_ON
| SWITCHED_OFF
| END_DYNAMIC_REGISTER
| CONTINUE_DYNAMIC_REGISTER
| TO_JOB_MSG
| FROM_JOB_MSG
| EVENT_OCCURRED.
#[export] Instance IPMessageType_eq_dec : EqDecision IPMessageType.
Proof. solve_decision. Defined.

Definition ip_message_type_to_string (type : IPMessageType) : string :=
  match type with
  | JOB_SUBMITTED => "JOB_SUBMITTED"
  | JOB_REGISTERED_BY_DP => "JOB_REGISTERED_BY_DP"
  | PROFILE_REGISTERED_BY_DP => "PROFILE_REGISTERED_BY_DP"
  | JOB_COMPLETED => "JOB_COMPLETED"
  | PSTATE_MODIFICATION => "PSTATE_MODIFICATION"
  | SCHED_EXECUTE_JOB => "SCHED_EXECUTE_JOB"
  | SCHED_CHANGE_JOB_STATE => "SCHED_CHANGE_JOB_STATE"
  | SCHED_REJECT_JOB => "SCHED_REJECT_JOB"
  | SCHED_KILL_JOB => "SCHED_KILL_JOB"
  | SCHED_CALL_ME_LATER => "SCHED_CALL_ME_LATER"
  | SCHED_TELL_ME_ENERGY => "SCHED_TELL_ME_ENERGY"
  | SCHED_TELL_ME_CARBON_FOOTPRINT => "SCHED_TELL_ME_CARBOON_FOOTPRINT"
  | SCHED_TELL_ME_WATER_FOOTPRINT => "SCHED_TELL_ME_WATER_FOOTPRINT"
  | SCHED_WAIT_ANSWER => "SCHED_WAIT_ANSWER"
  | SCHED_SET_JOB_METADATA => "SCHED_SET_JOB_METADATA"
  | WAIT_QUERY => "WAIT_QUERY"
  | SCHED_READY => "SCHED_READY"
  | WAITING_DONE => "WAITING_DONE"
  | SUBMITTER_HELLO => "SUBMITTER_HELLO"
  | SUBMITTER_CALLBACK => "SUBMITTER_CALLBACK"
  | SUBMITTER_BYE => "SUBMITTER_BYE"
  | SWITCHED_ON => "SWITCHED_ON"
  | SWITCHED_OFF => "SWITCHED_OFF"
  | KILLING_DONE => "KILLING_DONE"
  | END_DYNAMIC_REGISTER => "END_DYNAMIC_REGISTER"
  | CONTINUE_DYNAMIC_REGISTER => "CONTINUE_DYNAMIC_REGISTER"
  | TO_JOB_MSG => "TO_JOB_MSG"
  | FROM_JOB_MSG => "FROM_JOB_MSG"
  | EVENT_OCCURRED => "EVENT_OCCURRED"
  end.

Inductive SubmitterType := JOB_SUBMITTER | EVENT_SUBMITTER.
#[export] Instance SubmitterType_eq_dec : EqDecision SubmitterType.
Proof. solve_decision. Defined.

Definition submitter_type_to_string (type : SubmitterType) : string :=
  match type with EVENT_SUBMITTER => "Event" | JOB_SUBMITTER => "Job" end.

Section Messages.
Context {IS Host : Type}.

Record SchedulingAllocation := mk_SchedulingAllocation {
  sa_job : positive;
  sa_machine_ids : IS;
  sa_mapping : list Z;
  sa_storage_mapping : gmap string Z;
  sa_hosts : list Host;
  sa_io_hosts : list Host;
  sa_io_allocation : IS;
}.
#[export] Instance eta_SchedulingAllocation : Eta SchedulingAllocation := fun r =>
  mk_SchedulingAllocation (sa_job r) (sa_machine_ids r) (sa_mapping r) (sa_storage_mapping r)
    (sa_hosts r) (sa_io_hosts r) (sa_io_allocation r).

Inductive MessageData :=
| NoData
| JobSubmittedMessage (submitter_name : string) (jobs : list positive)
| JobRegisteredByDPMessage (job : positive) (job_description : string)
| ProfileRegisteredByDPMessage (workload_name profile_name profile : string)
| JobCompletedMessage (job : positive)
| PStateModificationMessage (machine_ids : IS) (new_pstate : Z)
| ExecuteJobMessage (allocation : SchedulingAllocation) (io_profile : option positive)
| ChangeJobStateMessage (job_id : JobIdentifier) (job_state : string)
| JobRejectedMessage (job_id : JobIdentifier)
| KillJobMessage (jobs_ids : list JobIdentifier)
| CallMeLaterMessage (target_time : Q)
| SetJobMetadataMessage (job_id : JobIdentifier) (metadata : string)
| SchedWaitAnswerMessage (submitter_name : string) (nb_resources : Z) (processing_time expected_time : Q)
| WaitQueryMessage (submitter_name : string) (nb_resources : Z) (processing_time : Q)
| KillingDoneMessage (jobs_ids : list JobIdentifier) (jobs_progress : gmap string BatTask)
    (acknowledge_kill_on_protocol : bool)
| SubmitterHelloMessage (submitter_name : string) (enable_callback_on_job_completion : bool)
    (submitter_type : SubmitterType)
| SubmitterJobCompletionCallbackMessage (job_id : JobIdentifier)
| SubmitterByeMessage (submitter_name : string) (submitter_type : SubmitterType) (is_workflow_submitter : bool)
| SwitchMessage (machine_id new_pstate : Z)
| ToJobMessage (job_id : JobIdentifier) (message : string)
| FromJobMessage (job_id : JobIdentifier) (message : string)
| EventOccurredMessage (submitter_name : string) (occurred_events : list (Event IS)).

Record IPMessage := mk_IPMessage {
  msg_type : IPMessageType;
  msg_data : MessageData;
}.

(** The data are those of the type of the message. *)
Definition well_typed (m : IPMessage) : bool :=
  match msg_type m, msg_data m with
  | JOB_SUBMITTED, JobSubmittedMessage _ _
  | JOB_REGISTERED_BY_DP, JobRegisteredByDPMessage _ _
  | PROFILE_REGISTERED_BY_DP, ProfileRegisteredByDPMessage _ _ _
  | JOB_COMPLETED, JobCompletedMessage _
  | PSTATE_MODIFICATION, PStateModificationMessage _ _
  | SCHED_EXECUTE_JOB, ExecuteJobMessage _ _
  | SCHED_CHANGE_JOB_STATE, ChangeJobStateMessage _ _
  | SCHED_REJECT_JOB, JobRejectedMessage _
  | SCHED_KILL_JOB, KillJobMessage _
  | SCHED_CALL_ME_LATER, CallMeLaterMessage _
  | SCHED_SET_JOB_METADATA, SetJobMetadataMessage _ _
  | SCHED_WAIT_ANSWER, SchedWaitAnswerMessage _ _ _ _
  | WAIT_QUERY, WaitQueryMessage _ _ _
  | KILLING_DONE, KillingDoneMessage _ _ _
  | SUBMITTER_HELLO, SubmitterHelloMessage _ _ _
  | SUBMITTER_CALLBACK, SubmitterJobCompletionCallbackMessage _
  | SUBMITTER_BYE, SubmitterByeMessage _ _ _
  | SWITCHED_ON, SwitchMessage _ _
  | SWITCHED_OFF, SwitchMessage _ _
  | TO_JOB_MSG, ToJobMessage _ _
  | FROM_JOB_MSG, FromJobMessage _ _
  | EVENT_OCCURRED, EventOccurredMessage _ _
  | SCHED_TELL_ME_ENERGY, NoData
  | SCHED_TELL_ME_CARBON_FOOTPRINT, NoData
  | SCHED_TELL_ME_WATER_FOOTPRINT, NoData
  | SCHED_READY, NoData
  | WAITING_DONE, NoData
  | END_DYNAMIC_REGISTER, NoData
  | CONTINUE_DYNAMIC_REGISTER, NoData => true
  | _, _ => false
  end.

(** [IPMessage::~IPMessage] deletes the data as those of the type of the message; a
    null pointer may be deleted, and for some types nothing is. *)
Definition destroy_message (m : IPMessage) : result unit :=
  match msg_type m with
  | SCHED_TELL_ME_ENERGY | SCHED_TELL_ME_CARBON_FOOTPRINT | SCHED_TELL_ME_WATER_FOOTPRINT
  | SCHED_READY | WAITING_DONE | END_DYNAMIC_REGISTER | CONTINUE_DYNAMIC_REGISTER => Ok tt
  | _ =>
      match msg_data m with
      | NoData => Ok tt
      | _ => if well_typed m then Ok tt else Err (Undef "delete of another message type")
      end
  end.
End Messages.
Arguments SchedulingAllocation : clear implicits.
Arguments MessageData : clear implicits.
Arguments IPMessage : clear implicits.

(** ** Theorems *)

Section EventFacts.
Context {IS : Type}.
Implicit Types (a b c : Event IS).

#[export] Instance event_le_total : Total (event_le (IS := IS)).
Proof.
  intros a b. unfold event_le, event_comparator_timestamp_number.
  destruct (ev_timestamp b =?q ev_timestamp a)%Q eqn:E1, (ev_timestamp a =?q ev_timestamp b)%Q eqn:E2;
    qify; try (exfalso; lra).
  - destruct (Z.ltb_spec (event_type_rank (ev_type b)) (event_type_rank (ev_type a))); [right|by left].
    apply Z.ltb_ge. lia.
  - destruct (ev_timestamp b <?q ev_timestamp a)%Q eqn:E; [right|by left]. qify. lra.
Qed.

Lemma event_le_timestamp a b : event_le a b -> (ev_timestamp a <= ev_timestamp b)%Q.
Proof.
  unfold event_le, event_comparator_timestamp_number.
  destruct (ev_timestamp b =?q ev_timestamp a)%Q eqn:E; intros; qify; lra.
Qed.

(** The comparator is a strict weak order. *)
#[export] Instance event_le_trans : Transitive (event_le (IS := IS)).
Proof.
  intros a b c. unfold event_le, event_comparator_timestamp_number.
  destruct (ev_timestamp b =?q ev_timestamp a)%Q eqn:E1, (ev_timestamp c =?q ev_timestamp b)%Q eqn:E2,
    (ev_timestamp c =?q ev_timestamp a)%Q eqn:E3; intros H1 H2; qify;
    try (exfalso; match goal with E : ~ (_ == _)%Q |- _ => apply E; lra end);
    rewrite ?Z.ltb_ge in *; try lia; lra.
Qed.

(** What the parser guarantees of an event: the data are those of its type. *)
Definition event_wf (e : Event IS) : Prop :=
  (0 <= ev_timestamp e)%Q /\
  match ev_type e, ev_data e with
  | EVENT_GENERIC, GenericEventData _ => True
  | EVENT_MACHINE_AVAILABLE, MachineAvailabilityEventData _
  | EVENT_MACHINE_UNAVAILABLE, MachineAvailabilityEventData _ => True
  | _, _ => False
  end.

Lemma Event_from_json_wf `{IntervalSet IS} {V} `{RapidJson V} (v : V) (generic : bool) e :
  Event_from_json v generic = Ok e -> event_wf e.
Proof.
  unfold Event_from_json. intros Hr. inv_ok.
  match goal with H : (match ?t with _ => _ end) = Ok _ |- _ => destruct t end.
  - inv_ok. destruct (from_string_hyphen _ _ _); [|done]. inv_ok. split; [cbn; by qify|done].
  - inv_ok. destruct (from_string_hyphen _ _ _); [|done]. inv_ok. split; [cbn; by qify|done].
  - destruct generic; inv_ok. split; [cbn; by qify|done].
Qed.

(** A loaded event file gives events in non-decreasing date order, at equal
    dates availabilities before unavailabilities before generic events; every
    event has a date that is not negative and the data of its type. *)
Theorem EventList_load_from_json_sorted `{IntervalSet IS} {V} `{RapidJson V} `{FileSystem} file (generic : bool) l :
  EventList_load_from_json (V := V) file generic [] = Ok l ->
  StronglySorted (fun x y : Event IS => (ev_timestamp x <= ev_timestamp y)%Q /\
     ((ev_timestamp x == ev_timestamp y)%Q -> event_type_rank (ev_type x) <= event_type_rank (ev_type y))) l /\
  Forall event_wf l.
Proof.
  unfold EventList_load_from_json. intros Hr. inv_ok.
  match goal with H : foldM _ _ _ = Ok ?l |- _ => rename l into evs; rename H into Hevs end.
  split.
  - pose proof (StronglySorted_merge_sort event_le evs) as Hs.
    clear Hevs. induction Hs as [|u l Hs IH Hu]; constructor; [done|].
    eapply Forall_impl; [exact Hu|]. intros y Hxy. split; [by apply event_le_timestamp|].
    intros He. unfold event_le, event_comparator_timestamp_number in Hxy.
    destruct (ev_timestamp y =?q ev_timestamp u)%Q eqn:E; qify; [|exfalso; apply E; lra].
    by apply Z.ltb_ge.
  - assert (Forall event_wf evs) as Hwf.
    { revert Hevs. apply foldM_inv; [constructor|]. intros s line s' _ Hs Hl.
      unfold load_event_line in Hl. destruct (bool_decide _); inv_ok; [done|].
      apply Forall_app_2; [done|]. constructor; [|constructor]. by eapply Event_from_json_wf. }
    rewrite Forall_forall in Hwf |- *. intros u Hu. apply Hwf.
    by rewrite (merge_sort_Permutation event_le evs) in Hu.
Qed.
End EventFacts.

Module EventExamples.
Import Concrete.

Definition event_line (ts : Z) (type : string) : json :=
  JObj [("type", JStr type); ("timestamp", JInt ts); ("resources", JStr "0-1")].
Definition two_lines : RapidJson json := {|
  IsObject := IsObject; IsArray := IsArray; IsString := IsString; IsNumber := IsNumber; IsInt := IsInt;
  members := members; array_values := array_values; GetString := GetString; GetDouble := GetDouble;
  GetInt := GetInt; serialize := serialize;
  parse_json s := Some (if String.eqb s "late" then event_line 5 "machine_available"
                        else event_line 2 "machine_unavailable") |}.
Definition a_file : FileSystem := {|
  fs_is_directory _ := false; fs_is_regular_file _ := true; fs_parent_path _ := "";
  fs_lines _ := Some ["late"; ""; "early"]; trim_right s := s |}.
#[local] Existing Instance two_lines.
#[local] Existing Instance a_file.

Definition loaded : list (Event (list Z)) :=
  match EventList_load_from_json (V := json) "events" false [] with Ok l => l | Err _ => [] end.

Example EventList_load_from_json_sorted_witness :
  ev_timestamp <$> loaded = [2%Q; 5%Q] /\ Forall event_wf loaded.
Proof.
  split; [vm_compute; reflexivity|].
  apply (EventList_load_from_json_sorted (V := json) "events" false loaded). vm_compute. reflexivity.
Defined.
End EventExamples.
