(* ===== verification/PState.v ===== *)
(** * Pending power state switches (src/pstate.hpp, src/pstate.cpp: CurrentSwitches)

    A request of the scheduler may ask several machines to change their power
    state; [CurrentSwitches] remembers which machines of each request have not
    switched yet, so that the request is acknowledged once. *)

From S2P Require Import Prelude Interfaces.

Section CurrentSwitches.
Context {IS : Type} `{IntervalSet IS}.

Record Switch := mk_Switch {
  sw_target_pstate : Z;
  sw_all_machines : IS;
  sw_switching_machines : IS;
}.

(** [_switches]: the pending requests by target power state, oldest first. *)
#[local] Abbreviation CurrentSwitches := (gmap Z (list Switch)).

Definition add_switch (machines : IS) (target_pstate : Z) (cs : CurrentSwitches) : CurrentSwitches :=
  let s := mk_Switch target_pstate machines machines in
  match cs !! target_pstate with
  | Some l => <[target_pstate := l ++ [s]]> cs
  | None => <[target_pstate := [s]]> cs
  end.

(** The loop on the requests: the first one that waits for the machine is
    updated, or taken out when the machine was the last one it waited for. *)
Fixpoint mark_in_list (machine_id : Z) (l : list Switch) : option (option Switch * list Switch) :=
  match l with
  | [] => None
  | s :: l =>
      if is_contains (sw_switching_machines s) machine_id then
        let remaining := is_remove (sw_switching_machines s) machine_id in
        if is_size remaining =? 0 then Some (Some s, l)
        else Some (None, mk_Switch (sw_target_pstate s) (sw_all_machines s) remaining :: l)
      else
        match mark_in_list machine_id l with
        | Some (done_, l') => Some (done_, s :: l')
        | None => None
        end
  end.

(** [mark_switch_as_done], but for the traces: the request that this machine
    completes, if any. *)
Definition mark_switch (machine_id target_pstate : Z) (cs : CurrentSwitches)
  : result (option Switch * CurrentSwitches) :=
  l ← of_option (Abort "switch count inconsistency") (cs !! target_pstate);
  '(done_, l') ← of_option (Abort "machine was not switching to this pstate") (mark_in_list machine_id l);
  match done_, l' with
  | Some s, [] => Ok (Some s, delete target_pstate cs)
  | _, _ => Ok (done_, <[target_pstate := l']> cs)
  end.

(** Marking several machines, one after the other. *)
Fixpoint mark_switches (target_pstate : Z) (ids : list Z) (cs : CurrentSwitches)
  : result (list (option IS) * CurrentSwitches) :=
  match ids with
  | [] => Ok ([], cs)
  | i :: ids =>
      r ← mark_switch i target_pstate cs;
      r' ← mark_switches target_pstate ids (r : option Switch * CurrentSwitches).2;
      Ok (match r.1 with Some s => Some (sw_all_machines s) | None => None end :: r'.1, r'.2)
  end.
End CurrentSwitches.
Arguments Switch : clear implicits.
Abbreviation CurrentSwitches IS := (gmap Z (list (Switch IS))).

Section CurrentSwitchesFacts.
Context {IS : Type} `{IntervalSetLaws IS}.
Implicit Types (cs : CurrentSwitches IS) (s : Switch IS).

(** The first pending request that waits for the machine. *)
Definition first_waiting (machine_id : Z) (l : list (Switch IS)) (l1 : list (Switch IS)) s (l2 : list (Switch IS)) : Prop :=
  l = l1 ++ s :: l2 /\ is_contains (sw_switching_machines s) machine_id = true /\
  Forall (fun s' => is_contains (sw_switching_machines s') machine_id = false) l1.

Lemma is_remove_size (t : IS) x :
  is_contains t x = true -> (is_size (is_remove t x) = 0 <-> forall y, y ∈ elements_of t -> y = x).
Proof.
  intros Hx. rewrite is_size_zero. split.
  - intros He y Hy. destruct (decide (y = x)) as [|Hne]; [done|]. exfalso.
    assert (y ∈ elements_of (is_remove t x)) as Hin by by apply is_remove_spec.
    rewrite He in Hin. by apply not_elem_of_nil in Hin.
  - intros Hall. destruct (elements_of (is_remove t x)) as [|y l] eqn:He; [done|]. exfalso.
    assert (y ∈ elements_of (is_remove t x)) as Hin by (rewrite He; left).
    apply is_remove_spec in Hin as [Hne Hy]. auto.
Qed.

Lemma mark_in_list_spec i l :
  match mark_in_list i l with
  | None => Forall (fun s' => is_contains (sw_switching_machines s') i = false) l
  | Some (done_, l') => exists l1 s l2, first_waiting i l l1 s l2 /\
      (done_ = Some s /\ l' = l1 ++ l2 /\ (forall y, y ∈ elements_of (sw_switching_machines s) -> y = i) \/
       done_ = None /\ l' = l1 ++ mk_Switch (sw_target_pstate s) (sw_all_machines s) (is_remove (sw_switching_machines s) i) :: l2 /\
       exists y, y ∈ elements_of (sw_switching_machines s) /\ y ≠ i)
  end.
Proof.
  induction l as [|s l IH]; cbn [mark_in_list]; [constructor|].
  destruct (is_contains (sw_switching_machines s) i) eqn:Hc.
  - pose proof (is_remove_size _ _ Hc) as Hsz.
    destruct (Z.eqb_spec (is_size (is_remove (sw_switching_machines s) i)) 0) as [Hz|Hz].
    + exists [], s, l. split; [by split_and!|]. left. split_and!; [done..|]. by apply Hsz.
    + exists [], s, l. split; [by split_and!|]. right. split_and!; [done..|].
      rewrite is_size_zero in Hz. destruct (elements_of (is_remove (sw_switching_machines s) i)) as [|y t] eqn:He; [done|].
      exists y. assert (y ∈ elements_of (is_remove (sw_switching_machines s) i)) as Hin by (rewrite He; left).
      by apply is_remove_spec in Hin as [? ?].
  - destruct (mark_in_list i l) as [[done_ l']|].
    + destruct IH as (l1 & s' & l2 & (-> & Hc' & Hall) & Hcase). exists (s :: l1), s', l2.
      split; [split_and!; [done|done|by constructor]|].
      destruct Hcase as [(-> & -> & ?)|(-> & -> & ?)]; [left|right]; by split_and!.
    + by constructor.
Qed.

(** Marking a machine concerns the oldest request for this power state that
    waits for it: the request is completed exactly when it waited for no other
    machine, and is then forgotten; otherwise it only stops waiting for this
    machine.  The other requests do not change.  When no request waits for the
    machine, the program aborts. *)
Theorem mark_switch_spec i p cs :
  match mark_switch i p cs with
  | Ok (done_, cs') => exists l1 s l2,
      cs !! p = Some (l1 ++ s :: l2) /\ first_waiting i (l1 ++ s :: l2) l1 s l2 /\
      (forall q, q ≠ p -> cs' !! q = cs !! q) /\
      (done_ = Some s /\ (forall y, y ∈ elements_of (sw_switching_machines s) -> y = i) /\
         cs' !! p = (if decide (l1 ++ l2 = []) then None else Some (l1 ++ l2)) \/
       done_ = None /\ (exists y, y ∈ elements_of (sw_switching_machines s) /\ y ≠ i) /\
         cs' !! p = Some (l1 ++ mk_Switch (sw_target_pstate s) (sw_all_machines s)
                                  (is_remove (sw_switching_machines s) i) :: l2))
  | Err e => (exists msg, e = Abort msg) /\
      forall l, cs !! p = Some l -> Forall (fun s' => is_contains (sw_switching_machines s') i = false) l
  end.
Proof.
  unfold mark_switch. destruct (cs !! p) as [l|] eqn:Hl; cbn; [|split; [by eexists|done]].
  pose proof (mark_in_list_spec i l) as Hm.
  destruct (mark_in_list i l) as [[done_ l']|]; cbn; [|split; [by eexists|by intros ? [= <-]]].
  destruct Hm as (l1 & s & l2 & Hf & Hcase). pose proof Hf as (-> & _).
  destruct Hcase as [(-> & -> & Hy)|(-> & -> & Hy)].
  - destruct (l1 ++ l2) eqn:He; cbn; exists l1, s, l2; (split; [done|]; split; [done|]; split;
      [intros q Hq; rewrite ?lookup_delete_ne, ?lookup_insert_ne by congruence; done|]); left; rewrite He;
      (split_and!; [done..|]); by rewrite ?lookup_delete_eq, ?lookup_insert_eq.
  - exists l1, s, l2. split_and!; [done|done| |].
    + intros q Hq. by rewrite lookup_insert_ne by congruence.
    + right. split_and!; [done..|]. by rewrite lookup_insert_eq.
Qed.

(** *** One request among others *)

(** The other requests for [p], and one more that still waits for [t]. *)
Definition pending_switches (p : Z) cs : list (Switch IS) := default [] (cs !! p).
Definition with_request (p : Z) (all t : IS) cs : CurrentSwitches IS :=
  <[p := pending_switches p cs ++ [mk_Switch p all t]]> cs.

(** None of the others waits for one of these machines. *)
Definition not_awaited (p : Z) (all : IS) cs : Prop :=
  forall s i, s ∈ pending_switches p cs -> i ∈ elements_of all -> is_contains (sw_switching_machines s) i = false.

Lemma mark_in_list_app i l l2 :
  match mark_in_list i l with
  | Some (d, l') => mark_in_list i (l ++ l2) = Some (d, l' ++ l2)
  | None => mark_in_list i (l ++ l2) = match mark_in_list i l2 with Some (d, l2') => Some (d, l ++ l2') | None => None end
  end.
Proof.
  induction l as [|s l IH]; cbn [app mark_in_list]; [by destruct (mark_in_list i l2) as [[]|]|].
  destruct (is_contains _ i); [by destruct (is_size _ =? 0)|].
  destruct (mark_in_list i l) as [[d l']|]; rewrite IH; [done|]. by destruct (mark_in_list i l2) as [[]|].
Qed.

Lemma mark_in_list_none i l :
  (forall s, s ∈ l -> is_contains (sw_switching_machines s) i = false) -> mark_in_list i l = None.
Proof.
  induction l as [|s l IH]; intros Hl; [done|]. cbn. rewrite (Hl s) by by left.
  rewrite IH; [done|]. intros s' Hs. apply Hl. by right.
Qed.

(** What remains of a list of requests waits for no other machine. *)
Lemma mark_in_list_waits i l d l' s' x :
  mark_in_list i l = Some (d, l') -> s' ∈ l' -> is_contains (sw_switching_machines s') x = true ->
  exists s, s ∈ l /\ is_contains (sw_switching_machines s) x = true.
Proof.
  intros Hm Hs Hx. pose proof (mark_in_list_spec i l) as Hspec. rewrite Hm in Hspec.
  destruct Hspec as (l1 & s & l2 & (-> & _ & _) & Hcase). destruct Hcase as [(_ & -> & _)|(_ & -> & _)].
  - exists s'. split; [|done]. rewrite elem_of_app, elem_of_cons. apply elem_of_app in Hs as [?|?]; auto.
  - rewrite elem_of_app, elem_of_cons in Hs. destruct Hs as [?|[->|?]].
    + exists s'. rewrite elem_of_app. auto.
    + exists s. rewrite elem_of_app, elem_of_cons. split; [auto|]. cbn in Hx.
      by apply is_contains_spec, is_remove_spec, proj2, is_contains_spec in Hx.
    + exists s'. rewrite elem_of_app, elem_of_cons. auto.
Qed.

(** The mark of a machine of another request does not concern this one. *)
Lemma mark_switch_other p all t i d cs cs' :
  cs !! p ≠ Some [] -> not_awaited p all cs -> i ∉ elements_of t -> mark_switch i p cs = Ok (d, cs') ->
  mark_switch i p (with_request p all t cs) = Ok (d, with_request p all t cs') /\
  cs' !! p ≠ Some [] /\ not_awaited p all cs'.
Proof.
  intros Hne Hna Hi. unfold mark_switch.
  intros (l & Hl%of_option_Ok & ([d' l'] & Hm%of_option_Ok & Hr)%bind_Ok)%bind_Ok.
  assert (d' = d /\ cs' = match l' with [] => delete p cs | _ => <[p := l']> cs end) as [-> ->].
  { pose proof (mark_in_list_spec i l) as Hspec. rewrite Hm in Hspec. destruct Hspec as (l1 & s & l2 & _ & Hcase).
    destruct d' as [s'|], l'; injection Hr as <- <-; try done.
    destruct Hcase as [(? & _)|(_ & He & _)]; [done|by destruct l1]. }
  assert (not_awaited p all (match l' with [] => delete p cs | _ => <[p := l']> cs end)) as Hna'.
  { intros s' x Hs Hx. apply not_true_is_false. intros Hc.
    assert (s' ∈ l') as Hs'.
    { unfold pending_switches in Hs. destruct l'; [rewrite lookup_delete_eq in Hs|rewrite lookup_insert_eq in Hs]; exact Hs. }
    destruct (mark_in_list_waits _ _ _ _ _ _ Hm Hs' Hc) as (s & Hin & Hcs).
    rewrite (Hna s x) in Hcs; [done| |done]. unfold pending_switches. by rewrite Hl. }
  split; [|split; [by destruct l'; [rewrite lookup_delete_eq|rewrite lookup_insert_eq]|done]].
  assert (with_request p all t cs !! p = Some (l ++ [mk_Switch p all t])) as ->
    by (unfold with_request, pending_switches; by rewrite lookup_insert_eq, Hl).
  cbn [of_option mbind result_bind].
  pose proof (mark_in_list_app i l [mk_Switch p all t]) as Happ. rewrite Hm in Happ. rewrite Happ.
  cbn [of_option mbind result_bind].
  assert (<[p := l' ++ [mk_Switch p all t]]> (with_request p all t cs) =
          with_request p all t (match l' with [] => delete p cs | _ => <[p := l']> cs end)) as <-.
  { unfold with_request, pending_switches. rewrite insert_insert_eq.
    destruct l'; [rewrite lookup_delete_eq, insert_delete_eq|rewrite lookup_insert_eq, insert_insert_eq]; done. }
  unfold with_request. rewrite !insert_insert_eq. destruct d as [s|]; [|done]. by destruct (l' ++ _) eqn:He; [destruct l'|].
Qed.

(** The mark of one of its machines. *)
Lemma mark_switch_mine p all t i cs :
  cs !! p ≠ Some [] -> not_awaited p all cs -> i ∈ elements_of all -> i ∈ elements_of t ->
  mark_switch i p (with_request p all t cs) =
  Ok (if is_size (is_remove t i) =? 0 then (Some (mk_Switch p all t), cs) else (None, with_request p all (is_remove t i) cs)).
Proof.
  intros Hne Hna Hall Hi. unfold mark_switch, with_request. rewrite lookup_insert_eq. cbn [of_option mbind result_bind].
  pose proof (mark_in_list_app i (pending_switches p cs) [mk_Switch p all t]) as Happ.
  rewrite mark_in_list_none in Happ by (intros s Hs; by apply (Hna s i)). rewrite Happ. cbn [mark_in_list sw_switching_machines].
  rewrite (proj2 (is_contains_spec _ _) Hi). destruct (is_size (is_remove t i) =? 0); cbn [of_option mbind result_bind].
  - rewrite app_nil_r. unfold pending_switches. destruct (cs !! p) as [[|s l]|] eqn:Hl; [done| |]; cbn.
    + by rewrite insert_insert_eq, insert_id.
    + by rewrite delete_insert_eq, delete_id.
  - by rewrite insert_insert_eq.
Qed.

(** The answers to the marks of some machines. *)
Definition answers_for (machines : list Z) (mine : bool) (ids : list Z) (outs : list (option IS)) : list (option IS) :=
  snd <$> filter (fun x => bool_decide (x.1 ∈ machines) = mine) (zip ids outs).

Lemma answers_for_cons machines mine i ids out outs :
  answers_for machines mine (i :: ids) (out :: outs) =
  if decide (bool_decide (i ∈ machines) = mine) then out :: answers_for machines mine ids outs else answers_for machines mine ids outs.
Proof. unfold answers_for. cbn [zip zip_with]. rewrite filter_cons. cbn [fst]. by destruct (decide _). Qed.

Lemma mark_switches_interleaved p all ids : forall t cs outs_o cs_o,
  cs !! p ≠ Some [] -> not_awaited p all cs -> elements_of t ⊆ elements_of all ->
  filter (fun i => i ∈ elements_of all) ids ≡ₚ elements_of t ->
  mark_switches p (filter (fun i => i ∉ elements_of all) ids) cs = Ok (outs_o, cs_o) ->
  exists outs, mark_switches p ids (if decide (elements_of t = []) then cs else with_request p all t cs) = Ok (outs, cs_o) /\
    answers_for (elements_of all) true ids outs =
      (if decide (elements_of t = []) then [] else replicate (length (elements_of t) - 1) None ++ [Some all]) /\
    answers_for (elements_of all) false ids outs = outs_o.
Proof.
  induction ids as [|i ids IH]; intros t cs outs_o cs_o Hne Hna Hsub Hmine Hothers.
  - apply Permutation_nil_l in Hmine. injection Hothers as <- <-. exists []. by rewrite !decide_True by done.
  - rewrite !filter_cons in Hmine, Hothers. destruct (decide (i ∈ elements_of all)) as [Hi|Hi].
    + rewrite decide_False in Hothers by (intros ?; done).
      assert (i ∈ elements_of t) as Hit by (rewrite <- Hmine; left).
      assert (elements_of (is_remove t i) ⊆ elements_of all) as Hsub' by (intros y [_ Hy]%is_remove_spec; by apply Hsub).
      assert (elements_of t ≡ₚ i :: elements_of (is_remove t i)) as Hperm.
      { apply NoDup_Permutation; [apply elements_NoDup|constructor; [|apply elements_NoDup]|].
        - intros Hin. by apply is_remove_spec, proj1 in Hin.
        - intros y. rewrite elem_of_cons, is_remove_spec. destruct (decide (y = i)) as [->|]; naive_solver. }
      assert (filter (fun i => i ∈ elements_of all) ids ≡ₚ elements_of (is_remove t i)) as Hmine'.
      { apply (Permutation_cons_inv (a := i)). by rewrite <- Hperm. }
      destruct (IH _ _ _ _ Hne Hna Hsub' Hmine' Hothers) as (outs & Hr & Hm & Ho).
      assert (elements_of t ≠ []) as Htne by (intros He; rewrite He in Hit; by apply not_elem_of_nil in Hit).
      rewrite !(decide_False (P := elements_of t = [])) by done. cbn [mark_switches].
      rewrite mark_switch_mine by done. cbn [mbind result_bind].
      assert ((is_size (is_remove t i) =? 0) = bool_decide (elements_of (is_remove t i) = [])) as ->.
      { apply Bool.eq_iff_eq_true. rewrite Z.eqb_eq, bool_decide_eq_true. apply is_size_zero. }
      rewrite (Permutation_length Hperm). cbn [length]. rewrite Nat.sub_succ, Nat.sub_0_r.
      destruct (decide (elements_of (is_remove t i) = [])) as [Hz|Hz];
        [rewrite bool_decide_true by done|rewrite bool_decide_false by done]; cbn [fst snd]; rewrite Hr;
        cbn [mbind result_bind fst snd sw_all_machines]; eexists; (split; [reflexivity|]);
        rewrite !answers_for_cons, bool_decide_true by done; cbn [decide]; (split; [|exact Ho]); cbn; rewrite Hm.
      * by rewrite Hz.
      * destruct (elements_of (is_remove t i)) as [|y l]; [done|]. cbn. by rewrite Nat.sub_0_r.
    + rewrite decide_True in Hothers by done. cbn [mark_switches] in Hothers.
      apply bind_Ok in Hothers as ([d cs1] & Hd & ([outs1 cs2] & Hrest & [= <- <-])%bind_Ok). cbn [fst snd] in *.
      assert (i ∉ elements_of t) as Hit by (intros ?%Hsub; done).
      destruct (mark_switch_other p all t i d cs cs1 Hne Hna Hit Hd) as (Hd' & Hne1 & Hna1).
      destruct (IH _ _ _ _ Hne1 Hna1 Hsub Hmine Hrest) as (outs & Hr & Hm & Ho).
      exists (match d with Some s => Some (sw_all_machines s) | None => None end :: outs). split; [|split].
      * cbn [mark_switches]. destruct (decide (elements_of t = [])).
        -- rewrite Hd. cbn [mbind result_bind fst snd]. by rewrite Hr.
        -- rewrite Hd'. cbn [mbind result_bind fst snd]. by rewrite Hr.
      * rewrite answers_for_cons, bool_decide_false by done. by rewrite decide_False.
      * rewrite answers_for_cons, bool_decide_false by done. rewrite decide_True by done. by rewrite Ho.
Qed.

(** C25. A request for some machines is acknowledged once, whatever the other requests
    that are pending for the same power state, provided that none of them waits for
    one of these machines, and whatever the order in which machines switch: among the
    marks of its machines, all but the last one say that nothing is completed and the
    last one gives the machines of the request; the marks of the other machines are
    answered, and the other requests are left, as if this request did not exist. *)
Theorem switch_request_acknowledged_once (machines : IS) p ids cs outs_o cs_o :
  cs !! p ≠ Some [] -> not_awaited p machines cs -> elements_of machines ≠ [] ->
  filter (fun i => i ∈ elements_of machines) ids ≡ₚ elements_of machines ->
  mark_switches p (filter (fun i => i ∉ elements_of machines) ids) cs = Ok (outs_o, cs_o) ->
  exists outs, mark_switches p ids (add_switch machines p cs) = Ok (outs, cs_o) /\
    answers_for (elements_of machines) true ids outs = replicate (length (elements_of machines) - 1) None ++ [Some machines] /\
    answers_for (elements_of machines) false ids outs = outs_o.
Proof.
  intros Hne Hna Hnil Hmine Hothers.
  destruct (mark_switches_interleaved p machines ids machines cs outs_o cs_o Hne Hna ltac:(done) Hmine Hothers) as (outs & Hr & Hm & Ho).
  destruct (decide (elements_of machines = [])) as [He|_]; [done|]. exists outs. split; [|done]. rewrite <- Hr. f_equal.
  unfold add_switch, with_request, pending_switches. by destruct (cs !! p).
Qed.
End CurrentSwitchesFacts.

Module PStateExamples.
Import Concrete.
(** Another request for the same power state is pending, and their machines switch in
    turn. *)
Example switch_request_acknowledged_once_witness :
  mark_switches 1 [3; 8; 1; 7; 2] (add_switch [1; 2; 3] 1 (add_switch [7; 8] 1 ∅)) =
  Ok ([None; None; None; Some [7; 8]; Some [1; 2; 3]], ∅).
Proof.
  destruct (switch_request_acknowledged_once [1; 2; 3] 1 [3; 8; 1; 7; 2] (add_switch [7; 8] 1 ∅) [None; Some [7; 8]] ∅)
    as (outs & Hr & _ & _).
  - discriminate.
  - intros s i ->%list_elem_of_singleton Hi. repeat (apply elem_of_cons in Hi as [->|Hi]; [reflexivity|]). by apply not_elem_of_nil in Hi.
  - discriminate.
  - apply (Permutation_cons_append [1; 2] 3).
  - vm_compute. reflexivity.
  - rewrite Hr. assert (Ok (outs, ∅) = Ok ([None; None; None; Some [7; 8]; Some [1; 2; 3]], ∅ : CurrentSwitches (list Z))) as He
      by (rewrite <- Hr; vm_compute; reflexivity). exact He.
Defined.

Example mark_switch_spec_witness :
  exists l1 s l2, [mk_Switch 1 [1; 2] [1; 2]] = l1 ++ s :: l2 /\ first_waiting 2 (l1 ++ s :: l2) l1 s l2.
Proof.
  pose proof (mark_switch_spec 2 1 (add_switch [1; 2] 1 ∅)) as Hs.
  destruct Hs as (l1 & s & l2 & Hl & Hf & _). exists l1, s, l2. split; [by injection Hl|done].
Defined.
End PStateExamples.
