(* ===== verification/Writer.v ===== *)
(** * The messages to the scheduler (src/protocol.hpp, src/protocol.cpp: JsonProtocolWriter)

    The writer accumulates events in a JSON array until the server generates a
    message and clears it.  A JSON value built by the code is a [jvalue]; parsed
    descriptions are copied into it as they are ([JCopy]); [JText] is a document
    known by its text.  The text of a message
    is what RapidJSON's [Writer] makes of its value. *)

From S2P Require Import Prelude Interfaces Profiles Jobs Outputs Machines Workload.

Inductive jvalue (V : Type) :=
| JDouble (q : Q)
| JInt (z : Z)
| JBool (b : bool)
| JString (s : string)
| JArray (l : list (jvalue V))
| JObject (members : list (string * jvalue V))
| JCopy (v : V)
| JText (text : string).
Arguments JDouble {V}. Arguments JInt {V}. Arguments JBool {V}. Arguments JString {V}.
Arguments JArray {V}. Arguments JObject {V}. Arguments JCopy {V}. Arguments JText {V}.

Record JsonProtocolWriter (V : Type) := mk_Writer {
  pw_is_empty : bool;
  pw_last_date : Q;
  pw_doc : list (string * jvalue V);
  pw_events : option (list (jvalue V));     (* None: moved into the document *)
}.
Arguments mk_Writer {V}. Arguments pw_is_empty {V}. Arguments pw_last_date {V}.
Arguments pw_doc {V}. Arguments pw_events {V}.
#[export] Instance eta_Writer {V} : Eta (JsonProtocolWriter V) := fun r =>
  mk_Writer (pw_is_empty r) (pw_last_date r) (pw_doc r) (pw_events r).

Definition new_Writer {V} : JsonProtocolWriter V := mk_Writer true (-1)%Q [] (Some []).

Section Writer.
Context {V : Type} `{RapidJson V}.
Implicit Types (w : JsonProtocolWriter V).

Definition is_empty_writer w : bool := pw_is_empty w.

(** The event object that every [append_...] builds. *)
Definition event_object (date : Q) (type : string) (data : jvalue V) : jvalue V :=
  JObject [("timestamp", JDouble date); ("type", JString type); ("data", data)].

(** What every [append_...] does: check the date, mark the writer as not empty
    and push the event. *)
Definition append_event (type : string) (data : jvalue V) (date : Q) w : result (JsonProtocolWriter V) :=
  xbt_assert (pw_last_date w <=?q date)%Q "Date inconsistency";;
  events ← of_option (Undef "PushBack on a value that is not an array") (pw_events w);
  Ok (mk_Writer false date (pw_doc w) (Some (events ++ [event_object date type data]))).

Definition append_requested_call (date : Q) w := append_event "REQUESTED_CALL" (JObject []) date w.
Definition append_simulation_ends (date : Q) w := append_event "SIMULATION_ENDS" (JObject []) date w.

(** A description that must be valid JSON. *)
Definition parsed_copy (text : string) : result (jvalue V) :=
  doc ← of_option (Abort "JSON parse error") (parse_json text);
  Ok (JCopy doc).

Definition append_job_submitted (redis_enabled submission_forward_profiles : bool)
  (job_id job_json_description profile_json_description : string) (date : Q) w : result (JsonProtocolWriter V) :=
  members ← (if redis_enabled then Ok []
             else
               job ← parsed_copy job_json_description;
               if submission_forward_profiles then
                 profile ← parsed_copy profile_json_description;
                 Ok [("job", job); ("profile", profile)]
               else Ok [("job", job)]);
  append_event "JOB_SUBMITTED" (JObject (("job_id", JString job_id) :: members)) date w.

Definition append_job_completed (job_id job_state job_alloc : string) (return_code : Z) (date : Q) w :=
  append_event "JOB_COMPLETED"
    (JObject [("job_id", JString job_id); ("job_state", JString job_state);
              ("return_code", JInt return_code); ("alloc", JString job_alloc)]) date w.

(** The progress of a task tree. *)
Fixpoint generate_task_tree (ph : profile_heap) (t : BatTask) : result (jvalue V) :=
  p ← deref_profile ph (bt_profile t);
  if negb (bool_decide (bt_ptask t = None)) || negb (bt_delay_task_start t =?q (-1)%Q) then
    Ok (JObject [("profile_name", JString (p_name p)); ("progress", JDouble (bt_current_task_progress_ratio t))])
  else if negb (bt_current_task_index t =? unset_index) then
    current ← (fix nth (l : list BatTask) (i : Z) : result (jvalue V) :=
                 match l with
                 | [] => Err (Undef "sub_tasks out of range")
                 | s :: l => if i =? 0 then generate_task_tree ph s else nth l (i - 1)
                 end) (bt_sub_tasks t) (bt_current_task_index t);
    Ok (JObject [("profile_name", JString (p_name p)); ("current_task_index", JInt (i32 (bt_current_task_index t)));
                 ("current_task", current)])
  else Ok (JObject [("profile_name", JString (p_name p)); ("current_task_index", JInt (-1))]).

(** A null progress pointer adds nothing. *)
Definition job_progress_member (ph : profile_heap) (job_progress : gmap string (option BatTask)) (job_id : string)
  : result (list (string * jvalue V)) :=
  t ← of_option (Throw "out_of_range") (job_progress !! job_id);
  match t with
  | Some t => v ← generate_task_tree ph t; Ok [(job_id, v)]
  | None => Ok []
  end.

Definition append_job_killed (ph : profile_heap) (job_ids : list string)
  (job_progress : gmap string (option BatTask)) (date : Q) w : result (JsonProtocolWriter V) :=
  progress ← mapM_r (job_progress_member ph job_progress) job_ids;
  append_event "JOB_KILLED"
    (JObject [("job_ids", JArray (JString <$> job_ids)); ("job_progress", JObject (concat progress))]) date w.

Definition append_from_job_message (job_id message : string) (date : Q) w :=
  append_event "FROM_JOB_MSG" (JObject [("job_id", JString job_id); ("msg", JText message)]) date w.

Definition append_resource_state_changed {IS} `{IntervalSet IS} (resources : IS) (new_state : string) (date : Q) w :=
  append_event "RESOURCE_STATE_CHANGED"
    (JObject [("resources", JString (to_string_hyphen resources " " "-")); ("state", JString new_state)]) date w.

Definition append_query_estimate_waiting_time (job_id job_json_description : string) (date : Q) w :=
  job ← parsed_copy job_json_description;
  append_event "QUERY"
    (JObject [("requests", JObject [("estimate_waiting_time", JObject [("job_id", JString job_id); ("job", job)])])])
    date w.

Definition append_answer (key : string) (value : Q) (date : Q) w :=
  append_event "ANSWER" (JObject [(key, JDouble value)]) date w.
Definition append_answer_energy (consumed_energy : Q) (date : Q) w := append_answer "consumed_energy" consumed_energy date w.
Definition append_answer_carbon_footprint (footprint : Q) (date : Q) w := append_answer "carbon_footprint" footprint date w.
Definition append_answer_water_footprint (footprint : Q) (date : Q) w := append_answer "water_footprint" footprint date w.

Definition append_notify (notify_type : string) (date : Q) w :=
  append_event "NOTIFY" (JObject [("type", JString notify_type)]) date w.

Definition append_notify_resource_event {IS} `{IntervalSet IS} (notify_type : string) (resources : IS) (date : Q) w :=
  append_event "NOTIFY"
    (JObject [("type", JString notify_type); ("resources", JString (to_string_hyphen resources " " "-"))]) date w.

Definition append_notify_generic_event (json_desc_str : string) (date : Q) w :=
  data ← parsed_copy json_desc_str;
  append_event "NOTIFY" data date w.

(** [machine_to_json_value] *)
Definition properties_object (props : gmap string string) : jvalue V :=
  JObject ((fun kv : string * string => (kv.1, JString kv.2)) <$> map_to_list props).

Definition machine_to_json_value {Host} (m : Machine Host) : jvalue V :=
  JObject [("id", JInt (m_id m)); ("name", JString (m_name m));
           ("state", JString (machine_state_to_string (m_state m)));
           ("properties", properties_object (m_properties m));
           ("zone_properties", properties_object (m_zone_properties m))].

Definition machines_array {Host} (ms : Machines Host) (indices : list nat) : jvalue V :=
  JArray (machine_to_json_value <$> omap (fun i => ms_machines ms !! i) indices).

(** A profile that has been removed from memory is left out. *)
Definition profile_member (ph : profile_heap) (mit : string * option positive) : result (list (string * jvalue V)) :=
  match mit.2 with
  | None => Ok []
  | Some ptr =>
      p ← deref_profile ph ptr;
      doc ← of_option (Undef "CopyFrom a document with a parse error") (parse_json (p_json_description p));
      Ok [(mit.1, JCopy doc)]
  end.

Definition workload_profiles (ph : profile_heap) (mit : string * Workload) : result (string * jvalue V) :=
  profiles ← mapM_r (profile_member ph) (map_to_list (wl_profiles mit.2));
  Ok (mit.1, JObject (concat profiles)).

Definition append_simulation_begins {Host} (ms : Machines Host) (ph : profile_heap) (ws : Workloads)
  (configuration : jvalue V) (allow_compute_sharing allow_storage_sharing : bool) (date : Q) w
  : result (JsonProtocolWriter V) :=
  profiles ← mapM_r (workload_profiles ph) (map_to_list ws);
  append_event "SIMULATION_BEGINS"
    (JObject [("nb_resources", JInt (i32 (nb_machines ms)));
              ("nb_compute_resources", JInt (i32 (nb_compute_machines ms)));
              ("nb_storage_resources", JInt (i32 (nb_storage_machines ms)));
              ("allow_compute_sharing", JBool allow_compute_sharing);
              ("allow_storage_sharing", JBool allow_storage_sharing);
              ("config", configuration);
              ("compute_resources", machines_array ms (ms_compute_nodes ms));
              ("storage_resources", machines_array ms (ms_storage_nodes ms));
              ("workloads", JObject ((fun mit : string * Workload => (mit.1, JString (wl_file mit.2))) <$> map_to_list ws));
              ("profiles", JObject profiles)]) date w.

Definition clear_writer w : JsonProtocolWriter V := mk_Writer true (pw_last_date w) [] (Some []).

(** The message, and the writer whose events have been moved into the document. *)
Definition generate_current_message (date : Q) w : result (jvalue V * JsonProtocolWriter V) :=
  xbt_assert (pw_last_date w <=?q date)%Q "Date inconsistency";;
  match pw_events w with
  | None => Err (Abort "Successive calls to JsonProtocolWriter::generate_current_message")
  | Some events =>
      let doc := pw_doc w ++ [("now", JDouble date); ("events", JArray events)] in
      Ok (JObject doc, w <| pw_doc := doc |> <| pw_events := None |>)
  end.
End Writer.

(** ** Theorems *)

Section WriterFacts.
Context {V : Type}.
Implicit Types (w : JsonProtocolWriter V).

(** Events pushed one after the other: their dates, types and data. *)
Definition append_all (evs : list (Q * string * jvalue V)) w : result (JsonProtocolWriter V) :=
  foldM (fun w ev => append_event ev.1.2 ev.2 ev.1.1 w) w evs.

Definition event_of (ev : Q * string * jvalue V) : jvalue V := event_object ev.1.1 ev.1.2 ev.2.

Lemma append_event_Ok type (data : jvalue V) date w w' :
  append_event type data date w = Ok w' ->
  (pw_last_date w <= date)%Q /\ exists events, pw_events w = Some events /\
    w' = mk_Writer false date (pw_doc w) (Some (events ++ [event_object date type data])).
Proof. unfold append_event. intros Hr. inv_ok. split; [by qify|by eexists]. Qed.

Lemma append_all_Ok evs w w' events :
  append_all evs w = Ok w' -> pw_events w = Some events ->
  pw_events w' = Some (events ++ (event_of <$> evs)) /\ pw_doc w' = pw_doc w /\
  pw_is_empty w' = (if decide (evs = []) then pw_is_empty w else false) /\
  StronglySorted Qle (pw_last_date w :: ((fun ev => ev.1.1) <$> evs)) /\
  Forall (fun ev => ev.1.1 <= pw_last_date w')%Q evs /\ (pw_last_date w <= pw_last_date w')%Q.
Proof.
  unfold append_all. revert w events; induction evs as [|ev evs IH]; intros w events; cbn [foldM].
  - intros [= <-] Hev. rewrite app_nil_r. split_and!; try done; [repeat constructor|lra].
  - intros (w1 & (Hd & ev0 & Hev0 & ->)%append_event_Ok & Hr)%bind_Ok Hev.
    rewrite Hev in Hev0. injection Hev0 as <-.
    destruct (IH _ _ Hr eq_refl) as (He & Hdoc & Hemp & Hs & Hle & Hlast). cbn in *.
    rewrite <- app_assoc in He. split_and!; try done.
    + rewrite Hemp. by case_decide.
    + constructor; [exact Hs|]. constructor; [done|].
      apply StronglySorted_inv in Hs as [_ Hs]. eapply Forall_impl; [exact Hs|]. cbn. intros; lra.
    + constructor; [done|exact Hle].
    + lra.
Qed.

(** A message holds the events appended since the last clearing, all of
    them and in order, with dates that never decrease and none after the date
    of the message; the writer is empty when nothing has been appended; a
    second message cannot be generated before the writer is cleared. *)
Theorem writer_message_spec evs w w' date message w'' :
  append_all evs (clear_writer w) = Ok w' ->
  generate_current_message date w' = Ok (message, w'') ->
  message = JObject [("now", JDouble date); ("events", JArray (event_of <$> evs))] /\
  StronglySorted Qle (pw_last_date w :: ((fun ev => ev.1.1) <$> evs)) /\
  Forall (fun ev => ev.1.1 <= date)%Q evs /\
  (is_empty_writer w' = true <-> evs = []) /\
  (forall d, is_ok (generate_current_message d w'') = false) /\
  is_empty_writer (clear_writer w'') = true.
Proof.
  intros Ha Hg. destruct (append_all_Ok _ _ _ [] Ha eq_refl) as (He & Hdoc & Hemp & Hs & Hle & Hlast).
  unfold generate_current_message in Hg. rewrite He, Hdoc in Hg. cbn in Hg. inv_ok. subst.
  qify. split_and!; try done.
  - eapply Forall_impl; [exact Hle|]. cbn. intros ev Hev. lra.
  - unfold is_empty_writer. rewrite Hemp. cbn. by case_decide.
  - intros d. unfold generate_current_message. cbn. by destruct (Qle_bool _ _).
Qed.
End WriterFacts.

Module WriterExamples.
Import Concrete.

Definition evs : list (Q * string * jvalue json) :=
  [(1%Q, "REQUESTED_CALL", JObject []); (3%Q, "NOTIFY", JObject [("type", JString "no_more_static_job_to_submit")])].
Definition filled : JsonProtocolWriter json :=
  match append_all evs (clear_writer new_Writer) with Ok w => w | Err _ => new_Writer end.

Example writer_message_spec_witness :
  exists message w'', generate_current_message 4 filled = Ok (message, w'') /\
    message = JObject [("now", JDouble 4); ("events", JArray (event_of <$> evs))].
Proof.
  destruct (generate_current_message 4 filled) as [[message w'']|] eqn:E; [|by vm_compute in E].
  exists message, w''. split; [reflexivity|].
  refine (proj1 (writer_message_spec evs new_Writer filled 4 message w'' _ E)). vm_compute. reflexivity.
Defined.
End WriterExamples.
