(* ===== verification/NumberParsing.v ===== *)
(** * Reading numbers from text (the standard functions that src/ calls)

    [strtol] and [strtod] as workflow.cpp calls them, without an end pointer, and
    [std::stoi] as protocol.cpp does.  Numbers are read in decimal notation;
    hexadecimal numbers, infinities and NaN are out of the model, as are the
    roundings of [double]. *)

From S2P Require Import Prelude NumericStrcmp.

(** [isspace] in the C locale. *)
Definition isspace (c : ascii) : bool :=
  let n := char_code c in (n =? 32) || ((9 <=? n) && (n <=? 13)).

Fixpoint skip_spaces (p : list ascii) : list ascii :=
  match p with
  | c :: p' => if isspace c then skip_spaces p' else p
  | [] => []
  end.

(** The optional sign: whether the number is negative, and what follows. *)
Definition read_sign (p : list ascii) : bool * list ascii :=
  match p with
  | "-"%char :: p => (true, p)
  | "+"%char :: p => (false, p)
  | _ => (false, p)
  end.

Definition signed (negative : bool) (v : Z) : Z := if negative then - v else v.

(** Whether a conversion can be performed, and the exact value. *)
Definition read_integer (s : string) : option Z :=
  let '(negative, p) := read_sign (skip_spaces (list_ascii_of_string s)) in
  match p with
  | c :: _ => if isdigit c then Some (signed negative (read_digits 0 p).1) else None
  | [] => None
  end.

(** [strtol(s, NULL, 10)]: saturated, and 0 when there is no number. *)
Definition strtol_value (s : string) : Z := Z.max LONG_MIN (Z.min (default 0 (read_integer s)) LONG_MAX).

(** [std::stoi(s)]: an exception when there is no number or it is out of [int]. *)
Definition stoi (s : string) : result Z :=
  match read_integer s with
  | None => Err (Throw "invalid_argument")
  | Some v => if (INT_MIN <=? v) && (v <=? INT_MAX) then Ok v else Err (Throw "out_of_range")
  end.

(** The digits of a fractional part, with how many there are. *)
Fixpoint read_fraction (acc : Z) (scale : Z) (p : list ascii) : Z * Z * list ascii :=
  match p with
  | c :: p' => if isdigit c then read_fraction (10 * acc + (char_code c - 48)) (scale + 1) p' else (acc, scale, p)
  | [] => (acc, scale, [])
  end.

Definition power_of_10 (e : Z) : Q := (inject_Z 10 ^ e)%Q.

(** The exponent part, 0 when there is none. *)
Definition read_exponent (p : list ascii) : Z :=
  match p with
  | c :: p =>
      if Ascii.eqb c "e" || Ascii.eqb c "E" then
        let '(negative, p) := read_sign p in signed negative (read_digits 0 p).1
      else 0
  | [] => 0
  end.

(** [strtod(s, NULL)], 0 when there is no number. *)
Definition strtod_value (s : string) : Q :=
  let '(negative, p) := read_sign (skip_spaces (list_ascii_of_string s)) in
  let '(int_part, p) := read_digits 0 p in
  let '(mantissa, scale, p) :=
    match p with
    | "."%char :: p => read_fraction int_part 0 p
    | _ => (int_part, 0, p)
    end in
  (inject_Z (signed negative mantissa) * power_of_10 (read_exponent p - scale))%Q.

(** [std::stod(s)]: an exception when there is no number. *)
Definition has_mantissa (s : string) : bool :=
  match (read_sign (skip_spaces (list_ascii_of_string s))).2 with
  | "."%char :: c :: _ => isdigit c
  | c :: _ => isdigit c
  | [] => false
  end.
Definition stod (s : string) : result Q :=
  if has_mantissa s then Ok (strtod_value s) else Err (Throw "invalid_argument").

Example strtod_values :
  map (fun s => Qred (strtod_value s)) ["12.5"; " -3e2"; "abc"; ".25"; "1e-3x"] = [25 # 2; -300; 0; 1 # 4; 1 # 1000]%Q.
Proof. vm_compute. reflexivity. Qed.

(** ** Printing then reading *)

Lemma isdigit_not_space c : isdigit c = true -> isspace c = false.
Proof.
  unfold isdigit, isspace. intros [H1%Z.leb_le H2%Z.leb_le]%andb_true_iff.
  destruct (Z.eqb_spec (char_code c) 32), (Z.leb_spec 9 (char_code c)), (Z.leb_spec (char_code c) 13); cbn; lia.
Qed.

Lemma digit_char x : (x < 10)%N -> isdigit (pretty_N_char x) = true /\ char_code (pretty_N_char x) - 48 = Z.of_N x.
Proof.
  intros Hx. assert (x ∈ [0; 1; 2; 3; 4; 5; 6; 7; 8; 9]%N) as Hin.
  { assert (x = 0 \/ x = 1 \/ x = 2 \/ x = 3 \/ x = 4 \/ x = 5 \/ x = 6 \/ x = 7 \/ x = 8 \/ x = 9)%N by lia. set_solver. }
  repeat (apply elem_of_cons in Hin as [->|Hin]; [split; reflexivity|]). by apply elem_of_nil in Hin.
Qed.

(** The digits that are printed are read back. *)
Lemma read_digits_pretty x : exists k, 0 <= k /\ forall s acc,
  read_digits acc (list_ascii_of_string (pretty_N_go x s)) = read_digits (acc * 10 ^ k + Z.of_N x) (list_ascii_of_string s).
Proof.
  induction (N.lt_wf_0 x) as [x _ IH]. destruct (decide (x = 0)%N) as [->|Hx].
  { exists 0. split; [lia|]. intros s acc. rewrite pretty_N_go_0. f_equal. lia. }
  destruct (IH (x `div` 10)%N) as (k & Hk & Hr); [apply N.div_lt; lia|]. exists (k + 1). split; [lia|]. intros s acc.
  rewrite pretty_N_go_step by lia. rewrite Hr. cbn [list_ascii_of_string read_digits].
  destruct (digit_char (x `mod` 10)%N) as [-> ->]; [apply N.mod_lt; lia|]. f_equal.
  rewrite Z.pow_add_r, N2Z.inj_div, N2Z.inj_mod by lia. pose proof (Z.div_mod (Z.of_N x) 10). lia.
Qed.

Lemma pretty_go_head x s :
  (0 < x)%N -> exists c s', pretty_N_go x s = String c s' /\ isdigit c = true.
Proof.
  revert s; induction (N.lt_wf_0 x) as [x _ IH]; intros s Hx. rewrite pretty_N_go_step by done.
  destruct (decide (x `div` 10 = 0)%N) as [->|Hne].
  - rewrite pretty_N_go_0. do 2 eexists. split; [done|]. apply digit_char, N.mod_lt. lia.
  - apply IH; [apply N.div_lt; lia|by apply N.neq_0_lt_0].
Qed.

Lemma read_pretty (x : N) : exists c p, list_ascii_of_string (pretty x) = c :: p /\ isdigit c = true /\
  read_digits 0 (c :: p) = (Z.of_N x, []).
Proof.
  unfold pretty, pretty_N. destruct (decide (x = 0)%N) as [->|Hx]; [by do 2 eexists|].
  destruct (pretty_go_head x "") as (c & s & Hs & Hc); [lia|].
  exists c, (list_ascii_of_string s). rewrite Hs. split; [done|]. split; [done|].
  change (c :: list_ascii_of_string s) with (list_ascii_of_string (String c s)). rewrite <- Hs.
  destruct (read_digits_pretty x) as (k & _ & Hr). by rewrite Hr.
Qed.

Lemma read_sign_digit c p : isdigit c = true -> read_sign (c :: p) = (false, c :: p).
Proof. destruct c as [[][][][][][][][]]; try done; vm_compute; done. Qed.

Lemma read_integer_pretty (z : Z) : read_integer (pretty z) = Some z.
Proof.
  unfold read_integer. destruct z as [|q|q]; [done| |].
  - destruct (read_pretty (N.pos q)) as (c & p & Hs & Hc & Hr). change (pretty (Z.pos q)) with (pretty (N.pos q)).
    rewrite Hs. cbn [skip_spaces]. by rewrite (isdigit_not_space _ Hc), (read_sign_digit _ _ Hc), Hc, Hr.
  - destruct (read_pretty (N.pos q)) as (c & p & Hs & Hc & Hr).
    change (pretty (Z.neg q)) with (String "-" (pretty (N.pos q))). cbn [list_ascii_of_string]. rewrite Hs.
    change (skip_spaces ("-"%char :: c :: p)) with ("-"%char :: c :: p). cbn [read_sign]. by rewrite Hc, Hr.
Qed.

(** Reading back with [std::stoi] the text of an integer gives the integer when
    it fits an [int], and is refused otherwise. *)
Theorem stoi_pretty (z : Z) :
  stoi (pretty z) = if (INT_MIN <=? z) && (z <=? INT_MAX) then Ok z else Err (Throw "out_of_range").
Proof. unfold stoi. by rewrite read_integer_pretty. Qed.
