(* ===== verification/Workflow.v ===== *)
(** * Workflows (src/workflow.hpp, src/workflow.cpp)

    A workflow is a graph of tasks read from an XML description (DAX).  Tasks
    point to each other: a [Task *] is an address in a heap of tasks. *)

From S2P Require Import Prelude Interfaces NumericStrcmp NumberParsing.

Record Task := mk_Task {
  num_procs : Z;
  execution_time : Q;
  t_id : string;
  batsim_job : option positive;
  parents : list positive;
  children : list positive;
  nb_parent_completed : Z;
  depth : Z;
}.
#[export] Instance eta_Task : Eta Task := fun r =>
  mk_Task (num_procs r) (execution_time r) (t_id r) (batsim_job r) (parents r) (children r)
    (nb_parent_completed r) (depth r).

Definition new_Task (num_procs : Z) (execution_time : Q) (id : string) : Task :=
  mk_Task num_procs execution_time id None [] [] 0 0.

Abbreviation task_heap := (gmap positive Task).

Definition deref_task (h : task_heap) (t : positive) : result Task :=
  of_option (Undef "dangling task pointer") (h !! t).

Record Workflow := mk_Workflow {
  wf_filename : string;
  wf_name : string;
  wf_tasks : gmap string positive;
  wf_start_time : Q;
}.
#[export] Instance eta_Workflow : Eta Workflow := fun r =>
  mk_Workflow (wf_filename r) (wf_name r) (wf_tasks r) (wf_start_time r).

Definition new_Workflow (name : string) : Workflow := mk_Workflow "" name ∅ (-1)%Q.

(** ** The elements of a map, in the order of its keys *)

Definition key_le {A} (a b : string * A) : Prop := String.leb a.1 b.1 = true.
#[export] Instance key_le_dec {A} : RelDecision (@key_le A) := fun a b => decide (String.leb a.1 b.1 = true).
Definition in_key_order {A} (m : gmap string A) : list (string * A) := merge_sort key_le (map_to_list m).

(** ** Operations *)

(** A task with the same identifier replaces the previous one. *)
Definition add_task (w : Workflow) (h : task_heap) (task : positive) : result Workflow :=
  t ← deref_task h task; Ok (w <| wf_tasks ::= <[t_id t := task]> |>).

Definition get_task (w : Workflow) (id : string) : result positive :=
  of_option (Abort "Invalid Workflow::get_task call: id does not exist") (wf_tasks w !! id).

(** The second test looks for the parent among its own children, not for the child. *)
Definition add_edge (h : task_heap) (parent child : positive) : result task_heap :=
  c ← deref_task h child;
  let h := if bool_decide (parent ∈ parents c) then h
           else <[child := c <| parents ::= fun l => l ++ [parent] |>]> h in
  p ← deref_task h parent;
  Ok (if bool_decide (parent ∈ children p) then h
      else <[parent := p <| children ::= fun l => l ++ [child] |>]> h).

Definition tasks_where (test : Task -> bool) (w : Workflow) (h : task_heap) : result (list positive) :=
  foldM (fun task_list (it : string * positive) =>
           t ← deref_task h it.2; Ok (if test t then task_list ++ [it.2] else task_list)) [] (in_key_order (wf_tasks w)).

Definition get_source_tasks : Workflow -> task_heap -> result (list positive) :=
  tasks_where (fun t => bool_decide (parents t = [])).
Definition get_sink_tasks : Workflow -> task_heap -> result (list positive) :=
  tasks_where (fun t => bool_decide (children t = [])).

Definition get_maximum_depth (w : Workflow) (h : task_heap) : result Z :=
  sinks ← get_sink_tasks w h;
  foldM (fun max_depth it =>
           t ← deref_task h it;
           Ok (if (max_depth =? -1) || (max_depth <? depth t) then depth t else max_depth)) (-1) sinks.

Definition set_batsim_job (job : option positive) (t : Task) : Task := t <| batsim_job := job |>.

(** ** Loading *)

(** pugixml: a node is abstract; [xml_children n name] are [n.child(name)] and its
    [next_sibling(name)]; a null node has no children. *)
Class PugiXml (N : Type) := {
  xml_load_file : string -> option N;               (* None: the file is not valid *)
  xml_children : N -> string -> list N;
  xml_attribute : N -> string -> option string;
}.

Section Load.
Context {N : Type} `{PugiXml N}.

(** [node.attribute(name).value()]: the empty string without the attribute. *)
Definition attribute_value (n : N) (name : string) : string := default "" (xml_attribute n name).

Definition parse_num_procs (job : N) : Z :=
  let num_procs := match xml_attribute job "num_procs" with
                   | Some v => i32 (strtol_value v)
                   | None => 1
                   end in
  if num_procs <=? 0 then 1 else num_procs.

(** The heap of tasks with its next free address. *)
Record task_store := mk_task_store {
  ts_heap : task_heap;
  ts_next : positive;
}.

Definition load_task (acc : Workflow * task_store) (job : N) : result (Workflow * task_store) :=
  let '(w, st) := acc in
  let task := ts_next st in
  let h := <[task := new_Task (parse_num_procs job) (strtod_value (attribute_value job "runtime"))
                       (attribute_value job "id")]> (ts_heap st) in
  w ← add_task w h task;
  Ok (w, mk_task_store h (Pos.succ task)).

Definition load_edge (w : Workflow) (dest : positive) (h : task_heap) (edge_top : N) : result task_heap :=
  source ← get_task w (attribute_value edge_top "ref");
  add_edge h source dest.

Definition load_edges_of (w : Workflow) (h : task_heap) (edge_bottom : N) : result task_heap :=
  dest ← get_task w (attribute_value edge_bottom "ref");
  foldM (load_edge w dest) h (xml_children edge_bottom "parent").

Definition load_from_xml (xml_filename : string) (w : Workflow) (st : task_store) : result (Workflow * task_store) :=
  dax_tree ← of_option (Abort "Invalid XML file") (xml_load_file xml_filename);
  let dag := head (xml_children dax_tree "adag") in
  let nodes name := match dag with Some dag => xml_children dag name | None => [] end in
  '(w, st) ← foldM load_task (w, st) (nodes "job");
  h ← foldM (load_edges_of w) (ts_heap st) (nodes "child");
  Ok (w <| wf_filename := xml_filename |>, mk_task_store h (ts_next st)).
End Load.

(** ** The container *)

Abbreviation Workflows := (gmap string Workflow).

Definition Workflows_exists (ws : Workflows) (workflow_name : string) : bool := bool_decide (is_Some (ws !! workflow_name)).

Definition Workflows_at (ws : Workflows) (workflow_name : string) : result Workflow :=
  of_option (Abort "workflow does not exist") (ws !! workflow_name).

Definition insert_workflow (workflow_name : string) (w : Workflow) (ws : Workflows) : result Workflows :=
  xbt_assert (negb (Workflows_exists ws workflow_name)) "workflow already exists";;
  xbt_assert (negb (Workflows_exists ws (wf_name w))) "workflow already exists";;
  Ok (<[workflow_name := w <| wf_name := workflow_name |>]> ws).

(** [bool Workflows::size() const]: the size, as a boolean. *)
Definition Workflows_size (ws : Workflows) : Z := if bool_decide (size ws = 0%nat) then 0 else 1.
