(* ===== verification/WorkflowFacts.v ===== *)
(** * The graph of a workflow (theorems on src/workflow.cpp)

    The edges that a workflow file declares are those of the graph: each parent is
    listed once, and a child as many times as its edge is declared. *)

From S2P Require Import Prelude Interfaces NumericStrcmp NumberParsing Workflow.

Lemma deref_task_Ok h t x : deref_task h t = Ok x <-> h !! t = Some x.
Proof. apply of_option_Ok. Qed.

(** ** Edges *)

Definition add_edges (h : task_heap) (edges : list (positive * positive)) : result task_heap :=
  foldM (fun h e => add_edge h e.1 e.2) h edges.

Definition add_parent (l : list positive) (s : positive) : list positive := if decide (s ∈ l) then l else l ++ [s].
Definition add_child (parent : positive) (l : list positive) (c : positive) : list positive :=
  if decide (parent ∈ l) then l else l ++ [c].
Definition sources (edges : list (positive * positive)) (t : positive) : list positive :=
  (filter (fun e => e.2 = t) edges).*1.
Definition targets (edges : list (positive * positive)) (t : positive) : list positive :=
  (filter (fun e => e.1 = t) edges).*2.

(** A task with the edges in addition. *)
Definition with_edges (edges : list (positive * positive)) (ptr : positive) (t : Task) : Task :=
  t <| parents := foldl add_parent (parents t) (sources edges ptr) |>
    <| children := foldl (add_child ptr) (children t) (targets edges ptr) |>.

(** The beginning of a list, until a first [x] included. *)
Fixpoint until (x : positive) (l : list positive) : list positive :=
  match l with
  | [] => []
  | y :: l => y :: (if decide (y = x) then [] else until x l)
  end.

Lemma until_absent x l : x ∉ l -> until x l = l.
Proof.
  induction l as [|y l IH]; intros Hx; [done|]. cbn. rewrite not_elem_of_cons in Hx.
  rewrite decide_False by (intros ->; by destruct Hx). by rewrite IH by apply Hx.
Qed.

(** Once a task is one of its own children, it gets no other. *)
Lemma add_children ptr l : forall l0, foldl (add_child ptr) l0 l = l0 ++ (if decide (ptr ∈ l0) then [] else until ptr l).
Proof.
  induction l as [|c l IH]; intros l0; cbn; [case_decide; by rewrite app_nil_r|].
  rewrite IH. unfold add_child. destruct (decide (ptr ∈ l0)) as [Hin|Hin]; [by rewrite decide_True|].
  rewrite <- app_assoc. cbn. f_equal. f_equal. destruct (decide (c = ptr)) as [->|Hne].
  - rewrite decide_True; [done|]. apply elem_of_app. right. by left.
  - rewrite decide_False; [done|]. rewrite elem_of_app, list_elem_of_singleton. intros [?|?]; [done|congruence].
Qed.

Lemma sources_one s d t : sources [(s, d)] t = if decide (d = t) then [s] else [].
Proof. unfold sources. rewrite filter_cons, filter_nil. by destruct (decide (d = t)); case_decide. Qed.
Lemma targets_one s d t : targets [(s, d)] t = if decide (s = t) then [d] else [].
Proof. unfold targets. rewrite filter_cons, filter_nil. by destruct (decide (s = t)); case_decide. Qed.

Lemma add_edge_Ok h parent child :
  is_Some (h !! parent) -> is_Some (h !! child) ->
  add_edge h parent child = Ok (map_imap (fun ptr t => Some (with_edges [(parent, child)] ptr t)) h).
Proof.
  intros Hp [c Hc]. unfold add_edge, deref_task. rewrite Hc. cbn [of_option mbind result_bind].
  set (h1 := if bool_decide (parent ∈ parents c) then h else _).
  assert (h1 = <[child := c <| parents := add_parent (parents c) parent |>]> h) as ->.
  { unfold h1, add_parent. destruct (decide (parent ∈ parents c)); [rewrite bool_decide_true by done|by rewrite bool_decide_false by done].
    symmetry. apply insert_id. rewrite Hc. by destruct c. }
  set (h2 := <[child := _]> h). assert (exists p, h2 !! parent = Some p) as [p Hp2].
  { unfold h2. rewrite lookup_insert. case_decide; [by eexists|exact Hp]. }
  rewrite Hp2. cbn [of_option mbind result_bind]. f_equal.
  transitivity (<[parent := p <| children := add_child parent (children p) child |>]> h2).
  { unfold add_child. destruct (decide (parent ∈ children p)); [rewrite bool_decide_true by done|by rewrite bool_decide_false by done].
    symmetry. apply insert_id. rewrite Hp2. by destruct p. }
  apply map_eq. intros ptr. rewrite map_lookup_imap. unfold with_edges. rewrite sources_one, targets_one.
  destruct (decide (parent = ptr)) as [<-|Hp'].
  - rewrite lookup_insert_eq. unfold h2 in Hp2. revert Hp2. rewrite lookup_insert. destruct (decide (child = parent)) as [->|Hc'].
    + intros [= <-]. rewrite Hc. done.
    + intros ->. cbn. by destruct p.
  - rewrite lookup_insert_ne by done. unfold h2. destruct (decide (child = ptr)) as [<-|Hc'].
    + rewrite lookup_insert_eq, Hc. done.
    + rewrite lookup_insert_ne by done. destruct (h !! ptr) as [t|]; [|done]. cbn. by destruct t.
Qed.

Lemma with_edges_cons e edges ptr t : with_edges edges ptr (with_edges [e] ptr t) = with_edges (e :: edges) ptr t.
Proof.
  unfold with_edges, sources, targets. rewrite !(filter_cons _ e), !filter_nil.
  destruct t. cbn. f_equal; repeat case_decide; done.
Qed.

Lemma map_imap_with_edges e edges h :
  map_imap (fun ptr t => Some (with_edges edges ptr t)) (map_imap (fun ptr t => Some (with_edges [e] ptr t)) h) =
  map_imap (fun ptr t => Some (with_edges (e :: edges) ptr t)) h.
Proof.
  apply map_eq. intros ptr. rewrite !map_lookup_imap. destruct (h !! ptr) as [t|]; [|done].
  cbn. by rewrite with_edges_cons.
Qed.

(** Adding edges to a graph: each task gains as parents the sources of its edges,
    each listed once, and as children the targets of its edges, each listed as many
    times as its edge is given, but nothing more once it is one of its own children. *)
Theorem add_edges_spec h edges :
  (forall e, e ∈ edges -> is_Some (h !! e.1) /\ is_Some (h !! e.2)) ->
  add_edges h edges = Ok (map_imap (fun ptr t => Some (with_edges edges ptr t)) h).
Proof.
  unfold add_edges. revert h; induction edges as [|[s d] edges IH]; intros h Hin; cbn [foldM].
  - f_equal. apply map_eq. intros ptr. rewrite map_lookup_imap. destruct (h !! ptr) as [t|]; [|done]. cbn. by destruct t.
  - destruct (Hin (s, d)) as [Hs Hd]; [by left|]. cbn in Hs, Hd.
    rewrite add_edge_Ok by done. cbn [mbind result_bind fst snd]. rewrite IH; [by rewrite map_imap_with_edges|].
    intros e He. destruct (Hin e) as [[x Hx] [y Hy]]; [by right|].
    rewrite !map_lookup_imap, Hx, Hy. split; by eexists.
Qed.

(** ** Loading *)

Section Load.
Context {N : Type} `{PugiXml N}.

(** The edges that the nodes declare, in order. *)
Definition edges_of (w : Workflow) (edge_bottom : N) : result (list (positive * positive)) :=
  dest ← get_task w (attribute_value edge_bottom "ref");
  mapM_r (fun edge_top => source ← get_task w (attribute_value edge_top "ref"); Ok (source, dest))
    (xml_children edge_bottom "parent").
Definition declared_edges (w : Workflow) (nodes : list N) : result (list (positive * positive)) :=
  l ← mapM_r (edges_of w) nodes; Ok (concat l).

Lemma foldM_mapM {A B S} (f : A -> result B) (g : S -> B -> result S) (fg : S -> A -> result S) l s s' :
  (forall s a s', fg s a = Ok s' -> exists b, f a = Ok b /\ g s b = Ok s') ->
  foldM fg s l = Ok s' -> exists bs, mapM_r f l = Ok bs /\ foldM g s bs = Ok s'.
Proof.
  intros Hfg. revert s; induction l as [|a l IH]; intros s; cbn.
  - intros [= <-]. by exists [].
  - intros (s1 & (b & -> & Hg)%Hfg & (bs & -> & Hbs)%IH)%bind_Ok. exists (b :: bs). cbn. by rewrite Hg.
Qed.

Lemma foldM_concat {A S} (g : S -> A -> result S) ls s : foldM (foldM g) s ls = foldM g s (concat ls).
Proof.
  revert s; induction ls as [|l ls IH]; intros s; cbn; [done|]. rewrite foldM_app.
  destruct (foldM g s l) as [s'|]; cbn; [apply IH|done].
Qed.

Lemma load_edges_add w h nodes h' :
  foldM (load_edges_of w) h nodes = Ok h' -> exists edges, declared_edges w nodes = Ok edges /\ add_edges h edges = Ok h'.
Proof.
  intros (ls & Hls & Hf)%(foldM_mapM (edges_of w) (fun h edges => add_edges h edges)).
  - exists (concat ls). unfold declared_edges. rewrite Hls. split; [done|]. unfold add_edges. by rewrite <- foldM_concat.
  - intros s a s' (dest & Hd & Hr)%bind_Ok. unfold edges_of. rewrite Hd. cbn [mbind result_bind].
    eapply foldM_mapM; [|exact Hr]. intros s1 e s2 (source & -> & He)%bind_Ok. by exists (source, dest).
Qed.

Lemma get_task_Ok w id t : get_task w id = Ok t <-> wf_tasks w !! id = Some t.
Proof. apply of_option_Ok. Qed.

Lemma declared_edges_tasks w nodes edges :
  declared_edges w nodes = Ok edges ->
  forall e, e ∈ edges -> exists id1 id2, wf_tasks w !! id1 = Some e.1 /\ wf_tasks w !! id2 = Some e.2.
Proof.
  unfold declared_edges. intros (ls & Hls & [= <-])%bind_Ok e (l & Hl & He)%list_elem_of_In%in_concat.
  apply list_elem_of_In in Hl, He.
  assert (Forall (fun l => forall e : positive * positive, e ∈ l -> exists id1 id2, wf_tasks w !! id1 = Some e.1 /\ wf_tasks w !! id2 = Some e.2) ls) as Hall.
  { eapply mapM_r_Forall; [|exact Hls]. intros a l' (dest & Hd%get_task_Ok & Hm)%bind_Ok.
    assert (Forall (fun e => exists id1 id2, wf_tasks w !! id1 = Some e.1 /\ wf_tasks w !! id2 = Some e.2) l') as Hf.
    { eapply mapM_r_Forall; [|exact Hm]. intros n e' (source & Hs%get_task_Ok & [= <-])%bind_Ok. cbn. by do 2 eexists. }
    intros e' He'. rewrite Forall_forall in Hf. by apply Hf. }
  rewrite Forall_forall in Hall. by eapply Hall.
Qed.

(** What the loading of the tasks gives: no edges yet. *)
Definition loaded_tasks (w : Workflow) (st : task_store) : Prop :=
  (forall id ptr, wf_tasks w !! id = Some ptr -> exists t, ts_heap st !! ptr = Some t /\ t_id t = id) /\
  (forall ptr t, ts_heap st !! ptr = Some t -> (ptr < ts_next st)%positive /\ parents t = [] /\ children t = [] /\
     nb_parent_completed t = 0 /\ 1 <= num_procs t).

Lemma load_task_ok w st job w' st' : loaded_tasks w st -> load_task (w, st) job = Ok (w', st') -> loaded_tasks w' st'.
Proof.
  intros [Hw Hst] (w1 & (t & Ht & [= <-])%bind_Ok & [= <- <-])%bind_Ok.
  apply deref_task_Ok in Ht. rewrite lookup_insert_eq in Ht. injection Ht as <-. split; cbn.
  - intros id ptr [[<- <-]|[_ Hid]]%lookup_insert_Some; [rewrite lookup_insert_eq; by eexists|].
    destruct (Hw _ _ Hid) as (t & Ht & Hid'). exists t. split; [|done].
    rewrite lookup_insert_ne; [done|]. intros <-. apply Hst in Ht as [Hlt _]. lia.
  - intros ptr t [[<- <-]|[_ Ht]]%lookup_insert_Some; cbn; [split; [lia|]; repeat split|].
    + unfold parse_num_procs. destruct (Z.leb_spec (match xml_attribute job "num_procs" with Some v => i32 (strtol_value v) | None => 1 end) 0); lia.
    + apply Hst in Ht as [Hlt Ht]. split; [lia|done].
Qed.

(** C26. Loading a workflow file into an empty heap: each task is found under its
    identifier and asks for at least one processor; its parents are those that the
    file declares, each listed once; its children are those that the file declares,
    in order, each as many times as its edge is declared, up to the edge from the task
    to itself if there is one, after which they are lost. *)
Theorem load_from_xml_spec file name w' st' :
  load_from_xml file (new_Workflow name) (mk_task_store ∅ 1) = Ok (w', st') ->
  exists doc edges, xml_load_file file = Some doc /\
    declared_edges w' (match head (xml_children doc "adag") with Some dag => xml_children dag "child" | None => [] end) = Ok edges /\
    forall id ptr, wf_tasks w' !! id = Some ptr -> exists t, ts_heap st' !! ptr = Some t /\
      t_id t = id /\ 1 <= num_procs t /\ nb_parent_completed t = 0 /\
      parents t = foldl add_parent [] (sources edges ptr) /\ children t = until ptr (targets edges ptr) /\
      (ptr ∉ targets edges ptr -> children t = targets edges ptr).
Proof.
  unfold load_from_xml. intros (doc & Hdoc%of_option_Ok & ([w st] & Htasks & (h & Hedges & [= <- <-])%bind_Ok)%bind_Ok)%bind_Ok.
  assert (loaded_tasks w st) as [Hw Hst].
  { revert Htasks. apply (foldM_inv (fun acc => loaded_tasks acc.1 acc.2)).
    - split; cbn; [intros id ptr|intros ptr t]; by rewrite lookup_empty.
    - intros [w1 st1] job [w2 st2] _ Hl Hj. cbn in *. by eapply load_task_ok. }
  apply load_edges_add in Hedges as (edges & Hdecl & Hadd). cbn.
  pose proof (declared_edges_tasks _ _ _ Hdecl) as Hin.
  exists doc, edges. split; [done|]. split; [destruct (head _); exact Hdecl|]. intros id ptr Hid.
  rewrite add_edges_spec in Hadd.
  - injection Hadd as <-. destruct (Hw _ _ Hid) as (t & Ht & Hti). destruct (Hst _ _ Ht) as (_ & Hpar & Hch & Hnb & Hnp).
    exists (with_edges edges ptr t). rewrite map_lookup_imap, Ht. split; [done|]. unfold with_edges. cbn.
    rewrite Hpar, Hch, add_children. rewrite decide_False by apply not_elem_of_nil. split_and!; try done. apply until_absent.
  - intros e He. destruct (Hin _ He) as (id1 & id2 & (t1 & Ht1 & _)%Hw & (t2 & Ht2 & _)%Hw). by split; eexists.
Qed.
End Load.
