(* ===== verification/Context.v ===== *)
(** * The shared context (src/context.hpp)

    The [BatsimContext] that all the processes share, the processes that are
    alive, and the primitives on it: sending a message, creating a process,
    reaching a machine or a job, writing the traces.  Functions that modify the
    context take it as their last argument and return it. *)

From S2P Require Import Prelude Interfaces Profiles Jobs NumericStrcmp Outputs Machines Workload Tracers Ipp PState Writer NumberParsing Workflow.

(** The options of the simulation, fixed before it starts. *)
Record Options := mk_Options {
  redis_enabled : bool;
  submission_forward_profiles : bool;
  registration_sched_enabled : bool;
  registration_sched_ack : bool;
  garbage_collect_profiles : bool;
  terminate_with_last_workflow : bool;
  energy_used : bool;
  environmental_footprint_used : bool;
  smpi_used : bool;
  allow_compute_sharing : bool;
  allow_storage_sharing : bool;
  trace_schedule : bool;
  trace_machine_states : bool;
}.

#[export] Instance eta_Options : Eta Options := fun r =>
  mk_Options (redis_enabled r) (submission_forward_profiles r) (registration_sched_enabled r) (registration_sched_ack r)
    (garbage_collect_profiles r) (terminate_with_last_workflow r) (energy_used r) (environmental_footprint_used r)
    (smpi_used r) (allow_compute_sharing r) (allow_storage_sharing r) (trace_schedule r) (trace_machine_states r).

(** A message sent: when, to which mailbox. *)
Record SentMessage (IS Host : Type) := mk_Sent {
  sm_date : Q;
  sm_mailbox : string;
  sm_message : IPMessage IS Host;
}.
Arguments mk_Sent {IS Host}. Arguments sm_date {IS Host}. Arguments sm_mailbox {IS Host}. Arguments sm_message {IS Host}.

Section Context.
Context {IS Engine Host V : Type}.

(** The processes (SimGrid actors) that the program creates: those of the start,
    then those of the server. *)
Inductive Actor :=
| server_actor
| static_job_submitter_actor (workload_name : string)
| batexec_job_launcher_actor (workload_name : string)
| workflow_submitter_actor (workflow_name : string)
| static_event_submitter_actor (eventList_name : string)
| env_zone_update_actor (delay : Q) (hosts : list Host) (property_to_update new_values_str : string)
| request_reply_scheduler_process (send_buffer : jvalue V)
| switch_on_machine_process (machine_id new_pstate : Z)
| switch_off_machine_process (machine_id new_pstate : Z)
| killer_process (jobs_ids : list JobIdentifier) (killed_job_state : JobState) (acknowledge_kill_on_protocol : bool)
| waiter_process (target_time : Q)
| execute_job_process (allocation : SchedulingAllocation IS Host) (notify_server_at_end : bool)
    (io_profile : option positive)
| smpi_replay_process (host : Host) (job : positive) (trace_filenames : list string) (termination_mbox_name : string) (rank : Z)
| usage_trace_replayer_process (host : Host) (job : positive) (trace_filenames : list string) (termination_mbox_name : string) (rank : Z).

Record BatsimContext := mk_Context {
  c_engine : Engine;
  c_options : Options;
  c_root_zone : NetZone Host;
  c_proto_writer : JsonProtocolWriter V;
  c_machines : Machines Host;
  c_workloads : Workloads;
  c_store : store IS;
  c_workflows : Workflows;
  c_tasks : task_store;                        (* the tasks of the workflows *)
  c_workflow_nb_concurrent_jobs_limit : Z;
  c_task_id_counters : gmap string Z;          (* the global of job_submitter.cpp *)
  c_event_lists : gmap string (list (Event IS));
  c_paje_tracer : PajeTracer;
  c_pstate_tracer : PStateChangeTracer;
  c_energy_tracer : EnergyConsumptionTracer;
  c_footprint_tracer : EnvironmentalFootprintTracer;
  c_machine_state_tracer : MachineStateTracer;
  c_jobs_tracer : JobsTracer;
  c_current_switches : CurrentSwitches IS;
  c_config_json : jvalue V;
  c_registration_sched_finished : bool;
  c_energy_first_job_submission : Q;
  c_energy_last_job_completion : Q;
  c_nb_machine_switches : Z;
  c_nb_grouped_switches : Z;
  c_actors : list (positive * Actor);     (* alive, in order of creation *)
  c_next_actor : positive;
  c_sent : list (SentMessage IS Host);
  c_cancelled_ptasks : list (positive * list Z);  (* cancelled parallel tasks: job, place in its task tree *)
}.
#[export] Instance eta_Context : Eta BatsimContext := fun r =>
  mk_Context (c_engine r) (c_options r) (c_root_zone r) (c_proto_writer r) (c_machines r) (c_workloads r)
    (c_store r) (c_workflows r) (c_tasks r) (c_workflow_nb_concurrent_jobs_limit r) (c_task_id_counters r) (c_event_lists r) (c_paje_tracer r) (c_pstate_tracer r) (c_energy_tracer r)
    (c_footprint_tracer r) (c_machine_state_tracer r) (c_jobs_tracer r) (c_current_switches r)
    (c_config_json r) (c_registration_sched_finished r) (c_energy_first_job_submission r)
    (c_energy_last_job_completion r) (c_nb_machine_switches r) (c_nb_grouped_switches r)
    (c_actors r) (c_next_actor r) (c_sent r) (c_cancelled_ptasks r).

Implicit Types (c : BatsimContext).

(** [simgrid::s4u::Actor::create] *)
Definition create_actor (a : Actor) c : positive * BatsimContext :=
  (c_next_actor c, c <| c_actors ::= fun l => l ++ [(c_next_actor c, a)] |> <| c_next_actor ::= Pos.succ |>).

(** [simgrid::s4u::Actor::kill] and the end of an actor *)
Definition remove_actors (actors : gset positive) c : BatsimContext :=
  c <| c_actors ::= filter (fun a => a.1 ∉ actors) |>.

(** Lifting the update of one component. *)
Definition with_writer (f : JsonProtocolWriter V -> result (JsonProtocolWriter V)) c : result BatsimContext :=
  w ← f (c_proto_writer c); Ok (c <| c_proto_writer := w |>).

Definition with_job (jp : positive) (f : Job IS -> Job IS) c : BatsimContext :=
  c <| c_store ::= fun st => st <| s_jobs ::= alter f jp |> |>.

Definition the_job c (jp : positive) : result (Job IS) := deref_job (s_jobs (c_store c)) jp.
Definition the_profile c (p : positive) : result Profile := deref_profile (s_profiles (c_store c)) p.

Context `{IntervalSet IS} `{SimGrid Engine Host} `{RapidJson V}.
(** [get_englobing_zone()->get_name()] of a host. *)
Context (englobing_zone : Host -> option string).

Definition now c : Q := get_clock (c_engine c).

(** [mailbox->put], without the wait for the receiver (see [SwitchProcesses.send]
    and, for the server, the steps of the file System). *)
Definition send_message (destination_mailbox : string) (type : IPMessageType) (data : MessageData IS Host) c
  : BatsimContext :=
  c <| c_sent ::= fun l => l ++ [mk_Sent (now c) destination_mailbox (mk_IPMessage type data)] |>.

Definition in_mailbox (mbox : string) (m : SentMessage IS Host) : bool := String.eqb (sm_mailbox m) mbox.
Definition nb_sent (mbox : string) c : nat := length (List.filter (in_mailbox mbox) (c_sent c)).

(** [machine->update_machine_state], the machine being the one of this identifier. *)
Definition set_machine_state (machine_id : Z) (new_state : MachineState) c : result BatsimContext :=
  ms ← update_machine_state (now c) (c_machines c) machine_id new_state;
  Ok (c <| c_machines := ms |>).

(** [jobs_tracer.write_job] *)
Definition trace_job (jp : positive) c : result BatsimContext :=
  j ← the_job c jp;
  t ← write_job (s_profiles (c_store c)) (environmental_footprint_used (c_options c)) j (c_jobs_tracer c);
  Ok (c <| c_jobs_tracer := t |>).

Definition energy_entry (event_type : string) c : result (BatsimContext * Q) :=
  let used := energy_used (c_options c) in
  '(t, energy) ← energy_add_entry (total_consumed_energy (c_engine c) used (c_machines c))
                   (total_wattmin (c_engine c) used (c_machines c)) (now c) event_type (c_energy_tracer c);
  Ok (c <| c_energy_tracer := t |>, energy).

Definition energy_add_job_start c : result BatsimContext := '(c, _) ← energy_entry "s" c; Ok c.
Definition energy_add_job_end c : result BatsimContext :=
  '(c, energy) ← energy_entry "e" c; Ok (c <| c_energy_last_job_completion := energy |>).
Definition energy_add_pstate_change c : result BatsimContext := '(c, _) ← energy_entry "p" c; Ok c.

Definition footprint_entry (event_type : string) c : result BatsimContext :=
  t ← footprint_add_entry englobing_zone (c_engine c) (c_root_zone c) (c_machines c) (now c) event_type
        (c_footprint_tracer c);
  Ok (c <| c_footprint_tracer := t |>).

Definition pstate_entry (machines : IS) (pstate_after : Z) c : result BatsimContext :=
  t ← pstate_add_change (now c) machines pstate_after (c_pstate_tracer c);
  Ok (c <| c_pstate_tracer := t |>).

Definition machine_states_entry c : result BatsimContext :=
  t ← write_machine_states (now c) (ms_nb_machines_in_each_state (c_machines c)) (c_machine_state_tracer c);
  Ok (c <| c_machine_state_tracer := t |>).

(** [current_switches.mark_switch_as_done], with the traces of a completed
    request; it gives the machines of the completed request. *)
Definition mark_switch_as_done (machine_id target_pstate : Z) c : result (option IS * BatsimContext) :=
  r ← mark_switch machine_id target_pstate (c_current_switches c);
  let c := c <| c_current_switches := r.2 |> in
  match r.1 with
  | None => Ok (None, c)
  | Some s =>
      c ← (if energy_used (c_options c) then
             c ← pstate_entry (sw_all_machines s) (sw_target_pstate s) c;
             energy_add_pstate_change c
           else Ok c);
      c ← (if environmental_footprint_used (c_options c) then footprint_entry "p" c else Ok c);
      Ok (Some (sw_all_machines s), c)
  end.

(** The update of machines and traces when a job starts or ends. *)
Definition with_machines_view (f : machines_view Host -> result (machines_view Host)) c : result BatsimContext :=
  v ← f (mk_view (c_machines c) (c_paje_tracer c) (c_machine_state_tracer c));
  Ok (c <| c_machines := v_machines v |> <| c_paje_tracer := v_paje v |> <| c_machine_state_tracer := v_states v |>).

(** [machine->pstates[ps]], which may insert the power state. *)
Definition machine_pstate_type (machine_id ps : Z) c : result (PStateType * BatsimContext) :=
  m ← machine_at (c_machines c) machine_id;
  let '(t, m) := pstates_at m (i32 ps) in
  Ok (t, c <| c_machines ::= fun ms => store_machine ms machine_id m |>).
End Context.
Arguments BatsimContext : clear implicits.
Arguments Actor : clear implicits.
