(* ===== verification/ContextFacts.v ===== *)
(** * What the primitives of the context leave alone (src/context.hpp)

    Tracing, writing to the scheduler and changing machines touch neither the jobs
    and profiles nor the clock. *)

From S2P Require Import Prelude Interfaces Profiles Jobs NumericStrcmp Outputs Machines Workload Tracers Ipp PState Writer NumberParsing Workflow Context.

Lemma not_ok {A} (r : result A) a : is_ok r = false -> r = Ok a -> False.
Proof. by intros H ->. Qed.

(** ** What leaves the jobs alone *)

Section StoreFacts.
Context {IS Engine Host V : Type}.
#[local] Abbreviation Ctx := (BatsimContext IS Engine Host V).
Implicit Types (c : Ctx).

Lemma with_writer_store f c c' : with_writer f c = Ok c' -> c_store c' = c_store c.
Proof. unfold with_writer. intros (w & _ & [= <-])%bind_Ok. done. Qed.

Lemma trace_job_store `{IntervalSet IS} jp c c' : trace_job jp c = Ok c' -> c_store c' = c_store c.
Proof. unfold trace_job. intros (j & _ & (t & _ & [= <-])%bind_Ok)%bind_Ok. done. Qed.

Lemma pstate_entry_store `{IntervalSet IS} `{SimGrid Engine Host} ms p c c' :
  pstate_entry ms p c = Ok c' -> c_store c' = c_store c.
Proof. unfold pstate_entry. intros (t & _ & [= <-])%bind_Ok. done. Qed.

Context `{SimGrid Engine Host}.

Lemma set_machine_state_store i s c c' : set_machine_state i s c = Ok c' -> c_store c' = c_store c.
Proof. unfold set_machine_state. intros (ms & _ & [= <-])%bind_Ok. done. Qed.

Lemma energy_entry_store e c c' q : energy_entry e c = Ok (c', q) -> c_store c' = c_store c.
Proof. unfold energy_entry. intros ([t x] & _ & [= <- _])%bind_Ok. done. Qed.

Lemma energy_pstate_store c c' : energy_add_pstate_change c = Ok c' -> c_store c' = c_store c.
Proof. intros ([c1 q] & H1%energy_entry_store & [= <-])%bind_Ok. done. Qed.

Lemma footprint_entry_store zone e c c' : footprint_entry zone e c = Ok c' -> c_store c' = c_store c.
Proof. unfold footprint_entry. intros (t & _ & [= <-])%bind_Ok. done. Qed.

Lemma machine_states_entry_store c c' : machine_states_entry c = Ok c' -> c_store c' = c_store c.
Proof. unfold machine_states_entry. intros (t & _ & [= <-])%bind_Ok. done. Qed.

Lemma machine_pstate_type_store i p c t c' : machine_pstate_type i p c = Ok (t, c') -> c_store c' = c_store c.
Proof.
  unfold machine_pstate_type. intros (m & _ & Hr)%bind_Ok. destruct (pstates_at m (i32 p)). by injection Hr as <- <-.
Qed.

Lemma mark_switch_as_done_store `{IntervalSet IS} zone i p c r c' :
  mark_switch_as_done zone i p c = Ok (r, c') -> c_store c' = c_store c.
Proof.
  unfold mark_switch_as_done. intros ([[s|] cs] & _ & Hr)%bind_Ok; cbn in Hr; [|by injection Hr as <- <-].
  apply bind_Ok in Hr as (c1 & H1 & (c2 & H2 & [= <- <-])%bind_Ok).
  assert (c_store c2 = c_store c1) as ->.
  { destruct (environmental_footprint_used _); [by eapply footprint_entry_store|by injection H2 as <-]. }
  destruct (energy_used _); [|by injection H1 as <-].
  apply bind_Ok in H1 as (c0 & Hc0%pstate_entry_store & Hc1%energy_pstate_store). by rewrite Hc1, Hc0.
Qed.

Lemma foldM_store {A} (f : Ctx -> A -> result Ctx) l c c' :
  (forall c a c', f c a = Ok c' -> c_store c' = c_store c) -> foldM f c l = Ok c' -> c_store c' = c_store c.
Proof.
  intros Hf. apply (foldM_inv (fun c' => c_store c' = c_store c)); [done|].
  intros s a s' _ Hs Ha. rewrite <- Hs. by eapply Hf.
Qed.

(** What the traces leave alone: the jobs and profiles, the engine, the processes,
    the messages and the cancelled parallel tasks. *)
Definition only_traced c c' : Prop :=
  c_store c' = c_store c /\ c_engine c' = c_engine c /\ c_actors c' = c_actors c /\ c_sent c' = c_sent c /\
  c_cancelled_ptasks c' = c_cancelled_ptasks c.

#[export] Instance only_traced_preorder : PreOrder only_traced.
Proof. split; [by intros ?|]. unfold only_traced. intros c1 c2 c3 (?&?&?&?&?) (?&?&?&?&?). split_and!; congruence. Qed.

Lemma energy_job_start_traced c c' : energy_add_job_start c = Ok c' -> only_traced c c'.
Proof. intros ([c1 q] & ([t x] & _ & [= <- _])%bind_Ok & [= <-])%bind_Ok. done. Qed.

Lemma energy_job_end_traced c c' : energy_add_job_end c = Ok c' -> only_traced c c'.
Proof. intros ([c1 q] & ([t x] & _ & [= <- _])%bind_Ok & [= <-])%bind_Ok. done. Qed.

Lemma footprint_entry_traced zone e c c' : footprint_entry zone e c = Ok c' -> only_traced c c'.
Proof. unfold footprint_entry. intros (t & _ & [= <-])%bind_Ok. done. Qed.

Lemma with_machines_view_traced f c c' : with_machines_view f c = Ok c' -> only_traced c c'.
Proof. unfold with_machines_view. intros (v & _ & [= <-])%bind_Ok. done. Qed.

Lemma the_job_Ok c jp (j : Job IS) : the_job c jp = Ok j <-> s_jobs (c_store c) !! jp = Some j.
Proof. apply of_option_Ok. Qed.
End StoreFacts.

#[export] Hint Resolve with_writer_store trace_job_store pstate_entry_store set_machine_state_store
  energy_pstate_store footprint_entry_store machine_states_entry_store : batsim.

