(* ===== verification/ContextSteps.v ===== *)
(** * What every step of the simulation leaves of the shared context

    Whatever a process does, the options stay, jobs are never forgotten and their
    descriptions never change, static workloads only lose jobs, messages and
    processes are only added.  [quiet ok c c'] says so of a step that neither submits
    nor creates a job, and whose new processes satisfy [ok]; [calm] adds that the jobs
    stay in their states.  The machines stay consistent in every step. *)

From S2P Require Import Prelude Interfaces Profiles Jobs NumericStrcmp Outputs Machines Workload Tracers Ipp PState Writer NumberParsing Workflow Context ContextFacts.

Create HintDb quiet.

(** A job that the scheduler has decided about. *)
Definition is_started (s : JobState) : Prop := s ≠ JOB_STATE_NOT_SUBMITTED /\ s ≠ JOB_STATE_SUBMITTED.

Section Quiet.
Context {IS Engine Host V : Type}.
#[local] Abbreviation Ctx := (BatsimContext IS Engine Host V).
#[local] Abbreviation Act := (Actor IS Host V).
Implicit Types (c : Ctx) (ok : Act -> Prop).

(** What describes a job and never changes. *)
Definition job_ident (j : Job IS) := (workload j, id j, profile j, submission_time j, walltime j, requested_nb_res j).

(** A message that neither submits nor registers a job, nor asks to be told about the
    completions, and whose data are those of its type. *)
Definition benign (m : IPMessage IS Host) : bool :=
  well_typed m &&
  match msg_data m with
  | JobSubmittedMessage _ _ | JobRegisteredByDPMessage _ _ => false
  | SubmitterHelloMessage _ enable_callback _ => negb enable_callback
  | _ => true
  end.

(** The identifiers of processes are distinct, and those to come are fresh. *)
Definition actors_ok c : Prop := NoDup (c_actors c).*1 /\ forall x, x ∈ c_actors c -> (x.1 < c_next_actor c)%positive.

Record quiet ok c c' : Prop := {
  quiet_options : c_options c' = c_options c;
  quiet_next : s_next_job (c_store c') = s_next_job (c_store c);
  quiet_jobs : job_ident <$> s_jobs (c_store c') = job_ident <$> s_jobs (c_store c);
  quiet_workloads wn w' : c_workloads c' !! wn = Some w' ->
    exists w, c_workloads c !! wn = Some w /\ jobs_map (wl_jobs w') ⊆ jobs_map (wl_jobs w);
  quiet_sent : exists l, c_sent c' = c_sent c ++ l /\ Forall (fun m => benign (sm_message m) = true) l;
  quiet_new x : x ∈ c_actors c' -> x ∈ c_actors c \/ ((c_next_actor c <= x.1)%positive /\ ok x.2);
  quiet_next_actor : (c_next_actor c <= c_next_actor c')%positive;
  quiet_actors : actors_ok c -> actors_ok c';
  quiet_machines : machines_kept (c_machines c) (c_machines c');
}.

#[export] Instance quiet_preorder ok : PreOrder (quiet ok).
Proof.
  split.
  - intros c. split; try done; [by eauto|exists []; by rewrite app_nil_r|by left].
  - intros c1 c2 c3 [O1 N1 J1 W1 (l1 & S1 & B1) A1 X1 D1 M1] [O2 N2 J2 W2 (l2 & S2 & B2) A2 X2 D2 M2]. split.
    + by rewrite O2.
    + by rewrite N2.
    + by rewrite J2.
    + intros wn w3 (w2 & (w1 & Hw1 & H1)%W1 & H2)%W2. exists w1. split; [done|]. by etrans.
    + exists (l1 ++ l2). rewrite S2, S1, app_assoc. split; [done|]. by apply Forall_app_2.
    + intros x [[?|?]%A1|[Hx ?]]%A2; [by left|by right|right; split; [lia|done]].
    + lia.
    + auto.
    + by etransitivity.
Qed.

Lemma quiet_weaken (ok ok' : Act -> Prop) c c' : (forall a, ok a -> ok' a) -> quiet ok c c' -> quiet ok' c c'.
Proof.
  intros Hok [O N J W S A X D M]. split; try done.
  intros x [?|[? ?]]%A; [by left|right; split; [done|by apply Hok]].
Qed.

(** The parts that matter. *)
Definition core c := (c_options c, c_store c, c_workloads c, c_sent c, c_actors c, c_next_actor c).

(** They do not change, and the machines stay consistent. *)
Definition same_core c c' : Prop := core c' = core c /\ machines_kept (c_machines c) (c_machines c').

#[export] Instance same_core_preorder : PreOrder same_core.
Proof. split; [by split|]. intros c1 c2 c3 [E1 M1] [E2 M2]. split; [congruence|by etransitivity]. Qed.

Lemma core_quiet ok c c' : same_core c c' -> quiet ok c c'.
Proof.
  unfold same_core, core. intros [[= E1 E2 E3 E4 E5 E6] Hm]. split; unfold actors_ok; rewrite ?E1, ?E2, ?E3, ?E4, ?E5, ?E6; try done;
    [by eauto|exists []; by rewrite app_nil_r|by left].
Qed.

Definition states_of c : gmap positive JobState := state <$> s_jobs (c_store c).

(** Nor does any job change its state. *)
Definition calm ok c c' : Prop := quiet ok c c' /\ states_of c' = states_of c.

#[export] Instance calm_preorder ok : PreOrder (calm ok).
Proof.
  split; [by split|]. intros c1 c2 c3 [Q1 E1] [Q2 E2]. split; [by etrans|congruence].
Qed.

Lemma core_calm ok c c' : same_core c c' -> calm ok c c'.
Proof. intros Hc. split; [by apply core_quiet|]. destruct Hc as [Hc _]. unfold core in Hc. unfold states_of. congruence. Qed.

Lemma with_job_ident jp f c :
  (forall j, job_ident (f j) = job_ident j) -> job_ident <$> s_jobs (c_store (with_job jp f c)) = job_ident <$> s_jobs (c_store c).
Proof.
  intros Hf. unfold with_job. cbn. apply map_eq. intros i. rewrite !lookup_fmap.
  destruct (decide (i = jp)) as [->|Hne].
  - rewrite lookup_alter_eq. destruct (_ !! jp) as [j|]; [cbn; by rewrite Hf|done].
  - by rewrite lookup_alter_ne.
Qed.

Lemma with_job_quiet ok jp f c : (forall j, job_ident (f j) = job_ident j) -> quiet ok c (with_job jp f c).
Proof.
  intros Hf. split; try done; [by apply with_job_ident|by eauto|exists []; by rewrite app_nil_r|by left].
Qed.

Lemma with_job_states_of jp f c : (forall j, state (f j) = state j) -> states_of (with_job jp f c) = states_of c.
Proof.
  intros Hf. unfold states_of, with_job. cbn. apply map_eq. intros i. rewrite !lookup_fmap.
  destruct (decide (i = jp)) as [->|Hne].
  - rewrite lookup_alter_eq. destruct (_ !! jp) as [j|]; [cbn; by rewrite Hf|done].
  - by rewrite lookup_alter_ne.
Qed.

Lemma with_job_calm ok jp f c :
  (forall j, job_ident (f j) = job_ident j) -> (forall j, state (f j) = state j) -> calm ok c (with_job jp f c).
Proof. intros Hi Hs. split; [by apply with_job_quiet|by apply with_job_states_of]. Qed.

Lemma create_actor_calm ok (a : Act) c : ok a -> calm ok c (create_actor a c).2.
Proof.
  intros Ha. split; [|done]. split; cbn; try done; [by eauto|exists []; by rewrite app_nil_r| |lia|].
  - intros x [?| ->%list_elem_of_singleton]%elem_of_app; [by left|]. right. cbn. split; [lia|done].
  - unfold actors_ok. cbn. intros [Hnd Hlt]. split.
    + rewrite fmap_app. cbn. apply NoDup_app. split; [done|]. split; [|apply NoDup_singleton].
      intros i (x & -> & Hx)%list_elem_of_fmap Hi%list_elem_of_singleton. specialize (Hlt _ Hx). lia.
    + intros x [Hx| ->%list_elem_of_singleton]%elem_of_app; [specialize (Hlt _ Hx)|cbn]; lia.
Qed.

Lemma remove_actors_calm ok (s : gset positive) c : calm ok c (remove_actors s c).
Proof.
  split; [|done]. split; cbn; try done; [by eauto|exists []; by rewrite app_nil_r| |].
  - intros x [_ Hx]%list_elem_of_filter. by left.
  - unfold actors_ok. cbn. intros [Hnd Hlt]. split.
    + eapply sublist_NoDup; [exact Hnd|]. apply fmap_sublist, sublist_filter.
    + intros x [_ Hx]%list_elem_of_filter. by apply Hlt.
Qed.

Lemma send_calm `{SimGrid Engine Host} ok mbox type data c :
  benign (mk_IPMessage type data) = true -> calm ok c (send_message mbox type data c).
Proof.
  intros Hb. split; [|done]. unfold send_message. split; cbn; try done; [by eauto| |by left].
  eexists. split; [done|]. by constructor.
Qed.
End Quiet.

(** ** The primitives that only touch the traces, the machines or the engine *)

Section Core.
Context {IS Engine Host V : Type} `{IntervalSet IS} `{SimGrid Engine Host} `{RapidJson V}.
Context (englobing_zone : Host -> option string).
#[local] Abbreviation Ctx := (BatsimContext IS Engine Host V).
Implicit Types (c : Ctx).

Lemma with_writer_core f c c' : with_writer f c = Ok c' -> same_core c c'.
Proof. unfold with_writer. by intros (w & _ & [= <-])%bind_Ok. Qed.

Lemma trace_job_core jp c c' : trace_job jp c = Ok c' -> same_core c c'.
Proof. unfold trace_job. by intros (j & _ & (t & _ & [= <-])%bind_Ok)%bind_Ok. Qed.

(** Only a machine that computes a job is put in the computing state. *)
Lemma set_machine_state_core i s c c' :
  (forall m, machine_at (c_machines c) i = Ok m -> s = COMPUTING -> m_jobs_being_computed m ≠ []) ->
  set_machine_state i s c = Ok c' -> same_core c c'.
Proof.
  intros Hs. unfold set_machine_state. intros (ms & Hm & [= <-])%bind_Ok. split; [done|].
  eapply update_machine_state_kept; [|exact Hm]. intros m Hu. apply Hs. by apply machine_at_Ok, machine_unchecked_Ok.
Qed.

Lemma set_other_state_core i s c c' : s ≠ COMPUTING -> set_machine_state i s c = Ok c' -> same_core c c'.
Proof. intros Hs. by apply set_machine_state_core. Qed.

Lemma energy_entry_core e c c' q : energy_entry e c = Ok (c', q) -> same_core c c'.
Proof. unfold energy_entry. by intros ([t x] & _ & [= <- _])%bind_Ok. Qed.

Lemma energy_add_job_start_core c c' : energy_add_job_start c = Ok c' -> same_core c c'.
Proof. by intros ([c1 q] & E1%energy_entry_core & [= <-])%bind_Ok. Qed.

Lemma energy_add_job_end_core c c' : energy_add_job_end c = Ok c' -> same_core c c'.
Proof. by intros ([c1 q] & E1%energy_entry_core & [= <-])%bind_Ok. Qed.

Lemma energy_add_pstate_change_core c c' : energy_add_pstate_change c = Ok c' -> same_core c c'.
Proof. by intros ([c1 q] & E1%energy_entry_core & [= <-])%bind_Ok. Qed.

Lemma footprint_entry_core e c c' : footprint_entry englobing_zone e c = Ok c' -> same_core c c'.
Proof. unfold footprint_entry. by intros (t & _ & [= <-])%bind_Ok. Qed.

Lemma pstate_entry_core ms p c c' : pstate_entry ms p c = Ok c' -> same_core c c'.
Proof. unfold pstate_entry. by intros (t & _ & [= <-])%bind_Ok. Qed.

Lemma machine_states_entry_core c c' : machine_states_entry c = Ok c' -> same_core c c'.
Proof. unfold machine_states_entry. by intros (t & _ & [= <-])%bind_Ok. Qed.

Lemma with_machines_view_core f c c' :
  (forall v v', f v = Ok v' -> machines_kept (v_machines v) (v_machines v')) -> with_machines_view f c = Ok c' -> same_core c c'.
Proof. unfold with_machines_view. intros Hf (v & Hv%Hf & [= <-])%bind_Ok. by split. Qed.

Lemma machine_pstate_type_core i p c t c' : machine_pstate_type i p c = Ok (t, c') -> same_core c c'.
Proof.
  unfold machine_pstate_type. intros (m & Hm & Hr)%bind_Ok. pose proof (pstates_kept i (i32 p) _ _ Hm) as Hk.
  destruct (pstates_at m (i32 p)). injection Hr as _ <-. by split.
Qed.

Lemma mark_switch_as_done_core i p c r c' :
  mark_switch_as_done englobing_zone i p c = Ok (r, c') -> same_core c c'.
Proof.
  unfold mark_switch_as_done. intros ([[s|] cs] & _ & Hr)%bind_Ok; cbn in Hr; [|by injection Hr as _ <-].
  apply bind_Ok in Hr as (c1 & H1' & (c2 & H2' & [= _ <-])%bind_Ok).
  transitivity c1.
  - destruct (energy_used _); [|by injection H1' as <-].
    apply bind_Ok in H1' as (c0 & Hc0%pstate_entry_core & Hc1%energy_add_pstate_change_core). etransitivity; [|exact Hc1].
    etransitivity; [|exact Hc0]. by split.
  - destruct (environmental_footprint_used _); [by eapply footprint_entry_core|by injection H2' as <-].
Qed.
End Core.

#[export] Hint Resolve with_writer_core trace_job_core energy_entry_core energy_add_job_start_core
  energy_add_job_end_core energy_add_pstate_change_core footprint_entry_core pstate_entry_core machine_states_entry_core
  with_machines_view_core machine_pstate_type_core mark_switch_as_done_core : quiet.
