(* ===== verification/OutputFiles.v ===== *)
(** * The outputs of a simulation (src/export.cpp)

    The opening of the files before the engine runs, and what they contain when they
    are closed: when the engine stops, or when the exchange with the scheduler fails. *)

From S2P Require Import Prelude Interfaces Profiles Jobs NumericStrcmp Outputs Machines Workload Tracers PState Writer Workflow Context.

Section Outputs.
Context {IS Engine Host V : Type} `{IntervalSet IS} `{SimGrid Engine Host} `{RapidJson V}.
#[local] Abbreviation Ctx := (BatsimContext IS Engine Host V).
Implicit Types (c : Ctx).

(** [pstate_to_machine_set[pstate].insert(machine_id)], in a [std::map<int, IntervalSet>]. *)
Fixpoint add_to_pstate (pstate machine_id : Z) (m : list (Z * IS)) : list (Z * IS) :=
  match m with
  | [] => [(pstate, is_insert is_empty machine_id)]
  | (p, range) :: m' =>
      if pstate <? p then (pstate, is_insert is_empty machine_id) :: m
      else if pstate =? p then (p, is_insert range machine_id) :: m'
      else (p, range) :: add_to_pstate pstate machine_id m'
  end.

Definition pstate_to_machine_set (e : Engine) (ms : Machines Host) : list (Z * IS) :=
  foldl (fun m machine => add_to_pstate (get_pstate e (m_host machine)) (m_id machine) m) [] (ms_machines ms).

Definition machine_names (ms : Machines Host) : list (Z * string) :=
  (fun m => (m_id m, m_name m)) <$> ms_machines ms.

Definition prepare_schedule_trace c : result Ctx :=
  if trace_schedule (c_options c) then
    t ← Paje.set_filename (c_paje_tracer c);
    let c := c <| c_machines ::= set_tracer |> in
    t ← Paje.initialize (machine_names (c_machines c)) (now c) t;
    Ok (c <| c_paje_tracer := t |>)
  else Ok c.

Definition prepare_machine_states c : result Ctx :=
  if trace_machine_states (c_options c) then
    t ← machine_state_set_filename (c_machine_state_tracer c <| mst_context := true |>);
    Ok (c <| c_machine_state_tracer := t |>)
  else Ok c.

Definition prepare_energy c : result Ctx :=
  if energy_used (c_options c) then
    t ← energy_set_filename (c_energy_tracer c);
    let c := c <| c_energy_tracer := t |> in
    t ← pstate_setFilename (c_pstate_tracer c);
    let c := c <| c_pstate_tracer := t |> in
    foldM (fun c (mit : Z * IS) => pstate_entry mit.2 mit.1 c) c
      (pstate_to_machine_set (c_engine c) (c_machines c))
  else Ok c.

Definition prepare_footprint c : result Ctx :=
  if environmental_footprint_used (c_options c) then
    t ← footprint_set_filename (c_footprint_tracer c);
    Ok (c <| c_footprint_tracer := t |>)
  else Ok c.

Definition prepare_batsim_outputs c : result Ctx :=
  c ← prepare_schedule_trace c;
  c ← prepare_machine_states c;
  c ← prepare_energy c;
  c ← prepare_footprint c;
  t ← jobs_initialize (nb_machines (c_machines c)) (c_jobs_tracer c);
  Ok (c <| c_jobs_tracer := t |>).

(** The files of the simulation, when their tracer is used. *)
Record output_files := mk_output_files {
  of_schedule_trace : option string;
  of_machine_states : option string;
  of_consumed_energy : option string;
  of_pstate_changes : option string;
  of_environmental_footprint : option string;
  of_jobs : string;
  of_schedule : string;
}.

Definition finalize_schedule_trace c : result (option string) :=
  if trace_schedule (c_options c) then
    '(_, file) ← Paje.finalize (machine_names (c_machines c)) (now c) (c_paje_tracer c); Ok (Some file)
  else Ok None.

Definition finalize_machine_states c : result (option string) :=
  if trace_machine_states (c_options c) then
    t ← machine_state_flush (c_machine_state_tracer c);
    '(file, _) ← machine_state_close_buffer t; Ok (Some file)
  else Ok None.

(** The energy and the power states. *)
Definition finalize_energy c : result (option (string * string)) :=
  if energy_used (c_options c) then
    et ← energy_flush (c_energy_tracer c);
    pt ← pstate_flush (c_pstate_tracer c);
    '(energy, _) ← energy_close_buffer et;
    '(pstates, _) ← pstate_close_buffer pt; Ok (Some (energy, pstates))
  else Ok None.

Definition finalize_footprint c : result (option string) :=
  if environmental_footprint_used (c_options c) then
    t ← footprint_flush (c_footprint_tracer c);
    '(file, _) ← footprint_close_buffer t; Ok (Some file)
  else Ok None.

Definition finalize_batsim_outputs (ri : run_info) c : result output_files :=
  schedule_trace ← finalize_schedule_trace c;
  machine_states ← finalize_machine_states c;
  energy ← finalize_energy c;
  footprint ← finalize_footprint c;
  '(_, jobs, schedule) ← jobs_finalize (c_engine c) (c_machines c) ri (c_jobs_tracer c);
  Ok (mk_output_files schedule_trace machine_states (fst <$> energy) (snd <$> energy) footprint jobs schedule).
End Outputs.
