(* ===== verification/Server.v ===== *)
(** * The server (src/server.hpp, src/server.cpp)

    The process that orchestrates the simulation: it receives the messages of all
    the other processes one at a time, updates its counters and the context in the
    handler of each message, and talks to the scheduler when it is ready.  One
    definition per handler, one iteration of the loop, and the loop itself on a
    given sequence of received messages. *)

From S2P Require Import Prelude Interfaces Profiles Jobs NumericStrcmp Outputs Machines Workload Tracers Ipp PState Writer NumberParsing Workflow Context.

Record Submitter := mk_Submitter {
  mailbox : string;
  should_be_called_back : bool;
}.

Record SubmitterCounters := mk_SubmitterCounters {
  expected_nb_submitters : Z;
  nb_submitters : Z;
  nb_submitters_finished : Z;
}.
#[export] Instance eta_SubmitterCounters : Eta SubmitterCounters := fun r =>
  mk_SubmitterCounters (expected_nb_submitters r) (nb_submitters r) (nb_submitters_finished r).

Definition new_SubmitterCounters : SubmitterCounters := mk_SubmitterCounters (u32 (-1)) 0 0.

Section Server.
Context {IS Engine Host V : Type}.
#[local] Abbreviation Ctx := (BatsimContext IS Engine Host V).
#[local] Abbreviation Data := (MessageData IS Host).
#[local] Abbreviation Msg := (IPMessage IS Host).

Record ServerData := mk_ServerData {
  sd_context : Ctx;
  nb_completed_jobs : Z;
  nb_submitted_jobs : Z;
  nb_running_jobs : Z;
  nb_workflow_submitters_finished : Z;
  nb_switching_machines : Z;
  nb_waiters : Z;
  nb_killers : Z;
  sched_ready : bool;
  end_of_simulation_sent : bool;
  end_of_simulation_ack_received : bool;
  submitters : gmap string positive;               (* name -> Submitter * *)
  submitter_heap : gmap positive Submitter;        (* the Submitter objects not deleted *)
  next_submitter : positive;
  job_submitter_counters : SubmitterCounters;      (* submitter_counters[JOB_SUBMITTER] *)
  event_submitter_counters : SubmitterCounters;    (* submitter_counters[EVENT_SUBMITTER] *)
  origin_of_jobs : gmap string positive;           (* JobIdentifier -> Submitter * *)
  jobs_to_be_deleted : list JobIdentifier;
}.
#[export] Instance eta_ServerData : Eta ServerData := fun r =>
  mk_ServerData (sd_context r) (nb_completed_jobs r) (nb_submitted_jobs r) (nb_running_jobs r)
    (nb_workflow_submitters_finished r) (nb_switching_machines r) (nb_waiters r) (nb_killers r)
    (sched_ready r) (end_of_simulation_sent r) (end_of_simulation_ack_received r) (submitters r)
    (submitter_heap r) (next_submitter r) (job_submitter_counters r) (event_submitter_counters r)
    (origin_of_jobs r) (jobs_to_be_deleted r).

Implicit Types (data : ServerData) (c : Ctx).

Definition counters_of_type (t : SubmitterType) data : SubmitterCounters :=
  match t with JOB_SUBMITTER => job_submitter_counters data | EVENT_SUBMITTER => event_submitter_counters data end.
Definition update_counters (t : SubmitterType) (f : SubmitterCounters -> SubmitterCounters) data : ServerData :=
  match t with
  | JOB_SUBMITTER => data <| job_submitter_counters ::= f |>
  | EVENT_SUBMITTER => data <| event_submitter_counters ::= f |>
  end.

Definition null_data {A} : result A := Err (Abort "inconsistency: task_data has null data").
Definition bad_cast {A} : result A := Err (Undef "static_cast of another message type").

(** Running an operation of the context. *)
Definition on_context (f : Ctx -> result Ctx) data : result ServerData :=
  c ← f (sd_context data); Ok (data <| sd_context := c |>).

(** ** Counters of jobs, with their consistency checks *)

Definition job_starts data : result ServerData :=
  let data := data <| nb_running_jobs ::= Z.add 1 |> in
  xbt_assert (nb_running_jobs data <=? nb_submitted_jobs data) "inconsistency: nb_running_jobs > nb_submitted_jobs";;
  Ok data.

Definition job_stops data : result ServerData :=
  let data := data <| nb_running_jobs ::= fun n => n - 1 |> in
  xbt_assert (0 <=? nb_running_jobs data) "inconsistency: no jobs are running";;
  let data := data <| nb_completed_jobs ::= Z.add 1 |> in
  xbt_assert (nb_completed_jobs data + nb_running_jobs data <=? nb_submitted_jobs data)
    "inconsistency: nb_completed_jobs + nb_running_jobs > nb_submitted_jobs";;
  Ok data.

Context `{IntervalSet IS} `{SimGrid Engine Host} `{RapidJson V}.
Context (englobing_zone : Host -> option string).

Definition time_of data : Q := now (sd_context data).
Definition opts data : Options := c_options (sd_context data).
Definition write (f : Q -> JsonProtocolWriter V -> result (JsonProtocolWriter V)) data : result ServerData :=
  on_context (with_writer (f (time_of data))) data.

(** The message about a completed job, its trace, and its scheduled deletion. *)
Definition announce_completion (jp : positive) data : result ServerData :=
  j ← the_job (sd_context data) jp;
  data ← write (append_job_completed (ji_to_string (id j)) (job_state_to_string (state j))
                  (to_string_hyphen (allocation j) " " "-") (return_code j)) data;
  data ← on_context (trace_job jp) data;
  Ok (data <| jobs_to_be_deleted ::= fun l => l ++ [id j] |>).

(** ** Submitters *)

Definition server_on_submitter_hello data (m : Msg) : result ServerData :=
  match msg_data m with
  | NoData => null_data
  | SubmitterHelloMessage submitter_name enable_callback submitter_type =>
      xbt_assert (negb (end_of_simulation_sent data)) "A new submitter said hello but the simulation is finished";;
      xbt_assert (bool_decide (submitters data !! submitter_name = None)) "a submitter with the same name already exists";;
      let ptr := next_submitter data in
      let data := data <| submitter_heap ::= <[ptr := mk_Submitter submitter_name enable_callback]> |>
                       <| next_submitter ::= Pos.succ |>
                       <| submitters ::= <[submitter_name := ptr]> |> in
      Ok (update_counters submitter_type (fun k => k <| nb_submitters ::= fun n => u32 (n + 1) |>) data)
  | _ => bad_cast
  end.

Definition all_submitters_finished (k : SubmitterCounters) : bool :=
  nb_submitters_finished k =? expected_nb_submitters k.

Definition server_on_submitter_bye data (m : Msg) : result ServerData :=
  match msg_data m with
  | NoData => null_data
  | SubmitterByeMessage submitter_name submitter_type is_workflow_submitter =>
      match submitters data !! submitter_name with
      | None => Err (Abort "inconsistency: expected 1 submitter with this name")
      | Some ptr =>
          let data := data <| submitter_heap ::= delete ptr |> <| submitters ::= delete submitter_name |> in
          let data := update_counters submitter_type (fun k => k <| nb_submitters_finished ::= fun n => u32 (n + 1) |>) data in
          let finished := all_submitters_finished (counters_of_type submitter_type data) in
          match submitter_type with
          | EVENT_SUBMITTER =>
              if finished then write (append_notify "no_more_external_event_to_occur") data else Ok data
          | JOB_SUBMITTER =>
              data ← (if finished then write (append_notify "no_more_static_job_to_submit") data else Ok data);
              Ok (if is_workflow_submitter then data <| nb_workflow_submitters_finished ::= Z.add 1 |> else data)
          end
      end
  | _ => bad_cast
  end.

(** ** Jobs *)

(** The submitter of the job, when it asked for it, is told that it completed.
    The pointer to the submitter is followed even if it has been deleted. *)
Definition call_submitter_back (job_id : JobIdentifier) data : result ServerData :=
  match origin_of_jobs data !! ji_to_string job_id with
  | None => Ok data
  | Some ptr =>
      submitter ← of_option (Undef "use of a deleted Submitter") (submitter_heap data !! ptr);
      let data := data <| sd_context ::= send_message (mailbox submitter) SUBMITTER_CALLBACK
                                           (SubmitterJobCompletionCallbackMessage job_id) |> in
      Ok (data <| origin_of_jobs ::= delete (ji_to_string job_id) |>)
  end.

Definition server_on_job_completed data (m : Msg) : result ServerData :=
  match msg_data m with
  | NoData => null_data
  | JobCompletedMessage jp =>
      j ← the_job (sd_context data) jp;
      data ← call_submitter_back (id j) data;
      data ← job_stops data;
      announce_completion jp data
  | _ => bad_cast
  end.

(** The descriptions that are sent with a submission. *)
Definition descriptions data (j : Job IS) : result (string * string) :=
  if redis_enabled (opts data) then Ok ("", "")
  else if submission_forward_profiles (opts data) then
    p ← the_profile (sd_context data) (profile j);
    Ok (json_description j, p_json_description p)
  else Ok (json_description j, "").

Definition announce_submission (jp : positive) data : result ServerData :=
  j ← the_job (sd_context data) jp;
  '(job_json, profile_json) ← descriptions data j;
  write (append_job_submitted (redis_enabled (opts data)) (submission_forward_profiles (opts data))
           (ji_to_string (id j)) job_json profile_json) data.

Definition submit_one_job (ptr : positive) (called_back : bool) data (jp : positive) : result ServerData :=
  j ← the_job (sd_context data) jp;
  data ← (if called_back then
            xbt_assert (bool_decide (origin_of_jobs data !! ji_to_string (id j) = None))
              "inconsistency: submitter should be called back";;
            Ok (data <| origin_of_jobs ::= <[ji_to_string (id j) := ptr]> |>)
          else Ok data);
  let data := data <| sd_context ::= with_job jp (fun j => j <| state := JOB_STATE_SUBMITTED |>) |>
                   <| nb_submitted_jobs ::= Z.add 1 |> in
  announce_submission jp data.

Definition workflows_size data : Z := Workflows_size (c_workflows (sd_context data)).

Definition ignores_submissions data : bool :=
  negb (workflows_size data =? 0) && terminate_with_last_workflow (opts data) &&
  (nb_workflow_submitters_finished data =? workflows_size data).

Definition server_on_job_submitted data (m : Msg) : result ServerData :=
  if ignores_submissions data then Ok data else
  match msg_data m with
  | NoData => null_data
  | JobSubmittedMessage submitter_name jobs =>
      match submitters data !! submitter_name with
      | None => Err (Abort "inconsistency: expected 1 submitter with this name")
      | Some ptr =>
          submitter ← of_option (Undef "use of a deleted Submitter") (submitter_heap data !! ptr);
          foldM (submit_one_job ptr (should_be_called_back submitter)) data jobs
      end
  | _ => bad_cast
  end.

Definition server_on_register_job data (m : Msg) : result ServerData :=
  match msg_data m with
  | NoData => null_data
  | JobRegisteredByDPMessage jp _ =>
      let data := data <| nb_submitted_jobs ::= Z.add 1 |> in
      if registration_sched_ack (opts data) then announce_submission jp data else Ok data
  | _ => bad_cast
  end.

Definition server_on_register_profile data (m : Msg) : result ServerData :=
  match msg_data m with
  | NoData => null_data
  | ProfileRegisteredByDPMessage _ _ _ => Ok data
  | _ => bad_cast
  end.

(** [job_is_registered] guards [job_at] in several handlers. *)
Definition registered_job data (job_id : JobIdentifier) : result positive :=
  b ← job_is_registered (c_workloads (sd_context data)) job_id;
  if b : bool then job_at (c_workloads (sd_context data)) job_id
  else xbt_die "The job does not exist".

Definition server_on_set_job_metadata data (m : Msg) : result ServerData :=
  match msg_data m with
  | NoData => null_data
  | SetJobMetadataMessage job_id md =>
      jp ← registered_job data job_id;
      Ok (data <| sd_context ::= with_job jp (fun j => j <| metadata := md |>) |>)
  | _ => bad_cast
  end.

(** The job is traced before its state changes. *)
Definition change_state_effects (jp : positive) (job_id : JobIdentifier) (old_state new_state : JobState) data
  : result ServerData :=
  match old_state with
  | JOB_STATE_SUBMITTED =>
      match new_state with
      | JOB_STATE_RUNNING =>
          job_starts (data <| sd_context ::= with_job jp (fun j => j <| starting_time := time_of data |>) |>)
      | JOB_STATE_REJECTED =>
          let data := data <| nb_completed_jobs ::= Z.add 1 |> in
          xbt_assert (nb_completed_jobs data + nb_running_jobs data <=? nb_submitted_jobs data)
            "inconsistency: nb_completed_jobs + nb_running_jobs > nb_submitted_jobs";;
          data ← on_context (trace_job jp) data;
          Ok (data <| jobs_to_be_deleted ::= fun l => l ++ [job_id] |>)
      | _ => Err (Abort "Invalid requested job state modification: can only be running or rejected.")
      end
  | JOB_STATE_RUNNING =>
      match new_state with
      | JOB_STATE_COMPLETED_SUCCESSFULLY | JOB_STATE_COMPLETED_FAILED
      | JOB_STATE_COMPLETED_WALLTIME_REACHED | JOB_STATE_COMPLETED_KILLED =>
          let data := data <| sd_context ::=
                        with_job jp (fun j => j <| runtime := (time_of data - starting_time j)%Q |>) |> in
          data ← job_stops data;
          data ← on_context (trace_job jp) data;
          Ok (data <| jobs_to_be_deleted ::= fun l => l ++ [job_id] |>)
      | _ => Err (Abort "Can only change the state of a running job to completed")
      end
  | _ => Err (Abort "Can only change the state of a submitted or running job.")
  end.

Definition server_on_change_job_state data (m : Msg) : result ServerData :=
  match msg_data m with
  | NoData => null_data
  | ChangeJobStateMessage job_id job_state =>
      jp ← registered_job data job_id;
      j ← the_job (sd_context data) jp;
      new_state ← job_state_from_string job_state;
      data ← change_state_effects jp job_id (state j) new_state data;
      Ok (data <| sd_context ::= with_job jp (fun j => j <| state := new_state |>) |>)
  | _ => bad_cast
  end.

Definition server_on_to_job_msg data (m : Msg) : result ServerData :=
  match msg_data m with
  | NoData => null_data
  | ToJobMessage job_id text =>
      jp ← registered_job data job_id;
      Ok (data <| sd_context ::= with_job jp (fun j => j <| incoming_message_buffer ::= fun l => l ++ [text] |>) |>)
  | _ => bad_cast
  end.

Definition server_on_from_job_msg data (m : Msg) : result ServerData :=
  match msg_data m with
  | NoData => null_data
  | FromJobMessage job_id text =>
      jp ← job_at (c_workloads (sd_context data)) job_id;
      write (append_from_job_message (ji_to_string job_id) text) data
  | _ => bad_cast
  end.

Definition server_on_reject_job data (m : Msg) : result ServerData :=
  match msg_data m with
  | NoData => null_data
  | JobRejectedMessage job_id =>
      jp ← registered_job data job_id;
      j ← the_job (sd_context data) jp;
      xbt_assert (bool_decide (state j = JOB_STATE_SUBMITTED)) "Invalid rejection received";;
      let data := data <| sd_context ::= with_job jp (fun j => j <| state := JOB_STATE_REJECTED |>) |>
                       <| nb_completed_jobs ::= Z.add 1 |> in
      data ← on_context (trace_job jp) data;
      Ok (data <| jobs_to_be_deleted ::= fun l => l ++ [job_id] |>)
  | _ => bad_cast
  end.

Definition mark_kill (acc : list JobIdentifier * ServerData) (job_id : JobIdentifier)
  : result (list JobIdentifier * ServerData) :=
  let '(jobs_ids_to_kill, data) := acc in
  b ← job_is_registered (c_workloads (sd_context data)) job_id;
  xbt_assert b "Trying to kill a job that does not exist.";;
  jp ← job_at (c_workloads (sd_context data)) job_id;
  j ← the_job (sd_context data) jp;
  if kill_requested j then Ok acc
  else
    xbt_assert (bool_decide (state j = JOB_STATE_RUNNING) || is_complete j)
      "Invalid KILL_JOB: job_id refers to a job not being executed nor completed.";;
    Ok (jobs_ids_to_kill ++ [job_id],
        data <| sd_context ::= with_job jp (fun j => j <| kill_requested := true |>) |>).

Definition create_killer (jobs_ids : list JobIdentifier) data : ServerData :=
  data <| sd_context ::= fun c => (create_actor (killer_process jobs_ids JOB_STATE_COMPLETED_KILLED true) c).2 |>
       <| nb_killers ::= Z.add 1 |>.

Definition server_on_kill_jobs data (m : Msg) : result ServerData :=
  match msg_data m with
  | NoData => null_data
  | KillJobMessage jobs_ids =>
      '(jobs_ids_to_kill, data) ← foldM mark_kill ([], data) jobs_ids;
      Ok (if 0 <? Z.of_nat (length jobs_ids_to_kill) then create_killer jobs_ids_to_kill data else data)
  | _ => bad_cast
  end.

Definition server_on_call_me_later data (m : Msg) : result ServerData :=
  match msg_data m with
  | NoData => null_data
  | CallMeLaterMessage target_time =>
      xbt_assert (time_of data <?q target_time)%Q "You asked to be awaken in the past!";;
      master_machine (c_machines (sd_context data));;
      Ok (data <| sd_context ::= fun c => (create_actor (waiter_process target_time) c).2 |>
               <| nb_waiters ::= Z.add 1 |>)
  | _ => bad_cast
  end.

(** ** Executing a job *)

Definition check_sharing data (machine_id : Z) : result unit :=
  m ← machine_at (c_machines (sd_context data)) machine_id;
  let free := bool_decide (m_jobs_being_computed m = []) in
  (if has_role m roles.COMPUTE_NODE && negb (allow_compute_sharing (opts data))
   then xbt_assert free "time-sharing on compute machines is disabled" else Ok tt);;
  (if has_role m roles.STORAGE && negb (allow_storage_sharing (opts data))
   then xbt_assert free "time-sharing on storage machines is disabled" else Ok tt).

Definition check_can_compute data (machine_id : Z) : result unit :=
  m ← machine_at (c_machines (sd_context data)) machine_id;
  xbt_assert (bool_decide (m_state m = COMPUTING) || bool_decide (m_state m = IDLE))
    "the machine is not computing nor idle";;
  if energy_used (opts data) then
    let ps := i32 (get_pstate (c_engine (sd_context data)) (m_host m)) in
    xbt_assert (has_pstate m ps) "machine has no such pstate";;
    xbt_assert (bool_decide ((pstates_at m ps).1 = COMPUTATION_PSTATE)) "the machine is not in a computation pstate"
  else Ok tt.

(** Whether the profile tolerates any number of resources. *)
Definition is_sequence_of_parhgtot data (p : Profile) : result bool :=
  if bool_decide (p_type p = SEQUENCE) then
    match p_data p with
    | SequenceProfileData _ _ profile_sequence =>
        foldM (fun (b : bool) sub =>
                 q ← the_profile (sd_context data) sub;
                 Ok (if bool_decide (p_type q = PARALLEL_HOMOGENEOUS_TOTAL_AMOUNT) then b else false))
          true profile_sequence
    | _ => Err (Undef "static_cast of another data type")
    end
  else Ok false.

Definition check_allocation_size data (alloc : SchedulingAllocation IS Host) (j : Job IS) : result unit :=
  p ← the_profile (sd_context data) (profile j);
  seq ← is_sequence_of_parhgtot data p;
  if bool_decide (p_type p = PARALLEL_HOMOGENEOUS_TOTAL_AMOUNT) || seq then Ok tt
  else if negb (Z.of_nat (length (sa_mapping alloc)) =? 0) then
    xbt_assert (u32 (Z.of_nat (length (sa_mapping alloc))) =? requested_nb_res j)
      "the custom mapping size does not match the job requested number of machines"
  else
    xbt_assert (u32 (is_size (sa_machine_ids alloc)) =? requested_nb_res j)
      "the job does not require this number of machines".

Definition check_allocation data (alloc : SchedulingAllocation IS Host) (j : Job IS) : result unit :=
  (if negb (allow_compute_sharing (opts data)) || negb (allow_storage_sharing (opts data))
   then foldM (fun _ i => check_sharing data i) tt (elements_of (sa_machine_ids alloc)) else Ok tt);;
  foldM (fun _ i => check_can_compute data i) tt (elements_of (sa_machine_ids alloc));;
  check_allocation_size data alloc j.

Definition server_on_execute_job data (m : Msg) : result ServerData :=
  match msg_data m with
  | NoData => null_data
  | ExecuteJobMessage alloc io_profile =>
      j ← the_job (sd_context data) (sa_job alloc);
      xbt_assert (bool_decide (state j = JOB_STATE_SUBMITTED)) "Cannot execute job: its state is not JOB_STATE_SUBMITTED.";;
      let data := data <| sd_context ::= with_job (sa_job alloc) (fun j => j <| state := JOB_STATE_RUNNING |>) |> in
      data ← job_starts data;
      check_allocation data alloc j;;
      first ← first_element (sa_machine_ids alloc);
      machine_at (c_machines (sd_context data)) first;;
      let '(actor, c) := create_actor (execute_job_process alloc true io_profile) (sd_context data) in
      Ok (data <| sd_context := with_job (sa_job alloc) (fun j => j <| execution_actors ::= fun s => {[actor]} ∪ s |>) c |>)
  | _ => bad_cast
  end.

(** ** External events *)

Definition make_unavailable c (machine_id : Z) : result Ctx :=
  m ← machine_at (c_machines c) machine_id;
  xbt_assert (negb (bool_decide (m_state m = UNAVAILABLE))) "this machine was already in UNAVAILABLE state.";;
  set_machine_state machine_id UNAVAILABLE c.

Definition make_available c (machine_id : Z) : result Ctx :=
  m ← machine_at (c_machines c) machine_id;
  xbt_assert (bool_decide (m_state m = UNAVAILABLE)) "this machine was not in UNAVAILABLE state";;
  set_machine_state machine_id (if bool_decide (m_jobs_being_computed m = []) then IDLE else COMPUTING) c.

Definition event_machines (event : Event IS) : result IS :=
  match ev_data event with
  | MachineAvailabilityEventData machine_ids => Ok machine_ids
  | _ => Err (Undef "static_cast of another data type")
  end.

Definition server_on_event_machine_unavailable data (event : Event IS) : result ServerData :=
  machines ← event_machines event;
  if 0 <? is_size machines then
    data ← on_context (fun c => foldM make_unavailable c (elements_of machines)) data;
    write (append_notify_resource_event "event_machine_unavailable" machines) data
  else Ok data.

Definition server_on_event_machine_available data (event : Event IS) : result ServerData :=
  machines ← event_machines event;
  if 0 <? is_size machines then
    data ← on_context (fun c => foldM make_available c (elements_of machines)) data;
    write (append_notify_resource_event "event_machine_available" machines) data
  else Ok data.

Definition server_on_event_generic data (event : Event IS) : result ServerData :=
  match ev_data event with
  | GenericEventData json_desc_str => write (append_notify_generic_event json_desc_str) data
  | _ => Err (Undef "static_cast of another data type")
  end.

Definition on_event data (event : Event IS) : result ServerData :=
  match ev_type event with
  | EVENT_MACHINE_AVAILABLE => server_on_event_machine_available data event
  | EVENT_MACHINE_UNAVAILABLE => server_on_event_machine_unavailable data event
  | EVENT_GENERIC => server_on_event_generic data event
  end.

Definition server_on_event_occurred data (m : Msg) : result ServerData :=
  match msg_data m with
  | NoData => null_data
  | EventOccurredMessage _ occurred_events => foldM on_event data occurred_events
  | _ => bad_cast
  end.

(** ** Power states *)

(** The machine is in a computation power state and goes to another one. *)
Definition change_pstate_now (machine_id new_pstate : Z) data : result ServerData :=
  m ← machine_at (c_machines (sd_context data)) machine_id;
  let data := data <| sd_context ::= fun c => c <| c_engine ::= fun e => set_pstate e (m_host m) new_pstate |> |> in
  xbt_assert (get_pstate (c_engine (sd_context data)) (m_host m) =? new_pstate) "pstate inconsistency";;
  '(finished, c) ← mark_switch_as_done englobing_zone (m_id m) (i32 new_pstate) (sd_context data);
  let data := data <| sd_context := c |> in
  match finished with
  | Some all_machines => write (append_resource_state_changed all_machines (fmt_d new_pstate)) data
  | None => Ok data
  end.

Definition start_switch (machine_id : Z) (transition : MachineState) (process : Actor IS Host V) data : result ServerData :=
  data ← on_context (set_machine_state machine_id transition) data;
  Ok (data <| sd_context ::= fun c => (create_actor process c).2 |> <| nb_switching_machines ::= Z.add 1 |>).

(** The type of a power state, with the insertion of [operator[]]. *)
Definition pstate_type_of (machine_id ps : Z) data : result (PStateType * ServerData) :=
  '(t, c) ← machine_pstate_type machine_id ps (sd_context data);
  Ok (t, data <| sd_context := c |>).

Definition modify_machine_pstate (new_pstate : Z) data (machine_id : Z) : result ServerData :=
  m ← machine_at (c_machines (sd_context data)) machine_id;
  let curr_pstate := get_pstate (c_engine (sd_context data)) (m_host m) in
  '(curr_type, data) ← pstate_type_of machine_id curr_pstate data;
  match curr_type with
  | COMPUTATION_PSTATE =>
      '(new_type, data) ← pstate_type_of machine_id new_pstate data;
      match new_type with
      | COMPUTATION_PSTATE => change_pstate_now machine_id new_pstate data
      | SLEEP_PSTATE =>
          start_switch machine_id TRANSITING_FROM_COMPUTING_TO_SLEEPING
            (switch_off_machine_process machine_id (i32 new_pstate)) data
      | TRANSITION_VIRTUAL_PSTATE => Ok data
      end
  | SLEEP_PSTATE =>
      '(new_type, data) ← pstate_type_of machine_id new_pstate data;
      xbt_assert (bool_decide (new_type = COMPUTATION_PSTATE))
        "Switching from a sleep pstate to a non-computation pstate, which is forbidden";;
      start_switch machine_id TRANSITING_FROM_SLEEPING_TO_COMPUTING
        (switch_on_machine_process machine_id (i32 new_pstate)) data
  | TRANSITION_VIRTUAL_PSTATE => Ok data
  end.

(** The negative number that the power state trace shows during a transition. *)
Definition transition_state (t : PStateType) : Z :=
  match t with COMPUTATION_PSTATE => -1 | SLEEP_PSTATE => -2 | TRANSITION_VIRTUAL_PSTATE => -42 end.

Definition trace_states_of_machines data : result ServerData :=
  if trace_machine_states (opts data) then on_context machine_states_entry data else Ok data.

Definition server_on_pstate_modification data (m : Msg) : result ServerData :=
  xbt_assert (energy_used (opts data)) "Batsim has not been launched with energy support";;
  match msg_data m with
  | NoData => null_data
  | PStateModificationMessage machine_ids new_pstate =>
      let data := data <| sd_context ::= fun c => c <| c_current_switches ::= add_switch machine_ids (i32 new_pstate) |> |> in
      data ← on_context energy_add_pstate_change data;
      data ← (if environmental_footprint_used (opts data)
              then on_context (footprint_entry englobing_zone "p") data else Ok data);
      first ← first_element machine_ids;
      '(t, data) ← pstate_type_of first new_pstate data;
      data ← on_context (pstate_entry machine_ids (transition_state t)) data;
      let data := data <| sd_context ::= fun c => c <| c_nb_grouped_switches ::= Z.add 1 |>
                                                 <| c_nb_machine_switches ::= Z.add (is_size machine_ids) |> |> in
      data ← foldM (modify_machine_pstate new_pstate) data (elements_of machine_ids);
      trace_states_of_machines data
  | _ => bad_cast
  end.

Definition server_on_switched data (m : Msg) : result ServerData :=
  match msg_data m with
  | NoData => null_data
  | SwitchMessage machine_id new_pstate =>
      xbt_assert (exists_ (c_machines (sd_context data)) machine_id) "machine does not exist";;
      mach ← machine_at (c_machines (sd_context data)) machine_id;
      xbt_assert (get_pstate (c_engine (sd_context data)) (m_host mach) =? new_pstate) "pstate inconsistency";;
      '(finished, c) ← mark_switch_as_done englobing_zone machine_id (i32 new_pstate) (sd_context data);
      let data := data <| sd_context := c |> in
      data ← (match finished with
              | Some all_machines =>
                  data ← trace_states_of_machines data;
                  write (append_resource_state_changed all_machines (fmt_d new_pstate)) data
              | None => Ok data
              end);
      Ok (data <| nb_switching_machines ::= fun n => n - 1 |>)
  | _ => bad_cast
  end.

(** ** The scheduler *)

Definition server_on_waiting_done data (m : Msg) : result ServerData :=
  data ← write append_requested_call data;
  Ok (data <| nb_waiters ::= fun n => n - 1 |>).

Definition server_on_sched_ready data (m : Msg) : result ServerData :=
  let data := data <| sched_ready := true |> in
  Ok (if end_of_simulation_sent data then data <| end_of_simulation_ack_received := true |> else data).

Definition server_on_sched_wait_answer data (m : Msg) : result ServerData :=
  match msg_data m with
  | NoData => Err (Undef "null pointer dereference")
  | SchedWaitAnswerMessage submitter_name _ _ _ =>
      Ok (data <| sd_context ::= send_message submitter_name SCHED_WAIT_ANSWER (msg_data m) |>)
  | _ => bad_cast
  end.

Definition server_on_sched_tell_me_energy data (m : Msg) : result ServerData :=
  xbt_assert (energy_used (opts data)) "energy simulation is not enabled";;
  let c := sd_context data in
  write (append_answer_energy (total_consumed_energy (c_engine c) (energy_used (opts data)) (c_machines c))) data.

Definition server_on_sched_tell_me_carbon_footprint data (m : Msg) : result ServerData :=
  let used := environmental_footprint_used (opts data) in
  xbt_assert used "environmental footprint simulation is not enabled";;
  let c := sd_context data in
  write (append_answer_carbon_footprint (total_carbon_footprint (c_engine c) used (c_machines c))) data.

Definition server_on_sched_tell_me_water_footprint data (m : Msg) : result ServerData :=
  let used := environmental_footprint_used (opts data) in
  xbt_assert used "environmental footprint simulation is not enabled";;
  let c := sd_context data in
  write (append_answer_water_footprint (total_water_footprint (c_engine c) used (c_machines c))) data.

Definition server_on_wait_query data (m : Msg) : result ServerData :=
  xbt_assert false "Unimplemented! TODO";; Ok data.

(** ** Killed jobs *)

(** One job of the message: its progress is remembered, and when it has really
    been killed its completion is announced. *)
Definition killing_done_job (jobs_progress : gmap string BatTask)
  (acc : gmap string (option BatTask) * ServerData) (job_id : JobIdentifier)
  : result (gmap string (option BatTask) * ServerData) :=
  let '(progress, data) := acc in
  let progress := <[ji_to_string job_id := jobs_progress !! ji_to_string job_id]> progress in
  jp ← job_at (c_workloads (sd_context data)) job_id;
  j ← the_job (sd_context data) jp;
  if bool_decide (state j = JOB_STATE_COMPLETED_KILLED) then
    data ← job_stops data;
    data ← announce_completion jp data;
    Ok (progress, data)
  else Ok (progress, data).

Definition server_on_killing_done data (m : Msg) : result ServerData :=
  match msg_data m with
  | NoData => null_data
  | KillingDoneMessage jobs_ids jobs_progress acknowledge_kill_on_protocol =>
      '(progress, data) ← foldM (killing_done_job jobs_progress) (∅, data) jobs_ids;
      data ← (if acknowledge_kill_on_protocol : bool
              then write (append_job_killed (s_profiles (c_store (sd_context data))) (ji_to_string <$> jobs_ids) progress) data
              else Ok data);
      Ok (data <| nb_killers ::= fun n => n - 1 |>)
  | _ => bad_cast
  end.

Definition server_on_end_dynamic_register data (m : Msg) : result ServerData :=
  Ok (data <| sd_context ::= fun c => c <| c_registration_sched_finished := true |> |>).
Definition server_on_continue_dynamic_register data (m : Msg) : result ServerData :=
  Ok (data <| sd_context ::= fun c => c <| c_registration_sched_finished := false |> |>).

(** ** The loop *)

(** [handler_map] *)
Definition handler (type : IPMessageType) : option (ServerData -> Msg -> result ServerData) :=
  match type with
  | JOB_SUBMITTED => Some server_on_job_submitted
  | JOB_REGISTERED_BY_DP => Some server_on_register_job
  | PROFILE_REGISTERED_BY_DP => Some server_on_register_profile
  | JOB_COMPLETED => Some server_on_job_completed
  | PSTATE_MODIFICATION => Some server_on_pstate_modification
  | SCHED_EXECUTE_JOB => Some server_on_execute_job
  | SCHED_CHANGE_JOB_STATE => Some server_on_change_job_state
  | TO_JOB_MSG => Some server_on_to_job_msg
  | FROM_JOB_MSG => Some server_on_from_job_msg
  | SCHED_REJECT_JOB => Some server_on_reject_job
  | SCHED_KILL_JOB => Some server_on_kill_jobs
  | SCHED_CALL_ME_LATER => Some server_on_call_me_later
  | SCHED_TELL_ME_ENERGY => Some server_on_sched_tell_me_energy
  | SCHED_TELL_ME_CARBON_FOOTPRINT => Some server_on_sched_tell_me_carbon_footprint
  | SCHED_TELL_ME_WATER_FOOTPRINT => Some server_on_sched_tell_me_water_footprint
  | SCHED_SET_JOB_METADATA => Some server_on_set_job_metadata
  | SCHED_WAIT_ANSWER => Some server_on_sched_wait_answer
  | WAIT_QUERY => Some server_on_wait_query
  | SCHED_READY => Some server_on_sched_ready
  | WAITING_DONE => Some server_on_waiting_done
  | KILLING_DONE => Some server_on_killing_done
  | SUBMITTER_HELLO => Some server_on_submitter_hello
  | SUBMITTER_BYE => Some server_on_submitter_bye
  | SWITCHED_ON | SWITCHED_OFF => Some server_on_switched
  | END_DYNAMIC_REGISTER => Some server_on_end_dynamic_register
  | CONTINUE_DYNAMIC_REGISTER => Some server_on_continue_dynamic_register
  | EVENT_OCCURRED => Some server_on_event_occurred
  | SUBMITTER_CALLBACK => None
  end.

Definition generate_and_send_message data : result ServerData :=
  '(send_buffer, w) ← generate_current_message (time_of data) (c_proto_writer (sd_context data));
  let c := sd_context data <| c_proto_writer := clear_writer w |> in
  Ok (data <| sd_context := (create_actor (request_reply_scheduler_process send_buffer) c).2 |>
           <| sched_ready := false |>).

Definition is_simulation_finished data : bool :=
  all_submitters_finished (job_submitter_counters data) &&
  all_submitters_finished (event_submitter_counters data) &&
  (negb (registration_sched_enabled (opts data)) || c_registration_sched_finished (sd_context data)) &&
  (nb_completed_jobs data =? nb_submitted_jobs data) &&
  (nb_running_jobs data =? 0) && (nb_switching_machines data =? 0) &&
  (nb_waiters data =? 0) && (nb_killers data =? 0).

(** The depth of the stack that the removal of profiles may use. *)
Context (stack_depth : nat).

Definition delete_completed_jobs data : result ServerData :=
  match jobs_to_be_deleted data with
  | [] => Ok data
  | job_ids =>
      ws ← delete_jobs stack_depth (c_store (sd_context data)) job_ids (garbage_collect_profiles (opts data))
             (c_workloads (sd_context data));
      Ok (data <| sd_context ::= fun c => c <| c_workloads := ws |> |> <| jobs_to_be_deleted := [] |>)
  end.

(** What follows the handling of a message. *)
Definition talk_to_scheduler (mailbox_empty : bool) data : result ServerData :=
  if sched_ready data && negb (end_of_simulation_ack_received data) && mailbox_empty then
    if negb (is_empty_writer (c_proto_writer (sd_context data))) then
      data ← generate_and_send_message data;
      delete_completed_jobs data
    else if is_simulation_finished data && negb (end_of_simulation_sent data) then
      data ← write append_simulation_ends data;
      data ← generate_and_send_message data;
      Ok (data <| end_of_simulation_sent := true |>)
    else Ok data
  else Ok data.

Definition handle_message data (m : Msg) : result ServerData :=
  h ← of_option (Abort "The server does not know how to handle this message type.") (handler (msg_type m));
  h data m.

(** One iteration: the message that has been received, and whether the mailbox
    is empty after it has been handled. *)
Definition server_iteration data (input : Msg * bool) : result ServerData :=
  data ← handle_message data input.1;
  talk_to_scheduler input.2 data.

(** The server also waits in the middle of an iteration, when it sends a message back
    to a submitter: until the submitter has received it.  These are the iterations in
    two parts; what is left after the message has been sent. *)
Inductive pending := Handling (m : Msg) | Handled.

(** The mailbox of the message that is sent back during the handling of [m], and the
    data at that time; the submitter of a job is told of its completion once. *)
Definition sends_back data (m : Msg) : result (option (string * ServerData * pending)) :=
  match msg_type m, msg_data m with
  | JOB_COMPLETED, JobCompletedMessage jp =>
      j ← the_job (sd_context data) jp;
      match origin_of_jobs data !! ji_to_string (id j) with
      | None => Ok None
      | Some ptr =>
          submitter ← of_option (Undef "use of a deleted Submitter") (submitter_heap data !! ptr);
          data ← call_submitter_back (id j) data;
          Ok (Some (mailbox submitter, data, Handling m))
      end
  | SCHED_WAIT_ANSWER, SchedWaitAnswerMessage submitter_name _ _ _ =>
      data ← handle_message data m;
      Ok (Some (submitter_name, data, Handled))
  | _, _ => Ok None
  end.

Definition goes_on data (p : pending) (mailbox_empty : bool) : result ServerData :=
  match p with
  | Handling m => server_iteration data (m, mailbox_empty)
  | Handled => talk_to_scheduler mailbox_empty data
  end.

(** [server_process] until its loop. *)
Definition initial_data (c : Ctx) : ServerData :=
  mk_ServerData c 0 0 0 0 0 0 0 true false false ∅ ∅ 1 new_SubmitterCounters new_SubmitterCounters ∅ [].

Definition server_start (c : Ctx) : result ServerData :=
  let data := initial_data c in
  data ← write (append_simulation_begins (c_machines c) (s_profiles (c_store c)) (c_workloads c) (c_config_json c)
                  (allow_compute_sharing (c_options c)) (allow_storage_sharing (c_options c))) data;
  data ← generate_and_send_message data;
  let data := data <| job_submitter_counters ::= fun k => k <| expected_nb_submitters := nb_static_workloads (c_workloads c) |> |> in
  Ok (data <| event_submitter_counters ::=
         fun k => k <| expected_nb_submitters := u32 (Z.of_nat (size (c_event_lists c))) |> |>).

(** The loop, on the messages that the server receives. *)
Fixpoint server_loop (inputs : list (Msg * bool)) data : result ServerData :=
  if end_of_simulation_ack_received data then Ok data
  else match inputs with
       | [] => Ok data
       | input :: inputs => data ← server_iteration data input; server_loop inputs data
       end.

(** The checks after the loop. *)
Definition server_end data : result unit :=
  xbt_assert (end_of_simulation_sent data) "the SIMULATION_ENDS message has not been sent to the scheduler.";;
  xbt_assert (end_of_simulation_ack_received data) "the decision process did not ACK the SIMULATION_ENDS message.";;
  xbt_assert (sched_ready data) "a call to the decision process is ongoing.";;
  xbt_assert (nb_running_jobs data =? 0) "some jobs are running.";;
  xbt_assert (nb_switching_machines data =? 0) "some machines are being switched.";;
  xbt_assert (nb_killers data =? 0) "some killer processes are running.";;
  xbt_assert (nb_waiters data =? 0) "some waiter processes are running.";;
  xbt_assert (nb_completed_jobs data =? nb_submitted_jobs data) "All submitted jobs have not been completed".
End Server.
Arguments ServerData : clear implicits.
Arguments Handling {IS Host}. Arguments Handled {IS Host}.
