(* ===== verification/Actors.v ===== *)
(** * Processes that block

    A process of the simulation (a SimGrid actor) runs without being interrupted
    until it asks the engine to wait: for a while, for a parallel task, for a
    message.  What the processes share may have changed when it runs again.  A
    computation of such a process takes the shared state and gives either its
    result or the request it waits on, with what it will do of the answer. *)

From S2P Require Import Prelude Interfaces Profiles Jobs Ipp.

Inductive ptask_outcome := PtaskFinished | PtaskTimeout | PtaskCancelled.
#[export] Instance ptask_outcome_eq_dec : EqDecision ptask_outcome.
Proof. solve_decision. Defined.

(** The blocking calls of the engine that the code uses.  A message is in its
    mailbox from the call on; [put_message] waits until it has been received, being
    the last one of the [nb_messages] first messages of the mailbox. *)
Inductive blocking (IS Host : Type) :=
| sleep_for (duration : Q)
| execute (flops : Q)
| wait_ptask (hosts : list Host) (computation communication : list Q) (timeout : option Q)
| mailbox_get (mailbox : string) (timeout : option Q)
| mailbox_put (mailbox : string) (rank : Z)
| put_message (destination_mailbox : string) (nb_messages : nat)
| await_message (reception_mailbox : string).
Arguments sleep_for {IS Host}. Arguments execute {IS Host}. Arguments wait_ptask {IS Host}.
Arguments mailbox_get {IS Host}. Arguments mailbox_put {IS Host}. Arguments put_message {IS Host}. Arguments await_message {IS Host}.

(** What the engine answers: nothing, how the task ended, the rank received
    ([None] when the timeout is reached), the data of the message received. *)
Definition answer {IS Host} (b : blocking IS Host) : Type :=
  match b with
  | sleep_for _ | execute _ | mailbox_put _ _ | put_message _ _ => unit
  | wait_ptask _ _ _ _ => ptask_outcome
  | mailbox_get _ _ => option Z
  | await_message _ => MessageData IS Host
  end.

Section Process.
Context {C IS Host : Type}.

Inductive proc (A : Type) :=
| Done (a : A)
| Waiting (b : blocking IS Host) (resume : answer b -> C -> result (C * proc A)).
Arguments Done {A}. Arguments Waiting {A}.

(** A computation of a process. *)
Definition M (A : Type) := C -> result (C * proc A).

Fixpoint proc_bind {A B} (f : A -> M B) (p : proc A) (c : C) : result (C * proc B) :=
  match p with
  | Done a => f a c
  | Waiting b resume =>
      Ok (c, Waiting b (fun ans c =>
        match resume ans c with
        | Ok (c, p) => proc_bind f p c
        | Err e => Err e
        end))
  end.

Definition mbind {A B} (m : M A) (f : A -> M B) : M B := fun c =>
  match m c with Ok (c, p) => proc_bind f p c | Err e => Err e end.
Definition ret {A} (a : A) : M A := fun c => Ok (c, Done a).
Definition fail {A} (e : error) : M A := fun _ => Err e.
Definition get : M C := fun c => Ok (c, Done c).
Definition modify (f : C -> C) : M unit := fun c => Ok (f c, Done tt).
Definition change (f : C -> result C) : M unit := fun c => c ← f c; Ok (c, Done tt).
Definition read {A} (f : C -> result A) : M A := fun c => a ← f c; Ok (c, Done a).
Definition block (b : blocking IS Host) : M (answer b) := fun c =>
  Ok (c, Waiting b (fun ans c => Ok (c, Done ans))).
Definition assert_ (b : bool) (msg : string) : M unit := read (fun _ => xbt_assert b msg).

(** [try ... catch], when the handler throws again: an error becomes what [handler]
    makes of it and of the state in which the process was last resumed. *)
Fixpoint proc_catching {A} (handler : error -> C -> error) (p : proc A) : proc A :=
  match p with
  | Done a => Done a
  | Waiting b resume => Waiting b (fun ans c =>
      match resume ans c with
      | Ok (c', p) => Ok (c', proc_catching handler p)
      | Err e => Err (handler e c)
      end)
  end.
Definition catching {A} (handler : error -> C -> error) (m : M A) : M A := fun c =>
  match m c with Ok (c', p) => Ok (c', proc_catching handler p) | Err e => Err (handler e c) end.
End Process.
Arguments proc : clear implicits.
Arguments M : clear implicits.
Arguments Done {C IS Host A}. Arguments Waiting {C IS Host A}.

Declare Scope process_scope.
Delimit Scope process_scope with process.
Notation "'let*' x := m 'in' k" := (mbind m (fun x => k))
  (at level 10, x binder, m at level 200, k at level 200) : process_scope.
Notation "'let*' ' p := m 'in' k" := (mbind m (fun x => let p := x in k))
  (at level 10, p strict pattern, m at level 200, k at level 200) : process_scope.
Notation "'do*' m 'in' k" := (mbind m (fun _ => k))
  (at level 10, m at level 200, k at level 200) : process_scope.

(** ** Running a process

    The engine and the other processes are an oracle: at each blocking call it
    gives the answer and the state that the process finds when it resumes. *)
Section Run.
Context {C IS Host A : Type}.
Definition oracle := forall b : blocking IS Host, C -> answer b * C.

Fixpoint run (fuel : nat) (env : oracle) (c : C) (p : proc C IS Host A) : result (C * A) :=
  match p with
  | Done a => Ok (c, a)
  | Waiting b resume =>
      match fuel with
      | O => Err (Undef "still waiting")
      | S fuel =>
          let '(ans, c) := env b c in
          match resume ans c with
          | Ok (c, p) => run fuel env c p
          | Err e => Err e
          end
      end
  end.
End Run.

(** ** What a process may do

    [allowed] says which answers the engine may give to a blocking call, and in
    which state the process may then find what it shares. *)
Section Finishes.
Context {C IS Host : Type} (allowed : forall b : blocking IS Host, C -> answer b -> C -> Prop).

Inductive finishes {A : Type} : proc C IS Host A -> C -> A -> C -> Prop :=
| finishes_done a c : finishes (Done a) c a c
| finishes_waiting b resume c ans c1 c2 p a c' :
    allowed b c ans c1 -> resume ans c1 = Ok (c2, p) -> finishes p c2 a c' ->
    finishes (Waiting b resume) c a c'.

Definition runs {A} (m : M C IS Host A) (c : C) (a : A) (c' : C) : Prop :=
  exists c1 p, m c = Ok (c1, p) /\ finishes p c1 a c'.

Lemma finishes_inv {A} (p : proc C IS Host A) c a c' :
  finishes p c a c' ->
  match p with
  | Done a0 => a = a0 /\ c' = c
  | Waiting b resume => exists ans c1 c2 q, allowed b c ans c1 /\ resume ans c1 = Ok (c2, q) /\ finishes q c2 a c'
  end.
Proof. destruct 1; [done|]. by eexists _, _, _, _. Qed.

Lemma finishes_bind {A B} (f : A -> M C IS Host B) p c c1 q b c' :
  proc_bind f p c = Ok (c1, q) -> finishes q c1 b c' ->
  exists a c2, finishes p c a c2 /\ runs (f a) c2 b c'.
Proof.
  revert p c c1 q. fix IH 1. intros [a|bl resume] c c1 q; cbn [proc_bind].
  - intros Hf Hq. exists a, c. split; [constructor|]. by exists c1, q.
  - intros [= <- <-] (ans & c2 & c3 & q' & Hal & Hr & Hq)%finishes_inv.
    destruct (resume ans c2) as [[c4 p]|e] eqn:E; [|done].
    destruct (IH p c4 c3 q' Hr Hq) as (a & c5 & Hp & Hrun).
    exists a, c5. split; [by econstructor|done].
Qed.

(** *** Errors *)

(** The process ends in an error, in the segment where it was last resumed in the
    state [c']. *)
Inductive fails {A : Type} : proc C IS Host A -> C -> error -> C -> Prop :=
| fails_now b resume c ans c1 e : allowed b c ans c1 -> resume ans c1 = Err e -> fails (Waiting b resume) c e c1
| fails_later b resume c ans c1 c2 p e c' :
    allowed b c ans c1 -> resume ans c1 = Ok (c2, p) -> fails p c2 e c' -> fails (Waiting b resume) c e c'.

Definition breaks {A} (m : M C IS Host A) (c : C) (e : error) (c' : C) : Prop :=
  m c = Err e /\ c' = c \/ exists c1 p, m c = Ok (c1, p) /\ fails p c1 e c'.

Lemma fails_inv {A} (p : proc C IS Host A) c e c' :
  fails p c e c' ->
  match p with
  | Done _ => False
  | Waiting b resume => exists ans c1, allowed b c ans c1 /\
      (resume ans c1 = Err e /\ c' = c1 \/ exists c2 q, resume ans c1 = Ok (c2, q) /\ fails q c2 e c')
  end.
Proof.
  destruct 1 as [b resume c ans c1 e Ha Hr|b resume c ans c1 c2 p e c' Ha Hr Hf]; exists ans, c1; (split; [done|]);
    [by left|right; by exists c2, p].
Qed.

Lemma fails_catching {A} (h : error -> C -> error) (p : proc C IS Host A) : forall c e c',
  fails (proc_catching h p) c e c' <-> exists e0, fails p c e0 c' /\ e = h e0 c'.
Proof.
  revert p. fix IH 1. destruct p as [a|b resume]; intros c e c'; cbn [proc_catching].
  - split; [by intros ?%fails_inv|]. by intros (e0 & ?%fails_inv & _).
  - split.
    + intros (ans & c1 & Ha & Hr)%fails_inv. destruct (resume ans c1) as [[c2 p]|e0] eqn:E.
      * destruct Hr as [[? _]|(c3 & q & [= <- <-] & Hf)]; [done|]. apply (IH p) in Hf as (e0 & Hf & ->).
        exists e0. split; [by eapply fails_later|done].
      * destruct Hr as [[[= <-] ->]|(c3 & q & ? & _)]; [|done]. exists e0. split; [by eapply fails_now|done].
    + intros (e0 & (ans & c1 & Ha & Hr)%fails_inv & ->). destruct (resume ans c1) as [[c2 p]|e1] eqn:E.
      * destruct Hr as [[? _]|(c3 & q & [= <- <-] & Hf)]; [done|].
        eapply fails_later; [exact Ha|by rewrite E|]. apply (IH p). by exists e0.
      * destruct Hr as [[[= <-] ->]|(c3 & q & ? & _)]; [|done]. eapply fails_now; [exact Ha|by rewrite E].
Qed.

(** The handler sees every error, and nothing else. *)
Lemma breaks_catching {A} (h : error -> C -> error) (m : M C IS Host A) c e c' :
  breaks (catching h m) c e c' <-> exists e0, breaks m c e0 c' /\ e = h e0 c'.
Proof.
  unfold breaks, catching. destruct (m c) as [[c1 p]|e1]; split.
  - intros [[? _]|(c2 & q & [= <- <-] & Hf)]; [done|]. apply fails_catching in Hf as (e0 & Hf & ->).
    exists e0. split; [right; by exists c1, p|done].
  - intros (e0 & [[? _]|(c2 & q & [= <- <-] & Hf)] & ->); [done|]. right. eexists _, _. split; [done|].
    apply fails_catching. by exists e0.
  - intros [[[= <-] ->]|(c2 & q & ? & _)]; [|done]. exists e1. split; [by left|done].
  - intros (e0 & [[[= <-] ->]|(c2 & q & ? & _)] & ->); [by left|done].
Qed.

Lemma finishes_catching {A} (h : error -> C -> error) (p : proc C IS Host A) : forall c a c',
  finishes (proc_catching h p) c a c' <-> finishes p c a c'.
Proof.
  revert p. fix IH 1. destruct p as [a0|b resume]; intros c a c'; cbn [proc_catching]; [done|]. split.
  - intros (ans & c1 & c2 & q & Ha & Hr & Hf)%finishes_inv. destruct (resume ans c1) as [[c3 p]|e] eqn:E; [|done].
    injection Hr as <- <-. apply (IH p) in Hf. by econstructor.
  - intros (ans & c1 & c2 & q & Ha & Hr & Hf)%finishes_inv. destruct (resume ans c1) as [[c3 p]|e] eqn:E; [|done].
    injection Hr as <- <-. apply (IH p) in Hf. econstructor; [exact Ha|by rewrite E|done].
Qed.

Lemma runs_catching {A} (h : error -> C -> error) (m : M C IS Host A) c a c' :
  runs (catching h m) c a c' <-> runs m c a c'.
Proof.
  unfold runs, catching. destruct (m c) as [[c1 p]|e]; split; intros (c2 & q & E & Hf); try done; injection E as <- <-.
  - exists c1, p. split; [done|]. by apply finishes_catching in Hf.
  - eexists _, _. split; [done|]. by apply finishes_catching.
Qed.

(** Running against an oracle whose answers are allowed. *)
Lemma run_finishes {A} fuel (env : @oracle C IS Host) c (p : proc C IS Host A) c' a :
  (forall b c, allowed b c (env b c).1 (env b c).2) -> run fuel env c p = Ok (c', a) -> finishes p c a c'.
Proof.
  intros Henv. revert p c; induction fuel as [|fuel IH]; intros [a0|b resume] c; cbn [run];
    [intros [= <- <-]; constructor|done|intros [= <- <-]; constructor|].
  specialize (Henv b c). destruct (env b c) as [ans c1]. destruct (resume ans c1) as [[c2 p]|e] eqn:Hr; [|done].
  intros Hrun. econstructor; [exact Henv|exact Hr|by apply IH].
Qed.

Lemma runs_mbind {A B} (m : M C IS Host A) (f : A -> M C IS Host B) c b c' :
  runs (mbind m f) c b c' -> exists a c1, runs m c a c1 /\ runs (f a) c1 b c'.
Proof.
  intros (c1 & q & Hm & Hq). unfold mbind in Hm. destruct (m c) as [[c2 p]|] eqn:E; [|done].
  destruct (finishes_bind f p c2 c1 q b c' Hm Hq) as (a & c3 & Hp & Hf).
  exists a, c3. split; [by exists c2, p|done].
Qed.

Lemma runs_ret {A} (x : A) c a c' : runs (ret x) c a c' -> a = x /\ c' = c.
Proof. intros (c1 & p & [= <- <-] & Hf%finishes_inv). done. Qed.

Lemma runs_read {A} (f : C -> result A) c a c' : runs (read f) c a c' -> f c = Ok a /\ c' = c.
Proof.
  intros (c1 & p & Hr & Hf). unfold read in Hr. apply bind_Ok in Hr as (x & Hx & [= <- <-]).
  apply finishes_inv in Hf as [-> ->]. done.
Qed.

Lemma runs_get c a c' : runs get c a c' -> a = c /\ c' = c.
Proof. intros (c1 & p & [= <- <-] & Hf%finishes_inv). done. Qed.

Lemma runs_change (f : C -> result C) c u c' : runs (change f) c u c' -> f c = Ok c'.
Proof.
  intros (c1 & p & Hr & Hf). unfold change in Hr. apply bind_Ok in Hr as (x & Hx & [= <- <-]).
  apply finishes_inv in Hf as [_ ->]. done.
Qed.

Lemma runs_block (b : blocking IS Host) c ans c' : runs (block b) c ans c' -> allowed b c ans c'.
Proof.
  intros (c1 & p & [= <- <-] & Hf). apply finishes_inv in Hf as (ans' & c2 & c3 & q & Hal & [= <- <-] & Hq).
  by apply finishes_inv in Hq as [-> ->].
Qed.

Lemma runs_fail {A} e c (a : A) c' : runs (fail e) c a c' -> False.
Proof. by intros (c1 & p & Hr & _). Qed.

Lemma runs_assert b msg c u c' : runs (assert_ b msg) c u c' -> b = true /\ c' = c.
Proof. intros [Hb ->]%runs_read. by apply xbt_assert_Ok in Hb. Qed.
End Finishes.

(** ** Computations that return

    Against the oracle [env], the computation [m] waits [n] times at most and then
    gives its result. *)
Section Returns.
Context {C IS Host : Type} (env : @oracle C IS Host).

Definition returns {A} (n : nat) (m : M C IS Host A) (c : C) (a : A) (c' : C) : Prop :=
  exists c1 p, m c = Ok (c1, p) /\ run n env c1 p = Ok (c', a).

Lemma run_more {A} n k (p : proc C IS Host A) c c' a :
  run n env c p = Ok (c', a) -> run (n + k) env c p = Ok (c', a).
Proof.
  revert p c; induction n as [|n IH]; intros [a0|b resume] c; cbn [run Nat.add]; [by destruct k|done|done|].
  destruct (env b c) as [ans c1]. destruct (resume ans c1) as [[c2 p]|e]; [apply IH|done].
Qed.

Lemma run_bind {A B} (f : A -> M C IS Host B) n k (p : proc C IS Host A) c c1 a c' b :
  run n env c p = Ok (c1, a) -> returns k (f a) c1 b c' ->
  exists c2 q, proc_bind f p c = Ok (c2, q) /\ run (n + k) env c2 q = Ok (c', b).
Proof.
  revert p c; induction n as [|n IH]; intros [a0|bl resume] c; cbn [run proc_bind]; [| |intros [= -> ->]|]; try done.
  - intros [= -> ->] Hr. exact Hr.
  - intros (c2 & q & Hf & Hr). exists c2, q. split; [done|]. rewrite Nat.add_comm. by apply run_more.
  - destruct (env bl c) as [ans c2] eqn:He. destruct (resume ans c2) as [[c3 p]|e] eqn:Hres; [|done].
    intros Hp Hk. destruct (IH p c3 Hp Hk) as (c4 & q & Hq & Hrun).
    eexists _, _. split; [done|]. cbn [run Nat.add]. by rewrite He, Hres, Hq.
Qed.

Lemma returns_mbind {A B} n k (m : M C IS Host A) (f : A -> M C IS Host B) c a c1 b c' :
  returns n m c a c1 -> returns k (f a) c1 b c' -> returns (n + k) (mbind m f) c b c'.
Proof. intros (c2 & p & Hm & Hp) Hf. unfold returns, mbind. rewrite Hm. by eapply run_bind. Qed.

Lemma returns_ret {A} (a : A) c : returns 0 (ret a) c a c.
Proof. by exists c, (Done a). Qed.

Lemma returns_read {A} (f : C -> result A) c a : f c = Ok a -> returns 0 (read f) c a c.
Proof. intros Hf. exists c, (Done a). unfold read. by rewrite Hf. Qed.

Lemma returns_more {A} n k (m : M C IS Host A) c a c' : returns n m c a c' -> returns (n + k) m c a c'.
Proof. intros (c1 & p & Hm & Hp). exists c1, p. split; [done|]. by apply run_more. Qed.

Lemma returns_block (b : blocking IS Host) c : returns 1 (block b) c (env b c).1 (env b c).2.
Proof. eexists _, _. split; [done|]. cbn. by destruct (env b c). Qed.
End Returns.

(** ** Computations that always end well

    [allowed s b c ans c1 s1]: in the state [s] of the environment, the blocking
    call [b] may be answered by [ans], with the shared state going from [c] to [c1]
    and the environment to [s1].  [wp m Q c s]: whatever the environment does, [m]
    never fails, waits a finite number of times, and [Q] holds in the end. *)
Section Ensures.
Context {C IS Host S : Type} (allowed : S -> forall b : blocking IS Host, C -> answer b -> C -> S -> Prop).

Inductive ensures {A} (Q : A -> C -> S -> Prop) : proc C IS Host A -> C -> S -> Prop :=
| ensures_done a c s : Q a c s -> ensures Q (Done a) c s
| ensures_waiting b resume c s :
    (forall ans c1 s1, allowed s b c ans c1 s1 -> is_ok (resume ans c1) = true) ->
    (forall ans c1 s1 c2 p, allowed s b c ans c1 s1 -> resume ans c1 = Ok (c2, p) -> ensures Q p c2 s1) ->
    ensures Q (Waiting b resume) c s.

Definition wp {A} (m : M C IS Host A) (Q : A -> C -> S -> Prop) (c : C) (s : S) : Prop :=
  exists c1 p, m c = Ok (c1, p) /\ ensures Q p c1 s.

Lemma ensures_bind {A B} (f : A -> M C IS Host B) Q p c s :
  ensures (fun a c s => wp (f a) Q c s) p c s ->
  exists c1 q, proc_bind f p c = Ok (c1, q) /\ ensures Q q c1 s.
Proof.
  induction 1 as [a c s Hf|b resume c s Hok Hnext IH]; cbn [proc_bind]; [exact Hf|].
  eexists _, _. split; [done|]. constructor.
  - intros ans c1 s1 Hal. specialize (Hok _ _ _ Hal). destruct (resume ans c1) as [[c2 p]|] eqn:Hr; [|done].
    by destruct (IH _ _ _ _ _ Hal Hr) as (c3 & q & -> & _).
  - intros ans c1 s1 c2 q Hal. specialize (Hok _ _ _ Hal). destruct (resume ans c1) as [[c3 p]|] eqn:Hr; [|done].
    destruct (IH _ _ _ _ _ Hal Hr) as (c4 & q' & -> & He). by intros [= <- <-].
Qed.

Lemma wp_mbind {A B} (m : M C IS Host A) (f : A -> M C IS Host B) Q c s :
  wp m (fun a c s => wp (f a) Q c s) c s -> wp (mbind m f) Q c s.
Proof. intros (c1 & p & Hm & He). unfold wp, mbind. rewrite Hm. by apply ensures_bind. Qed.

Lemma ensures_mono {A} (Q Q' : A -> C -> S -> Prop) p c s :
  (forall a c s, Q a c s -> Q' a c s) -> ensures Q p c s -> ensures Q' p c s.
Proof. intros HQ. induction 1; constructor; eauto. Qed.

Lemma wp_mono {A} (Q Q' : A -> C -> S -> Prop) (m : M C IS Host A) c s :
  wp m Q c s -> (forall a c s, Q a c s -> Q' a c s) -> wp m Q' c s.
Proof. intros (c1 & p & Hm & He) HQ. exists c1, p. split; [done|]. by eapply ensures_mono. Qed.

Lemma wp_ret {A} (a : A) (Q : A -> C -> S -> Prop) c s : Q a c s -> wp (ret a) Q c s.
Proof. intros HQ. exists c, (Done a). split; [done|]. by constructor. Qed.

(** The same computation from another state. *)
Lemma wp_same {A} (m m' : M C IS Host A) (Q : A -> C -> S -> Prop) c c' s : m c = m' c' -> wp m' Q c' s -> wp m Q c s.
Proof. unfold wp. by intros ->. Qed.

(** A computation that does not block. *)
Lemma wp_now {A} (m : M C IS Host A) (a : A) (Q : A -> C -> S -> Prop) c c1 s :
  m c = Ok (c1, Done a) -> Q a c1 s -> wp m Q c s.
Proof. intros Hm HQ. exists c1, (Done a). split; [done|]. by constructor. Qed.

Lemma mbind_now {A B} (m : M C IS Host A) (f : A -> M C IS Host B) a c c1 :
  m c = Ok (c1, Done a) -> mbind m f c = f a c1.
Proof. intros Hm. unfold mbind. by rewrite Hm. Qed.

Lemma wp_read {A} (f : C -> result A) (a : A) (Q : A -> C -> S -> Prop) c s : f c = Ok a -> Q a c s -> wp (read f) Q c s.
Proof. intros Hf. apply wp_now. unfold read. by rewrite Hf. Qed.

Lemma wp_change (f : C -> result C) (Q : unit -> C -> S -> Prop) c c1 s : f c = Ok c1 -> Q tt c1 s -> wp (change f) Q c s.
Proof. intros Hf. apply wp_now. unfold change. by rewrite Hf. Qed.

Lemma wp_block (b : blocking IS Host) (Q : answer b -> C -> S -> Prop) c s :
  (forall ans c1 s1, allowed s b c ans c1 s1 -> Q ans c1 s1) -> wp (block b) Q c s.
Proof.
  intros HQ. eexists _, _. split; [done|]. constructor; [done|].
  intros ans c1 s1 c2 p Hal [= <- <-]. constructor. by apply HQ.
Qed.
End Ensures.

(** ** Computations that end, well or with an error

    [wlp m Q c s]: whatever the environment does, [m] waits a finite number of
    times and fails, or ends and [Q] holds then. *)
Section Settles.
Context {C IS Host S : Type} (allowed : S -> forall b : blocking IS Host, C -> answer b -> C -> S -> Prop).

Inductive settles {A} (Q : A -> C -> S -> Prop) : proc C IS Host A -> C -> S -> Prop :=
| settles_done a c s : Q a c s -> settles Q (Done a) c s
| settles_waiting b resume c s :
    (forall ans c1 s1 c2 p, allowed s b c ans c1 s1 -> resume ans c1 = Ok (c2, p) -> settles Q p c2 s1) ->
    settles Q (Waiting b resume) c s.

Definition wlp {A} (m : M C IS Host A) (Q : A -> C -> S -> Prop) (c : C) (s : S) : Prop :=
  forall c1 p, m c = Ok (c1, p) -> settles Q p c1 s.

Lemma settles_bind {A B} (f : A -> M C IS Host B) Q p c s c1 q :
  settles (fun a c s => wlp (f a) Q c s) p c s -> proc_bind f p c = Ok (c1, q) -> settles Q q c1 s.
Proof.
  intros Hs. revert c1 q. induction Hs as [a c s Hf|b resume c s _ IH]; intros c1 q; cbn [proc_bind]; [apply Hf|].
  intros [= <- <-]. constructor. intros ans c1 s1 c2 q Hal. destruct (resume ans c1) as [[c3 p]|] eqn:Hr; [|done].
  by apply (IH _ _ _ _ _ Hal Hr).
Qed.

Lemma wlp_mbind {A B} (m : M C IS Host A) (f : A -> M C IS Host B) Q c s :
  wlp m (fun a c s => wlp (f a) Q c s) c s -> wlp (mbind m f) Q c s.
Proof.
  intros Hm c1 q. unfold mbind. destruct (m c) as [[c2 p]|] eqn:Hr; [|done].
  apply settles_bind. by apply Hm.
Qed.

Lemma wlp_mono {A} (Q Q' : A -> C -> S -> Prop) (m : M C IS Host A) c s :
  wlp m Q c s -> (forall a c s, Q a c s -> Q' a c s) -> wlp m Q' c s.
Proof.
  intros Hm HQ c1 p Hp. specialize (Hm _ _ Hp). clear Hp. induction Hm; constructor; eauto.
Qed.

Lemma wlp_ret {A} (a : A) (Q : A -> C -> S -> Prop) c s : Q a c s -> wlp (ret a) Q c s.
Proof. intros HQ c1 p [= <- <-]. by constructor. Qed.

Lemma wlp_read {A} (f : C -> result A) (Q : A -> C -> S -> Prop) c s :
  (forall a, f c = Ok a -> Q a c s) -> wlp (read f) Q c s.
Proof. intros HQ c1 p (a & Ha & [= <- <-])%bind_Ok. constructor. by apply HQ. Qed.

Lemma wlp_change (f : C -> result C) (Q : unit -> C -> S -> Prop) c s :
  (forall c1, f c = Ok c1 -> Q tt c1 s) -> wlp (change f) Q c s.
Proof. intros HQ c1 p (c2 & Hc & [= <- <-])%bind_Ok. constructor. by apply HQ. Qed.

Lemma wlp_block (b : blocking IS Host) (Q : answer b -> C -> S -> Prop) c s :
  (forall ans c1 s1, allowed s b c ans c1 s1 -> Q ans c1 s1) -> wlp (block b) Q c s.
Proof.
  intros HQ c1 p [= <- <-]. constructor. intros ans c1 s1 c2 p Hal [= <- <-]. constructor. by apply HQ.
Qed.
End Settles.

(** Decomposes what a run of a process says of its steps. *)
Ltac inv_run :=
  repeat match goal with
  | H : runs _ (mbind _ _) _ _ _ |- _ => apply runs_mbind in H as (?&?&?&?)
  | H : runs _ (ret _) _ _ _ |- _ => apply runs_ret in H as [? ?]; subst
  | H : runs _ (fail _) _ _ _ |- _ => by apply runs_fail in H
  | H : runs _ (assert_ _ _) _ _ _ |- _ => apply runs_assert in H as [? ?]; subst
  | H : runs _ (let '(_, _) := ?p in _) _ _ _ |- _ => destruct p
  end.
