(* ===== verification/Guarantee.v ===== *)
(** * What a process guarantees to the others

    A process runs in segments, between its blocking calls; the others see the
    shared state before and after each segment.  [does m Q g c]: with the ghost
    state [g], each segment of [m] changes the shared state as [guar] says, whatever
    the answers to its blocking calls and whatever the others do meanwhile, as long
    as they keep [pre]; [asks] holds of each blocking call, when it is made; [Q] holds
    if [m] ends. *)

From S2P Require Import Prelude Interfaces Profiles Jobs Ipp Actors.

Create HintDb guarantee.

(** The relations of a rely-guarantee reasoning: [guar] composes, and keeps [pre]. *)
Class Protocol {C G : Type} (pre : G -> C -> Prop) (guar : G -> C -> C -> G -> Prop) : Prop := {
  guar_refl g c : guar g c c g;
  guar_trans g1 c1 g2 c2 g3 c3 : guar g1 c1 c2 g2 -> guar g2 c2 c3 g3 -> guar g1 c1 c3 g3;
  guar_pre g c g' c' : guar g c c' g' -> pre g c -> pre g' c';
}.

Section Does.
Context {C IS Host G : Type} (asks : C -> blocking IS Host -> Prop).
Context (pre : G -> C -> Prop) (guar : G -> C -> C -> G -> Prop) `{!Protocol pre guar}.

Fixpoint conforms {A} (Q : A -> C -> G -> Prop) (g : G) (c : C) (p : proc C IS Host A) : Prop :=
  match p with
  | Done a => Q a c g
  | Waiting b resume => asks c b /\ forall ans c1, pre g c1 ->
      match resume ans c1 with
      | Ok (c2, p) => exists g', guar g c1 c2 g' /\ conforms Q g' c2 p
      | Err _ => True
      end
  end.

(** A process that is blocked, whatever the data. *)
Definition resumes {A} (Q : A -> C -> G -> Prop) (g : G) (p : proc C IS Host A) : Prop :=
  match p with
  | Done _ => False
  | Waiting b resume => forall ans c1, pre g c1 ->
      match resume ans c1 with
      | Ok (c2, p) => exists g', guar g c1 c2 g' /\ conforms Q g' c2 p
      | Err _ => True
      end
  end.

Lemma conforms_waiting {A} (Q : A -> C -> G -> Prop) g c b resume :
  conforms Q g c (Waiting b resume) <-> asks c b /\ resumes Q g (Waiting b resume).
Proof. done. Qed.

Definition does {A} (m : M C IS Host A) (Q : A -> C -> G -> Prop) (g : G) (c : C) : Prop :=
  pre g c -> forall c' p, m c = Ok (c', p) -> exists g', guar g c c' g' /\ conforms Q g' c' p.

(** The segment that follows an answer. *)
Lemma conforms_resume {A} (Q : A -> C -> G -> Prop) g b resume ans c1 c2 p :
  resumes Q g (Waiting b resume) -> pre g c1 -> resume ans c1 = Ok (c2, p) ->
  exists g', guar g c1 c2 g' /\ conforms Q g' c2 p.
Proof. intros Hw Hpre Hr. specialize (Hw ans c1 Hpre). by rewrite Hr in Hw. Qed.

Lemma conforms_mono {A} (Q Q' : A -> C -> G -> Prop) p : forall g c,
  (forall a c g, Q a c g -> Q' a c g) -> conforms Q g c p -> conforms Q' g c p.
Proof.
  revert p. fix IH 1. destruct p as [a|b resume]; intros g c HQ; cbn [conforms]; [apply HQ|].
  intros [Hb Hw]. split; [exact Hb|]. intros ans c1 Hpre. specialize (Hw ans c1 Hpre).
  destruct (resume ans c1) as [[c2 p]|e]; [|done].
  destruct Hw as (g' & Hg & Hc). exists g'. split; [done|]. by apply IH.
Qed.

Lemma conforms_bind {A B} (f : A -> M C IS Host B) Q p : forall g c c' q,
  conforms (fun a c g => does (f a) Q g c) g c p -> pre g c -> proc_bind f p c = Ok (c', q) ->
  exists g', guar g c c' g' /\ conforms Q g' c' q.
Proof.
  revert p. fix IH 1. destruct p as [a|b resume]; intros g c c' q; cbn [conforms proc_bind].
  - intros Hf Hpre. by apply Hf.
  - intros [Hb Hw] _ [= <- <-]. exists g. split; [apply guar_refl|]. split; [exact Hb|].
    intros ans c1 Hpre. specialize (Hw ans c1 Hpre).
    destruct (resume ans c1) as [[c2 p]|e]; [|done]. destruct Hw as (g1 & Hg1 & Hc).
    destruct (proc_bind f p c2) as [[c3 r]|e] eqn:Hbind; [|done].
    destruct (IH p g1 c2 c3 r Hc (guar_pre _ _ _ _ Hg1 Hpre) Hbind) as (g2 & Hg2 & Hr).
    exists g2. split; [by eapply guar_trans|done].
Qed.

Lemma does_mbind {A B} (m : M C IS Host A) (f : A -> M C IS Host B) Q g c :
  does m (fun a c g => does (f a) Q g c) g c -> does (mbind m f) Q g c.
Proof.
  intros Hm Hpre c' q. unfold mbind. destruct (m c) as [[c1 p]|e] eqn:E; [|done]. intros Hb.
  destruct (Hm Hpre c1 p E) as (g1 & Hg1 & Hc).
  destruct (conforms_bind f Q p g1 c1 c' q Hc (guar_pre _ _ _ _ Hg1 Hpre) Hb) as (g2 & Hg2 & Hq).
  exists g2. split; [by eapply guar_trans|done].
Qed.

Lemma does_mono {A} (m : M C IS Host A) (Q Q' : A -> C -> G -> Prop) g c :
  does m Q g c -> (forall a c g, Q a c g -> Q' a c g) -> does m Q' g c.
Proof.
  intros Hm HQ Hpre c' p E. destruct (Hm Hpre c' p E) as (g' & Hg & Hc). exists g'. split; [done|].
  by eapply conforms_mono.
Qed.

(** A segment that does not block. *)
Lemma does_now {A} (m : M C IS Host A) (Q : A -> C -> G -> Prop) g c :
  (pre g c -> forall c' p, m c = Ok (c', p) -> exists a g', p = Done a /\ guar g c c' g' /\ Q a c' g') -> does m Q g c.
Proof. intros Hm Hpre c' p E. destruct (Hm Hpre c' p E) as (a & g' & -> & Hg & HQ). by exists g'. Qed.

Lemma does_ret {A} (a : A) (Q : A -> C -> G -> Prop) g c : Q a c g -> does (ret a) Q g c.
Proof. intros HQ _ c' p [= <- <-]. exists g. split; [apply guar_refl|done]. Qed.

Lemma does_fail {A} e (Q : A -> C -> G -> Prop) g c : does (fail e) Q g c.
Proof. by intros _ c' p. Qed.

Lemma does_get (Q : C -> C -> G -> Prop) g c : (pre g c -> Q c c g) -> does get Q g c.
Proof. intros HQ Hpre c' p [= <- <-]. exists g. split; [apply guar_refl|by apply HQ]. Qed.

Lemma does_read {A} (f : C -> result A) (Q : A -> C -> G -> Prop) g c :
  (forall a, pre g c -> f c = Ok a -> Q a c g) -> does (read f) Q g c.
Proof. intros HQ Hpre c' p (a & Ha & [= <- <-])%bind_Ok. exists g. split; [apply guar_refl|by apply HQ]. Qed.

Lemma does_change (f : C -> result C) (Q : unit -> C -> G -> Prop) g c :
  (forall c', pre g c -> f c = Ok c' -> exists g', guar g c c' g' /\ Q tt c' g') -> does (change f) Q g c.
Proof. intros HQ Hpre c' p (c1 & Hc1 & [= <- <-])%bind_Ok. by apply HQ. Qed.

Lemma does_assert b msg (Q : unit -> C -> G -> Prop) g c : (b = true -> Q tt c g) -> does (assert_ b msg) Q g c.
Proof. intros HQ. apply does_read. intros [] _ Hb%xbt_assert_Ok. by apply HQ. Qed.

Lemma does_block (b : blocking IS Host) (Q : answer b -> C -> G -> Prop) g c :
  asks c b -> (forall ans c1, pre g c1 -> Q ans c1 g) -> does (block b) Q g c.
Proof.
  intros Hb HQ _ c' p [= <- <-]. exists g. split; [apply guar_refl|]. split; [exact Hb|]. intros ans c1 Hpre. exists g.
  split; [apply guar_refl|]. by apply HQ.
Qed.

(** What keeps the ghost state, whatever it is applied to. *)
Definition keeps {A} (g : G) (m : M C IS Host A) : Prop := forall c, does m (fun _ _ g' => g' = g) g c.

Lemma keeps_mbind {A B} g (m : M C IS Host A) (f : A -> M C IS Host B) :
  keeps g m -> (forall a, keeps g (f a)) -> keeps g (mbind m f).
Proof.
  intros Hm Hf c. apply does_mbind. eapply does_mono; [apply Hm|]. cbn beta. intros a c1 g1 ->. apply Hf.
Qed.
Lemma keeps_ret {A} g (a : A) : keeps g (ret a).
Proof. intros c. by apply does_ret. Qed.
Lemma keeps_fail {A} g e : keeps (A := A) g (fail e).
Proof. intros c. apply does_fail. Qed.
Lemma keeps_get g : keeps g get.
Proof. intros c. by apply does_get. Qed.
Lemma keeps_read {A} g (f : C -> result A) : keeps g (read f).
Proof. intros c. by apply does_read. Qed.
Lemma keeps_assert g b msg : keeps g (assert_ b msg).
Proof. intros c. by apply does_assert. Qed.
Lemma keeps_block g (b : blocking IS Host) : (forall c, asks c b) -> keeps g (block b).
Proof. intros Hb c. by apply does_block. Qed.
(** Errors are not looked at. *)
Lemma conforms_catching {A} handler (Q : A -> C -> G -> Prop) p : forall g c,
  conforms Q g c p -> conforms Q g c (proc_catching handler p).
Proof.
  revert p. fix IH 1. destruct p as [a|b resume]; intros g c; cbn [conforms proc_catching]; [done|].
  intros [Hb Hw]. split; [exact Hb|]. intros ans c1 Hpre. specialize (Hw ans c1 Hpre).
  destruct (resume ans c1) as [[c2 p]|e]; [|done].
  destruct Hw as (g' & Hg & Hc). exists g'. split; [done|]. by apply IH.
Qed.
Lemma keeps_catching {A} g handler (m : M C IS Host A) : keeps g m -> keeps g (catching handler m).
Proof.
  intros Hm c Hpre c' q. unfold catching. destruct (m c) as [[c1 p]|e] eqn:E; [|done]. intros [= <- <-].
  destruct (Hm c Hpre c1 p E) as (g' & Hg & Hc). exists g'. split; [done|]. by apply conforms_catching.
Qed.
(** What is read may be used. *)
Lemma keeps_read_bind {A B} g (f : C -> result A) (k : A -> M C IS Host B) :
  (forall c a, pre g c -> f c = Ok a -> keeps g (k a)) -> keeps g (mbind (read f) k).
Proof. intros Hk c. apply does_mbind, does_read. intros a Hpre Ha. by eapply Hk. Qed.
Lemma keeps_change g (f : C -> result C) :
  (forall c c', pre g c -> f c = Ok c' -> guar g c c' g) -> keeps g (change f).
Proof. intros Hf c. apply does_change. intros c' Hpre Hc. exists g. split; [by apply Hf|done]. Qed.

(** What keeps the ghost state may be followed by anything. *)
Lemma does_keeps {A B} g c (m : M C IS Host A) (f : A -> M C IS Host B) Q :
  keeps g m -> (forall a c, does (f a) Q g c) -> does (mbind m f) Q g c.
Proof.
  intros Hm Hf. apply does_mbind. eapply does_mono; [apply Hm|]. cbn beta. intros a c1 g1 ->. apply Hf.
Qed.
Lemma keeps_does {A} g c (m : M C IS Host A) Q : keeps g m -> (forall a c, Q a c g) -> does m Q g c.
Proof. intros Hm HQ. eapply does_mono; [apply Hm|]. cbn beta. intros a c1 g1 ->. apply HQ. Qed.
End Does.

#[export] Hint Resolve keeps_mbind keeps_ret keeps_fail keeps_get keeps_read keeps_assert : guarantee.
