(* ===== verification/TaskExecution.v ===== *)
(** * The matrices of parallel tasks (src/task_execution.cpp)

    A parallel task is executed by SimGrid from a list of hosts, one amount of
    computation per host and a communication matrix, which is stored row after
    row and left empty when nothing is communicated.  This file generates them
    from a profile, checks where computation is allowed, and merges a job with
    its additional IO job. *)

From S2P Require Import Prelude Interfaces Profiles Jobs Machines Ipp.

Record ptask_matrices (Host : Type) := mk_matrices {
  computation_vector : list Q;
  communication_matrix : list Q;
  hosts_to_use : list Host;
}.
Arguments mk_matrices {Host}. Arguments computation_vector {Host}.
Arguments communication_matrix {Host}. Arguments hosts_to_use {Host}.
#[export] Instance eta_ptask_matrices {Host} : Eta (ptask_matrices Host) := fun r =>
  mk_matrices (computation_vector r) (communication_matrix r) (hosts_to_use r).

(** [for (unsigned int y = 0; y < n; ++y)] *)
Definition indices (n : Z) : list Z := seqZ 0 n.

(** A square matrix, given by its entries, row after row. *)
Definition square (n : Z) (entry : Z -> Z -> Q) : list Q :=
  y ← indices n; (fun x => entry y x) <$> indices n.

(** Reading a vector out of its bounds is undefined behaviour. *)
Definition vector_get {A} (v : list A) (i : Z) : result A :=
  if i <? 0 then Err (Undef "vector out of range")
  else of_option (Undef "vector out of range") (v !! Z.to_nat i).

Section Generators.
Context {Host : Type}.
Implicit Types (ms : Machines Host) (hosts : list Host).

(** The vectors are resized to [nb_res] and [nb_res * nb_res] (in [unsigned int]) then
    written with two [memcpy] of as many numbers. *)
Definition generate_parallel_task hosts (data : ProfileData) : result (ptask_matrices Host) :=
  let nb_res := u32 (Z.of_nat (length hosts)) in
  match data with
  | ParallelProfileData data_nb_res cpu com =>
      xbt_assert (nb_res =? data_nb_res) "the number of resources given by the allocation is different";;
      if (nb_res * nb_res <? 2 ^ 32) && (nb_res <=? Z.of_nat (length cpu)) && (nb_res * nb_res <=? Z.of_nat (length com))
      then Ok (mk_matrices (take (Z.to_nat nb_res) cpu) (take (Z.to_nat (nb_res * nb_res)) com) hosts)
      else Err (Undef "memcpy out of bounds")
  | _ => Err (Undef "static_cast of another data type")
  end.

(** What the two homogeneous generators share: the same computation on every
    host, the same communication between any two different hosts. *)
Definition homogeneous (nb_res : Z) (cpu com : Q) hosts : ptask_matrices Host :=
  mk_matrices ((fun _ => cpu) <$> indices nb_res)
    (if (0 <?q com)%Q then square nb_res (fun y x => if x =? y then 0%Q else com) else []) hosts.

Definition generate_parallel_homogeneous hosts (data : ProfileData) : result (ptask_matrices Host) :=
  match data with
  | ParallelHomogeneousProfileData cpu com =>
      Ok (homogeneous (u32 (Z.of_nat (length hosts))) cpu com hosts)
  | _ => Err (Undef "static_cast of another data type")
  end.

Definition generate_parallel_homogeneous_total_amount hosts (data : ProfileData) : result (ptask_matrices Host) :=
  match data with
  | ParallelHomogeneousTotalAmountProfileData cpu com =>
      let nb_res := u32 (Z.of_nat (length hosts)) in
      Ok (homogeneous nb_res (cpu / inject_Z nb_res)%Q (com / inject_Z nb_res)%Q hosts)
  | _ => Err (Undef "static_cast of another data type")
  end.

(** The storage machine of a label, which must be a storage host. *)
Definition storage_machine ms (mapping : gmap string Z) (label : string) : result (Machine Host) :=
  machine_id ← of_option (Abort "Unknown storage label") (mapping !! label);
  m ← machine_at ms machine_id;
  xbt_assert (m_permissions m =? roles.STORAGE) "The host pointed to by the label is not a storage host";;
  Ok m.

Definition pfs_machine ms (mapping : gmap string Z) (label : string) : result (Machine Host) :=
  if bool_decide (mapping = ∅) then
    match ms_storage_nodes ms with
    | [i] =>
        only ← of_option (Undef "_storage_nodes") (ms_machines ms !! i);
        machine_at ms (m_id only)
    | _ => Err (Abort "No storage/host mapping given and there is no (or more than one) storage node available")
    end
  else storage_machine ms mapping label.

(** Reads leave the storage, writes go to it: it is the last host. *)
Definition pfs_entry (pfs_id : Z) (bytes_to_read bytes_to_write : Q) (row col : Z) : Q :=
  if (col =? row) || (negb (col =? pfs_id) && negb (row =? pfs_id)) then 0%Q
  else if col =? pfs_id then bytes_to_write
  else bytes_to_read.

Definition generate_parallel_homogeneous_with_pfs ms (storage_mapping : option (gmap string Z)) hosts
  (data : ProfileData) : result (ptask_matrices Host) :=
  match data with
  | ParallelHomogeneousPFSProfileData bytes_to_read bytes_to_write storage_label =>
      let nb_res := u32 (u32 (Z.of_nat (length hosts)) + 1) in
      let pfs_id := u32 (nb_res - 1) in
      mapping ← of_option (Abort "storage mapping is null but the code uses it!") storage_mapping;
      pfs ← pfs_machine ms mapping storage_label;
      let do_comm := (0 <?q bytes_to_read)%Q || (0 <?q bytes_to_write)%Q in
      Ok (mk_matrices ((fun _ => 0%Q) <$> indices nb_res)
            (if do_comm then square nb_res (pfs_entry pfs_id bytes_to_read bytes_to_write) else [])
            (hosts ++ [m_host pfs]))
  | _ => Err (Undef "static_cast of another data type")
  end.

(** Only the two storage hosts take part, whatever the hosts were. *)
Definition generate_data_staging_task ms (storage_mapping : option (gmap string Z)) (data : ProfileData)
  : result (ptask_matrices Host) :=
  match data with
  | DataStagingProfileData nb_bytes from_storage_label to_storage_label =>
      mapping ← of_option (Abort "storage mapping is null but the code uses it!") storage_mapping;
      from_machine ← storage_machine ms mapping from_storage_label;
      to_machine ← storage_machine ms mapping to_storage_label;
      Ok (mk_matrices ((fun _ => 0%Q) <$> indices 2)
            (if (0 <?q nb_bytes)%Q
             then square 2 (fun row col => if (col =? row) || negb (col =? 1) then 0%Q else nb_bytes) else [])
            [m_host from_machine; m_host to_machine])
  | _ => Err (Undef "static_cast of another data type")
  end.

Definition generate_matrices_from_profile ms (storage_mapping : option (gmap string Z)) hosts (p : Profile)
  : result (ptask_matrices Host) :=
  match p_type p with
  | PARALLEL => generate_parallel_task hosts (p_data p)
  | PARALLEL_HOMOGENEOUS => generate_parallel_homogeneous hosts (p_data p)
  | PARALLEL_HOMOGENEOUS_TOTAL_AMOUNT => generate_parallel_homogeneous_total_amount hosts (p_data p)
  | PARALLEL_HOMOGENEOUS_PFS => generate_parallel_homogeneous_with_pfs ms storage_mapping hosts (p_data p)
  | DATA_STAGING => generate_data_staging_task ms storage_mapping (p_data p)
  | _ => xbt_die "Should not be reached."
  end.
End Generators.

Section Merge.
Context {IS Host : Type} `{IntervalSet IS}.
Implicit Types (ms : Machines Host) (alloc : IS).

(** The machines of an interval set by rank, [alloc[0]] .. [alloc[size - 1]]. *)
Definition is_indices alloc : list Z := indices (is_size alloc).

(** A machine with some computation must be a compute node. *)
Definition check_one_permission ms alloc (computation : list Q) (i : Z) : result unit :=
  machine_id ← is_at alloc i;
  m ← machine_at ms machine_id;
  amount ← vector_get computation i;
  if (1 # 10000000000 <?q Qabs amount)%Q
  then xbt_assert (m_permissions m =? roles.COMPUTE_NODE) "Some computation is assigned to a storage node"
  else Ok tt.

Definition check_ptask_execution_permission ms alloc (computation : list Q) : result unit :=
  foldM (fun _ i => check_one_permission ms alloc computation i) tt (is_indices alloc).

(** The indices of the merging loop, and what it has filled. *)
Record merge_state := mk_merge {
  mg_computation : list Q;
  mg_communication : list Q;
  col_job_host_index : Z;
  row_job_host_index : Z;
  col_io_host_index : Z;
  row_io_host_index : Z;
}.
#[export] Instance eta_merge_state : Eta merge_state := fun r =>
  mk_merge (mg_computation r) (mg_communication r) (col_job_host_index r) (row_job_host_index r)
    (col_io_host_index r) (row_io_host_index r).

Section Loop.
Context (to_merge_alloc immut_job_alloc immut_io_alloc : IS).
Context (job_computation job_communication io_computation io_communication : list Q).

Definition push_communication (x : Q) (s : merge_state) : merge_state :=
  s <| mg_communication ::= fun l => l ++ [x] |>.

Definition next_job_communication (s : merge_state) : result (Q * merge_state) :=
  x ← vector_get job_communication (row_job_host_index s);
  Ok (x, s <| row_job_host_index ::= Z.add 1 |>).
Definition next_io_communication (s : merge_state) : result (Q * merge_state) :=
  x ← vector_get io_communication (row_io_host_index s);
  Ok (x, s <| row_io_host_index ::= Z.add 1 |>).

Definition no_job_communication : bool := bool_decide (job_communication = []).

Definition merge_row (col_only_in_job col_only_in_io : bool) (s : merge_state) (row_machine : Z) : result merge_state :=
  if is_contains to_merge_alloc row_machine then
    if col_only_in_job then
      if no_job_communication then Ok (push_communication 0%Q s)
      else '(x, s) ← next_job_communication s; Ok (push_communication x s)
    else if col_only_in_io then
      '(y, s) ← next_io_communication s; Ok (push_communication y s)
    else if no_job_communication then
      '(y, s) ← next_io_communication s; Ok (push_communication y s)
    else
      '(x, s) ← next_job_communication s;
      '(y, s) ← next_io_communication s;
      Ok (push_communication (x + y)%Q s)
  else if is_contains immut_job_alloc row_machine then
    if col_only_in_io || no_job_communication then Ok (push_communication 0%Q s)
    else '(x, s) ← next_job_communication s; Ok (push_communication x s)
  else if is_contains immut_io_alloc row_machine then
    if col_only_in_job then Ok (push_communication 0%Q s)
    else '(y, s) ← next_io_communication s; Ok (push_communication y s)
  else Err (Abort "This should not happen").

Definition next_job_computation (s : merge_state) : result (Q * merge_state) :=
  x ← vector_get job_computation (col_job_host_index s);
  Ok (x, s <| col_job_host_index ::= Z.add 1 |>).
Definition next_io_computation (s : merge_state) : result (Q * merge_state) :=
  x ← vector_get io_computation (col_io_host_index s);
  Ok (x, s <| col_io_host_index ::= Z.add 1 |>).
Definition push_computation (x : Q) (s : merge_state) : merge_state :=
  s <| mg_computation ::= fun l => l ++ [x] |>.

Definition merge_col (rows : list Z) (s : merge_state) (curr_machine : Z) : result merge_state :=
  if is_contains to_merge_alloc curr_machine then
    '(x, s) ← next_job_computation s;
    '(y, s) ← next_io_computation s;
    foldM (merge_row false false) (push_computation (x + y)%Q s) rows
  else if is_contains immut_job_alloc curr_machine then
    '(x, s) ← next_job_computation s;
    foldM (merge_row true false) (push_computation x s) rows
  else if is_contains immut_io_alloc curr_machine then
    '(y, s) ← next_io_computation s;
    foldM (merge_row false true) (push_computation y s) rows
  else Err (Abort "This should not happen").
End Loop.

Definition merge_io ms (machine_ids io_allocation : IS) (job io : ptask_matrices Host)
  : result (ptask_matrices Host) :=
  let immut_job_alloc := is_diff machine_ids io_allocation in
  let immut_io_alloc := is_diff io_allocation machine_ids in
  let to_merge_alloc := is_inter machine_ids io_allocation in
  let new_alloc := is_union machine_ids io_allocation in
  new_ids ← mapM_r (is_at new_alloc) (is_indices new_alloc);
  new_hosts ← mapM_r (fun i => m ← machine_at ms i; Ok (m_host m)) new_ids;
  s ← (if Z.of_nat (length new_hosts) * Z.of_nat (length new_hosts) <? 2 ^ 32 then
         foldM (merge_col to_merge_alloc immut_job_alloc immut_io_alloc
                  (computation_vector job) (communication_matrix job)
                  (computation_vector io) (communication_matrix io) new_ids)
           (mk_merge [] [] 0 0 0 0) new_ids
       else Err (Undef "new_communication_matrix out of range"));
  Ok (mk_matrices (mg_computation s) (mg_communication s) new_hosts).

(** [execute_parallel_task] until the task is created. *)
Definition prepare_parallel_task ms (ph : profile_heap) (alloc : SchedulingAllocation IS Host) (btask : BatTask)
  : result (ptask_matrices Host) :=
  p ← deref_profile ph (bt_profile btask);
  job ← generate_matrices_from_profile ms (Some (sa_storage_mapping alloc)) (sa_hosts alloc) p;
  check_ptask_execution_permission ms (sa_machine_ids alloc) (computation_vector job);;
  match bt_io_profile btask with
  | None => Ok job
  | Some io_ptr =>
      io_profile ← deref_profile ph io_ptr;
      io ← generate_matrices_from_profile ms None (sa_io_hosts alloc) io_profile;
      merged ← merge_io ms (sa_machine_ids alloc) (sa_io_allocation alloc) job io;
      check_ptask_execution_permission ms (is_union (sa_machine_ids alloc) (sa_io_allocation alloc))
        (computation_vector merged);;
      Ok merged
  end.
End Merge.

(** ** Theorems *)

Lemma vector_get_nat {A} (v : list A) n x : v !! n = Some x -> vector_get v (Z.of_nat n) = Ok x.
Proof.
  intros Hv. unfold vector_get. destruct (Z.ltb_spec (Z.of_nat n) 0); [lia|].
  by rewrite Nat2Z.id, Hv.
Qed.

Section MatrixFacts.
Context {Host : Type}.

Lemma indices_length n : length (indices n) = Z.to_nat n.
Proof. apply length_seqZ. Qed.

Lemma bind_rows_length {A B} (f : A -> list B) (ys : list A) k :
  (forall y, length (f y) = k) -> length (ys ≫= f) = (length ys * k)%nat.
Proof. intros Hf. induction ys as [|y ys IH]; [done|]. cbn. rewrite length_app, Hf. by f_equal. Qed.

Lemma square_length n entry : length (square n entry) = (Z.to_nat n * Z.to_nat n)%nat.
Proof.
  unfold square. erewrite (bind_rows_length _ _ (Z.to_nat n)); [by rewrite indices_length|].
  intros y. by rewrite length_fmap, indices_length.
Qed.

Lemma bind_rows_lookup {A B} (f : A -> list B) (ys : list A) k i j y :
  (forall y, length (f y) = k) -> (j < k)%nat -> ys !! i = Some y ->
  (ys ≫= f) !! (i * k + j)%nat = f y !! j.
Proof.
  intros Hf Hj. revert i; induction ys as [|y' ys IH]; intros i; [done|].
  destruct i as [|i]; cbn [lookup list_lookup mbind list_bind].
  - intros [= ->]. cbn. rewrite lookup_app_l; [done|]. rewrite Hf. lia.
  - intros Hy. rewrite lookup_app_r by (rewrite Hf; cbn; lia).
    rewrite Hf. replace (S i * k + j - k)%nat with (i * k + j)%nat by (cbn; lia). by apply IH.
Qed.

(** The entry of row [y] and column [x] is where the engine looks for it. *)
Lemma square_lookup n entry y x :
  0 <= y < n -> 0 <= x < n ->
  square n entry !! Z.to_nat (y * n + x) = Some (entry y x).
Proof.
  intros Hy Hx. unfold square.
  replace (Z.to_nat (y * n + x)) with (Z.to_nat y * Z.to_nat n + Z.to_nat x)%nat by nia.
  rewrite (bind_rows_lookup _ _ _ _ _ y).
  - rewrite list_lookup_fmap. unfold indices. rewrite lookup_seqZ_lt by lia. cbn. do 2 f_equal. lia.
  - intros y'. by rewrite length_fmap, indices_length.
  - lia.
  - unfold indices. rewrite lookup_seqZ_lt by lia. f_equal. lia.
Qed.

Lemma u32_length {A} (l : list A) : Z.of_nat (length l) < 2 ^ 32 -> u32 (Z.of_nat (length l)) = Z.of_nat (length l).
Proof. intros Hl. unfold u32. apply Z.mod_small. lia. Qed.

Definition matrices_wf (m : ptask_matrices Host) : Prop :=
  let n := length (hosts_to_use m) in
  length (computation_vector m) = n /\
  (communication_matrix m = [] \/ length (communication_matrix m) = (n * n)%nat).

Lemma guarded_square_wf (b : bool) n entry :
  (if b then square n entry else []) = [] \/
  length (if b then square n entry else []) = (Z.to_nat n * Z.to_nat n)%nat.
Proof. destruct b; [right; apply square_length|by left]. Qed.

Lemma homogeneous_wf cpu com (hosts : list Host) :
  Z.of_nat (length hosts) < 2 ^ 32 ->
  matrices_wf (homogeneous (u32 (Z.of_nat (length hosts))) cpu com hosts).
Proof.
  intros Hn. rewrite u32_length by done. unfold matrices_wf, homogeneous. cbn.
  rewrite length_fmap, indices_length. rewrite !Nat2Z.id. split; [done|].
  pose proof (guarded_square_wf (0 <?q com)%Q (Z.of_nat (length hosts)) (fun y x => if x =? y then 0%Q else com)) as Hs.
  by rewrite Nat2Z.id in Hs.
Qed.

(** Whatever the profile, a generated task has one amount of computation per
    host it runs on, and a communication matrix that is empty or square of that
    size: the storage host that a parallel file system adds and the two hosts
    of a data staging are accounted for. *)
Theorem generated_matrices_wf ms mapping (hosts : list Host) p m :
  Z.of_nat (length hosts) + 1 < 2 ^ 32 ->
  generate_matrices_from_profile ms mapping hosts p = Ok m -> matrices_wf m.
Proof.
  intros Hn. unfold generate_matrices_from_profile. destruct (p_type p); try done.
  - unfold generate_parallel_task. rewrite u32_length by lia. destruct (p_data p); try done.
    intros (u & _ & Hr)%bind_Ok. destruct (_ && _) eqn:Hb; [|done]. injection Hr as <-.
    apply andb_true_iff in Hb as [[Hb1 Hb2]%andb_true_iff Hb3].
    apply Z.leb_le in Hb2, Hb3. unfold matrices_wf. cbn. rewrite !length_take. split; [lia|right; nia].
  - unfold generate_parallel_homogeneous. destruct (p_data p); try done.
    intros [= <-]. apply homogeneous_wf. lia.
  - unfold generate_parallel_homogeneous_total_amount. destruct (p_data p); try done.
    intros [= <-]. apply homogeneous_wf. lia.
  - unfold generate_parallel_homogeneous_with_pfs. destruct (p_data p); try done.
    intros (mp & _ & (pfs & _ & [= <-])%bind_Ok)%bind_Ok. rewrite u32_length by lia.
    assert (u32 (Z.of_nat (length hosts) + 1) = Z.of_nat (S (length hosts))) as ->
      by (unfold u32; rewrite Z.mod_small by lia; lia).
    unfold matrices_wf. cbn -[square]. rewrite length_fmap, indices_length, length_app, Nat2Z.id. cbn -[square].
    split; [lia|].
    match goal with |- context [if ?b then square ?n ?e else _] => destruct (guarded_square_wf b n e) as [Hs|Hs] end;
      [by left|right]. rewrite Nat2Z.id in Hs. rewrite Hs. lia.
  - unfold generate_data_staging_task. destruct (p_data p); try done.
    intros (mp & _ & (m1 & _ & (m2 & _ & [= <-])%bind_Ok)%bind_Ok)%bind_Ok.
    unfold matrices_wf. split; [done|]. cbn -[square]. apply (guarded_square_wf _ 2).
Qed.

Lemma const_indices {A} (a : A) n : (fun _ => a) <$> indices n = replicate (Z.to_nat n) a.
Proof. rewrite <- (indices_length n). by apply const_fmap. Qed.

(** The total amounts of a "total amount" profile are spread over the hosts:
    the computations of all the hosts sum up to the amount of the profile, and
    each host exchanges the same share with every other host and nothing with
    itself. *)
Theorem total_amount_is_spread (hosts : list Host) cpu com m :
  hosts ≠ [] -> Z.of_nat (length hosts) < 2 ^ 32 ->
  generate_parallel_homogeneous_total_amount hosts (ParallelHomogeneousTotalAmountProfileData cpu com) = Ok m ->
  let n := Z.of_nat (length hosts) in
  (Qsum (computation_vector m) == cpu)%Q /\
  ((0 < com)%Q -> forall y x, 0 <= y < n -> 0 <= x < n ->
     exists entry, communication_matrix m !! Z.to_nat (y * n + x) = Some entry /\
       (entry == if decide (x = y) then 0 else com / inject_Z n)%Q) /\
  ((com <= 0)%Q -> communication_matrix m = []).
Proof.
  intros Hne Hn [= <-] n. rewrite u32_length by done. fold n.
  assert (0 < n) as Hpos by (destruct hosts; [done|cbn in *; lia]).
  assert (0 < inject_Z n)%Q as Hq by (unfold Qlt; cbn; lia).
  unfold homogeneous. cbn [computation_vector communication_matrix]. split_and!.
  - rewrite const_indices, Qsum_replicate, Z2Nat.id by lia. field. intros E. rewrite E in Hq. by apply Qlt_irrefl in Hq.
  - intros Hcom y x Hy Hx.
    assert ((0 <?q com / inject_Z n) = true)%Q as -> by (apply Qltb_lt, Qlt_shift_div_l; [done|lra]).
    rewrite square_lookup by done. eexists. split; [done|].
    destruct (Z.eqb_spec x y), (decide (x = y)); done || reflexivity.
  - intros Hcom.
    assert ((0 <?q com / inject_Z n) = false)%Q as ->; [|done].
    apply Qltb_ge, Qle_shift_div_r; [done|lra].
Qed.
End MatrixFacts.

(** *** Merging a job and its IO job *)

(** What a vector says of a machine of an allocation, and a matrix of two of
    them: the entry of their ranks, if they are in the allocation. *)
Definition amount (ids : list Z) (v : list Q) (a : Z) : option Q :=
  i ← list_find (fun x => x = a) ids; (v !! i.1).
Definition exchange (ids : list Z) (v : list Q) (a b : Z) : option Q :=
  i ← list_find (fun x => x = a) ids;
  j ← list_find (fun x => x = b) ids;
  (v !! (i.1 * length ids + j.1)%nat).
Definition combine (x y : option Q) : Q :=
  match x, y with
  | Some x, Some y => (x + y)%Q
  | Some z, None | None, Some z => z
  | None, None => 0%Q
  end.

Section MergeFacts.
Context {IS : Type} `{IntervalSet IS}.
Context (L : list Z) (inJ inI : Z -> bool) (M JO IO : IS) (jc jm ic im : list Q).
Hypothesis (HL : NoDup L).
Hypothesis (Hcover : forall a, a ∈ L -> inJ a || inI a = true).
Hypothesis (HM : forall a, a ∈ L -> is_contains M a = inJ a && inI a).
Hypothesis (HJO : forall a, a ∈ L -> is_contains JO a = inJ a && negb (inI a)).
Hypothesis (HIO : forall a, a ∈ L -> is_contains IO a = inI a && negb (inJ a)).
Definition members_of (f : Z -> bool) (l : list Z) : list Z := filter (fun a => f a = true) l.
Definition ranks (f : Z -> bool) (l : list Z) : nat := length (members_of f l).
Hypothesis (Hjc : length jc = ranks inJ L).
Hypothesis (Hic : length ic = ranks inI L).
Hypothesis (Hjm : jm = [] \/ length jm = (ranks inJ L * ranks inJ L)%nat).
Hypothesis (Him : length im = (ranks inI L * ranks inI L)%nat).

Lemma members_cons f a l : members_of f (a :: l) = if f a then a :: members_of f l else members_of f l.
Proof. unfold members_of. rewrite filter_cons. destruct (f a); cbn; by case_decide. Qed.

Lemma ranks_app f l1 l2 : ranks f (l1 ++ l2) = (ranks f l1 + ranks f l2)%nat.
Proof. unfold ranks, members_of. by rewrite filter_app, length_app. Qed.

Lemma ranks_cons f a l : ranks f (a :: l) = (Nat.b2n (f a) + ranks f l)%nat.
Proof. unfold ranks. rewrite members_cons. by destruct (f a). Qed.

(** The rank of a machine is the number of the members before it. *)
Lemma rank_of f P a S :
  L = P ++ a :: S ->
  list_find (fun x => x = a) (members_of f L) = if f a then Some (ranks f P, a) else None.
Proof.
  intros HP. rewrite HP in *. apply NoDup_app in HL as (_ & HPa & HaS).
  assert (a ∉ P) as Ha by (intros Ha; apply (HPa a Ha); left).
  assert (a ∉ S) as HaS' by (apply NoDup_cons in HaS as [??]; done). clear -Ha HaS'.
  unfold members_of at 1. rewrite filter_app. fold (members_of f P). fold (members_of f (a :: S)).
  assert (list_find (fun x => x = a) (members_of f P) = None) as HnP.
  { apply list_find_None, Forall_forall. intros x [_ Hx]%list_elem_of_filter ->. done. }
  rewrite list_find_app_r by done. rewrite members_cons. destruct (f a).
  - cbn. destruct (decide (a = a)) as [_|?]; [|done]. cbn. done.
  - assert (list_find (fun x => x = a) (members_of f S) = None) as ->; [|done].
    apply list_find_None, Forall_forall. intros x [_ Hx]%list_elem_of_filter ->. done.
Qed.

Lemma exchange_of f v a P b S :
  L = P ++ b :: S ->
  exchange (members_of f L) v a b =
  i ← list_find (fun x => x = a) (members_of f L);
  if f b then v !! (i.1 * ranks f L + ranks f P)%nat else None.
Proof.
  intros HP. unfold exchange. rewrite (rank_of _ _ _ _ HP). by destruct (f b).
Qed.

(** *** The loop on the rows *)

Abbreviation row_step := (merge_row M JO IO jm im).
Definition job_exchange := exchange (members_of inJ L) jm.
Definition io_exchange := exchange (members_of inI L) im.
Definition merged_exchange (a b : Z) : Q := combine (job_exchange a b) (io_exchange a b).
Definition merged_amount (a : Z) : Q :=
  combine (amount (members_of inJ L) jc a) (amount (members_of inI L) ic a).

(** What the rows before [P] of column [a] have consumed. *)
Definition row_indices (rj ri : nat) (a : Z) (P : list Z) (s : merge_state) : Prop :=
  (jm ≠ [] -> row_job_host_index s = Z.of_nat (rj + if inJ a then ranks inJ P else 0%nat)) /\
  row_io_host_index s = Z.of_nat (ri + if inI a then ranks inI P else 0%nat).

Lemma ranks_lt f P b S : L = P ++ b :: S -> f b = true -> (ranks f P < ranks f L)%nat.
Proof. intros -> Hb. rewrite ranks_app, ranks_cons, Hb. cbn. lia. Qed.

Lemma matrix_entry f (v : list Q) P0 a S0 P b S :
  length v = (ranks f L * ranks f L)%nat ->
  L = P0 ++ a :: S0 -> L = P ++ b :: S -> f a = true -> f b = true ->
  exists x, v !! (ranks f P0 * ranks f L + ranks f P)%nat = Some x /\
            exchange (members_of f L) v a b = Some x.
Proof.
  intros Hv H0 HP Ha Hb.
  destruct (lookup_lt_is_Some_2 v (ranks f P0 * ranks f L + ranks f P)) as [x Hx].
  { pose proof (ranks_lt _ _ _ _ H0 Ha). pose proof (ranks_lt _ _ _ _ HP Hb). nia. }
  exists x. split; [done|]. rewrite (exchange_of _ _ _ _ _ _ HP), (rank_of _ _ _ _ H0), Ha, Hb. done.
Qed.

Lemma exchange_None f v P0 a S0 P b S :
  L = P0 ++ a :: S0 -> L = P ++ b :: S -> f a && f b = false ->
  exchange (members_of f L) v a b = None.
Proof.
  intros H0 HP Hab. rewrite (exchange_of _ _ _ _ _ _ HP), (rank_of _ _ _ _ H0).
  destruct (f a), (f b); done.
Qed.

(** What a row leaves alone. *)
Definition same_columns (s s' : merge_state) : Prop :=
  mg_computation s' = mg_computation s /\ col_job_host_index s' = col_job_host_index s /\
  col_io_host_index s' = col_io_host_index s.

Lemma next_job_ok P0 a S0 P b S s :
  L = P0 ++ a :: S0 -> L = P ++ b :: S -> jm ≠ [] -> inJ a = true -> inJ b = true ->
  row_job_host_index s = Z.of_nat (ranks inJ P0 * ranks inJ L + ranks inJ P) ->
  exists x, job_exchange a b = Some x /\
    next_job_communication jm s = Ok (x, s <| row_job_host_index ::= Z.add 1 |>).
Proof.
  intros H0 HP Hne Ha Hb Hs. destruct Hjm as [?|Hl]; [done|].
  destruct (matrix_entry inJ jm _ _ _ _ _ _ Hl H0 HP Ha Hb) as (x & Hx & He).
  exists x. split; [done|]. unfold next_job_communication. by rewrite Hs, (vector_get_nat _ _ _ Hx).
Qed.

Lemma next_io_ok P0 a S0 P b S s :
  L = P0 ++ a :: S0 -> L = P ++ b :: S -> inI a = true -> inI b = true ->
  row_io_host_index s = Z.of_nat (ranks inI P0 * ranks inI L + ranks inI P) ->
  exists y, io_exchange a b = Some y /\
    next_io_communication im s = Ok (y, s <| row_io_host_index ::= Z.add 1 |>).
Proof.
  intros H0 HP Ha Hb Hs.
  destruct (matrix_entry inI im _ _ _ _ _ _ Him H0 HP Ha Hb) as (x & Hx & He).
  exists x. split; [done|]. unfold next_io_communication. by rewrite Hs, (vector_get_nat _ _ _ Hx).
Qed.

Lemma no_job_exchange a b : jm = [] -> job_exchange a b = None.
Proof.
  intros Hnil. unfold job_exchange, exchange. rewrite Hnil.
  destruct (list_find (fun x => x = a) _) as [[]|], (list_find (fun x => x = b) _) as [[]|]; done.
Qed.

Lemma merge_row_ok P0 a S0 P b S s :
  L = P0 ++ a :: S0 -> L = P ++ b :: S ->
  row_indices (ranks inJ P0 * ranks inJ L) (ranks inI P0 * ranks inI L) a P s ->
  exists s', row_step (inJ a && negb (inI a)) (inI a && negb (inJ a)) s b = Ok s' /\
    mg_communication s' = mg_communication s ++ [merged_exchange a b] /\
    row_indices (ranks inJ P0 * ranks inJ L) (ranks inI P0 * ranks inI L) a (P ++ [b]) s' /\
    same_columns s s'.
Proof.
  intros H0 HP [Hrj Hri].
  assert (a ∈ L) as Ha by (rewrite H0; set_solver). assert (b ∈ L) as Hb by (rewrite HP; set_solver).
  pose proof (Hcover _ Ha) as Hca. pose proof (Hcover _ Hb) as Hcb.
  pose proof (next_job_ok _ _ _ _ _ _ s H0 HP) as Hj.
  pose proof (fun s => next_io_ok _ _ _ _ _ _ s H0 HP) as Hi.
  pose proof (exchange_None inJ jm _ _ _ _ _ _ H0 HP) as HnJ.
  pose proof (exchange_None inI im _ _ _ _ _ _ H0 HP) as HnI.
  unfold merge_row, merged_exchange, no_job_communication, row_indices, same_columns.
  rewrite (HM _ Hb), (HJO _ Hb), (HIO _ Hb), !ranks_app, !ranks_cons.
  fold job_exchange in HnJ. fold io_exchange in HnI.
  destruct (decide (jm = [])) as [Hnil|Hne].
  - rewrite (no_job_exchange a b Hnil), bool_decide_true by done.
    destruct (inJ a), (inI a), (inJ b), (inI b); try discriminate Hca; try discriminate Hcb; cbn [andb negb orb];
      try (destruct (Hi s) as (y & -> & ->); [done..|]);
      try rewrite HnI by done; eexists; (split; [reflexivity|]); cbn; (split; [done|]); split_and!; try done; lia.
  - rewrite bool_decide_false by done. specialize (Hrj Hne).
    destruct (inJ a), (inI a), (inJ b), (inI b); try discriminate Hca; try discriminate Hcb; cbn [andb negb orb];
      try (destruct Hj as (x & -> & ->); [done..|]); csimpl;
      try match goal with |- context [next_io_communication im ?t] =>
            destruct (Hi t) as (y & -> & ->); [done|done|exact Hri|] end;
      try rewrite HnJ by done; try rewrite HnI by done; 
      eexists; (split; [reflexivity|]); cbn; (split; [done|]); split_and!; try done; intros; lia.
Qed.

Lemma merge_rows_ok P0 a S0 R : forall P s,
  L = P0 ++ a :: S0 -> L = P ++ R ->
  row_indices (ranks inJ P0 * ranks inJ L) (ranks inI P0 * ranks inI L) a P s ->
  exists s', foldM (row_step (inJ a && negb (inI a)) (inI a && negb (inJ a))) s R = Ok s' /\
    mg_communication s' = mg_communication s ++ (merged_exchange a <$> R) /\
    row_indices (ranks inJ P0 * ranks inJ L) (ranks inI P0 * ranks inI L) a L s' /\
    same_columns s s'.
Proof.
  induction R as [|b R IH]; intros P s H0 HP Hs.
  - rewrite app_nil_r in HP. subst P. exists s. rewrite app_nil_r. by repeat split; try apply Hs.
  - destruct (merge_row_ok _ _ _ _ _ _ _ H0 HP Hs) as (s1 & H1 & Hc1 & Hi1 & (Hs11 & Hs12 & Hs13)).
    destruct (IH (P ++ [b]) s1 H0) as (s2 & H2 & Hc2 & Hi2 & (Hs21 & Hs22 & Hs23));
      [by rewrite <- app_assoc|done|].
    exists s2. cbn [foldM]. rewrite H1. cbn [mbind result_bind]. rewrite H2.
    split; [done|]. split; [rewrite Hc2, Hc1, <- app_assoc; done|]. split; [done|].
    unfold same_columns. split_and!; congruence.
Qed.

(** *** The loop on the columns *)

Definition col_state (P : list Z) (s : merge_state) : Prop :=
  mg_computation s = merged_amount <$> P /\
  mg_communication s = (P ≫= fun a => merged_exchange a <$> L) /\
  col_job_host_index s = Z.of_nat (ranks inJ P) /\
  col_io_host_index s = Z.of_nat (ranks inI P) /\
  (jm ≠ [] -> row_job_host_index s = Z.of_nat (ranks inJ P * ranks inJ L)) /\
  row_io_host_index s = Z.of_nat (ranks inI P * ranks inI L).

Lemma next_amount f (v : list Q) P a S :
  length v = ranks f L -> L = P ++ a :: S -> f a = true ->
  exists x, vector_get v (Z.of_nat (ranks f P)) = Ok x /\ amount (members_of f L) v a = Some x.
Proof.
  intros Hv HP Ha. destruct (lookup_lt_is_Some_2 v (ranks f P)) as [x Hx].
  { rewrite Hv. by eapply ranks_lt. }
  exists x. split; [by apply vector_get_nat|]. unfold amount. by rewrite (rank_of _ _ _ _ HP), Ha.
Qed.

Lemma amount_None f v P a S : L = P ++ a :: S -> f a = false -> amount (members_of f L) v a = None.
Proof. intros HP Ha. unfold amount. by rewrite (rank_of _ _ _ _ HP), Ha. Qed.

Abbreviation col_step := (merge_col M JO IO jc jm ic im).

(** The column of [a], once its computation has been pushed. *)
Lemma merge_col_rows P a S s x cj ci :
  L = P ++ a :: S -> col_state P s -> x = merged_amount a ->
  cj = Z.of_nat (ranks inJ (P ++ [a])) -> ci = Z.of_nat (ranks inI (P ++ [a])) ->
  exists s', foldM (row_step (inJ a && negb (inI a)) (inI a && negb (inJ a)))
               (mk_merge (mg_computation s ++ [x]) (mg_communication s) cj (row_job_host_index s) ci
                  (row_io_host_index s)) L = Ok s' /\ col_state (P ++ [a]) s'.
Proof.
  intros HP (Hc & Hm & _ & _ & Hrj & Hri) -> -> ->.
  destruct (merge_rows_ok P a S L []
    (mk_merge (mg_computation s ++ [merged_amount a]) (mg_communication s) (Z.of_nat (ranks inJ (P ++ [a])))
       (row_job_host_index s) (Z.of_nat (ranks inI (P ++ [a]))) (row_io_host_index s)) HP eq_refl)
    as (s' & Hs' & Hm' & [Hrj' Hri'] & (Hc' & Hcj' & Hci')).
  { split; cbn; [intros Hne; rewrite (Hrj Hne)|rewrite Hri];
      repeat match goal with |- context [if ?b then _ else _] => destruct b end; rewrite ?Nat.add_0_r; done. }
  exists s'. split; [done|]. cbn in *. unfold col_state.
  rewrite Hc', Hm', Hcj', Hci', Hc, Hm, fmap_app, bind_app. split_and!; try done.
  - cbn. by rewrite app_nil_r.
  - intros Hne. rewrite (Hrj' Hne), ranks_app, ranks_cons. cbn. destruct (inJ a); cbn; lia.
  - rewrite Hri', ranks_app, ranks_cons. cbn. destruct (inI a); cbn; lia.
Qed.

Lemma merge_col_ok P a S s :
  L = P ++ a :: S -> col_state P s ->
  exists s', col_step L s a = Ok s' /\ col_state (P ++ [a]) s'.
Proof.
  intros HP Hs. pose proof (merge_col_rows P a S s) as Hrows. 
  assert (a ∈ L) as Ha by (rewrite HP; set_solver). pose proof (Hcover _ Ha) as Hca.
  destruct Hs as (Hc & Hm & Hcj & Hci & Hrj & Hri).
  pose proof (next_amount inJ jc P a S Hjc HP) as Hj. pose proof (next_amount inI ic P a S Hic HP) as Hi.
  pose proof (amount_None inJ jc P a S HP) as HnJ. pose proof (amount_None inI ic P a S HP) as HnI.
  rewrite !ranks_app, !ranks_cons in Hrows. unfold merged_amount in Hrows at 1.
  unfold merge_col, next_job_computation, next_io_computation.
  rewrite (HM _ Ha), (HJO _ Ha), (HIO _ Ha), Hcj.
  destruct (inJ a), (inI a); try discriminate Hca; cbn [andb negb] in *;
    try (destruct Hj as (x & -> & Hx); [done|]); csimpl; rewrite ?Hci;
    try (destruct Hi as (y & -> & Hy); [done|]); csimpl;
    (eapply Hrows; [done|done| |cbn; lia|cbn; lia]);
    rewrite ?Hx, ?Hy, ?HnJ, ?HnI by done; done.
Qed.

Lemma merge_cols_ok S : forall P s,
  L = P ++ S -> col_state P s ->
  exists s', foldM (col_step L) s S = Ok s' /\ col_state L s'.
Proof.
  induction S as [|a S IH]; intros P s HP Hs.
  - rewrite app_nil_r in HP. subst P. by exists s.
  - destruct (merge_col_ok _ _ _ _ HP Hs) as (s1 & H1 & Hs1).
    destruct (IH (P ++ [a]) s1) as (s2 & H2 & Hs2); [by rewrite <- app_assoc|done|].
    exists s2. cbn [foldM]. rewrite H1. done.
Qed.
End MergeFacts.

Lemma mapM_r_ok {A B} (f : A -> result B) (g : A -> B) l :
  (forall a, a ∈ l -> f a = Ok (g a)) -> mapM_r f l = Ok (g <$> l).
Proof.
  induction l as [|a l IH]; intros Hf; [done|]. cbn. rewrite (Hf a) by left. cbn.
  rewrite IH; [done|]. intros a' Ha'. apply Hf. by right.
Qed.

Section MergeTheorem.
Context {IS Host : Type} `{IntervalSetLaws IS}.

Lemma all_ids (alloc : IS) : mapM_r (is_at alloc) (is_indices alloc) = Ok (elements_of alloc).
Proof.
  unfold is_indices. rewrite is_size_elements. unfold indices.
  rewrite (mapM_r_ok _ (fun i => default 0 (elements_of alloc !! Z.to_nat i))).
  - f_equal. apply list_eq. intros i. rewrite list_lookup_fmap.
    destruct (elements_of alloc !! i) as [x|] eqn:Hx.
    + pose proof (lookup_lt_Some _ _ _ Hx). rewrite lookup_seqZ_lt by lia.
      cbn [fmap option_fmap option_map]. by rewrite Z.add_0_l, Nat2Z.id, Hx.
    + apply lookup_ge_None in Hx. by rewrite lookup_seqZ_ge by lia.
  - intros i Hi%elem_of_seqZ. rewrite <- (Z2Nat.id i) at 1 by lia. 
    destruct (lookup_lt_is_Some_2 (elements_of alloc) (Z.to_nat i)) as [x Hx]; [lia|].
    rewrite Hx. by apply is_at_spec.
Qed.

Lemma members_of_elements (alloc whole : IS) :
  (forall a, a ∈ elements_of alloc -> a ∈ elements_of whole) ->
  members_of (is_contains alloc) (elements_of whole) = elements_of alloc.
Proof.
  intros Hsub. apply StronglySorted_ext; [|apply elements_sorted|].
  - clear Hsub. unfold members_of. induction (elements_sorted whole) as [|x l Hl IH Hx]; [constructor|].
    rewrite filter_cons. case_decide; [|done]. constructor; [done|].
    apply Forall_forall. intros y [_ Hy]%list_elem_of_filter. rewrite Forall_forall in Hx. by apply Hx.
  - intros x. unfold members_of. rewrite list_elem_of_filter, is_contains_spec. naive_solver.
Qed.

(** C19. Merging a job with its IO job: the task runs on the union of the two
    allocations, and every host computes, and exchanges with every other host,
    what the job asks for plus what the IO job asks for, each read at the
    machine's rank in the allocation it belongs to. *)
Theorem merge_io_spec ms (machine_ids io_allocation : IS) (job io : ptask_matrices Host) machines :
  let J := elements_of machine_ids in
  let I := elements_of io_allocation in
  let U := elements_of (is_union machine_ids io_allocation) in
  length (computation_vector job) = length J ->
  (communication_matrix job = [] \/ length (communication_matrix job) = (length J * length J)%nat) ->
  length (computation_vector io) = length I ->
  length (communication_matrix io) = (length I * length I)%nat ->
  mapM_r (machine_at ms) U = Ok machines ->
  Z.of_nat (length U) * Z.of_nat (length U) < 2 ^ 32 ->
  merge_io ms machine_ids io_allocation job io = Ok (mk_matrices
    ((fun a => combine (amount J (computation_vector job) a) (amount I (computation_vector io) a)) <$> U)
    (U ≫= fun a => (fun b => combine (exchange J (communication_matrix job) a b)
                               (exchange I (communication_matrix io) a b)) <$> U)
    (m_host <$> machines)).
Proof.
  intros J I U Hjc Hjm Hic Him Hms Hn. unfold merge_io. rewrite all_ids. csimpl. fold U.
  assert (mapM_r (fun i => m ← machine_at ms i; Ok (m_host m)) U = Ok (m_host <$> machines)) as ->.
  { clear -Hms. revert machines Hms. induction U as [|a U IH]; cbn; intros machines; [by intros [= <-]|].
    intros (m & -> & (l & Hl & [= <-])%bind_Ok)%bind_Ok. cbn. by rewrite (IH _ Hl). }
  csimpl. rewrite length_fmap, (mapM_r_length _ _ _ Hms). destruct (Z.ltb_spec (Z.of_nat (length U) * Z.of_nat (length U)) (2 ^ 32)); [|lia].
  assert (members_of (is_contains machine_ids) U = J) as EJ
    by (apply members_of_elements; intros; rewrite is_union_spec; by left).
  assert (members_of (is_contains io_allocation) U = I) as EI
    by (apply members_of_elements; intros; rewrite is_union_spec; by right).
  destruct (merge_cols_ok U (is_contains machine_ids) (is_contains io_allocation)
    (is_inter machine_ids io_allocation) (is_diff machine_ids io_allocation) (is_diff io_allocation machine_ids)
    (computation_vector job) (communication_matrix job) (computation_vector io) (communication_matrix io))
    with (S := U) (P := @nil Z) (s := mk_merge [] [] 0 0 0 0) as (s & -> & Hs); try done.
  - apply elements_NoDup.
  - intros a [Ha|Ha]%is_union_spec; apply is_contains_spec in Ha; rewrite Ha; [done|apply orb_true_r].
  - intros a _. apply eq_true_iff_eq. rewrite andb_true_iff, !is_contains_spec. apply is_inter_spec.
  - intros a _. apply eq_true_iff_eq. rewrite andb_true_iff, negb_true_iff, is_contains_false, !is_contains_spec. apply is_diff_spec.
  - intros a _. apply eq_true_iff_eq. rewrite andb_true_iff, negb_true_iff, is_contains_false, !is_contains_spec. apply is_diff_spec.
  - unfold ranks. by rewrite EJ.
  - unfold ranks. by rewrite EI.
  - unfold ranks. by rewrite EJ.
  - unfold ranks. by rewrite EI.
  - destruct Hs as (Hc & Hm & _). csimpl. rewrite Hc, Hm.
    unfold merged_amount, merged_exchange, job_exchange, io_exchange. rewrite EJ, EI. done.
Qed.
End MergeTheorem.

Module TaskExamples.
Import Concrete.

Definition machine (i : Z) (permissions : Z) : Machine host :=
  new_Machine "m" (mk_host (Z.to_N i) "m" ∅ [1%Q]) <| m_id := i |> <| m_permissions := permissions |>.
Definition platform : Machines host :=
  mk_Machines [machine 0 roles.COMPUTE_NODE; machine 1 roles.COMPUTE_NODE; machine 2 roles.STORAGE] [2%nat] [0%nat; 1%nat]
    None false ∅.
Definition host_of (i : Z) : host := m_host (machine i 0).

Example generated_matrices_wf_witness :
  exists m, generate_matrices_from_profile platform (Some ∅) [host_of 0; host_of 1]
    (mk_Profile PARALLEL_HOMOGENEOUS_PFS (ParallelHomogeneousPFSProfileData 3 5 "pfs") "" "p" 0) = Ok m /\ matrices_wf m.
Proof.
  destruct (generate_matrices_from_profile platform (Some ∅) [host_of 0; host_of 1]
    (mk_Profile PARALLEL_HOMOGENEOUS_PFS (ParallelHomogeneousPFSProfileData 3 5 "pfs") "" "p" 0)) as [m|] eqn:E;
    [|by vm_compute in E].
  exists m. split; [done|]. eapply generated_matrices_wf; [|exact E]. done.
Defined.

Example total_amount_is_spread_witness :
  exists m, generate_parallel_homogeneous_total_amount [host_of 0; host_of 1]
              (ParallelHomogeneousTotalAmountProfileData 10 6) = Ok m /\
    (Qsum (computation_vector m) == 10)%Q.
Proof.
  eexists. split; [reflexivity|].
  refine (proj1 (total_amount_is_spread [host_of 0; host_of 1] 10 6 _ _ _ _)); [discriminate|done|reflexivity].
Defined.

Definition job_matrices : ptask_matrices host := homogeneous 2 10 4 [host_of 0; host_of 1].
Definition io_matrices : ptask_matrices host := mk_matrices [0%Q; 0%Q] [0%Q; 7%Q; 9%Q; 0%Q] [host_of 1; host_of 2].

Example merge_io_spec_witness :
  merge_io platform [0; 1] [1; 2] job_matrices io_matrices =
    Ok (mk_matrices [10%Q; (10 + 0)%Q; 0%Q]
          [0; 4; 0; 4; 0 + 0; 7; 0; 9; 0]%Q (m_host <$> ms_machines platform)).
Proof.
  refine (merge_io_spec platform [0; 1] [1; 2] job_matrices io_matrices (ms_machines platform) _ _ _ _ _ _);
    try reflexivity. by right.
Defined.
End TaskExamples.
