(* ===== verification/SwitchProcesses.v ===== *)
(** * The processes that switch machines on and off (src/pstate.cpp)

    Each goes through a virtual power state whose speed makes one flop last as
    long as the switch, then tells the server. *)

From S2P Require Import Prelude Interfaces Profiles Jobs NumericStrcmp Outputs Machines Workload Tracers Ipp PState Writer NumberParsing Workflow Context Server Actors.
#[local] Open Scope process_scope.

Section SwitchProcesses.
Context {IS Engine Host V : Type} `{IntervalSet IS} `{SimGrid Engine Host}.
#[local] Abbreviation Data := (ServerData IS Engine Host V).
#[local] Abbreviation M := (Actors.M Data IS Host).

(** Operations on the context, as steps of a process. *)
Definition on_ctx (f : BatsimContext IS Engine Host V -> result (BatsimContext IS Engine Host V)) : M unit :=
  change (on_context f).
Definition read_ctx {A} (f : BatsimContext IS Engine Host V -> result A) : M A := read (fun d => f (sd_context d)).

(** [send_message] blocks until the message has been received. *)
Definition send (destination_mailbox : string) (type : IPMessageType) (data : MessageData IS Host) : M unit :=
  do* on_ctx (fun c => Ok (send_message destination_mailbox type data c)) in
  let* nb_messages := read_ctx (fun c => Ok (nb_sent destination_mailbox c)) in
  block (put_message destination_mailbox nb_messages).

Definition set_host_pstate (h : Host) (pstate : Z) : M unit :=
  on_ctx (fun c => Ok (c <| c_engine ::= fun e => set_pstate e h pstate |>)).

Definition read_machine (machine_id : Z) : M (Machine Host) := read_ctx (fun c => machine_at (c_machines c) machine_id).

(** The checks that both processes start with. The process runs on the host of
    the machine. *)
Definition check_switch (machine_id new_pstate : Z) (expected : MachineState) (new_type : PStateType) : M (Machine Host) :=
  do* read_ctx (fun c => xbt_assert (exists_ (c_machines c) machine_id) "machine does not exist") in
  let* m := read_machine machine_id in
  do* assert_ (bool_decide (m_state m = expected)) "machine is not in the expected transition" in
  do* assert_ (bool_decide (m_jobs_being_computed m = [])) "jobs are running on the machine" in
  do* assert_ (has_pstate m new_pstate) "machine has no such pstate" in
  do* assert_ (bool_decide (m_pstates m !! new_pstate = Some new_type)) "pstate of another type" in
  ret m.

Definition virtual_pstate (m : Machine Host) (sleep : Z) (which : SleepPState -> Z) : M Z :=
  read (fun _ => s ← of_option (Undef "null SleepPState pointer") (m_sleep_pstates m !! sleep); Ok (which s)).

(** Both passes through the virtual power state, the second after one flop. *)
Definition do_switch (machine_id new_pstate virtual : Z) (h : Host) (final : MachineState) (type : IPMessageType) : M unit :=
  do* set_host_pstate h virtual in
  do* block (execute 1%Q) in
  do* set_host_pstate h new_pstate in
  do* on_ctx (set_machine_state machine_id final) in
  send "server" type (SwitchMessage machine_id (u64 new_pstate)).

Definition switch_on_machine_process (machine_id new_pstate : Z) : M unit :=
  let* m := check_switch machine_id new_pstate TRANSITING_FROM_SLEEPING_TO_COMPUTING COMPUTATION_PSTATE in
  let* current_pstate := read_ctx (fun c => Ok (i32 (get_pstate (c_engine c) (m_host m)))) in
  let* on_ps := virtual_pstate m current_pstate switch_on_virtual_pstate in
  do_switch machine_id new_pstate on_ps (m_host m) IDLE SWITCHED_ON.

Definition switch_off_machine_process (machine_id new_pstate : Z) : M unit :=
  let* m := check_switch machine_id new_pstate TRANSITING_FROM_COMPUTING_TO_SLEEPING SLEEP_PSTATE in
  let* off_ps := virtual_pstate m new_pstate switch_off_virtual_pstate in
  do_switch machine_id new_pstate off_ps (m_host m) SLEEPING SWITCHED_OFF.

(** ** Sending a message *)

Definition posted (mbox : string) (type : IPMessageType) (data : MessageData IS Host) (d : Data) : Data :=
  d <| sd_context ::= send_message mbox type data |>.

Lemma send_wp {S} (allowed : S -> forall b : blocking IS Host, Data -> answer b -> Data -> S -> Prop) mbox type data
    (Q : unit -> Data -> S -> Prop) d s :
  (forall n u d' s', allowed s (put_message mbox n) (posted mbox type data d) u d' s' -> Q tt d' s') ->
  wp allowed (send mbox type data) Q d s.
Proof.
  intros HQ. apply wp_mbind. eapply wp_change; [done|]. apply wp_mbind. eapply wp_read; [done|].
  refine (wp_block allowed (put_message mbox _) Q _ s _). intros [] d' s'. apply HQ.
Qed.

Lemma send_wlp {S} (allowed : S -> forall b : blocking IS Host, Data -> answer b -> Data -> S -> Prop) mbox type data
    (Q : unit -> Data -> S -> Prop) d s :
  (forall n u d' s', allowed s (put_message mbox n) (posted mbox type data d) u d' s' -> Q tt d' s') ->
  wlp allowed (send mbox type data) Q d s.
Proof.
  intros HQ. apply wlp_mbind, wlp_change. intros d1 [= <-]. apply wlp_mbind, wlp_read. intros n _.
  refine (wlp_block allowed (put_message mbox n) Q _ s _). intros [] d' s'. apply HQ.
Qed.

Lemma send_runs (allowed : forall b : blocking IS Host, Data -> answer b -> Data -> Prop) mbox type data d u d' :
  runs allowed (send mbox type data) d u d' -> exists n, allowed (put_message mbox n) (posted mbox type data d) u d'.
Proof.
  intros (u1 & d1 & Hc & (n & d2 & Hn & Hb)%runs_mbind)%runs_mbind.
  apply runs_change in Hc. injection Hc as <-. unfold read_ctx in Hn. apply runs_read in Hn as [_ ->].
  exists n. exact (runs_block allowed (put_message mbox n) _ u d' Hb).
Qed.
End SwitchProcesses.
