(* ===== verification/EnvTrace.v ===== *)
(** * The trace of environmental properties (src/environmental_footprint_tracer_reader.cpp)

    Each line of a CSV file gives a date, a zone of the platform, a property of
    hosts and its new value: a process is created for it, which waits for the date
    and updates the hosts of the zone. *)

From S2P Require Import Prelude Interfaces Profiles Jobs NumericStrcmp Outputs Machines Workload Tracers Ipp PState Writer NumberParsing Workflow Context Server Actors SwitchProcesses.
#[local] Open Scope process_scope.

(** ** Lines of the file *)

(** The tokens that [std::getline] gives until the end of the text: a text that
    ends with the delimiter has no last empty token. *)
Fixpoint getline_tokens (delim : ascii) (token s : string) : list string :=
  match s with
  | EmptyString => match token with EmptyString => [] | _ => [token] end
  | String c s => if Ascii.eqb c delim then token :: getline_tokens delim "" s
                  else getline_tokens delim (token +:+ String c "") s
  end.

Definition is_quote (c : ascii) : bool := Ascii.eqb c "034".
Definition erase_front_quote (token : string) : string :=
  match token with String c s => if is_quote c then s else token | EmptyString => token end.
Fixpoint pop_back_quote (token : string) : string :=
  match token with
  | EmptyString => EmptyString
  | String c EmptyString => if is_quote c then EmptyString else token
  | String c s => String c (pop_back_quote s)
  end.
Definition unquote (token : string) : string := pop_back_quote (erase_front_quote token).

Definition split_csv_line (line : string) : list string := unquote <$> getline_tokens "," "" line.

(** ** Updates *)

(** The properties of hosts that the plugin of SimGrid lets change. *)
Inductive host_property := carbon_intensity | water_intensity | wue | pue.
#[export] Instance host_property_eq_dec : EqDecision host_property.
Proof. solve_decision. Defined.

Definition property_of_string (s : string) : option host_property :=
  if String.eqb s "carbon_intensity" then Some carbon_intensity
  else if String.eqb s "water_intensity" then Some water_intensity
  else if String.eqb s "wue" then Some wue
  else if String.eqb s "pue" then Some pue
  else None.

Section EnvTrace.
Context {IS Engine Host V : Type} `{IntervalSet IS} `{SimGrid Engine Host} `{FileSystem}.
(** [sg_host_set_carbon_intensity] and the like. *)
Context (sg_host_set : host_property -> Engine -> Host -> Q -> Engine).
#[local] Abbreviation Ctx := (BatsimContext IS Engine Host V).
#[local] Abbreviation M := (Actors.M (ServerData IS Engine Host V) IS Host).
Implicit Types (c : Ctx).

(** An invalid value or an unknown property is reported, and ignored. *)
Definition apply_update (property_to_update new_values_str : string) (e : Engine) (host : Host) : Engine :=
  match stod new_values_str with
  | Ok new_val =>
      match property_of_string property_to_update with
      | Some property => sg_host_set property e host new_val
      | None => e
      end
  | Err _ => e
  end.

(** The lambda of the process. *)
Definition env_zone_update (delay : Q) (hosts : list Host) (property_to_update new_values_str : string) : M unit :=
  do* block (sleep_for delay) in
  on_ctx (fun c => Ok (c <| c_engine ::= fun e => foldl (apply_update property_to_update new_values_str) e hosts |>)).

(** A line without four tokens is skipped, and so is one whose date is not a number. *)
Definition read_trace_line c (line : string) : result Ctx :=
  match split_csv_line line with
  | token0 :: host_name :: property_to_update :: new_values_str :: _ =>
      match stod token0 with
      | Err _ => Ok c
      | Ok timestamp =>
          zone ← find_zone_by_name_machines (c_root_zone c) host_name;
          z ← of_option (Abort "env trace: not a zone name") zone;
          let hosts := z_all_hosts z in
          let delay := (timestamp - now c)%Q in
          let delay := if (delay <?q 0)%Q then 0%Q else delay in
          of_option (Undef "hosts[0] of an empty vector") (head hosts);;
          Ok (create_actor (env_zone_update_actor delay hosts property_to_update new_values_str) c).2
      end
  | _ => Ok c
  end.

(** The first line is the header. *)
Definition read_trace (filename : string) c : result Ctx :=
  lines ← of_option (Throw "runtime_error: Could not open file") (fs_lines filename);
  foldM read_trace_line c (tail lines).

(** ** Theorems *)

(** The update that a line describes: date, zone, property, value. *)
Definition update_of (line : string) : option (Q * string * string * string) :=
  match split_csv_line line with
  | token0 :: zone :: property :: value :: _ =>
      match stod token0 with Ok timestamp => Some (timestamp, zone, property, value) | Err _ => None end
  | _ => None
  end.

(** The process of an update, in the platform [root], at the date [date]. *)
Definition is_process_of (root : NetZone Host) (date : Q) (u : Q * string * string * string) (a : Actor IS Host V) : Prop :=
  let '(timestamp, zone, property, value) := u in
  exists z, in_zone z root /\ z_name z = zone /\ z_all_hosts z ≠ [] /\
    a = env_zone_update_actor (if (timestamp - date <?q 0)%Q then 0%Q else timestamp - date)%Q (z_all_hosts z) property value.

Lemma read_trace_line_spec c line c' :
  read_trace_line c line = Ok c' ->
  exists actors, c_actors c' = c_actors c ++ actors /\ c_root_zone c' = c_root_zone c /\ now c' = now c /\
    Forall2 (is_process_of (c_root_zone c) (now c)) (match update_of line with Some u => [u] | None => [] end) actors.*2.
Proof.
  unfold read_trace_line, update_of. destruct (split_csv_line line) as [|t0 [|zone [|property [|value l]]]];
    try (intros [= <-]; exists []; rewrite app_nil_r; repeat split; constructor).
  destruct (stod t0) as [timestamp|]; [|intros [= <-]; exists []; rewrite app_nil_r; repeat split; constructor].
  intros (found & Hfound & (z & ->%of_option_Ok & (h & Hh%of_option_Ok & [= <-])%bind_Ok)%bind_Ok)%bind_Ok.
  destruct (find_zone_by_name_spec (c_root_zone c) zone) as [(z' & Hz & Hn & Hin)|[Hz _]];
    rewrite Hfound in Hz; [injection Hz as <-|discriminate Hz].
  eexists [(_, _)]. split; [reflexivity|]. split; [done|]. split; [done|]. constructor; [|constructor].
  exists z. split; [done|]. split; [done|]. split; [|done]. intros Hnil. by rewrite Hnil in Hh.
Qed.

(** Reading a trace creates one process for each line, after the header, that
    has four tokens and a date, in the order of the file, and nothing for the
    others; its zone is a zone of the platform, it concerns the hosts of that zone,
    and it waits until the date of the line, or not at all when it is over. *)
Theorem read_trace_spec filename c c' :
  read_trace filename c = Ok c' ->
  exists lines actors, fs_lines filename = Some lines /\ c_actors c' = c_actors c ++ actors /\
    Forall2 (is_process_of (c_root_zone c) (now c)) (omap update_of (tail lines)) actors.*2.
Proof.
  unfold read_trace. intros (lines & Hlines%of_option_Ok & Hr)%bind_Ok.
  enough (exists actors, c_actors c' = c_actors c ++ actors /\
    Forall2 (is_process_of (c_root_zone c) (now c)) (omap update_of (tail lines)) actors.*2) as (actors & Ha & Hf)
    by by exists lines, actors.
  clear Hlines. revert c Hr. induction (tail lines) as [|line l IH]; intros c; cbn [foldM].
  - intros [= <-]. exists []. rewrite app_nil_r. split; [done|]. constructor.
  - intros (c1 & (a1 & Ha1 & Hz1 & Hn1 & Hf1)%read_trace_line_spec & (a2 & Ha2 & Hf2)%IH)%bind_Ok.
    exists (a1 ++ a2). rewrite Ha2, Ha1, app_assoc. split; [done|]. rewrite Hz1, Hn1 in Hf2.
    rewrite fmap_app. cbn. destruct (update_of line) as [u|].
    + change (u :: omap update_of l) with ([u] ++ omap update_of l). by apply Forall2_app.
    + apply Forall2_nil_inv_l in Hf1. by rewrite Hf1.
Qed.
End EnvTrace.
