(* ===== verification/Main.v ===== *)
(** * The command line and the start of a simulation (src/batsim.hpp, src/batsim.cpp)

    The options are checked and stored; the workloads, workflows and events are
    loaded; the first processes are created.  The parser of options (docopt) is the
    class [Docopt]. *)

From S2P Require Import Prelude Interfaces Profiles Jobs Storage NumericStrcmp Outputs Machines Workload Tracers Ipp PState Writer NumberParsing Workflow Context Server Actors SwitchProcesses EnvTrace.

(** ** Arguments *)

Inductive VerbosityLevel := QUIET | NETWORK_ONLY | INFORMATION | DEBUG.
#[export] Instance VerbosityLevel_eq_dec : EqDecision VerbosityLevel.
Proof. solve_decision. Defined.
Inductive ProgramType := BATSIM | BATEXEC.
#[export] Instance ProgramType_eq_dec : EqDecision ProgramType.
Proof. solve_decision. Defined.

Record WorkloadDescription := mk_WorkloadDescription {
  wd_filename : string;
  wd_name : string;
}.
Record WorkflowDescription := mk_WorkflowDescription {
  fd_filename : string;
  fd_name : string;
  fd_workload_name : string;
  fd_start_time : Q;
}.
Record EventListDescription := mk_EventListDescription {
  ed_filename : string;
  ed_name : string;
}.

Record MainArguments := mk_MainArguments {
  platform_filename : string;
  workload_descriptions : list WorkloadDescription;
  workflow_descriptions : list WorkflowDescription;
  eventList_descriptions : list EventListDescription;
  master_host_name : string;
  a_energy_used : bool;
  a_environmental_footprint_used : bool;
  environmental_footprint_trace_file : string;
  hosts_roles_map : gmap string string;
  socket_endpoint : string;
  a_redis_enabled : bool;
  redis_hostname : string;
  redis_port : Z;
  redis_prefix : string;
  forward_profiles_on_submission : bool;
  dynamic_registration_enabled : bool;
  ack_dynamic_registration : bool;
  profile_reuse_enabled : bool;
  export_prefix : string;
  enable_schedule_tracing : bool;
  enable_machine_state_tracing : bool;
  limit_machines_count : Z;
  limit_machines_count_by_workload : bool;
  verbosity : VerbosityLevel;
  workflow_nb_concurrent_jobs_limit : Z;
  a_terminate_with_last_workflow : bool;
  simgrid_config : list string;
  simgrid_logging : list string;
  sched_config : string;
  sched_config_file : string;
  dump_execution_context : bool;
  a_allow_compute_sharing : bool;
  a_allow_storage_sharing : bool;
  forward_unknown_events : bool;
  program_type : ProgramType;
}.
#[export] Instance eta_MainArguments : Eta MainArguments := fun r =>
  mk_MainArguments (platform_filename r) (workload_descriptions r) (workflow_descriptions r) (eventList_descriptions r)
    (master_host_name r) (a_energy_used r) (a_environmental_footprint_used r) (environmental_footprint_trace_file r)
    (hosts_roles_map r) (socket_endpoint r) (a_redis_enabled r) (redis_hostname r) (redis_port r) (redis_prefix r)
    (forward_profiles_on_submission r) (dynamic_registration_enabled r) (ack_dynamic_registration r)
    (profile_reuse_enabled r) (export_prefix r) (enable_schedule_tracing r) (enable_machine_state_tracing r)
    (limit_machines_count r) (limit_machines_count_by_workload r) (verbosity r) (workflow_nb_concurrent_jobs_limit r)
    (a_terminate_with_last_workflow r) (simgrid_config r) (simgrid_logging r) (sched_config r) (sched_config_file r)
    (dump_execution_context r) (a_allow_compute_sharing r) (a_allow_storage_sharing r) (forward_unknown_events r)
    (program_type r).

(** The initial values of the members; [energy_used] has none and is always set. *)
Definition new_MainArguments : MainArguments :=
  mk_MainArguments "" [] [] [] "" false false "" ∅ "" false "" 0 "" false false false false "" false false 0 false
    QUIET 0 false [] [] "" "" false false false false BATSIM.

Definition verbosity_level_from_string (str : string) : result VerbosityLevel :=
  if String.eqb str "quiet" then Ok QUIET
  else if String.eqb str "network-only" then Ok NETWORK_ONLY
  else if String.eqb str "information" then Ok INFORMATION
  else if String.eqb str "debug" then Ok DEBUG
  else Err (Throw "runtime_error: Invalid verbosity level string").

(** docopt: the value of an option, which has one of several types; an accessor of
    another type throws. *)
Class Docopt (Args : Type) := {
  asBool : Args -> string -> result bool;
  asString : Args -> string -> result string;
  asLong : Args -> string -> result Z;
  asStringList : Args -> string -> result (list string);
  isString : Args -> string -> bool;
}.

(** The output parameters of [parse_main_args], with its local [error]. *)
Record parsing := mk_parsing {
  pa_args : MainArguments;
  pa_error : bool;
  pa_return_code : Z;
}.
#[export] Instance eta_parsing : Eta parsing := fun r => mk_parsing (pa_args r) (pa_error r) (pa_return_code r).

(** [error = true;] with [return_code |= code;], or without. *)
Definition failure (code : Z) (p : parsing) : parsing :=
  p <| pa_error := true |> <| pa_return_code ::= fun r => Z.lor r code |>.
Definition failure_without_code (p : parsing) : parsing := p <| pa_error := true |>.

(** [try { set(value); } catch (std::exception) { failure; }] *)
Definition try_set {A} (value : result A) (set : A -> parsing -> parsing) (on_error : parsing -> parsing) (p : parsing)
  : result parsing :=
  match value with
  | Ok a => Ok (set a p)
  | Err (Throw _) => Ok (on_error p)
  | Err e => Err e
  end.

(** The message of a [catch] block shows the text of the option, which may throw in turn. *)
Definition report {A} (value : result A) (text : result string) : result unit :=
  match value with Err (Throw _) => text;; Ok tt | _ => Ok tt end.

Section ParseMainArgs.
Context {Args : Type} `{Docopt Args}.
(** [stat], [getcwd], and [boost::split] without compression of the tokens. *)
Context (file_exists : string -> bool) (getcwd : string) (split_on : ascii -> string -> list string).
Implicit Types (args : Args) (p : parsing).

Definition absolute_filename (filename : string) : result string :=
  match filename with
  | EmptyString => Err (Abort "filename is not a filename...")
  | String "/" _ => Ok filename
  | _ => Ok (getcwd +:+ String "/" filename)
  end.

Definition add_workload (p : parsing) (workload : nat * string) : result parsing :=
  let '(i, workload_file) := workload in
  if negb (file_exists workload_file) then Ok (failure 2 p)
  else
    filename ← absolute_filename workload_file;
    Ok (p <| pa_args ::= fun a => a <| workload_descriptions ::= fun l =>
            l ++ [mk_WorkloadDescription filename ("w" +:+ fmt_d (Z.of_nat i))] |> |>).

Definition add_workflow (p : parsing) (workflow : nat * string) : result parsing :=
  let '(i, workflow_file) := workflow in
  if negb (file_exists workflow_file) then Ok (failure 4 p)
  else
    filename ← absolute_filename workflow_file;
    let name := "wf" +:+ fmt_d (Z.of_nat i) in
    Ok (p <| pa_args ::= fun a => a <| workflow_descriptions ::= fun l =>
            l ++ [mk_WorkflowDescription filename name name 0%Q] |> |>).

Definition add_cut_workflow (p : parsing) (workflow : nat * (string * string)) : result parsing :=
  let '(i, (cut_workflow_file, cut_workflow_time_str)) := workflow in
  if negb (file_exists cut_workflow_file) then Ok (failure 16 p)
  else
    filename ← absolute_filename cut_workflow_file;
    let name := "wfc" +:+ fmt_d (Z.of_nat i) in
    try_set (stod cut_workflow_time_str)
      (fun start_time p =>
         if (start_time <?q 0)%Q then failure 32 p
         else p <| pa_args ::= fun a => a <| workflow_descriptions ::= fun l =>
                  l ++ [mk_WorkflowDescription filename name name start_time] |> |>)
      (failure 64) p.

Definition add_events (p : parsing) (events : nat * string) : result parsing :=
  let '(i, events_file) := events in
  if negb (file_exists events_file) then Ok (failure 2 p)
  else
    filename ← absolute_filename events_file;
    Ok (p <| pa_args ::= fun a => a <| eventList_descriptions ::= fun l =>
            l ++ [mk_EventListDescription filename ("we" +:+ fmt_d (Z.of_nat i))] |> |>).

(** The input files. *)
Definition parse_inputs args (p : parsing) : result parsing :=
  platform ← asString args "--platform";
  let p := p <| pa_args ::= fun a => a <| platform_filename := platform |> |> in
  let p := if file_exists platform then p else failure 1 p in
  workload_files ← asStringList args "--workload";
  p ← foldM add_workload p (imap pair workload_files);
  workflow_files ← asStringList args "--workflow";
  p ← foldM add_workflow p (imap pair workflow_files);
  cut_workflow_files ← asStringList args "<cut_workflow_file>";
  cut_workflow_times ← asStringList args "<start_time>";
  p ← (if negb (bool_decide (length cut_workflow_files = length cut_workflow_times)) then Ok (failure 8 p)
       else foldM add_cut_workflow p (imap pair (zip cut_workflow_files cut_workflow_times)));
  events_files ← asStringList args "--events";
  foldM add_events p (imap pair events_files).

Definition add_roles (m : gmap string string) (hosts_roles : string) : result (gmap string string) :=
  match split_on ":" hosts_roles with
  | [hosts; roles] => Ok (foldl (fun m host => <[host := roles]> m) m (split_on "," hosts))
  | _ => Err (Abort "The roles host mapping should only contain one ':' character")
  end.

Definition parse_common args (p : parsing) : result parsing :=
  master ← asString args "--master-host";
  energy ← asBool args "--energy";
  hosts_roles_maps ← asStringList args "--add-role-to-hosts";
  roles ← foldM add_roles {[master := "master"]} hosts_roles_maps;
  socket ← asString args "--socket-endpoint";
  redis ← asBool args "--enable-redis";
  hostname ← asString args "--redis-hostname";
  let p := p <| pa_args ::= fun a => a <| master_host_name := master |> <| a_energy_used := energy |>
                <| hosts_roles_map := roles |> <| socket_endpoint := socket |> <| a_redis_enabled := redis |>
                <| redis_hostname := hostname |> |> in
  report (asLong args "--redis-port") (asString args "--redis-port");;
  p ← try_set (asLong args "--redis-port") (fun port p => p <| pa_args ::= fun a => a <| redis_port := i32 port |> |>)
        failure_without_code p;
  prefix ← asString args "--redis-prefix";
  Ok (p <| pa_args ::= fun a => a <| redis_prefix := prefix |> |>).

Definition parse_outputs_and_jobs args (p : parsing) : result parsing :=
  prefix ← asString args "--export";
  no_schedule ← asBool args "--disable-schedule-tracing";
  no_states ← asBool args "--disable-machine-state-tracing";
  forward ← asBool args "--forward-profiles-on-submission";
  dynamic ← asBool args "--enable-dynamic-jobs";
  ack ← asBool args "--acknowledge-dynamic-jobs";
  reuse ← asBool args "--enable-profile-reuse";
  let p := p <| pa_args ::= fun a => a <| export_prefix := prefix |> <| enable_schedule_tracing := negb no_schedule |>
                <| enable_machine_state_tracing := negb no_states |> <| forward_profiles_on_submission := forward |>
                <| dynamic_registration_enabled := dynamic |> <| ack_dynamic_registration := ack |>
                <| profile_reuse_enabled := reuse |> |> in
  Ok (if reuse && negb dynamic then failure_without_code p else p).

Definition parse_limits args (p : parsing) : result parsing :=
  m_max_str ← asString args "--mmax";
  p ← try_set (stoi m_max_str) (fun m p => p <| pa_args ::= fun a => a <| limit_machines_count := m |> |>)
        failure_without_code p;
  by_workload ← asBool args "--mmax-workload";
  let p := p <| pa_args ::= fun a => a <| limit_machines_count_by_workload := by_workload |> |> in
  let level := (s ← asString args "--verbosity"; verbosity_level_from_string s) in
  report (level ← level; quiet ← asBool args "--quiet"; Ok (level, quiet)) (asString args "--verbosity");;
  p ← try_set level
        (fun level p =>
           let p := p <| pa_args ::= fun a => a <| verbosity := level |> |> in
           match asBool args "--quiet" with
           | Ok quiet => if quiet : bool then p <| pa_args ::= fun a => a <| verbosity := QUIET |> |> else p
           | Err _ => failure_without_code p
           end)
        failure_without_code p;
  workflow_jobs_limit ← asString args "--workflow-jobs-limit";
  p ← try_set (stoi workflow_jobs_limit)
        (fun n p => let p := p <| pa_args ::= fun a => a <| workflow_nb_concurrent_jobs_limit := n |> |> in
                    if n <? 0 then failure_without_code p else p)
        failure_without_code p;
  last ← asBool args "--ignore-beyond-last-workflow";
  Ok (p <| pa_args ::= fun a => a <| a_terminate_with_last_workflow := last |> |>).

(** Whether the parsing goes on. *)
Definition parse_footprint args (p : parsing) : result (bool * parsing) :=
  fixed ← asBool args "--environmental-footprint";
  if fixed : bool then Ok (true, p <| pa_args ::= fun a => a <| a_environmental_footprint_used := true |> |>)
  else if isString args "--environmental-footprint-dynamic" then
    trace_file ← asString args "--environmental-footprint-dynamic";
    let p := p <| pa_args ::= fun a => a <| environmental_footprint_trace_file := trace_file |> |> in
    Ok (if String.eqb trace_file "None" then (false, failure_without_code p)
        else if negb (file_exists trace_file) then (false, failure_without_code p)
        else (true, p <| pa_args ::= fun a => a <| a_environmental_footprint_used := true |> |>))
  else Ok (true, p).

Definition parse_others args (p : parsing) : result parsing :=
  dump ← asBool args "--dump-execution-context";
  compute ← asBool args "--enable-compute-sharing";
  no_storage ← asBool args "--disable-storage-sharing";
  unknown ← (match eventList_descriptions (pa_args p) with
             | [] => Ok (forward_unknown_events (pa_args p))
             | _ => asBool args "--forward-unknown-events"
             end);
  no_sched ← asBool args "--no-sched";
  cfg ← (if isString args "--sched-cfg" then asString args "--sched-cfg" else Ok (sched_config (pa_args p)));
  cfg_file ← (if isString args "--sched-cfg-file" then asString args "--sched-cfg-file" else Ok (sched_config_file (pa_args p)));
  sg_cfg ← asStringList args "--sg-cfg";
  sg_log ← asStringList args "--sg-log";
  Ok (p <| pa_args ::= fun a => a <| dump_execution_context := dump |> <| a_allow_compute_sharing := compute |>
             <| a_allow_storage_sharing := negb no_storage |> <| forward_unknown_events := unknown |>
             <| program_type := if no_sched : bool then BATEXEC else BATSIM |> <| sched_config := cfg |>
             <| sched_config_file := cfg_file |> <| simgrid_config := sg_cfg |> <| simgrid_logging := sg_log |> |>).

(** The arguments, the return code and whether to run the simulation. *)
Definition parse_main_args args : result (MainArguments * Z * bool) :=
  version ← asBool args "--simgrid-version";
  if version : bool then Ok (new_MainArguments, 0, false) else
  p ← parse_inputs args (mk_parsing new_MainArguments false 0);
  p ← parse_common args p;
  p ← parse_outputs_and_jobs args p;
  p ← parse_limits args p;
  '(continue, p) ← parse_footprint args p;
  if negb continue then Ok (pa_args p, pa_return_code p, false) else
  p ← parse_others args p;
  Ok (pa_args p, pa_return_code p, negb (pa_error p)).
End ParseMainArgs.

(** ** Logs *)

Definition log_categories : list string :=
  ["workload"; "job_submitter"; "redis"; "jobs"; "machines"; "pstate"; "workflow"; "jobs_execution"; "server"; "export";
   "profiles"; "machine_range"; "events"; "event_submitter"; "protocol"; "network"; "ipp"; "task_execution"].

Definition log_threshold (level : VerbosityLevel) : string :=
  match level with
  | QUIET | NETWORK_ONLY => "error"
  | DEBUG => "debug"
  | INFORMATION => "info"
  end.

(** The settings given to [xbt_log_control_set], in order; the last one that concerns
    a category decides. *)
Definition configure_batsim_logging_output (main_args : MainArguments) : list string :=
  ((fun log_cat => log_cat +:+ ".thresh:" +:+ log_threshold (verbosity main_args)) <$> log_categories) ++
  (if bool_decide (verbosity main_args = NETWORK_ONLY) then ["network.thresh:info"] else []) ++
  ["batsim.thresh:info"; "surf_energy.thresh:critical"; "surf_environmental_footprint.thresh:critical"].

(** ** The configuration of the context *)

Section Start.
Context {IS Engine Host V N : Type} `{IntervalSet IS} `{SimGrid Engine Host} `{RapidJson V} `{BoostString} `{FileSystem} `{PugiXml N}.
Context (str_find : string -> string -> bool) (replace_id : string -> string -> string).
(** The content of a file ([ifstream]), if it can be opened. *)
Context (read_file : string -> option string).
#[local] Abbreviation Ctx := (BatsimContext IS Engine Host V).
Implicit Types (c : Ctx).

Definition configured_options (main_args : MainArguments) (o : Options) : Options :=
  mk_Options (a_redis_enabled main_args) (forward_profiles_on_submission main_args)
    (dynamic_registration_enabled main_args) (ack_dynamic_registration main_args)
    (if dynamic_registration_enabled main_args && profile_reuse_enabled main_args then false else garbage_collect_profiles o)
    (a_terminate_with_last_workflow main_args) (a_energy_used main_args) (a_environmental_footprint_used main_args)
    (smpi_used o) (a_allow_compute_sharing main_args) (a_allow_storage_sharing main_args)
    (enable_schedule_tracing main_args) (enable_machine_state_tracing main_args).

Definition read_whole_file_as_string (filename : string) : result string :=
  of_option (Throw "runtime_error: cannot read scheduler configuration file") (read_file filename).

Definition scheduler_configuration (main_args : MainArguments) : result string :=
  if negb (String.eqb (sched_config main_args) "") then Ok (sched_config main_args)
  else if negb (String.eqb (sched_config_file main_args) "") then read_whole_file_as_string (sched_config_file main_args)
  else Ok "".

Definition set_configuration (main_args : MainArguments) c : result Ctx :=
  let options := configured_options main_args (c_options c) in
  cfg ← scheduler_configuration main_args;
  Ok (c <| c_options := options |>
        <| c_workflow_nb_concurrent_jobs_limit := workflow_nb_concurrent_jobs_limit main_args |>
        <| c_config_json := JObject
             [("redis-enabled", JBool (a_redis_enabled main_args));
              ("redis-hostname", JString (redis_hostname main_args));
              ("redis-port", JInt (redis_port main_args));
              ("redis-prefix", JString (redis_prefix main_args));
              ("profiles-forwarded-on-submission", JBool (forward_profiles_on_submission main_args));
              ("dynamic-jobs-enabled", JBool (dynamic_registration_enabled main_args));
              ("dynamic-jobs-acknowledged", JBool (ack_dynamic_registration main_args));
              ("profile-reuse-enabled", JBool (negb (garbage_collect_profiles options)));
              ("sched-config", JString cfg);
              ("forward-unknown-events", JBool (forward_unknown_events main_args))] |>).

(** What [--dump-execution-context] prints. *)
Definition execution_context (main_args : MainArguments) : jvalue V :=
  JObject [("socket_endpoint", JString (socket_endpoint main_args));
           ("redis_enabled", JBool (a_redis_enabled main_args));
           ("redis_hostname", JString (redis_hostname main_args));
           ("redis_port", JInt (redis_port main_args));
           ("redis_prefix", JString (redis_prefix main_args));
           ("export_prefix", JString (export_prefix main_args));
           ("external_scheduler", JBool (bool_decide (program_type main_args = BATSIM)))].

(** ** Loading *)

(** The greatest number of machines of the workloads so far, and the context. *)
Definition load_workload (acc : Z * Ctx) (desc : WorkloadDescription) : result (Z * Ctx) :=
  let '(max_nb_machines_in_workloads, c) := acc in
  content ← of_option (Abort "Cannot read file") (read_file (wd_filename desc));
  '(nb_machines_in_workload, w, st) ←
    Workload_load_from_json str_find replace_id content (wd_filename desc)
      (new_static_workload (wd_name desc) (wd_filename desc)) (c_store c);
  ws ← Workload.insert_workload (wd_name desc) w (c_workloads c);
  Ok (Z.max max_nb_machines_in_workloads nb_machines_in_workload, c <| c_store := st |> <| c_workloads := ws |>).

Definition load_workflow (c : Ctx) (desc : WorkflowDescription) : result Ctx :=
  ws ← Workload.insert_workload (fd_workload_name desc)
         (new_static_workload (fd_workload_name desc) (fd_filename desc)) (c_workloads c);
  '(wf, tasks) ← load_from_xml (fd_filename desc)
                   (new_Workflow (fd_name desc) <| wf_start_time := fd_start_time desc |>) (c_tasks c);
  wfs ← insert_workflow (fd_name desc) wf (c_workflows c);
  Ok (c <| c_workloads := ws |> <| c_tasks := tasks |> <| c_workflows := wfs |>).

Definition max_nb_machines (main_args : MainArguments) (max_nb_machines_in_workloads : Z) : Z :=
  if limit_machines_count_by_workload main_args && (0 <? limit_machines_count main_args)
  then Z.min (limit_machines_count main_args) max_nb_machines_in_workloads
  else if limit_machines_count_by_workload main_args then max_nb_machines_in_workloads
  else if 0 <? limit_machines_count main_args then limit_machines_count main_args
  else -1.

Definition load_workloads_and_workflows (main_args : MainArguments) c : result (Z * Ctx) :=
  '(max_nb_machines_in_workloads, c) ← foldM load_workload (-1, c) (workload_descriptions main_args);
  c ← foldM load_workflow c (workflow_descriptions main_args);
  Ok (max_nb_machines main_args max_nb_machines_in_workloads, c).

Definition load_eventList (unknown_as_generic : bool) (c : Ctx) (desc : EventListDescription) : result Ctx :=
  events ← EventList_load_from_json (V := V) (ed_filename desc) unknown_as_generic [];
  Ok (c <| c_event_lists ::= <[ed_name desc := events]> |>).

Definition load_eventLists (main_args : MainArguments) c : result Ctx :=
  foldM (load_eventList (forward_unknown_events main_args)) c (eventList_descriptions main_args).

(** ** The first processes *)

Definition create_all (actors : list (Actor IS Host V)) c : Ctx := foldl (fun c a => (create_actor a c).2) c actors.

Definition start_initial_simulation_processes (main_args : MainArguments) (is_batexec : bool) c : result Ctx :=
  master_machine (c_machines c);;
  let c := create_all ((fun desc => if is_batexec then batexec_job_launcher_actor (wd_name desc)
                                    else static_job_submitter_actor (wd_name desc)) <$> workload_descriptions main_args) c in
  let c := create_all ((fun desc => workflow_submitter_actor (fd_name desc)) <$> workflow_descriptions main_args) c in
  let c := create_all ((fun desc => static_event_submitter_actor (ed_name desc)) <$> eventList_descriptions main_args) c in
  c ← (if a_environmental_footprint_used main_args &&
          negb (String.eqb (environmental_footprint_trace_file main_args) "None")
       then read_trace (environmental_footprint_trace_file main_args) c else Ok c);
  Ok (if is_batexec then c else create_all [server_actor] c).
End Start.
