(* ===== verification/JobsExecution.v ===== *)
(** * The execution of jobs (src/jobs_execution.hpp, src/jobs_execution.cpp, and execute_parallel_task)

    The process that executes a job goes through the job's task tree, waiting for
    parallel tasks, delays and messages, within the job's walltime; the killer
    process stops it; the waiter process calls the scheduler later.  A task is
    named by its place in the tree of its job. *)

From S2P Require Import Prelude Interfaces Profiles Jobs NumericStrcmp Outputs Machines Workload Tracers Ipp PState Writer NumberParsing Workflow Context Server Actors TaskExecution SwitchProcesses.
#[local] Open Scope process_scope.

(** ** Task trees *)

Fixpoint task_at (t : BatTask) (path : list Z) : result BatTask :=
  match path with
  | [] => Ok t
  | i :: path => s ← vector_get (bt_sub_tasks t) i; task_at s path
  end.

Fixpoint update_task (f : BatTask -> BatTask) (t : BatTask) (path : list Z) : BatTask :=
  match path with
  | [] => f t
  | i :: path => t <| bt_sub_tasks ::= alter (fun s => update_task f s path) (Z.to_nat i) |>
  end.

(** What [cancel_ptask] cancels: the place of the first task, from the root and
    along the current sub-tasks, that has a parallel task. *)
Fixpoint cancel_ptask (t : BatTask) : result (option (list Z)) :=
  match bt_ptask t with
  | Some _ => Ok (Some [])
  | None =>
      match bt_sub_tasks t with
      | [] => Ok None
      | subs =>
          r ← (fix nth (l : list BatTask) (i : Z) : result (option (list Z)) :=
                 match l with
                 | [] => Err (Undef "sub_tasks out of range")
                 | s :: l => if i =? 0 then cancel_ptask s else nth l (i - 1)
                 end) subs (bt_current_task_index t);
          Ok (match r with Some path => Some (bt_current_task_index t :: path) | None => None end)
      end
  end.

(** The indices of the sub-profiles of a repeated sequence, in order. *)
Definition sequence_indices (repeat n : Z) : list Z := indices repeat ≫= fun _ => indices n.
(** ... and the places of the corresponding sub-tasks. *)
Definition sub_task_indices (repeat n : Z) : list Z :=
  indices repeat ≫= fun sequence_iteration => (fun i => u32 (u32 (sequence_iteration * n) + i)) <$> indices n.

Definition sequence_data (p : Profile) : result (Z * list string * list positive) :=
  match p_data p with
  | SequenceProfileData repeat sequence profile_sequence => Ok (repeat, sequence, profile_sequence)
  | _ => Err (Undef "static_cast of another data type")
  end.

(** [fuel] bounds the depth of the stack. *)
Fixpoint initialize_sequential_tasks (fuel : nat) (ph : profile_heap) (profile : positive) (io_profile : option positive)
  : result BatTask :=
  match fuel with
  | O => Err (Undef "stack overflow")
  | S fuel =>
      p ← deref_profile ph profile;
      if negb (bool_decide (p_type p = SEQUENCE))
      then Ok (new_BatTask profile <| bt_io_profile := io_profile |>)
      else
        '(repeat, sequence, profile_sequence) ← sequence_data p;
        subs ← mapM_r (fun i =>
                 sub_profile ← vector_get profile_sequence i;
                 sub_io_profile ← (match io_profile with
                                   | None => Ok None
                                   | Some io =>
                                       io_p ← deref_profile ph io;
                                       '(_, _, io_sequence) ← sequence_data io_p;
                                       s ← vector_get io_sequence i; Ok (Some s)
                                   end);
                 initialize_sequential_tasks fuel ph sub_profile sub_io_profile)
               (sequence_indices repeat (u32 (Z.of_nat (length sequence))));
        Ok (new_BatTask profile <| bt_sub_tasks := subs |>)
  end.

(** The default mapping of ranks to hosts. *)
Fixpoint round_robin (n : nat) (host_to_use requested_nb_res : Z) : list Z :=
  match n with
  | O => []
  | S n => host_to_use :: round_robin n (u32 (host_to_use + 1) mod requested_nb_res) requested_nb_res
  end.

Section JobsExecution.
Context {IS Engine Host V : Type} `{IntervalSet IS} `{SimGrid Engine Host} `{RapidJson V}.
Context (englobing_zone : Host -> option string).
(** [std::regex_match] *)
Context (regex_match : string -> string -> bool).
#[local] Abbreviation Ctx := (BatsimContext IS Engine Host V).
#[local] Abbreviation Data := (ServerData IS Engine Host V).
#[local] Abbreviation M := (Actors.M Data IS Host).
#[local] Abbreviation Alloc := (SchedulingAllocation IS Host).

(** ** Access to what is shared *)

Definition read_job (jp : positive) : M (Job IS) := read_ctx (fun c => the_job c jp).
Definition change_job (jp : positive) (f : Job IS -> Job IS) : M unit := on_ctx (fun c => Ok (with_job jp f c)).
Definition read_profile (p : positive) : M Profile := read_ctx (fun c => the_profile c p).
Definition get_clock_now : M Q := read_ctx (fun c => Ok (now c)).
Definition create (a : Actor IS Host V) : M positive := fun d =>
  let '(actor, c) := create_actor a (sd_context d) in Ok (d <| sd_context := c |>, Done actor).

Definition job_task (j : Job IS) : result BatTask := of_option (Undef "null BatTask pointer") (task j).
Definition read_task (jp : positive) (path : list Z) : M BatTask :=
  read_ctx (fun c => (j ← the_job c jp; t ← job_task j; task_at t path)%stdpp).
Definition change_task (jp : positive) (path : list Z) (f : BatTask -> BatTask) : M unit :=
  change_job jp (fun j => j <| task ::= fmap (fun t => update_task f t path) |>).

(** ** Delays *)

(** Sleeps, but not beyond the walltime; a negative remaining time is no
    walltime. Gives the return code and the new remaining time. *)
Definition do_delay_task (sleeptime remaining_time : Q) : M (Z * Q) :=
  if ((remaining_time <?q 0) || (sleeptime <?q remaining_time))%Q then
    do* block (sleep_for sleeptime) in
    ret (0, if (0 <?q remaining_time)%Q then (remaining_time - sleeptime)%Q else remaining_time)
  else
    do* block (sleep_for remaining_time) in
    ret (-1, 0%Q).

(** ** Parallel tasks *)

Definition execute_parallel_task (jp : positive) (alloc : Alloc) (path : list Z) (remaining_time : Q) : M (Z * Q) :=
  let* btask := read_task jp path in
  let* p := read_profile (bt_profile btask) in
  let* m := read_ctx (fun c => prepare_parallel_task (c_machines c) (s_profiles (c_store c)) alloc btask) in
  do* change_task jp path (fun t => t <| bt_ptask := Some 1%Q |>) in
  let start timeout := block (wait_ptask (hosts_to_use m) (computation_vector m) (communication_matrix m) timeout) in
  if (remaining_time <?q 0)%Q then
    let* outcome := start None in
    match outcome with
    | PtaskFinished => ret (p_return_code p, remaining_time)
    | PtaskCancelled => ret (-2, remaining_time)
    | PtaskTimeout => fail (Throw "TimeoutException")
    end
  else
    let* time_before_execute := get_clock_now in
    let* outcome := start (Some remaining_time) in
    let* time_after := get_clock_now in
    let code := match outcome with
                | PtaskFinished => p_return_code p
                | PtaskTimeout => -1
                | PtaskCancelled => -2
                end in
    ret (code, (remaining_time - (time_after - time_before_execute))%Q).

(** ** Traces: one actor per rank *)

Definition trace_filenames (p : Profile) : result (list string) :=
  match p_type p, p_data p with
  | SMPI, SmpiProfileData files => Ok files
  | USAGE_TRACE, UsageTraceProfileData files => Ok files
  | _, _ => Err (Undef "static_cast of another data type")
  end.

Definition default_mapping (jp : positive) (nb_ranks : Z) : M unit :=
  let* j := read_job jp in
  match smpi_ranks_to_hosts_mapping j with
  | [] =>
      if (requested_nb_res j =? 0) && (0 <? nb_ranks) then fail (Undef "division by zero")
      else change_job jp (fun j => j <| smpi_ranks_to_hosts_mapping := round_robin (Z.to_nat nb_ranks) 0 (requested_nb_res j) |>)
  | _ => ret tt
  end.

Definition create_rank (jp : positive) (alloc : Alloc) (p : Profile) (files : list string) (mailbox : string)
  (child_actors : gmap Z positive) (rank : Z) : M (gmap Z positive) :=
  let* j := read_job jp in
  let* host_to_use := read (fun _ => host ← vector_get (smpi_ranks_to_hosts_mapping j) rank; vector_get (sa_hosts alloc) host) in
  let* actor := create (if bool_decide (p_type p = SMPI)
                        then smpi_replay_process host_to_use jp files mailbox rank
                        else usage_trace_replayer_process host_to_use jp files mailbox rank) in
  do* change_job jp (fun j => j <| execution_actors ::= fun s => {[actor]} ∪ s |>) in
  ret (<[rank := actor]> child_actors).

Fixpoint create_ranks (jp : positive) (alloc : Alloc) (p : Profile) (files : list string) (mailbox : string)
  (child_actors : gmap Z positive) (ranks : list Z) : M (gmap Z positive) :=
  match ranks with
  | [] => ret child_actors
  | rank :: ranks =>
      let* child_actors := create_rank jp alloc p files mailbox child_actors rank in
      create_ranks jp alloc p files mailbox child_actors ranks
  end.

(** Every child that has not finished is killed. *)
Definition kill_children (jp : positive) (child_actors : gmap Z positive) : M unit :=
  let children : gset positive := list_to_set (map_to_list child_actors).*2 in
  do* change_job jp (fun j => j <| execution_actors ::= fun s => s ∖ children |>) in
  on_ctx (fun c => Ok (remove_actors children c)).

(** Each message removes a child, so that the loop runs as many times as there
    are children.  Gives whether the children have all finished, and the time
    that remains. *)
Fixpoint wait_children (n : nat) (jp : positive) (mailbox : string) (has_walltime : bool)
  (child_actors : gmap Z positive) (remaining_time : Q) : M (bool * Q) :=
  if bool_decide (child_actors = ∅) then ret (true, remaining_time)
  else match n with
  | O => fail (Undef "more messages than children")
  | S n =>
      let* time_before_get := get_clock_now in
      let* finished_rank := block (mailbox_get mailbox (if has_walltime : bool then Some remaining_time else None)) in
      match finished_rank with
      | None => do* kill_children jp child_actors in ret (false, remaining_time)
      | Some rank =>
          let* actor := read (fun _ => of_option (Abort "Internal error: unexpected rank received") (child_actors !! rank)) in
          do* change_job jp (fun j => j <| execution_actors ::= fun s => s ∖ {[actor]} |>) in
          let* time_after := get_clock_now in
          wait_children n jp mailbox has_walltime (delete rank child_actors)
            (if has_walltime : bool then (remaining_time - (time_after - time_before_get))%Q else remaining_time)
      end
  end.

Definition execute_trace (jp : positive) (alloc : Alloc) (p : Profile) (remaining_time : Q) : M (Z * Q) :=
  let* files := read (fun _ => trace_filenames p) in
  let nb_ranks := u32 (Z.of_nat (length files)) in
  do* default_mapping jp nb_ranks in
  let* j := read_job jp in
  let mailbox := "job_" +:+ ji_to_string (id j) +:+ "_smpi_termination" in
  do* assert_ (nb_ranks =? Z.of_nat (length (smpi_ranks_to_hosts_mapping j))) "SMPI ranks_to_host mapping has an invalid size" in
  let* child_actors := create_ranks jp alloc p files mailbox ∅ (indices nb_ranks) in
  let* '(finished, remaining_time) :=
    wait_children (Z.to_nat nb_ranks) jp mailbox (0 <=?q remaining_time)%Q child_actors remaining_time in
  ret (if finished : bool then p_return_code p else -1, remaining_time).

(** ** Messages from the scheduler *)

(** The first message, taken out of the buffer. *)
Definition pop_message (jp : positive) : M string :=
  let* j := read_job jp in
  match incoming_message_buffer j with
  | [] => fail (Undef "front of an empty list")
  | message :: _ =>
      do* change_job jp (fun j => j <| incoming_message_buffer ::= tail |>) in
      ret message
  end.

(** Sleeps by steps of [polltime] until a message comes or the walltime is
    reached: gives whether there is a message, and the time that remains. *)
Fixpoint poll_message (n : nat) (jp : positive) (polltime remaining_time : Q) : M (bool * Q) :=
  match n with
  | O => fail (Undef "still polling")
  | S n =>
      let* '(code, remaining_time) := do_delay_task polltime remaining_time in
      if code =? -1 then ret (false, remaining_time)
      else
        let* j := read_job jp in
        if bool_decide (incoming_message_buffer j = []) then poll_message n jp polltime remaining_time
        else ret (true, remaining_time)
  end.

Definition choose_profile (jp : positive) (regex on_success on_failure : string) : M string :=
  let* first_message := pop_message jp in
  ret (if regex_match first_message regex then on_success else on_failure).

(** The profile to execute (the empty string for none) or, when the walltime is
    reached first, nothing; and the time that remains. *)
Definition receive_message (polls : nat) (jp : positive) (regex on_success on_failure on_timeout : string)
  (polltime remaining_time : Q) : M (option string * Q) :=
  let* j := read_job jp in
  if bool_decide (incoming_message_buffer j = []) then
    if bool_decide (on_timeout = "") then
      let* '(has_messages, remaining_time) := poll_message polls jp polltime remaining_time in
      if has_messages : bool then
        let* profile := choose_profile jp regex on_success on_failure in ret (Some profile, remaining_time)
      else ret (None, remaining_time)
    else ret (Some on_timeout, remaining_time)
  else
    let* profile := choose_profile jp regex on_success on_failure in ret (Some profile, remaining_time).

(** [job->workload->profiles->at(profile_to_execute)] *)
Definition profile_of_workload (jp : positive) (profile_to_execute : string) : M positive :=
  read_ctx (fun c =>
    j ← the_job c jp;
    w ← of_option (Undef "dangling workload pointer") (c_workloads c !! workload j);
    Profiles_at (wl_profiles w) profile_to_execute).

(** The new sub-task, at the end of the sub-tasks. *)
Definition push_sub_task (jp : positive) (path : list Z) (sub_profile : positive) : M Z :=
  let* t := read_task jp path in
  do* change_task jp path (fun t => t <| bt_current_task_index := 0 |>
                                      <| bt_sub_tasks ::= fun l => l ++ [new_BatTask sub_profile] |>) in
  ret (Z.of_nat (length (bt_sub_tasks t))).

(** ** Tasks *)

(** The loop of a sequence: it stops at the first sub-task that fails. *)
Fixpoint run_sub_tasks (run_sub_task : Z -> Q -> M (Z * Q)) (places : list Z) (remaining_time : Q) : M (Z * Q) :=
  match places with
  | [] => ret (0, remaining_time)
  | i :: places =>
      let* '(code, remaining_time) := run_sub_task i remaining_time in
      if code =? 0 then run_sub_tasks run_sub_task places remaining_time
      else ret (code, remaining_time)
  end.

(** The return code of a task, unless a part of it has failed. *)
Definition unless_failed (p : Profile) (result : Z * Q) : M (Z * Q) :=
  ret (if result.1 =? 0 then p_return_code p else result.1, result.2).

(** A delay that is too long is reported with -1. *)
Definition delay_then_return (p : Profile) (sleeptime remaining_time : Q) : M (Z * Q) :=
  let* '(code, remaining_time) := do_delay_task sleeptime remaining_time in
  ret (if code =? -1 then -1 else p_return_code p, remaining_time).

(** [fuel] bounds the depth of the stack, [polls] the polls of a task that waits
    for a message without a timeout. *)
Fixpoint execute_task (fuel polls : nat) (jp : positive) (alloc : Alloc) (path : list Z) (remaining_time : Q)
  : M (Z * Q) :=
  match fuel with
  | O => fail (Undef "stack overflow")
  | S fuel =>
      let* btask := read_task jp path in
      let* p := read_profile (bt_profile btask) in
      let* j := read_job jp in
      if is_parallel_task p then
        let* r := execute_parallel_task jp alloc path remaining_time in unless_failed p r
      else match p_type p, p_data p with
      | SEQUENCE, SequenceProfileData repeat sequence _ =>
          let* r := run_sub_tasks (fun i remaining_time =>
                      do* change_task jp path (fun t => t <| bt_current_task_index := i |>) in
                      execute_task fuel polls jp alloc (path ++ [i]) remaining_time)
                    (sub_task_indices repeat (u32 (Z.of_nat (length sequence)))) remaining_time in
          unless_failed p r
      | SCHEDULER_SEND, SchedulerSendProfileData message sleeptime =>
          do* send "server" FROM_JOB_MSG (FromJobMessage (id j) message) in
          delay_then_return p sleeptime remaining_time
      | SCHEDULER_RECV, SchedulerRecvProfileData regex on_success on_failure on_timeout polltime =>
          let* '(received, remaining_time) :=
            receive_message polls jp regex on_success on_failure on_timeout polltime remaining_time in
          match received with
          | None => ret (-1, remaining_time)
          | Some profile_to_execute =>
              if bool_decide (profile_to_execute = "") then ret (p_return_code p, remaining_time)
              else
                let* sub_profile := profile_of_workload jp profile_to_execute in
                let* i := push_sub_task jp path sub_profile in
                let* r := execute_task fuel polls jp alloc (path ++ [i]) remaining_time in
                unless_failed p r
          end
      | DELAY, DelayProfileData delay =>
          let* start := get_clock_now in
          do* change_task jp path (fun t => t <| bt_delay_task_start := start |> <| bt_delay_task_required := delay |>) in
          delay_then_return p delay remaining_time
      | SMPI, _ | USAGE_TRACE, _ => execute_trace jp alloc p remaining_time
      | SEQUENCE, _ | SCHEDULER_SEND, _ | SCHEDULER_RECV, _ | DELAY, _ => fail (Undef "static_cast of another data type")
      | _, _ => fail (Abort "Cannot execute job: the profile is of unknown type")
      end
  end.

(** ** The process that executes a job *)

(** The hosts of the executors, through the mapping; without a mapping, one
    executor per allocated machine. *)
Definition complete_mapping (alloc : Alloc) : Alloc :=
  if bool_decide (sa_mapping alloc = [])
  then alloc <| sa_mapping := indices (u32 (is_size (sa_machine_ids alloc))) |> else alloc.

Definition executor_host (c : Ctx) (alloc : Alloc) (machine_id_within_allocated_resources : Z) : result Host :=
  machine_id ← is_at (sa_machine_ids alloc) machine_id_within_allocated_resources;
  m ← machine_at (c_machines c) machine_id;
  Ok (m_host m).

(** The IO hosts are the machines numbered from 0, as many as the IO allocation
    has machines. *)
Definition io_host (c : Ctx) (id : Z) : result Host := m ← machine_at (c_machines c) (i32 id); Ok (m_host m).

Definition place_job (c : Ctx) (alloc : Alloc) : result Alloc :=
  let alloc := complete_mapping alloc in
  hosts ← mapM_r (executor_host c alloc) (sa_mapping alloc);
  io_hosts ← mapM_r (io_host c) (indices (u32 (is_size (sa_io_allocation alloc))));
  Ok (alloc <| sa_hosts := hosts |> <| sa_io_hosts ::= fun l => l ++ io_hosts |>).

Definition energy_of_job (c : Ctx) (j : Job IS) : result Q :=
  consumed_energy_on_machines (c_engine c) (energy_used (c_options c)) (c_machines c) (allocation j).
Definition carbon_of_job (c : Ctx) (j : Job IS) : result Q :=
  carbon_footprint_on_machines (c_engine c) (environmental_footprint_used (c_options c)) (c_machines c) (allocation j).
Definition water_of_job (c : Ctx) (j : Job IS) : result Q :=
  water_footprint_on_machines (c_engine c) (environmental_footprint_used (c_options c)) (c_machines c) (allocation j).

(** What the machines have consumed when the job starts. *)
Definition snapshot_consumption (jp : positive) (c : Ctx) : result Ctx :=
  j ← the_job c jp;
  c ← (if energy_used (c_options c) then
         e ← energy_of_job c j;
         energy_add_job_start (with_job jp (fun j => j <| consumed_energy := e |>) c)
       else Ok c);
  if environmental_footprint_used (c_options c) then
    carbon ← carbon_of_job c j;
    water ← water_of_job c j;
    footprint_entry englobing_zone "s"
      (with_job jp (fun j => j <| consumed_carbon := carbon |> <| consumed_water := water |>) c)
  else Ok c.

(** What they have consumed since, when it ends. *)
Definition account_consumption (jp : positive) (c : Ctx) : result Ctx :=
  j ← the_job c jp;
  c ← (if energy_used (c_options c) then
         e ← energy_of_job c j;
         energy_add_job_end (with_job jp (fun j => j <| consumed_energy := (e - consumed_energy j)%Q |>) c)
       else Ok c);
  if environmental_footprint_used (c_options c) then
    carbon ← carbon_of_job c j;
    water ← water_of_job c j;
    footprint_entry englobing_zone "e"
      (with_job jp (fun j => j <| consumed_carbon := (carbon - consumed_carbon j)%Q |>
                               <| consumed_water := (water - consumed_water j)%Q |>) c)
  else Ok c.

Definition start_on_machines (jp : positive) (machines : IS) (c : Ctx) : result Ctx :=
  with_machines_view (update_machines_on_job_run (s_jobs (c_store c)) (now c) (trace_machine_states (c_options c))
                        jp machines) c.
Definition end_on_machines (jp : positive) (machines : IS) (c : Ctx) : result Ctx :=
  with_machines_view (update_machines_on_job_end (s_jobs (c_store c)) (now c) (trace_machine_states (c_options c))
                        jp machines) c.

Definition final_state (return_code : Z) : result JobState :=
  if return_code =? 0 then Ok JOB_STATE_COMPLETED_SUCCESSFULLY
  else if 0 <? return_code then Ok JOB_STATE_COMPLETED_FAILED
  else if return_code =? -1 then Ok JOB_STATE_COMPLETED_WALLTIME_REACHED
  else if return_code =? -2 then Ok JOB_STATE_COMPLETED_KILLED
  else xbt_die "Job completed with unknown return code".

(** A kill is traced on the machines. *)
Definition trace_kill (job_id : JobIdentifier) (machines : IS) (c : Ctx) : result Ctx :=
  t ← Paje.add_job_kill job_id machines (now c) true (c_paje_tracer c);
  Ok (c <| c_paje_tracer := t |>).

Definition set_final_state (jp : positive) (return_code : Z) (machines : IS) (c : Ctx) : result Ctx :=
  s ← final_state return_code;
  let c := with_job jp (fun j => j <| state := s |>) c in
  if ((return_code =? -1) || (return_code =? -2)) && trace_schedule (c_options c) then
    j ← the_job c jp; trace_kill (id j) machines c
  else Ok c.

(** A job that lasts no time is given an epsilon. *)
Definition epsilon : Q := 1 # 100000.
Definition runtime_since (starting_time date : Q) : Q :=
  let runtime := (date - starting_time)%Q in if (runtime =?q 0)%Q then epsilon else runtime.
Definition set_runtime (jp : positive) (c : Ctx) : Ctx :=
  with_job jp (fun j => j <| runtime := runtime_since (starting_time j) (now c) |>) c.

Definition start_job (fuel : nat) (alloc : Alloc) (io_profile : option positive) (c : Ctx) : result (Alloc * Ctx) :=
  let jp := sa_job alloc in
  j ← the_job c jp;
  let c := with_job jp (fun j => j <| starting_time := now c |> <| allocation := sa_machine_ids alloc |>) c in
  t ← initialize_sequential_tasks fuel (s_profiles (c_store c)) (profile j) io_profile;
  let c := with_job jp (fun j => j <| task := Some t |>) c in
  alloc ← place_job c alloc;
  c ← snapshot_consumption jp c;
  c ← start_on_machines jp (sa_machine_ids alloc) c;
  Ok (alloc, c).

(** The server handles the end of a killed job by itself. *)
Definition notify_completion (jp : positive) (notify_server_at_end : bool) : M unit :=
  let* j := read_job jp in
  if notify_server_at_end && negb (bool_decide (state j = JOB_STATE_COMPLETED_KILLED))
  then send "server" JOB_COMPLETED (JobCompletedMessage jp) else ret tt.

(** The job has ended: its state, the machines, its runtime and what it consumed. *)
Definition end_job (alloc : Alloc) (code : Z) (c : Ctx) : result Ctx :=
  let jp := sa_job alloc in
  c ← set_final_state jp code (sa_machine_ids alloc) (with_job jp (fun j => j <| return_code := code |>) c);
  c ← end_on_machines jp (sa_machine_ids alloc) c;
  account_consumption jp (set_runtime jp c).

Definition finish_job (self : positive) (alloc : Alloc) (notify_server_at_end : bool) (code : Z) : M unit :=
  do* on_ctx (end_job alloc code) in
  do* notify_completion (sa_job alloc) notify_server_at_end in
  change_job (sa_job alloc) (fun j => j <| execution_actors ::= fun s => s ∖ {[self]} |>).

Definition execute_job_process (fuel polls : nat) (self : positive) (alloc : Alloc) (notify_server_at_end : bool)
  (io_profile : option positive) : M unit :=
  let* j := read_job (sa_job alloc) in
  let* alloc := (fun d : Data =>
    '(alloc, c) ← start_job fuel alloc io_profile (sd_context d);
    Ok (d <| sd_context := c |>, Done alloc)) in
  let* '(code, _) := execute_task fuel polls (sa_job alloc) alloc [] (walltime j) in
  finish_job self alloc notify_server_at_end code.

(** ** The waiter *)

Definition waiter_process (target_time : Q) : M unit :=
  let* curr_time := get_clock_now in
  do* (if (curr_time <?q target_time)%Q then
         let time_to_wait := (target_time - curr_time)%Q in
         block (sleep_for (if (time_to_wait <?q epsilon)%Q then epsilon else time_to_wait))
       else ret tt) in
  let* server_data := get in
  if end_of_simulation_sent server_data || end_of_simulation_ack_received server_data then ret tt
  else send "server" WAITING_DONE NoData.

(** ** The killer *)

(** The job had no parallel task to cancel: its actors are killed. *)
Definition stop_job (killed_job_state : JobState) (jp : positive) (c : Ctx) : result Ctx :=
  j ← the_job c jp;
  xbt_assert (negb (bool_decide (execution_actors j = ∅))) "kill inconsistency: no actors to kill";;
  let c := remove_actors (execution_actors j) c in
  let c := with_job jp (fun j => j <| execution_actors := ∅ |> <| state := killed_job_state |>) c in
  c ← end_on_machines jp (allocation j) c;
  xbt_assert (0 <=?q now c - starting_time j)%Q "Negative runtime of killed job!";;
  account_consumption jp (set_runtime jp c).

(** One job; its progress is added to the message, when it was running. *)
Definition kill_job (killed_job_state : JobState) (acc : gmap string BatTask * Ctx) (job_id : JobIdentifier)
  : result (gmap string BatTask * Ctx) :=
  let '(jobs_progress, c) := acc in
  jp ← job_at (c_workloads c) job_id;
  j ← the_job c jp;
  xbt_assert (negb (bool_decide (state j ∈ [JOB_STATE_REJECTED; JOB_STATE_SUBMITTED; JOB_STATE_NOT_SUBMITTED])))
    "Bad kill: job has not been started";;
  if bool_decide (state j = JOB_STATE_RUNNING) then
    j ← compute_job_progress (s_profiles (c_store c)) (now c) j;
    let c := with_job jp (fun _ => j) c in
    t ← job_task j;
    let jobs_progress := <[ji_to_string job_id := t]> jobs_progress in
    cancelled ← cancel_ptask t;
    match cancelled with
    | Some path => Ok (jobs_progress, c <| c_cancelled_ptasks ::= fun l => l ++ [(jp, path)] |>)
    | None => c ← stop_job killed_job_state jp c; Ok (jobs_progress, c)
    end
  else Ok acc.

Definition killer_process (jobs_ids : list JobIdentifier) (killed_job_state : JobState)
  (acknowledge_kill_on_protocol : bool) : M unit :=
  let* jobs_progress := (fun d : Data =>
    '(jobs_progress, c) ← foldM (kill_job killed_job_state) (∅, sd_context d) jobs_ids;
    Ok (d <| sd_context := c |>, Done jobs_progress)) in
  send "server" KILLING_DONE (KillingDoneMessage jobs_ids jobs_progress acknowledge_kill_on_protocol).
End JobsExecution.
