(* ===== verification/TaskProgress.v ===== *)
(** * The progress of a task tree (src/jobs.cpp, compute_tasks_progress, and src/jobs_execution.cpp, cancel_ptask)

    Both functions go down the tree along the current sub-tasks.  This file says
    what they do in terms of the tasks that are on that path, without following
    the recursion of the code: the progress changes at its end only, and what is
    cancelled is the first parallel task on it. *)

From S2P Require Import Prelude Interfaces Profiles Jobs NumericStrcmp Outputs Machines Workload Tracers Ipp PState Writer NumberParsing Workflow Context Server Actors TaskExecution SwitchProcesses JobsExecution.

(** ** The tasks being executed *)

(** [on_current_path t path u]: going from [t] through the current sub-tasks one
    is at [u] after [path]. *)
Inductive on_current_path : BatTask -> list Z -> BatTask -> Prop :=
  | path_here t : on_current_path t [] t
  | path_below t s path u :
      vector_get (bt_sub_tasks t) (bt_current_task_index t) = Ok s -> on_current_path s path u ->
      on_current_path t (bt_current_task_index t :: path) u.

Lemma on_current_path_at t path u : on_current_path t path u -> task_at t path = Ok u.
Proof. induction 1 as [t|t s path u Hs _ IH]; cbn; [done|]. by rewrite Hs. Qed.

(** The progress of the task executed at a date: the part of the work done, for a
    parallel task that has started, and of the time elapsed, for a delay. *)
Definition leaf_progress (p : Profile) (now : Q) (t : BatTask) : Q :=
  if is_parallel_task p then match bt_ptask t with Some remaining => (1 - remaining)%Q | None => 0%Q end
  else match p_type p with
       | DELAY => if (bt_delay_task_required t =?q 0)%Q then 1%Q
                  else ((now - bt_delay_task_start t) / bt_delay_task_required t)%Q
       | _ => bt_current_task_progress_ratio t
       end.

(** ** Reading a vector at an index, by recursion *)

Section Nth.
Context {A B : Type} (f : A -> result B) (out : error).

Fixpoint apply_nth (l : list A) (i : Z) : result B :=
  match l with
  | [] => Err out
  | s :: l => if i =? 0 then f s else apply_nth l (i - 1)
  end.

Lemma apply_nth_inv l : forall i b, apply_nth l i = Ok b -> exists s, vector_get l i = Ok s /\ f s = Ok b.
Proof.
  induction l as [|s l IH]; intros i b Hr; cbn in Hr; [done|].
  destruct (Z.eqb_spec i 0) as [->|Hi]; [by exists s|].
  apply IH in Hr as (s' & Hs & Hf). exists s'. split; [|done]. revert Hs. unfold vector_get.
  destruct (Z.ltb_spec (i - 1) 0); [done|]. destruct (Z.ltb_spec i 0); [lia|].
  replace (Z.to_nat i) with (S (Z.to_nat (i - 1))) by lia. done.
Qed.
End Nth.

Section AlterNth.
Context {A : Type} (f : A -> result A) (out : error).

Fixpoint alter_nth (l : list A) (i : Z) : result (list A) :=
  match l with
  | [] => Err out
  | s :: l => if i =? 0 then s' ← f s; Ok (s' :: l) else l' ← alter_nth l (i - 1); Ok (s :: l')
  end.

Lemma alter_nth_inv l : forall i l', alter_nth l i = Ok l' ->
  exists s s', vector_get l i = Ok s /\ f s = Ok s' /\ l' = <[Z.to_nat i := s']> l.
Proof.
  induction l as [|s l IH]; intros i l' Hr; cbn in Hr; [done|].
  destruct (Z.eqb_spec i 0) as [->|Hi].
  - apply bind_Ok in Hr as (s' & Hs & [= <-]). by exists s, s'.
  - apply bind_Ok in Hr as (l2 & Hr & [= <-]). apply IH in Hr as (t & t' & Ht & Hf & ->).
    exists t, t'. revert Ht. unfold vector_get.
    destruct (Z.ltb_spec (i - 1) 0); [done|]. destruct (Z.ltb_spec i 0); [lia|].
    replace (Z.to_nat i) with (S (Z.to_nat (i - 1))) by lia. done.
Qed.
End AlterNth.

(** ** The two functions *)

Lemma compute_tasks_progress_eq h now t :
  compute_tasks_progress h now t =
  (p ← deref_profile h (bt_profile t);
   if bool_decide (p_type p = SEQUENCE) then
     subs ← alter_nth (compute_tasks_progress h now) (Undef "sub_tasks out of range") (bt_sub_tasks t) (bt_current_task_index t);
     Ok (t <| bt_sub_tasks := subs |>)
   else compute_leaf_progress h now t).
Proof. by destruct t. Qed.

Lemma cancel_ptask_eq t :
  cancel_ptask t =
  match bt_ptask t with
  | Some _ => Ok (Some [])
  | None =>
      match bt_sub_tasks t with
      | [] => Ok None
      | subs => r ← apply_nth cancel_ptask (Undef "sub_tasks out of range") subs (bt_current_task_index t);
                Ok (match r with Some path => Some (bt_current_task_index t :: path) | None => None end)
      end
  end.
Proof. by destruct t as [? ? [?|] ? ? [|? ?] ? ?]. Qed.

Lemma vector_get_inv {A} (v : list A) i x : vector_get v i = Ok x -> 0 <= i /\ v !! Z.to_nat i = Some x.
Proof.
  unfold vector_get. destruct (Z.ltb_spec i 0); [done|]. destruct (_ !! _); [|done]. by intros [= ->].
Qed.

Lemma alter_is_insert {A} (f : A -> A) (l : list A) n x : l !! n = Some x -> alter f n l = <[n := f x]> l.
Proof.
  revert n. induction l as [|y l IH]; intros [|n]; [done|done|by intros [= ->]|]. cbn. intros Hn.
  f_equal. by apply IH.
Qed.

Lemma update_task_below f t i path s :
  vector_get (bt_sub_tasks t) i = Ok s ->
  update_task f t (i :: path) = t <| bt_sub_tasks := <[Z.to_nat i := update_task f s path]> (bt_sub_tasks t) |>.
Proof.
  intros [_ Hs]%vector_get_inv. rewrite <- (alter_is_insert (fun s => update_task f s path) _ _ _ Hs). by destruct t.
Qed.

(** Induction on the size of a tree. *)
Fixpoint tree_size (t : BatTask) : nat := S (sum_list (tree_size <$> bt_sub_tasks t)).

Lemma sub_task_smaller t i s : vector_get (bt_sub_tasks t) i = Ok s -> (tree_size s < tree_size t)%nat.
Proof.
  unfold vector_get. destruct (i <? 0); [done|]. destruct (_ !! _) as [s'|] eqn:Hs; [|done]. intros [= ->].
  destruct t as [? ? ? ? ? subs ? ?]; cbn in *. revert Hs. generalize (Z.to_nat i).
  induction subs as [|x subs IH]; intros [|n] Hs; cbn in *; [done|done|injection Hs as ->; lia|]. apply IH in Hs. lia.
Qed.

Lemma tree_induction (P : BatTask -> Prop) :
  (forall t, (forall i s, vector_get (bt_sub_tasks t) i = Ok s -> P s) -> P t) -> forall t, P t.
Proof.
  intros Hstep t. induction (Wf_nat.well_founded_ltof _ tree_size t) as [t _ IH].
  apply Hstep. intros i s Hs. apply IH. unfold Wf_nat.ltof. by apply sub_task_smaller in Hs.
Qed.

Lemma compute_leaf_progress_spec h now t t' :
  compute_leaf_progress h now t = Ok t' ->
  exists p, h !! bt_profile t = Some p /\ bt_sub_tasks t = [] /\
    t' = t <| bt_current_task_progress_ratio := leaf_progress p now t |>.
Proof.
  unfold compute_leaf_progress. intros (p & Hp & (u & Hsubs%xbt_assert_Ok & Hr)%bind_Ok)%bind_Ok.
  apply of_option_Ok in Hp. apply bool_decide_eq_true, nil_length_inv in Hsubs.
  exists p. split; [done|]. split; [done|]. unfold leaf_progress.
  destruct (is_parallel_task p); [destruct (bt_ptask t); by injection Hr as <-|].
  destruct (decide (p_type p = DELAY)) as [Ht|Ht].
  - rewrite bool_decide_true in Hr by done. apply bind_Ok in Hr as (u' & _ & Hr). rewrite Ht.
    destruct (bt_delay_task_required t =?q 0)%Q; by injection Hr as <-.
  - rewrite bool_decide_false in Hr by done. injection Hr as <-. by destruct t, (p_type p).
Qed.

(** Only the progress of the task that is executed changes. *)
Lemma compute_tasks_progress_spec h now t : forall t', compute_tasks_progress h now t = Ok t' ->
  exists path leaf p, on_current_path t path leaf /\ h !! bt_profile leaf = Some p /\
    p_type p ≠ SEQUENCE /\ bt_sub_tasks leaf = [] /\
    t' = update_task (fun u => u <| bt_current_task_progress_ratio := leaf_progress p now u |>) t path.
Proof.
  induction t as [t IH] using tree_induction. intros t'. rewrite compute_tasks_progress_eq.
  intros (p & Hp%of_option_Ok & Hr)%bind_Ok. destruct (decide (p_type p = SEQUENCE)) as [Ht|Ht].
  - rewrite bool_decide_true in Hr by done. apply bind_Ok in Hr as (subs & Hsubs & [= <-]).
    apply alter_nth_inv in Hsubs as (s & s' & Hs & Hs' & ->).
    destruct (IH _ _ Hs _ Hs') as (path & leaf & q & Hpath & Hq & Hseq & Hleaf & ->).
    exists (bt_current_task_index t :: path), leaf, q. split; [by eapply path_below|].
    split_and!; try done. by rewrite (update_task_below _ _ _ _ _ Hs).
  - rewrite bool_decide_false in Hr by done. apply compute_leaf_progress_spec in Hr as (q & Hq & Hsubs & ->).
    exists [], t, q. rewrite Hp in Hq. injection Hq as <-. split_and!; [constructor|done..|by destruct t].
Qed.

(** What is cancelled is the first parallel task on the way; nothing is when there
    is none. *)
Definition first_ptask (t : BatTask) (path : list Z) : Prop :=
  (exists u, on_current_path t path u /\ is_Some (bt_ptask u)) /\
  (forall path' u, on_current_path t path' u -> (length path' < length path)%nat -> bt_ptask u = None).
Definition no_ptask (t : BatTask) : Prop := forall path u, on_current_path t path u -> bt_ptask u = None.

Lemma cancel_ptask_spec t : forall cancelled, cancel_ptask t = Ok cancelled ->
  match cancelled with Some path => first_ptask t path | None => no_ptask t end.
Proof.
  induction t as [t IH] using tree_induction. intros cancelled. rewrite cancel_ptask_eq.
  destruct (bt_ptask t) as [r|] eqn:Ht.
  { intros [= <-]. split; [exists t; split; [constructor|by rewrite Ht]|]. intros path' u _ Hlen. cbn in Hlen. lia. }
  destruct (bt_sub_tasks t) as [|s0 subs] eqn:Hsubs.
  { intros [= <-] path u Hpath. inversion Hpath as [|? s ? ? Hs]; subst; [done|].
    apply vector_get_inv in Hs as [_ Hs]. by rewrite Hsubs in Hs. }
  intros (r & Hr & [= <-])%bind_Ok. apply apply_nth_inv in Hr as (s & Hs & Hr). rewrite <- Hsubs in Hs.
  pose proof (IH _ s ltac:(rewrite <- Hsubs; exact Hs) _ Hr) as Hsub. destruct r as [path|].
  - destruct Hsub as [(u & Hu & Hsome) Hbefore]. split.
    + exists u. split; [by eapply path_below|done].
    + intros path' u' Hpath Hlen. inversion Hpath as [|? s' ? ? Hs' Hpath']; subst; [done|].
      rewrite Hs in Hs'. injection Hs' as <-. apply (Hbefore _ _ Hpath'). cbn in Hlen. lia.
  - intros path u Hpath. inversion Hpath as [|? s' ? ? Hs' Hpath']; subst; [done|].
    rewrite Hs in Hs'. injection Hs' as <-. by apply (Hsub _ _ Hpath').
Qed.
