(* ===== verification/Replay.v ===== *)
(** * The replay of traces (src/jobs_execution.cpp)

    Each rank of a job whose profile is a trace is a process of its own: it goes
    through the actions of its trace and, in the end, gives its rank to the process
    that executes the job.  The reading of a trace and the MPI actions belong to
    SimGrid; the action that Batsim registers, [m_usage], is here. *)

From Stdlib Require Import Qround Qminmax.
From S2P Require Import Prelude Interfaces Profiles Jobs NumericStrcmp Outputs Machines Workload Tracers Ipp PState Writer NumberParsing Workflow Context Server Actors TaskExecution SwitchProcesses JobsExecution.
#[local] Open Scope process_scope.

(** The C function [round]: half-way cases go away from zero. *)
Definition round (x : Q) : Z :=
  if (x <?q 0)%Q then - Qfloor (- x + (1 # 2))%Q else Qfloor (x + (1 # 2))%Q.

(** At least one core, otherwise using flops is impossible. *)
Definition nb_cores_to_use (usage : Q) (nb_cores : Z) : Z := Z.max (round (usage * inject_Z nb_cores)) 1.

Section Replay.
Context {IS Engine Host V : Type} `{IntervalSet IS} `{SimGrid Engine Host}.
#[local] Abbreviation Data := (ServerData IS Engine Host V).
#[local] Abbreviation M := (Actors.M Data IS Host).
(** [host->get_core_count()] *)
Context (get_core_count : Host -> Z).
(** What [replay_runner] reads: the actions of this actor in the file, each with
    its words (the first is the actor, the second the name of the action). *)
Context (read_actions : string -> string -> result (list (list string))).
(** [smpi_replay_run], of an instance, a rank and a file. *)
Context (smpi_replay_run : string -> Z -> string -> M unit).

Definition word (action : list string) (i : nat) : result string := of_option (Undef "action[] out of range") (action !! i).

Definition read_usage (action : list string) : result (Q * Q) :=
  w2 ← word action 2; usage ← stod w2;
  w3 ← word action 3; flops ← stod w3;
  xbt_assert ((0 <=?q usage) && (usage <=?q 1))%Q "invalid usage read: not in [0,1]";;
  xbt_assert (0 <=?q flops)%Q "invalid flops read: not positive and finite";;
  Ok (usage, flops).

(** The parallel task of an action, on one host only. *)
Definition usage_ptask (host : Host) (usage flops : Q) : blocking IS Host :=
  let n := Z.to_nat (nb_cores_to_use usage (get_core_count host)) in
  wait_ptask (replicate n host) (replicate n flops) [] None.

(** [ptask->wait()]: nobody else holds this task. *)
Definition finish_ptask (outcome : ptask_outcome) : M unit :=
  match outcome with
  | PtaskFinished => ret tt
  | PtaskTimeout => fail (Throw "TimeoutException")
  | PtaskCancelled => fail (Throw "CancelException")
  end.

Definition usage_trace_replayer (host : Host) (action : list string) : M unit :=
  let* '(usage, flops) := read (fun _ => read_usage action) in
  let n := Z.to_nat (nb_cores_to_use usage (get_core_count host)) in
  let* outcome := block (wait_ptask (replicate n host) (replicate n flops) [] None) in
  finish_ptask outcome.

(** The functions registered with [xbt_replay_action_register]. *)
Definition registered_action (host : Host) (name : string) : option (list string -> M unit) :=
  if String.eqb name "m_usage" then Some (usage_trace_replayer host) else None.

Definition run_action (host : Host) (action : list string) : M unit :=
  let* name := read (fun _ => word action 1) in
  let* f := read (fun _ => of_option (Throw "no function is registered for this action") (registered_action host name)) in
  f action.

Fixpoint run_actions (host : Host) (actions : list (list string)) : M unit :=
  match actions with
  | [] => ret tt
  | action :: actions => do* run_action host action in run_actions host actions
  end.

(** Tells the parent process that this rank has finished. *)
Definition tell_parent (termination_mbox_name : string) (rank : Z) : M unit :=
  block (mailbox_put termination_mbox_name (u32 rank)).

Definition usage_trace_replayer_process (host : Host) (trace_filenames : list string)
  (termination_mbox_name : string) (rank : Z) : M unit :=
  let* file := read (fun _ => vector_get trace_filenames rank) in
  let* actions := read (fun _ => read_actions (fmt_d rank) file) in
  do* run_actions host actions in
  tell_parent termination_mbox_name rank.

Definition smpi_replay_process (job : positive) (trace_filenames : list string)
  (termination_mbox_name : string) (rank : Z) : M unit :=
  let* j := read_job job in
  let* file := read (fun _ => vector_get trace_filenames rank) in
  do* smpi_replay_run (ji_to_string (id j)) rank file in
  tell_parent termination_mbox_name rank.

(** ** Theorems *)

Lemma round_bounded x (n : Z) : (0 <= x <= inject_Z n)%Q -> 0 <= round x <= n.
Proof.
  intros [Hpos Hn]. unfold round. destruct (x <?q 0)%Q eqn:E; qify; [exfalso; lra|]. split.
  - change 0 with (Qfloor 0). apply Qfloor_resp_le. lra.
  - rewrite <- (Qfloor_Z n), <- (Z.add_0_r (Qfloor (inject_Z n))). apply Z.lt_succ_r. rewrite Zlt_Qlt.
    pose proof (Qfloor_le (x + (1 # 2))) as Hf. rewrite Qfloor_Z, Z.add_0_r.
    unfold Z.succ. rewrite inject_Z_plus. change (inject_Z 1) with 1%Q. lra.
Qed.

Lemma nb_cores_to_use_bounds usage nb_cores :
  (0 <= usage <= 1)%Q -> 1 <= nb_cores -> 1 <= nb_cores_to_use usage nb_cores <= nb_cores.
Proof.
  intros Hu Hn. unfold nb_cores_to_use. assert (1 <= inject_Z nb_cores)%Q by (change 1%Q with (inject_Z 1); by rewrite <- Zle_Qle).
  pose proof (round_bounded (usage * inject_Z nb_cores) nb_cores ltac:(split; nra)). lia.
Qed.

Lemma read_usage_Ok action usage flops :
  read_usage action = Ok (usage, flops) -> (0 <= usage <= 1)%Q /\ (0 <= flops)%Q.
Proof.
  unfold read_usage. intros (w2 & _ & (u & _ & (w3 & _ & (f & _ & (x & Hu & (y & Hf & [= <- <-])%bind_Ok)%bind_Ok)%bind_Ok)%bind_Ok)%bind_Ok)%bind_Ok.
  apply xbt_assert_Ok, andb_true_iff in Hu as [Hu0 Hu1]. apply xbt_assert_Ok in Hf. qify. done.
Qed.

(** An environment that finishes the parallel tasks, seen through the list of the
    blocking calls that it has answered. *)
Record logging_env (allowed : list (blocking IS Host) -> forall b : blocking IS Host, Data -> answer b -> Data -> list (blocking IS Host) -> Prop) : Prop := {
  ptask_finishes s h comp com d o d' s' : allowed s (wait_ptask h comp com None) d o d' s' -> o = PtaskFinished;
  call_logged s b d a d' s' : allowed s b d a d' s' -> s' = s ++ [b];
}.

(** The action asks for this usage of this many flops. *)
Definition usage_action (action : list string) (u : Q * Q) : Prop :=
  action !! 1%nat = Some "m_usage" /\ read_usage action = Ok u.

Section Replayed.
Context (allowed : list (blocking IS Host) -> forall b : blocking IS Host, Data -> answer b -> Data -> list (blocking IS Host) -> Prop).
Context (Henv : logging_env allowed).

Lemma run_actions_spec host actions usages : forall d s (Q : unit -> Data -> list (blocking IS Host) -> Prop),
  Forall2 usage_action actions usages ->
  (forall d', Q tt d' (s ++ ((fun u => usage_ptask host u.1 u.2) <$> usages))) ->
  wp allowed (run_actions host actions) Q d s.
Proof.
  intros d s Q Hall. revert d s Q. induction Hall as [|action [usage flops] actions usages [Hname Hread] _ IH]; intros d s Q HQ.
  - apply wp_ret. specialize (HQ d). by rewrite app_nil_r in HQ.
  - cbn [run_actions]. apply wp_mbind. unfold run_action. apply wp_mbind.
    eapply wp_read; [unfold word; by rewrite Hname|]. apply wp_mbind. eapply wp_read; [done|].
    unfold usage_trace_replayer. apply wp_mbind. eapply wp_read; [exact Hread|]. cbv beta iota. apply wp_mbind.
    apply wp_block. intros o d1 s1 Hal. pose proof (ptask_finishes _ Henv _ _ _ _ _ _ _ _ Hal) as ->.
    apply (call_logged _ Henv) in Hal as ->. apply wp_ret. apply IH. intros d'. rewrite <- app_assoc. apply HQ.
Qed.

(** C20. The replay of a usage trace: when the parallel tasks finish, the process of a
    rank executes one parallel task for each action of its trace, in order, on its
    host only, with as many cores as the usage asks for (at least one, and never more
    than the host has), each computing the flops of the action; then it gives its
    rank to the process of the job, and ends. *)
Theorem usage_trace_is_replayed host files mbox rank file actions usages d s :
  vector_get files rank = Ok file -> read_actions (fmt_d rank) file = Ok actions ->
  Forall2 usage_action actions usages -> 1 <= get_core_count host ->
  wp allowed (usage_trace_replayer_process host files mbox rank)
    (fun _ _ s' => s' = s ++ ((fun u => usage_ptask host u.1 u.2) <$> usages) ++ [mailbox_put mbox (u32 rank)]) d s /\
  Forall (fun u => (0 <= u.2)%Q /\ 1 <= nb_cores_to_use u.1 (get_core_count host) <= get_core_count host) usages.
Proof.
  intros Hfile Hactions Hall Hcores. split.
  - unfold usage_trace_replayer_process. apply wp_mbind. eapply wp_read; [exact Hfile|].
    apply wp_mbind. eapply wp_read; [exact Hactions|]. apply wp_mbind.
    eapply run_actions_spec; [exact Hall|]. intros d'. apply (wp_block allowed (mailbox_put mbox (u32 rank))). intros u d2 s2 Hal.
    apply (call_logged _ Henv) in Hal as ->. by rewrite <- app_assoc.
  - clear Hactions. induction Hall as [|action [usage flops] actions' usages' [_ Hread] _ IH]; constructor.
    + apply read_usage_Ok in Hread as [Hu Hf]. split; [done|]. by apply nb_cores_to_use_bounds.
    + exact IH.
Qed.
End Replayed.
End Replay.
