(* ===== verification/Submitters.v ===== *)
(** * Submitters (src/job_submitter.cpp, src/event_submitter.cpp)

    The processes that announce jobs and external events to the server: the static
    submitters follow the dates of their jobs or events; the workflow submitter
    makes a job of each task when its parents have completed; without a scheduler,
    a launcher executes every job at once. *)

From S2P Require Import Prelude Interfaces Profiles Jobs Storage NumericStrcmp Outputs Machines Workload Tracers Ipp PState Writer NumberParsing Workflow Context Server Actors TaskExecution SwitchProcesses JobsExecution.
#[local] Open Scope process_scope.

(** ** Tasks of workflows *)

Definition inc_child (h : task_heap) (i : positive) : result task_heap :=
  t ← deref_task h i; Ok (<[i := t <| nb_parent_completed ::= Z.add 1 |>]> h).

Definition bottom_level_f (parent : positive) (h : task_heap) (child : positive) : result task_heap :=
  c ← deref_task h child;
  p ← deref_task h parent;
  Ok (<[child := c <| depth := Z.max (depth c) (depth p + 1) |>]> h).

Definition is_ready (h : task_heap) (kiddo : positive) : result bool :=
  t ← deref_task h kiddo;
  Ok (nb_parent_completed t =? i32 (Z.of_nat (length (parents t)))).

(** The children of a task that has completed, and those that are now ready. *)
Definition task_completed (h : task_heap) (completed_task : positive) : result (list positive * task_heap) :=
  t ← deref_task h completed_task;
  h ← foldM inc_child h (children t);
  h ← foldM (bottom_level_f completed_task) h (children t);
  ready ← foldM (fun ready_tasks kiddo => b ← is_ready h kiddo; Ok (if b : bool then ready_tasks ++ [kiddo] else ready_tasks))
            [] (children t);
  Ok (ready, h).

(** The JSON text of the profile and of the job of a task. *)
Definition json_key (key : string) : string := dq +:+ key +:+ dq +:+ ": ".
Definition json_string (s : string) : string := dq +:+ s +:+ dq.
Definition task_profile_description (execution_time : Q) : string :=
  "{" +:+ json_key "type" +:+ json_string "delay" +:+ ", " +:+ json_key "delay" +:+ fmt_lf execution_time +:+ "}".
Definition task_job_description (workload_name job_number : string) (date walltime : Q) (num_procs : Z)
  (profile_name : string) : string :=
  "{" +:+ json_key "id" +:+ json_string (workload_name +:+ String "!" job_number) +:+ ", " +:+
  dq +:+ "subtime" +:+ dq +:+ ":" +:+ fmt_lf date +:+ ", " +:+
  dq +:+ "walltime" +:+ dq +:+ ":" +:+ fmt_lf walltime +:+ ", " +:+
  dq +:+ "res" +:+ dq +:+ ":" +:+ fmt_d num_procs +:+ ", " +:+
  json_key "profile" +:+ json_string profile_name +:+ "}".

Definition submitter_of (name : string) : string := name +:+ "_submitter".

(** The order of [std::sort] with [job_comparator_subtime_number]. *)
Definition job_le {IS} (a b : positive * Job IS) : Prop := job_comparator_subtime_number b.2 a.2 = false.
#[export] Instance job_le_dec {IS} : RelDecision (job_le (IS := IS)) :=
  fun a b => decide (job_comparator_subtime_number b.2 a.2 = false).

Section Submitters.
Context {IS Engine Host V : Type} `{IntervalSet IS} `{SimGrid Engine Host} `{RapidJson V} `{BoostString}.
Context (str_find : string -> string -> bool) (replace_id : string -> string -> string).
(** [RedisStorage::set], which aborts when it cannot read the value back. *)
Context (storage_set : string -> string -> result unit).
#[local] Abbreviation Ctx := (BatsimContext IS Engine Host V).
#[local] Abbreviation Data := (ServerData IS Engine Host V).
#[local] Abbreviation M := (Actors.M Data IS Host).
#[local] Abbreviation Alloc := (SchedulingAllocation IS Host).

Definition say_hello (submitter_name : string) (callback : bool) (type : SubmitterType) : M unit :=
  send "server" SUBMITTER_HELLO (SubmitterHelloMessage submitter_name callback type).
Definition say_bye (submitter_name : string) (type : SubmitterType) (is_workflow : bool) : M unit :=
  send "server" SUBMITTER_BYE (SubmitterByeMessage submitter_name type is_workflow).

(** ** Static submitter of jobs *)

Definition submit_jobs_to_server (jobs_to_submit : list positive) (submitter_name : string) : M unit :=
  match jobs_to_submit with
  | [] => ret tt
  | _ => send "server" JOB_SUBMITTED (JobSubmittedMessage submitter_name jobs_to_submit)
  end.

Definition sorted_jobs (c : Ctx) (w : Workload) : result (list positive) :=
  jobs ← mapM_r (fun mit => j ← the_job c mit.2; Ok (mit.2, j)) (map_to_list (jobs_map (wl_jobs w)));
  Ok (merge_sort job_le jobs).*1.

Definition store_job (w : Workload) (j : Job IS) : M unit :=
  read_ctx (fun c =>
    (if redis_enabled (c_options c) then
       p ← the_profile c (profile j);
       storage_set (job_key (id j)) (json_description j);;
       if submission_forward_profiles (c_options c)
       then storage_set (profile_key (wl_name w) (p_name p)) (p_json_description p)
       else Ok tt
     else Ok tt)%stdpp).

(** The energy consumed before the first submission, when nobody has noted it yet. *)
Definition note_first_submission : M unit :=
  on_ctx (fun c => Ok (if (c_energy_first_job_submission c <?q 0)%Q
                       then c <| c_energy_first_job_submission :=
                              total_consumed_energy (c_engine c) (energy_used (c_options c)) (c_machines c) |>
                       else c)).

Fixpoint submit_in_order (w : Workload) (submitter_name : string) (jobs_to_submit jobs_to_send : list positive)
  (current_submission_date : Q) (is_first_job : bool) : M unit :=
  match jobs_to_submit with
  | [] => submit_jobs_to_server jobs_to_send submitter_name
  | job :: jobs_to_submit =>
      let* j := read_job job in
      let* '(jobs_to_send, current_submission_date) :=
        (if (current_submission_date <?q submission_time j)%Q then
           do* submit_jobs_to_server jobs_to_send submitter_name in
           do* block (sleep_for (submission_time j - current_submission_date)%Q) in
           let* date := get_clock_now in ret ([], date)
         else ret (jobs_to_send, current_submission_date)) in
      do* store_job w j in
      do* (if is_first_job : bool then note_first_submission else ret tt) in
      submit_in_order w submitter_name jobs_to_submit (jobs_to_send ++ [job]) current_submission_date false
  end.

(** The jobs of the workload are looked at after the server has received the hello. *)
Definition static_job_submitter_process (workload_name : string) : M unit :=
  do* read_ctx (fun c => xbt_assert (bool_decide (is_Some (c_workloads c !! workload_name))) "the workload does not exist") in
  let submitter_name := submitter_of workload_name in
  do* say_hello submitter_name false JOB_SUBMITTER in
  let* current_submission_date := get_clock_now in
  let* w := read_ctx (fun c => Workloads_at (c_workloads c) workload_name) in
  let* jobs_to_submit := read_ctx (fun c => sorted_jobs c w) in
  do* submit_in_order w submitter_name jobs_to_submit [] current_submission_date true in
  say_bye submitter_name JOB_SUBMITTER false.

(** ** Static submitter of events *)

Definition send_events_to_server (events_to_send : list (Event IS)) (submitter_name : string) : M unit :=
  match events_to_send with
  | [] => ret tt
  | _ => send "server" EVENT_OCCURRED (EventOccurredMessage submitter_name events_to_send)
  end.

Fixpoint occur_in_order (submitter_name : string) (events events_to_send : list (Event IS))
  (current_occurring_date : Q) : M unit :=
  match events with
  | [] => send_events_to_server events_to_send submitter_name
  | e :: events =>
      let* '(events_to_send, current_occurring_date) :=
        (if (current_occurring_date <?q ev_timestamp e)%Q then
           do* send_events_to_server events_to_send submitter_name in
           do* block (sleep_for (ev_timestamp e - current_occurring_date)%Q) in
           let* date := get_clock_now in ret ([], date)
         else ret (events_to_send, current_occurring_date)) in
      occur_in_order submitter_name events (events_to_send ++ [e]) current_occurring_date
  end.

Definition static_event_submitter_process (eventList_name : string) : M unit :=
  do* read_ctx (fun c => xbt_assert (bool_decide (is_Some (c_event_lists c !! eventList_name))) "the event list does not exist") in
  let submitter_name := submitter_of eventList_name in
  do* say_hello submitter_name false EVENT_SUBMITTER in
  let* current_occurring_date := get_clock_now in
  let* events := read_ctx (fun c => of_option (Undef "null EventList") (c_event_lists c !! eventList_name)) in
  do* occur_in_order submitter_name events [] current_occurring_date in
  say_bye submitter_name EVENT_SUBMITTER false.

(** ** Workflow submitter *)

(** The profile of a task, added to its workload under a name of its own. *)
Definition add_task_profile (workflow_name : string) (t : Task) (c : Ctx) : result (string * Ctx) :=
  let profile_name := workflow_name +:+ String "_" (t_id t) in
  let ptr := s_next_profile (c_store c) in
  let p := mk_Profile DELAY (DelayProfileData (execution_time t)) (task_profile_description (execution_time t)) profile_name 0 in
  w ← Workloads_at (c_workloads c) workflow_name;
  ps ← add_profile (wl_profiles w) profile_name ptr;
  Ok (profile_name,
      c <| c_store ::= fun st => st <| s_profiles ::= <[ptr := p]> |> <| s_next_profile ::= Pos.succ |> |>
        <| c_workloads ::= <[workflow_name := w <| wl_profiles := ps |>]> |>).

(** The job of a task, parsed from its text and added to its workload. *)
Definition add_task_job (workflow_name job_number profile_name : string) (t : Task) (c : Ctx) : result (positive * Ctx) :=
  w ← Workloads_at (c_workloads c) workflow_name;
  j ← Job_from_json_str str_find replace_id (wl_name w) (wl_profiles w)
        (task_job_description workflow_name job_number (now c) (execution_time t + 10)%Q (num_procs t) profile_name);
  let ptr := s_next_job (c_store c) in
  js ← add_job (wl_jobs w) (id j) ptr;
  Ok (ptr,
      c <| c_store ::= fun st => st <| s_jobs ::= <[ptr := j]> |> <| s_next_job ::= Pos.succ |> |>
        <| c_workloads ::= <[workflow_name := w <| wl_jobs := js |>]> |>).

Definition store_task (workflow_name profile_name : string) (t : Task) (date : Q) (job_number : string)
  (job_id : JobIdentifier) : M unit :=
  read_ctx (fun c =>
    (if redis_enabled (c_options c) then
       storage_set (job_key job_id)
         (task_job_description workflow_name job_number date (execution_time t + 10)%Q (num_procs t) profile_name);;
       if submission_forward_profiles (c_options c)
       then storage_set (profile_key workflow_name profile_name) (task_profile_description (execution_time t))
       else Ok tt
     else Ok tt)%stdpp).

Definition next_job_number (workflow_name : string) : M string := fun d =>
  let n := default 0 (c_task_id_counters (sd_context d) !! workflow_name) in
  Ok (d <| sd_context ::= fun c => c <| c_task_id_counters ::= <[workflow_name := n + 1]> |> |>, Done (fmt_d n)).

(** An operation on the context that gives something. *)
Definition with_ctx {A} (f : Ctx -> result (A * Ctx)) : M A := fun d =>
  ('(a, c) ← f (sd_context d); Ok (d <| sd_context := c |>, Done a))%stdpp.

(** Gives the key of the job. *)
Definition submit_workflow_task_as_job (workflow_name submitter_name : string) (task : positive) : M string :=
  let* job_number := next_job_number workflow_name in
  let* t := read_ctx (fun c => deref_task (ts_heap (c_tasks c)) task) in
  let* profile_name := with_ctx (add_task_profile workflow_name t) in
  let* date := get_clock_now in
  let* job := with_ctx (add_task_job workflow_name job_number profile_name t) in
  let* job_id := read (fun _ => JobIdentifier_of_names workflow_name job_number) in
  do* store_task workflow_name profile_name t date job_number job_id in
  do* send "server" JOB_SUBMITTED (JobSubmittedMessage submitter_name [job]) in
  ret (ji_to_string job_id).

Definition wait_for_job_completion (submitter_name : string) : M string :=
  let* data := block (await_message submitter_name) in
  match data with
  | SubmitterJobCompletionCallbackMessage job_id => ret (ji_to_string job_id)
  | _ => fail (Undef "static_cast of another message type")
  end.

(** The inner loop: no limit when it is 0. *)
Fixpoint submit_ready_tasks (workflow_name : string) (limit : Z) (ready_tasks : list positive)
  (submitted_tasks : gmap string positive) (current_nb : Z) : M (list positive * gmap string positive * Z) :=
  match ready_tasks with
  | [] => ret ([], submitted_tasks, current_nb)
  | task :: rest =>
      if (limit =? 0) || (current_nb <? limit) then
        let* job_key := submit_workflow_task_as_job workflow_name (submitter_of workflow_name) task in
        submit_ready_tasks workflow_name limit rest (<[job_key := task]> submitted_tasks) (current_nb + 1)
      else ret (ready_tasks, submitted_tasks, current_nb)
  end.

(** The children of the task of this key are told about its completion. *)
Definition complete_task (submitted_tasks : gmap string positive) (completed_job_key : string) : M (list positive) :=
  let* completed_task := read (fun _ => of_option (Undef "null Task pointer") (submitted_tasks !! completed_job_key)) in
  with_ctx (fun c =>
    ('(ready, h) ← task_completed (ts_heap (c_tasks c)) completed_task;
     Ok (ready, c <| c_tasks ::= fun st => mk_task_store h (ts_next st) |>))%stdpp).

(** [fuel] bounds the iterations of the outer loop. *)
Fixpoint workflow_loop (fuel : nat) (workflow_name : string) (limit : Z) (ready_tasks : list positive)
  (submitted_tasks : gmap string positive) (current_nb : Z) : M unit :=
  if bool_decide (ready_tasks = []) && bool_decide (submitted_tasks = ∅) then ret tt
  else match fuel with
  | O => fail (Undef "still submitting")
  | S fuel =>
      let* '(ready_tasks, submitted_tasks, current_nb) :=
        submit_ready_tasks workflow_name limit ready_tasks submitted_tasks current_nb in
      if bool_decide (submitted_tasks = ∅)
      then workflow_loop fuel workflow_name limit ready_tasks submitted_tasks current_nb
      else
        let* completed_job_key := wait_for_job_completion (submitter_of workflow_name) in
        let* ready_kids := complete_task submitted_tasks completed_job_key in
        workflow_loop fuel workflow_name limit (ready_tasks ++ ready_kids)
          (delete completed_job_key submitted_tasks) (current_nb - 1)
  end.

Definition workflow_submitter_process (fuel : nat) (workflow_name : string) : M unit :=
  let* workflow := read_ctx (fun c => Workflows_at (c_workflows c) workflow_name) in
  let* limit := read_ctx (fun c => Ok (c_workflow_nb_concurrent_jobs_limit c)) in
  do* on_ctx (fun c => Ok (c <| c_task_id_counters ::= <[wf_name workflow := 0]> |>)) in
  do* say_hello (submitter_of workflow_name) true JOB_SUBMITTER in
  let* ready_tasks := read_ctx (fun c => get_source_tasks workflow (ts_heap (c_tasks c))) in
  let* now := get_clock_now in
  let sleep_time := (wf_start_time workflow - now)%Q in
  do* block (sleep_for (if (sleep_time <?q 0)%Q then 0%Q else sleep_time)) in
  do* workflow_loop fuel workflow_name limit ready_tasks ∅ 0 in
  say_bye (submitter_of workflow_name) JOB_SUBMITTER true.

(** ** Without a scheduler *)

Definition launch_job (mit : string * positive) (c : Ctx) : result Ctx :=
  let job := mit.2 in
  j ← the_job c job;
  machines ← mapM_r (machine_at (c_machines c)) (indices (i32 (requested_nb_res j)));
  let machine_ids : IS := foldl is_insert is_empty (indices (i32 (requested_nb_res j))) in
  let alloc := mk_SchedulingAllocation job machine_ids [] ∅ (m_host <$> machines) [] is_empty in
  first ← first_element machine_ids;
  machine_at (c_machines c) first;;
  let '(actor, c) := create_actor (Context.execute_job_process alloc false None) c in
  Ok (with_job job (fun j => j <| execution_actors ::= fun s => {[actor]} ∪ s |>) c).

Definition batexec_job_launcher_process (workload_name : string) : M unit :=
  on_ctx (fun c =>
    (w ← Workloads_at (c_workloads c) workload_name;
     foldM (fun c mit => launch_job mit c) c (map_to_list (jobs_map (wl_jobs w))))%stdpp).
End Submitters.
