(* ===== verification/Reader.v ===== *)
(** * The messages of the scheduler (the reader of src/protocol.hpp, src/protocol.cpp; src/network.cpp)

    A message of the scheduler is a JSON text with events; the reader checks each
    event, updates what the event registers, waits for its date and sends the
    corresponding message to the server. *)

From S2P Require Import Prelude Interfaces Profiles Jobs Storage NumericStrcmp Outputs Machines Workload Tracers Ipp PState Writer NumberParsing Workflow Context OutputFiles Server Actors TaskExecution SwitchProcesses JobsExecution Submitters.
#[local] Open Scope process_scope.

(** ** The mapping of an allocation *)

(** A [std::map<int, int>] in the order of its keys. *)
Definition executor_le (a b : Z * Z) : Prop := a.1 <= b.1.
#[export] Instance executor_le_dec : RelDecision executor_le := fun a b => decide (a.1 <= b.1).
Definition in_executor_order (m : gmap Z Z) : list (Z * Z) := merge_sort executor_le (map_to_list m).

(** The keys must be the integers from [nb_inserted], and each value a resource. *)
Fixpoint write_mapping (nb_allocated_resources nb_inserted : Z) (l : list (Z * Z)) : result (list Z) :=
  match l with
  | [] => Ok []
  | mit :: l =>
      xbt_assert (mit.1 =? nb_inserted) "Invalid 'mapping' object: no resource associated to an executor";;
      xbt_assert ((0 <=? mit.2) && (mit.2 <? nb_allocated_resources)) "Invalid 'mapping' object: there are fewer allocated resources";;
      mapping ← write_mapping nb_allocated_resources (nb_inserted + 1) l;
      Ok (mit.2 :: mapping)
  end.

Section Reader.
Context {IS Engine Host V : Type} `{IntervalSet IS} `{SimGrid Engine Host} `{RapidJson V} `{BoostString} `{FileSystem}.
Context (str_find : string -> string -> bool) (replace_id : string -> string -> string).
(** [RedisStorage::get]: the empty text when there is no such key. *)
Context (storage_get : string -> result string).
#[local] Abbreviation Ctx := (BatsimContext IS Engine Host V).
#[local] Abbreviation Data := (ServerData IS Engine Host V).
#[local] Abbreviation M := (Actors.M Data IS Host).
#[local] Abbreviation Alloc := (SchedulingAllocation IS Host).
#[local] Abbreviation Message := (MessageData IS Host).

Definition send_message_at_time (when : Q) (destination_mailbox : string) (type : IPMessageType) (data : Message) : M unit :=
  let* current_time := get_clock_now in
  do* (if (current_time <?q when)%Q then block (sleep_for (when - current_time)%Q) else ret tt) in
  send destination_mailbox type data.

(** [data] is an object, with so many members when their number is checked. *)
Definition check_object (data_object : V) : result unit :=
  xbt_assert (IsObject data_object) "the 'data' value should be an object".
Definition check_size (allowed_sizes : list Z) (data_object : V) : result unit :=
  check_object data_object;;
  xbt_assert (bool_decide (MemberCount data_object ∈ allowed_sizes)) "the 'data' value is not of the right size".

(** [IntervalSet::from_string_hyphen], whose exceptions become runtime errors. *)
Definition read_intervals (s : string) : result IS :=
  match from_string_hyphen s " " "-" with
  | Ok s => Ok s
  | Err _ => Err (Throw "runtime_error: Invalid JSON message")
  end.

(** [std::stoi], whose exceptions become a failed assertion. *)
Definition read_int_string (s : string) : result Z :=
  match stoi s with
  | Ok v => Ok v
  | Err _ => Err (Abort "all keys and values must be integers")
  end.

(** ** Queries and answers *)

Definition accepted_requests : list string := ["consumed_energy"; "carbon_footprint"; "water_footprint"].

Definition request_type (key : string) : result IPMessageType :=
  if String.eqb key "consumed_energy" then Ok SCHED_TELL_ME_ENERGY
  else if String.eqb key "carbon_footprint" then Ok SCHED_TELL_ME_CARBON_FOOTPRINT
  else if String.eqb key "water_footprint" then Ok SCHED_TELL_ME_WATER_FOOTPRINT
  else Err (Abort "the request type is unknown").

Definition read_request (request : string * V) : result IPMessageType :=
  xbt_assert (bool_decide (request.1 ∈ accepted_requests)) "Unknown QUERY";;
  xbt_assert (IsObject request.2) "the value of a request is not an object";;
  type ← request_type request.1;
  xbt_assert (MemberCount request.2 =? 0) "the value of a request should be empty";;
  Ok type.

Fixpoint answer_requests (timestamp : Q) (requests : list (string * V)) : M unit :=
  match requests with
  | [] => ret tt
  | request :: requests =>
      let* type := read (fun _ => read_request request) in
      do* send_message_at_time timestamp "server" type NoData in
      answer_requests timestamp requests
  end.

Definition read_query (data_object : V) : result (list (string * V)) :=
  check_size [1] data_object;;
  requests ← require_member data_object "requests" IsObject;
  xbt_assert (0 <? MemberCount requests) "the 'requests' object must be non-empty";;
  Ok (members requests).

Definition handle_query (timestamp : Q) (data_object : V) : M unit :=
  let* requests := read (fun _ => read_query data_object) in
  answer_requests timestamp requests.

(** An answer is checked, and that is all. *)
Definition read_answer (answer : string * V) : result unit :=
  if String.eqb answer.1 "estimate_waiting_time" then
    xbt_assert (IsObject answer.2) "the value should be an object";;
    require_string answer.2 "job_id";;
    require_number answer.2 "estimated_waiting_time";;
    Ok tt
  else Err (Abort "unknown ANSWER type").

Definition handle_answer (timestamp : Q) (data_object : V) : M unit :=
  read (fun _ => (
    check_object data_object;;
    xbt_assert (0 <? MemberCount data_object) "the 'data' object must be non-empty";;
    foldM (fun _ answer => read_answer answer) tt (members data_object))%stdpp).

(** ** Decisions on jobs *)

Definition read_reject_job (data_object : V) : result Message :=
  check_size [1] data_object;;
  job_id ← require_string data_object "job_id";
  job_id ← JobIdentifier_of_string job_id;
  Ok (JobRejectedMessage job_id).

Definition handle_reject_job (timestamp : Q) (data_object : V) : M unit :=
  let* message := read (fun _ => read_reject_job data_object) in
  send_message_at_time timestamp "server" SCHED_REJECT_JOB message.

(** A member of 'mapping': the names of the members of an object are strings. *)
Definition read_executor (mapping_map : gmap Z Z) (it : string * V) : result (gmap Z Z) :=
  xbt_assert (IsInt it.2 || IsString it.2) "a value is not an integer nor a string";;
  executor ← read_int_string it.1;
  resource ← (if IsInt it.2 then GetInt it.2 else s ← GetString it.2; read_int_string s);
  Ok (<[executor := resource]> mapping_map).

Definition read_mapping (nb_allocated_resources : Z) (data_object : V) : result (list Z) :=
  if HasMember data_object "mapping" then
    mapping_value ← require_member data_object "mapping" IsObject;
    xbt_assert (0 <? MemberCount mapping_value) "the 'mapping' value must be a non-empty object";;
    mapping_map ← foldM read_executor ∅ (members mapping_value);
    write_mapping nb_allocated_resources 0 (in_executor_order mapping_map)
  else Ok [].

Definition read_storage (storage_mapping_map : gmap string Z) (it : string * V) : result (gmap string Z) :=
  xbt_assert (IsInt it.2) "Invalid 'storage_mapping': a value is not an integer";;
  v ← GetInt it.2;
  Ok (<[it.1 := v]> storage_mapping_map).

Definition read_storage_mapping (data_object : V) : result (gmap string Z) :=
  if HasMember data_object "storage_mapping" then
    mapping_value ← require_member data_object "storage_mapping" IsObject;
    xbt_assert (0 <? MemberCount mapping_value) "the 'storage_mapping' value must be a non-empty object";;
    foldM read_storage ∅ (members mapping_value)
  else Ok ∅.

(** A profile whose description comes with an event, added to its workload. *)
Definition register_profile (workload_name : string) (w : Workload) (profile_name description : string) (c : Ctx) : result Ctx :=
  p ← Profile_from_json_str (V := V) profile_name description;
  let ptr := s_next_profile (c_store c) in
  ps ← add_profile (wl_profiles w) profile_name ptr;
  Ok (c <| c_store ::= fun st => st <| s_profiles ::= <[ptr := p]> |> <| s_next_profile ::= Pos.succ |> |>
        <| c_workloads ::= <[workload_name := w <| wl_profiles := ps |>]> |>).

Definition sequence_of (p : Profile) : result (list string) :=
  match p_data p with
  | SequenceProfileData _ sequence _ => Ok sequence
  | _ => Err (Undef "static_cast of another data type")
  end.

(** The profile of input and output is merged with that of the job. *)
Definition check_io_profile (w : Workload) (job_id : JobIdentifier) (io_profile : Profile) (c : Ctx) : result unit :=
  if bool_decide (p_type io_profile = SEQUENCE) then
    jp ← Jobs_at (wl_jobs w) job_id;
    j ← the_job c jp;
    job_profile ← the_profile c (profile j);
    xbt_assert (bool_decide (p_type job_profile = SEQUENCE)) "they must have compatible profile in order to be merged";;
    job_sequence ← sequence_of job_profile;
    io_sequence ← sequence_of io_profile;
    xbt_assert (bool_decide (length job_sequence = length io_sequence)) "the sequence sizes should be the same"
  else Ok tt.

(** [io_job_value] is used as an object without being checked. *)
Definition additional_io_job (job_id : JobIdentifier) (io_job_value : V) (c : Ctx) : result (positive * IS * Ctx) :=
  (if IsObject io_job_value then Ok tt else Err (Undef "HasMember on a value that is not an object"));;
  profile_name ← require_string io_job_value "profile_name";
  w ← Workloads_at (c_workloads c) (ji_workload_name job_id);
  c ← (if HasMember io_job_value "profile" then
         if Profiles_exists (wl_profiles w) profile_name then xbt_die "The given profile name already exists"
         else profile_object ← require_member io_job_value "profile" IsObject;
              register_profile (ji_workload_name job_id) w profile_name (serialize profile_object) c
       else Ok c);
  w ← Workloads_at (c_workloads c) (ji_workload_name job_id);
  xbt_assert (Profiles_exists (wl_profiles w) profile_name) "The given profile name does not exists";;
  ptr ← Profiles_at (wl_profiles w) profile_name;
  io_profile ← the_profile c ptr;
  check_io_profile w job_id io_profile c;;
  alloc ← require_string io_job_value "alloc";
  io_allocation ← read_intervals alloc;
  Ok (ptr, io_allocation, c).

Definition read_execute_job (data_object : V) (c : Ctx) : result (Message * Ctx) :=
  check_size [2; 3] data_object;;
  job_id_str ← require_string data_object "job_id";
  job_id ← JobIdentifier_of_string job_id_str;
  job ← job_at (c_workloads c) job_id;
  alloc ← require_string data_object "alloc";
  machine_ids ← read_intervals alloc;
  let nb_allocated_resources := i32 (is_size machine_ids) in
  xbt_assert (0 <? nb_allocated_resources) "the number of allocated resources should be strictly positive";;
  mapping ← read_mapping nb_allocated_resources data_object;
  storage_mapping ← read_storage_mapping data_object;
  let allocation := mk_SchedulingAllocation job machine_ids mapping storage_mapping [] [] is_empty in
  match FindMember data_object "additional_io_job" with
  | Some io_job_value =>
      '(io_profile, io_allocation, c) ← additional_io_job job_id io_job_value c;
      Ok (ExecuteJobMessage (allocation <| sa_io_allocation := io_allocation |>) (Some io_profile), c)
  | None => Ok (ExecuteJobMessage allocation None, c)
  end.

Definition handle_execute_job (timestamp : Q) (data_object : V) : M unit :=
  let* message := with_ctx (read_execute_job data_object) in
  send_message_at_time timestamp "server" SCHED_EXECUTE_JOB message.

Definition read_call_me_later (data_object : V) : result Message :=
  check_size [1] data_object;;
  target_time ← require_number data_object "timestamp";
  Ok (CallMeLaterMessage target_time).

Definition handle_call_me_later (timestamp : Q) (data_object : V) : M unit :=
  let* message := read (fun _ => read_call_me_later data_object) in
  send_message_at_time timestamp "server" SCHED_CALL_ME_LATER message.

Definition read_set_resource_state (data_object : V) : result Message :=
  check_size [2] data_object;;
  resources ← require_string data_object "resources";
  machine_ids ← read_intervals resources;
  xbt_assert (0 <? i32 (is_size machine_ids)) "the number of allocated resources should be strictly positive";;
  state ← require_string data_object "state";
  new_pstate ← read_int_string state;
  Ok (PStateModificationMessage machine_ids new_pstate).

Definition handle_set_resource_state (timestamp : Q) (data_object : V) : M unit :=
  let* message := read (fun _ => read_set_resource_state data_object) in
  send_message_at_time timestamp "server" PSTATE_MODIFICATION message.

(** The regular expression accepts the texts without double quotes. *)
Definition read_set_job_metadata (data_object : V) : result Message :=
  check_size [2] data_object;;
  job_id ← require_string data_object "job_id";
  metadata ← require_string data_object "metadata";
  xbt_assert (negb (str_contains_char "034" metadata)) "the 'metadata' value should not contain double quotes";;
  job_id ← JobIdentifier_of_string job_id;
  Ok (SetJobMetadataMessage job_id metadata).

Definition handle_set_job_metadata (timestamp : Q) (data_object : V) : M unit :=
  let* message := read (fun _ => read_set_job_metadata data_object) in
  send_message_at_time timestamp "server" SCHED_SET_JOB_METADATA message.

Definition allowed_states : list string :=
  ["NOT_SUBMITTED"; "RUNNING"; "COMPLETED_SUCCESSFULLY"; "COMPLETED_WALLTIME_REACHED"; "COMPLETED_KILLED"; "REJECTED"].

Definition read_change_job_state (data_object : V) : result Message :=
  check_object data_object;;
  job_id ← require_string data_object "job_id";
  job_state ← require_string data_object "job_state";
  xbt_assert (bool_decide (job_state ∈ allowed_states)) "['data']['job_state'] is not an allowed state";;
  job_id ← JobIdentifier_of_string job_id;
  Ok (ChangeJobStateMessage job_id job_state).

Definition handle_change_job_state (timestamp : Q) (data_object : V) : M unit :=
  let* message := read (fun _ => read_change_job_state data_object) in
  send_message_at_time timestamp "server" SCHED_CHANGE_JOB_STATE message.

Definition read_notify (data_object : V) : result IPMessageType :=
  check_object data_object;;
  notify_type ← require_string data_object "type";
  if String.eqb notify_type "registration_finished" then Ok END_DYNAMIC_REGISTER
  else if String.eqb notify_type "continue_registration" then Ok CONTINUE_DYNAMIC_REGISTER
  else Err (Abort "Unknown NOTIFY type received").

Definition handle_notify (timestamp : Q) (data_object : V) : M unit :=
  let* type := read (fun _ => read_notify data_object) in
  send_message_at_time timestamp "server" type NoData.

Definition read_to_job_msg (data_object : V) : result Message :=
  check_object data_object;;
  job_id ← require_string data_object "job_id";
  msg ← require_string data_object "msg";
  job_id ← JobIdentifier_of_string job_id;
  Ok (ToJobMessage job_id msg).

Definition handle_to_job_msg (timestamp : Q) (data_object : V) : M unit :=
  let* message := read (fun _ => read_to_job_msg data_object) in
  send_message_at_time timestamp "server" TO_JOB_MSG message.

(** The elements of the array are not checked before [GetString]. *)
Definition read_kill_job (data_object : V) : result Message :=
  check_size [1] data_object;;
  job_ids_array ← require_member data_object "job_ids" IsArray;
  xbt_assert (negb (bool_decide (length (array_values job_ids_array) = 0%nat))) "the 'job_ids' array should be non-empty";;
  jobs_ids ← mapM_r (fun v => s ← GetString v; JobIdentifier_of_string s) (array_values job_ids_array);
  Ok (KillJobMessage jobs_ids).

Definition handle_kill_job (timestamp : Q) (data_object : V) : M unit :=
  let* message := read (fun _ => read_kill_job data_object) in
  send_message_at_time timestamp "server" SCHED_KILL_JOB message.

(** ** Registrations: what they add is there before the message is sent *)

Definition check_registration (c : Ctx) : result unit :=
  xbt_assert (registration_sched_enabled (c_options c)) "dynamic registration received but the option seems disabled";;
  xbt_assert (negb (c_registration_sched_finished c)) "a registration_finished message has already been received".

Definition job_description_of (job_id : JobIdentifier) (data_object : V) (c : Ctx) : result string :=
  match FindMember data_object "job" with
  | Some job_object =>
      xbt_assert (negb (redis_enabled (c_options c))) "'job' object is given but redis seems enabled";;
      xbt_assert (IsObject job_object) "['data']['job'] should be an object";;
      Ok (serialize job_object)
  | None =>
      xbt_assert (redis_enabled (c_options c)) "['data']['job'] is unset but redis seems disabled";;
      storage_get (job_key job_id)
  end.

Definition register_job (job_id : JobIdentifier) (job_description : string) (c : Ctx) : result (positive * Ctx) :=
  xbt_assert (Workloads_exists (c_workloads c) (ji_workload_name job_id)) "Internal error: the workload should exist";;
  registered ← job_is_registered (c_workloads c) job_id;
  xbt_assert (negb registered) "Cannot register new job, it already exists in the workload";;
  w ← Workloads_at (c_workloads c) (ji_workload_name job_id);
  j ← Job_from_json_str (IS := IS) str_find replace_id (wl_name w) (wl_profiles w) job_description;
  xbt_assert (String.eqb (ji_job_name (id j)) (ji_job_name job_id)) "Internal error";;
  xbt_assert (String.eqb (ji_workload_name (id j)) (ji_workload_name job_id)) "Internal error";;
  check_single_job_validity (s_profiles (c_store c)) w j;;
  let ptr := s_next_job (c_store c) in
  js ← add_job (wl_jobs w) (id j) ptr;
  Ok (ptr,
      c <| c_store ::= fun st => st <| s_jobs ::= <[ptr := j <| state := JOB_STATE_SUBMITTED |>]> |>
                                    <| s_next_job ::= Pos.succ |> |>
        <| c_workloads ::= <[ji_workload_name job_id := w <| wl_jobs := js |>]> |>).

Definition read_register_job (data_object : V) (c : Ctx) : result (Message * Ctx) :=
  check_registration c;;
  check_object data_object;;
  job_id_str ← require_string data_object "job_id";
  job_id ← JobIdentifier_of_string job_id_str;
  job_description ← job_description_of job_id data_object c;
  '(job, c) ← register_job job_id job_description c;
  Ok (JobRegisteredByDPMessage job job_description, c).

Definition handle_register_job (timestamp : Q) (data_object : V) : M unit :=
  let* message := with_ctx (read_register_job data_object) in
  send_message_at_time timestamp "server" JOB_REGISTERED_BY_DP message.

(** The workload of a registered profile, created when it does not exist. *)
Definition workload_of_profile (workload_name : string) (c : Ctx) : result (Workload * Ctx) :=
  if Workloads_exists (c_workloads c) workload_name then
    w ← Workloads_at (c_workloads c) workload_name; Ok (w, c)
  else
    let w := new_dynamic_workload workload_name in
    ws ← Workload.insert_workload (wl_name w) w (c_workloads c);
    Ok (w, c <| c_workloads := ws |>).

Definition read_register_profile (data_object : V) (c : Ctx) : result (Message * Ctx) :=
  check_registration c;;
  check_object data_object;;
  workload_name ← require_string data_object "workload_name";
  profile_name ← require_string data_object "profile_name";
  profile_object ← require_member data_object "profile" IsObject;
  let profile := serialize profile_object in
  '(w, c) ← workload_of_profile workload_name c;
  c ← (if Profiles_exists (wl_profiles w) profile_name
       then xbt_die "Invalid new profile registration: the profile already existed"
       else register_profile workload_name w profile_name profile c);
  Ok (ProfileRegisteredByDPMessage workload_name profile_name profile, c).

Definition handle_register_profile (timestamp : Q) (data_object : V) : M unit :=
  let* message := with_ctx (read_register_profile data_object) in
  send_message_at_time timestamp "server" PROFILE_REGISTERED_BY_DP message.

(** ** The message *)

Definition type_to_handler_map : list (string * (Q -> V -> M unit)) :=
  [("QUERY", handle_query); ("ANSWER", handle_answer); ("REJECT_JOB", handle_reject_job);
   ("EXECUTE_JOB", handle_execute_job); ("CHANGE_JOB_STATE", handle_change_job_state);
   ("CALL_ME_LATER", handle_call_me_later); ("KILL_JOB", handle_kill_job); ("REGISTER_JOB", handle_register_job);
   ("REGISTER_PROFILE", handle_register_profile); ("SET_RESOURCE_STATE", handle_set_resource_state);
   ("SET_JOB_METADATA", handle_set_job_metadata); ("NOTIFY", handle_notify); ("TO_JOB_MSG", handle_to_job_msg)].

Definition handler_of (type : string) : option (Q -> V -> M unit) :=
  snd <$> List.find (fun h => String.eqb h.1 type) type_to_handler_map.

(** The date, the handler and the data of an event. *)
Definition read_event (event_object : V) (now : Q) : result (Q * (Q -> V -> M unit) * V) :=
  xbt_assert (IsObject event_object) "an event should be an object";;
  timestamp ← require_number event_object "timestamp";
  xbt_assert (timestamp <=?q now)%Q "the timestamp of an event should be lower than or equal to now";;
  type ← require_string event_object "type";
  handler_function ← of_option (Abort "an event has an unknown 'type' value") (handler_of type);
  xbt_assert (HasMember event_object "data") "an event should have a 'data' key";;
  data_object ← member_at event_object "data";
  Ok (timestamp, handler_function, data_object).

Definition parse_and_apply_event (event_object : V) (now : Q) : M unit :=
  let* '(timestamp, handler_function, data_object) := read (fun _ => read_event event_object now) in
  handler_function timestamp data_object.

Fixpoint parse_and_apply_events (events : list V) (now : Q) : M unit :=
  match events with
  | [] => ret tt
  | event_object :: events =>
      do* parse_and_apply_event event_object now in
      parse_and_apply_events events now
  end.

Definition read_message (message : string) : result (Q * list V) :=
  doc ← of_option (Abort "Invalid JSON message: could not be parsed") (parse_json message);
  xbt_assert (IsObject doc) "Invalid JSON message: not a JSON object";;
  now ← require_number doc "now";
  events_array ← require_member doc "events" IsArray;
  Ok (now, array_values events_array).

Definition parse_and_apply_message (message : string) : M unit :=
  let* '(now, events) := read (fun _ => read_message message) in
  do* parse_and_apply_events events now in
  send_message_at_time now "server" SCHED_READY NoData.

(** [catch (const std::runtime_error &)] *)
Definition is_runtime_error (e : error) : bool :=
  match e with Throw msg => String.prefix "runtime_error" msg | _ => false end.

(** The outputs are closed before another exception is thrown.  [run_info_of] is what
    they tell besides the traces. *)
Definition connection_broken (run_info_of : Ctx -> run_info) (e : error) (d : Data) : error :=
  if is_runtime_error e then
    match finalize_batsim_outputs (run_info_of (sd_context d)) (sd_context d) with
    | Ok _ => Throw "runtime_error: Execution aborted (connection broken)"
    | Err e => e
    end
  else e.

(** [request_reply_scheduler_process]: [scheduler] is what the other end of the
    socket answers; no simulated time passes meanwhile. *)
Definition exchange (scheduler : string -> result string) (send_buffer : string) : M unit :=
  let* message_received := read (fun _ => scheduler send_buffer) in
  parse_and_apply_message message_received.
Definition request_reply (run_info_of : Ctx -> run_info) (scheduler : string -> result string) (send_buffer : string) : M unit :=
  catching (connection_broken run_info_of) (exchange scheduler send_buffer).
End Reader.
