(* ===== verification/System.v ===== *)
(** * The processes together (src/batsim.cpp, src/server.cpp, and the processes they create)

    The engine runs the processes of the simulation one at a time, each until it
    blocks, in an order that is not known.  A state of the system has the shared data,
    the processes that are blocked and since when, and how many messages of each
    mailbox have been received.  A label says what happens next; [exec] carries it
    out, and a run is a sequence of labels. *)

From S2P Require Import Prelude Interfaces Profiles Jobs Storage NumericStrcmp Outputs Machines Workload Tracers Ipp PState Writer NumberParsing Workflow Context Server Actors TaskExecution SwitchProcesses EnvTrace JobsExecution Replay Submitters Reader.

Section System.
Context {IS Engine Host V : Type} `{IntervalSet IS} `{SimGrid Engine Host} `{RapidJson V} `{BoostString} `{FileSystem}.
#[local] Abbreviation Ctx := (BatsimContext IS Engine Host V).
#[local] Abbreviation Data := (ServerData IS Engine Host V).
#[local] Abbreviation M := (Actors.M Data IS Host).
#[local] Abbreviation Act := (Actor IS Host V).
#[local] Abbreviation Msg := (IPMessage IS Host).

(** What is not in src/, and the bounds of the recursions. *)
Record externals := mk_externals {
  x_englobing_zone : Host -> option string;
  x_regex_match : string -> string -> bool;
  x_str_find : string -> string -> bool;
  x_replace_id : string -> string -> string;
  x_storage_set : string -> string -> result unit;
  x_storage_get : string -> result string;
  x_sg_host_set : host_property -> Engine -> Host -> Q -> Engine;
  x_get_core_count : Host -> Z;
  x_read_actions : string -> string -> result (list (list string));
  x_smpi_replay_run : string -> Z -> string -> M unit;
  x_print : jvalue V -> string;                       (* the text of a JSON value *)
  x_run_info : Ctx -> run_info;                       (* the wall-clock times, for the outputs *)
  x_scheduler : positive -> string -> result string;  (* what it answers to the process that asks *)
  x_stack : nat;        (* the depth of the stack *)
  x_polls : nat;        (* the polls of a task that waits for a message *)
  x_iterations : nat;   (* the iterations of a workflow submitter *)
}.
Context (x : externals).

(** The function that each process executes; the server is apart, since its loop
    also looks at its mailbox. *)
Definition body (self : positive) (a : Act) : option (M unit) :=
  match a with
  | server_actor => None
  | static_job_submitter_actor workload_name => Some (static_job_submitter_process (x_storage_set x) workload_name)
  | batexec_job_launcher_actor workload_name => Some (batexec_job_launcher_process workload_name)
  | workflow_submitter_actor workflow_name =>
      Some (workflow_submitter_process (x_str_find x) (x_replace_id x) (x_storage_set x) (x_iterations x) workflow_name)
  | static_event_submitter_actor eventList_name => Some (static_event_submitter_process eventList_name)
  | env_zone_update_actor delay hosts property value => Some (env_zone_update (x_sg_host_set x) delay hosts property value)
  | request_reply_scheduler_process send_buffer =>
      Some (request_reply (x_str_find x) (x_replace_id x) (x_storage_get x) (x_run_info x) (x_scheduler x self) (x_print x send_buffer))
  | Context.switch_on_machine_process machine_id new_pstate => Some (switch_on_machine_process machine_id new_pstate)
  | Context.switch_off_machine_process machine_id new_pstate => Some (switch_off_machine_process machine_id new_pstate)
  | Context.killer_process jobs_ids killed_job_state acknowledge =>
      Some (killer_process (x_englobing_zone x) jobs_ids killed_job_state acknowledge)
  | Context.waiter_process target_time => Some (waiter_process target_time)
  | Context.execute_job_process allocation notify_server_at_end io_profile =>
      Some (execute_job_process (x_englobing_zone x) (x_regex_match x) (x_stack x) (x_polls x) self allocation
              notify_server_at_end io_profile)
  | Context.smpi_replay_process host job files mailbox rank =>
      Some (smpi_replay_process (x_smpi_replay_run x) job files mailbox rank)
  | Context.usage_trace_replayer_process host job files mailbox rank =>
      Some (usage_trace_replayer_process (x_get_core_count x) (x_read_actions x) host files mailbox rank)
  end.

(** ** States *)

Record system := mk_system {
  sy_data : Data;
  sy_server_started : bool;
  sy_started : gset positive;                                (* the processes that have run *)
  sy_blocked : gmap positive (Q * proc Data IS Host unit);   (* since when, and what follows *)
  sy_read : gmap string nat;                                 (* the messages received *)
  (* the message that the server waits to be received, the last of so many of this
     mailbox, and what follows *)
  sy_sending : option (string * nat * pending (IS := IS) (Host := Host));
}.
#[export] Instance eta_system : Eta system := fun r =>
  mk_system (sy_data r) (sy_server_started r) (sy_started r) (sy_blocked r) (sy_read r) (sy_sending r).
Implicit Types (σ : system).

Definition sy_context σ : Ctx := sd_context (sy_data σ).
Definition clock σ : Q := time_of (sy_data σ).

(** The process of an identifier, when it is alive. *)
Definition actor_of σ (self : positive) : option Act :=
  snd <$> List.find (fun a => bool_decide (a.1 = self)) (c_actors (sy_context σ)).

Lemma actor_of_elem σ self a : actor_of σ self = Some a -> (self, a) ∈ c_actors (sy_context σ).
Proof.
  unfold actor_of. destruct (List.find _ _) as [[i b]|] eqn:Hf; [|done]. intros [= <-].
  apply List.find_some in Hf as [Hin Hi]. apply bool_decide_eq_true in Hi. cbn in *. subst.
  by apply list_elem_of_In.
Qed.

Definition nb_read σ (mbox : string) : nat := default 0%nat (sy_read σ !! mbox).
(** The messages of a mailbox that nobody has received, the oldest first. *)
Definition unread σ (mbox : string) : list Msg :=
  drop (nb_read σ mbox) (sm_message <$> List.filter (in_mailbox mbox) (c_sent (sy_context σ))).
Definition receive (mbox : string) σ : system := σ <| sy_read ::= <[mbox := S (nb_read σ mbox)]> |>.

(** The end of a segment of a process: it is blocked, or it ends. *)
Definition settle (self : positive) (r : result (Data * proc Data IS Host unit)) σ : result system :=
  '(d, p) ← r;
  Ok (match p with
      | Done _ => σ <| sy_data := d <| sd_context ::= remove_actors {[self]} |> |> <| sy_blocked ::= delete self |>
      | Waiting _ _ => σ <| sy_data := d |> <| sy_blocked ::= <[self := (time_of d, p)]> |>
      end).

(** The blocked process [self], when it is alive, and what it waits for. *)
Definition waiting_of σ (self : positive) : option (Q * proc Data IS Host unit) :=
  match actor_of σ self with Some _ => sy_blocked σ !! self | None => None end.

Lemma waiting_of_blocked σ self w : waiting_of σ self = Some w -> sy_blocked σ !! self = Some w.
Proof. unfold waiting_of. by destruct (actor_of σ self). Qed.

(** ** Labels *)

Inductive label :=
| StartActor (self : positive)
| ServerStarts
| ServerReceives
| ServerGoesOn
| ServerEnds
| WakesUp (self : positive)
| ComputationEnds (self : positive)
| PtaskEnds (self : positive) (outcome : ptask_outcome)
| ReceivesMessage (self : positive)
| ReceivesRank (getter putter : positive)
| MessageIsTaken (self : positive)
| GetTimesOut (self : positive)
| TimePasses (e : Engine).

Definition start_actor (self : positive) σ : option (result system) :=
  match actor_of σ self with
  | Some a =>
      if bool_decide (self ∈ sy_started σ) then None
      else m ← body self a; Some (settle self (m (sy_data σ)) (σ <| sy_started ::= fun s => {[self]} ∪ s |>))
  | None => None
  end.

Definition server_is_alive σ : bool := List.existsb (fun a => match a.2 with server_actor => true | _ => false end) (c_actors (sy_context σ)).

Definition server_starts σ : option (result system) :=
  if server_is_alive σ && negb (sy_server_started σ) then
    Some (d ← server_start (sy_context σ); Ok (σ <| sy_data := d |> <| sy_server_started := true |>))
  else None.

Definition server_runs σ : bool := server_is_alive σ && sy_server_started σ.

Definition server_waits σ : bool :=
  server_runs σ && negb (end_of_simulation_ack_received (sy_data σ)) && bool_decide (sy_sending σ = None).

(** A message is received and handled, until the server waits for the next one, or for
    a message that it sends back to be received. *)
Definition receives (m : Msg) (mailbox_empty : bool) σ : result system :=
  back ← sends_back (x_englobing_zone x) (sy_data σ) m;
  match back with
  | Some (mbox, d, p) =>
      Ok (receive "server" σ <| sy_data := d |> <| sy_sending := Some (mbox, nb_sent mbox (sd_context d), p) |>)
  | None =>
      d ← server_iteration (x_englobing_zone x) (x_stack x) (sy_data σ) (m, mailbox_empty);
      Ok (receive "server" σ <| sy_data := d |>)
  end.

Definition server_receives σ : option (result system) :=
  if server_waits σ then
    match unread σ "server" with
    | m :: rest => Some (receives m (bool_decide (rest = [])) σ)
    | [] => None
    end
  else None.

(** The message that the server has sent back is received. *)
Definition server_goes_on σ : option (result system) :=
  if server_runs σ then
    match sy_sending σ with
    | Some (mbox, n, p) =>
        if (n <=? nb_read σ mbox)%nat then
          Some (d ← goes_on (x_englobing_zone x) (x_stack x) (sy_data σ) p (bool_decide (unread σ "server" = []));
                Ok (σ <| sy_data := d |> <| sy_sending := None |>))
        else None
    | None => None
    end
  else None.

(** The checks after the loop; then the process ends. *)
Definition is_server (a : positive * Act) : bool := match a.2 with server_actor => true | _ => false end.
Definition server_ends σ : option (result system) :=
  if server_runs σ && end_of_simulation_ack_received (sy_data σ) && bool_decide (sy_sending σ = None) then
    Some (server_end (sy_data σ);;
          Ok (σ <| sy_data ::= fun d => d <| sd_context ::=
                remove_actors (list_to_set (List.filter is_server (c_actors (sy_context σ))).*1) |> |>))
  else None.

(** A blocking call that was requested at [since], and the answer to it. *)
Definition wakes_up σ (self : positive) : option (result system) :=
  match waiting_of σ self with
  | Some (since, Waiting (sleep_for t) resume) =>
      if (since + t <=?q clock σ)%Q then Some (settle self (resume tt (sy_data σ)) σ) else None
  | _ => None
  end.

Definition computation_ends σ (self : positive) : option (result system) :=
  match waiting_of σ self with
  | Some (_, Waiting (execute _) resume) => Some (settle self (resume tt (sy_data σ)) σ)
  | _ => None
  end.

(** A timeout happens at its date. *)
Definition ptask_may_end (since now : Q) (timeout : option Q) (outcome : ptask_outcome) : bool :=
  match outcome, timeout with
  | PtaskTimeout, Some t => (since + t <=?q now)%Q
  | PtaskTimeout, None => false
  | _, _ => true
  end.

Definition ptask_ends σ (self : positive) (outcome : ptask_outcome) : option (result system) :=
  match waiting_of σ self with
  | Some (since, Waiting (wait_ptask _ _ _ timeout) resume) =>
      if ptask_may_end since (clock σ) timeout outcome then Some (settle self (resume outcome (sy_data σ)) σ) else None
  | _ => None
  end.

Definition receives_message σ (self : positive) : option (result system) :=
  match waiting_of σ self with
  | Some (_, Waiting (await_message mbox) resume) =>
      match unread σ mbox with
      | m :: _ => Some (settle self (resume (msg_data m) (sy_data σ)) (receive mbox σ))
      | [] => None
      end
  | _ => None
  end.

(** A message of this process has been received: [mailbox->put] returns. *)
Definition message_is_taken σ (self : positive) : option (result system) :=
  match waiting_of σ self with
  | Some (_, Waiting (put_message mbox n) resume) =>
      if (n <=? nb_read σ mbox)%nat then Some (settle self (resume tt (sy_data σ)) σ) else None
  | _ => None
  end.

(** The rank goes from the process that puts it to the one that gets it. *)
Definition rank_is_put σ (putter : positive) : option (result system) :=
  match waiting_of σ putter with
  | Some (_, Waiting (mailbox_put _ _) resume) => Some (settle putter (resume tt (sy_data σ)) σ)
  | _ => None
  end.

Definition receives_rank σ (getter putter : positive) : option (result system) :=
  match waiting_of σ getter, waiting_of σ putter with
  | Some (_, Waiting (mailbox_get mbox _) resume), Some (_, Waiting (mailbox_put mbox' rank) _) =>
      if String.eqb mbox mbox' then
        match settle getter (resume (Some rank) (sy_data σ)) σ with
        | Ok σ => rank_is_put σ putter
        | Err e => Some (Err e)
        end
      else None
  | _, _ => None
  end.

Definition get_times_out σ (self : positive) : option (result system) :=
  match waiting_of σ self with
  | Some (since, Waiting (mailbox_get _ (Some t)) resume) =>
      if (since + t <=?q clock σ)%Q then Some (settle self (resume None (sy_data σ)) σ) else None
  | _ => None
  end.

(** The date that a blocked process waits for. *)
Definition deadline (w : Q * proc Data IS Host unit) : option Q :=
  match w with
  | (since, Waiting (sleep_for t) _) => Some (since + t)%Q
  | (since, Waiting (wait_ptask _ _ _ (Some t)) _) => Some (since + t)%Q
  | (since, Waiting (mailbox_get _ (Some t)) _) => Some (since + t)%Q
  | _ => None
  end.

(** Time does not go back, nor beyond what a live process waits for. *)
Definition respects_deadline σ (now : Q) (w : positive * (Q * proc Data IS Host unit)) : bool :=
  match actor_of σ w.1, deadline w.2 with
  | Some _, Some date => (now <=?q date)%Q || (now =?q clock σ)%Q
  | _, _ => true
  end.

Definition same_pstates σ (e : Engine) : bool :=
  forallb (fun m => get_pstate e (m_host m) =? get_pstate (c_engine (sy_context σ)) (m_host m))
    (ms_machines (c_machines (sy_context σ))).

Definition time_passes σ (e : Engine) : option (result system) :=
  if (clock σ <=?q get_clock e)%Q && forallb (respects_deadline σ (get_clock e)) (map_to_list (sy_blocked σ)) && same_pstates σ e
  then Some (Ok (σ <| sy_data ::= fun d => d <| sd_context ::= fun c => c <| c_engine := e |> |> |>))
  else None.

(** [None]: the label is not possible in this state.  [Some (Err e)]: the program stops
    with this error. *)
Definition exec (l : label) σ : option (result system) :=
  match l with
  | StartActor self => start_actor self σ
  | ServerStarts => server_starts σ
  | ServerReceives => server_receives σ
  | ServerGoesOn => server_goes_on σ
  | ServerEnds => server_ends σ
  | WakesUp self => wakes_up σ self
  | ComputationEnds self => computation_ends σ self
  | PtaskEnds self outcome => ptask_ends σ self outcome
  | ReceivesMessage self => receives_message σ self
  | ReceivesRank getter putter => receives_rank σ getter putter
  | MessageIsTaken self => message_is_taken σ self
  | GetTimesOut self => get_times_out σ self
  | TimePasses e => time_passes σ e
  end.

(** ** Runs *)

Inductive step σ : system -> Prop :=
| step_exec l σ' : exec l σ = Some (Ok σ') -> step σ σ'.

(** The engine starts with the processes that [main] has created. *)
Definition start_of (c : Ctx) : system := mk_system (initial_data c) false ∅ ∅ ∅ None.

Definition reachable (c : Ctx) σ : Prop := rtc step (start_of c) σ.

Fixpoint exec_all (ls : list label) σ : option (result system) :=
  match ls with
  | [] => Some (Ok σ)
  | l :: ls =>
      match exec l σ with
      | Some (Ok σ) => exec_all ls σ
      | r => r
      end
  end.

Lemma exec_all_reachable ls σ σ' : exec_all ls σ = Some (Ok σ') -> rtc step σ σ'.
Proof.
  revert σ; induction ls as [|l ls IH]; intros σ; cbn [exec_all]; [by intros [= ->]|].
  destruct (exec l σ) as [[σ1|e]|] eqn:E; [|done|done]. intros Hr. eapply rtc_l; [by econstructor|]. by apply IH.
Qed.
End System.
Arguments externals : clear implicits.
Arguments system : clear implicits.
Arguments label : clear implicits.
