(* ===== verification/ServerSteps.v ===== *)
(** * What the server does to the shared context (theorems on src/server.cpp)

    Whatever the message, an iteration of the server's loop is a quiet step of the
    context, but for the states of jobs; its new processes are those that its
    handlers start, with what they are started for.  Unless a submitter asks for it,
    nobody is told about the completions of jobs. *)

From S2P Require Import Prelude Interfaces Profiles Jobs NumericStrcmp Outputs Machines Workload Tracers Ipp PState Writer NumberParsing Workflow Context ContextFacts ContextSteps Server.

(** The processes that anybody may start at any time. *)
Definition harmless {IS Host V} (a : Actor IS Host V) : Prop :=
  match a with
  | server_actor | static_job_submitter_actor _ | batexec_job_launcher_actor _ | workflow_submitter_actor _
  | static_event_submitter_actor _ | execute_job_process _ _ _ => False
  | killer_process _ s _ => s = JOB_STATE_COMPLETED_KILLED
  | _ => True
  end.

Section ServerSteps.
Context {IS Engine Host V : Type} `{IntervalSet IS} `{SimGrid Engine Host} `{RapidJson V}.
Context (englobing_zone : Host -> option string).
#[local] Abbreviation Ctx := (BatsimContext IS Engine Host V).
#[local] Abbreviation Data := (ServerData IS Engine Host V).
#[local] Abbreviation Msg := (IPMessage IS Host).
#[local] Abbreviation Act := (Actor IS Host V).
Implicit Types (c : Ctx) (data : Data) (m : Msg).

(** No submitter is to be told about the completion of its jobs. *)
Definition nobody_called data : Prop :=
  origin_of_jobs data = ∅ /\ forall ptr s, submitter_heap data !! ptr = Some s -> should_be_called_back s = false.

Definition server_quiet (ok : Act -> Prop) data data' : Prop :=
  quiet ok (sd_context data) (sd_context data') /\ (nobody_called data -> nobody_called data').

#[export] Instance server_quiet_preorder ok : PreOrder (server_quiet ok).
Proof. split; [by intros d|]. intros d1 d2 d3 [Q1 N1] [Q2 N2]. split; [by etransitivity|auto]. Qed.

#[local] Abbreviation sq := (server_quiet harmless).

Lemma core_server data data' :
  same_core (sd_context data) (sd_context data') -> submitter_heap data' = submitter_heap data ->
  origin_of_jobs data' = origin_of_jobs data -> sq data data'.
Proof. intros Hc Hh Ho. split; [by apply core_quiet|]. unfold nobody_called. by rewrite Hh, Ho. Qed.

Lemma same_context_quiet data data' :
  sd_context data' = sd_context data -> submitter_heap data' = submitter_heap data ->
  origin_of_jobs data' = origin_of_jobs data -> sq data data'.
Proof. intros E. apply core_server. by rewrite E. Qed.

Lemma on_context_quiet f data data' :
  (forall c c', f c = Ok c' -> same_core c c') -> on_context f data = Ok data' -> sq data data'.
Proof. intros Hf (c & Hc & [= <-])%bind_Ok. apply core_server; [by apply Hf|done|done]. Qed.

Lemma write_quiet f data data' : write f data = Ok data' -> sq data data'.
Proof. apply on_context_quiet. intros c c'. apply with_writer_core. Qed.

Lemma trace_quiet jp data data' : on_context (trace_job jp) data = Ok data' -> sq data data'.
Proof. apply on_context_quiet. intros c c'. apply trace_job_core. Qed.

Lemma on_job_quiet jp f data : (forall j, job_ident (f j) = job_ident j) -> sq data (data <| sd_context ::= with_job jp f |>).
Proof. intros Hf. split; [by apply with_job_quiet|done]. Qed.

Lemma foldM_quiet {A} (f : Data -> A -> result Data) l data data' :
  (forall d a d', f d a = Ok d' -> sq d d') -> foldM f data l = Ok data' -> sq data data'.
Proof.
  intros Hf. apply (foldM_inv (fun d => sq data d)); [done|]. intros d a d' _ Hd Ha. rewrite Hd. by eapply Hf.
Qed.

Lemma send_quiet mbox type x data :
  benign (mk_IPMessage type x) = true -> sq data (data <| sd_context ::= send_message mbox type x |>).
Proof. intros Hb. split; [apply (send_calm harmless), Hb|done]. Qed.

Lemma create_quiet a data : harmless a -> sq data (data <| sd_context ::= fun c => (create_actor a c).2 |>).
Proof. intros Ha. split; [apply (create_actor_calm harmless a), Ha|done]. Qed.

Lemma job_starts_quiet data data' : job_starts data = Ok data' -> sq data data'.
Proof. unfold job_starts. intros (u & _ & [= <-])%bind_Ok. by apply same_context_quiet. Qed.

Lemma job_stops_quiet data data' : job_stops data = Ok data' -> sq data data'.
Proof. unfold job_stops. intros (u & _ & (u' & _ & [= <-])%bind_Ok)%bind_Ok. by apply same_context_quiet. Qed.

Lemma announce_completion_quiet jp data data' : announce_completion jp data = Ok data' -> sq data data'.
Proof.
  unfold announce_completion.
  intros (j & _ & (d & Hd%write_quiet & (d' & Hd'%trace_quiet & [= <-])%bind_Ok)%bind_Ok)%bind_Ok.
  rewrite Hd, Hd'. by apply same_context_quiet.
Qed.

(** A submitter that asks to be told. *)
Definition asks_back m : bool :=
  match msg_data m with SubmitterHelloMessage _ enable_callback _ => enable_callback | _ => false end.

Lemma hello_quiet data m data' :
  server_on_submitter_hello data m = Ok data' ->
  quiet harmless (sd_context data) (sd_context data') /\ (asks_back m = false -> nobody_called data -> nobody_called data').
Proof.
  unfold server_on_submitter_hello, asks_back. destruct (msg_data m); try done.
  intros (u & _ & (u' & _ & [= <-])%bind_Ok)%bind_Ok. split.
  - apply core_quiet. by destruct submitter_type.
  - intros -> [Ho Hs]. split; [by destruct submitter_type|]. intros ptr s.
    assert (forall h h', h = submitter_heap data -> h' = <[next_submitter data := mk_Submitter submitter_name false]> h ->
      h' !! ptr = Some s -> should_be_called_back s = false) as Hnew.
    { intros h h' -> -> [[_ <-]|[_ Hold]]%lookup_insert_Some; [done|by eapply Hs]. }
    destruct submitter_type; by eapply Hnew.
Qed.

Lemma bye_quiet data m data' : server_on_submitter_bye data m = Ok data' -> sq data data'.
Proof.
  unfold server_on_submitter_bye. destruct (msg_data m); try done. destruct (submitters data !! submitter_name); [|done].
  set (d := update_counters _ _ _). assert (sq data d) as Hd.
  { split; [apply core_quiet; by destruct submitter_type|]. intros [Ho Hs]. split; [by destruct submitter_type|].
    intros ptr s. assert (forall k, delete k (submitter_heap data) !! ptr = Some s -> should_be_called_back s = false) as Hold.
    { intros k [_ Hold]%lookup_delete_Some. by eapply Hs. }
    destruct submitter_type; by eapply Hold. }
  clearbody d. destruct submitter_type.
  - intros (d1 & Hd1 & [= <-])%bind_Ok. assert (sq d d1) as Hd2.
    { destruct (all_submitters_finished _); [by eapply write_quiet|by injection Hd1 as <-]. }
    rewrite Hd, Hd2. destruct is_workflow_submitter; [|done]. by apply same_context_quiet.
  - destruct (all_submitters_finished _); [intros Hw%write_quiet|intros [= <-]]; by rewrite Hd.
Qed.

Lemma call_submitter_back_quiet i data data' : call_submitter_back i data = Ok data' -> sq data data'.
Proof.
  unfold call_submitter_back. destruct (origin_of_jobs data !! _); [|by intros [= <-]].
  intros (x & _ & [= <-])%bind_Ok.
  destruct (send_quiet (mailbox x) SUBMITTER_CALLBACK (SubmitterJobCompletionCallbackMessage i) data eq_refl) as [Hq _].
  split; [exact Hq|]. intros [Ho Hs]. split; [|exact Hs]. cbn. by rewrite Ho, delete_empty.
Qed.

Lemma job_completed_quiet data m data' : server_on_job_completed data m = Ok data' -> sq data data'.
Proof.
  unfold server_on_job_completed. destruct (msg_data m); try done.
  intros (j & _ & (d & Hd%call_submitter_back_quiet & (d' & Hd'%job_stops_quiet & Hr%announce_completion_quiet)%bind_Ok)%bind_Ok)%bind_Ok.
  by rewrite Hd, Hd'.
Qed.

Lemma announce_submission_quiet jp data data' : announce_submission jp data = Ok data' -> sq data data'.
Proof.
  unfold announce_submission. intros (j & _ & ([a b] & _ & Hw%write_quiet)%bind_Ok)%bind_Ok. done.
Qed.

Lemma submit_one_quiet ptr called_back data jp data' :
  submit_one_job ptr called_back data jp = Ok data' ->
  quiet harmless (sd_context data) (sd_context data') /\ (called_back = false -> nobody_called data -> nobody_called data').
Proof.
  unfold submit_one_job. intros (j & _ & (d & Hd & Hr)%bind_Ok)%bind_Ok. apply announce_submission_quiet in Hr as [Hq Hn].
  assert (quiet harmless (sd_context data) (sd_context d) /\ (called_back = false -> d = data)) as [Hs Hsame].
  { destruct called_back; [|by injection Hd as <-]. apply bind_Ok in Hd as (u & _ & [= <-]). by split; [apply core_quiet|]. }
  split; [etransitivity; [exact Hs|]; etransitivity; [|exact Hq]; by apply (with_job_quiet harmless jp)|].
  intros ->. rewrite (Hsame eq_refl) in *. exact Hn.
Qed.

Lemma job_submitted_quiet data m data' : server_on_job_submitted data m = Ok data' -> sq data data'.
Proof.
  unfold server_on_job_submitted. destruct (ignores_submissions data); [by intros [= <-]|].
  destruct (msg_data m); try done. destruct (submitters data !! submitter_name); [|done].
  intros (s & Hs%of_option_Ok & Hr)%bind_Ok. split.
  - revert Hr. apply (foldM_inv (fun d => quiet harmless (sd_context data) (sd_context d))); [done|].
    intros d a d' _ Hd [Ha _]%submit_one_quiet. by etransitivity.
  - intros Hno. rewrite (proj2 Hno _ _ Hs) in Hr. revert Hr. apply (foldM_inv nobody_called); [done|].
    intros d a d' _ Hd [_ Ha]%submit_one_quiet. by apply Ha.
Qed.

Lemma register_job_quiet data m data' : server_on_register_job data m = Ok data' -> sq data data'.
Proof.
  unfold server_on_register_job. destruct (msg_data m); try done. destruct (registration_sched_ack _).
  - intros Hr%announce_submission_quiet. rewrite <- Hr. by apply same_context_quiet.
  - intros [= <-]. by apply same_context_quiet.
Qed.

Lemma server_register_profile_quiet data m data' : server_on_register_profile data m = Ok data' -> sq data data'.
Proof. unfold server_on_register_profile. destruct (msg_data m); try done. by intros [= <-]. Qed.

Lemma set_metadata_quiet data m data' : server_on_set_job_metadata data m = Ok data' -> sq data data'.
Proof.
  unfold server_on_set_job_metadata. destruct (msg_data m); try done.
  intros (jp & _ & [= <-])%bind_Ok. by apply on_job_quiet.
Qed.

Lemma to_job_quiet data m data' : server_on_to_job_msg data m = Ok data' -> sq data data'.
Proof.
  unfold server_on_to_job_msg. destruct (msg_data m); try done.
  intros (jp & _ & [= <-])%bind_Ok. by apply on_job_quiet.
Qed.

Lemma from_job_quiet data m data' : server_on_from_job_msg data m = Ok data' -> sq data data'.
Proof.
  unfold server_on_from_job_msg. destruct (msg_data m); try done. by intros (jp & _ & Hr%write_quiet)%bind_Ok.
Qed.

Lemma change_state_quiet data m data' : server_on_change_job_state data m = Ok data' -> sq data data'.
Proof.
  unfold server_on_change_job_state. destruct (msg_data m); try done.
  intros (jp & _ & (j & _ & (s & _ & (d & Hd & [= <-])%bind_Ok)%bind_Ok)%bind_Ok)%bind_Ok.
  transitivity d; [|by apply on_job_quiet]. unfold change_state_effects in Hd. destruct (state j); try done.
  - destruct s; try done.
    + apply job_starts_quiet in Hd. rewrite <- Hd. by apply on_job_quiet.
    + apply bind_Ok in Hd as (u & _ & (d1 & Hd1%trace_quiet & [= <-])%bind_Ok).
      transitivity d1; [rewrite <- Hd1|]; by apply same_context_quiet.
  - assert (forall r, (d ← job_stops (data <| sd_context ::=
                     with_job jp (fun j => j <| runtime := (time_of data - starting_time j)%Q |>) |>);
                   d ← on_context (trace_job jp) d;
                   Ok (d <| jobs_to_be_deleted ::= fun l => l ++ [job_id] |>)) = Ok r -> sq data r) as Hend.
    { intros r (d1 & Hd1%job_stops_quiet & (d2 & Hd2%trace_quiet & [= <-])%bind_Ok)%bind_Ok.
      transitivity d2; [|by apply same_context_quiet]. rewrite <- Hd2, <- Hd1. by apply on_job_quiet. }
    destruct s; try done; by apply Hend.
Qed.

Lemma reject_quiet data m data' : server_on_reject_job data m = Ok data' -> sq data data'.
Proof.
  unfold server_on_reject_job. destruct (msg_data m); try done.
  intros (jp & _ & (j & _ & (u & _ & (d & Hd%trace_quiet & [= <-])%bind_Ok)%bind_Ok)%bind_Ok)%bind_Ok.
  transitivity d; [|by apply same_context_quiet]. rewrite <- Hd. by apply (on_job_quiet jp).
Qed.

Lemma mark_kill_quiet acc job_id acc' : mark_kill acc job_id = Ok acc' -> sq acc.2 acc'.2.
Proof.
  destruct acc as [ids data]. unfold mark_kill.
  intros (b & _ & (u & _ & (jp & _ & (j & _ & Hr)%bind_Ok)%bind_Ok)%bind_Ok)%bind_Ok.
  destruct (kill_requested j); [by injection Hr as <-|]. apply bind_Ok in Hr as (u' & _ & [= <-]). by apply on_job_quiet.
Qed.

Lemma kill_quiet data m data' : server_on_kill_jobs data m = Ok data' -> sq data data'.
Proof.
  unfold server_on_kill_jobs. destruct (msg_data m); try done. intros ([ids d] & Hf & [= <-])%bind_Ok.
  assert (sq data d) as Hd.
  { change d with (ids, d).2. revert Hf. apply (foldM_inv (fun acc => sq data acc.2)); [done|].
    intros acc a acc' _ Hacc Ha. rewrite Hacc. by eapply mark_kill_quiet. }
  rewrite Hd. destruct (0 <? _); [|done]. unfold create_killer.
  exact (create_quiet (killer_process ids JOB_STATE_COMPLETED_KILLED true) d eq_refl).
Qed.

Lemma call_me_later_quiet data m data' : server_on_call_me_later data m = Ok data' -> sq data data'.
Proof.
  unfold server_on_call_me_later. destruct (msg_data m); try done.
  intros (u & _ & (ma & _ & [= <-])%bind_Ok)%bind_Ok. exact (create_quiet (waiter_process target_time) data I).
Qed.

(** *** External events and power states *)

Lemma foldM_core {A} (f : Ctx -> A -> result Ctx) l c c' :
  (forall c a c', f c a = Ok c' -> same_core c c') -> foldM f c l = Ok c' -> same_core c c'.
Proof.
  intros Hf. apply (foldM_inv (fun c' => same_core c c')); [done|].
  intros x a y _ Hx Ha. rewrite Hx. by eapply Hf.
Qed.

Lemma on_event_quiet data e data' : on_event data e = Ok data' -> sq data data'.
Proof.
  assert (forall f t (ms : IS), (forall c i c', f c i = Ok c' -> same_core c c') ->
    (if 0 <? is_size ms
     then d ← on_context (fun c => foldM f c (elements_of ms)) data; write (append_notify_resource_event t ms) d
     else Ok data) = Ok data' -> sq data data') as Havail.
  { intros f t ms Hf Hr. destruct (0 <? is_size ms); [|by injection Hr as <-].
    apply bind_Ok in Hr as (d & Hd & Hw%write_quiet). rewrite <- Hw.
    eapply on_context_quiet; [|exact Hd]. intros c c'. by apply foldM_core. }
  unfold on_event, server_on_event_machine_available, server_on_event_machine_unavailable, server_on_event_generic.
  destruct (ev_type e).
  - intros (ms & _ & Hr)%bind_Ok. eapply Havail; [|exact Hr].
    intros c i c' (mm & Hm & (u & _ & Hs)%bind_Ok)%bind_Ok. eapply set_machine_state_core; [|exact Hs].
    intros m' Hm'. rewrite Hm in Hm'. injection Hm' as <-. by case_bool_decide.
  - intros (ms & _ & Hr)%bind_Ok. eapply Havail; [|exact Hr].
    intros c i c' (mm & _ & (u & _ & Hs)%bind_Ok)%bind_Ok. by eapply set_other_state_core; [|exact Hs].
  - destruct (ev_data e); [done|]. apply write_quiet.
Qed.

Lemma event_quiet data m data' : server_on_event_occurred data m = Ok data' -> sq data data'.
Proof.
  unfold server_on_event_occurred. destruct (msg_data m); try done.
  apply foldM_quiet. exact on_event_quiet.
Qed.

Lemma pstate_type_quiet i p data t data' : pstate_type_of i p data = Ok (t, data') -> sq data data'.
Proof.
  unfold pstate_type_of. intros ([t' c] & Hc%machine_pstate_type_core & [= <- <-])%bind_Ok. by apply core_server.
Qed.

Lemma marked_quiet i p data r c :
  mark_switch_as_done englobing_zone i p (sd_context data) = Ok (r, c) -> sq data (data <| sd_context := c |>).
Proof. intros Hc%mark_switch_as_done_core. by apply core_server. Qed.

Lemma acknowledge_quiet (r : option IS) (f : IS -> Data -> result Data) data data' :
  (forall ms d d', f ms d = Ok d' -> sq d d') ->
  match r with Some ms => f ms data | None => Ok data end = Ok data' -> sq data data'.
Proof. intros Hf. destruct r; [apply Hf|by intros [= <-]]. Qed.

Lemma change_pstate_quiet i p data data' : change_pstate_now englobing_zone i p data = Ok data' -> sq data data'.
Proof.
  unfold change_pstate_now. intros (m & _ & (u & _ & ([r c] & Hc & Hr)%bind_Ok)%bind_Ok)%bind_Ok.
  apply marked_quiet in Hc.
  apply (acknowledge_quiet r (fun ms => write (append_resource_state_changed ms (fmt_d p)))) in Hr;
    [|intros; by eapply write_quiet].
  rewrite <- Hr, <- Hc. by apply core_server.
Qed.

Lemma start_switch_quiet i s p data data' : s ≠ COMPUTING -> harmless p -> start_switch i s p data = Ok data' -> sq data data'.
Proof.
  intros Hs Hp. unfold start_switch. intros (d & Hd & [= <-])%bind_Ok.
  apply on_context_quiet in Hd; [|intros; by eapply set_other_state_core]. rewrite Hd. exact (create_quiet p d Hp).
Qed.

Lemma modify_machine_quiet p data i data' :
  modify_machine_pstate englobing_zone p data i = Ok data' -> sq data data'.
Proof.
  unfold modify_machine_pstate. intros (m & _ & ([t d] & Hd%pstate_type_quiet & Hr)%bind_Ok)%bind_Ok. rewrite Hd.
  destruct t; [| |by injection Hr as <-];
    apply bind_Ok in Hr as ([t d2] & Hd2%pstate_type_quiet & Hr); rewrite Hd2.
  - destruct t; [by eapply change_pstate_quiet|by eapply start_switch_quiet; [..|exact Hr]|by injection Hr as <-].
  - apply bind_Ok in Hr as (u & _ & Hr). by eapply start_switch_quiet; [..|exact Hr].
Qed.

Lemma trace_states_quiet data data' : trace_states_of_machines data = Ok data' -> sq data data'.
Proof.
  unfold trace_states_of_machines. destruct (trace_machine_states _); [|by intros [= <-]].
  apply on_context_quiet. intros. eauto with quiet.
Qed.

Lemma pstate_modification_quiet data m data' :
  server_on_pstate_modification englobing_zone data m = Ok data' -> sq data data'.
Proof.
  unfold server_on_pstate_modification. intros (u & _ & Hr)%bind_Ok. destruct (msg_data m); try done.
  apply bind_Ok in Hr as (d1 & H1' & Hr). apply on_context_quiet in H1'; [|eauto with quiet].
  apply bind_Ok in Hr as (d2 & H2' & Hr).
  assert (sq d1 d2) as H2.
  { destruct (environmental_footprint_used _); [|by injection H2' as <-].
    eapply on_context_quiet; [|exact H2']. eauto with quiet. }
  apply bind_Ok in Hr as (first & _ & ([t d3] & H3%pstate_type_quiet & (d4 & H4' & Hr)%bind_Ok)%bind_Ok).
  apply on_context_quiet in H4'; [|eauto with quiet].
  apply bind_Ok in Hr as (d5 & H5' & Hr%trace_states_quiet).
  apply foldM_quiet in H5'; [|intros; by eapply modify_machine_quiet].
  rewrite <- Hr, <- H5'. etransitivity; [|etransitivity; [exact H4'|by apply core_server]].
  rewrite <- H3, <- H2, <- H1'. by apply core_server.
Qed.

Lemma switched_quiet data m data' : server_on_switched englobing_zone data m = Ok data' -> sq data data'.
Proof.
  unfold server_on_switched. destruct (msg_data m); try done.
  intros (u & _ & (mm & _ & (u' & _ & ([r c] & Hc%marked_quiet & (d & Hd & [= <-])%bind_Ok)%bind_Ok)%bind_Ok)%bind_Ok)%bind_Ok.
  apply (acknowledge_quiet r (fun ms data =>
    d ← trace_states_of_machines data; write (append_resource_state_changed ms (fmt_d new_pstate)) d)) in Hd.
  - rewrite Hc, Hd. by apply same_context_quiet.
  - intros ms d1 d2 (d3 & H3%trace_states_quiet & H4%write_quiet)%bind_Ok. by rewrite H3.
Qed.

(** *** The scheduler *)

Lemma waiting_done_quiet data m data' : server_on_waiting_done data m = Ok data' -> sq data data'.
Proof.
  unfold server_on_waiting_done. intros (d & Hd%write_quiet & [= <-])%bind_Ok. rewrite Hd. by apply same_context_quiet.
Qed.

Lemma sched_ready_quiet data m data' : server_on_sched_ready data m = Ok data' -> sq data data'.
Proof.
  unfold server_on_sched_ready. intros [= <-]. by destruct (end_of_simulation_sent _); apply same_context_quiet.
Qed.

Lemma wait_answer_quiet data m data' : server_on_sched_wait_answer data m = Ok data' -> sq data data'.
Proof.
  unfold server_on_sched_wait_answer. destruct (msg_data m); try done. intros [= <-]. by apply (send_quiet _ _ _ data).
Qed.

Lemma tell_me_quiet data m data' :
  server_on_sched_tell_me_energy data m = Ok data' \/ server_on_sched_tell_me_carbon_footprint data m = Ok data' \/
  server_on_sched_tell_me_water_footprint data m = Ok data' -> sq data data'.
Proof. by intros [(u & _ & Hw%write_quiet)%bind_Ok|[(u & _ & Hw%write_quiet)%bind_Ok|(u & _ & Hw%write_quiet)%bind_Ok]]. Qed.

Lemma wait_query_quiet data m data' : server_on_wait_query data m = Ok data' -> sq data data'.
Proof. done. Qed.

Lemma killing_done_quiet data m data' : server_on_killing_done data m = Ok data' -> sq data data'.
Proof.
  unfold server_on_killing_done. destruct (msg_data m); try done.
  intros ([progress d] & Hf & (d' & Hd' & [= <-])%bind_Ok)%bind_Ok.
  assert (sq data d) as Hd.
  { change d with (progress, d).2. revert Hf. apply (foldM_inv (fun acc => sq data acc.2)); [done|].
    intros [p1 d1] i [p2 d2] _ Hd1. cbn in *. unfold killing_done_job.
    intros (jp & _ & (j & _ & Hr)%bind_Ok)%bind_Ok. rewrite Hd1.
    destruct (bool_decide _); [|by injection Hr as _ <-].
    by apply bind_Ok in Hr as (d3 & ->%job_stops_quiet & (d4 & ->%announce_completion_quiet & [= _ <-])%bind_Ok). }
  rewrite Hd. assert (sq d d') as ->.
  { destruct acknowledge_kill_on_protocol; [by eapply write_quiet|by injection Hd' as <-]. }
  by apply same_context_quiet.
Qed.

Lemma dynamic_register_quiet data m data' :
  server_on_end_dynamic_register data m = Ok data' \/ server_on_continue_dynamic_register data m = Ok data' -> sq data data'.
Proof. by intros [[= <-]|[= <-]]; apply core_server. Qed.

(** *** What follows a message *)

Lemma generate_and_send_quiet data data' : generate_and_send_message data = Ok data' -> sq data data'.
Proof.
  unfold generate_and_send_message. intros ([v w] & _ & [= <-])%bind_Ok.
  etransitivity; [|exact (create_quiet (request_reply_scheduler_process v)
    (data <| sd_context := sd_context data <| c_proto_writer := clear_writer w |> |>) I)].
  by apply core_server.
Qed.

Lemma delete_jobs_shrink fuel st gc ids ws ws' wn w' :
  delete_jobs (IS := IS) fuel st ids gc ws = Ok ws' -> ws' !! wn = Some w' ->
  exists w, ws !! wn = Some w /\ jobs_map (wl_jobs w') ⊆ jobs_map (wl_jobs w).
Proof.
  intros Hr. revert wn w'. revert Hr. unfold delete_jobs.
  apply (foldM_inv (fun ws' => forall wn w', ws' !! wn = Some w' ->
    exists w, ws !! wn = Some w /\ jobs_map (wl_jobs w') ⊆ jobs_map (wl_jobs w))); [by eauto|].
  intros ws1 i ws2 _ Hws1 (w & w1 & Hw & -> & _ & Hj)%delete_one_job_Ok wn w'.
  destruct (decide (wn = ji_workload_name i)) as [->|Hne].
  - rewrite lookup_insert_eq. intros [= <-]. destruct (Hws1 _ _ Hw) as (w0 & Hw0 & Hsub). exists w0.
    split; [done|]. rewrite Hj. cbn. etransitivity; [apply delete_subseteq|done].
  - rewrite lookup_insert_ne by done. apply Hws1.
Qed.

Lemma delete_completed_quiet n data data' : delete_completed_jobs n data = Ok data' -> sq data data'.
Proof.
  unfold delete_completed_jobs. destruct (jobs_to_be_deleted data) as [|i ids]; [by intros [= <-]|].
  intros (ws & Hws & [= <-])%bind_Ok. split; [|done]. cbn.
  split; cbn; try done; [|exists []; by rewrite app_nil_r|by left].
  intros wn w'. by eapply delete_jobs_shrink.
Qed.

Lemma talk_quiet n b data data' : talk_to_scheduler n b data = Ok data' -> sq data data'.
Proof.
  unfold talk_to_scheduler. destruct (_ && b); [|by intros [= <-]].
  destruct (negb _).
  - intros (d & Hd%generate_and_send_quiet & Hr%delete_completed_quiet)%bind_Ok. by rewrite Hd.
  - destruct (_ && _); [|by intros [= <-]].
    intros (d & Hd%write_quiet & (d' & Hd'%generate_and_send_quiet & [= <-])%bind_Ok)%bind_Ok.
    rewrite Hd, Hd'. by apply same_context_quiet.
Qed.

(** *** All the messages *)

(** The processes that a message may start: for an execution, that of the job, which
    is then running. *)
Definition started_by m (a : Act) : Prop :=
  harmless a \/ exists alloc io, msg_data m = ExecuteJobMessage alloc io /\ a = execute_job_process alloc true io.

Lemma execute_job_steps data m data' : server_on_execute_job data m = Ok data' -> server_quiet (started_by m) data data'.
Proof.
  unfold server_on_execute_job. destruct (msg_data m) eqn:Hm; try done.
  intros (j & _ & (u & _ & (d & Hd%job_starts_quiet & (u' & _ & (f & _ & (ma & _ & [= <-])%bind_Ok)%bind_Ok)%bind_Ok)%bind_Ok)%bind_Ok)%bind_Ok.
  destruct Hd as [Hd Hn]. apply (quiet_weaken _ (started_by m)) in Hd; [|by left].
  split; [|exact Hn]. etransitivity; [|etransitivity; [exact Hd|]].
  - by apply with_job_quiet.
  - cbn -[create_actor with_job]. etransitivity; [|by apply with_job_quiet].
    apply (create_actor_calm (started_by m)). right. by eexists _, _.
Qed.

(** What a message does to the context, and to the submitters to be told. *)
Definition message_quiet m data data' : Prop :=
  quiet (started_by m) (sd_context data) (sd_context data') /\ (asks_back m = false -> nobody_called data -> nobody_called data').

Lemma handle_message_quiet data m data' :
  handle_message englobing_zone data m = Ok data' -> message_quiet m data data'.
Proof.
  intros (h & Hh%of_option_Ok & Hr)%bind_Ok. assert (sq data data' -> message_quiet m data data') as Hw.
  { intros [Hq Hn]. split; [|auto]. revert Hq. apply quiet_weaken. by left. }
  destruct (msg_type m); cbn in Hh; try discriminate Hh; injection Hh as <-;
    solve [apply execute_job_steps in Hr as [Hq Hn]; by split; [|auto]
      |apply hello_quiet in Hr as [Hq Hn]; split; [|exact Hn]; revert Hq; apply quiet_weaken; by left
      |apply Hw; eauto using bye_quiet, job_completed_quiet, job_submitted_quiet, register_job_quiet,
        server_register_profile_quiet, set_metadata_quiet, to_job_quiet, from_job_quiet, change_state_quiet, reject_quiet,
        kill_quiet, call_me_later_quiet, event_quiet, pstate_modification_quiet, switched_quiet, waiting_done_quiet,
        sched_ready_quiet, wait_answer_quiet, tell_me_quiet, wait_query_quiet, killing_done_quiet, dynamic_register_quiet].
Qed.

Lemma server_iteration_quiet n data m b data' :
  server_iteration englobing_zone n data (m, b) = Ok data' -> message_quiet m data data'.
Proof.
  unfold server_iteration. intros (d & [Hd Hn]%handle_message_quiet & [Ht Hnt]%talk_quiet)%bind_Ok. cbn in Hd, Hn.
  split; [|auto]. etransitivity; [exact Hd|]. revert Ht. apply quiet_weaken. by left.
Qed.

Lemma sends_back_quiet data m mbox data' p :
  sends_back englobing_zone data m = Ok (Some (mbox, data', p)) -> sq data data'.
Proof.
  unfold sends_back. destruct (msg_type m) eqn:Ht; try done; destruct (msg_data m) eqn:Hd; try done.
  - intros (j & Hj & Hr)%bind_Ok. destruct (origin_of_jobs data !! _); [|done].
    by apply bind_Ok in Hr as (s & _ & (d & Hc%call_submitter_back_quiet & [= _ <- _])%bind_Ok).
  - intros (d & Hh & [= _ <- _])%bind_Ok. unfold handle_message in Hh. rewrite Ht in Hh. cbn in Hh. by eapply wait_answer_quiet.
Qed.

Lemma server_start_quiet c data : server_start c = Ok data -> quiet harmless c (sd_context data).
Proof.
  unfold server_start. intros (d & Hd%write_quiet & (d' & Hd'%generate_and_send_quiet & [= <-])%bind_Ok)%bind_Ok.
  change c with (sd_context (initial_data c)). etransitivity; [apply Hd|apply Hd'].
Qed.

Lemma server_start_nobody c data : server_start c = Ok data -> nobody_called data.
Proof.
  unfold server_start. intros (d & Hd%write_quiet & (d' & Hd'%generate_and_send_quiet & [= <-])%bind_Ok)%bind_Ok.
  apply Hd', Hd. split; [done|]. intros ptr s. cbn. by rewrite lookup_empty.
Qed.
End ServerSteps.
