(* ===== verification/SystemProtocol.v ===== *)
(** * What each process of the system guarantees

    The rules that make the processes work together: a job is announced by one
    submitter only, once, and before any decision about it; no process takes a
    decision back; messages have the data of their type; the descriptions of jobs and
    the options never change.  Each process but the server is shown to follow them,
    whatever the others do within them. *)

From S2P Require Import Prelude Interfaces Profiles Jobs Storage NumericStrcmp Outputs Machines Workload Tracers Ipp PState Writer NumberParsing Workflow Context ContextFacts ContextSteps Server Actors Guarantee TaskExecution SwitchProcesses EnvTrace JobsExecution Replay Submitters Reader ServerSteps.
#[local] Open Scope process_scope.

(** ** Ghost states *)

(** What a process holds: the jobs that it alone may announce, the jobs of which it
    knows that they have been started, the name under which it announces jobs, the
    static workload whose jobs it holds, until it announces some. *)
Record ghost := mk_ghost {
  g_tokens : gset positive;
  g_started : gset positive;
  g_name : option string;
  g_static : option string;
}.
(** What is fixed in a simulation: the static workloads, whose jobs are known from the
    start, and whether some submitters are told about the completions of their jobs. *)
Record rules := mk_rules { static_workloads : gset string; callbacks : bool }.

Definition no_ghost : ghost := mk_ghost ∅ ∅ None None.

Section Protocol.
Context {IS Engine Host V : Type} `{IntervalSet IS} `{SimGrid Engine Host} `{RapidJson V}.
#[local] Abbreviation Ctx := (BatsimContext IS Engine Host V).
#[local] Abbreviation Data := (ServerData IS Engine Host V).
#[local] Abbreviation M := (Actors.M Data IS Host).
#[local] Abbreviation Act := (Actor IS Host V).
#[local] Abbreviation Sent := (SentMessage IS Host).
Implicit Types (c : Ctx) (d : Data) (g : ghost).

Context (K : rules).

(** The jobs that a list of messages announces. *)
Definition announced (m : IPMessage IS Host) : list positive :=
  match msg_data m with JobSubmittedMessage _ jobs => jobs | _ => [] end.
Definition submissions (l : list (IPMessage IS Host)) : list positive := l ≫= announced.

Lemma submissions_app l1 l2 : submissions (l1 ++ l2) = submissions l1 ++ submissions l2.
Proof. apply bind_app. Qed.

(** A message that a process named [name] may send. *)
Definition sendable (name : option string) (m : IPMessage IS Host) : Prop :=
  well_typed m = true /\
  match msg_data m with
  | JobSubmittedMessage n _ => name = Some n
  | JobRegisteredByDPMessage _ _ => False
  | SubmitterHelloMessage _ enable_callback _ => enable_callback = true -> callbacks K = true
  | _ => True
  end.

Lemma benign_sendable name m : benign m = true -> sendable name m /\ announced m = [].
Proof. unfold benign, sendable, announced. intros [Ht Hd]%andb_true_iff. destruct (msg_data m); try done. by destruct enable_callback_on_job_completion. Qed.

Definition fresh_ok c : Prop := forall jp, is_Some (s_jobs (c_store c) !! jp) -> (jp < s_next_job (c_store c))%positive.

(** The jobs of a workload. *)
Definition jobs_of (w : Workload) : list positive := (map_to_list (jobs_map (wl_jobs w))).*2.

Definition job_state c (jp : positive) : option JobState := state <$> s_jobs (c_store c) !! jp.

Definition holds_static g c : Prop :=
  forall wn, g_static g = Some wn -> wn ∈ static_workloads K /\
  forall w, c_workloads c !! wn = Some w -> NoDup (jobs_of w) /\ forall jp, jp ∈ jobs_of w -> jp ∈ g_tokens g.

(** What every process finds when it runs. *)
Record holds g c : Prop := {
  ho_no_registration : registration_sched_enabled (c_options c) = false;
  ho_fresh : fresh_ok c;
  ho_actors : actors_ok c;
  ho_tokens jp : jp ∈ g_tokens g -> job_state c jp = Some JOB_STATE_NOT_SUBMITTED;
  ho_started jp : jp ∈ g_started g -> exists s, job_state c jp = Some s /\ is_started s;
  ho_static : holds_static g c;
}.

(** The state of a job may only go from a decision to another one. *)
Definition state_kept (s s' : JobState) : Prop := s' = s \/ (is_started s /\ is_started s').

(** What a segment of a process does. *)
Record segment g c c' g' : Prop := {
  se_options : c_options c' = c_options c;
  se_next : (s_next_job (c_store c) <= s_next_job (c_store c'))%positive;
  se_jobs jp j : s_jobs (c_store c) !! jp = Some j ->
    exists j', s_jobs (c_store c') !! jp = Some j' /\ job_ident j' = job_ident j /\ state_kept (state j) (state j');
  se_new jp j : s_jobs (c_store c') !! jp = Some j -> s_jobs (c_store c) !! jp = None ->
    state j = JOB_STATE_NOT_SUBMITTED /\ (s_next_job (c_store c) <= jp < s_next_job (c_store c'))%positive;
  se_workloads wn w' : wn ∈ static_workloads K -> c_workloads c' !! wn = Some w' ->
    exists w, c_workloads c !! wn = Some w /\ jobs_map (wl_jobs w') ⊆ jobs_map (wl_jobs w);
  se_sent : exists l : list Sent, c_sent c' = c_sent c ++ l /\
    Forall (fun m => sendable (g_name g) (sm_message m)) l /\ NoDup (submissions (sm_message <$> l)) /\
    forall jp, jp ∈ submissions (sm_message <$> l) ->
      (jp ∈ g_tokens g \/ (s_next_job (c_store c) <= jp)%positive) /\ (jp ∉ g_tokens g') /\
      job_state c' jp = Some JOB_STATE_NOT_SUBMITTED;
  se_actors a : a ∈ c_actors c' -> a ∈ c_actors c \/ ((c_next_actor c <= a.1)%positive /\ harmless a.2);
  se_next_actor : (c_next_actor c <= c_next_actor c')%positive;
  se_actors_ok : actors_ok c -> actors_ok c';
  se_machines : machines_kept (c_machines c) (c_machines c');
  se_tokens jp : jp ∈ g_tokens g' ->
    jp ∈ g_tokens g \/ ((s_next_job (c_store c) <= jp)%positive /\ job_state c' jp = Some JOB_STATE_NOT_SUBMITTED);
  se_started : g_started g' = g_started g;
  se_name : g_name g' = g_name g;
  se_static : g_static g' = None \/ (g_static g' = g_static g /\ g_tokens g ⊆ g_tokens g');
}.

(** A process waits only for messages that it has sent. *)
Definition asks d (b : blocking IS Host) : Prop :=
  match b with put_message mbox n => (n <= nb_sent mbox (sd_context d))%nat | _ => True end.

Definition pre g d : Prop := holds g (sd_context d).
Definition guar g d d' g' : Prop :=
  exists c', d' = d <| sd_context := c' |> /\ (pre g d -> segment g (sd_context d) c' g').

Lemma state_kept_trans s1 s2 s3 : state_kept s1 s2 -> state_kept s2 s3 -> state_kept s1 s3.
Proof. intros [->|[A1 A2]] [->|[B1 B2]]; [by left|by right|by right|by right]. Qed.

(** A job that may still be announced stays as it is. *)
Lemma segment_not_submitted g c c' g' jp :
  segment g c c' g' -> job_state c jp = Some JOB_STATE_NOT_SUBMITTED -> job_state c' jp = Some JOB_STATE_NOT_SUBMITTED.
Proof.
  intros Hs. unfold job_state. destruct (s_jobs (c_store c) !! jp) as [j|] eqn:Hj; [|done]. cbn. intros [= Hst].
  destruct (se_jobs _ _ _ _ Hs jp j Hj) as (j' & -> & _ & Hk). cbn.
  destruct Hk as [->|[[Hn _] _]]; congruence.
Qed.

Lemma segment_started g c c' g' jp s :
  segment g c c' g' -> job_state c jp = Some s -> is_started s -> exists s', job_state c' jp = Some s' /\ is_started s'.
Proof.
  intros Hs. unfold job_state. destruct (s_jobs (c_store c) !! jp) as [j|] eqn:Hj; [|done]. cbn. intros [= <-] Hst.
  destruct (se_jobs _ _ _ _ Hs jp j Hj) as (j' & -> & _ & Hk). exists (state j'). split; [done|].
  destruct Hk as [->|[_ ?]]; done.
Qed.

Lemma segment_fresh g c c' g' : segment g c c' g' -> fresh_ok c -> fresh_ok c'.
Proof.
  intros Hs Hf jp [j Hj]. destruct (s_jobs (c_store c) !! jp) as [j0|] eqn:E.
  - pose proof (se_next _ _ _ _ Hs). specialize (Hf jp ltac:(by eexists)). lia.
  - by apply (se_new _ _ _ _ Hs jp j Hj) in E as [_ [_ ?]].
Qed.

(** A workload that loses jobs is still held. *)
Lemma jobs_of_shrink (w w' : Workload) :
  jobs_map (wl_jobs w') ⊆ jobs_map (wl_jobs w) -> exists k, jobs_of w ≡ₚ jobs_of w' ++ k.
Proof.
  intros (k & Hk)%map_to_list_submseteq%submseteq_Permutation. exists k.*2. unfold jobs_of. by rewrite Hk, fmap_app.
Qed.

Lemma holds_static_shrink g g' c c' :
  (forall wn w', wn ∈ static_workloads K -> c_workloads c' !! wn = Some w' ->
     exists w, c_workloads c !! wn = Some w /\ jobs_map (wl_jobs w') ⊆ jobs_map (wl_jobs w)) ->
  g_static g' = None \/ (g_static g' = g_static g /\ g_tokens g ⊆ g_tokens g') ->
  holds_static g c -> holds_static g' c'.
Proof.
  intros Hw Hg Hs wn Hwn. destruct Hg as [Hn|[E Htok]]; [congruence|]. rewrite E in Hwn. destruct (Hs wn Hwn) as [HW Hj].
  split; [done|]. intros w' (w & [Hnd Hin]%Hj & (k & Hk)%jobs_of_shrink)%Hw; [|done]. rewrite Hk in Hnd.
  split; [by apply NoDup_app in Hnd as [? _]|]. intros jp Hjp. apply Htok, Hin. rewrite Hk. apply elem_of_app. by left.
Qed.

Lemma segment_holds g c c' g' : segment g c c' g' -> holds g c -> holds g' c'.
Proof.
  intros Hs [Hr Hf Ha Ht Hst Hstat]. split.
  - by rewrite (se_options _ _ _ _ Hs).
  - by eapply segment_fresh.
  - by apply (se_actors_ok _ _ _ _ Hs).
  - intros jp [Hjp|[_ ?]]%(se_tokens _ _ _ _ Hs); [|done]. eapply segment_not_submitted; [done|]. by apply Ht.
  - intros jp. rewrite (se_started _ _ _ _ Hs). intros (s & Hjs & Hs')%Hst. by eapply segment_started.
  - eapply holds_static_shrink; [exact (se_workloads _ _ _ _ Hs)|exact (se_static _ _ _ _ Hs)|exact Hstat].
Qed.

Lemma segment_refl g c : segment g c c g.
Proof.
  split; try done; [|by intros ? ? ->|by eauto| |by left|by left|by right].
  - intros jp j Hj. exists j. split; [done|]. split; [done|by left].
  - exists []. rewrite app_nil_r. split; [done|]. split; [done|]. split; [constructor|]. by intros jp Hjp%not_elem_of_nil.
Qed.

(** The static workload may be let go. *)
Lemma segment_unhold g c : segment g c c (mk_ghost (g_tokens g) (g_started g) (g_name g) None).
Proof.
  destruct (segment_refl g c) as [S1 S2 S3 S4 S5 (l & E & F & D & A) S7 S8 S9 S10 S11 S12 S13 S14].
  split; try done; [|by left]. by exists l.
Qed.

Lemma segment_trans g1 c1 g2 c2 g3 c3 :
  fresh_ok c1 -> segment g1 c1 c2 g2 -> segment g2 c2 c3 g3 -> segment g1 c1 c3 g3.
Proof.
  intros Hf S1 S2. pose proof (segment_fresh _ _ _ _ S1 Hf) as Hf2.
  pose proof S1 as [O1 N1 J1 F1 W1 (l1 & E1 & B1 & D1 & A1) X1 Y1 Z1 M1 T1 P1 Q1 R1].
  pose proof S2 as [O2 N2 J2 F2 W2 (l2 & E2 & B2 & D2 & A2) X2 Y2 Z2 M2 T2 P2 Q2 R2].
  assert (forall jp, job_state c2 jp = Some JOB_STATE_NOT_SUBMITTED -> ~ (s_next_job (c_store c2) <= jp)%positive) as Hbelow.
  { intros jp. unfold job_state. destruct (s_jobs (c_store c2) !! jp) as [j|] eqn:Hj; [|done].
    specialize (Hf2 jp ltac:(by eexists)). lia. }
  split.
  - congruence.
  - lia.
  - intros jp j (j2 & Hj2 & Hi2 & Hk2)%J1. destruct (J2 _ _ Hj2) as (j3 & Hj3 & Hi3 & Hk3).
    exists j3. split; [done|]. split; [congruence|by eapply state_kept_trans].
  - intros jp j Hj Hn. destruct (s_jobs (c_store c2) !! jp) as [j2|] eqn:Hj2.
    + destruct (F1 _ _ Hj2 Hn) as [Hs2 Hb]. split; [|lia].
      destruct (J2 _ _ Hj2) as (j3 & Hj3 & _ & Hk). rewrite Hj in Hj3. injection Hj3 as <-.
      destruct Hk as [->|[[? _] _]]; [done|congruence].
    + destruct (F2 _ _ Hj Hj2) as [Hs3 Hb]. split; [done|lia].
  - intros wn w3 Hwn (w2 & (w1 & Hw1 & Hs1)%W1 & Hs2)%W2; [|done|done]. exists w1. split; [done|]. by etrans.
  - exists (l1 ++ l2). rewrite E2, E1, app_assoc. split; [done|]. split.
    { apply Forall_app_2; [done|]. by rewrite <- Q1. }
    rewrite fmap_app, submissions_app. split.
    + apply NoDup_app. split; [done|]. split; [|done]. intros jp (_ & Hn & Hs)%A1 ([Ht|Hnew] & _)%A2; [done|].
      by apply (Hbelow jp Hs).
    + intros jp [(Ho & Hn & Hs)%A1|(Ho & Hn & Hs)%A2]%elem_of_app.
      * split; [done|]. split; [|by eapply segment_not_submitted].
        intros [Ht|[Hnew _]]%T2; [done|]. by apply (Hbelow jp Hs).
      * split; [|done]. destruct Ho as [[Ho|[Ho _]]%T1|Ho]; [by left|by right|right; lia].
  - intros a [[?|?]%X1|[Hx ?]]%X2; [by left|by right|right; split; [lia|done]].
  - lia.
  - auto.
  - by etransitivity.
  - intros jp [[?|[? ?]]%T1|[? ?]]%T2; [by left| |right; split; [lia|done]].
    right. split; [done|]. by eapply segment_not_submitted.
  - congruence.
  - congruence.
  - destruct R2 as [?|[R2 ?]]; [by left|]. rewrite R2. destruct R1 as [?|[? ?]]; [by left|right]. split; [done|]. by etransitivity.
Qed.

#[export] Instance system_protocol : Guarantee.Protocol pre guar.
Proof.
  split.
  - intros g d. exists (sd_context d). split; [by destruct d|]. intros _. apply segment_refl.
  - intros g1 d1 g2 d2 g3 d3 (c2 & -> & H2) (c3 & -> & H3). exists c3. split; [done|]. intros Hp.
    specialize (H2 Hp). assert (pre g2 (d1 <| sd_context := c2 |>)) as Hp2 by (by eapply segment_holds).
    eapply segment_trans; [exact (ho_fresh _ _ Hp)|exact H2|exact (H3 Hp2)].
  - intros g d g' d' (c' & -> & Hs) Hp. eapply segment_holds; [exact (Hs Hp)|exact Hp].
Qed.

(** ** Calm steps *)

Lemma quiet_segment g c c' :
  quiet harmless c c' -> (forall jp s, job_state c jp = Some s -> exists s', job_state c' jp = Some s' /\ state_kept s s') ->
  segment g c c' g.
Proof.
  intros [O N J Wk (l & El & Bl) A X D M] Hst.
  assert (forall jp, job_ident <$> s_jobs (c_store c') !! jp = job_ident <$> s_jobs (c_store c) !! jp) as Hid.
  { intros jp. by rewrite <- !lookup_fmap, J. }
  split; try done; [..|by left|by right].
  - rewrite N. lia.
  - intros jp j Hj. specialize (Hid jp). rewrite Hj in Hid. cbn in Hid.
    destruct (s_jobs (c_store c') !! jp) as [j'|] eqn:Hj'; [|done]. injection Hid as Hid. exists j'. split; [done|].
    split; [unfold job_ident; congruence|]. destruct (Hst jp (state j)) as (s' & Hs' & Hk); [unfold job_state; by rewrite Hj|].
    unfold job_state in Hs'. rewrite Hj' in Hs'. by injection Hs' as <-.
  - intros jp j Hj Hn. specialize (Hid jp). by rewrite Hj, Hn in Hid.
  - intros wn w' _. apply Wk.
  - exists l. split; [done|].
    assert (submissions (sm_message <$> l) = []) as Hnil.
    { clear -Bl K. induction Bl as [|m l Hm _ IH]; [done|]. unfold submissions in *. cbn.
      apply (benign_sendable None) in Hm as [_ ->]. exact IH. }
    rewrite Hnil. split; [|split; [constructor|by intros jp Hjp%not_elem_of_nil]].
    eapply Forall_impl; [exact Bl|]. cbn. intros m Hm. by apply benign_sendable.
Qed.

Lemma calm_segment g c c' : calm harmless c c' -> segment g c c' g.
Proof.
  intros [Hq Hs]. apply quiet_segment; [done|]. intros jp s Hjs. exists s. split; [|by left].
  unfold job_state in *. unfold states_of in Hs. by rewrite <- lookup_fmap, Hs, lookup_fmap.
Qed.

Lemma keeps_on_ctx g (f : Ctx -> result Ctx) :
  (forall c c', holds g c -> f c = Ok c' -> segment g c c' g) -> keeps asks pre guar g (on_ctx (IS := IS) f).
Proof.
  intros Hf. apply keeps_change. intros d d' Hpre (c' & Hc & [= <-])%bind_Ok.
  exists c'. split; [done|]. intros _. by apply Hf.
Qed.

Lemma keeps_calm g (f : Ctx -> result Ctx) :
  (forall c c', f c = Ok c' -> calm harmless c c') -> keeps asks pre guar g (on_ctx (IS := IS) f).
Proof. intros Hf. apply keeps_on_ctx. intros c c' _ Hc. by apply calm_segment, Hf. Qed.

Lemma keeps_core g (f : Ctx -> result Ctx) :
  (forall c c', f c = Ok c' -> same_core c c') -> keeps asks pre guar g (on_ctx (IS := IS) f).
Proof. intros Hf. apply keeps_calm. intros c c' Hc. by apply core_calm, Hf. Qed.

Lemma keeps_with_ctx {A} g (f : Ctx -> result (A * Ctx)) :
  (forall c a c', f c = Ok (a, c') -> calm harmless c c') -> keeps asks pre guar g (with_ctx (IS := IS) f).
Proof.
  intros Hf d. apply does_now. intros _ d' p Hr. unfold with_ctx in Hr. apply bind_Ok in Hr as ([a c'] & Hc & [= <- <-]).
  exists a, g. split; [done|]. split; [|done]. exists c'. split; [done|]. intros _. by eapply calm_segment, Hf.
Qed.

(** What is given may be used. *)
Lemma keeps_with_ctx_bind {A B} g (f : Ctx -> result (A * Ctx)) (k : A -> M B) :
  (forall c a c', holds g c -> f c = Ok (a, c') -> segment g c c' g /\ keeps asks pre guar g (k a)) ->
  keeps asks pre guar g (mbind (with_ctx (IS := IS) f) k).
Proof.
  intros Hf d. apply does_mbind; [apply _|]. apply does_now. intros Hpre d' p Hr. unfold with_ctx in Hr.
  apply bind_Ok in Hr as ([a c'] & Hc & [= <- <-]). destruct (Hf _ _ _ Hpre Hc) as [Hs Hk].
  exists a, g. split; [done|]. split; [by exists c'|]. apply Hk.
Qed.

Lemma keeps_create g (a : Act) : harmless a -> keeps asks pre guar g (create (IS := IS) (Engine := Engine) (Host := Host) (V := V) a).
Proof.
  intros Ha d. apply does_now. intros _ d' p. unfold create. cbn. intros [= <- <-].
  eexists _, g. split; [done|]. split; [|done]. eexists. split; [done|]. intros _. apply calm_segment.
  exact (create_actor_calm harmless a (sd_context d) Ha).
Qed.

Lemma keeps_change_job g jp f :
  (forall j : Job IS, job_ident (f j) = job_ident j) -> (forall j, state (f j) = state j) ->
  keeps asks pre guar g (change_job (IS := IS) (Engine := Engine) (Host := Host) (V := V) jp f).
Proof. intros Hi Hs. apply keeps_calm. intros c c' [= <-]. by apply with_job_calm. Qed.

Lemma keeps_read_ctx {A} g (f : Ctx -> result A) : keeps asks pre guar g (read_ctx (IS := IS) (Host := Host) f).
Proof. apply keeps_read, _. Qed.

Lemma keeps_bind {A B} g (m : M A) (f : A -> M B) :
  keeps asks pre guar g m -> (forall a, keeps asks pre guar g (f a)) -> keeps asks pre guar g (mbind m f).
Proof. apply keeps_mbind, _. Qed.

(** A blocking call that waits for no message of its own. *)
Lemma keeps_ask g (b : blocking IS Host) :
  match b with put_message _ _ => False | _ => True end -> keeps asks pre guar g (block b).
Proof. intros Hb. apply keeps_block; [apply _|]. intros d. by destruct b. Qed.

(** The end of [send]. *)
Lemma keeps_wait_sent g mbox :
  keeps asks pre guar g (let* n := read_ctx (fun c : Ctx => Ok (nb_sent mbox c)) in block (put_message (IS := IS) (Host := Host) mbox n)).
Proof.
  intros d. apply does_mbind; [apply _|]. apply does_read; [apply _|]. intros n _ [= <-].
  apply (does_block asks _ _ (put_message mbox (nb_sent mbox (sd_context d)))); [cbn; lia|done].
Qed.

(** A message that announces nothing. *)
Lemma send_segment g mbox type data c :
  sendable (g_name g) (mk_IPMessage type data) -> announced (mk_IPMessage type data) = [] ->
  segment g c (send_message mbox type data c) g.
Proof.
  intros Hs Ha. destruct (segment_refl g c) as [S1 S2 S3 S4 S5 _ S7 S8 S9 S10 S11 S12 S13 S14]. split; try done.
  eexists. split; [done|]. split; [by constructor|]. unfold submissions. cbn. rewrite Ha.
  split; [constructor|]. by intros jp Hjp%elem_of_nil.
Qed.

Lemma keeps_send g mbox type data :
  benign (mk_IPMessage type data) = true -> keeps asks pre guar g (send (IS := IS) (Engine := Engine) (Host := Host) (V := V) mbox type data).
Proof.
  intros Hb. apply keeps_bind; [|intros _; apply keeps_wait_sent].
  apply keeps_calm. intros c c' [= <-]. by apply send_calm.
Qed.
End Protocol.
