(* ===== verification/SystemProcesses.v ===== *)
(** * The processes follow the rules (theorems on the processes of src/)

    Each process but the server guarantees [guar] to the others, from the ghost state
    that it is given when it starts. *)

From S2P Require Import Prelude Interfaces Profiles Jobs Storage NumericStrcmp Outputs Machines Workload Tracers Ipp PState Writer NumberParsing Workflow Context ContextFacts ContextSteps Server Actors Guarantee TaskExecution SwitchProcesses EnvTrace JobsExecution Replay Submitters Reader ServerSteps SystemProtocol.
#[local] Open Scope process_scope.

Section Processes.
Context {IS Engine Host V : Type} `{IntervalSet IS} `{SimGrid Engine Host} `{RapidJson V} `{BoostString} `{FileSystem}.
#[local] Abbreviation Ctx := (BatsimContext IS Engine Host V).
#[local] Abbreviation Data := (ServerData IS Engine Host V).
#[local] Abbreviation M := (Actors.M Data IS Host).
#[local] Abbreviation Act := (Actor IS Host V).
#[local] Abbreviation Alloc := (SchedulingAllocation IS Host).
Implicit Types (c : Ctx) (d : Data) (g : ghost).
Context (K : rules).
#[local] Abbreviation keeps := (Guarantee.keeps (C := Data) (IS := IS) (Host := Host) asks (pre K) (guar K)).
#[local] Abbreviation does := (Guarantee.does (C := Data) (IS := IS) (Host := Host) asks (pre K) (guar K)).

(** Decomposes a process into its elementary steps. *)
#[local] Ltac keeps_step :=
  lazymatch goal with
  | |- Guarantee.keeps _ _ _ _ (mbind _ _) => apply keeps_bind; [|intros ?]
  | |- Guarantee.keeps _ _ _ _ (ret _) => apply keeps_ret, _
  | |- Guarantee.keeps _ _ _ _ (fail _) => apply keeps_fail
  | |- Guarantee.keeps _ _ _ _ get => apply keeps_get, _
  | |- Guarantee.keeps _ _ _ _ (read _) => apply keeps_read, _
  | |- Guarantee.keeps _ _ _ _ (read_ctx _) => apply keeps_read_ctx
  | |- Guarantee.keeps _ _ _ _ (read_job _) => apply keeps_read_ctx
  | |- Guarantee.keeps _ _ _ _ (read_profile _) => apply keeps_read_ctx
  | |- Guarantee.keeps _ _ _ _ (read_machine _) => apply keeps_read_ctx
  | |- Guarantee.keeps _ _ _ _ (read_task _ _) => apply keeps_read_ctx
  | |- Guarantee.keeps _ _ _ _ get_clock_now => apply keeps_read_ctx
  | |- Guarantee.keeps _ _ _ _ (assert_ _ _) => apply keeps_assert, _
  | |- Guarantee.keeps _ _ _ _ (block _) => by apply keeps_ask
  | |- Guarantee.keeps _ _ _ _ (change_job _ _) => apply keeps_change_job; done
  | |- Guarantee.keeps _ _ _ _ (change_task _ _ _) => apply keeps_change_job; done
  | |- Guarantee.keeps _ _ _ _ (send _ _ _) => apply keeps_send; done
  | |- Guarantee.keeps _ _ _ _ (let '(_, _) := ?p in _) => destruct p
  | |- Guarantee.keeps _ _ _ _ (if ?b then _ else _) => destruct b
  | |- Guarantee.keeps _ _ _ _ (match ?x with _ => _ end) => destruct x
  end.
#[local] Ltac keeps_tac := repeat (cbv beta zeta; keeps_step).

(** ** Machines, traces, replays *)

Lemma set_host_pstate_keeps g h ps : keeps g (set_host_pstate h ps).
Proof. apply keeps_core. by intros c c' [= <-]. Qed.

Lemma set_machine_state_keeps g i s : s ≠ COMPUTING -> keeps g (on_ctx (set_machine_state i s)).
Proof. intros Hs. apply keeps_core. intros c c'. by apply set_other_state_core. Qed.

Lemma check_switch_keeps g i ps s t : keeps g (check_switch i ps s t).
Proof. unfold check_switch. keeps_tac. Qed.

Lemma do_switch_keeps g i ps v h s ty :
  s ≠ COMPUTING -> ty = SWITCHED_ON \/ ty = SWITCHED_OFF -> keeps g (do_switch i ps v h s ty).
Proof.
  intros Hs Hty. unfold do_switch. apply keeps_bind; [apply set_host_pstate_keeps|intros _].
  apply keeps_bind; [by apply keeps_ask|intros _]. apply keeps_bind; [apply set_host_pstate_keeps|intros _].
  apply keeps_bind; [by apply set_machine_state_keeps|intros _]. apply keeps_send. by destruct Hty as [->| ->].
Qed.

Lemma switch_on_keeps g i ps : keeps g (switch_on_machine_process i ps).
Proof.
  unfold switch_on_machine_process. apply keeps_bind; [apply check_switch_keeps|intros m].
  apply keeps_bind; [apply keeps_read_ctx|intros p]. apply keeps_bind; [apply keeps_read, _|intros v].
  apply do_switch_keeps; [done|by left].
Qed.

Lemma switch_off_keeps g i ps : keeps g (switch_off_machine_process i ps).
Proof.
  unfold switch_off_machine_process. apply keeps_bind; [apply check_switch_keeps|intros m].
  apply keeps_bind; [apply keeps_read, _|intros v]. apply do_switch_keeps; [done|by right].
Qed.

Lemma env_zone_keeps g sg_host_set delay hosts p v : keeps g (env_zone_update sg_host_set delay hosts p v).
Proof.
  unfold env_zone_update. apply keeps_bind; [by apply keeps_ask|intros _]. apply keeps_core. by intros c c' [= <-].
Qed.

Lemma waiter_keeps g t : keeps g (waiter_process t).
Proof. unfold waiter_process. keeps_tac. Qed.

Lemma tell_parent_keeps g mbox rank : keeps g (tell_parent mbox rank).
Proof. by apply (keeps_ask K g (mailbox_put mbox (u32 rank))). Qed.

Lemma usage_trace_keeps g cores actions host files mbox rank :
  keeps g (usage_trace_replayer_process cores actions host files mbox rank).
Proof.
  unfold usage_trace_replayer_process. do 2 (apply keeps_bind; [apply keeps_read, _|intros ?]).
  apply keeps_bind; [|intros _; apply tell_parent_keeps].
  match goal with |- context [run_actions _ _ ?l] => induction l as [|action l IH] end; cbn [run_actions]; [apply keeps_ret, _|].
  apply keeps_bind; [|intros _; exact IH]. unfold run_action.
  apply keeps_bind; [apply keeps_read, _|intros name].
  apply keeps_read_bind; [apply _|]. intros _ f _ Hf%of_option_Ok. unfold registered_action in Hf.
  destruct (String.eqb name "m_usage"); [|done]. injection Hf as <-. unfold usage_trace_replayer, finish_ptask. keeps_tac.
Qed.

Lemma smpi_keeps g run job files mbox rank :
  (forall instance rank file, keeps g (run instance rank file)) ->
  keeps g (smpi_replay_process run job files mbox rank).
Proof.
  intros Hrun. unfold smpi_replay_process. apply keeps_bind; [apply keeps_read_ctx|intros j].
  apply keeps_bind; [apply keeps_read, _|intros file]. apply keeps_bind; [apply Hrun|intros _]. apply tell_parent_keeps.
Qed.

(** ** The killer *)

Lemma compute_progress_state h now (j j' : Job IS) :
  compute_job_progress h now j = Ok j' -> state j' = state j /\ job_ident j' = job_ident j.
Proof. unfold compute_job_progress. destruct (task j); [|done]. by intros (t & _ & [= <-])%bind_Ok. Qed.

(** A job that changes from a decision to another one. *)
Definition redecided c c' : Prop :=
  quiet harmless c c' /\ (forall jp s, job_state c jp = Some s -> exists s', job_state c' jp = Some s' /\ state_kept s s').

#[export] Instance redecided_preorder : PreOrder redecided.
Proof.
  split.
  - intros c. split; [done|]. intros jp s Hs. exists s. split; [done|by left].
  - intros c1 c2 c3 [Q1 S1] [Q2 S2]. split; [by etrans|]. intros jp s (s2 & Hs2 & K1)%S1.
    destruct (S2 _ _ Hs2) as (s3 & Hs3 & K2). exists s3. split; [done|by eapply state_kept_trans].
Qed.

Lemma calm_redecided c c' : calm harmless c c' -> redecided c c'.
Proof.
  intros [Hq Hs]. split; [done|]. intros jp s Hjs. exists s. split; [|by left].
  unfold job_state in *. unfold states_of in Hs. by rewrite <- lookup_fmap, Hs, lookup_fmap.
Qed.

Lemma core_redecided c c' : same_core c c' -> redecided c c'.
Proof. intros Hc. by apply calm_redecided, core_calm. Qed.

Lemma with_job_redecided jp f c j :
  (forall j, job_ident (f j) = job_ident j) -> s_jobs (c_store c) !! jp = Some j ->
  is_started (state j) -> is_started (state (f j)) -> redecided c (with_job jp f c).
Proof.
  intros Hf Hj H1' H2'. split; [by apply with_job_quiet|]. intros jp' s Hs. unfold job_state, with_job in *. cbn.
  destruct (decide (jp' = jp)) as [->|Hne].
  - rewrite lookup_alter_eq, Hj. rewrite Hj in Hs. injection Hs as <-. cbn. eexists. split; [done|]. by right.
  - rewrite lookup_alter_ne by done. exists s. split; [done|by left].
Qed.

Section Killing.
Context (englobing_zone : Host -> option string).

Lemma account_consumption_calm jp c c' : account_consumption englobing_zone jp c = Ok c' -> calm harmless c c'.
Proof.
  unfold account_consumption. intros (j & _ & (c1 & Hc1 & Hr)%bind_Ok)%bind_Ok.
  assert (calm harmless c c1) as ->.
  { destruct (energy_used _); [|by injection Hc1 as <-]. apply bind_Ok in Hc1 as (e & _ & Hc1%energy_add_job_end_core).
    etransitivity; [|by apply core_calm]. by apply with_job_calm. }
  destruct (environmental_footprint_used _); [|by injection Hr as <-].
  apply bind_Ok in Hr as (x & _ & (w & _ & Hr%footprint_entry_core)%bind_Ok).
  etransitivity; [|by apply core_calm]. by apply with_job_calm.
Qed.

Lemma snapshot_consumption_calm jp c c' : snapshot_consumption englobing_zone jp c = Ok c' -> calm harmless c c'.
Proof.
  unfold snapshot_consumption. intros (j & _ & (c1 & Hc1 & Hr)%bind_Ok)%bind_Ok.
  assert (calm harmless c c1) as ->.
  { destruct (energy_used _); [|by injection Hc1 as <-]. apply bind_Ok in Hc1 as (e & _ & Hc1%energy_add_job_start_core).
    etransitivity; [|by apply core_calm]. by apply with_job_calm. }
  destruct (environmental_footprint_used _); [|by injection Hr as <-].
  apply bind_Ok in Hr as (x & _ & (w & _ & Hr%footprint_entry_core)%bind_Ok).
  etransitivity; [|by apply core_calm]. by apply with_job_calm.
Qed.

Lemma end_on_machines_core jp ms c c' : end_on_machines jp ms c = Ok c' -> same_core c c'.
Proof. apply with_machines_view_core. intros v v'. apply job_end_kept. Qed.
Lemma start_on_machines_core jp ms c c' : start_on_machines jp ms c = Ok c' -> same_core c c'.
Proof. apply with_machines_view_core. intros v v'. apply job_run_kept. Qed.

Lemma stop_job_redecided s jp c c' j :
  s_jobs (c_store c) !! jp = Some j -> is_started (state j) -> is_started s ->
  stop_job englobing_zone s jp c = Ok c' -> redecided c c'.
Proof.
  intros Hj Hst Hs. unfold stop_job.
  intros (j0 & Hj0%the_job_Ok & (u & _ & (c1 & Hc1%end_on_machines_core & (u' & _ & Ha%account_consumption_calm)%bind_Ok)%bind_Ok)%bind_Ok)%bind_Ok.
  rewrite Hj in Hj0. injection Hj0 as <-.
  etransitivity; [apply calm_redecided, (remove_actors_calm harmless (execution_actors j))|].
  etransitivity; [|etransitivity; [exact (core_redecided _ _ Hc1)|]].
  - by apply (with_job_redecided jp _ _ j).
  - apply calm_redecided. etransitivity; [|exact Ha]. by apply with_job_calm.
Qed.

Lemma kill_job_redecided s acc id acc' :
  is_started s -> kill_job englobing_zone s acc id = Ok acc' -> redecided acc.2 acc'.2.
Proof.
  intros Hs. destruct acc as [pr c]. unfold kill_job. intros (jp & _ & (j & Hj%the_job_Ok & (u & _ & Hr)%bind_Ok)%bind_Ok)%bind_Ok.
  destruct (bool_decide (state j = JOB_STATE_RUNNING)) eqn:Hrun; [|by injection Hr as <-].
  apply bool_decide_eq_true in Hrun. apply bind_Ok in Hr as (j1 & [Hst1 Hid1]%compute_progress_state & Hr).
  apply bind_Ok in Hr as (t & _ & (cancelled & _ & Hr)%bind_Ok). cbn [snd].
  assert (s_jobs (c_store (with_job jp (fun _ => j1) c)) !! jp = Some j1) as Hj1.
  { unfold with_job. cbn. by rewrite lookup_alter_eq, Hj. }
  assert (redecided c (with_job jp (fun _ => j1) c)) as Hred.
  { apply calm_redecided. split.
    - split; try done; [|by eauto|exists []; by rewrite app_nil_r|by left].
      unfold with_job. cbn. apply map_eq. intros i. rewrite !lookup_fmap. destruct (decide (i = jp)) as [->|Hne];
        [by rewrite lookup_alter_eq, Hj; cbn; rewrite Hid1|by rewrite lookup_alter_ne].
    - unfold states_of, with_job. cbn. apply map_eq. intros i. rewrite !lookup_fmap. destruct (decide (i = jp)) as [->|Hne];
        [by rewrite lookup_alter_eq, Hj; cbn; rewrite Hst1|by rewrite lookup_alter_ne]. }
  rewrite Hred. destruct cancelled; [by injection Hr as <-; apply core_redecided|].
  apply bind_Ok in Hr as (c1 & Hc1 & [= <-]). eapply stop_job_redecided; [exact Hj1| |exact Hs|exact Hc1].
  rewrite Hst1, Hrun. by split.
Qed.

Lemma killer_keeps g ids s ack : is_started s -> keeps g (killer_process englobing_zone ids s ack).
Proof.
  intros Hs. unfold killer_process.
  apply (keeps_with_ctx_bind K g (fun c => foldM (kill_job englobing_zone s) (∅, c) ids)).
  intros c pr c1 _ Hf. split; [|by apply keeps_send].
  assert (redecided c c1) as [Hq Hst]; [|by apply quiet_segment].
  change c1 with (pr, c1).2. revert Hf. apply (foldM_inv (fun acc => redecided c acc.2)); [done|].
  intros acc id acc' _ Hacc Ha. rewrite Hacc. by eapply kill_job_redecided.
Qed.
End Killing.

(** ** The process of a job *)

Section Executing.
Context (englobing_zone : Host -> option string) (regex_match : string -> string -> bool).

Lemma do_delay_keeps g t r : keeps g (do_delay_task t r).
Proof. unfold do_delay_task. keeps_tac. Qed.

Lemma execute_parallel_keeps g jp alloc path r : keeps g (execute_parallel_task jp alloc path r).
Proof.
  unfold execute_parallel_task. do 3 (apply keeps_bind; [keeps_tac|intros ?]). apply keeps_bind; [keeps_tac|intros _].
  cbv zeta. destruct (_ <?q 0)%Q.
  - apply keeps_bind; [by apply keeps_ask|intros o]. destruct o; keeps_tac.
  - apply keeps_bind; [keeps_tac|intros ?]. apply keeps_bind; [by apply keeps_ask|intros o]. keeps_tac.
Qed.

Lemma default_mapping_keeps g jp n : keeps g (default_mapping jp n).
Proof. unfold default_mapping. keeps_tac. Qed.

Lemma create_ranks_keeps g jp alloc p files mbox ranks : forall children,
  keeps g (create_ranks jp alloc p files mbox children ranks).
Proof.
  induction ranks as [|rank ranks IH]; intros children; cbn [create_ranks]; [apply keeps_ret, _|].
  apply keeps_bind; [|intros c1; apply IH]. unfold create_rank. apply keeps_bind; [keeps_tac|intros j].
  apply keeps_bind; [apply keeps_read, _|intros h]. apply keeps_bind; [|intros a; keeps_tac].
  apply keeps_create. by destruct (bool_decide _).
Qed.

Lemma kill_children_keeps g jp children : keeps g (kill_children jp children).
Proof.
  unfold kill_children. cbv zeta. apply keeps_bind; [keeps_tac|intros _]. apply keeps_calm. intros c c' [= <-].
  apply remove_actors_calm.
Qed.

Lemma wait_children_keeps g n : forall jp mbox w children r, keeps g (wait_children n jp mbox w children r).
Proof.
  induction n as [|n IH]; intros jp mbox w children r; cbn [wait_children]; destruct (bool_decide _);
    [apply keeps_ret, _|apply keeps_fail|apply keeps_ret, _|].
  apply keeps_bind; [keeps_tac|intros t]. apply keeps_bind; [by apply keeps_ask|intros [rank|]].
  - apply keeps_bind; [apply keeps_read, _|intros a]. apply keeps_bind; [keeps_tac|intros _].
    apply keeps_bind; [keeps_tac|intros t']. apply IH.
  - apply keeps_bind; [apply kill_children_keeps|intros _]. apply keeps_ret, _.
Qed.

Lemma execute_trace_keeps g jp alloc p r : keeps g (execute_trace jp alloc p r).
Proof.
  unfold execute_trace. apply keeps_bind; [apply keeps_read, _|intros files]. cbv zeta.
  apply keeps_bind; [apply default_mapping_keeps|intros _]. apply keeps_bind; [keeps_tac|intros j].
  apply keeps_bind; [keeps_tac|intros _]. apply keeps_bind; [apply create_ranks_keeps|intros children].
  apply keeps_bind; [apply wait_children_keeps|intros [f r']]. apply keeps_ret, _.
Qed.

Lemma pop_message_keeps g jp : keeps g (pop_message (IS := IS) (Engine := Engine) (Host := Host) (V := V) jp).
Proof. unfold pop_message. keeps_tac. Qed.

Lemma poll_message_keeps g n jp t : forall r, keeps g (poll_message n jp t r).
Proof.
  induction n as [|n IH]; intros r; cbn [poll_message]; [apply keeps_fail|].
  apply keeps_bind; [apply do_delay_keeps|intros [code r']]. destruct (code =? -1); [apply keeps_ret, _|].
  apply keeps_bind; [keeps_tac|intros j]. destruct (bool_decide _); [apply IH|apply keeps_ret, _].
Qed.

Lemma choose_profile_keeps g jp s1 s2 s3 : keeps g (choose_profile regex_match jp s1 s2 s3).
Proof. unfold choose_profile. apply keeps_bind; [apply pop_message_keeps|intros m; apply keeps_ret, _]. Qed.

Lemma receive_message_keeps g polls jp s1 s2 s3 t p r : keeps g (JobsExecution.receive_message regex_match polls jp s1 s2 s3 t p r).
Proof.
  unfold JobsExecution.receive_message. apply keeps_bind; [keeps_tac|intros j].
  destruct (bool_decide _); [destruct (bool_decide _)|].
  - apply keeps_bind; [apply poll_message_keeps|intros [h r']]. destruct h; [|apply keeps_ret, _].
    apply keeps_bind; [apply choose_profile_keeps|intros q; apply keeps_ret, _].
  - apply keeps_ret, _.
  - apply keeps_bind; [apply choose_profile_keeps|intros q; apply keeps_ret, _].
Qed.

Lemma run_sub_tasks_keeps g run places : (forall i r, keeps g (run i r)) -> forall r,
  keeps g (run_sub_tasks (IS := IS) (Engine := Engine) (Host := Host) (V := V) run places r).
Proof.
  intros Hrun. induction places as [|i places IH]; intros r; cbn [run_sub_tasks]; [apply keeps_ret, _|].
  apply keeps_bind; [apply Hrun|intros [code r']]. destruct (code =? 0); [apply IH|apply keeps_ret, _].
Qed.

Lemma delay_then_return_keeps g p t r : keeps g (delay_then_return p t r).
Proof. unfold delay_then_return. apply keeps_bind; [apply do_delay_keeps|intros [code r']]. apply keeps_ret, _. Qed.

Lemma execute_task_keeps g polls jp alloc fuel : forall path r,
  keeps g (execute_task regex_match fuel polls jp alloc path r).
Proof.
  induction fuel as [|fuel IH]; intros path r; cbn [execute_task]; [apply keeps_fail|].
  apply keeps_bind; [keeps_tac|intros t]. apply keeps_bind; [keeps_tac|intros p]. apply keeps_bind; [keeps_tac|intros j].
  destruct (is_parallel_task p).
  { apply keeps_bind; [apply execute_parallel_keeps|intros res]. apply keeps_ret, _. }
  destruct (p_type p); try apply keeps_fail; try apply execute_trace_keeps; destruct (p_data p); try apply keeps_fail.
  - apply keeps_bind; [keeps_tac|intros start]. apply keeps_bind; [keeps_tac|intros _]. apply delay_then_return_keeps.
  - apply keeps_bind; [|intros res; apply keeps_ret, _]. apply run_sub_tasks_keeps. intros i r'.
    apply keeps_bind; [keeps_tac|intros _]. apply IH.
  - apply keeps_bind; [keeps_tac|intros _]. apply delay_then_return_keeps.
  - apply keeps_bind; [apply receive_message_keeps|intros [[q|] r']]; [|apply keeps_ret, _].
    destruct (bool_decide (q = "")); [apply keeps_ret, _|].
    apply keeps_bind; [apply keeps_read_ctx|intros sub]. apply keeps_bind.
    { unfold push_sub_task. keeps_tac. }
    intros i. apply keeps_bind; [apply IH|intros res]. apply keeps_ret, _.
Qed.

Lemma place_job_same_job c (alloc alloc' : Alloc) : place_job c alloc = Ok alloc' -> sa_job alloc' = sa_job alloc.
Proof.
  unfold place_job, complete_mapping. intros (hosts & _ & (io & _ & [= <-])%bind_Ok)%bind_Ok. cbn.
  by destruct (bool_decide _).
Qed.

Lemma start_job_calm fuel alloc io c alloc' c' :
  JobsExecution.start_job englobing_zone fuel alloc io c = Ok (alloc', c') ->
  calm harmless c c' /\ sa_job alloc' = sa_job alloc.
Proof.
  unfold JobsExecution.start_job. intros (j & _ & (t & _ & (a1 & Ha%place_job_same_job & (c1 & Hc1%snapshot_consumption_calm &
    (c2 & Hc2%start_on_machines_core & [= <- <-])%bind_Ok)%bind_Ok)%bind_Ok)%bind_Ok)%bind_Ok.
  split; [|done]. etransitivity; [|by apply core_calm]. etransitivity; [|exact Hc1].
  etransitivity; [|by apply with_job_calm]. by apply with_job_calm.
Qed.

Lemma final_state_started code s : final_state code = Ok s -> is_started s.
Proof. unfold final_state. repeat case_match; intros [= <-]; by split. Qed.

Lemma set_final_state_redecided jp code ms c c' j :
  s_jobs (c_store c) !! jp = Some j -> is_started (state j) -> set_final_state jp code ms c = Ok c' -> redecided c c'.
Proof.
  intros Hj Hst. unfold set_final_state. intros (s & Hs%final_state_started & Hr)%bind_Ok.
  etransitivity; [by apply (with_job_redecided jp (fun j => j <| state := s |>) c j)|].
  destruct (_ && _); [|by injection Hr as <-]. unfold trace_kill in Hr.
  apply bind_Ok in Hr as (j1 & _ & (t & _ & [= <-])%bind_Ok). by apply core_redecided.
Qed.

Lemma end_job_keeps g alloc code :
  sa_job alloc ∈ g_started g -> keeps g (on_ctx (end_job englobing_zone alloc code)).
Proof.
  intros Hg. apply keeps_on_ctx. intros c c' Hh. unfold end_job.
  intros (c1 & Hc1 & (c2 & Hc2%end_on_machines_core & Hc3%account_consumption_calm)%bind_Ok)%bind_Ok.
  destruct (ho_started _ _ _ Hh _ Hg) as (s & Hs & Hst). unfold job_state in Hs.
  destruct (s_jobs (c_store c) !! sa_job alloc) as [j|] eqn:Hj; [|done]. injection Hs as <-.
  assert (redecided c c1) as Hred.
  { etransitivity; [apply calm_redecided, (with_job_calm harmless (sa_job alloc) (fun j => j <| return_code := code |>)); done|].
    eapply set_final_state_redecided; [| |exact Hc1]; [unfold with_job; cbn; by rewrite lookup_alter_eq, Hj|exact Hst]. }
  assert (redecided c c') as [Hq Hk]; [|by apply quiet_segment].
  rewrite Hred. apply calm_redecided. etransitivity; [by apply core_calm|].
  etransitivity; [|exact Hc3]. by apply with_job_calm.
Qed.

Lemma finish_job_keeps g self alloc notify code :
  sa_job alloc ∈ g_started g -> keeps g (finish_job englobing_zone self alloc notify code).
Proof.
  intros Hg. unfold finish_job. apply keeps_bind; [by apply end_job_keeps|intros _].
  apply keeps_bind; [|intros _; by apply keeps_change_job].
  unfold notify_completion. apply keeps_bind; [keeps_tac|intros j]. destruct (_ && _); keeps_tac.
Qed.

Lemma execute_job_keeps g fuel polls self alloc notify io :
  sa_job alloc ∈ g_started g ->
  keeps g (JobsExecution.execute_job_process englobing_zone regex_match fuel polls self alloc notify io).
Proof.
  intros Hg. unfold JobsExecution.execute_job_process. apply keeps_bind; [keeps_tac|intros j].
  apply (keeps_with_ctx_bind K g (JobsExecution.start_job englobing_zone fuel alloc io)).
  intros c alloc' c' _ [Hc Ha]%start_job_calm. split; [by apply calm_segment|].
  apply keeps_bind; [apply execute_task_keeps|intros [code r]]. apply finish_job_keeps. by rewrite Ha.
Qed.
End Executing.
End Processes.
