(* ===== verification/SystemSubmitters.v ===== *)
(** * The submitters and the reader follow the rules (theorems on the processes of src/)

    The submitters of jobs announce the jobs that they hold, each once: those of a
    static workload from the start, that of a workflow's task as soon as it exists.
    The processes that read the scheduler's messages announce none, since dynamic
    registration is disabled. *)

From S2P Require Import Prelude Interfaces Profiles Jobs Storage NumericStrcmp Outputs Machines Workload Tracers Ipp PState Writer NumberParsing Workflow Context ContextFacts ContextSteps Server Actors Guarantee TaskExecution SwitchProcesses EnvTrace JobsExecution Replay Submitters Reader ServerSteps SystemProtocol.
#[local] Open Scope process_scope.

Section Submitters.
Context {IS Engine Host V : Type} `{IntervalSet IS} `{SimGrid Engine Host} `{RapidJson V} `{BoostString} `{FileSystem}.
#[local] Abbreviation Ctx := (BatsimContext IS Engine Host V).
#[local] Abbreviation Data := (ServerData IS Engine Host V).
#[local] Abbreviation M := (Actors.M Data IS Host).
Implicit Types (c : Ctx) (d : Data) (g : ghost).
Context (K : rules).
#[local] Abbreviation keeps := (Guarantee.keeps (C := Data) (IS := IS) (Host := Host) asks (pre K) (guar K)).
#[local] Abbreviation does := (Guarantee.does (C := Data) (IS := IS) (Host := Host) asks (pre K) (guar K)).
Context (str_find : string -> string -> bool) (replace_id : string -> string -> string).
Context (storage_set : string -> string -> result unit).

Lemma send_keeps g mbox type data : benign (mk_IPMessage type data) = true -> keeps g (send mbox type data).
Proof. apply keeps_send. Qed.

(** ** The submitter of events *)

Lemma send_events_keeps g l name : keeps g (send_events_to_server l name).
Proof. unfold send_events_to_server. destruct l; [apply keeps_ret, _|by apply send_keeps]. Qed.

Lemma occur_keeps g name events : forall l date, keeps g (occur_in_order name events l date).
Proof.
  induction events as [|e events IH]; intros l date; cbn [occur_in_order]; [apply send_events_keeps|].
  apply keeps_bind; [|intros [l' date']; apply IH]. destruct (_ <?q _)%Q; [|apply keeps_ret, _].
  apply keeps_bind; [apply send_events_keeps|intros _]. apply keeps_bind; [by apply keeps_ask|intros _].
  apply keeps_bind; [apply keeps_read_ctx|intros t; apply keeps_ret, _].
Qed.

Lemma event_submitter_keeps g name : keeps g (static_event_submitter_process name).
Proof.
  unfold static_event_submitter_process. apply keeps_bind; [apply keeps_read_ctx|intros _].
  apply keeps_bind; [by apply send_keeps|intros _]. apply keeps_bind; [apply keeps_read_ctx|intros date].
  apply keeps_bind; [apply keeps_read_ctx|intros events].
  apply keeps_bind; [apply occur_keeps|intros _]. by apply send_keeps.
Qed.

(** ** The submitter of a static workload *)

Lemma hello_keeps g name b : (b = true -> callbacks K = true) -> keeps g (say_hello name b JOB_SUBMITTER).
Proof.
  intros Hb. apply keeps_bind; [|intros _; apply keeps_wait_sent].
  apply keeps_on_ctx. intros c c' _ [= <-]. by apply send_segment.
Qed.
Lemma bye_keeps g name b : keeps g (say_bye name JOB_SUBMITTER b).
Proof. by apply send_keeps. Qed.

(** A message that announces jobs uses their tokens up. *)
Lemma send_jobs_does g d name (jobs : list positive) (Q : unit -> Data -> ghost -> Prop) :
  g_name g = Some name -> NoDup jobs -> (forall jp, jp ∈ jobs -> jp ∈ g_tokens g) ->
  (forall d, Q tt d (mk_ghost (g_tokens g ∖ list_to_set jobs) (g_started g) (g_name g) None)) ->
  does (send "server" JOB_SUBMITTED (JobSubmittedMessage name jobs)) Q g d.
Proof.
  intros Hname Hnd Hin HQ. apply does_mbind; [apply _|]. apply does_change. intros d' Hpre. unfold on_context. cbn. intros [= <-].
  exists (mk_ghost (g_tokens g ∖ list_to_set jobs) (g_started g) (g_name g) None).
  split; [|apply keeps_does; [apply keeps_wait_sent|intros []; apply HQ]].
  eexists. split; [done|]. intros _. split; cbn; try done; [..|by left| |by left].
  - intros jp j Hj. exists j. split; [done|]. split; [done|by left].
  - intros jp j Hj. congruence.
  - by eauto.
  - eexists. split; [done|]. cbn. split; [by repeat constructor|]. unfold submissions. cbn. rewrite app_nil_r. cbn.
    split; [done|]. intros jp Hjp. split; [left; by apply Hin|]. split; [set_solver|]. by apply (ho_tokens _ _ _ Hpre), Hin.
  - intros jp. left. set_solver.
Qed.

Lemma submit_jobs_does g d name (jobs : list positive) (Q : unit -> Data -> ghost -> Prop) :
  g_name g = Some name -> NoDup jobs -> (forall jp, jp ∈ jobs -> jp ∈ g_tokens g) ->
  (forall d, Q tt d (mk_ghost (g_tokens g ∖ list_to_set jobs) (g_started g) (g_name g) None)) ->
  does (submit_jobs_to_server jobs name) Q g d.
Proof.
  intros Hname Hnd Hin HQ. unfold submit_jobs_to_server. destruct jobs as [|jp jobs]; [|by apply send_jobs_does].
  apply does_now. intros _ d' p [= <- <-]. specialize (HQ d). cbn in HQ. rewrite difference_empty_L in HQ.
  exists tt, (mk_ghost (g_tokens g) (g_started g) (g_name g) None). split; [done|]. split; [|exact HQ].
  exists (sd_context d). split; [by destruct d|]. intros _. apply segment_unhold.
Qed.

Lemma note_first_keeps g : keeps g (note_first_submission (IS := IS) (Engine := Engine) (Host := Host) (V := V)).
Proof. apply keeps_core. intros c c' [= <-]. by destruct (_ <?q _)%Q. Qed.

Lemma submit_in_order_does w name todo : forall g d l date b,
  g_name g = Some name -> NoDup (l ++ todo) -> (forall jp, jp ∈ l ++ todo -> jp ∈ g_tokens g) ->
  does (submit_in_order storage_set w name todo l date b) (fun _ _ _ => True) g d.
Proof.
  induction todo as [|job todo IH]; intros g d l date b Hname Hnd Hin; cbn [submit_in_order].
  { rewrite app_nil_r in Hnd, Hin. by apply submit_jobs_does. }
  apply does_keeps; [apply _|apply keeps_read_ctx|]. intros j d1.
  assert (forall g l date d, g_name g = Some name -> NoDup (l ++ job :: todo) -> (forall jp, jp ∈ l ++ job :: todo -> jp ∈ g_tokens g) ->
    does (let '(jobs_to_send, current_submission_date) := (l, date) in
          do* store_job storage_set w j in
          do* (if b then note_first_submission else ret tt) in
          submit_in_order storage_set w name todo (jobs_to_send ++ [job]) current_submission_date false) (fun _ _ _ => True) g d) as Hrest.
  { clear -IH. intros g l date d Hname Hnd Hin. apply does_keeps; [apply _|apply keeps_read_ctx|]. intros _ d2.
    apply does_keeps; [apply _|destruct b; [apply note_first_keeps|apply keeps_ret, _]|]. intros _ d3.
    apply IH; [done|by rewrite <- app_assoc|intros jp; rewrite <- app_assoc; apply Hin]. }
  apply does_mbind; [apply _|]. destruct (_ <?q _)%Q; [|apply does_ret; [apply _|]; by apply Hrest].
  apply does_mbind; [apply _|]. pose proof Hnd as (Hnd1 & Hdis & Hnd2)%NoDup_app.
  apply submit_jobs_does; [done|done|intros jp Hjp; apply Hin, elem_of_app; by left|]. intros d2.
  apply does_keeps; [apply _|by apply keeps_ask|]. intros _ d3.
  apply does_keeps; [apply _|apply keeps_read_ctx|]. intros t d4. apply does_ret; [apply _|].
  apply Hrest; [done|done|]. cbn. intros jp Hjp. apply elem_of_difference. split; [apply Hin, elem_of_app; by right|].
  intros Hl%elem_of_list_to_set. by eapply Hdis.
Qed.

Lemma sorted_jobs_perm c (w : Workload) l :
  sorted_jobs c w = Ok l -> l ≡ₚ (map_to_list (jobs_map (wl_jobs w))).*2.
Proof.
  unfold sorted_jobs. intros (jobs & Hj & [= <-])%bind_Ok. rewrite merge_sort_Permutation. clear -Hj.
  apply reflexive_eq. revert jobs Hj. induction (map_to_list _) as [|[k jp] ms IH]; intros jobs; cbn; [by intros [= <-]|].
  intros (y & (j & _ & [= <-])%bind_Ok & (ys & Hys & [= <-])%bind_Ok)%bind_Ok. cbn. f_equal. by apply IH.
Qed.

Definition can_submit_static g (wn : string) : Prop :=
  g_name g = Some (submitter_of wn) /\ g_static g = Some wn.

Lemma static_submitter_does g wn d :
  can_submit_static g wn -> does (static_job_submitter_process storage_set wn) (fun _ _ _ => True) g d.
Proof.
  intros [Hname Hst]. unfold static_job_submitter_process. apply does_mbind; [apply _|].
  apply does_read; [apply _|]. intros _ _ _. apply does_keeps; [apply _|by apply hello_keeps|]. intros _ d1.
  apply does_keeps; [apply _|apply keeps_read_ctx|]. intros date d2. apply does_mbind; [apply _|]. apply does_read; [apply _|].
  intros w Hpre Hw%of_option_Ok. destruct (ho_static _ _ _ Hpre wn Hst) as [_ Hj]. destruct (Hj w Hw) as [Hnd Hin].
  apply does_mbind; [apply _|]. apply does_read; [apply _|]. intros l _ Hl%sorted_jobs_perm.
  apply does_mbind; [apply _|]. eapply does_mono.
  - apply submit_in_order_does; [done|cbn; by rewrite Hl|cbn; intros jp; rewrite Hl; apply Hin].
  - cbn beta. intros _ d3 g' _. eapply does_mono; [apply bye_keeps|done].
Qed.

(** ** The submitter of a workflow *)

Lemma Job_from_json_str_state wn ps text (j : Job IS) :
  Job_from_json_str str_find replace_id wn ps text = Ok j -> state j = JOB_STATE_NOT_SUBMITTED.
Proof.
  unfold Job_from_json_str. destruct (parse_json text) as [v|]; [|done]. unfold Job_from_json. intros Hj. by inv_ok.
Qed.

Lemma workload_profiles_calm c wn (w : Workload) ps :
  c_workloads c !! wn = Some w -> calm harmless c (c <| c_workloads ::= <[wn := w <| wl_profiles := ps |>]> |>).
Proof.
  intros Hw. split; [|done]. split; cbn; try done; [|exists []; by rewrite app_nil_r|by left].
  intros wn' w'. destruct (decide (wn' = wn)) as [->|Hne].
  - rewrite lookup_insert_eq. intros [= <-]. by exists w.
  - rewrite lookup_insert_ne by done. intros Hw'. by exists w'.
Qed.

(** A profile is added to a workload. *)
Lemma profile_calm c wn (w : Workload) ps ptr p :
  c_workloads c !! wn = Some w ->
  calm harmless c (c <| c_store ::= fun st => st <| s_profiles ::= <[ptr := p]> |> <| s_next_profile ::= Pos.succ |> |>
                     <| c_workloads ::= <[wn := w <| wl_profiles := ps |>]> |>).
Proof.
  intros Hw. pose (c1 := c <| c_store ::= fun st => st <| s_profiles ::= <[ptr := p]> |> <| s_next_profile ::= Pos.succ |> |>).
  etransitivity; [|exact (workload_profiles_calm c1 wn w ps Hw)]. split; [|done].
  split; cbn; try done; [by eauto|exists []; by rewrite app_nil_r|by left].
Qed.

Lemma add_task_profile_calm wn t c name c' : add_task_profile wn t c = Ok (name, c') -> calm harmless c c'.
Proof.
  unfold add_task_profile. intros (w & Hw%of_option_Ok & (ps & _ & [= _ <-])%bind_Ok)%bind_Ok. by apply profile_calm.
Qed.

Lemma next_number_keeps g wn : keeps g (next_job_number (IS := IS) (Engine := Engine) (Host := Host) (V := V) wn).
Proof.
  intros d. apply does_now. intros _ d' p. unfold next_job_number. intros [= <- <-].
  eexists _, g. split; [done|]. split; [|done]. eexists. split; [done|]. intros _. by apply calm_segment, core_calm.
Qed.

(** The job of a task is fresh: its submitter may announce it. *)
Lemma add_task_job_segment g wn number name t c jp c' :
  wn ∉ static_workloads K -> holds K g c -> add_task_job str_find replace_id wn number name t c = Ok (jp, c') ->
  segment K g c c' (mk_ghost ({[jp]} ∪ g_tokens g) (g_started g) (g_name g) (g_static g)).
Proof.
  intros Hwn Hh. unfold add_task_job.
  intros (w & Hw%of_option_Ok & (j & Hj%Job_from_json_str_state & (js & _ & [= <- <-])%bind_Ok)%bind_Ok)%bind_Ok.
  assert (s_jobs (c_store c) !! s_next_job (c_store c) = None) as Hfresh.
  { destruct (s_jobs (c_store c) !! s_next_job (c_store c)) eqn:E; [|done].
    pose proof (ho_fresh _ _ _ Hh _ ltac:(by eexists)). lia. }
  split; cbn; try done.
  - lia.
  - intros jp j0 Hj0. exists j0. rewrite lookup_insert_ne by congruence. split; [done|]. split; [done|by left].
  - intros jp j0. destruct (decide (jp = s_next_job (c_store c))) as [->|Hne].
    + rewrite lookup_insert_eq. intros [= <-] _. split; [done|lia].
    + rewrite lookup_insert_ne by done. congruence.
  - intros wn' w' Hin. rewrite lookup_insert_ne by congruence. intros Hw'. by exists w'.
  - exists []. rewrite app_nil_r. split; [done|]. split; [done|]. split; [constructor|]. by intros jp Hjp%not_elem_of_nil.
  - by left.
  - intros jp [->%elem_of_singleton|Hjp]%elem_of_union; [right|by left]. split; [lia|].
    unfold job_state. cbn. by rewrite lookup_insert_eq, <- Hj.
  - right. split; [done|set_solver].
Qed.

Lemma store_task_keeps g wn name t date number id : keeps g (store_task storage_set wn name t date number id).
Proof. apply keeps_read_ctx. Qed.

Section Workflow.
Context (wn : string).
Let wg : ghost := mk_ghost ∅ ∅ (Some (submitter_of wn)) None.

Lemma submit_task_keeps task :
  wn ∉ static_workloads K -> keeps wg (submit_workflow_task_as_job str_find replace_id storage_set wn (submitter_of wn) task).
Proof.
  intros Hwn d. unfold submit_workflow_task_as_job. apply does_keeps; [apply _|apply next_number_keeps|]. intros number d1.
  apply does_keeps; [apply _|apply keeps_read_ctx|]. intros t d2.
  apply does_keeps; [apply _|apply keeps_with_ctx; intros c name c'; apply add_task_profile_calm|]. intros name d3.
  apply does_keeps; [apply _|apply keeps_read_ctx|]. intros date d4. apply does_mbind; [apply _|].
  apply does_now. intros Hpre d' p Hr. unfold with_ctx in Hr. apply bind_Ok in Hr as ([jp c'] & Hc & [= <- <-]).
  eexists _, _. split; [done|]. split; [eexists; split; [done|]; intros _; by eapply add_task_job_segment|].
  cbn [g_tokens g_started g_name wg]. apply does_keeps; [apply _|apply keeps_read, _|]. intros id d5.
  apply does_keeps; [apply _|apply store_task_keeps|]. intros _ d6. apply does_mbind; [apply _|].
  apply send_jobs_does; [done|apply NoDup_singleton|by intros i ->%list_elem_of_singleton; set_solver|].
  intros d7. apply does_ret; [apply _|]. cbn. unfold wg. f_equal. set_solver.
Qed.

Lemma submit_ready_keeps limit tasks : wn ∉ static_workloads K -> forall submitted n,
  keeps wg (submit_ready_tasks str_find replace_id storage_set wn limit tasks submitted n).
Proof.
  intros Hwn. induction tasks as [|task tasks IH]; intros submitted n; cbn [submit_ready_tasks]; [apply keeps_ret, _|].
  destruct (_ || _); [|apply keeps_ret, _]. apply keeps_bind; [by apply submit_task_keeps|intros key; apply IH].
Qed.

Lemma complete_task_keeps g submitted key :
  keeps g (complete_task (IS := IS) (Engine := Engine) (Host := Host) (V := V) submitted key).
Proof.
  unfold complete_task. apply keeps_bind; [apply keeps_read, _|intros t]. apply keeps_with_ctx.
  by intros c a c' ([ready h] & _ & [= <- <-])%bind_Ok; apply core_calm.
Qed.

Lemma wait_completion_keeps g name :
  keeps g (wait_for_job_completion (IS := IS) (Engine := Engine) (Host := Host) (V := V) name).
Proof.
  unfold wait_for_job_completion. apply keeps_bind; [by apply keeps_ask|intros m].
  destruct m; solve [apply keeps_fail|apply keeps_ret, _].
Qed.

Lemma workflow_loop_keeps limit fuel : wn ∉ static_workloads K -> forall ready submitted n,
  keeps wg (workflow_loop str_find replace_id storage_set fuel wn limit ready submitted n).
Proof.
  intros Hwn. induction fuel as [|fuel IH]; intros ready submitted n; cbn [workflow_loop];
    (destruct (_ && _); [apply keeps_ret, _|]); [apply keeps_fail|].
  apply keeps_bind; [by apply submit_ready_keeps|intros [[ready' submitted'] n']].
  destruct (bool_decide _); [apply IH|]. apply keeps_bind; [apply wait_completion_keeps|intros key].
  apply keeps_bind; [apply complete_task_keeps|intros kids]. apply IH.
Qed.

Lemma workflow_submitter_keeps fuel :
  wn ∉ static_workloads K -> callbacks K = true -> keeps wg (workflow_submitter_process str_find replace_id storage_set fuel wn).
Proof.
  intros Hwn HK. unfold workflow_submitter_process. apply keeps_bind; [apply keeps_read_ctx|intros wf].
  apply keeps_bind; [apply keeps_read_ctx|intros limit].
  apply keeps_bind; [apply keeps_core; by intros c c' [= <-]|intros _]. apply keeps_bind; [by apply hello_keeps|intros _].
  apply keeps_bind; [apply keeps_read_ctx|intros tasks]. apply keeps_bind; [apply keeps_read_ctx|intros date].
  cbv zeta. apply keeps_bind; [by apply keeps_ask|intros _].
  apply keeps_bind; [by apply workflow_loop_keeps|intros _]. apply bye_keeps.
Qed.
End Workflow.

(** ** The messages of the scheduler *)

Context (storage_get : string -> result string).

Lemma send_at_keeps g date mbox type data :
  benign (mk_IPMessage type data) = true -> keeps g (send_message_at_time date mbox type data).
Proof.
  intros Hb. unfold send_message_at_time. apply keeps_bind; [apply keeps_read_ctx|intros t].
  apply keeps_bind; [destruct (_ <?q _)%Q; [by apply keeps_ask|apply keeps_ret, _]|intros _]. by apply send_keeps.
Qed.

Lemma read_and_send_keeps g (f : Data -> result (MessageData IS Host)) date type :
  (forall d m, f d = Ok m -> benign (mk_IPMessage type m) = true) ->
  keeps g (mbind (read f) (send_message_at_time date "server" type)).
Proof. intros Hf. apply keeps_read_bind; [apply _|]. intros d m _ Hm%Hf. by apply send_at_keeps. Qed.

Lemma query_keeps g date (v : V) : keeps g (handle_query date v).
Proof.
  unfold handle_query. apply keeps_bind; [apply keeps_read, _|intros l].
  induction l as [|r l IH]; cbn [answer_requests]; [apply keeps_ret, _|].
  apply keeps_read_bind; [apply _|]. intros _ type _ Hr. apply keeps_bind; [|intros _; exact IH].
  apply send_at_keeps. unfold read_request, request_type in Hr. inv_ok. repeat case_match; by simplify_eq.
Qed.

Lemma additional_io_calm job_id (v : V) c r c' : additional_io_job job_id v c = Ok (r, c') -> calm harmless c c'.
Proof.
  unfold additional_io_job. intros Hr. destruct r as [ptr alloc].
  apply bind_Ok in Hr as (? & _ & (? & _ & (w & Hw%of_option_Ok & (c1 & Hc & Hr)%bind_Ok)%bind_Ok)%bind_Ok).
  assert (c' = c1) as ->.
  { inv_ok. by simplify_eq. }
  destruct (HasMember v "profile"); [|by injection Hc as <-]. destruct (Profiles_exists _ _); [done|].
  apply bind_Ok in Hc as (? & _ & Hc). unfold register_profile in Hc.
  apply bind_Ok in Hc as (p & _ & (ps & _ & [= <-])%bind_Ok). by apply profile_calm.
Qed.

Lemma read_execute_job_calm (v : V) c m c' :
  read_execute_job v c = Ok (m, c') ->
  calm harmless c c' /\ benign (mk_IPMessage SCHED_EXECUTE_JOB m) = true.
Proof.
  unfold read_execute_job. intros Hr.
  apply bind_Ok in Hr as (? & _ & (? & _ & (? & _ & (jp & _ & (? & _ & (ms & _ & Hr)%bind_Ok)%bind_Ok)%bind_Ok)%bind_Ok)%bind_Ok).
  cbv zeta in Hr. apply bind_Ok in Hr as (? & _ & (? & _ & (? & _ & Hr)%bind_Ok)%bind_Ok).
  destruct (FindMember _ _); [|by injection Hr as <- <-].
  apply bind_Ok in Hr as ([[ptr alloc'] c1] & Hc%additional_io_calm & [= <- <-]). done.
Qed.

Lemma execute_job_message_keeps g date (v : V) : keeps g (handle_execute_job date v).
Proof.
  unfold handle_execute_job. apply (keeps_with_ctx_bind K g (read_execute_job v)).
  intros c m c' _ [Hc Hb]%read_execute_job_calm. split; [by apply calm_segment|]. by apply send_at_keeps.
Qed.

(** A registration is refused, since the option is not enabled. *)
Lemma register_job_keeps g date (v : V) : keeps g (handle_register_job str_find replace_id storage_get date v).
Proof.
  unfold handle_register_job. apply (keeps_with_ctx_bind K g (read_register_job str_find replace_id storage_get v)).
  intros c m c' Hh Hr. unfold read_register_job, check_registration in Hr. rewrite (ho_no_registration _ _ _ Hh) in Hr. done.
Qed.

Lemma register_profile_keeps g date (v : V) : keeps g (handle_register_profile date v).
Proof.
  unfold handle_register_profile. apply (keeps_with_ctx_bind K g (read_register_profile v)).
  intros c m c' Hh Hr. unfold read_register_profile, check_registration in Hr. rewrite (ho_no_registration _ _ _ Hh) in Hr. done.
Qed.

Lemma notify_keeps g date (v : V) : keeps g (handle_notify date v).
Proof.
  unfold handle_notify. apply keeps_read_bind; [apply _|]. intros d type _ Hr. apply send_at_keeps.
  unfold read_notify in Hr. inv_ok. repeat case_match; by simplify_eq.
Qed.

(** The handlers of the events of the scheduler. *)
Lemma handler_keeps g name h date (v : V) :
  handler_of str_find replace_id storage_get name = Some h -> keeps g (h date v).
Proof.
  unfold handler_of, type_to_handler_map. cbn [List.find fst snd].
  repeat (destruct (String.eqb _ name); [cbn; intros [= <-]; clear name|]); [..|done].
  - apply query_keeps.
  - apply keeps_read, _.
  - apply read_and_send_keeps. intros d m Hr. unfold read_reject_job in Hr. inv_ok. by simplify_eq.
  - apply execute_job_message_keeps.
  - apply read_and_send_keeps. intros d m Hr. unfold read_change_job_state in Hr. inv_ok. by simplify_eq.
  - apply read_and_send_keeps. intros d m Hr. unfold read_call_me_later in Hr. inv_ok. by simplify_eq.
  - apply read_and_send_keeps. intros d m Hr. unfold read_kill_job in Hr. inv_ok. by simplify_eq.
  - apply register_job_keeps.
  - apply register_profile_keeps.
  - apply read_and_send_keeps. intros d m Hr. unfold read_set_resource_state in Hr. inv_ok. by simplify_eq.
  - apply read_and_send_keeps. intros d m Hr. unfold read_set_job_metadata in Hr. inv_ok. by simplify_eq.
  - apply notify_keeps.
  - apply read_and_send_keeps. intros d m Hr. unfold read_to_job_msg in Hr. inv_ok. by simplify_eq.
Qed.

Lemma request_reply_keeps g run_info_of scheduler buffer :
  keeps g (request_reply (IS := IS) (Engine := Engine) (Host := Host) str_find replace_id storage_get run_info_of scheduler buffer).
Proof.
  unfold request_reply, exchange. apply keeps_catching,  keeps_bind; [apply keeps_read, _|intros text]. unfold parse_and_apply_message.
  apply keeps_bind; [apply keeps_read, _|intros [date events]]. apply keeps_bind; [|intros _; by apply send_at_keeps].
  induction events as [|e events IH]; cbn [parse_and_apply_events]; [apply keeps_ret, _|].
  apply keeps_bind; [|intros _; exact IH]. unfold parse_and_apply_event. apply keeps_read_bind; [apply _|].
  intros d [[t h] v] _ Hr. unfold read_event in Hr.
  apply bind_Ok in Hr as (? & _ & (? & _ & (? & _ & (name & _ & (h' & Hh%of_option_Ok & (? & _ & (v' & _ & [= <- <- <-])%bind_Ok)%bind_Ok)%bind_Ok)%bind_Ok)%bind_Ok)%bind_Ok).
  by eapply handler_keeps.
Qed.
End Submitters.
