(* ===== verification/ServerFacts.v ===== *)
(** * What the server guarantees (theorems on src/server.cpp)

    The accounting of jobs, what each request of the scheduler requires and does,
    and the end of the simulation. *)

From S2P Require Import Prelude Interfaces Profiles Jobs NumericStrcmp Outputs Machines Workload Tracers Ipp PState Writer NumberParsing Workflow Context ContextFacts Server.

(** ** The accounting of jobs *)

Section Accounting.
Context {IS Engine Host V : Type}.
Context `{IntervalSet IS} `{SimGrid Engine Host} `{RapidJson V}.
Context (englobing_zone : Host -> option string).
#[local] Abbreviation Ctx := (BatsimContext IS Engine Host V).
#[local] Abbreviation Data := (ServerData IS Engine Host V).
#[local] Abbreviation Msg := (IPMessage IS Host).
Implicit Types (c : Ctx) (data : Data) (m : Msg).

Definition states c : gmap positive JobState := state <$> s_jobs (c_store c).
Definition job_states data : gmap positive JobState := states (sd_context data).

(** The same jobs in the same states, counted in the same way. *)
Definition same_account data data' : Prop :=
  job_states data' = job_states data /\ nb_submitted_jobs data' = nb_submitted_jobs data /\
  nb_completed_jobs data' = nb_completed_jobs data /\ nb_running_jobs data' = nb_running_jobs data.

#[export] Instance same_account_preorder : PreOrder same_account.
Proof.
  split; [by intros ?|]. intros d1 d2 d3 (?&?&?&?) (?&?&?&?). unfold same_account. split_and!; congruence.
Qed.

Lemma on_context_account f data data' :
  (forall c c', f c = Ok c' -> c_store c' = c_store c) -> on_context f data = Ok data' -> same_account data data'.
Proof.
  intros Hf (c & Hc%Hf & [= <-])%bind_Ok. unfold same_account, job_states, states. cbn. by rewrite Hc.
Qed.

Lemma write_account f data data' : write f data = Ok data' -> same_account data data'.
Proof. apply on_context_account. intros. by eapply with_writer_store. Qed.

Lemma trace_account jp data data' : on_context (trace_job jp) data = Ok data' -> same_account data data'.
Proof. apply on_context_account. intros. by eapply trace_job_store. Qed.

Lemma with_job_states jp f c :
  (forall j, state (f j) = state j) -> states (with_job jp f c) = states c.
Proof.
  intros Hf. unfold states, with_job. cbn. apply map_eq. intros i. rewrite !lookup_fmap.
  destruct (decide (i = jp)) as [->|Hne].
  - rewrite lookup_alter_eq. destruct (_ !! jp) as [j|]; [cbn; by rewrite Hf|done].
  - by rewrite lookup_alter_ne.
Qed.

Lemma with_job_set_state jp f c s j :
  (forall j, state (f j) = s) -> s_jobs (c_store c) !! jp = Some j ->
  states (with_job jp f c) = <[jp := s]> (states c).
Proof.
  intros Hf Hj. unfold states, with_job. cbn. apply map_eq. intros i.
  rewrite lookup_fmap. destruct (decide (i = jp)) as [->|Hne].
  - rewrite lookup_alter_eq, Hj, lookup_insert_eq. cbn. by rewrite Hf.
  - rewrite lookup_alter_ne, lookup_insert_ne, lookup_fmap by done. done.
Qed.

(** The number of jobs in a state, outside of some jobs. *)
Definition jobs_in (s : JobState) (R : gset positive) (st : gmap positive JobState) : Z :=
  Z.of_nat (size (filter (fun kv => kv.2 = s /\ kv.1 ∉ R) st)).

Lemma jobs_in_fresh s R (st : gmap positive JobState) jp x :
  st !! jp = None -> jp ∉ R -> jobs_in s R (<[jp := x]> st) = jobs_in s R st + (if decide (x = s) then 1 else 0).
Proof.
  intros Hn HR. unfold jobs_in. rewrite map_filter_insert. cbn. destruct (decide (x = s)).
  - rewrite decide_True by done. rewrite map_size_insert_None; [lia|].
    apply map_lookup_filter_None. by left.
  - rewrite decide_False by tauto. rewrite delete_id by done. lia.
Qed.

Lemma jobs_in_insert s R (st : gmap positive JobState) jp old new :
  st !! jp = Some old -> jp ∉ R ->
  jobs_in s R (<[jp := new]> st) =
  jobs_in s R st + (if decide (new = s) then 1 else 0) - (if decide (old = s) then 1 else 0).
Proof.
  intros Hst HR. rewrite <- (insert_delete_eq st jp new).
  rewrite <- (insert_id st jp old Hst) at 2. rewrite <- (insert_delete_eq st jp old).
  rewrite !jobs_in_fresh by (done || apply lookup_delete_eq). lia.
Qed.

Lemma jobs_in_positive s R (st : gmap positive JobState) jp :
  st !! jp = Some s -> jp ∉ R -> 1 <= jobs_in s R st.
Proof.
  intros Hjp HR. rewrite <- (insert_id st jp _ Hjp), <- (insert_delete_eq st).
  rewrite jobs_in_fresh by (done || apply lookup_delete_eq). rewrite decide_True by done.
  unfold jobs_in. lia.
Qed.

(** *** The messages that change nothing of the account *)

Lemma on_job_account jp f data :
  (forall j, state (f j) = state j) -> same_account data (data <| sd_context ::= with_job jp f |>).
Proof. intros Hf. unfold same_account, job_states. cbn -[with_job states]. by rewrite with_job_states. Qed.

Lemma foldM_account {A} (f : Data -> A -> result Data) l data data' :
  (forall d a d', f d a = Ok d' -> same_account d d') -> foldM f data l = Ok data' -> same_account data data'.
Proof.
  intros Hf. apply (foldM_inv (fun d => same_account data d)); [done|].
  intros d a d' _ Hd Ha. rewrite Hd. by eapply Hf.
Qed.

Lemma hello_account data m data' : server_on_submitter_hello data m = Ok data' -> same_account data data'.
Proof.
  unfold server_on_submitter_hello. destruct (msg_data m); try done.
  intros (u & _ & (u' & _ & [= <-])%bind_Ok)%bind_Ok. by destruct submitter_type.
Qed.

Lemma update_counters_account t f data : same_account data (update_counters t f data).
Proof. by destruct t. Qed.

Lemma bye_account data m data' : server_on_submitter_bye data m = Ok data' -> same_account data data'.
Proof.
  unfold server_on_submitter_bye. destruct (msg_data m) eqn:Hm; try done.
  destruct (submitters data !! _); [|done]. intros Hr.
  set (d := update_counters submitter_type _ _) in Hr.
  assert (same_account data d) as Hd by by destruct submitter_type. clearbody d. rewrite Hd.
  destruct submitter_type.
  - apply bind_Ok in Hr as (d1 & H1' & [= <-]).
    assert (same_account d d1) as Hd1.
    { destruct (all_submitters_finished _); [by eapply write_account|by injection H1' as <-]. }
    rewrite Hd1. by destruct is_workflow_submitter.
  - destruct (all_submitters_finished _); [by eapply write_account|by injection Hr as <-].
Qed.

Lemma set_metadata_account data m data' : server_on_set_job_metadata data m = Ok data' -> same_account data data'.
Proof.
  unfold server_on_set_job_metadata. destruct (msg_data m); try done.
  intros (jp & _ & [= <-])%bind_Ok. by apply on_job_account.
Qed.

Lemma to_job_account data m data' : server_on_to_job_msg data m = Ok data' -> same_account data data'.
Proof.
  unfold server_on_to_job_msg. destruct (msg_data m); try done.
  intros (jp & _ & [= <-])%bind_Ok. by apply on_job_account.
Qed.

Lemma from_job_account data m data' : server_on_from_job_msg data m = Ok data' -> same_account data data'.
Proof.
  unfold server_on_from_job_msg. destruct (msg_data m); try done.
  intros (jp & _ & Hr)%bind_Ok. by eapply write_account.
Qed.

Lemma mark_kill_account acc job_id acc' : mark_kill acc job_id = Ok acc' -> same_account acc.2 acc'.2.
Proof.
  destruct acc as [ids data]. unfold mark_kill.
  intros (b & _ & (u & _ & (jp & _ & (j & _ & Hr)%bind_Ok)%bind_Ok)%bind_Ok)%bind_Ok.
  destruct (kill_requested j); [by injection Hr as <-|].
  apply bind_Ok in Hr as (u' & _ & [= <-]). by apply on_job_account.
Qed.

Lemma kill_account data m data' : server_on_kill_jobs data m = Ok data' -> same_account data data'.
Proof.
  unfold server_on_kill_jobs. destruct (msg_data m); try done.
  intros ([ids d] & Hf & [= <-])%bind_Ok.
  assert (same_account data d) as Hd.
  { change d with (ids, d).2. revert Hf. apply (foldM_inv (fun acc => same_account data acc.2)); [done|].
    intros a x a' _ Ha Hx. rewrite Ha. by eapply mark_kill_account. }
  rewrite Hd. by destruct (0 <? _).
Qed.

Lemma call_me_later_account data m data' : server_on_call_me_later data m = Ok data' -> same_account data data'.
Proof.
  unfold server_on_call_me_later. destruct (msg_data m); try done.
  by intros (u & _ & (u' & _ & [= <-])%bind_Ok)%bind_Ok.
Qed.

Lemma on_event_account data e data' : on_event data e = Ok data' -> same_account data data'.
Proof.
  assert (forall f t (ms : IS), (forall c i c', f c i = Ok c' -> c_store c' = c_store c) ->
    (if 0 <? is_size ms
     then d ← on_context (fun c => foldM f c (elements_of ms)) data; write (append_notify_resource_event t ms) d
     else Ok data) = Ok data' -> same_account data data') as Havail.
  { intros f t ms Hf Hr. destruct (0 <? is_size ms); [|by injection Hr as <-].
    apply bind_Ok in Hr as (d & Hd & Hw%write_account). rewrite <- Hw.
    eapply on_context_account; [|exact Hd]. intros c c'. by apply foldM_store. }
  unfold on_event, server_on_event_machine_available, server_on_event_machine_unavailable, server_on_event_generic.
  destruct (ev_type e).
  - intros (ms & _ & Hr)%bind_Ok. eapply Havail; [|exact Hr].
    intros c i c' (mm & _ & (u & _ & Hs)%bind_Ok)%bind_Ok. eauto with batsim.
  - intros (ms & _ & Hr)%bind_Ok. eapply Havail; [|exact Hr].
    intros c i c' (mm & _ & (u & _ & Hs)%bind_Ok)%bind_Ok. eauto with batsim.
  - destruct (ev_data e); [done|]. apply write_account.
Qed.

Lemma event_account data m data' : server_on_event_occurred data m = Ok data' -> same_account data data'.
Proof.
  unfold server_on_event_occurred. destruct (msg_data m); try done.
  apply foldM_account. exact on_event_account.
Qed.

(** *** Power states *)

Lemma pstate_type_account i p data t data' : pstate_type_of i p data = Ok (t, data') -> same_account data data'.
Proof.
  unfold pstate_type_of. intros ([t' c] & Hc%machine_pstate_type_store & [= <- <-])%bind_Ok.
  unfold same_account, job_states, states. cbn. by rewrite Hc.
Qed.

Lemma marked_account i p data r c :
  mark_switch_as_done englobing_zone i p (sd_context data) = Ok (r, c) -> same_account data (data <| sd_context := c |>).
Proof.
  intros Hc%mark_switch_as_done_store. unfold same_account, job_states, states. cbn. by rewrite Hc.
Qed.

Lemma acknowledge_account (r : option IS) (f : IS -> Data -> result Data) data data' :
  (forall ms d d', f ms d = Ok d' -> same_account d d') ->
  match r with Some ms => f ms data | None => Ok data end = Ok data' -> same_account data data'.
Proof. intros Hf. destruct r; [apply Hf|by intros [= <-]]. Qed.

Lemma change_pstate_account i p data data' : change_pstate_now englobing_zone i p data = Ok data' -> same_account data data'.
Proof.
  unfold change_pstate_now. intros (m & _ & (u & _ & ([r c] & Hc & Hr)%bind_Ok)%bind_Ok)%bind_Ok.
  apply marked_account in Hc.
  apply (acknowledge_account r (fun ms => write (append_resource_state_changed ms (fmt_d p)))) in Hr;
    [|intros; by eapply write_account].
  rewrite <- Hr, <- Hc. done.
Qed.

Lemma start_switch_account i s p data data' : start_switch i s p data = Ok data' -> same_account data data'.
Proof.
  unfold start_switch. intros (d & Hd & [= <-])%bind_Ok.
  apply on_context_account in Hd; [|intros; by eapply set_machine_state_store]. by rewrite Hd.
Qed.

Lemma modify_machine_account p data i data' :
  modify_machine_pstate englobing_zone p data i = Ok data' -> same_account data data'.
Proof.
  unfold modify_machine_pstate. intros (m & _ & ([t d] & Hd%pstate_type_account & Hr)%bind_Ok)%bind_Ok. rewrite Hd.
  destruct t; [| |by injection Hr as <-];
    apply bind_Ok in Hr as ([t d2] & Hd2%pstate_type_account & Hr); rewrite Hd2.
  - destruct t; [by eapply change_pstate_account|by eapply start_switch_account|by injection Hr as <-].
  - apply bind_Ok in Hr as (u & _ & Hr). by eapply start_switch_account.
Qed.

Lemma trace_states_account data data' : trace_states_of_machines data = Ok data' -> same_account data data'.
Proof.
  unfold trace_states_of_machines. destruct (trace_machine_states _); [|by intros [= <-]].
  apply on_context_account. intros. eauto with batsim.
Qed.

Lemma pstate_modification_account data m data' :
  server_on_pstate_modification englobing_zone data m = Ok data' -> same_account data data'.
Proof.
  unfold server_on_pstate_modification. intros (u & _ & Hr)%bind_Ok. destruct (msg_data m); try done.
  apply bind_Ok in Hr as (d1 & H1' & Hr). apply on_context_account in H1'; [|eauto with batsim].
  apply bind_Ok in Hr as (d2 & H2' & Hr).
  assert (same_account d1 d2) as H2.
  { destruct (environmental_footprint_used _); [|by injection H2' as <-].
    eapply on_context_account; [|exact H2']. eauto with batsim. }
  apply bind_Ok in Hr as (first & _ & ([t d3] & H3%pstate_type_account & (d4 & H4' & Hr)%bind_Ok)%bind_Ok).
  apply on_context_account in H4'; [|eauto with batsim].
  apply bind_Ok in Hr as (d5 & H5' & Hr%trace_states_account).
  apply foldM_account in H5'; [|intros; by eapply modify_machine_account].
  rewrite <- Hr, <- H5'. etransitivity; [|etransitivity; [exact H4'|done]].
  rewrite <- H3, <- H2, <- H1'. done.
Qed.

Lemma switched_account data m data' : server_on_switched englobing_zone data m = Ok data' -> same_account data data'.
Proof.
  unfold server_on_switched. destruct (msg_data m); try done.
  intros (u & _ & (mm & _ & (u' & _ & ([r c] & Hc%marked_account & (d & Hd & [= <-])%bind_Ok)%bind_Ok)%bind_Ok)%bind_Ok)%bind_Ok.
  apply (acknowledge_account r (fun ms data =>
    d ← trace_states_of_machines data; write (append_resource_state_changed ms (fmt_d new_pstate)) d)) in Hd.
  - rewrite Hc, Hd. done.
  - intros ms d1 d2 (d3 & H3%trace_states_account & H4%write_account)%bind_Ok. by rewrite H3.
Qed.

Lemma waiting_done_account data m data' : server_on_waiting_done data m = Ok data' -> same_account data data'.
Proof. unfold server_on_waiting_done. intros (d & Hd%write_account & [= <-])%bind_Ok. by rewrite Hd. Qed.

Lemma sched_ready_account data m data' : server_on_sched_ready data m = Ok data' -> same_account data data'.
Proof. unfold server_on_sched_ready. intros [= <-]. by destruct (end_of_simulation_sent _). Qed.

Lemma wait_answer_account data m data' : server_on_sched_wait_answer data m = Ok data' -> same_account data data'.
Proof. unfold server_on_sched_wait_answer. destruct (msg_data m); try done. by intros [= <-]. Qed.

Lemma tell_me_account data m data' :
  server_on_sched_tell_me_energy data m = Ok data' \/ server_on_sched_tell_me_carbon_footprint data m = Ok data' \/
  server_on_sched_tell_me_water_footprint data m = Ok data' -> same_account data data'.
Proof. by intros [(u & _ & Hw%write_account)%bind_Ok|[(u & _ & Hw%write_account)%bind_Ok|(u & _ & Hw%write_account)%bind_Ok]]. Qed.

(** *** What follows a message *)

Lemma generate_and_send_account data data' : generate_and_send_message data = Ok data' -> same_account data data'.
Proof. unfold generate_and_send_message. by intros ([v w] & _ & [= <-])%bind_Ok. Qed.

Lemma delete_completed_account n data data' : delete_completed_jobs n data = Ok data' -> same_account data data'.
Proof.
  unfold delete_completed_jobs. destruct (jobs_to_be_deleted data); [by intros [= <-]|].
  by intros (ws & _ & [= <-])%bind_Ok.
Qed.

Lemma talk_account n b data data' : talk_to_scheduler n b data = Ok data' -> same_account data data'.
Proof.
  unfold talk_to_scheduler. destruct (_ && b); [|by intros [= <-]].
  destruct (negb _).
  - intros (d & Hd%generate_and_send_account & Hr%delete_completed_account)%bind_Ok. by rewrite Hd.
  - destruct (_ && _); [|by intros [= <-]].
    intros (d & Hd%write_account & (d' & Hd'%generate_and_send_account & [= <-])%bind_Ok)%bind_Ok.
    by rewrite Hd, Hd'.
Qed.

(** *** The account *)

(** [R] is the set of the jobs that the scheduler has registered and of which
    the server has not received the message yet. *)
Definition accounted (R : gset positive) data : Prop :=
  nb_submitted_jobs data =
    nb_completed_jobs data + nb_running_jobs data + jobs_in JOB_STATE_SUBMITTED R (job_states data) /\
  0 <= nb_running_jobs data /\ 0 <= nb_completed_jobs data /\
  (forall jp, jp ∈ R -> job_states data !! jp = Some JOB_STATE_SUBMITTED).

Lemma same_account_accounted R data data' : same_account data data' -> accounted R data -> accounted R data'.
Proof. intros (Hs & H1' & H2' & H3'). unfold accounted. by rewrite Hs, H1', H2', H3'. Qed.

Lemma job_stops_Ok data data' :
  job_stops data = Ok data' ->
  job_states data' = job_states data /\ nb_submitted_jobs data' = nb_submitted_jobs data /\
  nb_completed_jobs data' = nb_completed_jobs data + 1 /\ nb_running_jobs data' = nb_running_jobs data - 1 /\
  0 <= nb_running_jobs data'.
Proof.
  unfold job_stops. intros (u & Hu%xbt_assert_Ok & (u' & _ & [= <-])%bind_Ok)%bind_Ok.
  apply Z.leb_le in Hu. unfold job_states. cbn in *. split_and!; try done; lia.
Qed.

Lemma job_stops_accounted R data data' : job_stops data = Ok data' -> accounted R data -> accounted R data'.
Proof.
  intros (Hs & Hsub & Hc & Hr & Hpos)%job_stops_Ok (Ha & Hr0 & Hc0 & HR). unfold accounted.
  rewrite Hs, Hsub, Hc. split_and!; [lia|done|lia|done].
Qed.

Lemma job_starts_Ok data data' :
  job_starts data = Ok data' -> data' = data <| nb_running_jobs ::= Z.add 1 |>.
Proof. unfold job_starts. by intros (u & _ & [= <-])%bind_Ok. Qed.

Lemma announce_completion_account jp data data' : announce_completion jp data = Ok data' -> same_account data data'.
Proof.
  unfold announce_completion.
  intros (j & _ & (d & Hd%write_account & (d' & Hd'%trace_account & [= <-])%bind_Ok)%bind_Ok)%bind_Ok.
  by rewrite Hd, Hd'.
Qed.

Lemma call_submitter_back_account i data data' : call_submitter_back i data = Ok data' -> same_account data data'.
Proof.
  unfold call_submitter_back. destruct (origin_of_jobs data !! _); [|by intros [= <-]].
  by intros (x & _ & [= <-])%bind_Ok.
Qed.

Lemma job_completed_accounted R data m data' :
  server_on_job_completed data m = Ok data' -> accounted R data -> accounted R data'.
Proof.
  unfold server_on_job_completed. destruct (msg_data m); try done.
  intros (j & _ & (d & Hd & (d' & Hd' & Hr)%bind_Ok)%bind_Ok)%bind_Ok Ha.
  eapply same_account_accounted; [by eapply announce_completion_account|].
  eapply job_stops_accounted; [done|]. eapply same_account_accounted; [|done].
  by eapply call_submitter_back_account.
Qed.

Lemma killing_done_accounted R data m data' :
  server_on_killing_done data m = Ok data' -> accounted R data -> accounted R data'.
Proof.
  unfold server_on_killing_done. destruct (msg_data m); try done.
  intros ([progress d] & Hf & (d' & Hd' & [= <-])%bind_Ok)%bind_Ok Ha.
  assert (accounted R d) as Hd.
  { change d with (progress, d).2. revert Hf. apply (foldM_inv (fun acc => accounted R acc.2)); [done|].
    intros [pr d1] i [pr' d2] _ Hd1 Hi. unfold killing_done_job in Hi.
    apply bind_Ok in Hi as (jp & _ & (j & _ & Hi)%bind_Ok). destruct (bool_decide _); [|by injection Hi as _ <-].
    apply bind_Ok in Hi as (d3 & H3 & (d4 & H4%announce_completion_account & [= _ <-])%bind_Ok).
    eapply same_account_accounted; [exact H4|]. by eapply job_stops_accounted. }
  assert (same_account d d') as Hdd.
  { destruct acknowledge_kill_on_protocol; [by eapply write_account|by injection Hd' as <-]. }
  by eapply same_account_accounted; [|exact Hd].
Qed.

Lemma announce_submission_account jp data data' : announce_submission jp data = Ok data' -> same_account data data'.
Proof. unfold announce_submission. by intros (j & _ & ([a b] & _ & Hr%write_account)%bind_Ok)%bind_Ok. Qed.

Lemma job_state_of c jp j : s_jobs (c_store c) !! jp = Some j -> states c !! jp = Some (state j).
Proof. intros Hj. unfold states. by rewrite lookup_fmap, Hj. Qed.

(** Setting the state of a job that was not submitted, or no longer is. *)
Lemma set_state_accounted R data jp f s j n :
  accounted R data -> jp ∉ R -> s_jobs (c_store (sd_context data)) !! jp = Some j -> (forall j, state (f j) = s) ->
  0 <= nb_running_jobs n -> 0 <= nb_completed_jobs n ->
  job_states n = states (with_job jp f (sd_context data)) ->
  nb_submitted_jobs n - nb_completed_jobs n - nb_running_jobs n =
    nb_submitted_jobs data - nb_completed_jobs data - nb_running_jobs data +
    (if decide (s = JOB_STATE_SUBMITTED) then 1 else 0) - (if decide (state j = JOB_STATE_SUBMITTED) then 1 else 0) ->
  accounted R n.
Proof.
  intros (Ha & Hr & Hc & HR) Hjp Hj Hf Hr' Hc' Hs Hn. unfold accounted. rewrite Hs.
  rewrite (with_job_set_state jp f _ s j Hf Hj). rewrite (jobs_in_insert _ _ _ _ (state j)); [|by apply job_state_of|done].
  fold (job_states data). split_and!; [lia|done|done|].
  intros jp' Hjp'. rewrite lookup_insert_ne by (intros ->; done). by apply HR.
Qed.

Lemma submit_one_accounted R ptr called_back data jp data' :
  submit_one_job ptr called_back data jp = Ok data' -> jp ∉ R ->
  job_states data !! jp ≠ Some JOB_STATE_SUBMITTED -> accounted R data ->
  accounted R data' /\ (forall jp', jp' ≠ jp -> job_states data' !! jp' = job_states data !! jp').
Proof.
  unfold submit_one_job. intros (j & Hj%the_job_Ok & (d & Hd & Hr%announce_submission_account)%bind_Ok)%bind_Ok HR Hst Ha.
  assert (sd_context d = sd_context data /\ same_account data d) as [Hctx Hsame].
  { destruct called_back; [|by injection Hd as <-]. by apply bind_Ok in Hd as (u & _ & [= <-]). }
  rewrite <- Hctx in Hj. apply (same_account_accounted _ _ _ Hsame) in Ha.
  pose proof (job_state_of _ _ _ Hj) as Hjs. fold (job_states d) in Hjs.
  destruct Hsame as (Hs & _). split.
  - eapply same_account_accounted; [exact Hr|].
    eapply (set_state_accounted R d jp (fun j => j <| state := JOB_STATE_SUBMITTED |>) JOB_STATE_SUBMITTED j);
      try done; try apply Ha.
    rewrite decide_True by done. rewrite decide_False by (rewrite Hs in Hjs; congruence). cbn. lia.
  - intros jp' Hne. destruct Hr as (-> & _). rewrite <- Hs. unfold job_states. cbn -[with_job states].
    rewrite (with_job_set_state jp _ _ JOB_STATE_SUBMITTED j) by done. by rewrite lookup_insert_ne.
Qed.

Lemma job_submitted_accounted R data m data' name jobs :
  msg_data m = JobSubmittedMessage name jobs -> NoDup jobs ->
  (forall jp, jp ∈ jobs -> (jp ∉ R) /\ job_states data !! jp ≠ Some JOB_STATE_SUBMITTED) ->
  server_on_job_submitted data m = Ok data' -> accounted R data -> accounted R data'.
Proof.
  intros Hm Hnd Hjobs. unfold server_on_job_submitted. rewrite Hm.
  destruct (ignores_submissions data); [by intros [= <-]|]. destruct (submitters data !! name); [|done].
  intros (sub & _ & Hf)%bind_Ok Ha.
  refine (proj1 (foldM_inv_rest (fun d l => accounted R d /\ NoDup l /\
    forall jp, jp ∈ l -> (jp ∉ R) /\ job_states d !! jp ≠ Some JOB_STATE_SUBMITTED) _ jobs data data' _ _ Hf)); [done|].
  intros d jp l d' (Hd & Hndl & Hl) Hs. apply NoDup_cons in Hndl as [Hjp Hndl].
  destruct (Hl jp (list_elem_of_here _ _)) as [HjR Hjst].
  destruct (submit_one_accounted _ _ _ _ _ _ Hs HjR Hjst Hd) as [Hd' Hother].
  split_and!; [done|done|]. intros jp' Hjp'.
  rewrite Hother by (intros ->; done). apply Hl. by right.
Qed.

(** *** Requests on a job *)

Lemma reject_accounted R data m data' job_id :
  msg_data m = JobRejectedMessage job_id ->
  (forall jp, job_at (c_workloads (sd_context data)) job_id = Ok jp -> jp ∉ R) ->
  server_on_reject_job data m = Ok data' -> accounted R data -> accounted R data'.
Proof.
  intros Hm HR. unfold server_on_reject_job. rewrite Hm.
  intros (jp & Hjp & (j & Hj%the_job_Ok & (u & Hst%xbt_assert_Ok & (d & Hd%trace_account & [= <-])%bind_Ok)%bind_Ok)%bind_Ok)%bind_Ok Ha.
  apply bool_decide_eq_true in Hst.
  assert (jp ∉ R) as HjR.
  { apply HR. unfold registered_job in Hjp. apply bind_Ok in Hjp as ([] & _ & Hjp); [done|done]. }
  apply (same_account_accounted _ d); [done|]. eapply same_account_accounted; [exact Hd|].
  eapply (set_state_accounted R data jp (fun j => j <| state := JOB_STATE_REJECTED |>) JOB_STATE_REJECTED j);
    try done; try (apply Ha); cbn.
  - destruct Ha as (_ & _ & ? & _). lia.
  - rewrite decide_False, decide_True by done. lia.
Qed.

Lemma execute_accounted R data m data' alloc io :
  msg_data m = ExecuteJobMessage alloc io -> sa_job alloc ∉ R ->
  server_on_execute_job data m = Ok data' -> accounted R data -> accounted R data'.
Proof.
  intros Hm HR. unfold server_on_execute_job. rewrite Hm.
  intros (j & Hj%the_job_Ok & (u & Hst%xbt_assert_Ok & (d & Hd%job_starts_Ok & (u' & _ & Hr)%bind_Ok)%bind_Ok)%bind_Ok)%bind_Ok Ha.
  apply bool_decide_eq_true in Hst.
  apply bind_Ok in Hr as (first & _ & (mm & _ & Hr)%bind_Ok).
  unfold create_actor in Hr. injection Hr as <-. subst d.
  eapply (set_state_accounted R data (sa_job alloc) (fun j => j <| state := JOB_STATE_RUNNING |>) JOB_STATE_RUNNING j);
    try done; try (apply Ha); cbn -[with_job states].
  - destruct Ha as (_ & ? & _). lia.
  - unfold job_states. cbn -[with_job states]. rewrite with_job_states by done. done.
  - rewrite decide_False, decide_True by done. lia.
Qed.

(** A job that is not complete cannot be traced. *)
Lemma trace_job_incomplete jp c j : the_job c jp = Ok j -> is_complete j = false -> is_ok (trace_job jp c) = false.
Proof.
  intros Hj Hc. unfold trace_job, write_job, update_metrics. rewrite Hj. csimpl. by rewrite Hc.
Qed.

Lemma change_job_state_Ok data m data' job_id s :
  msg_data m = ChangeJobStateMessage job_id s -> server_on_change_job_state data m = Ok data' ->
  exists jp j, job_at (c_workloads (sd_context data)) job_id = Ok jp /\
    s_jobs (c_store (sd_context data)) !! jp = Some j /\ state j = JOB_STATE_SUBMITTED /\
    job_state_from_string s = Ok JOB_STATE_RUNNING /\
    exists d, job_starts (data <| sd_context ::= with_job jp (fun j => j <| starting_time := time_of data |>) |>) = Ok d /\
      data' = d <| sd_context ::= with_job jp (fun j => j <| state := JOB_STATE_RUNNING |>) |>.
Proof.
  intros Hm. unfold server_on_change_job_state. rewrite Hm.
  intros (jp & Hjp & (j & Hj & (new & Hnew & (d & Hd & [= <-])%bind_Ok)%bind_Ok)%bind_Ok)%bind_Ok.
  unfold registered_job in Hjp. apply bind_Ok in Hjp as ([] & _ & Hjp); [|done].
  exists jp, j. split; [done|]. split; [by apply the_job_Ok|]. 
  unfold change_state_effects in Hd. destruct (state j) eqn:Hs; try done.
  - destruct new; try done.
    + by eauto.
    + exfalso. apply bind_Ok in Hd as (u & _ & (d' & Hd' & _)%bind_Ok).
      apply bind_Ok in Hd' as (c & Hc & _).
      assert (is_ok (trace_job jp (sd_context data)) = false) as Hno.
      { eapply trace_job_incomplete; [exact Hj|]. unfold is_complete. by rewrite Hs. }
      exact (not_ok _ _ Hno Hc).
  - exfalso. assert (exists d0 d1, job_stops (data <| sd_context ::=
        with_job jp (fun j => j <| runtime := (time_of data - starting_time j)%Q |>) |>) = Ok d0 /\
      on_context (trace_job jp) d0 = Ok d1) as (d0 & d1 & Hstop & Htr).
    { destruct new; try done;
        apply bind_Ok in Hd as (d0 & H0' & (d1 & H1' & _)%bind_Ok); by exists d0, d1. }
    unfold job_stops in Hstop. apply bind_Ok in Hstop as (u & _ & (u' & _ & [= <-])%bind_Ok).
    apply bind_Ok in Htr as (c & Hc & _).
    assert (is_ok (trace_job jp (with_job jp (fun j => j <| runtime := (time_of data - starting_time j)%Q |>)
       (sd_context data))) = false) as Hno.
    { eapply trace_job_incomplete.
      - unfold the_job, deref_job, with_job. cbn. rewrite lookup_alter_eq.
        apply the_job_Ok in Hj. rewrite Hj. reflexivity.
      - unfold is_complete. cbn. by rewrite Hs. }
    exact (not_ok _ _ Hno Hc).
Qed.

Lemma change_state_accounted R data m data' job_id s :
  msg_data m = ChangeJobStateMessage job_id s ->
  (forall jp, job_at (c_workloads (sd_context data)) job_id = Ok jp -> jp ∉ R) ->
  server_on_change_job_state data m = Ok data' -> accounted R data -> accounted R data'.
Proof.
  intros Hm HR Hr Ha.
  destruct (change_job_state_Ok _ _ _ _ _ Hm Hr) as (jp & j & Hjp & Hj & Hs & _ & d & Hd%job_starts_Ok & ->).
  subst d. specialize (HR _ Hjp).
  eapply (set_state_accounted R data jp (fun j => j <| starting_time := time_of data |> <| state := JOB_STATE_RUNNING |>)
            JOB_STATE_RUNNING j); try done; try (apply Ha); cbn -[with_job states].
  - destruct Ha as (_ & ? & _). lia.
  - unfold job_states. cbn -[with_job states]. unfold with_job. cbn. unfold states. cbn. 
    by rewrite alter_alter_eq.
  - rewrite decide_False, decide_True by done. lia.
Qed.

Lemma jobs_in_forget s R (st : gmap positive JobState) jp :
  jp ∈ R -> st !! jp = Some s -> jobs_in s (R ∖ {[jp]}) st = jobs_in s R st + 1.
Proof.
  intros HR Hst. rewrite <- (insert_id st jp s Hst), <- (insert_delete_eq st jp s).
  rewrite jobs_in_fresh by (apply lookup_delete_eq || set_solver). rewrite decide_True by done.
  f_equal. unfold jobs_in. rewrite (map_filter_insert _ _ jp s). cbn.
  rewrite decide_False by tauto. rewrite delete_delete_eq.
  do 2 f_equal. apply map_filter_strong_ext. intros i x. cbn.
  destruct (decide (i = jp)) as [->|Hne]; [rewrite lookup_delete_eq; naive_solver|].
  set_solver.
Qed.

Lemma register_accounted R data m data' jp text :
  msg_data m = JobRegisteredByDPMessage jp text -> jp ∈ R ->
  server_on_register_job data m = Ok data' -> accounted R data -> accounted (R ∖ {[jp]}) data'.
Proof.
  intros Hm HR. unfold server_on_register_job. rewrite Hm. intros Hr (Ha & Hr0 & Hc0 & HRs).
  assert (same_account (data <| nb_submitted_jobs ::= Z.add 1 |>) data') as Hs.
  { destruct (registration_sched_ack _); [by eapply announce_submission_account|by injection Hr as <-]. }
  eapply same_account_accounted; [exact Hs|].
  change (job_states data) with (job_states (data <| nb_submitted_jobs ::= Z.add 1 |>)) in Ha, HRs.
  unfold accounted. rewrite jobs_in_forget by auto. cbn -[jobs_in job_states] in *. split_and!; [lia|done|done|].
  intros jp' Hjp'. apply HRs. set_solver.
Qed.

(** *** All the messages *)

(** The jobs registered and not announced yet, once the message is handled. *)
Definition still_registered (R : gset positive) m : gset positive :=
  match msg_type m, msg_data m with
  | JOB_REGISTERED_BY_DP, JobRegisteredByDPMessage jp _ => R ∖ {[jp]}
  | _, _ => R
  end.

(** What the senders of messages guarantee: a submitter sends a job once, before
    any request on it; the scheduler's requests on a job it registers come
    after the registration. *)
Definition well_sent (R : gset positive) data m : Prop :=
  match msg_data m with
  | JobSubmittedMessage _ jobs =>
      NoDup jobs /\ forall jp, jp ∈ jobs -> (jp ∉ R) /\ job_states data !! jp ≠ Some JOB_STATE_SUBMITTED
  | JobRegisteredByDPMessage jp _ => jp ∈ R
  | ExecuteJobMessage alloc _ => sa_job alloc ∉ R
  | ChangeJobStateMessage job_id _ | JobRejectedMessage job_id =>
      forall jp, job_at (c_workloads (sd_context data)) job_id = Ok jp -> jp ∉ R
  | _ => True
  end.

Lemma handle_message_accounted R data m data' :
  well_sent R data m -> handle_message englobing_zone data m = Ok data' -> accounted R data ->
  accounted (still_registered R m) data'.
Proof.
  intros Hw Hh Ha. unfold handle_message in Hh. apply bind_Ok in Hh as (h & Hh%of_option_Ok & Hr).
  unfold still_registered. unfold well_sent in Hw.
  destruct (msg_type m) eqn:Ht; cbn in Hh; try discriminate Hh; injection Hh as <-;
    try (eapply same_account_accounted; [|exact Ha];
         by eauto using hello_account, bye_account, set_metadata_account, to_job_account, from_job_account,
           kill_account, call_me_later_account, event_account, pstate_modification_account, switched_account,
           waiting_done_account, sched_ready_account, wait_answer_account, tell_me_account);
    try (by eauto using job_completed_accounted, killing_done_accounted).
  - unfold server_on_job_submitted in Hr. destruct (ignores_submissions data) eqn:Hi; [by injection Hr as <-|].
    destruct (msg_data m) eqn:Hm; try done. destruct Hw as [Hnd Hw].
    eapply job_submitted_accounted; [exact Hm|exact Hnd|exact Hw| |exact Ha].
    unfold server_on_job_submitted. by rewrite Hi, Hm.
  - destruct (msg_data m) eqn:Hm; try (unfold server_on_register_job in Hr; by rewrite Hm in Hr).
    by eapply register_accounted.
  - unfold server_on_register_profile in Hr. destruct (msg_data m); try done. by injection Hr as <-.
  - destruct (msg_data m) eqn:Hm; try (unfold server_on_execute_job in Hr; by rewrite Hm in Hr).
    by eapply execute_accounted.
  - destruct (msg_data m) eqn:Hm; try (unfold server_on_change_job_state in Hr; by rewrite Hm in Hr).
    by eapply change_state_accounted.
  - destruct (msg_data m) eqn:Hm; try (unfold server_on_reject_job in Hr; by rewrite Hm in Hr).
    by eapply reject_accounted.
  - eapply same_account_accounted; [|exact Ha]. unfold server_on_end_dynamic_register in Hr. by injection Hr as <-.
  - eapply same_account_accounted; [|exact Ha]. unfold server_on_continue_dynamic_register in Hr. by injection Hr as <-.
Qed.

(** *** The server among the other processes *)

(** Between two messages, the other processes change the context, but they
    neither submit a job nor take a submitted job away; the process that reads
    the scheduler's answer may create a job, submitted. *)
Inductive server_step (stack_depth : nat) : gset positive * Data -> gset positive * Data -> Prop :=
| step_others R data c :
    (forall jp, states c !! jp = Some JOB_STATE_SUBMITTED <-> job_states data !! jp = Some JOB_STATE_SUBMITTED) ->
    server_step stack_depth (R, data) (R, data <| sd_context := c |>)
| step_register R data c jp :
    job_states data !! jp = None -> states c = <[jp := JOB_STATE_SUBMITTED]> (job_states data) ->
    server_step stack_depth (R, data) ({[jp]} ∪ R, data <| sd_context := c |>)
| step_message R data m mailbox_empty data' :
    well_sent R data m ->
    server_iteration englobing_zone stack_depth data (m, mailbox_empty) = Ok data' ->
    server_step stack_depth (R, data) (still_registered R m, data')
| step_sends_back R data m mbox data' p :
    sends_back englobing_zone data m = Ok (Some (mbox, data', p)) ->
    server_step stack_depth (R, data) (R, data')
| step_talks R data mailbox_empty data' :
    talk_to_scheduler stack_depth mailbox_empty data = Ok data' ->
    server_step stack_depth (R, data) (R, data').

(** An iteration is the message that is sent back, if any, and what follows. *)
Lemma sends_back_inv data m mbox data' p :
  sends_back englobing_zone data m = Ok (Some (mbox, data', p)) ->
  (exists jp j, p = Handling m /\ msg_type m = JOB_COMPLETED /\ msg_data m = JobCompletedMessage jp /\
     the_job (sd_context data) jp = Ok j /\ call_submitter_back (id j) data = Ok data') \/
  (p = Handled /\ msg_type m = SCHED_WAIT_ANSWER /\ handle_message englobing_zone data m = Ok data').
Proof.
  unfold sends_back. destruct (msg_type m) eqn:Ht; try done; destruct (msg_data m) eqn:Hd; try done.
  - intros (j & Hj & Hr)%bind_Ok. left. destruct (origin_of_jobs data !! _); [|done].
    apply bind_Ok in Hr as (s & _ & (d & Hc & [= _ <- <-])%bind_Ok). by exists job, j.
  - intros (d & Hh & [= _ <- <-])%bind_Ok. by right.
Qed.

Lemma call_submitter_back_once data i data' :
  call_submitter_back i data = Ok data' ->
  origin_of_jobs data' !! ji_to_string i = None /\ c_store (sd_context data') = c_store (sd_context data).
Proof.
  unfold call_submitter_back. destruct (origin_of_jobs data !! ji_to_string i) eqn:Ho; [|by intros [= <-]].
  intros (x & _ & [= <-])%bind_Ok. split; [apply lookup_delete_eq|done].
Qed.

Lemma iteration_in_two_parts n data m mbox data' p mailbox_empty :
  sends_back englobing_zone data m = Ok (Some (mbox, data', p)) ->
  goes_on englobing_zone n data' p mailbox_empty = server_iteration englobing_zone n data (m, mailbox_empty).
Proof.
  intros [(jp & j & -> & Ht & Hd & Hj & Hc)|(-> & _ & Hh)]%sends_back_inv; cbn [goes_on]; unfold server_iteration; cbn [fst snd];
    [|by rewrite Hh].
  f_equal. unfold handle_message. rewrite Ht. cbn. unfold server_on_job_completed. rewrite Hd.
  destruct (call_submitter_back_once _ _ _ Hc) as [Hn Hst]. unfold the_job in *. rewrite Hst, Hj. cbn. rewrite Hc. cbn.
  unfold call_submitter_back. by rewrite Hn.
Qed.

Lemma sends_back_account data m mbox data' p :
  sends_back englobing_zone data m = Ok (Some (mbox, data', p)) -> same_account data data'.
Proof.
  intros [(jp & j & _ & _ & _ & _ & Hc%call_submitter_back_account)|(_ & Ht & Hh)]%sends_back_inv; [done|].
  unfold handle_message in Hh. rewrite Ht in Hh. cbn in Hh. by eapply wait_answer_account.
Qed.

Lemma jobs_in_same s R (st st' : gmap positive JobState) :
  (forall jp, st' !! jp = Some s <-> st !! jp = Some s) -> jobs_in s R st' = jobs_in s R st.
Proof.
  intros Hs. unfold jobs_in. do 2 f_equal. apply map_eq. intros jp. apply option_eq. intros x.
  rewrite !map_lookup_filter_Some. cbn. naive_solver.
Qed.

Lemma server_step_accounted n Rd Rd' :
  server_step n Rd Rd' -> accounted Rd.1 Rd.2 -> accounted Rd'.1 Rd'.2.
Proof.
  intros [R data c Hc|R data c jp Hnone Hc|R data m b data' Hw Hr|R data m mbox data' p Hb|R data b data' Ht]; cbn [fst snd].
  - intros (Ha & Hr & Hcpl & HR). unfold accounted, job_states. cbn [sd_context] in *.
    change (sd_context (data <| sd_context := c |>)) with c.
    rewrite (jobs_in_same _ _ (job_states data) (states c)) by exact Hc.
    split_and!; [done..|]. intros jp Hjp. by apply Hc, HR.
  - intros (Ha & Hr & Hcpl & HR). unfold accounted, job_states. 
    change (sd_context (data <| sd_context := c |>)) with c. rewrite Hc.
    assert (jobs_in JOB_STATE_SUBMITTED ({[jp]} ∪ R) (<[jp := JOB_STATE_SUBMITTED]> (job_states data)) =
            jobs_in JOB_STATE_SUBMITTED R (job_states data)) as ->.
    { unfold jobs_in. do 2 f_equal. apply map_eq. intros i. apply option_eq. intros x.
      rewrite !map_lookup_filter_Some. cbn. destruct (decide (i = jp)) as [->|Hne].
      - rewrite lookup_insert_eq, Hnone. set_solver.
      - rewrite lookup_insert_ne by done. set_solver. }
    split_and!; [done..|]. intros jp' [->%elem_of_singleton|Hjp']%elem_of_union; [apply lookup_insert_eq|].
    rewrite lookup_insert_ne; [by apply HR|]. intros <-. specialize (HR _ Hjp'). congruence.
  - intros Ha. unfold server_iteration in Hr. apply bind_Ok in Hr as (d & Hd & Ht%talk_account). cbn in *.
    eapply same_account_accounted; [exact Ht|]. by eapply handle_message_accounted.
  - apply same_account_accounted. by eapply sends_back_account.
  - apply same_account_accounted. by eapply talk_account.
Qed.

Lemma server_start_accounted c data :
  (forall jp, states c !! jp ≠ Some JOB_STATE_SUBMITTED) -> server_start c = Ok data -> accounted ∅ data.
Proof.
  intros Hc. unfold server_start.
  intros (d & Hd%write_account & (d' & Hd'%generate_and_send_account & [= <-])%bind_Ok)%bind_Ok.
  apply (same_account_accounted _ (initial_data c)); [by rewrite Hd, Hd'|].
  assert (jobs_in JOB_STATE_SUBMITTED ∅ (states c) = 0) as Hnone.
  { unfold jobs_in. rewrite (proj2 (map_empty_filter _ _)); [done|]. intros jp x Hx [Hs _]. cbn in Hs. subst. by apply (Hc jp). }
  unfold accounted. change (job_states (initial_data c)) with (states c). by rewrite Hnone.
Qed.

Lemma reachable_accounted n c data0 R data :
  (forall jp, states c !! jp ≠ Some JOB_STATE_SUBMITTED) -> server_start c = Ok data0 ->
  rtc (server_step n) (∅, data0) (R, data) -> accounted R data.
Proof.
  intros Hc Hs Hr. change (accounted (R, data).1 (R, data).2).
  apply server_start_accounted in Hs; [|done]. change (accounted ((∅ : gset positive), data0).1 ((∅ : gset positive), data0).2) in Hs.
  induction Hr as [Rd|Rd1 Rd2 Rd3 Hstep _ IH]; [done|]. apply IH. by eapply server_step_accounted.
Qed.

(** C3. The server's accounting of jobs: in every state it can reach, the jobs
    that it counts as submitted are those it counts as completed, those it
    counts as running, and the jobs waiting for a decision of the scheduler; so
    that no counter is negative, and the consistency checks of the counters
    hold when a job that waits is started or rejected. *)
Theorem job_accounting n c data0 R data :
  (forall jp, states c !! jp ≠ Some JOB_STATE_SUBMITTED) -> server_start c = Ok data0 ->
  rtc (server_step n) (∅, data0) (R, data) ->
  nb_submitted_jobs data =
    nb_completed_jobs data + nb_running_jobs data + jobs_in JOB_STATE_SUBMITTED R (job_states data) /\
  0 <= nb_running_jobs data /\ 0 <= nb_completed_jobs data /\
  (forall jp, job_states data !! jp = Some JOB_STATE_SUBMITTED -> jp ∉ R ->
     job_starts data = Ok (data <| nb_running_jobs ::= Z.add 1 |>) /\
     nb_completed_jobs data + 1 + nb_running_jobs data <= nb_submitted_jobs data).
Proof.
  intros Hc Hs Hr. destruct (reachable_accounted _ _ _ _ _ Hc Hs Hr) as (Ha & H1' & H2' & _).
  split_and!; [done..|]. intros jp Hjp HR.
  pose proof (jobs_in_positive _ _ _ _ Hjp HR).
  split; [|lia]. unfold job_starts. cbn.
  assert ((1 + nb_running_jobs data <=? nb_submitted_jobs data) = true) as -> by (apply Z.leb_le; lia). done.
Qed.

(** C10. The end of the simulation is announced once, and only when nothing is
    left to do: no job is waiting, running or being killed, no machine is
    switching, no call is pending, and all the submitters have finished.  When the
    scheduler acknowledges it, the loop ends and none of the final checks fails. *)
Theorem end_of_simulation_announced n c data0 R data b data' :
  (forall jp, states c !! jp ≠ Some JOB_STATE_SUBMITTED) -> server_start c = Ok data0 ->
  rtc (server_step n) (∅, data0) (R, data) ->
  talk_to_scheduler n b data = Ok data' ->
  (end_of_simulation_sent data = true -> end_of_simulation_sent data' = true) /\
  (end_of_simulation_sent data = false -> end_of_simulation_sent data' = true ->
     (forall jp, job_states data !! jp = Some JOB_STATE_SUBMITTED -> jp ∈ R) /\
     nb_running_jobs data = 0 /\ nb_switching_machines data = 0 /\ nb_waiters data = 0 /\ nb_killers data = 0 /\
     nb_submitters_finished (job_submitter_counters data) = expected_nb_submitters (job_submitter_counters data) /\
     nb_submitters_finished (event_submitter_counters data) = expected_nb_submitters (event_submitter_counters data) /\
     is_empty_writer (c_proto_writer (sd_context data)) = true /\ sched_ready data' = false /\
     forall m mailbox_empty, msg_type m = SCHED_READY ->
       exists data2, server_iteration englobing_zone n data' (m, mailbox_empty) = Ok data2 /\
         end_of_simulation_ack_received data2 = true /\ server_end data2 = Ok tt).
Proof.
  intros Hc Hs Hr Ht. destruct (reachable_accounted _ _ _ _ _ Hc Hs Hr) as (Ha & H1' & H2' & _).
  unfold talk_to_scheduler in Ht. destruct (_ && b); [|injection Ht as <-; split; congruence].
  destruct (negb (is_empty_writer _)) eqn:Hw.
  - apply bind_Ok in Ht as (d & Hd & Ht).
    assert (end_of_simulation_sent data' = end_of_simulation_sent data) as ->; [|split; congruence].
    unfold generate_and_send_message in Hd. apply bind_Ok in Hd as ([v w] & _ & [= <-]).
    unfold delete_completed_jobs in Ht. destruct (jobs_to_be_deleted _); [by injection Ht as <-|].
    by apply bind_Ok in Ht as (ws & _ & [= <-]).
  - destruct (is_simulation_finished data && _) eqn:Hf; [|injection Ht as <-; split; congruence].
    apply bind_Ok in Ht as (d & Hd & (d' & Hd' & [= <-])%bind_Ok). split; [done|]. intros _ _.
    apply andb_true_iff in Hf as [Hf _]. unfold is_simulation_finished, all_submitters_finished in Hf.
    rewrite !andb_true_iff, !Z.eqb_eq in Hf. destruct Hf as [[[[[[[? ?] _] ?] ?] ?] ?] ?].
    split_and!; try done.
    + intros jp Hjp. destruct (decide (jp ∈ R)) as [|HR]; [done|exfalso].
      pose proof (jobs_in_positive _ _ _ _ Hjp HR). lia.
    + by apply negb_false_iff in Hw.
    + unfold generate_and_send_message in Hd'. by apply bind_Ok in Hd' as ([v w] & _ & [= <-]).
    + intros m mailbox_empty Hm. unfold write, on_context in Hd. apply bind_Ok in Hd as (c1 & _ & [= <-]).
      unfold generate_and_send_message in Hd'. apply bind_Ok in Hd' as ([v w] & _ & [= <-]).
      unfold server_iteration, handle_message. cbn [fst snd]. rewrite Hm. eexists. split; [reflexivity|]. split; [done|].
      unfold server_end. cbn. rewrite !(proj2 (Z.eqb_eq _ _)) by done. done.
Qed.
End Accounting.

(** ** Requests of the scheduler *)

Section Requests.
Context {IS Engine Host V : Type}.
Context `{IntervalSet IS} `{SimGrid Engine Host} `{RapidJson V}.
#[local] Abbreviation Data := (ServerData IS Engine Host V).
#[local] Abbreviation Msg := (IPMessage IS Host).
Implicit Types (data : Data) (m : Msg).

Lemma foldM_unit {A} (f : A -> result unit) l u :
  foldM (fun _ a => f a) u l = Ok tt -> forall a, a ∈ l -> f a = Ok tt.
Proof.
  revert u; induction l as [|b l IH]; intros u; cbn; [by intros _ a []%not_elem_of_nil|].
  intros ([] & Hb & Hl)%bind_Ok a [->|Ha]%elem_of_cons; [done|by eapply IH].
Qed.

(** What the server requires of a machine of an allocation. *)
Definition usable data (i : Z) : Prop :=
  exists mach, machine_at (c_machines (sd_context data)) i = Ok mach /\
    (m_state mach = COMPUTING \/ m_state mach = IDLE) /\
    (m_jobs_being_computed mach ≠ [] ->
       (has_role mach roles.COMPUTE_NODE = true -> allow_compute_sharing (opts data) = true) /\
       (has_role mach roles.STORAGE = true -> allow_storage_sharing (opts data) = true)) /\
    (energy_used (opts data) = true ->
       m_pstates mach !! i32 (get_pstate (c_engine (sd_context data)) (m_host mach)) = Some COMPUTATION_PSTATE).

Lemma check_machines data i :
  (negb (allow_compute_sharing (opts data)) || negb (allow_storage_sharing (opts data)) = true ->
     check_sharing data i = Ok tt) ->
  check_can_compute data i = Ok tt -> usable data i.
Proof.
  unfold check_can_compute, check_sharing, usable.
  intros Hshare (mach & Hm & (u & Hst%xbt_assert_Ok & He)%bind_Ok)%bind_Ok. exists mach. rewrite Hm in *.
  split; [done|]. split; [apply orb_true_iff in Hst as [Hs|Hs]; apply bool_decide_eq_true in Hs; auto|]. split.
  - intros Hjobs. cbn in Hshare. rewrite (bool_decide_false (m_jobs_being_computed mach = [])) in Hshare by done.
    destruct (allow_compute_sharing _), (allow_storage_sharing _); cbn in Hshare; try done;
      specialize (Hshare eq_refl);
      destruct (has_role mach roles.COMPUTE_NODE), (has_role mach roles.STORAGE); done.
  - intros Hu. rewrite Hu in He. apply bind_Ok in He as (u' & Hp%xbt_assert_Ok & Hc%xbt_assert_Ok).
    unfold has_pstate in Hp. unfold pstates_at in Hc. apply bool_decide_eq_true in Hc.
    destruct (m_pstates mach !! _) as [t|]; [by cbn in Hc; subst|done].
Qed.

Lemma check_allocation_Ok data alloc j :
  check_allocation data alloc j = Ok tt ->
  Forall (usable data) (elements_of (sa_machine_ids alloc)) /\ check_allocation_size data alloc j = Ok tt.
Proof.
  unfold check_allocation. intros ([] & Hsh & ([] & Hcan & Hsz)%bind_Ok)%bind_Ok. split; [|done].
  apply Forall_forall. intros i Hi. apply check_machines.
  - intros Hb. rewrite Hb in Hsh. by eapply (foldM_unit (check_sharing data)).
  - by eapply (foldM_unit (check_can_compute data)).
Qed.

(** The number of executors that an allocation gives to a job. *)
Definition nb_executors (alloc : SchedulingAllocation IS Host) : Z :=
  match sa_mapping alloc with [] => is_size (sa_machine_ids alloc) | mapping => Z.of_nat (length mapping) end.

Lemma check_size_Ok data alloc j :
  check_allocation_size data alloc j = Ok tt ->
  exists p, s_profiles (c_store (sd_context data)) !! profile j = Some p /\
    (p_type p ≠ PARALLEL_HOMOGENEOUS_TOTAL_AMOUNT -> p_type p ≠ SEQUENCE ->
     u32 (nb_executors alloc) = requested_nb_res j).
Proof.
  unfold check_allocation_size. intros (p & Hp%of_option_Ok & (b & Hb & Hr)%bind_Ok)%bind_Ok. exists p. split; [done|].
  intros Hne Hns. unfold is_sequence_of_parhgtot in Hb. rewrite bool_decide_false in Hb by done. injection Hb as <-.
  rewrite bool_decide_false in Hr by done. cbn [orb] in Hr. unfold nb_executors.
  destruct (sa_mapping alloc) as [|x l]; cbn -[u32 Z.of_nat] in Hr; apply xbt_assert_Ok in Hr; by apply Z.eqb_eq in Hr.
Qed.


(** C32. A request to change the state of a job succeeds only to make a waiting
    job running: rejecting a waiting job or completing a running one through this
    request always aborts the simulation, because the job is traced before its
    state changes and an incomplete job cannot be traced. *)
Theorem change_job_state_only_starts_jobs data m data' job_id s :
  msg_data m = ChangeJobStateMessage job_id s -> server_on_change_job_state data m = Ok data' ->
  s = "RUNNING" /\
  exists jp j, job_at (c_workloads (sd_context data)) job_id = Ok jp /\
    s_jobs (c_store (sd_context data)) !! jp = Some j /\ state j = JOB_STATE_SUBMITTED /\
    job_states data' = <[jp := JOB_STATE_RUNNING]> (job_states data) /\
    nb_running_jobs data' = nb_running_jobs data + 1 /\ nb_completed_jobs data' = nb_completed_jobs data.
Proof.
  intros Hm Hr. destruct (change_job_state_Ok _ _ _ _ _ Hm Hr) as (jp & j & Hjp & Hj & Hs & Hstr & d & Hd%job_starts_Ok & ->).
  split.
  - unfold job_state_from_string in Hstr.
    repeat match type of Hstr with (if String.eqb ?a ?b then _ else _) = _ =>
      destruct (String.eqb_spec a b); [try discriminate Hstr; try done|] end. done.
  - exists jp, j. subst d. split_and!; try done.
    + unfold job_states. cbn -[with_job states]. unfold with_job. cbn. unfold states. cbn.
      rewrite alter_alter_eq. apply map_eq. intros i. rewrite lookup_fmap. destruct (decide (i = jp)) as [->|Hne].
      * by rewrite lookup_alter_eq, Hj, lookup_insert_eq.
      * by rewrite lookup_alter_ne, lookup_insert_ne, lookup_fmap by done.
    + cbn. lia.
Qed.

(** *** Kills *)

(** The kill of this job has been requested. *)
Definition kill_requested_of data (job_id : JobIdentifier) : Prop :=
  exists jp j, job_is_registered (c_workloads (sd_context data)) job_id = Ok true /\
    job_at (c_workloads (sd_context data)) job_id = Ok jp /\
    s_jobs (c_store (sd_context data)) !! jp = Some j /\ kill_requested j = true.

Definition request_kill (jp : positive) data : Data :=
  data <| sd_context ::= with_job jp (fun j => j <| kill_requested := true |>) |>.

Lemma mark_kill_Ok ids data job_id ids' data' :
  mark_kill (ids, data) job_id = Ok (ids', data') ->
  exists jp j, job_is_registered (c_workloads (sd_context data)) job_id = Ok true /\
    job_at (c_workloads (sd_context data)) job_id = Ok jp /\
    s_jobs (c_store (sd_context data)) !! jp = Some j /\
    (kill_requested j = true /\ ids' = ids /\ data' = data \/
     kill_requested j = false /\ (state j = JOB_STATE_RUNNING \/ is_complete j = true) /\
     ids' = ids ++ [job_id] /\ data' = request_kill jp data).
Proof.
  unfold mark_kill. intros ([] & Hb & (u & Hu%xbt_assert_Ok & (jp & Hjp & (j & Hj%of_option_Ok & Hr)%bind_Ok)%bind_Ok)%bind_Ok)%bind_Ok; [|done].
  exists jp, j. do 3 (split; [done|]). destruct (kill_requested j); [left; by injection Hr as <- <-|right].
  apply bind_Ok in Hr as (u' & Hst%xbt_assert_Ok & [= <- <-]).
  apply orb_true_iff in Hst as [Hst|Hst]; [apply bool_decide_eq_true in Hst|]; auto.
Qed.

Lemma kill_requested_skip ids data job_id :
  kill_requested_of data job_id -> mark_kill (ids, data) job_id = Ok (ids, data).
Proof.
  intros (jp & j & Hb & Hjp & Hj & Hk). unfold mark_kill. rewrite Hb. cbn. rewrite Hjp. cbn.
  unfold the_job, deref_job. rewrite Hj. cbn. by rewrite Hk.
Qed.

(** The jobs of some identifiers. *)
Definition names_job data (i : JobIdentifier) (jp : positive) : Prop := job_at (c_workloads (sd_context data)) i = Ok jp.

#[export] Instance names_job_dec data i jp : Decision (names_job data i jp).
Proof. unfold names_job. destruct (job_at _ i) as [p|e]; [|by right]. destruct (decide (p = jp)); [left; congruence|right; congruence]. Defined.

(** A job that can be killed: it has been started. *)
Definition killable data (i : JobIdentifier) : Prop :=
  exists jp j, job_is_registered (c_workloads (sd_context data)) i = Ok true /\ names_job data i jp /\
    s_jobs (c_store (sd_context data)) !! jp = Some j /\ kill_requested j = false /\
    (state j = JOB_STATE_RUNNING \/ is_complete j = true).

(** The jobs to kill among those of a request: all those whose kill was not requested
    yet, each once even when the request names it twice, in the order of the request. *)
Record jobs_to_kill data (jobs_ids to_kill : list JobIdentifier) : Prop := {
  kill_in_order : to_kill `sublist_of` jobs_ids;
  kill_once : NoDup (job_at (c_workloads (sd_context data)) <$> to_kill);
  kill_only_killable i : i ∈ to_kill -> killable data i;
  kill_all i : i ∈ jobs_ids ->
    kill_requested_of data i \/ exists i' jp, i' ∈ to_kill /\ names_job data i jp /\ names_job data i' jp;
}.

(** Their jobs are marked, and nothing else happens to the jobs. *)
Record marked data (to_kill : list JobIdentifier) data' : Prop := {
  marked_workloads : c_workloads (sd_context data') = c_workloads (sd_context data);
  marked_jobs i jp : i ∈ to_kill -> names_job data i jp ->
    s_jobs (c_store (sd_context data')) !! jp =
    (fun j => j <| kill_requested := true |>) <$> s_jobs (c_store (sd_context data)) !! jp;
  unmarked_jobs jp : (forall i, i ∈ to_kill -> ~ names_job data i jp) ->
    s_jobs (c_store (sd_context data')) !! jp = s_jobs (c_store (sd_context data)) !! jp;
}.

Lemma killer_list_start data : jobs_to_kill data [] [] /\ marked data [] data.
Proof.
  split; constructor; try done; [constructor|intros i []%not_elem_of_nil|intros i []%not_elem_of_nil|intros i jp []%not_elem_of_nil].
Qed.

Lemma mark_kill_list data seen ids d job_id ids' d' :
  mark_kill (ids, d) job_id = Ok (ids', d') -> jobs_to_kill data seen ids -> marked data ids d ->
  jobs_to_kill data (seen ++ [job_id]) ids' /\ marked data ids' d'.
Proof.
  intros (jp & j & Hb & Hjp & Hj & Hcases)%mark_kill_Ok [Hsub Hnd Hkill Hall] Hmarked.
  destruct Hmarked as [Hw Hmark Hrest]. rewrite Hw in Hb, Hjp.
  destruct (decide (Exists (fun i => names_job data i jp) ids)) as [Hin|Hnot%not_Exists_Forall]; [| |apply _].
  - apply Exists_exists in Hin as (i' & Hi' & Hname). rewrite (Hmark _ _ Hi' Hname) in Hj.
    destruct (s_jobs (c_store (sd_context data)) !! jp) as [j0|]; [|done]. injection Hj as <-.
    destruct Hcases as [(_ & -> & ->)|(Hk & _)]; [|done]. split; [constructor; try done|by constructor].
    + by apply sublist_inserts_r.
    + intros i [Hi| ->%list_elem_of_singleton]%elem_of_app; [by apply Hall|]. right. by exists i', jp.
  - rewrite Forall_forall in Hnot. rewrite (Hrest _ Hnot) in Hj. destruct Hcases as [(Hk & -> & ->)|(Hk & Hst & -> & ->)].
    + split; [constructor; try done|by constructor]; [by apply sublist_inserts_r|].
      intros i [Hi| ->%list_elem_of_singleton]%elem_of_app; [by apply Hall|]. left. by exists jp, j.
    + split; constructor.
      * by apply sublist_app.
      * rewrite fmap_app. apply NoDup_app. split; [done|]. split; [|apply NoDup_singleton].
        intros r Hr ->%list_elem_of_singleton. apply list_elem_of_fmap in Hr as (i & Hi & Hin).
        apply (Hnot _ Hin). unfold names_job. congruence.
      * intros i [Hi| ->%list_elem_of_singleton]%elem_of_app; [by apply Hkill|]. by exists jp, j.
      * intros i [Hi| ->%list_elem_of_singleton]%elem_of_app.
        -- destruct (Hall i Hi) as [?|(i' & p & Hi' & Hp & Hp')]; [by left|right]. exists i', p. split; [|done]. apply elem_of_app. by left.
        -- right. exists job_id, jp. split; [apply elem_of_app; right; by left|done].
      * unfold request_kill. cbn. done.
      * unfold request_kill. cbn. intros i p Hi Hname. destruct (decide (p = jp)) as [->|Hne].
        -- rewrite lookup_alter_eq, (Hrest _ Hnot). done.
        -- rewrite lookup_alter_ne by done. apply elem_of_app in Hi as [Hi| ->%list_elem_of_singleton]; [by apply (Hmark i)|].
           unfold names_job in Hname. congruence.
      * unfold request_kill. cbn. intros p Hp. rewrite lookup_alter_ne.
        -- apply Hrest. intros i Hi. apply Hp, elem_of_app. by left.
        -- intros <-. apply (Hp job_id); [apply elem_of_app; right; by left|done].
Qed.

Lemma mark_kills data jobs_ids seen ids d ids' d' :
  foldM mark_kill (ids, d) jobs_ids = Ok (ids', d') -> jobs_to_kill data seen ids -> marked data ids d ->
  jobs_to_kill data (seen ++ jobs_ids) ids' /\ marked data ids' d'.
Proof.
  revert seen ids d. induction jobs_ids as [|i jobs_ids IH]; intros seen ids d; cbn [foldM].
  - intros [= <- <-] Hk Hm. by rewrite app_nil_r.
  - intros ([ids1 d1] & H1' & Hr)%bind_Ok Hk Hm. destruct (mark_kill_list _ _ _ _ _ _ _ H1' Hk Hm) as [Hk1 Hm1].
    destruct (IH _ _ _ Hr Hk1 Hm1) as [Hk2 Hm2]. rewrite <- app_assoc in Hk2. done.
Qed.

(** All the jobs of the request are then marked. *)
Lemma request_is_marked data jobs_ids to_kill data' i :
  jobs_to_kill data jobs_ids to_kill -> marked data to_kill data' -> i ∈ jobs_ids ->
  job_is_registered (c_workloads (sd_context data)) i = Ok true -> kill_requested_of data' i.
Proof.
  intros [_ _ Hkill Hall] [Hw Hmark Hrest] Hi Hreg. unfold kill_requested_of. rewrite Hw.
  destruct (Hall i Hi) as [(jp & j & _ & Hjp & Hj & Hk)|(i' & jp & Hi' & Hjp & Hjp')].
  - destruct (decide (Exists (fun i => names_job data i jp) to_kill)) as [Hin|Hnot].
    + apply Exists_exists in Hin as (i' & Hi' & Hname). eexists jp, _. by rewrite (Hmark _ _ Hi' Hname), Hj.
    + exists jp, j. rewrite Hrest; [done|]. intros i' Hi' Hname. apply Hnot, Exists_exists. by exists i'.
  - destruct (Hkill i' Hi') as (jp' & j & _ & Hname & Hj & _). unfold names_job in *. rewrite Hjp' in Hname. injection Hname as <-.
    eexists jp, _. rewrite (Hmark _ _ Hi' Hjp'), Hj. done.
Qed.

Lemma mark_kills_registered jobs_ids (acc acc' : list JobIdentifier * Data) i :
  foldM mark_kill acc jobs_ids = Ok acc' -> i ∈ jobs_ids ->
  job_is_registered (c_workloads (sd_context acc.2)) i = Ok true.
Proof.
  revert acc. induction jobs_ids as [|i0 jobs_ids IH]; intros [ids d] Hf Hi; [by apply not_elem_of_nil in Hi|].
  cbn [foldM] in Hf. apply bind_Ok in Hf as ([ids1 d1] & (jp & j & Hb & _ & _ & Hcases)%mark_kill_Ok & Hf).
  apply elem_of_cons in Hi as [->|Hi]; [done|]. specialize (IH _ Hf Hi). cbn [fst snd] in *.
  destruct Hcases as [(_ & _ & ->)|(_ & _ & _ & ->)]; exact IH.
Qed.


(** *** Submissions *)

(** The events that the scheduler will receive. *)
Definition pending_events data : option (list (jvalue V)) := pw_events (c_proto_writer (sd_context data)).

(** An event that announces this job. *)
Definition announces data (jp : positive) (event : jvalue V) : Prop :=
  exists j members, s_jobs (c_store (sd_context data)) !! jp = Some j /\
    event = event_object (time_of data) "JOB_SUBMITTED" (JObject (("job_id", JString (ji_to_string (id j))) :: members)).

Lemma announce_submission_event jp data data' :
  announce_submission jp data = Ok data' ->
  exists evs ev w, pending_events data = Some evs /\ announces data jp ev /\
    data' = data <| sd_context ::= fun c => c <| c_proto_writer := w |> |> /\ pw_events w = Some (evs ++ [ev]).
Proof.
  unfold announce_submission. intros (j & Hj%of_option_Ok & ([a b] & _ & Hw)%bind_Ok)%bind_Ok.
  unfold write, on_context, with_writer in Hw. apply bind_Ok in Hw as (c & (w & Hw & [= <-])%bind_Ok & [= <-]).
  unfold append_job_submitted in Hw. apply bind_Ok in Hw as (members & _ & Hw).
  apply append_event_Ok in Hw as (_ & evs & Hevs & ->).
  exists evs. eexists _, _. split; [exact Hevs|]. split; [exists j, members; split; [done|reflexivity]|]. by split.
Qed.

Lemma submit_one_job_event ptr called_back data jp data' :
  submit_one_job ptr called_back data jp = Ok data' ->
  exists j evs ev w, s_jobs (c_store (sd_context data)) !! jp = Some j /\
    pending_events data = Some evs /\ announces data jp ev /\ pending_events data' = Some (evs ++ [ev]) /\
    nb_submitted_jobs data' = nb_submitted_jobs data + 1 /\
    sd_context data' = with_job jp (fun j => j <| state := JOB_STATE_SUBMITTED |>) (sd_context data) <| c_proto_writer := w |>.
Proof.
  unfold submit_one_job. intros (j & Hj%of_option_Ok & (d & Hd & (evs & ev & w & Hev & Han & -> & Hw)%announce_submission_event)%bind_Ok)%bind_Ok.
  assert (sd_context d = sd_context data /\ nb_submitted_jobs d = nb_submitted_jobs data) as [Hc Hn].
  { destruct called_back; [|by injection Hd as <-]. by apply bind_Ok in Hd as (u & _ & [= <-]). }
  unfold pending_events, announces, time_of in *. cbn -[with_job] in *. rewrite Hc, Hn in *.
  exists j, evs, ev, w. split_and!; try done; [|cbn; lia].
  destruct Han as (j' & ms & Hj' & ->). unfold with_job in Hj'. cbn in Hj'.
  rewrite lookup_alter_eq, Hj in Hj'. injection Hj' as <-. exists j, ms. done.
Qed.

(** A submission that is not ignored announces its jobs to the scheduler,
    one event per job in the order of the submission, puts all of them in the
    submitted state and counts them. *)
Theorem job_submitted_spec data m data' name jobs evs :
  msg_data m = JobSubmittedMessage name jobs -> ignores_submissions data = false ->
  pending_events data = Some evs ->
  server_on_job_submitted data m = Ok data' ->
  is_Some (submitters data !! name) /\
  (exists announcements, pending_events data' = Some (evs ++ announcements) /\
     Forall2 (announces data) jobs announcements) /\
  (forall jp, job_states data' !! jp =
     if decide (jp ∈ jobs) then Some JOB_STATE_SUBMITTED else job_states data !! jp) /\
  nb_submitted_jobs data' = nb_submitted_jobs data + Z.of_nat (length jobs).
Proof.
  intros Hm Hi Hevs. unfold server_on_job_submitted. rewrite Hi, Hm.
  destruct (submitters data !! name) as [ptr|]; [|done]. intros (sub & _ & Hf)%bind_Ok. split; [by eexists|]. clear Hi.
  revert data data' evs Hevs Hf. clear Hm. induction jobs as [|jp jobs IH]; intros data data' evs Hevs; cbn [foldM].
  - intros [= <-]. split_and!; [exists []; by rewrite app_nil_r| |cbn; lia].
    intros jp. rewrite decide_False; [done|apply not_elem_of_nil].
  - intros (d & (j & evs' & ev & w & Hj & He & Han & He' & Hn & Hc)%submit_one_job_event & Hf)%bind_Ok.
    rewrite Hevs in He. injection He as <-.
    assert (job_states d = <[jp := JOB_STATE_SUBMITTED]> (job_states data)) as Hst.
    { unfold job_states. rewrite Hc. rewrite <- (with_job_set_state jp (fun j => j <| state := JOB_STATE_SUBMITTED |>) _
        JOB_STATE_SUBMITTED j) by done. done. }
    destruct (IH d data' (evs ++ [ev])) as ((ans & Hans & HF) & Hs & Hsub); [done|done|].
    split_and!.
    + exists (ev :: ans). rewrite <- app_assoc in Hans. split; [done|]. constructor; [done|].
      eapply Forall2_impl; [exact HF|]. intros jp' ev' (j' & ms & Hj' & ->).
      unfold announces, time_of. rewrite Hc in Hj' |- *. unfold with_job in Hj'. cbn in Hj'.
      destruct (decide (jp' = jp)) as [->|Hne].
      * rewrite lookup_alter_eq, Hj in Hj'. injection Hj' as <-. by exists j, ms.
      * rewrite lookup_alter_ne in Hj' by done. by exists j', ms.
    + intros jp'. rewrite Hs, Hst.
      destruct (decide (jp' ∈ jobs)) as [Hin|Hin]; [by rewrite decide_True by by right|].
      destruct (decide (jp' = jp)) as [->|Hne]; [by rewrite lookup_insert_eq, decide_True by left|].
      rewrite lookup_insert_ne by done. rewrite decide_False; [done|]. by intros [?|?]%elem_of_cons.
    + rewrite Hsub, Hn. cbn. lia.
Qed.

(** What the option that ends the simulation with the last workflow waits for. *)
Definition all_workflows_finished data : Prop :=
  nb_workflow_submitters_finished data = Z.of_nat (size (c_workflows (sd_context data))).

(** With the option that ends the simulation with the last workflow, and at
    least two workflows, the submissions are ignored exactly when one workflow
    has finished: they are not when all the workflows have. *)
Theorem submissions_ignored_after_one_workflow data :
  (2 <= size (c_workflows (sd_context data)))%nat -> terminate_with_last_workflow (opts data) = true ->
  (ignores_submissions data = true <-> nb_workflow_submitters_finished data = 1) /\
  (nb_workflow_submitters_finished data = 1 -> forall m, server_on_job_submitted data m = Ok data) /\
  (all_workflows_finished data -> ignores_submissions data = false).
Proof.
  intros Hn Ht. assert (ignores_submissions data = (nb_workflow_submitters_finished data =? 1)) as Hi.
  { unfold ignores_submissions, workflows_size, Workflows_size. by rewrite bool_decide_false, Ht by lia. }
  split_and!.
  - by rewrite Hi, Z.eqb_eq.
  - intros Hone m. unfold server_on_job_submitted. by rewrite Hi, Hone.
  - unfold all_workflows_finished. intros Hall. rewrite Hi. apply Z.eqb_neq. lia.
Qed.
End Requests.
