(* ===== verification/ServerExamples.v ===== *)
(** * The server on a small platform

    A simulation with one workload of one job on the three machines of
    [MachineExamples]: the hypotheses of the theorems on the server hold along its
    run, and what they say is evaluated. *)

From S2P Require Import Prelude Interfaces Profiles Jobs NumericStrcmp Outputs Machines Workload Tracers Ipp PState Writer NumberParsing Workflow Context ContextFacts Server ServerFacts.

Module ServerExamples.
Import Concrete MachineExamples JobExamples WorkloadExamples.
#[local] Abbreviation Ctx := (BatsimContext (list Z) engine host json).
#[local] Abbreviation Data := (ServerData (list Z) engine host json).
#[local] Abbreviation Msg := (IPMessage (list Z) host).

Definition options : Options :=
  mk_Options false false false false false true false false false false false false false.
Definition two_workflows : Workflows := {["wf0" := new_Workflow "wf0"; "wf1" := new_Workflow "wf1"]}.
Definition ctx : Ctx :=
  mk_Context an_engine options root new_Writer ms workloads a_store two_workflows (mk_task_store ∅ 1) 0 ∅ ∅ (v_paje v) None
    (mk_EnergyConsumptionTracer None 0 0) None (v_states v) TracerExamples.start ∅ (JObject []) false 0 0 0 0 [] 1 [] [].

Definition get_or {A} (d : A) (r : result A) : A := match r with Ok a => a | Err _ => d end.
Definition zone_of (h : host) : option string := Some "root".
Definition handle (d : Data) (m : Msg * bool) : Data := get_or d (server_iteration zone_of 1 d m).

Definition data0 : Data := get_or (initial_data ctx) (server_start ctx).
Definition hello : Msg := mk_IPMessage SUBMITTER_HELLO (SubmitterHelloMessage "w0" true JOB_SUBMITTER).
Definition submit : Msg := mk_IPMessage JOB_SUBMITTED (JobSubmittedMessage "w0" [1%positive]).
Definition alloc : SchedulingAllocation (list Z) host := mk_SchedulingAllocation 1 [1] [] ∅ [] [] [].
Definition execute_it : Msg := mk_IPMessage SCHED_EXECUTE_JOB (ExecuteJobMessage alloc None).
Definition start_it : Msg := mk_IPMessage SCHED_CHANGE_JOB_STATE (ChangeJobStateMessage w0_1 "RUNNING").
Definition kill_it : Msg := mk_IPMessage SCHED_KILL_JOB (KillJobMessage [w0_1; w0_1]).

Definition data1 : Data := handle data0 (hello, false).
Definition data2 : Data := handle data1 (submit, false).
Definition data3 : Data := handle data2 (execute_it, false).

Lemma data0_ok : server_start ctx = Ok data0.
Proof. vm_compute. reflexivity. Qed.
Lemma data1_ok : server_iteration zone_of 1 data0 (hello, false) = Ok data1.
Proof. vm_compute. reflexivity. Qed.
Lemma data2_ok : server_iteration zone_of 1 data1 (submit, false) = Ok data2.
Proof. vm_compute. reflexivity. Qed.

Lemma no_job_submitted (jp : positive) : states ctx !! jp ≠ Some JOB_STATE_SUBMITTED.
Proof.
  unfold states. change (s_jobs (c_store ctx)) with a_heap. unfold a_heap. rewrite map_fmap_singleton.
  intros [_ Hs]%lookup_singleton_Some. discriminate Hs.
Qed.

Lemma submitted_steps : rtc (server_step zone_of 1) ((∅ : gset positive), data0) (∅, data2).
Proof.
  eapply rtc_l; [apply (step_message zone_of 1 ∅ data0 hello false data1 I data1_ok)|].
  eapply rtc_l; [|apply rtc_refl].
  refine (step_message zone_of 1 ∅ data1 submit false data2 _ data2_ok). cbn. split; [apply NoDup_singleton|].
  intros jp ->%list_elem_of_singleton. split; [set_solver|]. vm_compute. discriminate.
Qed.

Example job_accounting_witness :
  nb_submitted_jobs data2 = 1 /\ nb_running_jobs data2 = 0 /\
  nb_submitted_jobs data2 = nb_completed_jobs data2 + nb_running_jobs data2 +
                            jobs_in JOB_STATE_SUBMITTED ∅ (job_states data2) /\
  jobs_in JOB_STATE_SUBMITTED ∅ (job_states data2) = 1.
Proof.
  destruct (job_accounting zone_of 1 ctx data0 ∅ data2 no_job_submitted data0_ok submitted_steps) as (H & _).
  split; [vm_compute; reflexivity|]. split; [vm_compute; reflexivity|]. split; [exact H|]. vm_compute. reflexivity.
Defined.


Example change_job_state_only_starts_jobs_witness :
  exists d, server_on_change_job_state data2 start_it = Ok d /\ nb_running_jobs d = nb_running_jobs data2 + 1.
Proof.
  destruct (server_on_change_job_state data2 start_it) as [d|] eqn:E; [|vm_compute in E; discriminate].
  exists d. split; [reflexivity|].
  destruct (change_job_state_only_starts_jobs data2 start_it d w0_1 "RUNNING" eq_refl E) as (_ & jp & j & H).
  exact (proj1 (proj2 (proj2 (proj2 (proj2 H))))).
Defined.


Example job_submitted_spec_witness :
  exists d, server_on_job_submitted data1 submit = Ok d /\ nb_submitted_jobs d = 1 /\
    job_states d !! 1%positive = Some JOB_STATE_SUBMITTED.
Proof.
  destruct (server_on_job_submitted data1 submit) as [d|] eqn:E; [|vm_compute in E; discriminate].
  exists d. split; [reflexivity|].
  destruct (job_submitted_spec data1 submit d "w0" [1%positive] [] eq_refl eq_refl eq_refl E) as (_ & _ & Hs & Hn).
  split; [rewrite Hn; reflexivity|]. rewrite Hs. reflexivity.
Defined.

(** One of the two workflows has finished. *)
Definition one_workflow_done : Data := data1 <| nb_workflow_submitters_finished := 1 |>.
Example submissions_ignored_after_one_workflow_witness :
  server_on_job_submitted one_workflow_done submit = Ok one_workflow_done.
Proof.
  exact (proj1 (proj2 (submissions_ignored_after_one_workflow one_workflow_done (le_n 2) eq_refl)) eq_refl submit).
Defined.

(** A simulation without any static workload: when the scheduler has answered
    the first message, the simulation ends. *)
Definition empty_ctx : Ctx := ctx <| c_workloads := ∅ |>.
Definition idle : Data := get_or (initial_data empty_ctx) (server_start empty_ctx).
Definition ready_message : Msg := mk_IPMessage SCHED_READY NoData.
Definition not_empty : Data := handle idle (ready_message, false).

Lemma idle_ok : server_start empty_ctx = Ok idle.
Proof. vm_compute. reflexivity. Qed.
Lemma not_empty_ok : server_iteration zone_of 1 idle (ready_message, false) = Ok not_empty.
Proof. vm_compute. reflexivity. Qed.

Example end_of_simulation_announced_witness :
  exists d d2, talk_to_scheduler 1 true not_empty = Ok d /\ end_of_simulation_sent d = true /\
    nb_running_jobs not_empty = 0 /\ sched_ready d = false /\
    server_iteration zone_of 1 d (ready_message, true) = Ok d2 /\ server_end d2 = Ok tt.
Proof.
  destruct (talk_to_scheduler 1 true not_empty) as [d|] eqn:E; [|vm_compute in E; discriminate].
  assert (end_of_simulation_sent d = true) as Hd.
  { change (end_of_simulation_sent (get_or not_empty (Ok d)) = true). rewrite <- E. vm_compute. reflexivity. }
  assert (rtc (server_step zone_of 1) ((∅ : gset positive), idle) (∅, not_empty)) as Hr.
  { eapply rtc_l; [apply (step_message zone_of 1 ∅ idle ready_message false not_empty I not_empty_ok)|apply rtc_refl]. }
  destruct (end_of_simulation_announced zone_of 1 empty_ctx idle ∅ not_empty true d no_job_submitted idle_ok Hr E)
    as [_ H].
  destruct (H ltac:(vm_compute; reflexivity) Hd) as (_ & Hz & _ & _ & _ & _ & _ & _ & Hs & He).
  destruct (He ready_message true ltac:(reflexivity)) as (d2 & Hd2 & _ & Hend).
  exists d, d2. split; [reflexivity|]. split; [exact Hd|]. split; [exact Hz|]. split; [exact Hs|]. split; [exact Hd2|exact Hend].
Defined.
End ServerExamples.
