(* ===== verification/ServerBook.v ===== *)
(** * The server as a book of jobs (an abstract specification of src/server.cpp)

    What the server keeps of jobs, without the messages, the submitters, the machines
    and the traces: the state of each job and three counters.  Each message that the
    server handles is one operation on this book. *)

From S2P Require Import Prelude Interfaces Profiles Jobs NumericStrcmp Outputs Machines Workload Tracers Ipp PState Writer NumberParsing Workflow Context ContextFacts ContextSteps Server ServerFacts ServerExamples.

(** ** The book *)

Record book := mk_book {
  b_states : gmap positive JobState;
  b_submitted : Z;
  b_running : Z;
  b_completed : Z;
}.

Inductive book_op :=
| SubmitJobs (jobs : list positive)      (* a submitter announces jobs *)
| RegisterJob                            (* the scheduler has created a job, which is submitted already *)
| StartJob (job : positive)
| RejectJob (job : positive)
| StopJobs (n : nat)                     (* jobs have completed, or have been killed *)
| NoOp.

Definition submit_job (b : book) (job : positive) : option book :=
  match b_states b !! job with
  | Some _ => Some (mk_book (<[job := JOB_STATE_SUBMITTED]> (b_states b)) (b_submitted b + 1) (b_running b) (b_completed b))
  | None => None
  end.

Definition apply_op (op : book_op) (b : book) : option book :=
  match op with
  | SubmitJobs jobs => foldl (fun b job => b ← b; submit_job b job) (Some b) jobs
  | RegisterJob => Some (mk_book (b_states b) (b_submitted b + 1) (b_running b) (b_completed b))
  | StartJob job =>
      if decide (b_states b !! job = Some JOB_STATE_SUBMITTED)
      then Some (mk_book (<[job := JOB_STATE_RUNNING]> (b_states b)) (b_submitted b) (b_running b + 1) (b_completed b))
      else None
  | RejectJob job =>
      if decide (b_states b !! job = Some JOB_STATE_SUBMITTED)
      then Some (mk_book (<[job := JOB_STATE_REJECTED]> (b_states b)) (b_submitted b) (b_running b) (b_completed b + 1))
      else None
  | StopJobs n =>
      if decide (n = 0%nat \/ Z.of_nat n <= b_running b)
      then Some (mk_book (b_states b) (b_submitted b) (b_running b - Z.of_nat n) (b_completed b + Z.of_nat n))
      else None
  | NoOp => Some b
  end.

Section Book.
Context {IS Engine Host V : Type}.
Context `{IntervalSet IS} `{SimGrid Engine Host} `{RapidJson V}.
Context (englobing_zone : Host -> option string).
#[local] Abbreviation Ctx := (BatsimContext IS Engine Host V).
#[local] Abbreviation Data := (ServerData IS Engine Host V).
#[local] Abbreviation Msg := (IPMessage IS Host).
Implicit Types (c : Ctx) (data : Data) (m : Msg).

Definition book_of data : book :=
  mk_book (job_states data) (nb_submitted_jobs data) (nb_running_jobs data) (nb_completed_jobs data).

(** The job of an identifier. *)
Definition job_of data (job_id : JobIdentifier) : option positive :=
  match job_at (c_workloads (sd_context data)) job_id with Ok jp => Some jp | Err _ => None end.

Definition has_been_killed data (job_id : JobIdentifier) : bool :=
  bool_decide ((jp ← job_of data job_id; job_states data !! jp) = Some JOB_STATE_COMPLETED_KILLED).

(** The operation that a message asks for. *)
Definition op_of data m : book_op :=
  match msg_type m, msg_data m with
  | JOB_SUBMITTED, JobSubmittedMessage _ jobs => if ignores_submissions data then NoOp else SubmitJobs jobs
  | JOB_REGISTERED_BY_DP, JobRegisteredByDPMessage _ _ => RegisterJob
  | SCHED_EXECUTE_JOB, ExecuteJobMessage alloc _ => StartJob (sa_job alloc)
  | SCHED_CHANGE_JOB_STATE, ChangeJobStateMessage job_id _ =>
      match job_of data job_id with Some jp => StartJob jp | None => NoOp end
  | SCHED_REJECT_JOB, JobRejectedMessage job_id =>
      match job_of data job_id with Some jp => RejectJob jp | None => NoOp end
  | JOB_COMPLETED, JobCompletedMessage _ => StopJobs 1
  | KILLING_DONE, KillingDoneMessage jobs_ids _ _ => StopJobs (length (List.filter (has_been_killed data) jobs_ids))
  | _, _ => NoOp
  end.

Lemma same_account_book data data' : same_account data data' -> book_of data' = book_of data.
Proof. intros (Hs & E1 & E2 & E3). unfold book_of. congruence. Qed.

Lemma skip_book data data' m :
  op_of data m = NoOp -> same_account data data' -> apply_op (op_of data m) (book_of data) = Some (book_of data').
Proof. intros -> Hs%same_account_book. cbn. by rewrite Hs. Qed.

Lemma job_stops_book data data' n :
  job_stops data = Ok data' -> forall b, apply_op (StopJobs n) b = Some (book_of data) ->
  apply_op (StopJobs (S n)) b = Some (book_of data').
Proof.
  intros (Hs & Hsub & Hc & Hr & Hpos)%job_stops_Ok b. unfold apply_op, book_of. rewrite Hs, Hsub, Hc, Hr.
  destruct (decide (n = 0%nat \/ _)) as [Hn|]; [|done]. intros [= E1 E2 E3 E4]. rewrite decide_True by lia.
  rewrite E1, E2. do 2 f_equal; lia.
Qed.

Lemma submit_one_book ptr called_back data jp data' :
  submit_one_job ptr called_back data jp = Ok data' -> submit_job (book_of data) jp = Some (book_of data').
Proof.
  unfold submit_one_job. intros (j & Hj%the_job_Ok & (d & Hd & Hr%announce_submission_account%same_account_book)%bind_Ok)%bind_Ok.
  assert (sd_context d = sd_context data /\ same_account data d) as [Hctx Hsame%same_account_book].
  { destruct called_back; [|by injection Hd as <-]. by apply bind_Ok in Hd as (u & _ & [= <-]). }
  rewrite Hr, <- Hsame. rewrite <- Hctx in Hj. unfold submit_job, book_of at 1. cbn [b_states].
  unfold job_states at 1. rewrite (job_state_of _ _ _ Hj). unfold book_of. cbn -[with_job states]. f_equal.
  unfold job_states. cbn -[with_job states]. rewrite (with_job_set_state jp _ _ JOB_STATE_SUBMITTED j) by done.
  f_equal; lia.
Qed.

Lemma submit_jobs_book ptr called_back jobs : forall data data',
  foldM (submit_one_job ptr called_back) data jobs = Ok data' -> apply_op (SubmitJobs jobs) (book_of data) = Some (book_of data').
Proof.
  cbn [apply_op]. induction jobs as [|jp jobs IH]; intros data data'; cbn [foldM foldl]; [by intros [= <-]|].
  intros (d & Hd%submit_one_book & Hf)%bind_Ok. change (Some (book_of data) ≫= fun b => submit_job b jp) with (submit_job (book_of data) jp).
  rewrite Hd. by apply IH.
Qed.

Lemma submitted_book data m data' :
  msg_type m = JOB_SUBMITTED -> server_on_job_submitted data m = Ok data' ->
  apply_op (op_of data m) (book_of data) = Some (book_of data').
Proof.
  intros Ht. unfold server_on_job_submitted, op_of. rewrite Ht. destruct (ignores_submissions data) eqn:Hi.
  - intros [= <-]. by destruct (msg_data m).
  - destruct (msg_data m); try done. destruct (submitters data !! _); [|done]. intros (sub & _ & Hf)%bind_Ok.
    by eapply submit_jobs_book.
Qed.

Lemma completed_book data m data' :
  msg_type m = JOB_COMPLETED -> server_on_job_completed data m = Ok data' ->
  apply_op (op_of data m) (book_of data) = Some (book_of data').
Proof.
  intros Ht. unfold server_on_job_completed, op_of. rewrite Ht. destruct (msg_data m); try done.
  intros (j & _ & (d & Hd%call_submitter_back_account%same_account_book & (d' & Hd' & Hr%announce_completion_account%same_account_book)%bind_Ok)%bind_Ok)%bind_Ok.
  rewrite Hr, <- Hd. eapply (job_stops_book d d' 0); [exact Hd'|]. cbn [apply_op]. rewrite decide_True by lia.
  unfold book_of. cbn. do 2 f_equal; lia.
Qed.

(** Announcing completions changes neither the workloads nor the states. *)
Definition same_jobs data data' : Prop :=
  c_workloads (sd_context data') = c_workloads (sd_context data) /\ job_states data' = job_states data.

Lemma killed_same data data' ids :
  same_jobs data data' -> List.filter (has_been_killed data') ids = List.filter (has_been_killed data) ids.
Proof. intros [Hw Hs]. unfold has_been_killed, job_of. by rewrite Hw, Hs. Qed.

Lemma job_stops_same data data' : job_stops data = Ok data' -> same_jobs data data'.
Proof. unfold job_stops. by intros (u & _ & (u' & _ & [= <-])%bind_Ok)%bind_Ok. Qed.

Lemma announce_completion_same jp data data' : announce_completion jp data = Ok data' -> same_jobs data data'.
Proof.
  intros Ha. split; [|by apply announce_completion_account in Ha as [-> _]]. revert Ha. unfold announce_completion.
  intros (j & _ & (d & (c & Hc & [= <-])%bind_Ok & (d' & (c' & Hc' & [= <-])%bind_Ok & [= <-])%bind_Ok)%bind_Ok)%bind_Ok.
  unfold with_writer in Hc. unfold trace_job in Hc'. by inv_ok.
Qed.

Lemma killing_done_book jobs_progress ids : forall acc acc',
  foldM (killing_done_job jobs_progress) acc ids = Ok acc' ->
  forall n b, apply_op (StopJobs n) b = Some (book_of acc.2) ->
  apply_op (StopJobs (n + length (List.filter (has_been_killed acc.2) ids))) b = Some (book_of acc'.2).
Proof.
  induction ids as [|id ids IH]; intros [pr data] acc'; cbn [foldM List.filter length snd].
  - intros [= <-] n b. by rewrite Nat.add_0_r.
  - intros ([pr1 d1] & Hk & Hf)%bind_Ok n b Hb. unfold killing_done_job in Hk. revert Hk.
    intros (jp & Hjp & (j & Hj%the_job_Ok & Hk)%bind_Ok)%bind_Ok.
    assert (has_been_killed data id = bool_decide (state j = JOB_STATE_COMPLETED_KILLED)) as ->.
    { unfold has_been_killed, job_of. rewrite Hjp. cbn. unfold job_states. rewrite (job_state_of _ _ _ Hj).
      apply bool_decide_ext. split; congruence. }
    destruct (bool_decide _).
    + revert Hk. intros (d2 & H2 & (d3 & H3 & [= <- <-])%bind_Ok)%bind_Ok.
      assert (same_jobs data d3) as Hsame.
      { apply job_stops_same in H2 as [Hw2 Hs2]. apply announce_completion_same in H3 as [Hw3 Hs3]. split; congruence. }
      rewrite <- (killed_same _ _ ids Hsame).
      cbn [length]. rewrite Nat.add_succ_r. apply (IH (_, d3) _ Hf (S n)).
      apply announce_completion_account, same_account_book in H3. cbn [snd]. rewrite H3. by eapply job_stops_book.
    + injection Hk as <- <-. by eapply (IH (_, data)).
Qed.

Lemma killed_book data m data' :
  msg_type m = KILLING_DONE -> server_on_killing_done data m = Ok data' ->
  apply_op (op_of data m) (book_of data) = Some (book_of data').
Proof.
  intros Ht. unfold server_on_killing_done, op_of. rewrite Ht. destruct (msg_data m); try done.
  intros ([progress d] & Hf & (d' & Hd' & [= <-])%bind_Ok)%bind_Ok.
  match goal with |- _ = Some (book_of ?x) => assert (same_account d x) as Hdd%same_account_book end.
  { destruct acknowledge_kill_on_protocol; [by eapply write_account in Hd'|by injection Hd' as <-]. }
  rewrite Hdd. apply (killing_done_book _ _ _ _ Hf 0). cbn [apply_op snd]. rewrite decide_True by lia.
  unfold book_of. cbn -[job_states]. do 2 f_equal; lia.
Qed.

Lemma registered_book data m data' :
  msg_type m = JOB_REGISTERED_BY_DP -> server_on_register_job data m = Ok data' ->
  apply_op (op_of data m) (book_of data) = Some (book_of data').
Proof.
  intros Ht. unfold server_on_register_job, op_of. rewrite Ht. destruct (msg_data m); try done. intros Hr.
  assert (same_account (data <| nb_submitted_jobs ::= Z.add 1 |>) data') as ->%same_account_book.
  { destruct (registration_sched_ack _); [by eapply announce_submission_account|by injection Hr as <-]. }
  unfold book_of. cbn. do 2 f_equal; lia.
Qed.

(** A submitted job changes state. *)
Lemma book_of_set_state data jp f s j n :
  s_jobs (c_store (sd_context data)) !! jp = Some j -> (forall j, state (f j) = s) ->
  job_states n = states (with_job jp f (sd_context data)) ->
  book_of n = mk_book (<[jp := s]> (job_states data)) (nb_submitted_jobs n) (nb_running_jobs n) (nb_completed_jobs n).
Proof. intros Hj Hf Hn. unfold book_of. by rewrite Hn, (with_job_set_state jp f _ s j Hf Hj). Qed.

#[local] Ltac set_state_in_book data jp f s j :=
  match goal with |- _ = Some (book_of ?n) => rewrite (book_of_set_state data jp f s j n); [|done|done|] end.

Lemma submitted_state data jp j :
  s_jobs (c_store (sd_context data)) !! jp = Some j -> state j = JOB_STATE_SUBMITTED ->
  b_states (book_of data) !! jp = Some JOB_STATE_SUBMITTED.
Proof. intros Hj Hs. cbn. unfold job_states. by rewrite (job_state_of _ _ _ Hj), Hs. Qed.

Lemma rejected_book data m data' :
  msg_type m = SCHED_REJECT_JOB -> server_on_reject_job data m = Ok data' ->
  apply_op (op_of data m) (book_of data) = Some (book_of data').
Proof.
  intros Ht. unfold server_on_reject_job, op_of. rewrite Ht. destruct (msg_data m); try done.
  intros (jp & Hjp & (j & Hj%the_job_Ok & (u & Hst%xbt_assert_Ok & (d & Hd%trace_account & [= <-])%bind_Ok)%bind_Ok)%bind_Ok)%bind_Ok.
  apply bool_decide_eq_true in Hst. unfold registered_job in Hjp. apply bind_Ok in Hjp as ([] & _ & Hjp); [|done].
  unfold job_of. rewrite Hjp. cbn [apply_op]. rewrite decide_True by by eapply submitted_state.
  match goal with |- _ = Some (book_of ?x) => change (book_of x) with (book_of d) end.
  rewrite (same_account_book _ _ Hd).
  set_state_in_book data jp (fun j : Job IS => j <| state := JOB_STATE_REJECTED |>) JOB_STATE_REJECTED j; [|done].
  cbn -[job_states]. do 2 f_equal. lia.
Qed.

Lemma executed_book data m data' :
  msg_type m = SCHED_EXECUTE_JOB -> server_on_execute_job data m = Ok data' ->
  apply_op (op_of data m) (book_of data) = Some (book_of data').
Proof.
  intros Ht. unfold server_on_execute_job, op_of. rewrite Ht. destruct (msg_data m); try done.
  intros (j & Hj%the_job_Ok & (u & Hst%xbt_assert_Ok & (d & Hd%job_starts_Ok & (u' & _ & Hr)%bind_Ok)%bind_Ok)%bind_Ok)%bind_Ok.
  apply bool_decide_eq_true in Hst. revert Hr. intros (first & _ & (mm & _ & Hr)%bind_Ok)%bind_Ok.
  unfold create_actor in Hr. injection Hr as <-. subst d. cbn [apply_op]. rewrite decide_True by by eapply submitted_state.
  set_state_in_book data (sa_job allocation) (fun j : Job IS => j <| state := JOB_STATE_RUNNING |>) JOB_STATE_RUNNING j.
  - cbn -[job_states]. do 2 f_equal. lia.
  - unfold job_states. cbn -[with_job states]. by rewrite with_job_states.
Qed.

Lemma state_changed_book data m data' :
  msg_type m = SCHED_CHANGE_JOB_STATE -> server_on_change_job_state data m = Ok data' ->
  apply_op (op_of data m) (book_of data) = Some (book_of data').
Proof.
  intros Ht Hr. unfold op_of. rewrite Ht. destruct (msg_data m) eqn:Hm; try (unfold server_on_change_job_state in Hr; by rewrite Hm in Hr).
  destruct (change_job_state_Ok _ _ _ _ _ Hm Hr) as (jp & j & Hjp & Hj & Hs & _ & d & ->%job_starts_Ok & ->).
  unfold job_of. rewrite Hjp. cbn [apply_op]. rewrite decide_True by by eapply submitted_state.
  set_state_in_book data jp (fun j : Job IS => j <| starting_time := time_of data |> <| state := JOB_STATE_RUNNING |>) JOB_STATE_RUNNING j.
  - cbn -[job_states]. do 2 f_equal. lia.
  - unfold job_states. cbn -[with_job states]. unfold with_job, states. cbn. by rewrite alter_alter_eq.
Qed.

Lemma handle_message_book data m data' :
  handle_message englobing_zone data m = Ok data' -> apply_op (op_of data m) (book_of data) = Some (book_of data').
Proof.
  unfold handle_message. intros (h & Hh%of_option_Ok & Hr)%bind_Ok.
  destruct (msg_type m) eqn:Ht; cbn in Hh; try discriminate Hh; injection Hh as <-;
    eauto using submitted_book, completed_book, killed_book, registered_book, rejected_book, executed_book, state_changed_book;
    (apply skip_book; [unfold op_of; by rewrite Ht|]);
    eauto using hello_account, bye_account, set_metadata_account, to_job_account, from_job_account,
      kill_account, call_me_later_account, event_account, pstate_modification_account, switched_account,
      waiting_done_account, sched_ready_account, wait_answer_account, tell_me_account.
  all: unfold server_on_register_profile, server_on_end_dynamic_register, server_on_continue_dynamic_register, server_on_wait_query in Hr;
    repeat case_match; by simplify_eq.
Qed.

Lemma server_iteration_book n data m mailbox_empty data' :
  server_iteration englobing_zone n data (m, mailbox_empty) = Ok data' ->
  apply_op (op_of data m) (book_of data) = Some (book_of data').
Proof.
  unfold server_iteration. intros (d & Hd%handle_message_book & Ht%talk_account%same_account_book)%bind_Ok. by rewrite Ht.
Qed.

(** *** How an operation changes the state of a job *)

Definition job_moves (submitted : list positive) (jp : positive) (s s' : JobState) : Prop :=
  s' = s \/ (s = JOB_STATE_SUBMITTED /\ is_started s') \/ (s' = JOB_STATE_SUBMITTED /\ jp ∈ submitted).

Lemma submit_jobs_states jobs : forall b b' jp s,
  apply_op (SubmitJobs jobs) b = Some b' -> b_states b !! jp = Some s ->
  (b_states b' !! jp = Some s /\ jp ∉ jobs) \/ (b_states b' !! jp = Some JOB_STATE_SUBMITTED /\ jp ∈ jobs).
Proof.
  cbn [apply_op]. induction jobs as [|job jobs IH]; intros b b' jp s; cbn [foldl].
  - intros [= <-] Hs. left. split; [done|apply not_elem_of_nil].
  - change (Some b ≫= fun b => submit_job b job) with (submit_job b job). unfold submit_job at 2.
    destruct (b_states b !! job) as [s1|] eqn:Hjob; [|intros Hf; exfalso; clear -Hf; by induction jobs].
    intros Hf Hs. destruct (decide (jp = job)) as [->|Hne].
    + destruct (IH _ _ job JOB_STATE_SUBMITTED Hf) as [[Hb _]|[Hb _]]; [cbn; apply lookup_insert_eq|right; split; [done|by left]..].
    + destruct (IH _ _ jp s Hf) as [[Hb Hn]|[Hb Hi]]; [cbn; by rewrite lookup_insert_ne|left|right; split; [done|by right]].
      split; [done|]. by apply not_elem_of_cons.
Qed.

Definition submitted_by m : list positive :=
  match msg_data m with JobSubmittedMessage _ jobs => jobs | _ => [] end.

Lemma insert_moves (st : gmap positive JobState) jobs job s' jp s :
  st !! job = Some JOB_STATE_SUBMITTED -> is_started s' -> st !! jp = Some s ->
  exists s2, <[job := s']> st !! jp = Some s2 /\ job_moves jobs jp s s2.
Proof.
  intros Hjob Hs' Hs. destruct (decide (jp = job)) as [->|Hne].
  - exists s'. rewrite lookup_insert_eq. split; [done|]. right. left. split; [congruence|done].
  - exists s. rewrite lookup_insert_ne by done. split; [done|by left].
Qed.

Lemma server_iteration_moves n data m mailbox_empty data' :
  server_iteration englobing_zone n data (m, mailbox_empty) = Ok data' ->
  forall jp s, job_states data !! jp = Some s ->
  exists s', job_states data' !! jp = Some s' /\ job_moves (submitted_by m) jp s s'.
Proof.
  intros Hi%server_iteration_book jp s Hs.
  change (b_states (book_of data) !! jp = Some s) in Hs. change (job_states data') with (b_states (book_of data')).
  generalize dependent (book_of data). generalize (book_of data'). intros b' b Hop Hs.
  assert (b_states b' = b_states b -> exists s', b_states b' !! jp = Some s' /\ job_moves (submitted_by m) jp s s') as Hsame.
  { intros ->. exists s. split; [done|by left]. }
  destruct (op_of data m) as [jobs| |job|job|k|] eqn:Ho.
  - assert (submitted_by m = jobs) as ->.
    { unfold op_of in Ho. unfold submitted_by. destruct (msg_type m), (msg_data m); try done; try (by repeat case_match).
      destruct (ignores_submissions data); congruence. }
    destruct (submit_jobs_states _ _ _ _ _ Hop Hs) as [[Hb _]|[Hb Hj]]; eexists; (split; [exact Hb|]); [by left|by right; right].
  - apply Hsame. by injection Hop as <-.
  - cbn [apply_op] in Hop. destruct (decide (b_states b !! job = _)) as [Hj|]; [|done]. injection Hop as <-. cbn [b_states].
    by apply insert_moves.
  - cbn [apply_op] in Hop. destruct (decide (b_states b !! job = _)) as [Hj|]; [|done]. injection Hop as <-. cbn [b_states].
    by apply insert_moves.
  - cbn [apply_op] in Hop. destruct (decide (k = 0%nat \/ _)); [|done]. apply Hsame. by injection Hop as <-.
  - apply Hsame. by injection Hop as <-.
Qed.

(** C5. The server implements the book of jobs: an iteration of its loop that
    succeeds carries out on the book exactly the operation that the message asks for,
    whose condition holds; answering the scheduler, announcing events and cleaning
    completed jobs change nothing in it. *)
Theorem server_implements_book n data m mailbox_empty data' :
  server_iteration englobing_zone n data (m, mailbox_empty) = Ok data' ->
  apply_op (op_of data m) (book_of data) = Some (book_of data').
Proof. apply server_iteration_book. Qed.
End Book.

(** ** Example *)

Module BookExamples.
Import Concrete MachineExamples JobExamples WorkloadExamples ServerExamples.

Example server_implements_book_witness :
  apply_op (SubmitJobs [1%positive]) (book_of data1) = Some (book_of data2) /\
  apply_op (StartJob 1) (book_of data2) = Some (book_of data3) /\ b_running (book_of data3) = 1.
Proof.
  split; [exact (server_implements_book zone_of 1 data1 submit false data2 data2_ok)|].
  split; [|vm_compute; reflexivity].
  refine (server_implements_book zone_of 1 data2 execute_it false data3 _). vm_compute. reflexivity.
Defined.
End BookExamples.
