(* ===== verification/SystemFacts.v ===== *)
(** * The processes together keep the rules (theorems on the composition of the processes)

    An invariant of the whole system, in every interleaving: the processes respect what
    the server expects of the others, so that what is proved of the server alone holds
    in the system. *)

From S2P Require Import Prelude Interfaces Profiles Jobs Storage NumericStrcmp Outputs Machines Workload Tracers Ipp PState Writer NumberParsing Workflow Context ContextFacts ContextSteps Server Actors Guarantee TaskExecution SwitchProcesses EnvTrace JobsExecution Replay Submitters Reader System ServerSteps SystemProtocol SystemProcesses SystemSubmitters ServerFacts ServerBook.

(** ** The shared context and the ghost states *)

Section Coherence.
Context {IS Engine Host V : Type} `{IntervalSet IS} `{SimGrid Engine Host} `{RapidJson V}.
#[local] Abbreviation Ctx := (BatsimContext IS Engine Host V).
#[local] Abbreviation Data := (ServerData IS Engine Host V).
#[local] Abbreviation Act := (Actor IS Host V).
#[local] Abbreviation Msg := (IPMessage IS Host).
Implicit Types (c : Ctx) (g : ghost) (Γ : positive -> ghost).
Context (K : rules).

Definition messages c : list Msg := sm_message <$> c_sent c.

Lemma job_state_states c jp : job_state c jp = states c !! jp.
Proof. unfold job_state, states. by rewrite lookup_fmap. Qed.

(** Nothing is announced twice, and what a process may announce is its own. *)
Record coherent Γ c : Prop := {
  co_holds self : holds K (Γ self) c;
  co_disjoint i j jp : i ≠ j -> jp ∈ g_tokens (Γ i) -> jp ∉ g_tokens (Γ j);
  co_once : NoDup (submissions (messages c));
  co_announced jp : jp ∈ submissions (messages c) -> (jp < s_next_job (c_store c))%positive;
  co_free jp i : jp ∈ submissions (messages c) -> jp ∉ g_tokens (Γ i);
  co_sendable m : m ∈ messages c -> exists name, sendable K name m;
}.

Lemma fresh_below c jp s : fresh_ok c -> job_state c jp = Some s -> (jp < s_next_job (c_store c))%positive.
Proof.
  intros Hf. unfold job_state. destruct (s_jobs (c_store c) !! jp) eqn:E; [|done]. intros _. apply Hf. by eexists.
Qed.

Lemma segment_kept Γ c c' self g' jp s :
  segment K (Γ self) c c' g' -> job_state c jp = Some s -> exists s', job_state c' jp = Some s' /\ state_kept s s'.
Proof.
  intros Hs. unfold job_state. destruct (s_jobs (c_store c) !! jp) as [j|] eqn:Hj; [|done]. intros [= <-].
  destruct (se_jobs _ _ _ _ _ Hs jp j Hj) as (j' & -> & _ & Hk). by exists (state j').
Qed.

Lemma coherent_segment Γ Γ' self c c' :
  (forall i, i ≠ self -> Γ' i = Γ i) -> coherent Γ c -> segment K (Γ self) c c' (Γ' self) -> coherent Γ' c'.
Proof.
  intros Hothers Hco Hseg. pose proof Hco as [Hh Hd Ho Han Hfr Hs].
  pose proof Hseg as [_ Hnext _ _ _ (l & El & Bl & Dl & Al) _ _ _ _ Htok _ _ _].
  assert (messages c' = messages c ++ (sm_message <$> l)) as Emsg by (unfold messages; by rewrite El, fmap_app).
  assert (fresh_ok c) as Hf by apply (ho_fresh _ _ _ (Hh 1%positive)).
  assert (forall i jp, jp ∈ g_tokens (Γ i) -> (jp < s_next_job (c_store c))%positive) as Hbelow.
  { intros i jp Hjp. eapply fresh_below; [done|]. by apply (ho_tokens _ _ _ (Hh i)). }
  assert (holds K (Γ' self) c') as Hself by (by eapply segment_holds).
  assert (forall i, holds K (Γ' i) c') as Hall.
  { intros i. destruct (decide (i = self)) as [->|Hne]; [done|]. rewrite Hothers by done.
    destruct (Hh i) as [_ _ _ Ht Hst Hstat]. split; try apply Hself.
    - intros jp Hjp%Ht. by eapply segment_not_submitted.
    - intros jp (s & Hjs & Hs')%Hst. by eapply segment_started.
    - eapply holds_static_shrink; [exact (se_workloads _ _ _ _ _ Hseg)|by right|exact Hstat]. }
  assert (forall i jp, i ≠ self -> jp ∈ g_tokens (Γ' self) -> jp ∉ g_tokens (Γ i)) as Hsep.
  { intros i jp Hne [Hjp|[Hnew _]]%Htok Hi; [by apply (Hd self i jp)|]. apply Hbelow in Hi. lia. }
  split; rewrite ?Emsg, ?submissions_app; try done.
  - intros i j jp Hij Hi Hj. destruct (decide (i = self)) as [->|Hni], (decide (j = self)) as [->|Hnj]; [done| | |].
    + rewrite (Hothers j) in Hj by done. by eapply Hsep.
    + rewrite (Hothers i) in Hi by done. by eapply Hsep.
    + rewrite (Hothers i) in Hi by done. rewrite (Hothers j) in Hj by done. by apply (Hd i j jp).
  - apply NoDup_app. split; [done|]. split; [|done]. intros jp Hjp ([Ht|Hnew] & _)%Al; [by apply (Hfr jp self)|].
    apply Han in Hjp. lia.
  - intros jp [Hjp%Han|(_ & _ & Hjp)%Al]%elem_of_app; [lia|]. eapply fresh_below; [|done]. apply (ho_fresh _ _ _ Hself).
  - intros jp i [Hjp|(Hown & Hn & _)%Al]%elem_of_app Hi.
    + destruct (decide (i = self)) as [->|Hne]; [|rewrite Hothers in Hi by done; by apply (Hfr jp i)].
      apply Htok in Hi as [Hi|[Hnew _]]; [by apply (Hfr jp self)|]. apply Han in Hjp. lia.
    + destruct (decide (i = self)) as [->|Hne]; [done|]. rewrite Hothers in Hi by done.
      destruct Hown as [Hown|Hnew]; [by apply (Hd self i jp)|]. apply Hbelow in Hi. lia.
  - intros m [Hm|(sm & -> & Hsm)%list_elem_of_fmap]%elem_of_app; [by apply Hs|].
    exists (g_name (Γ self)). rewrite Forall_forall in Bl. by apply Bl.
Qed.

(** A step that no process claims. *)
Lemma coherent_calm Γ c c' : calm harmless c c' -> coherent Γ c -> coherent Γ c'.
Proof. intros Hc Hco. eapply (coherent_segment Γ Γ 1%positive); [done|done|]. by apply calm_segment. Qed.

(** ** When a process may start *)

Definition startable g (a : Act) : Prop :=
  match a with
  | server_actor => True
  | static_job_submitter_actor wn => can_submit_static g wn
  | batexec_job_launcher_actor _ => False
  | workflow_submitter_actor wn => (wn ∉ static_workloads K) /\ callbacks K = true /\ g = mk_ghost ∅ ∅ (Some (submitter_of wn)) None
  | static_event_submitter_actor _ => True
  | Context.execute_job_process alloc _ _ => sa_job alloc ∈ g_started g
  | a => harmless a
  end.

Lemma harmless_startable g (a : Act) : harmless a -> startable g a.
Proof. by destruct a. Qed.

End Coherence.

(** ** The invariant *)

Section Invariant.
Context {IS Engine Host V : Type} `{IntervalSet IS} `{SimGrid Engine Host} `{RapidJson V} `{BoostString} `{FileSystem}.
#[local] Abbreviation Ctx := (BatsimContext IS Engine Host V).
#[local] Abbreviation Data := (ServerData IS Engine Host V).
#[local] Abbreviation M := (Actors.M Data IS Host).
#[local] Abbreviation Act := (Actor IS Host V).
#[local] Abbreviation Msg := (IPMessage IS Host).
#[local] Abbreviation sys := (system IS Engine Host V).
Context (x : externals IS Engine Host V) (K : rules).
Implicit Types (c : Ctx) (d : Data) (m : Msg) (g : ghost) (Γ : positive -> ghost) (σ : sys).
#[local] Abbreviation conforms := (Guarantee.conforms (C := Data) (IS := IS) (Host := Host) asks (pre K) (guar K) (fun _ _ _ => True)).
#[local] Abbreviation resumes := (Guarantee.resumes (C := Data) (IS := IS) (Host := Host) asks (pre K) (guar K) (fun _ _ _ => True)).
#[local] Abbreviation does := (Guarantee.does (C := Data) (IS := IS) (Host := Host) asks (pre K) (guar K)).

(** A blocked process has its next segments in order, whatever the data. *)
Definition blocked_ok g (w : Q * proc Data IS Host unit) : Prop := resumes g w.2.

(** If it waits for a message to be received, the message has been sent. *)
Definition asked c (p : proc Data IS Host unit) : Prop :=
  match p with Waiting (put_message mbox n) _ => (n <= nb_sent mbox c)%nat | _ => True end.

Lemma asked_more c c' p : (exists l, c_sent c' = c_sent c ++ l) -> asked c p -> asked c' p.
Proof.
  intros [l El]. destruct p as [a|[] resume]; try done. cbn. unfold nb_sent. rewrite El, List.filter_app, length_app. lia.
Qed.

Lemma asks_asked d b (resume : answer b -> Data -> result (Data * proc Data IS Host unit)) :
  asks d b -> asked (sd_context d) (Waiting b resume).
Proof. by destruct b. Qed.

(** The server sees a run of the relation that its own theorems are about. *)
Definition server_side σ : Prop :=
  if sy_server_started σ then
    exists c data0, (forall jp, states c !! jp ≠ Some JOB_STATE_SUBMITTED) /\ server_start c = Ok data0 /\
      rtc (server_step (x_englobing_zone x) (x_stack x)) (∅, data0) (∅, sy_data σ)
  else forall jp, states (sy_context σ) !! jp ≠ Some JOB_STATE_SUBMITTED.

Record invariant Γ σ : Prop := {
  iv_coherent : coherent K Γ (sy_context σ);
  iv_pending jp : jp ∈ submissions (unread σ "server") -> job_state (sy_context σ) jp = Some JOB_STATE_NOT_SUBMITTED;
  iv_blocked self w : sy_blocked σ !! self = Some w ->
    self ∈ sy_started σ /\ (self < c_next_actor (sy_context σ))%positive /\ blocked_ok (Γ self) w /\ asked (sy_context σ) w.2;
  iv_unstarted a : a ∈ c_actors (sy_context σ) -> a.1 ∉ sy_started σ -> startable K (Γ a.1) a.2;
  iv_server : server_side σ;
  iv_nobody : callbacks K = false -> nobody_called (sy_data σ);
  iv_sending mbox n m : sy_sending σ = Some (mbox, n, Handling m) -> well_typed m = true /\ msg_type m = JOB_COMPLETED;
}.

(** *** Messages *)

Lemma sublist_submissions (l1 l2 : list Msg) : sublist l1 l2 -> sublist (submissions l1) (submissions l2).
Proof.
  unfold submissions. induction 1 as [|m l1 l2 _ IH|m l1 l2 _ IH]; cbn; [done|by apply sublist_app|].
  by apply sublist_inserts_l.
Qed.

Lemma filter_sublist {A} (p : A -> bool) l : sublist (List.filter p l) l.
Proof. induction l as [|a l IH]; cbn; [done|]. destruct (p a); by constructor. Qed.

Lemma unread_sublist σ mbox : sublist (unread σ mbox) (messages (sy_context σ)).
Proof.
  unfold unread, messages. etransitivity; [apply sublist_drop|]. apply fmap_sublist, filter_sublist.
Qed.

Lemma unread_messages σ mbox m : m ∈ unread σ mbox -> m ∈ messages (sy_context σ).
Proof. intros Hm. eapply elem_of_submseteq; [exact Hm|]. apply sublist_submseteq, unread_sublist. Qed.

Lemma elem_of_dropped {A} (a : A) n l : a ∈ drop n l -> a ∈ l.
Proof. intros Ha. eapply elem_of_submseteq; [exact Ha|]. apply sublist_submseteq, sublist_drop. Qed.

Lemma dropped_more {A} (a : A) n l : a ∈ drop (Datatypes.S n) l -> a ∈ drop n l.
Proof. rewrite <- Nat.add_1_r, <- drop_drop. apply elem_of_dropped. Qed.

Lemma dropped_first {A} (a : A) n l rest : drop n l = a :: rest -> drop (Datatypes.S n) l = rest.
Proof. rewrite <- Nat.add_1_r, <- drop_drop. by intros ->. Qed.

(** What is not read after messages have been sent. *)
Lemma unread_sent σ σ' mbox l :
  sy_read σ' = sy_read σ -> c_sent (sy_context σ') = c_sent (sy_context σ) ++ l ->
  forall m, m ∈ unread σ' mbox -> m ∈ unread σ mbox \/ m ∈ sm_message <$> l.
Proof.
  intros Er El m. unfold unread, nb_read. rewrite Er, El, List.filter_app, fmap_app, drop_app.
  intros [Hm|Hm]%elem_of_app; [by left|right]. apply elem_of_dropped in Hm.
  eapply elem_of_submseteq; [exact Hm|]. apply sublist_submseteq, fmap_sublist, filter_sublist.
Qed.

Lemma elem_of_submissions jp (l : list Msg) : jp ∈ submissions l <-> exists m, m ∈ l /\ jp ∈ announced m.
Proof. unfold submissions. rewrite list_elem_of_bind. naive_solver. Qed.

Lemma receive_unread σ mbox mbox' m : m ∈ unread (receive mbox σ) mbox' -> m ∈ unread σ mbox'.
Proof.
  unfold unread, receive, nb_read. cbn. destruct (decide (mbox' = mbox)) as [->|Hne].
  - rewrite lookup_insert_eq. cbn -[drop]. apply dropped_more.
  - by rewrite lookup_insert_ne.
Qed.

Lemma receive_invariant Γ σ mbox : invariant Γ σ -> invariant Γ (receive mbox σ).
Proof.
  intros [Hc Hp Hb Hu Hs Hno Hg]. split; try done. intros jp (m & Hm%receive_unread & Hjp)%elem_of_submissions.
  apply Hp, elem_of_submissions. by exists m.
Qed.

(** *** A segment of a process *)

Lemma others_step σ Γ self c' g' :
  segment K (Γ self) (sy_context σ) c' g' -> server_side σ ->
  server_side (σ <| sy_data ::= fun d => d <| sd_context := c' |> |>).
Proof.
  intros Hseg. assert (forall jp, states c' !! jp = Some JOB_STATE_SUBMITTED <-> states (sy_context σ) !! jp = Some JOB_STATE_SUBMITTED) as Hsub.
  { intros jp. rewrite <- !job_state_states. unfold job_state.
    destruct (s_jobs (c_store (sy_context σ)) !! jp) as [j|] eqn:Hj.
    - destruct (se_jobs _ _ _ _ _ Hseg jp j Hj) as (j' & -> & _ & Hk). cbn.
      destruct Hk as [->|[[? ?] [? ?]]]; [done|]. split; congruence.
    - destruct (s_jobs (c_store c') !! jp) as [j'|] eqn:Hj'; [|done]. cbn.
      destruct (se_new _ _ _ _ _ Hseg jp j' Hj' Hj) as [-> _]. done. }
  unfold server_side. cbn. destruct (sy_server_started σ).
  - intros (c1 & d0 & Hc1 & Hd0 & Hr). exists c1, d0. split; [done|]. split; [done|].
    eapply rtc_r; [exact Hr|]. by apply step_others.
  - intros Hn jp Hjp%Hsub. by apply (Hn jp).
Qed.

Lemma segment_invariant Γ Γ' σ self c' B :
  invariant Γ σ -> segment K (Γ self) (sy_context σ) c' (Γ' self) -> (forall i, i ≠ self -> Γ' i = Γ i) ->
  (self ∈ sy_started σ \/ Γ' self = Γ self) ->
  (forall i w, B !! i = Some w -> (i = self /\ self ∈ sy_started σ /\ (self < c_next_actor (sy_context σ))%positive /\ blocked_ok (Γ' self) w /\ asked c' w.2) \/
                                  (i ≠ self /\ sy_blocked σ !! i = Some w)) ->
  invariant Γ' (σ <| sy_data ::= fun d => d <| sd_context := c' |> |> <| sy_blocked := B |>).
Proof.
  intros [Hc Hp Hb Hu Hs Hno Hg] Hseg Hothers Hself HB. pose proof Hseg as [_ _ _ _ _ (l & El & _ & _ & Al) Hact Hnext _ _ _ _].
  split; cbn [sy_context sy_data sd_context sy_blocked sy_started].
  - by eapply coherent_segment.
  - intros jp (m & Hm & Hjp)%elem_of_submissions.
    apply (unread_sent σ _ "server" l) in Hm as [Hm|Hm]; [| |done|exact El].
    + eapply segment_not_submitted; [exact Hseg|]. apply Hp, elem_of_submissions. by exists m.
    + eapply Al, elem_of_submissions. by exists m.
  - intros i w [(-> & Hst & Hlt & Hw & Ha)|(Hne & Hw)]%HB; cbn.
    + split; [done|]. split; [|done]. cbn. unfold sy_context in *. cbn in *. lia.
    + destruct (Hb i w Hw) as (? & Hlt & Hok & Ha). split; [done|]. split; [unfold sy_context in *; cbn in *; lia|].
      split; [by rewrite Hothers|]. apply (asked_more (sy_context σ)); [by exists l|exact Ha].
  - intros a Ha Hn. unfold sy_context in Ha. cbn in Ha, Hn. assert (Γ' a.1 = Γ a.1) as ->.
    { destruct (decide (a.1 = self)) as [E|Hne]; [|by apply Hothers]. destruct Hself; congruence. }
    unfold sy_context. cbn. apply Hact in Ha as [Ha|[_ Ha]]; [|by apply harmless_startable]. by apply Hu.
  - exact (others_step σ Γ self c' (Γ' self) Hseg Hs).
  - exact Hno.
  - exact Hg.
Qed.

(** A step that no process claims. *)
Lemma calm_invariant Γ σ c' :
  calm harmless (sy_context σ) c' -> invariant Γ σ -> invariant Γ (σ <| sy_data ::= fun d => d <| sd_context := c' |> |>).
Proof.
  intros Hc Hinv.
  change (σ <| sy_data ::= fun d => d <| sd_context := c' |> |>)
    with (σ <| sy_data ::= fun d => d <| sd_context := c' |> |> <| sy_blocked := sy_blocked σ |>).
  apply (segment_invariant Γ Γ σ 1%positive); [done|by apply calm_segment|done|by right|].
  intros i w Hw. destruct (decide (i = 1%positive)) as [->|Hne]; [left|by right].
  destruct (iv_blocked _ _ Hinv _ _ Hw) as (Hst & Hlt & Hok & Ha). split_and!; try done.
  eapply asked_more; [|exact Ha]. destruct (quiet_sent _ _ _ (proj1 Hc)) as (l & El & _). by exists l.
Qed.

(** What the invariant says of a state. *)
Lemma invariant_same Γ σ σ' :
  sy_context σ' = sy_context σ -> sy_started σ' = sy_started σ -> sy_blocked σ' = sy_blocked σ -> sy_read σ' = sy_read σ ->
  sy_sending σ' = sy_sending σ -> server_side σ' -> (callbacks K = false -> nobody_called (sy_data σ')) ->
  invariant Γ σ -> invariant Γ σ'.
Proof.
  intros E1 E2 E3 E4 E5 Hs Hno [Hc Hp Hb Hu _ _ Hg]. unfold unread, nb_read in *. split; unfold unread, nb_read;
    rewrite ?E1, ?E2, ?E3, ?E4, ?E5; done.
Qed.

(** What has been sent has been sent; the machines stay consistent. *)
Record context_forward c c' : Prop := {
  fw_sent : exists l, c_sent c' = c_sent c ++ l;
  fw_machines : machines_kept (c_machines c) (c_machines c');
}.
Definition forward σ σ' : Prop := context_forward (sy_context σ) (sy_context σ').

#[export] Instance forward_preorder : PreOrder forward.
Proof.
  split.
  - intros σ. split; [exists []; by rewrite app_nil_r|done].
  - intros σ1 σ2 σ3 [[l1 E1] M1] [[l2 E2] M2]. split; [|by etransitivity]. exists (l1 ++ l2). by rewrite E2, E1, app_assoc.
Qed.

Lemma same_sent_forward σ σ' :
  c_sent (sy_context σ') = c_sent (sy_context σ) -> c_machines (sy_context σ') = c_machines (sy_context σ) -> forward σ σ'.
Proof. intros Es Em. split; [exists []; by rewrite app_nil_r|by rewrite Em]. Qed.

Lemma segment_forward Γ g' self σ σ' c' :
  segment K (Γ self) (sy_context σ) c' g' -> c_sent (sy_context σ') = c_sent c' ->
  c_machines (sy_context σ') = c_machines c' -> forward σ σ'.
Proof.
  intros Hseg Es Em. split; [rewrite Es|rewrite Em; exact (se_machines _ _ _ _ _ Hseg)].
  destruct (se_sent _ _ _ _ _ Hseg) as (l & El & _). by exists l.
Qed.

(** *** The end of a segment *)

Lemma settle_invariant Γ σ self (r : result (Data * proc Data IS Host unit)) σ' :
  invariant Γ σ -> self ∈ sy_started σ -> (self < c_next_actor (sy_context σ))%positive ->
  (forall d p, r = Ok (d, p) -> exists g', guar K (Γ self) (sy_data σ) d g' /\ conforms g' d p) ->
  settle self r σ = Ok σ' -> exists Γ', invariant Γ' σ' /\ forward σ σ'.
Proof.
  intros Hinv Hself Hlt Hr. unfold settle. destruct r as [[d p]|e]; cbn; [|done]. intros [= <-].
  destruct (Hr d p eq_refl) as (g' & (c' & -> & Hseg) & Hconf).
  specialize (Hseg (co_holds _ _ _ (iv_coherent _ _ Hinv) self)).
  pose (Γ' := fun i => if decide (i = self) then g' else Γ i).
  assert (Γ' self = g') as Eself by (unfold Γ'; by rewrite decide_True).
  assert (forall i, i ≠ self -> Γ' i = Γ i) as Eothers by (intros i Hi; unfold Γ'; by rewrite decide_False).
  exists Γ'. split; [|destruct p; by eapply (segment_forward Γ _ self)]. destruct p as [a|b resume].
  - change (σ <| sy_data := (sy_data σ <| sd_context := c' |>) <| sd_context ::= remove_actors {[self]} |> |> <| sy_blocked ::= delete self |>)
      with (σ <| sy_data ::= fun d => d <| sd_context := remove_actors {[self]} c' |> |> <| sy_blocked := delete self (sy_blocked σ) |>).
    eapply segment_invariant; [exact Hinv| |exact Eothers|by left|].
    + rewrite Eself. eapply segment_trans; [exact (ho_fresh _ _ _ (co_holds _ _ _ (iv_coherent _ _ Hinv) self))|exact Hseg|].
      apply calm_segment, remove_actors_calm.
    + intros i w [Hne Hw]%lookup_delete_Some. by right.
  - change (σ <| sy_data := sy_data σ <| sd_context := c' |> |> <| sy_blocked ::= <[self := (time_of (sy_data σ <| sd_context := c' |>), Waiting b resume)]> |>)
      with (σ <| sy_data ::= fun d => d <| sd_context := c' |> |>
              <| sy_blocked := <[self := (time_of (sy_data σ <| sd_context := c' |>), Waiting b resume)]> (sy_blocked σ) |>).
    eapply segment_invariant; [exact Hinv|by rewrite Eself|exact Eothers|by left|].
    apply conforms_waiting in Hconf as [Hask Hconf].
    intros i w [[<- <-]|[Hne Hw]]%lookup_insert_Some; [left|by right]. split; [done|]. split; [done|]. split; [done|].
    rewrite Eself. split; [exact Hconf|]. exact (asks_asked (sy_data σ <| sd_context := c' |>) b resume Hask).
Qed.

(** A blocked process goes on. *)
Lemma resume_invariant Γ σ self since b resume ans σ' mbox (receives : bool) :
  invariant Γ σ -> sy_blocked σ !! self = Some (since, Waiting b resume) ->
  settle self (resume ans (sy_data σ)) (if receives then receive mbox σ else σ) = Ok σ' -> exists Γ', invariant Γ' σ' /\ forward σ σ'.
Proof.
  intros Hinv Hb Hset. destruct (iv_blocked _ _ Hinv _ _ Hb) as (Hself & Hlt & Hok & _).
  destruct (settle_invariant Γ (if receives then receive mbox σ else σ) self (resume ans (sy_data σ)) σ') as (Γ' & Hinv' & Hf);
    [destruct receives; [by apply receive_invariant|done]|by destruct receives|by destruct receives| |exact Hset|].
  - intros d p Hr. assert (sy_data (if receives then receive mbox σ else σ) = sy_data σ) as -> by by destruct receives.
    eapply conforms_resume; [exact Hok| |exact Hr]. apply (co_holds _ _ _ (iv_coherent _ _ Hinv) self).
  - exists Γ'. split; [done|]. by destruct receives.
Qed.

(** *** The server *)

(** A step of the server: a quiet step of the context, and the moves of jobs. *)
Record server_moves m c c' : Prop := {
  sv_quiet : quiet (started_by m) c c';
  sv_states jp s : job_state c jp = Some s ->
    exists s', job_state c' jp = Some s' /\ job_moves (submitted_by m) jp s s';
  sv_started alloc io : msg_data m = ExecuteJobMessage alloc io ->
    exists s, job_state c' (sa_job alloc) = Some s /\ is_started s;
}.

Lemma quiet_job_present ok c c' jp : quiet ok c c' -> is_Some (s_jobs (c_store c) !! jp) <-> is_Some (s_jobs (c_store c') !! jp).
Proof.
  intros Hq. pose proof (quiet_jobs _ _ _ Hq) as E. apply (f_equal (fun st => st !! jp)) in E. rewrite !lookup_fmap in E.
  destruct (s_jobs (c_store c) !! jp), (s_jobs (c_store c') !! jp); try done; by split; intros [? ?].
Qed.

Lemma server_moves_step n d m b d' :
  well_typed m = true -> server_iteration (x_englobing_zone x) n d (m, b) = Ok d' ->
  server_moves m (sd_context d) (sd_context d').
Proof.
  intros Hty Hr. split.
  - by apply server_iteration_quiet in Hr as [? _].
  - intros jp s. rewrite job_state_states. intros Hs. setoid_rewrite job_state_states.
    exact (server_iteration_moves _ _ _ _ _ _ Hr jp s Hs).
  - intros alloc io Hm. apply server_iteration_book in Hr.
    assert (op_of d m = StartJob (sa_job alloc)) as Ho.
    { unfold op_of, well_typed in *. rewrite Hm in *. by destruct (msg_type m). }
    rewrite Ho in Hr. cbn [apply_op] in Hr. destruct (decide _); [|done]. exists JOB_STATE_RUNNING. split; [|done].
    rewrite job_state_states. injection Hr as E _ _ _. change (states (sd_context d')) with (job_states d'). rewrite <- E.
    apply lookup_insert_eq.
Qed.

(** The processes that the server has just created know the job that they execute. *)
Definition told m : ghost :=
  match msg_data m with ExecuteJobMessage alloc _ => mk_ghost ∅ {[sa_job alloc]} None None | _ => no_ghost end.
Definition after_server Γ c m : positive -> ghost := fun i => if decide (i < c_next_actor c)%positive then Γ i else told m.

Lemma submissions_in jp m (l : list Msg) : m ∈ l -> jp ∈ submitted_by m -> jp ∈ submissions l.
Proof. intros Hm Hjp. apply elem_of_submissions. by exists m. Qed.

Section ServerMoves.
Context (m : Msg) (c c' : Ctx) (Hmv : server_moves m c c').
Context (Γ : positive -> ghost) (Hco : coherent K Γ c) (Hm : forall jp, jp ∈ submitted_by m -> jp ∈ submissions (messages c)).
Context (Hpend : forall jp, jp ∈ submitted_by m -> job_state c jp = Some JOB_STATE_NOT_SUBMITTED).

Lemma moves_not_submitted jp :
  jp ∉ submitted_by m -> job_state c jp = Some JOB_STATE_NOT_SUBMITTED -> job_state c' jp = Some JOB_STATE_NOT_SUBMITTED.
Proof.
  intros Hn (s' & Hs' & Hk)%(sv_states _ _ _ Hmv). destruct Hk as [->|[[? _]|[_ ?]]]; done.
Qed.

Lemma moves_started jp s :
  job_state c jp = Some s -> is_started s -> exists s', job_state c' jp = Some s' /\ is_started s'.
Proof.
  intros Hs [H1' H2']. destruct (sv_states _ _ _ Hmv _ _ Hs) as (s' & Hs' & Hk). exists s'. split; [done|].
  destruct Hk as [->|[[? _]|[_ Hj]]]; [done|done|]. apply Hpend in Hj. congruence.
Qed.

Lemma server_moves_forward σ σ' : sy_context σ = c -> sy_context σ' = c' -> forward σ σ'.
Proof.
  intros <- <-. destruct (quiet_sent _ _ _ (sv_quiet _ _ _ Hmv)) as (l & El & _).
  split; [by exists l|exact (quiet_machines _ _ _ (sv_quiet _ _ _ Hmv))].
Qed.

Lemma server_holds self : holds K (after_server Γ c m self) c'.
Proof.
  pose proof Hmv as [Hq Hst Hex]. pose proof Hco as [Hh _ _ _ Hfr _]. destruct (Hh self) as [Hreg Hf Ha Ht Hs Hstat].
  assert (fresh_ok c') as Hf'.
  { intros jp Hjp%(quiet_job_present _ _ _ _ Hq). rewrite (quiet_next _ _ _ Hq). by apply Hf. }
  assert (registration_sched_enabled (c_options c') = false) as Hreg' by by rewrite (quiet_options _ _ _ Hq).
  unfold after_server. destruct (decide _); [split; try done|split; try done].
  - by apply (quiet_actors _ _ _ Hq).
  - intros jp Hjp. apply moves_not_submitted; [|by apply Ht]. intros Hin. eapply (Hfr jp self); [|exact Hjp].
    by apply Hm.
  - intros jp (s & Hjs & Hs')%Hs. by eapply moves_started.
  - eapply holds_static_shrink; [intros wn w' _; exact (quiet_workloads _ _ _ Hq wn w')|by right|exact Hstat].
  - by apply (quiet_actors _ _ _ Hq).
  - intros jp. unfold told. by destruct (msg_data m).
  - intros jp. unfold told. destruct (msg_data m) eqn:Hd; cbn; set_solver.
  - intros wn. unfold told. by destruct (msg_data m).
Qed.

Lemma told_tokens i jp : jp ∈ g_tokens (after_server Γ c m i) -> jp ∈ g_tokens (Γ i).
Proof. unfold after_server, told. destruct (decide _); [done|]. by destruct (msg_data m). Qed.

Lemma benign_submissions (l : list (SentMessage IS Host)) :
  Forall (fun sm => benign (sm_message sm) = true) l -> submissions (sm_message <$> l) = [].
Proof.
  induction 1 as [|sm l Hsm _ IH]; [done|]. unfold submissions in *. cbn.
  apply (benign_sendable K None) in Hsm as [_ ->]. exact IH.
Qed.

Lemma server_coherent : coherent K (after_server Γ c m) c'.
Proof.
  pose proof Hmv as [Hq _ _]. destruct (quiet_sent _ _ _ Hq) as (l & El & Bl).
  pose proof Hco as [Hh Hd Ho Han Hfr Hs].
  assert (messages c' = messages c ++ (sm_message <$> l)) as Emsg by (unfold messages; by rewrite El, fmap_app).
  split; rewrite ?Emsg, ?submissions_app, ?(benign_submissions l Bl), ?app_nil_r.
  - apply server_holds.
  - intros i j jp Hij Hi%told_tokens Hj%told_tokens. by apply (Hd i j jp).
  - done.
  - intros jp Hjp. rewrite (quiet_next _ _ _ Hq). by apply Han.
  - intros jp i Hjp Hi%told_tokens. by apply (Hfr jp i).
  - intros m' [Hm'|(sm & -> & Hsm)%list_elem_of_fmap]%elem_of_app; [by apply Hs|]. exists None.
    rewrite Forall_forall in Bl. by apply benign_sendable, Bl.
Qed.

Lemma server_startable (a : positive * Act) (started : gset positive) :
  a ∈ c_actors c' -> a.1 ∉ started ->
  (forall a, a ∈ c_actors c -> a.1 ∉ started -> startable K (Γ a.1) a.2) ->
  startable K (after_server Γ c m a.1) a.2.
Proof.
  intros Ha Hn Hu. pose proof Hmv as [Hq _ _]. destruct (ho_actors _ _ _ (co_holds _ _ _ Hco a.1)) as [_ Hlt].
  destruct (quiet_new _ _ _ Hq _ Ha) as [Hold|[Hnew Hst]].
  - unfold after_server. rewrite decide_True by by apply Hlt. by apply Hu.
  - destruct Hst as [Hst|(alloc & io & Hd & ->)]; [by apply harmless_startable|].
    unfold after_server, told. rewrite decide_False by lia. rewrite Hd. cbn. set_solver.
Qed.
End ServerMoves.

Lemma received_first σ mbox m rest : unread σ mbox = m :: rest -> unread (receive mbox σ) mbox = rest.
Proof.
  unfold unread, receive, nb_read. cbn. rewrite lookup_insert_eq. apply dropped_first.
Qed.

Lemma sendable_well_sent d m name :
  sendable K name m -> NoDup (submitted_by m) ->
  (forall jp, jp ∈ submitted_by m -> job_state (sd_context d) jp = Some JOB_STATE_NOT_SUBMITTED) ->
  well_sent ∅ d m /\ still_registered ∅ m = ∅.
Proof.
  intros [_ Hs] Hnd Hpend. split.
  - unfold well_sent, submitted_by in *. clear -Hs Hnd Hpend.
    destruct (msg_data m); try done; try (intros; apply not_elem_of_empty). split; [done|].
    intros jp Hjp. split; [apply not_elem_of_empty|]. apply Hpend in Hjp. rewrite job_state_states in Hjp.
    unfold job_states. congruence.
  - unfold still_registered. clear -Hs. by destruct (msg_type m), (msg_data m).
Qed.

(** An iteration of the server on a message which is no longer in its mailbox. *)
Lemma iteration_invariant Γ σ m b d' name :
  invariant Γ σ -> sendable K name m -> NoDup (submitted_by m) ->
  (forall jp, jp ∈ submitted_by m -> jp ∈ submissions (messages (sy_context σ)) /\
     (jp ∉ submissions (unread σ "server")) /\ job_state (sy_context σ) jp = Some JOB_STATE_NOT_SUBMITTED) ->
  sy_server_started σ = true -> server_iteration (x_englobing_zone x) (x_stack x) (sy_data σ) (m, b) = Ok d' ->
  exists Γ', invariant Γ' (σ <| sy_data := d' |>) /\ forward σ (σ <| sy_data := d' |>).
Proof.
  intros Hinv Hsend Hnd Hsub Hstarted Hd. pose proof Hinv as [Hc Hp Hb Hu Hs Hno Hg].
  assert (forall jp, jp ∈ submitted_by m -> job_state (sy_context σ) jp = Some JOB_STATE_NOT_SUBMITTED) as Hpend by apply Hsub.
  assert (forall jp, jp ∈ submitted_by m -> jp ∈ submissions (messages (sy_context σ))) as Hm by apply Hsub.
  pose proof (server_moves_step _ _ _ _ _ (proj1 Hsend) Hd) as Hmv. change (sd_context (sy_data σ)) with (sy_context σ) in Hmv.
  pose proof Hmv as [Hq _ _]. exists (after_server Γ (sy_context σ) m).
  split; [|by eapply server_moves_forward]. split.
  - by eapply server_coherent.
  - intros jp (m' & Hm' & Hjp)%elem_of_submissions.
    destruct (quiet_sent _ _ _ Hq) as (l & El & Bl).
    apply (unread_sent σ _ "server" l) in Hm' as [Hm'|Hm']; [| |done|exact El].
    + assert (jp ∈ submissions (unread σ "server")) as Hin by (apply elem_of_submissions; by exists m').
      eapply moves_not_submitted; [exact Hmv| |by apply Hp]. intros Hj. by apply (Hsub jp).
    + assert (jp ∈ submissions (sm_message <$> l)) as Hin by (apply elem_of_submissions; by exists m').
      rewrite (benign_submissions l Bl) in Hin. by apply elem_of_nil in Hin.
  - intros self w Hw. destruct (Hb self w Hw) as (Hst & Hlt & Hok & Ha). split; [done|]. split_and!.
    + eapply Pos.lt_le_trans; [exact Hlt|]. apply (quiet_next_actor _ _ _ Hq).
    + unfold after_server. by rewrite decide_True.
    + eapply asked_more; [|exact Ha]. destruct (quiet_sent _ _ _ Hq) as (l & El & _). by exists l.
  - intros a Ha Hn. by eapply server_startable.
  - unfold server_side in *. cbn. rewrite Hstarted in *. destruct Hs as (c1 & d0 & Hc1 & Hd0 & Hr).
    exists c1, d0. split; [done|]. split; [done|]. eapply rtc_r; [exact Hr|].
    destruct (sendable_well_sent (sy_data σ) m name Hsend Hnd Hpend) as [Hw Hstill].
    rewrite <- Hstill at 2. by eapply step_message.
  - intros HK. apply server_iteration_quiet in Hd as [_ Hn]. apply Hn; [|by apply Hno]. destruct Hsend as [_ Hs'].
    unfold asks_back. destruct (msg_data m); try done. destruct enable_callback_on_job_completion; [|done].
    specialize (Hs' eq_refl). congruence.
  - exact Hg.
Qed.

(** A step of the server that changes no job. *)
Lemma quiet_server_invariant Γ σ d' :
  invariant Γ σ -> sy_server_started σ = true -> calm harmless (sy_context σ) (sd_context d') ->
  (nobody_called (sy_data σ) -> nobody_called d') -> server_step (x_englobing_zone x) (x_stack x) (∅, sy_data σ) (∅, d') ->
  invariant Γ (σ <| sy_data := d' |>) /\ forward σ (σ <| sy_data := d' |>).
Proof.
  intros Hinv Hstarted Hc Hnobody Hstep. split.
  - apply (invariant_same Γ (σ <| sy_data ::= fun d => d <| sd_context := sd_context d' |> |>)); try done;
      [|by intros HK; apply Hnobody, (iv_nobody _ _ Hinv)|by apply calm_invariant].
    pose proof (iv_server _ _ Hinv) as Hs. unfold server_side in *. cbn. rewrite Hstarted in *.
    destruct Hs as (c1 & d0 & Hc1 & Hd0 & Hr). exists c1, d0. split; [done|]. split; [done|]. by eapply rtc_r.
  - apply (segment_forward (fun _ => no_ghost) no_ghost 1%positive σ (σ <| sy_data := d' |>) (sd_context d')); [by apply calm_segment|done..].
Qed.

Lemma account_calm ok (data data' : Data) :
  quiet ok (sd_context data) (sd_context data') -> same_account data data' -> calm ok (sd_context data) (sd_context data').
Proof. intros Hq [Ha _]. by split. Qed.

(** The server starts or ends to wait for the message that it has sent back. *)
Lemma sending_invariant Γ σ s :
  (forall mbox n m, s = Some (mbox, n, Handling m) -> well_typed m = true /\ msg_type m = JOB_COMPLETED) ->
  invariant Γ σ -> invariant Γ (σ <| sy_sending := s |>).
Proof. intros Hs [Hc Hp Hb Hu Hsv Hno _]. by split. Qed.

Lemma server_receives_invariant Γ σ σ' :
  invariant Γ σ -> server_receives x σ = Some (Ok σ') -> exists Γ', invariant Γ' σ' /\ forward σ σ'.
Proof.
  intros Hinv. unfold server_receives. destruct (server_waits σ) eqn:Hrun; [|done].
  destruct (unread σ "server") as [|m rest] eqn:Hun; [done|]. intros [= Hr].
  unfold server_waits, server_runs in Hrun. rewrite !andb_true_iff in Hrun. destruct Hrun as [[[_ Hstarted] _] _].
  pose proof Hinv as [Hc Hp _ _ _ _ _].
  assert (m ∈ messages (sy_context σ)) as Hm.
  { apply (unread_messages _ "server"). rewrite Hun. by left. }
  destruct (co_sendable _ _ _ Hc m Hm) as (name & Hsend).
  assert (NoDup (submissions (m :: rest))) as Hnd.
  { eapply sublist_NoDup; [apply (co_once _ _ _ Hc)|]. rewrite <- Hun. apply sublist_submissions, unread_sublist. }
  change (submissions (m :: rest)) with (submitted_by m ++ submissions rest) in Hnd. apply NoDup_app in Hnd as (Hnd1 & Hdis & _).
  unfold receives in Hr. apply bind_Ok in Hr as (back & Hback & Hr).
  pose proof (receive_invariant Γ σ "server" Hinv) as Hinv1. destruct back as [[[mbox d1] p]|].
  - injection Hr as <-. destruct (quiet_server_invariant Γ (receive "server" σ) d1 Hinv1 Hstarted) as [Hinv2 Hf].
    + apply (account_calm harmless); [by eapply sends_back_quiet|by eapply sends_back_account].
    + by eapply sends_back_quiet.
    + by eapply step_sends_back.
    + exists Γ. split; [|exact Hf]. refine (sending_invariant Γ (receive "server" σ <| sy_data := d1 |>) _ _ Hinv2). intros mb n m0 [= _ _ ->].
      apply sends_back_inv in Hback as [(jp & j & [= ->] & Ht & _)|(? & _)]; [|done]. split; [apply Hsend|done].
  - apply bind_Ok in Hr as (d' & Hd & [= <-]).
    eapply (iteration_invariant Γ (receive "server" σ)); [exact Hinv1|exact Hsend|exact Hnd1| |exact Hstarted|exact Hd].
    intros jp Hjp. split; [by eapply submissions_in|]. rewrite (received_first _ _ _ _ Hun). split; [by apply Hdis|].
    apply Hp. rewrite Hun. eapply submissions_in; [by left|done].
Qed.

Lemma server_goes_on_invariant Γ σ σ' :
  invariant Γ σ -> server_goes_on x σ = Some (Ok σ') -> exists Γ', invariant Γ' σ' /\ forward σ σ'.
Proof.
  intros Hinv. unfold server_goes_on. destruct (server_runs σ) eqn:Hrun; [|done].
  unfold server_runs in Hrun. apply andb_true_iff in Hrun as [_ Hstarted].
  destruct (sy_sending σ) as [[[mbox n] p]|] eqn:Hsd; [|done]. destruct (n <=? nb_read σ mbox)%nat; [|done].
  intros [= Hr]. apply bind_Ok in Hr as (d' & Hd & [= <-]). destruct p as [m|]; cbn [goes_on] in Hd.
  - destruct (iv_sending _ _ Hinv _ _ _ Hsd) as [Hty Ht].
    assert (exists jp, msg_data m = JobCompletedMessage jp) as [jp Hm].
    { unfold well_typed in Hty. rewrite Ht in Hty. destruct (msg_data m); try done. by eexists. }
    assert (submitted_by m = []) as Hnone by (unfold submitted_by; by rewrite Hm).
    destruct (iteration_invariant Γ σ m (bool_decide (unread σ "server" = [])) d' None Hinv) as (Γ' & Hinv' & Hf); try done.
    + split; [done|]. by rewrite Hm.
    + rewrite Hnone. constructor.
    + rewrite Hnone. by intros ? ?%elem_of_nil.
    + exists Γ'. split; [by refine (sending_invariant Γ' (σ <| sy_data := d' |>) None _ Hinv')|exact Hf].
  - destruct (quiet_server_invariant Γ σ d' Hinv Hstarted) as [Hinv2 Hf].
    + apply (account_calm harmless); [by eapply talk_quiet|by eapply talk_account].
    + by eapply talk_quiet.
    + by eapply step_talks.
    + exists Γ. split; [by refine (sending_invariant Γ (σ <| sy_data := d' |>) None _ Hinv2)|exact Hf].
Qed.
End Invariant.
