(* ===== verification/SystemSafety.v ===== *)
(** * Every run of the system keeps the invariant (the processes of src/ together)

    Whatever the engine does next, the invariant is kept; it holds when the processes
    of the start are those of [main], without dynamic registration.  So the theorems on
    the server alone hold of the server among the other processes. *)

From S2P Require Import Prelude Interfaces Profiles Jobs Storage NumericStrcmp Outputs Machines Workload Tracers Ipp PState Writer NumberParsing Workflow Context ContextFacts ContextSteps Server Actors Guarantee TaskExecution SwitchProcesses EnvTrace JobsExecution Replay Submitters Reader System ServerSteps SystemProtocol SystemProcesses SystemSubmitters ServerFacts ServerBook SystemFacts.

Section Safety.
Context {IS Engine Host V : Type} `{IntervalSet IS} `{SimGrid Engine Host} `{RapidJson V} `{BoostString} `{FileSystem}.
#[local] Abbreviation Ctx := (BatsimContext IS Engine Host V).
#[local] Abbreviation Data := (ServerData IS Engine Host V).
#[local] Abbreviation M := (Actors.M Data IS Host).
#[local] Abbreviation Act := (Actor IS Host V).
#[local] Abbreviation Msg := (IPMessage IS Host).
#[local] Abbreviation sys := (system IS Engine Host V).
Context (x : externals IS Engine Host V) (K : rules).
Implicit Types (c : Ctx) (d : Data) (m : Msg) (g : ghost) (Γ : positive -> ghost) (σ : sys).
#[local] Abbreviation keeps := (Guarantee.keeps (C := Data) (IS := IS) (Host := Host) asks (pre K) (guar K)).
#[local] Abbreviation does := (Guarantee.does (C := Data) (IS := IS) (Host := Host) asks (pre K) (guar K)).
#[local] Abbreviation invariant := (invariant x K).

(** ** The library that replays MPI traces only waits *)

Fixpoint only_waits {A} (p : proc Data IS Host A) : Prop :=
  match p with
  | Done _ => True
  | Waiting b resume =>
      match b with put_message _ _ => False | _ => True end /\
      forall ans d, match resume ans d with Ok (d', p) => d' = d /\ only_waits p | Err _ => True end
  end.

(** It reads the trace, computes and communicates; the data and the messages of the
    program are not its own. *)
Definition replay_only_waits : Prop :=
  forall instance rank file d d' p, x_smpi_replay_run x instance rank file d = Ok (d', p) -> d' = d /\ only_waits p.

Lemma only_waits_conforms {A} g (p : proc Data IS Host A) : forall d,
  only_waits p -> Guarantee.conforms asks (pre K) (guar K) (fun _ _ g' => g' = g) g d p.
Proof.
  revert p. fix IH 1. destruct p as [a|b resume]; intros d; cbn [only_waits Guarantee.conforms]; [done|].
  intros [Hb Hw]. split; [by destruct b|]. intros ans d1 _. specialize (Hw ans d1). destruct (resume ans d1) as [[d2 p]|e]; [|done].
  destruct Hw as [-> Hp]. exists g. split; [apply guar_refl|]. by apply IH.
Qed.

Context (Hreplay : replay_only_waits).

Lemma replay_keeps g instance rank file : keeps g (x_smpi_replay_run x instance rank file).
Proof.
  intros d _ d' p [-> Hp]%Hreplay. exists g. split; [apply guar_refl|]. by apply only_waits_conforms.
Qed.

(** ** What a process does when it starts *)

Lemma body_does self a (m : M unit) g d :
  startable K g a -> body x self a = Some m -> does m (fun _ _ _ => True) g d.
Proof.
  destruct a; cbn [startable body]; intros Hs [= <-];
    [exact (static_submitter_does K _ g workload_name d Hs)|done|apply keeps_does; [|done]..].
  - destruct Hs as (Hwn & HK & ->). by apply workflow_submitter_keeps.
  - apply event_submitter_keeps.
  - apply env_zone_keeps.
  - apply request_reply_keeps.
  - apply switch_on_keeps.
  - apply switch_off_keeps.
  - cbn in Hs. subst. by apply killer_keeps.
  - apply waiter_keeps.
  - by apply execute_job_keeps.
  - apply smpi_keeps. intros. apply replay_keeps.
  - apply usage_trace_keeps.
Qed.

(** ** The steps *)

Lemma start_actor_invariant Γ σ self σ' :
  invariant Γ σ -> start_actor x self σ = Some (Ok σ') -> exists Γ', invariant Γ' σ' /\ forward σ σ'.
Proof.
  intros Hinv. unfold start_actor. destruct (actor_of σ self) as [a|] eqn:Ha; [|done].
  destruct (bool_decide (self ∈ sy_started σ)) eqn:Hst; [done|]. apply bool_decide_eq_false in Hst.
  destruct (body x self a) as [m|] eqn:Hb; [|done]. intros [= Hr]. apply actor_of_elem in Ha.
  pose proof Hinv as [Hc Hp Hbl Hu Hs].
  assert (invariant Γ (σ <| sy_started ::= fun s => {[self]} ∪ s |>)) as Hinv'.
  { split; try done.
    - intros i w Hw. destruct (Hbl i w Hw) as (? & ? & ? & ?). split; [cbn; set_solver|done].
    - intros b Hb' Hn. apply Hu; [done|]. cbn in Hn. set_solver. }
  change (exists Γ', invariant Γ' σ' /\ forward (σ <| sy_started ::= fun s => {[self]} ∪ s |>) σ').
  revert Hr. apply (settle_invariant x K Γ); [exact Hinv'|cbn; set_solver| |].
  - by destruct (ho_actors _ _ _ (co_holds _ _ _ Hc self)) as [_ Hlt]; apply (Hlt (self, a)).
  - intros d p Hr. eapply (body_does self a m); [by apply (Hu (self, a))|done| |done].
    apply (co_holds _ _ _ Hc self).
Qed.

Lemma server_start_calm c d : server_start c = Ok d -> calm harmless c (sd_context d).
Proof.
  intros Hs. split; [by apply server_start_quiet|]. unfold server_start in Hs.
  apply bind_Ok in Hs as (d1 & [H1' _]%write_account & (d2 & [H2' _]%generate_and_send_account & [= <-])%bind_Ok).
  change (job_states d2 = job_states (initial_data c)). congruence.
Qed.

Lemma states_forward σ σ' : calm harmless (sy_context σ) (sy_context σ') -> forward σ σ'.
Proof.
  intros Hc. apply (segment_forward K (fun _ => no_ghost) no_ghost 1%positive σ σ' (sy_context σ')); [by apply calm_segment|done..].
Qed.

Lemma server_starts_invariant Γ σ σ' :
  invariant Γ σ -> server_starts σ = Some (Ok σ') -> exists Γ', invariant Γ' σ' /\ forward σ σ'.
Proof.
  intros Hinv. unfold server_starts. destruct (server_is_alive σ && _) eqn:Hal; [|done]. intros [= Hr].
  apply bind_Ok in Hr as (d & Hd & [= <-]). apply andb_true_iff in Hal as [_ Hns%negb_true_iff].
  pose proof (iv_server _ _ _ _ Hinv) as Hside. unfold server_side in Hside. rewrite Hns in Hside.
  exists Γ. split; [|apply states_forward; by apply server_start_calm].
  eapply (invariant_same x K Γ (σ <| sy_data ::= fun d0 => d0 <| sd_context := sd_context d |> |>)); try done.
  - unfold server_side. cbn. exists (sy_context σ), d. by split.
  - intros _. by apply server_start_nobody in Hd.
  - apply calm_invariant; [|done]. by apply server_start_calm.
Qed.

Lemma server_ends_invariant Γ σ σ' :
  invariant Γ σ -> server_ends σ = Some (Ok σ') -> exists Γ', invariant Γ' σ' /\ forward σ σ'.
Proof.
  intros Hinv. unfold server_ends. destruct (_ && _); [|done]. intros [= Hr]. apply bind_Ok in Hr as (u & _ & [= <-]).
  exists Γ. split; [|by apply same_sent_forward]. apply (calm_invariant x K Γ σ); [|done]. apply remove_actors_calm.
Qed.

Lemma time_passes_invariant Γ σ e σ' :
  invariant Γ σ -> time_passes σ e = Some (Ok σ') -> exists Γ', invariant Γ' σ' /\ forward σ σ'.
Proof.
  intros Hinv. unfold time_passes. destruct (_ && _); [|done]. intros [= <-].
  exists Γ. split; [|by apply same_sent_forward]. apply (calm_invariant x K Γ σ); [|done]. by apply core_calm.
Qed.

Lemma rank_is_put_invariant Γ σ putter σ' :
  invariant Γ σ -> rank_is_put σ putter = Some (Ok σ') -> exists Γ', invariant Γ' σ' /\ forward σ σ'.
Proof.
  intros Hinv. unfold rank_is_put. destruct (waiting_of σ putter) as [[since [a|b resume]]|] eqn:Hw; try done; apply waiting_of_blocked in Hw.
  destruct b; try done. intros [= Hr]. exact (resume_invariant x K Γ σ putter _ _ _ _ σ' "" false Hinv Hw Hr).
Qed.

Lemma step_invariant Γ σ σ' : invariant Γ σ -> step x σ σ' -> exists Γ', invariant Γ' σ' /\ forward σ σ'.
Proof.
  intros Hinv [l σ1 Hl]. destruct l; cbn [exec] in Hl.
  - by eapply start_actor_invariant.
  - by eapply server_starts_invariant.
  - by eapply server_receives_invariant.
  - by eapply server_goes_on_invariant.
  - by eapply server_ends_invariant.
  - unfold wakes_up in Hl. destruct (waiting_of σ self) as [[since [a|b resume]]|] eqn:Hw; try done; apply waiting_of_blocked in Hw.
    destruct b; try done. destruct (_ <=?q _)%Q; [|done]. injection Hl as Hr.
    exact (resume_invariant x K Γ σ self _ _ _ _ σ1 "" false Hinv Hw Hr).
  - unfold computation_ends in Hl. destruct (waiting_of σ self) as [[since [a|b resume]]|] eqn:Hw; try done; apply waiting_of_blocked in Hw.
    destruct b; try done. injection Hl as Hr. exact (resume_invariant x K Γ σ self _ _ _ _ σ1 "" false Hinv Hw Hr).
  - unfold ptask_ends in Hl. destruct (waiting_of σ self) as [[since [a|b resume]]|] eqn:Hw; try done; apply waiting_of_blocked in Hw.
    destruct b; try done. destruct (ptask_may_end _ _ _ _); [|done]. injection Hl as Hr.
    exact (resume_invariant x K Γ σ self _ _ _ _ σ1 "" false Hinv Hw Hr).
  - unfold receives_message in Hl. destruct (waiting_of σ self) as [[since [a|b resume]]|] eqn:Hw; try done; apply waiting_of_blocked in Hw.
    destruct b; try done. destruct (unread σ _) as [|m rest]; [done|]. injection Hl as Hr.
    exact (resume_invariant x K Γ σ self _ _ _ _ σ1 _ true Hinv Hw Hr).
  - unfold receives_rank in Hl. destruct (waiting_of σ getter) as [[since [a|b resume]]|] eqn:Hw; try done; apply waiting_of_blocked in Hw.
    destruct b; try done. destruct (waiting_of σ putter) as [[since' [a|b resume']]|]; try done. destruct b; try done.
    destruct (String.eqb _ _); [|done]. destruct (settle _ _ _) as [σ2|e] eqn:Hs; [|done].
    destruct (resume_invariant x K Γ σ getter _ _ _ _ σ2 "" false Hinv Hw Hs) as (Γ2 & Hinv2 & Hf2).
    destruct (rank_is_put_invariant _ _ _ _ Hinv2 Hl) as (Γ3 & Hinv3 & Hf3). exists Γ3. split; [done|]. by etrans.
  - unfold message_is_taken in Hl. destruct (waiting_of σ self) as [[since [a|b resume]]|] eqn:Hw; try done; apply waiting_of_blocked in Hw.
    destruct b; try done. destruct (_ <=? _)%nat; [|done]. injection Hl as Hr.
    exact (resume_invariant x K Γ σ self _ _ _ _ σ1 "" false Hinv Hw Hr).
  - unfold get_times_out in Hl. destruct (waiting_of σ self) as [[since [a|b resume]]|] eqn:Hw; try done; apply waiting_of_blocked in Hw.
    destruct b; try done. destruct timeout as [t|]; [|done]. destruct (_ <=?q _)%Q; [|done]. injection Hl as Hr.
    exact (resume_invariant x K Γ σ self _ _ _ _ σ1 "" false Hinv Hw Hr).
  - by eapply time_passes_invariant.
Qed.

Lemma run_invariant Γ σ σ' : invariant Γ σ -> rtc (step x) σ σ' -> exists Γ', invariant Γ' σ' /\ forward σ σ'.
Proof.
  intros Hinv Hr. revert Γ Hinv. induction Hr as [σ|σ1 σ2 σ3 Hs _ IH]; intros Γ Hinv; [by exists Γ|].
  destruct (step_invariant _ _ _ Hinv Hs) as (Γ2 & Hinv2 & Hf2). destruct (IH Γ2 Hinv2) as (Γ3 & Hinv3 & Hf3).
  exists Γ3. split; [done|]. by etrans.
Qed.
End Safety.

(** ** The start *)

Section Start.
Context {IS Engine Host V : Type} `{IntervalSet IS} `{SimGrid Engine Host} `{RapidJson V} `{BoostString} `{FileSystem}.
#[local] Abbreviation Ctx := (BatsimContext IS Engine Host V).
#[local] Abbreviation Act := (Actor IS Host V).
#[local] Abbreviation sys := (system IS Engine Host V).
Implicit Types (c : Ctx) (σ : sys).

(** The jobs that a process is to announce. *)
Definition held_by c (a : positive * Act) : list positive :=
  match a.2 with
  | static_job_submitter_actor wn => match c_workloads c !! wn with Some w => jobs_of w | None => [] end
  | _ => []
  end.

Definition static_of (a : positive * Act) : option string :=
  match a.2 with static_job_submitter_actor wn => Some wn | _ => None end.
Definition static_names c : gset string := list_to_set (omap static_of (c_actors c)).

(** Only the submitters of workflows ask to be told about completions. *)
Definition is_workflow (a : positive * Act) : bool :=
  match a.2 with workflow_submitter_actor _ => true | _ => false end.
Definition rules_of c : rules := mk_rules (static_names c) (List.existsb is_workflow (c_actors c)).

(** The processes that there may be at the start: not those that execute the jobs
    when there is no scheduler. *)
Definition may_be_first c (a : Act) : Prop :=
  match a with
  | server_actor | static_job_submitter_actor _ | static_event_submitter_actor _ => True
  | workflow_submitter_actor wn => wn ∉ static_names c
  | batexec_job_launcher_actor _ | Context.execute_job_process _ _ _ => False
  | a => harmless a
  end.

(** What [main] prepares before the processes run. *)
Record well_prepared c : Prop := {
  wp_registration : registration_sched_enabled (c_options c) = false;
  wp_actors : actors_ok c;
  wp_fresh : fresh_ok c;
  wp_sent : c_sent c = [];
  wp_jobs jp j : s_jobs (c_store c) !! jp = Some j -> state j = JOB_STATE_NOT_SUBMITTED;
  wp_held : NoDup (c_actors c ≫= held_by c);
  wp_exist jp : jp ∈ c_actors c ≫= held_by c -> is_Some (s_jobs (c_store c) !! jp);
  wp_first a : a ∈ c_actors c -> may_be_first c a.2;
}.

Definition given c (a : positive * Act) : ghost :=
  match a.2 with
  | static_job_submitter_actor wn => mk_ghost (list_to_set (held_by c a)) ∅ (Some (submitter_of wn)) (Some wn)
  | workflow_submitter_actor wn => mk_ghost ∅ ∅ (Some (submitter_of wn)) None
  | _ => no_ghost
  end.
Definition first_ghosts c (self : positive) : ghost :=
  match List.find (fun a => bool_decide (a.1 = self)) (c_actors c) with Some a => given c a | None => no_ghost end.

Lemma find_actor (l : list (positive * Act)) a :
  NoDup l.*1 -> a ∈ l -> List.find (fun b => bool_decide (b.1 = a.1)) l = Some a.
Proof.
  induction l as [|b l IH]; [by intros _ Hn%elem_of_nil|]. cbn. intros [Hb Hnd]%NoDup_cons [<-|Ha]%elem_of_cons.
  - by rewrite bool_decide_eq_true_2.
  - rewrite bool_decide_eq_false_2; [by apply IH|]. intros E. apply Hb. rewrite E. by apply list_elem_of_fmap_2.
Qed.

Lemma find_actor_elem (l : list (positive * Act)) self a :
  List.find (fun b => bool_decide (b.1 = self)) l = Some a -> a ∈ l /\ a.1 = self.
Proof. intros [Hin Hi]%List.find_some. apply bool_decide_eq_true in Hi. by rewrite list_elem_of_In. Qed.

Lemma first_tokens c self jp :
  jp ∈ g_tokens (first_ghosts c self) -> exists a, a ∈ c_actors c /\ a.1 = self /\ jp ∈ held_by c a.
Proof.
  unfold first_ghosts. destruct (List.find _ _) as [a|] eqn:Ha; [|by intros Hn%elem_of_empty].
  apply find_actor_elem in Ha as [Ha Hi]. unfold given. intros Hjp. exists a. split; [done|]. split; [done|].
  unfold held_by in *. destruct a.2; cbn in Hjp; try (by apply elem_of_empty in Hjp). by apply elem_of_list_to_set in Hjp.
Qed.

Lemma first_started c self : g_started (first_ghosts c self) = ∅.
Proof. unfold first_ghosts, given. destruct (List.find _ _) as [[i a]|]; [|done]. by destruct a. Qed.

Lemma bind_disjoint {A B} (f : A -> list B) l (a b : A) y :
  NoDup (l ≫= f) -> a ∈ l -> b ∈ l -> y ∈ f a -> y ∈ f b -> a = b.
Proof.
  induction l as [|z l IH]; [by intros _ Hn%elem_of_nil|]. cbn.
  intros (Hnz & Hdis & Hnd)%NoDup_app [->|Ha]%elem_of_cons [->|Hb]%elem_of_cons Hya Hyb; [done| | |by apply IH].
  - exfalso. apply (Hdis y Hya), list_elem_of_bind. by exists b.
  - exfalso. apply (Hdis y Hyb), list_elem_of_bind. by exists a.
Qed.

Lemma bind_piece {A B} (f : A -> list B) l (a : A) : NoDup (l ≫= f) -> a ∈ l -> NoDup (f a).
Proof.
  induction l as [|z l IH]; [by intros _ Hn%elem_of_nil|]. cbn.
  intros (Hnz & _ & Hnd)%NoDup_app [->|Ha]%elem_of_cons; [done|by apply IH].
Qed.

Context (x : externals IS Engine Host V).

Lemma start_invariant c : well_prepared c -> invariant x (rules_of c) (first_ghosts c) (start_of c).
Proof.
  intros [Hreg Hact Hf Hsent Hjobs Hheld Hex Hfirst].
  assert (forall jp, jp ∈ c_actors c ≫= held_by c -> job_state c jp = Some JOB_STATE_NOT_SUBMITTED) as Hstate.
  { intros jp [j Hj]%Hex. unfold job_state. rewrite Hj. cbn. f_equal. by eapply Hjobs. }
  assert (messages (sy_context (start_of c)) = []) as Hmsg by (unfold messages; cbn; by rewrite Hsent).
  split.
  - split; change (sy_context (start_of c)) with c in *; rewrite ?Hmsg; try (by intros ? ?%elem_of_nil); [| |constructor|].
    + intros self. split; try done.
      * intros jp (a & Ha & _ & Hjp)%first_tokens. apply Hstate, list_elem_of_bind. by exists a.
      * intros jp. rewrite first_started. by intros ?%elem_of_empty.
      * intros wn. unfold first_ghosts. destruct (List.find _ _) as [[i a]|] eqn:Ha; [|done]. apply find_actor_elem in Ha as [Ha _].
        unfold given. destruct a; cbn; try done. intros [= ->]. split.
        { apply elem_of_list_to_set, list_elem_of_omap. by exists (i, static_job_submitter_actor wn). }
        intros w Hw. pose proof (bind_piece _ _ _ Hheld Ha) as Hp. unfold held_by in *. cbn in *. rewrite Hw in *.
        split; [done|]. intros jp Hjp. by apply elem_of_list_to_set.
    + intros i j jp Hij (a & Ha & <- & Hja)%first_tokens (b & Hb & <- & Hjb)%first_tokens.
      apply Hij. f_equal. by eapply bind_disjoint.
    + intros jp i Hn%elem_of_nil. done.
  - intros jp (m & Hm%unread_messages & _)%elem_of_submissions. rewrite Hmsg in Hm. by apply elem_of_nil in Hm.
  - done.
  - change (sy_context (start_of c)) with c. intros a Ha _. unfold first_ghosts. destruct Hact as [Hnd _].
    rewrite (find_actor _ _ Hnd Ha). pose proof (Hfirst a Ha) as Hmay. unfold given.
    assert (is_workflow a = true -> callbacks (rules_of c) = true) as Hcall.
    { intros Hwf. apply List.existsb_exists. exists a. by rewrite <- list_elem_of_In. }
    destruct a as [i a]. destruct a; try done. split; [done|]. split; [by apply Hcall|done].
  - intros jp. rewrite <- job_state_states. unfold job_state. change (sy_context (start_of c)) with c.
    destruct (s_jobs (c_store c) !! jp) as [j|] eqn:Hj; [|done]. apply Hjobs in Hj. cbn. by rewrite Hj.
  - intros _. split; [done|]. intros ptr s. cbn. by rewrite lookup_empty.
  - done.
Qed.
End Start.

(** ** The properties of the system *)

Section Properties.
Context {IS Engine Host V : Type} `{IntervalSet IS} `{SimGrid Engine Host} `{RapidJson V} `{BoostString} `{FileSystem}.
#[local] Abbreviation Ctx := (BatsimContext IS Engine Host V).
#[local] Abbreviation sys := (system IS Engine Host V).
Context (x : externals IS Engine Host V).
Implicit Types (c : Ctx) (σ : sys).

Lemma reachable_invariant c σ :
  well_prepared c -> replay_only_waits x -> reachable x c σ -> exists Γ, invariant x (rules_of c) Γ σ.
Proof.
  intros Hc Hx Hr. destruct (run_invariant x _ Hx _ _ _ (start_invariant x c Hc) Hr) as (Γ & Hinv & _). by exists Γ.
Qed.

Lemma reachable_forward c σ σ' :
  well_prepared c -> replay_only_waits x -> reachable x c σ -> rtc (step x) σ σ' -> forward σ σ'.
Proof.
  intros Hc Hx Hr Hr'. destruct (reachable_invariant c σ Hc Hx Hr) as [Γ Hinv].
  by destruct (run_invariant x _ Hx _ _ _ Hinv Hr') as (Γ' & _ & Hf).
Qed.

(** C2. The server among the other processes does what it does alone: in every state
    that the system reaches, in whatever order the engine runs the processes, the
    server's data are those of a run of the relation [server_step], in which the other
    processes only do what is supposed of them, and no job is registered dynamically. *)
Theorem system_refines_server c σ :
  well_prepared c -> replay_only_waits x -> reachable x c σ -> sy_server_started σ = true ->
  exists c1 data0, (forall jp, states c1 !! jp ≠ Some JOB_STATE_SUBMITTED) /\ server_start c1 = Ok data0 /\
    rtc (server_step (x_englobing_zone x) (x_stack x)) (∅, data0) (∅, sy_data σ).
Proof.
  intros Hc Hx Hr Hs. destruct (reachable_invariant c σ Hc Hx Hr) as [Γ Hinv].
  pose proof (iv_server _ _ _ _ Hinv) as Hside. unfold server_side in Hside. by rewrite Hs in Hside.
Qed.

(** C1. The accounting of jobs in the whole system: the jobs that the server counts as
    submitted are those that it counts as completed, those that it counts as running and
    those that wait for a decision, in every interleaving of the processes. *)
Theorem system_job_accounting c σ :
  well_prepared c -> replay_only_waits x -> reachable x c σ -> sy_server_started σ = true ->
  nb_submitted_jobs (sy_data σ) =
    nb_completed_jobs (sy_data σ) + nb_running_jobs (sy_data σ) + jobs_in JOB_STATE_SUBMITTED ∅ (job_states (sy_data σ)) /\
  0 <= nb_running_jobs (sy_data σ) /\ 0 <= nb_completed_jobs (sy_data σ).
Proof.
  intros Hc Hx Hr Hs. destruct (reachable_invariant c σ Hc Hx Hr) as [Γ Hinv].
  pose proof (iv_server _ _ _ _ Hinv) as Hside. unfold server_side in Hside. rewrite Hs in Hside.
  destruct Hside as (c1 & d0 & Hc1 & Hd0 & Hrun). by destruct (reachable_accounted _ _ _ _ _ _ Hc1 Hd0 Hrun) as (? & ? & ? & _).
Qed.

(** C6. In the whole system, no job is announced twice, by whichever processes, and
    a job that is announced is not submitted before the server receives the message. *)
Theorem jobs_announced_once c σ :
  well_prepared c -> replay_only_waits x -> reachable x c σ ->
  NoDup (submissions (messages (sy_context σ))) /\
  forall jp, jp ∈ submissions (unread σ "server") ->
    exists j, s_jobs (c_store (sy_context σ)) !! jp = Some j /\ state j = JOB_STATE_NOT_SUBMITTED.
Proof.
  intros Hc Hx Hr. destruct (reachable_invariant c σ Hc Hx Hr) as [Γ Hinv]. split.
  - apply (co_once _ _ _ (iv_coherent _ _ _ _ Hinv)).
  - intros jp Hjp%(iv_pending _ _ _ _ Hinv). unfold job_state in Hjp.
    destruct (s_jobs (c_store (sy_context σ)) !! jp) as [j|]; [|done]. exists j. split; [done|]. by injection Hjp.
Qed.

(** C17. Every message that is sent in the whole system carries the data of its type, so
    that no handler casts the data to another type, and the destructor of the message
    deletes what was allocated. *)
Theorem messages_have_their_types c σ m :
  well_prepared c -> replay_only_waits x -> reachable x c σ -> m ∈ messages (sy_context σ) ->
  well_typed m = true /\ destroy_message m = Ok tt.
Proof.
  intros Hc Hx Hr Hm. destruct (reachable_invariant c σ Hc Hx Hr) as [Γ Hinv].
  destruct (co_sendable _ _ _ (iv_coherent _ _ _ _ Hinv) m Hm) as (name & Hty & _). split; [done|].
  unfold destroy_message. rewrite Hty. by destruct (msg_type m), (msg_data m).
Qed.

(** C7. The machines are consistent in every interleaving of the processes: the counter
    of each state is the number of machines in that state, the storage machines, which
    are forgotten at the start, being missing from that of the idle ones; for every
    machine the times spent in the states are not negative and add up to the date of
    its last change; and a machine in the computing state computes a job. *)
Theorem system_machines_consistent c σ k :
  well_prepared c -> replay_only_waits x -> machines_ok k (c_machines c) -> reachable x c σ ->
  let ms := c_machines (sy_context σ) in
  (forall s, count_of (ms_nb_machines_in_each_state ms) s =
     nb_in_state s (ms_machines ms) - (if decide (s = IDLE) then k else 0)) /\
  forall m, m ∈ ms_machines ms ->
    (Qsum (spent m <$> machine_states) == m_last_state_change_date m)%Q /\ (forall s, (0 <= spent m s)%Q) /\
    (m_state m = COMPUTING -> m_jobs_being_computed m ≠ []).
Proof.
  intros Hc Hx Hm Hr. destruct (fw_machines _ _ (reachable_forward c _ _ Hc Hx (rtc_refl _ _) Hr) k Hm) as [Hk Ht Hw].
  split; [exact Hk|]. intros m Hin. rewrite Forall_forall in Ht, Hw. destruct (Ht m Hin) as [H1' H2'].
  split; [exact H1'|]. split; [exact H2'|exact (Hw m Hin)].
Qed.
End Properties.
