(* ===== verification/SystemWaits.v ===== *)
(** * When everybody waits (src/server.cpp, src/ipp.cpp)

    [send_message] returns when the message has been received, also in the server.
    The processes that are all in the middle of such a call wait for each other
    forever: only the clock moves.  This needs a submitter that is told about the
    completions of its jobs: without workflow, the server never waits, and whoever
    sends it a message is served. *)

From S2P Require Import Prelude Interfaces Profiles Jobs NumericStrcmp Outputs Machines Workload Tracers Ipp PState Writer NumberParsing Workflow Context Server Actors Guarantee Submitters Reader System ServerSteps SystemProtocol SystemFacts SystemSafety.

Section Waits.
Context {IS Engine Host V : Type} `{IntervalSet IS} `{SimGrid Engine Host} `{RapidJson V} `{BoostString} `{FileSystem}.
#[local] Abbreviation Data := (ServerData IS Engine Host V).
#[local] Abbreviation Act := (Actor IS Host V).
#[local] Abbreviation sys := (system IS Engine Host V).
Context (x : externals IS Engine Host V).
Implicit Types (σ : sys) (a : positive * Act).

(** The process has sent a message to the server, which has not received it. *)
Definition waits_for_server σ (self : positive) : Prop :=
  self ∈ sy_started σ /\
  exists since n resume, sy_blocked σ !! self = Some (since, Waiting (put_message "server" n) resume) /\
    (nb_read σ "server" < n)%nat.

(** The server has sent a message, which nobody has received; the other processes
    wait for the server. *)
Record everyone_waits σ : Prop := {
  ew_server : exists mbox n p, sy_sending σ = Some (mbox, n, p) /\ (nb_read σ mbox < n)%nat;
  ew_started : sy_server_started σ = true;
  ew_others a : a ∈ c_actors (sy_context σ) ->
    a.2 = server_actor /\ sy_blocked σ !! a.1 = None \/ waits_for_server σ a.1;
}.

(** The same, executable. *)
Definition waits_for_server_b σ (self : positive) : bool :=
  bool_decide (self ∈ sy_started σ) &&
  match sy_blocked σ !! self with
  | Some (_, Waiting (put_message mbox n) _) => String.eqb mbox "server" && (nb_read σ "server" <? n)%nat
  | _ => false
  end.

Definition everyone_waits_b σ : bool :=
  match sy_sending σ with Some (mbox, n, _) => (nb_read σ mbox <? n)%nat | None => false end &&
  sy_server_started σ &&
  forallb (fun a => is_server a && bool_decide (~ is_Some (sy_blocked σ !! a.1)) || waits_for_server_b σ a.1)
    (c_actors (sy_context σ)).

Lemma everyone_waits_b_sound σ : everyone_waits_b σ = true -> everyone_waits σ.
Proof.
  unfold everyone_waits_b. intros [[Hs Hst]%andb_true_iff Ho]%andb_true_iff. rewrite forallb_forall in Ho. split; [|done|].
  - destruct (sy_sending σ) as [[[mbox n] p]|]; [|done]. exists mbox, n, p. split; [done|]. by apply Nat.ltb_lt.
  - intros a Ha%list_elem_of_In%Ho. apply orb_true_iff in Ha as [[Hi Hb%bool_decide_eq_true]%andb_true_iff|[Hi Hb]%andb_true_iff].
    + left. split; [by destruct a as [i []]|]. apply eq_None_not_Some. exact Hb.
    + right. split; [by apply bool_decide_eq_true in Hi|].
      destruct (sy_blocked σ !! a.1) as [[since [u|b resume]]|]; [done| |done].
      destruct b as [| | | | |mbox n|]; try done. apply andb_true_iff in Hb as [->%String.eqb_eq Hn%Nat.ltb_lt].
      by exists since, n, resume.
Qed.

Lemma ew_waiting σ self since p :
  everyone_waits σ -> waiting_of σ self = Some (since, p) ->
  exists n resume, p = Waiting (put_message "server" n) resume /\ (nb_read σ "server" < n)%nat.
Proof.
  intros Hw. unfold waiting_of. destruct (actor_of σ self) as [a|] eqn:Ea; [|done]. intros Hp.
  destruct (ew_others _ Hw _ (actor_of_elem _ _ _ Ea)) as [[_ Hn]|(_ & s & n & resume & Hb & Hlt)]; cbn in *; [congruence|].
  rewrite Hp in Hb. injection Hb as -> ->. by exists n, resume.
Qed.

(** A label that is about another blocking call is not possible. *)
Ltac not_waiting Hw :=
  match goal with |- context [waiting_of ?σ ?self] =>
    destruct (waiting_of σ self) as [[since q]|] eqn:Ewait; [|done];
    destruct (ew_waiting _ _ _ _ Hw Ewait) as (n & resume & -> & Hlt); try done
  end.

(** The same state, later. *)
Definition later (e : Engine) σ : sys :=
  σ <| sy_data ::= fun d => d <| sd_context ::= fun c => c <| c_engine := e |> |> |>.

Lemma later_counters e σ :
  nb_submitted_jobs (sy_data (later e σ)) = nb_submitted_jobs (sy_data σ) /\
  nb_completed_jobs (sy_data (later e σ)) = nb_completed_jobs (sy_data σ).
Proof. by split. Qed.

Lemma everyone_waits_exec l σ σ' :
  everyone_waits σ -> exec x l σ = Some (Ok σ') ->
  exists e, σ' = later e σ.
Proof.
  intros Hw. destruct (ew_server _ Hw) as (mbox & k & p & Hsend & Hk).
  destruct l; cbn [exec].
  - unfold start_actor. destruct (actor_of σ self) as [a|] eqn:Ea; [|done].
    destruct (ew_others _ Hw _ (actor_of_elem _ _ _ Ea)) as [[Hs _]|[Hs _]]; cbn in Hs.
    + subst a. by case_bool_decide.
    + by rewrite bool_decide_true.
  - unfold server_starts. by rewrite (ew_started _ Hw), andb_false_r.
  - unfold server_receives, server_waits. rewrite Hsend. by rewrite bool_decide_false, andb_false_r.
  - unfold server_goes_on. rewrite Hsend. destruct (server_runs σ); [|done]. by rewrite (proj2 (Nat.leb_gt _ _) Hk).
  - unfold server_ends. rewrite Hsend. by rewrite bool_decide_false, andb_false_r.
  - unfold wakes_up. not_waiting Hw.
  - unfold computation_ends. not_waiting Hw.
  - unfold ptask_ends. not_waiting Hw.
  - unfold receives_message. not_waiting Hw.
  - unfold receives_rank. not_waiting Hw.
  - unfold message_is_taken. not_waiting Hw. by rewrite (proj2 (Nat.leb_gt _ _) Hlt).
  - unfold get_times_out. not_waiting Hw.
  - unfold time_passes. destruct (_ && _); [|done]. intros [= <-]. by eexists.
Qed.

Lemma everyone_waits_later σ e :
  everyone_waits σ -> everyone_waits (later e σ).
Proof. by intros []. Qed.

(** C8. A rendezvous on both sides is a deadlock: when the server waits for a message
    that it sends to be received, and each other process for the server to receive
    its own, this lasts whatever happens; no process runs, no message is received,
    no job completes and the simulation never ends. *)
Theorem everyone_waits_forever σ σ' :
  everyone_waits σ -> rtc (step x) σ σ' ->
  everyone_waits σ' /\
  exists e, σ' = later e σ.
Proof.
  intros Hw Hr. revert Hw. induction Hr as [σ|σ σ1 σ' [l σ2 Hl] Hr IH].
  - intros Hw. split; [done|]. exists (c_engine (sy_context σ)). by destruct σ as [[[]] ].
  - intros Hw. destruct (everyone_waits_exec _ _ _ Hw Hl) as [e ->].
    destruct (IH (everyone_waits_later σ e Hw)) as [Hw' [e' ->]]. split; [done|]. by exists e'.
Qed.
End Waits.

(** ** Without workflows *)

Section Served.
Context {IS Engine Host V : Type} `{IntervalSet IS} `{SimGrid Engine Host} `{RapidJson V} `{BoostString} `{FileSystem}.
#[local] Abbreviation Ctx := (BatsimContext IS Engine Host V).
#[local] Abbreviation Data := (ServerData IS Engine Host V).
#[local] Abbreviation Msg := (IPMessage IS Host).
#[local] Abbreviation sys := (system IS Engine Host V).
Context (x : externals IS Engine Host V).
Implicit Types (c : Ctx) (d : Data) (m : Msg) (σ : sys).

(** The scheduler has not answered a query: no submitter makes any. *)
Definition no_answer σ : Prop := forall m, m ∈ messages (sy_context σ) -> msg_type m ≠ SCHED_WAIT_ANSWER.

Lemma no_answer_before σ σ' : forward σ σ' -> no_answer σ' -> no_answer σ.
Proof.
  intros [[l El] _] Hno m Hm. apply Hno. unfold messages in *. rewrite El, fmap_app. apply elem_of_app. by left.
Qed.

Lemma settle_sending self r σ σ' : settle self r σ = Ok σ' -> sy_sending σ' = sy_sending σ.
Proof. unfold settle. intros ([d p] & _ & [= <-])%bind_Ok. by destruct p. Qed.

Lemma nobody_sends_back d m back :
  nobody_called d -> msg_type m ≠ SCHED_WAIT_ANSWER -> sends_back (x_englobing_zone x) d m = Ok back -> back = None.
Proof.
  intros [Ho _] Hm. unfold sends_back. destruct (msg_type m); try (by intros [= <-]); destruct (msg_data m); try (by intros [= <-]).
  - intros (j & _ & Hr)%bind_Ok. rewrite Ho, lookup_empty in Hr. by injection Hr.
  - done.
Qed.

Lemma receives_sending σ m b σ' :
  nobody_called (sy_data σ) -> msg_type m ≠ SCHED_WAIT_ANSWER -> receives x m b σ = Ok σ' -> sy_sending σ' = sy_sending σ.
Proof.
  intros Hno Hm. unfold receives. intros (back & ->%nobody_sends_back & Hr)%bind_Ok; [|done|done].
  by apply bind_Ok in Hr as (d & _ & [= <-]).
Qed.

(** A call that returns to a process. *)
Ltac resumed :=
  repeat match goal with
  | |- match ?y with _ => _ end = Some (Ok _) -> _ => destruct y eqn:?; try done
  | |- (match ?b with _ => _ end) _ = Some (Ok _) -> _ => destruct b; try done
  end.

Lemma exec_sending l σ σ' :
  nobody_called (sy_data σ) -> no_answer σ -> sy_sending σ = None -> exec x l σ = Some (Ok σ') -> sy_sending σ' = None.
Proof.
  intros Hno Hans Hs. destruct l; cbn [exec].
  - unfold start_actor. resumed. destruct (body _ _ _); [|done]. by intros [= ->%settle_sending].
  - unfold server_starts. resumed. by intros [= (d & _ & [= <-])%bind_Ok].
  - unfold server_receives. destruct (server_waits σ); [|done]. destruct (unread σ "server") as [|m rest] eqn:Hu; [done|].
    intros [= Hr%receives_sending]; [congruence|done|]. apply Hans, (unread_messages _ "server"). rewrite Hu. by left.
  - unfold server_goes_on. rewrite Hs. by destruct (server_runs σ).
  - unfold server_ends. resumed. by intros [= (u & _ & [= <-])%bind_Ok].
  - unfold wakes_up. resumed. by intros [= ->%settle_sending].
  - unfold computation_ends. resumed. by intros [= ->%settle_sending].
  - unfold ptask_ends. resumed. by intros [= ->%settle_sending].
  - unfold receives_message. resumed. by intros [= ->%settle_sending].
  - unfold receives_rank. resumed. intros Hr. match goal with E : settle _ _ _ = Ok ?y |- _ => apply settle_sending in E; rewrite Hs in E; rename y into σ1 end.
    revert Hr. unfold rank_is_put. resumed. by intros [= ->%settle_sending].
  - unfold message_is_taken. resumed. by intros [= ->%settle_sending].
  - unfold get_times_out. resumed. by intros [= ->%settle_sending].
  - unfold time_passes. resumed. by intros [= <-].
Qed.

Lemma unread_longer σ mbox n : (nb_read σ mbox < n)%nat -> (n <= nb_sent mbox (sy_context σ))%nat -> unread σ mbox ≠ [].
Proof.
  intros Hr Hn Hu. apply (f_equal length) in Hu. unfold unread, nb_sent in *. rewrite length_drop, length_fmap in Hu. cbn in Hu. lia.
Qed.

Lemma reachable_not_sending c σ :
  well_prepared c -> replay_only_waits x -> (forall a, a ∈ c_actors c -> is_workflow a = false) ->
  reachable x c σ -> no_answer σ -> sy_sending σ = None.
Proof.
  intros Hc Hx Hwf Hr. assert (callbacks (rules_of c) = false) as HK.
  { apply not_true_iff_false. intros (a & Ha & Hw)%List.existsb_exists. apply list_elem_of_In, Hwf in Ha. congruence. }
  unfold reachable in Hr. revert Hr. apply (rtc_ind_r (fun σ => no_answer σ -> sy_sending σ = None)); [done|].
  intros σ1 σ2 Hr Hs IH Hno. destruct (reachable_invariant x c σ1 Hc Hx Hr) as [Γ Hinv].
  destruct (step_invariant x _ Hx Γ _ _ Hinv Hs) as (_ & _ & Hf). pose proof (no_answer_before _ _ Hf Hno) as Hno1.
  destruct Hs as [l σ2 Hl]. eapply exec_sending; [by apply (iv_nobody _ _ _ _ Hinv)|exact Hno1|by apply IH|exact Hl].
Qed.

(** C9. Without workflows, no sender is blocked by the others: in every reachable state,
    the server itself waits for nobody, and when a process has sent a message to the
    server, either the server has it and the process may go on, or the server is ready
    to receive; until the server leaves its loop. *)
Theorem senders_are_served c σ self since n resume :
  well_prepared c -> replay_only_waits x -> (forall a, a ∈ c_actors c -> is_workflow a = false) ->
  reachable x c σ -> no_answer σ -> server_runs σ = true -> end_of_simulation_ack_received (sy_data σ) = false ->
  waiting_of σ self = Some (since, Waiting (put_message "server" n) resume) ->
  (exists r, exec x (MessageIsTaken self) σ = Some r) \/ (exists r, exec x ServerReceives σ = Some r).
Proof.
  intros Hc Hx Hwf Hr Hno Hrun Hack Hw. destruct (reachable_invariant x c σ Hc Hx Hr) as [Γ Hinv].
  destruct (iv_blocked _ _ _ _ Hinv _ _ (waiting_of_blocked _ _ _ Hw)) as (_ & _ & _ & Hn). cbn in Hn.
  destruct (Nat.le_gt_cases n (nb_read σ "server")) as [Hle|Hgt].
  - left. cbn [exec]. unfold message_is_taken. rewrite Hw, (proj2 (Nat.leb_le _ _) Hle). by eexists.
  - right. cbn [exec]. unfold server_receives, server_waits.
    rewrite Hrun, Hack, (reachable_not_sending c σ Hc Hx Hwf Hr Hno). cbn.
    destruct (unread σ "server") as [|m rest] eqn:Hu; [by destruct (unread_longer _ _ _ Hgt Hn)|by eexists].
Qed.
End Served.
