(* ===== verification/JobsExecutionFacts.v ===== *)
(** * What the execution of jobs guarantees (theorems on src/jobs_execution.cpp)

    The walltime of a job bounds its execution, whatever its profile and whatever
    the engine answers; the task tree of a job follows its profile, and a sequence
    goes through it in order; how a job ends, and what a killer does of it. *)

From S2P Require Import Prelude Interfaces Profiles Jobs NumericStrcmp Outputs Machines Workload Tracers Ipp PState Writer NumberParsing Workflow Context ContextFacts Server Actors TaskExecution SwitchProcesses JobsExecution TaskProgress.

#[local] Open Scope process_scope.

(** ** Task trees *)

Lemma quotient_bound (k : nat) repeat n :
  0 < n -> Z.of_nat k < repeat * n -> 0 <= Z.of_nat k / n < repeat.
Proof.
  intros Hn Hk. assert (Z.of_nat k < n * repeat) as Hk' by lia.
  pose proof (Z.div_pos (Z.of_nat k) n (Nat2Z.is_nonneg k) Hn). pose proof (Z.div_lt_upper_bound _ _ _ Hn Hk'). done.
Qed.

(** The indices of repeated loops, one after the other. *)
Lemma sequence_indices_lookup repeat n (k : nat) :
  0 < n -> Z.of_nat k < repeat * n -> sequence_indices repeat n !! k = Some (Z.of_nat k mod n).
Proof.
  intros Hn Hk. unfold sequence_indices.
  assert (k = (k / Z.to_nat n) * Z.to_nat n + k mod Z.to_nat n)%nat as Hdiv.
  { rewrite Nat.mul_comm. apply Nat.div_mod. lia. }
  assert (Z.of_nat (k mod Z.to_nat n) = Z.of_nat k mod n) as Hmod by (rewrite Nat2Z.inj_mod, Z2Nat.id by lia; done).
  rewrite Hdiv at 1. rewrite (bind_rows_lookup _ _ (Z.to_nat n) _ _ (Z.of_nat (k / Z.to_nat n))).
  - unfold indices. rewrite lookup_seqZ_lt by (rewrite Hmod; apply Z.mod_pos_bound; lia). f_equal. lia.
  - intros _. by rewrite indices_length.
  - apply Nat.mod_upper_bound. lia.
  - unfold indices. rewrite lookup_seqZ_lt; [f_equal; lia|]. rewrite Nat2Z.inj_div, Z2Nat.id by lia. by apply quotient_bound.
Qed.

Lemma sub_task_indices_seqZ repeat n :
  0 <= repeat -> 0 < n -> repeat * n < 2 ^ 32 -> sub_task_indices repeat n = seqZ 0 (repeat * n).
Proof.
  intros Hr Hn Hb. apply list_eq. intros k. unfold sub_task_indices.
  assert (length (indices repeat ≫= fun it => (fun i => u32 (u32 (it * n) + i)) <$> indices n) =
          Z.to_nat (repeat * n)) as Hlen.
  { rewrite (bind_rows_length _ _ (Z.to_nat n)); [rewrite indices_length; lia|].
    intros it. by rewrite length_fmap, indices_length. }
  destruct (decide (Z.of_nat k < repeat * n)) as [Hk|Hk].
  - rewrite lookup_seqZ_lt by lia.
    assert (k = (k / Z.to_nat n) * Z.to_nat n + k mod Z.to_nat n)%nat as Hdiv.
    { rewrite Nat.mul_comm. apply Nat.div_mod. lia. }
    assert (0 <= Z.of_nat (k / Z.to_nat n) < repeat) as Hq.
    { rewrite Nat2Z.inj_div, Z2Nat.id by lia. by apply quotient_bound. }
    assert (k mod Z.to_nat n < Z.to_nat n)%nat as Hm by (apply Nat.mod_upper_bound; lia).
    rewrite Hdiv at 1. rewrite (bind_rows_lookup _ _ (Z.to_nat n) _ _ (Z.of_nat (k / Z.to_nat n))).
    + rewrite list_lookup_fmap. unfold indices. rewrite lookup_seqZ_lt by lia. cbn [fmap option_fmap option_map].
      rewrite (u32_small (_ * n)) by nia. rewrite u32_small by nia. f_equal. nia.
    + intros it. by rewrite length_fmap, indices_length.
    + done.
    + unfold indices. by rewrite lookup_seqZ_lt by lia.
  - rewrite lookup_seqZ_ge by lia. apply lookup_ge_None. rewrite Hlen. lia.
Qed.

(** A heap where the sequences are linked and none is circular. *)
Definition linked (ph : profile_heap) (rank : positive -> nat) : Prop :=
  forall ptr p, ph !! ptr = Some p -> p_type p = SEQUENCE ->
    exists repeat sequence subs, p_data p = SequenceProfileData repeat sequence subs /\
      length subs = length sequence /\ Z.of_nat (length sequence) < 2 ^ 32 /\
      forall s, s ∈ subs -> is_Some (ph !! s) /\ (rank s < rank ptr)%nat.

Lemma elem_of_sequence_indices repeat n i : i ∈ sequence_indices repeat n -> 0 <= i < n.
Proof.
  unfold sequence_indices, indices. intros (it & Hi & _)%list_elem_of_bind. apply elem_of_seqZ in Hi. lia.
Qed.

(** The two cases of the initialisation, without an IO job. *)
Lemma initialize_leaf ph fuel ptr p :
  ph !! ptr = Some p -> p_type p ≠ SEQUENCE -> initialize_sequential_tasks (S fuel) ph ptr None = Ok (new_BatTask ptr).
Proof.
  intros Hp Ht. cbn [initialize_sequential_tasks]. rewrite (deref_profile_Ok _ _ _ Hp), Ok_bind.
  by rewrite (bool_decide_false (p_type p = SEQUENCE)).
Qed.

Lemma initialize_sequence ph fuel ptr p repeat sequence subs :
  ph !! ptr = Some p -> p_type p = SEQUENCE -> p_data p = SequenceProfileData repeat sequence subs ->
  initialize_sequential_tasks (S fuel) ph ptr None =
    (ts ← mapM_r (fun i => sub_profile ← vector_get subs i; initialize_sequential_tasks fuel ph sub_profile None)
            (sequence_indices repeat (u32 (Z.of_nat (length sequence))));
     Ok (new_BatTask ptr <| bt_sub_tasks := ts |>)).
Proof.
  intros Hp Ht Hd. cbn [initialize_sequential_tasks]. rewrite (deref_profile_Ok _ _ _ Hp), Ok_bind.
  rewrite (bool_decide_true (p_type p = SEQUENCE)) by done. unfold sequence_data. rewrite Hd. done.
Qed.

Lemma initialize_total ph rank fuel ptr :
  linked ph rank -> is_Some (ph !! ptr) -> (rank ptr < fuel)%nat ->
  exists t, initialize_sequential_tasks fuel ph ptr None = Ok t.
Proof.
  intros Hl. revert ptr; induction fuel as [|fuel IH]; intros ptr [p Hp] Hr; [lia|].
  destruct (decide (p_type p = SEQUENCE)) as [Ht|Ht]; [|rewrite (initialize_leaf _ _ _ _ Hp Ht); by eexists].
  destruct (Hl _ _ Hp Ht) as (repeat & sequence & subs & Hd & Hlen & Hb & Hs).
  rewrite (initialize_sequence _ _ _ _ _ _ _ Hp Ht Hd), u32_length by done.
  destruct (mapM_r_total (fun i => sub_profile ← vector_get subs i; initialize_sequential_tasks fuel ph sub_profile None)
    (sequence_indices repeat (Z.of_nat (length sequence)))) as [ts ->]; [|by eexists].
  intros i Hi%elem_of_sequence_indices.
  destruct (lookup_lt_is_Some_2 subs (Z.to_nat i)) as [s Hsub]; [lia|].
  destruct (Hs s (list_elem_of_lookup_2 _ _ _ Hsub)) as [Hsome Hrank].
  destruct (IH s Hsome) as [t Ht']; [lia|]. exists t.
  rewrite <- (Z2Nat.id i) by lia. by rewrite (vector_get_nat _ _ _ Hsub).
Qed.

(** C31. The tasks of a sequence: a profile that repeats [n] sub-profiles has a tree
    with [repeat * n] sub-tasks, which the execution visits one after the other;
    the sub-task [k] is the tree of the sub-profile [k mod n], and is found there
    by its place. *)
Theorem sequence_tasks_in_order ph rank fuel ptr p repeat sequence subs :
  linked ph rank -> (rank ptr < S fuel)%nat -> ph !! ptr = Some p ->
  p_type p = SEQUENCE -> p_data p = SequenceProfileData repeat sequence subs ->
  let n := Z.of_nat (length sequence) in
  0 <= repeat -> 0 < n -> repeat * n < 2 ^ 32 ->
  exists t, initialize_sequential_tasks (S fuel) ph ptr None = Ok t /\
    bt_profile t = ptr /\ Z.of_nat (length (bt_sub_tasks t)) = repeat * n /\
    sub_task_indices repeat n = seqZ 0 (repeat * n) /\
    forall k, (Z.of_nat k < repeat * n) -> exists s t',
      subs !! (k mod length sequence)%nat = Some s /\
      initialize_sequential_tasks fuel ph s None = Ok t' /\ task_at t [Z.of_nat k] = Ok t'.
Proof.
  intros Hl Hr Hp Ht Hd n Hrep Hn Hb.
  destruct (initialize_total ph rank (S fuel) ptr Hl (mk_is_Some _ _ Hp) Hr) as [t Ht']. exists t. split; [done|].
  rewrite (initialize_sequence _ _ _ _ _ _ _ Hp Ht Hd) in Ht'.
  destruct (Hl _ _ Hp Ht) as (repeat' & sequence' & subs' & Hd' & Hlen & Hb' & _). rewrite Hd' in Hd.
  injection Hd as -> -> ->. rewrite u32_length in Ht' by done. fold n in Ht'.
  apply bind_Ok in Ht' as (ts & Hts & [= <-]). cbn. split; [done|].
  assert (Z.of_nat (length (sequence_indices repeat n)) = repeat * n) as Hcount.
  { unfold sequence_indices. rewrite (bind_rows_length _ _ (Z.to_nat n)); [|intros _; apply indices_length].
    rewrite indices_length. lia. }
  rewrite (mapM_r_length _ _ _ Hts). split; [done|]. split; [by apply sub_task_indices_seqZ|].
  intros k Hk. destruct (mapM_r_lookup _ _ _ k _ Hts (sequence_indices_lookup _ _ _ Hn Hk)) as (t' & Hk' & Hrun).
  apply bind_Ok in Hrun as (s & Hs & Hrun). exists s, t'. split; [|split; [exact Hrun|by rewrite (vector_get_nat _ _ _ Hk')]].
  unfold n in Hs. rewrite <- Nat2Z.inj_mod in Hs. unfold vector_get in Hs.
  destruct (Z.ltb_spec (Z.of_nat (k mod length sequence)) 0); [lia|]. rewrite Nat2Z.id in Hs. by apply of_option_Ok in Hs.
Qed.

(** ** How a job starts and ends *)

Section StartEnd.
Context {IS Engine Host V : Type} `{IntervalSet IS} `{SimGrid Engine Host} `{RapidJson V}.
Context (englobing_zone : Host -> option string).
#[local] Abbreviation Ctx := (BatsimContext IS Engine Host V).
#[local] Abbreviation Data := (ServerData IS Engine Host V).
Implicit Types (c : Ctx) (j : Job IS) (alloc : SchedulingAllocation IS Host).

(** What tells how a job goes. *)
Definition outcome j : JobState * Z * Q * Q * gset positive * JobIdentifier * IS * option BatTask :=
  (state j, return_code j, starting_time j, runtime j, execution_actors j, id j, allocation j, task j).

(** Only the other fields of the job [jp] may change, and no message is sent. *)
Definition same_outcome (jp : positive) c c' : Prop :=
  c_engine c' = c_engine c /\ c_sent c' = c_sent c /\ c_actors c' = c_actors c /\
  s_profiles (c_store c') = s_profiles (c_store c) /\ c_cancelled_ptasks c' = c_cancelled_ptasks c /\
  (forall jp', jp' ≠ jp -> s_jobs (c_store c') !! jp' = s_jobs (c_store c) !! jp') /\
  outcome <$> s_jobs (c_store c') !! jp = outcome <$> s_jobs (c_store c) !! jp.

#[export] Instance same_outcome_preorder jp : PreOrder (same_outcome jp).
Proof.
  split; [by intros ?|]. unfold same_outcome. intros c1 c2 c3 (?&?&?&?&?&H1'&?) (?&?&?&?&?&H2'&?).
  split_and!; try congruence. intros jp' Hne. rewrite H2' by done. by apply H1'.
Qed.

Lemma traced_same_outcome jp c c' : only_traced c c' -> same_outcome jp c c'.
Proof. unfold only_traced, same_outcome. intros (-> & -> & -> & -> & ->). done. Qed.

Lemma with_job_same_outcome jp f c : (forall j, outcome (f j) = outcome j) -> same_outcome jp c (with_job jp f c).
Proof.
  intros Hf. unfold same_outcome, with_job. cbn. split_and!; try done.
  - intros jp' Hne. by rewrite lookup_alter_ne.
  - rewrite lookup_alter_eq. destruct (_ !! jp) as [j|]; cbn; [by rewrite Hf|done].
Qed.

Lemma account_consumption_outcome jp c c' : account_consumption englobing_zone jp c = Ok c' -> same_outcome jp c c'.
Proof.
  unfold account_consumption. intros (j & _ & (c1 & H1' & H2')%bind_Ok)%bind_Ok.
  transitivity c1.
  - destruct (energy_used _); [|by injection H1' as <-].
    apply bind_Ok in H1' as (e & _ & He%energy_job_end_traced). etransitivity; [|by apply traced_same_outcome].
    by apply with_job_same_outcome.
  - destruct (environmental_footprint_used _); [|by injection H2' as <-].
    apply bind_Ok in H2' as (carbon & _ & (water & _ & He%footprint_entry_traced)%bind_Ok).
    etransitivity; [|by apply traced_same_outcome]. by apply with_job_same_outcome.
Qed.

Lemma snapshot_consumption_outcome jp c c' : snapshot_consumption englobing_zone jp c = Ok c' -> same_outcome jp c c'.
Proof.
  unfold snapshot_consumption. intros (j & _ & (c1 & H1' & H2')%bind_Ok)%bind_Ok.
  transitivity c1.
  - destruct (energy_used _); [|by injection H1' as <-].
    apply bind_Ok in H1' as (e & _ & He%energy_job_start_traced). etransitivity; [|by apply traced_same_outcome].
    by apply with_job_same_outcome.
  - destruct (environmental_footprint_used _); [|by injection H2' as <-].
    apply bind_Ok in H2' as (carbon & _ & (water & _ & He%footprint_entry_traced)%bind_Ok).
    etransitivity; [|by apply traced_same_outcome]. by apply with_job_same_outcome.
Qed.

Lemma set_final_state_Ok jp code machines c c' :
  set_final_state jp code machines c = Ok c' ->
  exists s, final_state code = Ok s /\ same_outcome jp (with_job jp (fun j => j <| state := s |>) c) c'.
Proof.
  unfold set_final_state. intros (s & Hs & Hr)%bind_Ok. exists s. split; [done|].
  destruct (_ && _); [|by injection Hr as <-].
  apply bind_Ok in Hr as (j & _ & (t & _ & [= <-])%bind_Ok). by apply traced_same_outcome.
Qed.
(** The update of a job, seen through [same_outcome]. *)
Lemma same_outcome_with_job jp f g c c1 c2 :
  (forall j j', outcome j = outcome j' -> outcome (f j) = outcome (f j')) ->
  same_outcome jp (with_job jp g c) c1 -> same_outcome jp (with_job jp f c1) c2 ->
  same_outcome jp (with_job jp (fun j => f (g j)) c) c2.
Proof.
  intros Hf (He1 & Hs1 & Ha1 & Hp1 & Hc1 & Ho1 & Hj1) (He2 & Hs2 & Ha2 & Hp2 & Hc2 & Ho2 & Hj2).
  unfold with_job in *. cbn in *. split_and!; cbn; try congruence.
  - intros jp' Hne. rewrite Ho2, lookup_alter_ne, Ho1 by done. by rewrite !lookup_alter_ne.
  - rewrite Hj2, !lookup_alter_eq. rewrite lookup_alter_eq in Hj1.
    destruct (s_jobs (c_store c1) !! jp) as [j1|], (s_jobs (c_store c) !! jp) as [j|]; cbn in *; try done.
    injection Hj1 as Hj1. f_equal. apply Hf. unfold outcome. congruence.
Qed.

Lemma outcome_inv j1 j2 :
  outcome j1 = outcome j2 -> state j1 = state j2 /\ return_code j1 = return_code j2 /\
    starting_time j1 = starting_time j2 /\ runtime j1 = runtime j2 /\ execution_actors j1 = execution_actors j2 /\
    id j1 = id j2 /\ allocation j1 = allocation j2 /\ task j1 = task j2.
Proof. unfold outcome. intros [= ]. done. Qed.

(** The runtime is set, then what the job has consumed. *)
Lemma set_runtime_outcome jp g c c2 c3 :
  same_outcome jp (with_job jp g c) c2 -> account_consumption englobing_zone jp (set_runtime jp c2) = Ok c3 ->
  same_outcome jp (with_job jp (fun j => g j <| runtime := runtime_since (starting_time (g j)) (now c) |>) c) c3.
Proof.
  intros H12 Hc3%account_consumption_outcome. unfold set_runtime in Hc3.
  assert (now c2 = now c) as Hnow by (unfold now; by rewrite (proj1 H12)). rewrite Hnow in Hc3.
  refine (same_outcome_with_job jp (fun j => j <| runtime := runtime_since (starting_time j) (now c) |>) _ c c2 c3 _ H12 Hc3).
  intros j j' Hjj. apply outcome_inv in Hjj as (?&?&?&?&?&?&?&?). unfold outcome. cbn. congruence.
Qed.

Definition ended_job (code : Z) (s : JobState) (date : Q) j : Job IS :=
  j <| return_code := code |> <| state := s |> <| runtime := runtime_since (starting_time j) date |>.

Lemma end_job_Ok alloc code c c' j' :
  end_job englobing_zone alloc code c = Ok c' -> s_jobs (c_store c') !! sa_job alloc = Some j' ->
  exists s j, final_state code = Ok s /\ s_jobs (c_store c) !! sa_job alloc = Some j /\
    outcome j' = outcome (ended_job code s (now c) j) /\
    (forall jp, jp ≠ sa_job alloc -> s_jobs (c_store c') !! jp = s_jobs (c_store c) !! jp) /\
    c_engine c' = c_engine c /\ c_sent c' = c_sent c.
Proof.
  unfold end_job. set (jp := sa_job alloc).
  intros (c1 & (s & Hs & Hc1)%set_final_state_Ok & (c2 & Hc2%with_machines_view_traced & Hc3)%bind_Ok)%bind_Ok Hj'.
  apply (traced_same_outcome jp) in Hc2.
  assert (same_outcome jp (with_job jp (fun j => j <| return_code := code |> <| state := s |>) c) c2) as H12.
  { etransitivity; [|exact Hc2]. etransitivity; [|exact Hc1].
    unfold same_outcome, with_job. cbn. split_and!; try done; [intros jp' Hne|]; by rewrite alter_alter_eq. }
  destruct (set_runtime_outcome jp _ c c2 c' H12 Hc3) as (He3 & Hs3 & Ha3 & Hp3 & _ & Ho3 & Hj3).
  unfold with_job in Hj3, He3, Hs3, Ho3. cbn in Hj3, He3, Hs3, Ho3. rewrite lookup_alter_eq, Hj' in Hj3.
  destruct (s_jobs (c_store c) !! jp) as [j|] eqn:Hj; cbn in Hj3; [|done]. apply (inj Some) in Hj3.
  exists s, j. split_and!; try done. intros jp' Hne. rewrite Ho3 by done. by rewrite lookup_alter_ne.
Qed.

(** The process leaves the actors of its job. *)
Definition leave (self jp : positive) c : Ctx := with_job jp (fun j => j <| execution_actors ::= fun s => s ∖ {[self]} |>) c.

(** A process that waits until its last message to the server has been received, then
    leaves its job, and ends. *)
Definition waits_then_leaves (self jp : positive) c (p : proc Data IS Host unit) : Prop :=
  exists resume, p = Waiting (put_message "server" (nb_sent "server" c)) resume /\
    forall u d, resume u d = Ok (d <| sd_context ::= leave self jp |>, Done tt).

Lemma finish_job_parts self alloc notify code d d' p :
  finish_job englobing_zone self alloc notify code d = Ok (d', p) ->
  exists c j, end_job englobing_zone alloc code (sd_context d) = Ok c /\ s_jobs (c_store c) !! sa_job alloc = Some j /\
    if notify && negb (bool_decide (state j = JOB_STATE_COMPLETED_KILLED))
    then d' = d <| sd_context := send_message "server" JOB_COMPLETED (JobCompletedMessage (sa_job alloc)) c |> /\
         waits_then_leaves self (sa_job alloc) (sd_context d') p
    else d' = d <| sd_context := leave self (sa_job alloc) c |> /\ p = Done tt.
Proof.
  unfold finish_job. unfold mbind at 1, on_ctx, change. intros Hr. 
  destruct (on_context _ d) as [d1|] eqn:E; [|done]. apply bind_Ok in E as (c & Hc & [= <-]). cbn in Hr.
  unfold mbind at 1, notify_completion, mbind at 1, read_job, read_ctx, read in Hr. cbn in Hr.
  destruct (the_job c (sa_job alloc)) as [j|] eqn:Hj; [|done]. cbn in Hr. apply the_job_Ok in Hj. exists c, j.
  split; [done|]. split; [done|]. destruct (notify && _).
  - unfold send, mbind in Hr. cbn in Hr. injection Hr as <- <-. split; [done|]. eexists. split; [done|]. intros [] d2. reflexivity.
  - cbn in Hr. injection Hr as <- <-. done.
Qed.

Lemma start_job_Ok fuel alloc io c alloc' c' :
  start_job englobing_zone fuel alloc io c = Ok (alloc', c') ->
  sa_job alloc' = sa_job alloc /\ c_engine c' = c_engine c /\ s_profiles (c_store c') = s_profiles (c_store c) /\
  c_sent c' = c_sent c /\
  exists j j', s_jobs (c_store c) !! sa_job alloc = Some j /\ s_jobs (c_store c') !! sa_job alloc = Some j' /\
    id j' = id j /\ starting_time j' = now c.
Proof.
  unfold start_job. set (jp := sa_job alloc).
  intros (j & Hj%of_option_Ok & (t & _ & (alloc1 & Hplace & (c1 & Hc1%snapshot_consumption_outcome & (c2 & Hc2%with_machines_view_traced & [= <- <-])%bind_Ok)%bind_Ok)%bind_Ok)%bind_Ok)%bind_Ok.
  split.
  { unfold place_job in Hplace. apply bind_Ok in Hplace as (hosts & _ & (io_hosts & _ & [= <-])%bind_Ok).
    unfold complete_mapping. cbn. by destruct (bool_decide _). }
  apply (traced_same_outcome jp) in Hc2.
  assert (same_outcome jp (with_job jp (fun j => j <| starting_time := now c |> <| allocation := sa_machine_ids alloc |>
            <| task := Some t |>) c) c2) as (He & Hsent & _ & Hp & _ & _ & Hjob).
  { etransitivity; [|exact Hc2]. etransitivity; [|exact Hc1].
    unfold same_outcome, with_job. cbn. split_and!; try done; [intros jp' Hne|]; by rewrite alter_alter_eq. }
  split; [exact He|]. split; [exact Hp|]. split; [exact Hsent|]. unfold with_job in Hjob. cbn in Hjob. rewrite lookup_alter_eq, Hj in Hjob.
  destruct (s_jobs (c_store c2) !! jp) as [j2|] eqn:Hj2; [|done]. cbn in *. exists j, j2.
  injection Hjob as _ _ Hst _ _ Hid _ _. by split_and!.
Qed.

(** C29. A job ends in the state that its return code tells (0: success, positive:
    failure, -1: walltime reached, -2: killed), with its runtime since its start,
    never null, and no other job changes; unless the job has been killed, the server
    is told, and the process waits for that; in the end the process is no longer one
    of the job's. *)
Theorem finish_job_spec self alloc notify code d d' p :
  finish_job englobing_zone self alloc notify code d = Ok (d', p) ->
  let c := sd_context d in let c' := sd_context d' in
  exists s j j', s_jobs (c_store c) !! sa_job alloc = Some j /\ s_jobs (c_store c') !! sa_job alloc = Some j' /\
    state j' = s /\
    (s = JOB_STATE_COMPLETED_SUCCESSFULLY /\ code = 0 \/ s = JOB_STATE_COMPLETED_FAILED /\ 0 < code \/
     s = JOB_STATE_COMPLETED_WALLTIME_REACHED /\ code = -1 \/ s = JOB_STATE_COMPLETED_KILLED /\ code = -2) /\
    return_code j' = code /\
    runtime j' = (if (now c - starting_time j =?q 0)%Q then 1 # 100000 else now c - starting_time j)%Q /\
    ~ (runtime j' == 0)%Q /\
    (forall jp, jp ≠ sa_job alloc -> s_jobs (c_store c') !! jp = s_jobs (c_store c) !! jp) /\
    if notify && negb (code =? -2)
    then c_sent c' = c_sent c ++ [mk_Sent (now c) "server" (mk_IPMessage JOB_COMPLETED (JobCompletedMessage (sa_job alloc)))] /\
         execution_actors j' = execution_actors j /\ waits_then_leaves self (sa_job alloc) c' p
    else c_sent c' = c_sent c /\ execution_actors j' = execution_actors j ∖ {[self]} /\ p = Done tt.
Proof.
  intros (c1 & j1 & Hend1 & Hj1 & Hend)%finish_job_parts. cbv zeta.
  destruct (end_job_Ok _ _ _ _ _ Hend1 Hj1) as (s & j & Hs & Hj & Hout & Hother & He & Hsent). injection Hout as Hst Hrc _ Hrun Hact _ _ _.
  assert (s = JOB_STATE_COMPLETED_SUCCESSFULLY /\ code = 0 \/ s = JOB_STATE_COMPLETED_FAILED /\ 0 < code \/
          s = JOB_STATE_COMPLETED_WALLTIME_REACHED /\ code = -1 \/ s = JOB_STATE_COMPLETED_KILLED /\ code = -2) as Hcode.
  { unfold final_state in Hs. destruct (Z.eqb_spec code 0); [injection Hs as <-; auto|].
    destruct (Z.ltb_spec 0 code); [injection Hs as <-; auto|].
    destruct (Z.eqb_spec code (-1)); [injection Hs as <-; auto|].
    destruct (Z.eqb_spec code (-2)); [injection Hs as <-; auto|done]. }
  assert (~ (runtime j1 == 0)%Q) as Hnz.
  { rewrite Hrun. cbn. unfold runtime_since, epsilon. destruct (_ =?q _)%Q eqn:Hz; qify; [lra|done]. }
  assert (bool_decide (state j1 = JOB_STATE_COMPLETED_KILLED) = (code =? -2)) as Hkilled.
  { rewrite Hst. destruct Hcode as [[-> ->]|[[-> Hc]|[[-> ->]|[-> ->]]]]; try done.
    destruct (Z.eqb_spec code (-2)); [lia|done]. }
  rewrite Hkilled in Hend. destruct (notify && negb (code =? -2)); destruct Hend as [-> Hp].
  - exists s, j, j1. split_and!; try done. cbn. by rewrite Hsent; unfold now; rewrite He.
  - exists s, j, (j1 <| execution_actors ::= fun a => a ∖ {[self]} |>).
    split; [done|]. split; [unfold leave, with_job; cbn; by rewrite lookup_alter_eq, Hj1|]. split_and!; try done.
    + intros jp Hne. unfold leave, with_job. cbn. rewrite lookup_alter_ne by done. by apply Hother.
    + cbn. by rewrite Hact.
Qed.
(** *** Killing a job *)

Lemma compute_job_progress_spec h date j j' :
  compute_job_progress h date j = Ok j' ->
  exists t path leaf p, task j = Some t /\ on_current_path t path leaf /\ h !! bt_profile leaf = Some p /\
    p_type p ≠ SEQUENCE /\ bt_sub_tasks leaf = [] /\
    j' = j <| task := Some (update_task (fun u => u <| bt_current_task_progress_ratio := leaf_progress p date u |>) t path) |>.
Proof.
  unfold compute_job_progress. destruct (task j) as [t|]; [|done].
  intros (t' & (path & leaf & p & Hrest)%compute_tasks_progress_spec & [= <-])%bind_Ok.
  exists t, path, leaf, p. destruct Hrest as (? & ? & ? & ? & ->). by split_and!.
Qed.

Definition stopped_job (killed : JobState) (date : Q) j : Job IS :=
  j <| execution_actors := ∅ |> <| state := killed |> <| runtime := runtime_since (starting_time j) date |>.

Lemma stop_job_Ok killed jp c c' :
  stop_job englobing_zone killed jp c = Ok c' ->
  exists j, s_jobs (c_store c) !! jp = Some j /\ execution_actors j ≠ ∅ /\ (starting_time j <= now c)%Q /\
    same_outcome jp (with_job jp (stopped_job killed (now c)) (remove_actors (execution_actors j) c)) c'.
Proof.
  unfold stop_job. intros (j & Hj%the_job_Ok & (u & Ha%xbt_assert_Ok & (c2 & Hc2%with_machines_view_traced & (u' & Hr%xbt_assert_Ok & Hc3)%bind_Ok)%bind_Ok)%bind_Ok)%bind_Ok.
  exists j. split; [done|]. apply negb_true_iff, bool_decide_eq_false in Ha. split; [done|].
  apply (traced_same_outcome jp) in Hc2.
  split; [|exact (set_runtime_outcome jp (fun j => j <| execution_actors := ∅ |> <| state := killed |>) _ c2 c' Hc2 Hc3)].
  qify. unfold now in *. rewrite (proj1 Hc2) in Hr. cbn in Hr. lra.
Qed.

(** C21. Killing a job which has been started: unless it is running nothing happens,
    so that a job is not killed twice.  A running job is reported with its task tree,
    where the progress of the task that is being executed, at the end of the current
    sub-tasks, has been brought up to date (the part of the work done for a parallel
    task, of the time elapsed for a delay) and nothing else has changed.  Then, if
    there is a parallel task on the way to it, the first one is cancelled, which the
    process of the job will account for, and the job stays as it is; if there is none,
    the processes of the job are killed, and it ends there in the given state, with
    its runtime.  No other job, process or message is touched. *)
Theorem kill_job_spec killed progress progress' c c' job_id :
  kill_job englobing_zone killed (progress, c) job_id = Ok (progress', c') ->
  exists jp j, job_at (c_workloads c) job_id = Ok jp /\ s_jobs (c_store c) !! jp = Some j /\
    (state j ∉ [JOB_STATE_REJECTED; JOB_STATE_SUBMITTED; JOB_STATE_NOT_SUBMITTED]) /\
    (state j ≠ JOB_STATE_RUNNING /\ progress' = progress /\ c' = c \/
     state j = JOB_STATE_RUNNING /\ c_sent c' = c_sent c /\ c_engine c' = c_engine c /\
     (forall jp', jp' ≠ jp -> s_jobs (c_store c') !! jp' = s_jobs (c_store c) !! jp') /\
     exists t0 path leaf p t j', task j = Some t0 /\
       on_current_path t0 path leaf /\ bt_sub_tasks leaf = [] /\
       s_profiles (c_store c) !! bt_profile leaf = Some p /\ p_type p ≠ SEQUENCE /\
       t = update_task (fun u => u <| bt_current_task_progress_ratio := leaf_progress p (now c) u |>) t0 path /\
       progress' = <[ji_to_string job_id := t]> progress /\ s_jobs (c_store c') !! jp = Some j' /\ task j' = Some t /\
       ((exists path, first_ptask t path /\ j' = j <| task := Some t |> /\
           c_cancelled_ptasks c' = c_cancelled_ptasks c ++ [(jp, path)] /\ c_actors c' = c_actors c) \/
        no_ptask t /\ c_cancelled_ptasks c' = c_cancelled_ptasks c /\
          execution_actors j ≠ ∅ /\ state j' = killed /\ execution_actors j' = ∅ /\
          (starting_time j <= now c)%Q /\ runtime j' = runtime_since (starting_time j) (now c) /\
          c_actors c' = filter (fun a => a.1 ∉ execution_actors j) (c_actors c))).
Proof.
  unfold kill_job. intros (jp & Hjp & (j & Hj%the_job_Ok & (u & Hst%xbt_assert_Ok & Hrun)%bind_Ok)%bind_Ok)%bind_Ok.
  exists jp, j. split; [done|]. split; [done|]. apply negb_true_iff, bool_decide_eq_false in Hst. split; [done|].
  destruct (decide (state j = JOB_STATE_RUNNING)) as [Hs|Hs];
    [rewrite bool_decide_true in Hrun by done|rewrite bool_decide_false in Hrun by done; injection Hrun as <- <-; by left].
  right. apply bind_Ok in Hrun as (jq & Hjq & (t & Ht & (cancelled & Hc & Hrun)%bind_Ok)%bind_Ok).
  apply compute_job_progress_spec in Hjq as (t0 & path0 & leaf & p & Ht0 & Hpath & Hp & Hseq & Hleaf & ->).
  set (t' := update_task _ t0 path0) in *. injection Ht as <-. apply cancel_ptask_spec in Hc.
  split; [done|]. destruct cancelled as [path|].
  - injection Hrun as <- <-. split; [done|]. split; [done|].
    split; [intros jp' Hne; unfold with_job; cbn; by rewrite lookup_alter_ne|].
    exists t0, path0, leaf, p, t', (j <| task := Some t' |>). unfold with_job. cbn. rewrite lookup_alter_eq, Hj.
    split_and!; try done. left. by exists path.
  - apply bind_Ok in Hrun as (c1 & (j1 & Hj1 & Hact & Hle & Hsame)%stop_job_Ok & [= <- <-]).
    unfold with_job in Hj1. cbn in Hj1. rewrite lookup_alter_eq, Hj in Hj1. injection Hj1 as <-.
    destruct Hsame as (He & Hsent & Ha & _ & Hcp & Ho & Hout). unfold with_job in Hsent, Ha, He, Hcp, Ho, Hout. cbn in Hsent, Ha, He, Hcp, Ho, Hout.
    split; [done|]. split; [done|]. split; [intros jp' Hne; rewrite Ho, !lookup_alter_ne by done; done|].
    rewrite alter_alter_eq, lookup_alter_eq, Hj in Hout. cbn in Hout.
    destruct (s_jobs (c_store c1) !! jp) as [j'|]; [|done]. apply (inj Some) in Hout.
    apply outcome_inv in Hout as (Hst' & _ & _ & Hrun' & Hact' & _ & _ & Htask).
    exists t0, path0, leaf, p, t', j'. unfold now in *. cbn in *. split_and!; try done. right. by split_and!.
Qed.
End StartEnd.

(** ** Walltime *)

Section Walltime.
Context {IS Engine Host V : Type} `{IntervalSet IS} `{SimGrid Engine Host} `{RapidJson V}.
Context (englobing_zone : Host -> option string) (regex_match : string -> string -> bool).
#[local] Abbreviation Ctx := (BatsimContext IS Engine Host V).
#[local] Abbreviation Data := (ServerData IS Engine Host V).
Implicit Types (c : Ctx) (d : Data) (r : Q).

(** The durations of a profile that has passed its parser. *)
Definition positive_durations (p : Profile) : Prop :=
  match p_data p with
  | DelayProfileData delay => (0 < delay)%Q
  | SchedulerSendProfileData _ sleeptime => (0 < sleeptime)%Q
  | SchedulerRecvProfileData _ _ _ _ polltime => (0 < polltime)%Q
  | _ => True
  end.

Lemma data_wf_positive_durations p : data_wf (p_type p) (p_data p) -> positive_durations p.
Proof. unfold positive_durations. by destruct (p_type p), (p_data p). Qed.

Definition durations_ok c : Prop :=
  forall ptr p, s_profiles (c_store c) !! ptr = Some p -> positive_durations p.
Context (jp : positive) (me : JobIdentifier).

(** The durations are valid and the job is the one of this identifier. *)
Definition job_ok c : Prop :=
  durations_ok c /\ forall j, s_jobs (c_store c) !! jp = Some j -> id j = me.
Definition started_at c : option (Q * Q) :=
  (fun j => (starting_time j, runtime j)) <$> s_jobs (c_store c) !! jp.

(** What happens elsewhere does not touch the start and the runtime of the job, nor
    brings profiles with invalid durations. *)
Definition kept c c' : Prop := (job_ok c -> job_ok c') /\ started_at c' = started_at c.

#[export] Instance kept_preorder : PreOrder kept.
Proof. split; [by intros ?|]. intros c1 c2 c3 [? Hs] [? Hs']. split; [auto|]. by rewrite Hs'. Qed.

(** The messages that the job has sent to the scheduler. *)
Definition is_job_message (m : SentMessage IS Host) : bool :=
  match msg_data (sm_message m) with FromJobMessage i _ => bool_decide (i = me) | _ => false end.
Definition job_messages c : Z := count_if is_job_message (c_sent c).

(** How long the server takes at most to receive a message. *)
Context (delay : Q).
Context (allowed : forall b : blocking IS Host, Data -> answer b -> Data -> Prop).

(** What the engine documents of its blocking calls, and what the rest of the
    simulation may do meanwhile. *)
Record timed_engine : Prop := {
  delay_nonneg : (0 <= delay)%Q;
  sleep_elapses t d u d' : allowed (sleep_for t) d u d' -> (0 <= t)%Q -> (time_of d' == time_of d + t)%Q;
  ptask_within hosts comp comm t d o d' : allowed (wait_ptask hosts comp comm (Some t)) d o d' -> (0 <= t)%Q ->
    (time_of d <= time_of d' /\ time_of d' <= time_of d + t)%Q;
  get_within mailbox t d rank d' : allowed (mailbox_get mailbox (Some t)) d rank d' -> (0 <= t)%Q ->
    (time_of d <= time_of d' /\ time_of d' <= time_of d + t)%Q;
  put_within_delay mbox n d u d' : allowed (put_message mbox n) d u d' ->
    (time_of d <= time_of d' /\ time_of d' <= time_of d + delay)%Q;
  others_keep b d a d' : allowed b d a d' -> kept (sd_context d) (sd_context d');
  others_messages b d a d' : allowed b d a d' -> job_messages (sd_context d') = job_messages (sd_context d);
}.

Context (Hengine : timed_engine).
#[local] Abbreviation runs := (Actors.runs allowed).

(** *** What the messages cost

    The time that the messages of the job may have taken is not deducted from its
    remaining time. *)
Definition messages_between d d' : Z := job_messages (sd_context d') - job_messages (sd_context d).
Definition cost d d' : Q := (inject_Z (messages_between d d') * delay)%Q.

(** Between the two states the job has only sent messages. *)
Definition goes_on d d' : Prop := kept (sd_context d) (sd_context d') /\ 0 <= messages_between d d'.

#[export] Instance goes_on_preorder : PreOrder goes_on.
Proof.
  split; [intros d; split; [done|unfold messages_between; lia]|].
  intros d1 d2 d3 [K1 M1] [K2 M2]. split; [by etransitivity|]. unfold messages_between in *. lia.
Qed.

Lemma cost_trans d1 d2 d3 : (cost d1 d3 == cost d1 d2 + cost d2 d3)%Q.
Proof.
  unfold cost. replace (messages_between d1 d3) with (messages_between d1 d2 + messages_between d2 d3) by (unfold messages_between; lia).
  rewrite inject_Z_plus. ring.
Qed.

Lemma cost_nonneg d d' : goes_on d d' -> (0 <= cost d d')%Q.
Proof.
  intros [_ Hm]. unfold cost. apply Qmult_le_0_compat; [|apply delay_nonneg, Hengine]. by change 0%Q with (inject_Z 0); rewrite <- Zle_Qle.
Qed.

Lemma cost_nothing d d' : messages_between d d' = 0 -> (cost d d' == 0)%Q.
Proof. unfold cost. intros ->. change (inject_Z 0) with 0%Q. ring. Qed.

(** A step of the process itself, without messages: it takes no time. *)
Definition at_once d d' : Prop :=
  kept (sd_context d) (sd_context d') /\ job_messages (sd_context d') = job_messages (sd_context d) /\ time_of d' = time_of d.

#[export] Instance at_once_preorder : PreOrder at_once.
Proof.
  split; [by split|]. intros d1 d2 d3 (K1 & M1 & T1) (K2 & M2 & T2).
  split; [by etransitivity|]. split; congruence.
Qed.

(** Messages of the job take some time, which is their cost. *)
Definition sends_messages d d' : Prop := goes_on d d' /\ (time_of d <= time_of d' /\ time_of d' <= time_of d + cost d d')%Q.

Lemma at_once_no_message d d' : at_once d d' -> sends_messages d d'.
Proof.
  intros (Hk & Hm & Ht). assert (messages_between d d' = 0) as Hz by (unfold messages_between; lia).
  split; [split; [done|lia]|]. pose proof (cost_nothing d d' Hz). rewrite Ht. lra.
Qed.

(** A part of the job, given the remaining time [r], has returned: it has not used
    more than [r] besides its messages, and if it succeeds it reports no more than
    what remains. *)
Definition bounded r d (result : Z * Q) d' : Prop :=
  goes_on d d' /\ (time_of d <= time_of d')%Q /\ (time_of d' <= time_of d + r + cost d d')%Q /\
  (result.1 = 0 -> (time_of d' + result.2 <= time_of d + r + cost d d')%Q /\ (0 <= result.2)%Q).

Definition bounded_run (m : Q -> Actors.M Data IS Host (Z * Q)) : Prop :=
  forall r d result d', (0 <= r)%Q -> job_ok (sd_context d) -> runs (m r) d result d' -> bounded r d result d'.

Lemma bounded_after_message r d d1 result d' : sends_messages d d1 -> bounded r d1 result d' -> bounded r d result d'.
Proof.
  intros [Hk Ht] (Hk' & Hle & Hr & H0'). pose proof (cost_trans d d1 d') as Hc. split; [by etransitivity|].
  split; [lra|]. split; [lra|]. intros Hz. destruct (H0' Hz). split; lra.
Qed.

Lemma bounded_after_step r d d1 result d' : at_once d d1 -> bounded r d1 result d' -> bounded r d result d'.
Proof. intros Hs%at_once_no_message. by apply bounded_after_message. Qed.

Lemma bounded_trans r d r1 d1 result d' :
  bounded r d (0, r1) d1 -> bounded r1 d1 result d' -> bounded r d result d'.
Proof.
  intros (Hk & Hle & Hr & H0') (Hk' & Hle' & Hr' & H0''). cbn in *. destruct (H0' eq_refl) as [He Hpos].
  pose proof (cost_trans d d1 d') as Hc. split; [by etransitivity|]. split; [lra|]. split; [lra|].
  intros Hz. destruct (H0'' Hz). split; lra.
Qed.

Lemma bounded_then_step r d result d1 d' : bounded r d result d1 -> at_once d1 d' -> bounded r d result d'.
Proof.
  intros (Hk & Hle & Hr & H0') [Hk' Ht]%at_once_no_message. pose proof (cost_trans d d1 d') as Hc. split; [by etransitivity|].
  split; [lra|]. split; [lra|]. intros Hz. destruct (H0' Hz). split; lra.
Qed.

(** Another code, provided that a failure is not hidden. *)
Lemma bounded_code r d code code' r' d' :
  (code' = 0 -> code = 0) -> bounded r d (code, r') d' -> bounded r d (code', r') d'.
Proof. intros Hc (Hk & Hle & Hr & H0'). split; [done|]. split; [done|]. split; [done|]. intros Hz. by apply H0', Hc. Qed.

Lemma bounded_immediate r d code : (0 <= r)%Q -> bounded r d (code, r) d.
Proof.
  intros Hr. pose proof (cost_nonneg d d ltac:(done)). split; [done|]. cbn. split; [lra|]. split; [lra|]. intros _. split; lra.
Qed.

(** The engine makes the process wait, and no message is sent. *)
Lemma bounded_waiting r b d a d' (result : Z * Q) :
  allowed b d a d' -> (time_of d <= time_of d')%Q -> (time_of d' <= time_of d + r)%Q ->
  (result.1 = 0 -> (time_of d' + result.2 <= time_of d + r)%Q /\ (0 <= result.2)%Q) -> bounded r d result d'.
Proof.
  intros Hal Hle Hr H0'. pose proof (others_keep Hengine _ _ _ _ Hal) as Hk. pose proof (others_messages Hengine _ _ _ _ Hal) as Hm.
  assert (goes_on d d') as Hgo by (split; [done|unfold messages_between; lia]).
  pose proof (cost_nonneg d d' Hgo). split; [done|]. split; [done|]. split; [lra|]. intros Hz. destruct (H0' Hz). split; lra.
Qed.

Lemma bounded_job_ok r d result d' : bounded r d result d' -> job_ok (sd_context d) -> job_ok (sd_context d').
Proof. intros [[[Hk _] _] _]. exact Hk. Qed.

(** *** The steps of the process *)

Lemma with_job_kept f c :
  (forall j, (starting_time (f j), runtime (f j), id (f j)) = (starting_time j, runtime j, id j)) -> kept c (with_job jp f c).
Proof.
  intros Hf. split.
  - intros [Hd Hn]. split; [exact Hd|]. unfold with_job. cbn. rewrite lookup_alter_eq.
    destruct (_ !! jp) as [j|] eqn:Hj; cbn; [|done]. intros j' [= <-]. injection (Hf j) as _ _ ->. by apply Hn.
  - unfold started_at, with_job. cbn. rewrite lookup_alter_eq.
    destruct (_ !! jp) as [j|]; cbn; [|done]. by injection (Hf j) as -> -> _.
Qed.

Lemma read_ctx_step {A} (f : Ctx -> result A) d a d' :
  runs (read_ctx f) d a d' -> d' = d /\ f (sd_context d) = Ok a.
Proof. intros [Hf ->]%runs_read. done. Qed.

Lemma on_ctx_step (f : Ctx -> result Ctx) d u d' :
  runs (on_ctx f) d u d' -> exists c, f (sd_context d) = Ok c /\ d' = d <| sd_context := c |>.
Proof. intros (c & Hc & [= <-])%runs_change%bind_Ok. by exists c. Qed.

Lemma change_job_step f d u d' :
  (forall j, (starting_time (f j), runtime (f j), id (f j)) = (starting_time j, runtime j, id j)) ->
  runs (change_job jp f) d u d' -> at_once d d'.
Proof. intros Hf (c & [= <-] & ->)%on_ctx_step. split; [by apply with_job_kept|done]. Qed.

Lemma change_task_step path f d u d' : runs (change_task jp path f) d u d' -> at_once d d'.
Proof. by apply change_job_step. Qed.

Lemma send_kept mailbox type data d u d' :
  runs (send mailbox type data) d u d' -> kept (sd_context d) (sd_context d') /\
  job_messages (sd_context d') = job_messages (sd_context d) + (if is_job_message (mk_Sent 0 mailbox (mk_IPMessage type data)) then 1 else 0) /\
  (time_of d <= time_of d' /\ time_of d' <= time_of d + delay)%Q.
Proof.
  intros [n Hal]%send_runs. pose proof (put_within_delay Hengine _ _ _ _ _ Hal) as Ht.
  pose proof (others_messages Hengine _ _ _ _ Hal) as Hm. split; [exact (others_keep Hengine _ _ _ _ Hal)|].
  split; [|exact Ht]. rewrite Hm. unfold job_messages. cbn. rewrite count_if_app. cbn. unfold is_job_message. cbn. lia.
Qed.

(** A message of the job to the scheduler. *)
Lemma send_from_job_step j text d u d' :
  job_ok (sd_context d) -> the_job (sd_context d) jp = Ok j ->
  runs (send "server" FROM_JOB_MSG (FromJobMessage (id j) text)) d u d' -> sends_messages d d'.
Proof.
  intros [_ Hn] Hj%the_job_Ok (Hk & Hm & Ht)%send_kept. unfold is_job_message in Hm. cbn in Hm.
  rewrite bool_decide_true in Hm by by apply Hn. assert (messages_between d d' = 1) as H1' by (unfold messages_between; lia).
  split; [split; [done|lia]|]. unfold cost. rewrite H1'. change (inject_Z 1) with 1%Q. lra.
Qed.

Lemma create_step a d actor d' : runs (create a) d actor d' -> at_once d d'.
Proof. intros (d1 & p & [= <- <-] & [_ ->]%finishes_inv). split; [by split|done]. Qed.

(** What each step of a run says, for the steps that do not block. *)
Ltac inv_steps :=
  unfold read_task, read_job, read_profile, profile_of_workload, get_clock_now in *;
  inv_run;
  repeat match goal with
  | Hs : runs (read_ctx _) _ _ _ |- _ => apply read_ctx_step in Hs as [-> Hs]
  | Hs : runs (read _) _ _ _ |- _ => apply runs_read in Hs as [Hs ->]
  | Hs : runs (change_task _ _ _) _ _ _ |- _ => apply change_task_step in Hs
  | Hs : runs (create _) _ _ _ |- _ => apply create_step in Hs
  | Hs : runs (change_job _ _) _ _ _ |- _ => apply change_job_step in Hs; [|done]
  | Hs : runs (block _) _ _ _ |- _ => apply runs_block in Hs
  | Hs : Ok _ = Ok _ |- _ => injection Hs as <-
  end.

Lemma do_delay_task_bounded sleeptime : (0 <= sleeptime)%Q -> bounded_run (do_delay_task sleeptime).
Proof.
  intros Hs r d result d' Hr Hd Hrun. unfold do_delay_task in Hrun.
  destruct ((r <?q 0) || (sleeptime <?q r))%Q eqn:Hb; inv_steps.
  - assert (sleeptime < r)%Q as Hlt by (apply orb_true_iff in Hb as [Hb|Hb]; qify; lra).
    assert ((0 <?q r)%Q = true) as -> by (qify; lra).
    match goal with Hal : allowed _ _ _ _ |- _ =>
      pose proof (sleep_elapses Hengine _ _ _ _ Hal Hs); apply (bounded_waiting _ _ _ _ _ _ Hal) end; cbn; [lra|lra|intros _; lra].
  - match goal with Hal : allowed _ _ _ _ |- _ =>
      pose proof (sleep_elapses Hengine _ _ _ _ Hal Hr); apply (bounded_waiting _ _ _ _ _ _ Hal) end; cbn; [lra|lra|done].
Qed.

Lemma do_delay_task_code sleeptime r d result d' :
  runs (do_delay_task sleeptime r) d result d' -> result.1 = 0 \/ result.1 = -1.
Proof. unfold do_delay_task. intros Hrun. destruct (_ || _); inv_steps; auto. Qed.

Lemma execute_parallel_task_bounded alloc path : bounded_run (execute_parallel_task jp alloc path).
Proof.
  intros r d result d' Hr Hd Hrun. unfold execute_parallel_task in Hrun.
  inv_steps. destruct (r <?q 0)%Q eqn:Hneg; [qify; lra|]. inv_steps.
  eapply bounded_after_step; [eassumption|].
  match goal with Hal : allowed _ _ _ _ |- _ =>
    pose proof (ptask_within Hengine _ _ _ _ _ _ _ Hal Hr); apply (bounded_waiting _ _ _ _ _ _ Hal) end;
    unfold time_of in *; cbn; [lra|lra|intros _; lra].
Qed.

(** *** Traces *)

Lemma default_mapping_step nb_ranks d u d' : runs (default_mapping jp nb_ranks) d u d' -> at_once d d'.
Proof.
  unfold default_mapping. intros Hrun. inv_steps.
  destruct (smpi_ranks_to_hosts_mapping _); [|by inv_steps].
  destruct (_ && _); by inv_steps.
Qed.

Lemma create_rank_step alloc p files mailbox children rank d children' d' :
  runs (create_rank jp alloc p files mailbox children rank) d children' d' -> at_once d d'.
Proof. unfold create_rank. intros Hrun. inv_steps. by etransitivity. Qed.

Lemma create_ranks_step alloc p files mailbox children ranks d children' d' :
  runs (create_ranks jp alloc p files mailbox children ranks) d children' d' -> at_once d d'.
Proof.
  revert children d; induction ranks as [|rank ranks IH]; intros children d; cbn [create_ranks]; intros Hrun; inv_steps; [done|].
  etransitivity; [by eapply create_rank_step|by eapply IH].
Qed.

Lemma kill_children_step children d u d' : runs (kill_children jp children) d u d' -> at_once d d'.
Proof.
  unfold kill_children. intros Hrun. inv_steps.
  match goal with Hs : runs (on_ctx _) _ _ _ |- _ => apply on_ctx_step in Hs as (c & [= <-] & ->) end. etransitivity; [eassumption|]. split; [by split|done].
Qed.

Lemma wait_children_bounded n mailbox children r d result d' :
  (0 <= r)%Q -> runs (wait_children n jp mailbox true children r) d result d' ->
  bounded r d (if result.1 : bool then 0 else -1, result.2) d'.
Proof.
  revert children r d; induction n as [|n IH]; intros children r d Hr; cbn [wait_children];
    (destruct (bool_decide (children = ∅)); intros Hrun; [inv_steps; by apply bounded_immediate|]); inv_steps.
  match goal with Hal : allowed _ ?d0 _ ?d1 |- _ =>
    pose proof (get_within Hengine _ _ _ _ _ Hal Hr) as [Hle Hwithin];
    assert (bounded r d0 (0, (r - (time_of d1 - time_of d0))%Q) d1) as Hwait
      by (apply (bounded_waiting _ _ _ _ _ _ Hal); [exact Hle|exact Hwithin|cbn; intros _; lra]);
    assert (bounded r d0 (-1, r) d1) as Htimeout by (apply (bounded_waiting _ _ _ _ _ _ Hal); [exact Hle|exact Hwithin|discriminate]) end.
  match goal with Hrest : runs (match ?x with _ => _ end) _ _ _ |- _ => destruct x as [rank|] end; inv_steps.
  - match goal with Hrest : runs (wait_children _ _ _ _ _ _) _ _ _ |- _ => apply IH in Hrest as Hb end;
      match goal with Hs : at_once _ _ |- _ => pose proof (proj2 (proj2 Hs)) as Ht end; unfold time_of in *; rewrite Ht in *; [|lra].
    eapply bounded_trans; [by eapply bounded_then_step|exact Hb].
  - match goal with Hs : runs (kill_children _ _) _ _ _ |- _ => apply kill_children_step in Hs end.
    eapply bounded_then_step; [exact Htimeout|eassumption].
Qed.

Lemma execute_trace_bounded alloc p : bounded_run (execute_trace jp alloc p).
Proof.
  intros r d [code r'] d' Hr Hd Hrun. unfold execute_trace in Hrun. inv_steps.
  repeat match goal with
  | Hs : runs (default_mapping _ _) _ _ _ |- _ => apply default_mapping_step in Hs
  | Hs : runs (create_ranks _ _ _ _ _ _ _) _ _ _ |- _ => apply create_ranks_step in Hs
  end.
  assert ((0 <=?q r)%Q = true) as Hw by (qify; lra). rewrite Hw in *.
  match goal with Hs : runs (wait_children _ _ _ _ _ _) _ _ _ |- _ => apply wait_children_bounded in Hs as Hb; [|done] end.
  eapply bounded_after_step; [by etransitivity|]. cbn [fst snd] in Hb.
  match goal with He : (code, r') = (if ?b then _ else _, _) |- _ => injection He as -> ->; destruct b end; [|exact Hb].
  by eapply bounded_code; [|exact Hb].
Qed.

(** *** Messages *)

Lemma choose_profile_step regex on_success on_failure d profile d' :
  runs (choose_profile regex_match jp regex on_success on_failure) d profile d' -> at_once d d'.
Proof.
  unfold choose_profile, pop_message. intros Hrun. inv_steps.
  destruct (incoming_message_buffer _); by inv_steps.
Qed.

Lemma poll_message_bounded n polltime :
  (0 <= polltime)%Q ->
  forall r d result d', (0 <= r)%Q -> job_ok (sd_context d) -> runs (poll_message n jp polltime r) d result d' ->
    bounded r d (if result.1 : bool then 0 else -1, result.2) d'.
Proof.
  intros Hp. induction n as [|n IH]; intros r d result d' Hr Hd; cbn [poll_message]; intros Hrun; inv_steps.
  match goal with Hs : runs (do_delay_task _ _) _ _ _ |- _ =>
    apply do_delay_task_bounded in Hs as Hb; [|done..]; apply do_delay_task_code in Hs as Hcode end.
  destruct Hcode as [Hcode|Hcode]; cbn in Hcode; subst;
    change (0 =? -1) with false in *; change (-1 =? -1) with true in *; inv_steps; [|exact Hb].
  destruct (bool_decide _); inv_steps; [|exact Hb].
  eapply bounded_trans; [exact Hb|]. eapply IH; [by apply Hb|by eapply bounded_job_ok|eassumption].
Qed.

(** The message, if any, is received within the time that remains. *)
Lemma receive_message_bounded polls regex on_success on_failure on_timeout polltime r d profile r' d' :
  (0 <= polltime)%Q -> (0 <= r)%Q -> job_ok (sd_context d) ->
  runs (receive_message regex_match polls jp regex on_success on_failure on_timeout polltime r) d (profile, r') d' ->
  bounded r d (match profile with Some _ => 0 | None => -1 end, r') d'.
Proof.
  intros Hp Hr Hd. unfold receive_message. intros Hrun. inv_steps.
  destruct (bool_decide (incoming_message_buffer _ = [])); [destruct (bool_decide (on_timeout = ""))|]; inv_steps.
  - match goal with Hs : runs (poll_message _ _ _ _) _ _ _ |- _ => apply poll_message_bounded in Hs as Hb; [|done..] end.
    match goal with Hs : runs (if ?b then _ else _) _ _ _ |- _ => destruct b end; inv_steps.
    + match goal with Hs : runs (choose_profile _ _ _ _ _) _ _ _ |- _ => apply choose_profile_step in Hs end.
      simplify_eq. by eapply bounded_then_step.
    + simplify_eq. exact Hb.
  - simplify_eq. by apply bounded_immediate.
  - match goal with Hs : runs (choose_profile _ _ _ _ _) _ _ _ |- _ => apply choose_profile_step in Hs end.
    simplify_eq. eapply bounded_after_step; [eassumption|]. by apply bounded_immediate.
Qed.

Lemma push_sub_task_step path sub d i d' : runs (push_sub_task jp path sub) d i d' -> at_once d d'.
Proof. unfold push_sub_task. intros Hrun. by inv_steps. Qed.

(** *** Tasks *)

Lemma run_sub_tasks_bounded run_sub_task places :
  (forall i, bounded_run (run_sub_task i)) -> bounded_run (run_sub_tasks run_sub_task places).
Proof.
  intros Hsub. induction places as [|i places IH]; intros r d result d' Hr Hd; cbn [run_sub_tasks]; intros Hrun; inv_steps.
  - by apply bounded_immediate.
  - match goal with Hs : runs (run_sub_task _ _) _ _ _ |- _ => apply Hsub in Hs as Hb; [|done..] end.
    match goal with Hs : runs (if ?b then _ else _) _ _ _ |- _ => destruct b eqn:Hc end; inv_steps; [|exact Hb].
    apply Z.eqb_eq in Hc as ->. eapply bounded_trans; [exact Hb|]. eapply IH; [by apply Hb|by eapply bounded_job_ok|eassumption].
Qed.

Lemma unless_failed_bounded p result r d d1 result' d' :
  bounded r d result d1 -> runs (unless_failed p result) d1 result' d' -> bounded r d result' d'.
Proof.
  destruct result as [code r']. intros Hb Hrun. unfold unless_failed in Hrun. inv_steps. cbn.
  destruct (Z.eqb_spec code 0) as [->|Hne]; [by eapply bounded_code; [|exact Hb]|exact Hb].
Qed.

Lemma delay_then_return_bounded p sleeptime : (0 <= sleeptime)%Q -> bounded_run (delay_then_return p sleeptime).
Proof.
  intros Hs r d result d' Hr Hd. unfold delay_then_return. intros Hrun. inv_steps.
  match goal with Hs : runs (do_delay_task _ _) _ _ _ |- _ =>
    apply do_delay_task_bounded in Hs as Hb; [|done..]; apply do_delay_task_code in Hs as Hcode end.
  destruct Hcode as [Hcode|Hcode]; cbn in Hcode; subst;
    change (0 =? -1) with false; change (-1 =? -1) with true; [|exact Hb].
  by eapply bounded_code; [|exact Hb].
Qed.

Lemma the_profile_durations c ptr p : durations_ok c -> the_profile c ptr = Ok p -> positive_durations p.
Proof. intros Hd Hp%of_option_Ok. by eapply Hd. Qed.

Lemma receive_then_run_bounded (run_sub_task : Z -> Q -> Actors.M Data IS Host (Z * Q)) p path received r1 d1 r d result d' :
  (forall i, bounded_run (run_sub_task i)) -> job_ok (sd_context d) ->
  bounded r d (match received with Some _ => 0 | None => -1 end, r1) d1 ->
  runs (match received with
        | None => ret (-1, r1)
        | Some profile_to_execute =>
            if bool_decide (profile_to_execute = "") then ret (p_return_code p, r1)
            else
              let* sub_profile := profile_of_workload jp profile_to_execute in
              let* i := push_sub_task jp path sub_profile in
              let* res := run_sub_task i r1 in
              unless_failed p res
        end) d1 result d' ->
  bounded r d result d'.
Proof.
  intros Hsub Hd Hb Hrun. destruct received as [profile|]; [destruct (bool_decide _)|]; inv_steps; [|idtac|exact Hb].
  - by eapply bounded_code; [|exact Hb].
  - match goal with Hs : runs (push_sub_task _ _ _) _ _ _ |- _ => apply push_sub_task_step in Hs end.
    eapply bounded_trans; [by eapply bounded_then_step|].
    eapply unless_failed_bounded; [|eassumption]. eapply Hsub; [by apply Hb| |eassumption].
    match goal with Hs : at_once _ _ |- _ => apply Hs end. by eapply bounded_job_ok.
Qed.

Lemma execute_task_bounded fuel polls alloc path : bounded_run (execute_task regex_match fuel polls jp alloc path).
Proof.
  revert path; induction fuel as [|fuel IH]; intros path r d result d' Hr Hd; cbn [execute_task]; intros Hrun; inv_steps.
  match goal with Hs : the_profile _ _ = Ok ?p |- _ => apply the_profile_durations in Hs as Hdur; [|by apply Hd]; rename p into prof end.
  destruct (is_parallel_task prof); inv_steps.
  { match goal with Hs : runs (execute_parallel_task _ _ _ _) _ _ _ |- _ => apply execute_parallel_task_bounded in Hs as Hb; [|done..] end.
    by eapply unless_failed_bounded. }
  unfold positive_durations in Hdur.
  destruct (p_type prof), (p_data prof) eqn:Hdata; inv_steps; try (by eapply execute_trace_bounded).
  - eapply bounded_after_step; [eassumption|]. eapply delay_then_return_bounded; [apply Qlt_le_weak, Hdur|done| |eassumption].
    match goal with Hs : at_once _ _ |- _ => by apply Hs end.
  - match goal with Hs : runs (run_sub_tasks _ _ _) _ _ _ |- _ => apply run_sub_tasks_bounded in Hs as Hb; [|clear -IH Hengine|done..] end.
    + by eapply unless_failed_bounded.
    + intros i r d result d' Hr Hd Hrun. inv_steps. eapply bounded_after_step; [eassumption|].
      eapply IH; [done| |eassumption]. match goal with Hs : at_once _ _ |- _ => by apply Hs end.
  - match goal with Hs : runs (send _ _ _) _ _ _ |- _ => eapply send_from_job_step in Hs; [|done|eassumption] end.
    eapply bounded_after_message; [eassumption|]. eapply delay_then_return_bounded; [apply Qlt_le_weak, Hdur|done| |eassumption].
    match goal with Hs : sends_messages _ _ |- _ => by apply Hs end.
  - match goal with Hs : runs (receive_message _ _ _ _ _ _ _ _ _) _ _ _ |- _ =>
      apply receive_message_bounded in Hs as Hb; [|by apply Qlt_le_weak|done..] end.
    match goal with Hs : runs (match _ with _ => _ end) _ _ _ |- _ =>
      refine (receive_then_run_bounded (fun i => execute_task regex_match fuel polls jp alloc (path ++ [i]))
                _ _ _ _ _ _ _ _ _ _ Hd Hb Hs) end.
    intros i. apply IH.
Qed.

Lemma finish_job_step self alloc notify code d u d' :
  sa_job alloc = jp -> runs (finish_job englobing_zone self alloc notify code) d u d' ->
  exists c' j', end_job englobing_zone alloc code (sd_context d) = Ok c' /\ s_jobs (c_store c') !! jp = Some j' /\
    kept c' (sd_context d') /\ job_messages (sd_context d') = job_messages c'.
Proof.
  intros Hjp. unfold finish_job. intros (u1 & d1 & (c' & Hc & ->)%on_ctx_step & (u2 & d2 & Hn & Hleave)%runs_mbind)%runs_mbind.
  rewrite Hjp in Hn, Hleave. apply on_ctx_step in Hleave as (c2 & [= <-] & ->). unfold notify_completion, read_job in Hn.
  apply runs_mbind in Hn as (j & d3 & [-> Hj]%read_ctx_step & Hn). apply the_job_Ok in Hj.
  exists c', j. split; [done|]. split; [exact Hj|].
  assert (kept c' (sd_context d2) /\ job_messages (sd_context d2) = job_messages c') as [Hk Hm].
  { destruct (_ && _); [|by apply runs_ret in Hn as [_ ->]]. apply send_kept in Hn as (Hk & Hm & _). split; [exact Hk|]. cbn in Hm. lia. }
  split; [|exact Hm]. etransitivity; [exact Hk|]. by apply with_job_kept.
Qed.
End Walltime.

(** C14. A job with a walltime does not run for longer, whatever its profile, but for
    the time that the server takes to receive the messages that the job sends to the
    scheduler, which the code does not deduct from the time that remains: if the
    durations of the profiles are valid and the engine keeps its promises on time, with
    at most [delay] for each message, then when the process of the job ends, its runtime
    is positive and at most its walltime plus [delay] for each message that it has sent
    (or the epsilon that stands for a null runtime). *)
Theorem walltime_bounds_runtime {IS Engine Host V : Type} `{IntervalSet IS} `{SimGrid Engine Host} `{RapidJson V}
    (zone : Host -> option string) (regex_match : string -> string -> bool)
    (allowed : forall b : blocking IS Host, ServerData IS Engine Host V -> answer b -> ServerData IS Engine Host V -> Prop)
    delay fuel polls self (alloc : SchedulingAllocation IS Host) notify io (d d' : ServerData IS Engine Host V) j :
  timed_engine (sa_job alloc) (id j) delay allowed ->
  s_jobs (c_store (sd_context d)) !! sa_job alloc = Some j -> (0 < walltime j)%Q -> durations_ok (sd_context d) ->
  runs allowed (execute_job_process zone regex_match fuel polls self alloc notify io) d tt d' ->
  0 <= messages_between (id j) d d' /\
  exists j', s_jobs (c_store (sd_context d')) !! sa_job alloc = Some j' /\
    (0 < runtime j')%Q /\
    ((runtime j' <= walltime j + inject_Z (messages_between (id j) d d') * delay)%Q \/ runtime j' = epsilon).
Proof.
  intros Heng Hj Hw Hdur. unfold execute_job_process, read_job.
  intros (j0 & d0 & [-> Hj0]%read_ctx_step & (alloc' & d1 & Hstart & ([code r] & d2 & Htask & Hfinish)%runs_mbind)%runs_mbind)%runs_mbind.
  apply of_option_Ok in Hj0. rewrite Hj in Hj0. injection Hj0 as <-.
  destruct Hstart as (d3 & p & ([a1 c1] & Hstart & [= <- <-])%bind_Ok & [-> ->]%finishes_inv).
  apply start_job_Ok in Hstart as (Hsame & Heng1 & Hprof & Hsent & j4 & j3 & Hj4 & Hj3 & Hid3 & Hst3). rewrite Hsame in Htask.
  rewrite Hj in Hj4. injection Hj4 as <-.
  apply (execute_task_bounded regex_match _ _ _ allowed Heng) in Htask as ([[_ Hkept] Hmes] & Hle & Hwithin & _);
    [|by apply Qlt_le_weak|].
  2:{ split; [intros ptr p Hp; apply (Hdur ptr); by rewrite <- Hprof|]. cbn. rewrite Hj3. intros j' [= <-]. exact Hid3. }
  destruct (finish_job_step zone _ _ _ allowed Heng _ _ _ _ _ _ _ Hsame Hfinish) as (c' & j1 & Hend & Hj1 & [_ Hafter] & Hmes').
  rewrite <- Hsame in Hj1. destruct (end_job_Ok _ _ _ _ _ _ Hend Hj1) as (s & j2 & _ & Hj2 & Hout & _ & _ & Hsent'). rewrite Hsame in Hj1, Hj2.
  match type of Hmes with 0 <= ?m => assert (m = messages_between (id j) d d') as Hcount end.
  { unfold messages_between. cbn. rewrite Hmes'. unfold job_messages. by rewrite Hsent', Hsent. }
  unfold cost in Hwithin. rewrite Hcount in Hmes, Hwithin. split; [exact Hmes|].
  unfold started_at in Hafter, Hkept. cbn in Hafter, Hkept. rewrite Hj1 in Hafter. rewrite Hj2, Hj3 in Hkept.
  destruct (s_jobs (c_store (sd_context d')) !! sa_job alloc) as [j'|]; [|done]. injection Hafter as _ Hrt.
  exists j'. split; [done|]. rewrite Hrt. injection Hout as _ _ _ Hrun _ _ _ _. rewrite Hrun. cbn.
  injection Hkept as Hstart' _. rewrite Hstart', Hst3. unfold time_of, now in *. cbn in *. rewrite Heng1 in Hle, Hwithin.
  unfold runtime_since, epsilon. destruct (_ =?q _)%Q eqn:Hz; [split; [lra|by right]|]. qify.
  split; [|left; lra]. apply Qnot_le_lt. intros Hneg. apply Hz. lra.
Qed.

(** ** Polling *)

Section Polling.
Context {IS Engine Host V : Type} `{IntervalSet IS} `{SimGrid Engine Host} `{RapidJson V}.
#[local] Abbreviation Data := (ServerData IS Engine Host V).
Implicit Types (d : Data) (r polltime : Q).
Context (env : @oracle Data IS Host) (jp : positive).

(** The job is there, and stays there while its process waits. *)
Definition present d : Prop := is_Some (s_jobs (c_store (sd_context d)) !! jp).
Definition keeps_job : Prop := forall b d, present d -> present (env b d).2.

Lemma do_delay_task_returns sleeptime r d :
  returns env 1 (do_delay_task sleeptime r) d
    (if ((r <?q 0) || (sleeptime <?q r))%Q then (0, if (0 <?q r)%Q then (r - sleeptime)%Q else r) else (-1, 0%Q))
    (env (sleep_for (if ((r <?q 0) || (sleeptime <?q r))%Q then sleeptime else r)) d).2.
Proof.
  unfold do_delay_task. destruct (_ || _); change 1%nat with (1 + 0)%nat;
    (eapply returns_mbind; [apply returns_block|apply returns_ret]).
Qed.
End Polling.

(** Waiting for a message without a timeout ends: with a walltime, the process
    polls its messages at most as many times as the poll period fits in the time
    that remains, then it has a message or has spent all the time that remains. *)
Theorem poll_message_terminates {IS Engine Host V : Type} `{IntervalSet IS} `{SimGrid Engine Host} `{RapidJson V}
    (env : @oracle (ServerData IS Engine Host V) IS Host) jp polltime n r d :
  keeps_job env jp -> present jp d -> (0 < polltime)%Q -> (0 <= r)%Q -> (r < inject_Z (Z.of_nat n) * polltime)%Q ->
  exists has_message r' d', returns env n (poll_message n jp polltime r) d (has_message, r') d' /\
    (if has_message : bool
     then (0 < r')%Q /\ exists j, s_jobs (c_store (sd_context d')) !! jp = Some j /\ incoming_message_buffer j ≠ []
     else r' = 0%Q).
Proof.
  intros Henv Hd Hp. revert r d Hd. induction n as [|n IH]; intros r d Hd Hr Hn; [change (inject_Z (Z.of_nat 0)) with 0%Q in Hn; lra|].
  rewrite Nat2Z.inj_succ, <- Z.add_1_l, inject_Z_plus in Hn. change (inject_Z 1) with 1%Q in Hn. cbn [poll_message].
  pose proof (do_delay_task_returns env polltime r d) as Hdelay.
  destruct ((r <?q 0) || (polltime <?q r))%Q eqn:Hb.
  - assert (polltime < r)%Q as Hlt by (apply orb_true_iff in Hb as [Hb|Hb]; qify; lra).
    assert ((0 <?q r)%Q = true) as Hpos by (qify; lra). rewrite Hpos in Hdelay.
    set (d1 := (env (sleep_for polltime) d).2) in *. assert (present jp d1) as Hd1 by by apply Henv.
    destruct Hd1 as [j Hj]. assert (returns env 0 (read_job jp) d1 j d1) as Hread.
    { apply returns_read. by apply the_job_Ok. }
    destruct (decide (incoming_message_buffer j = [])) as [Hnil|Hmsg].
    + destruct (IH (r - polltime)%Q d1) as (has & r' & d' & Hret & Hres); [by eexists|lra|lra|].
      exists has, r', d'. split; [|done]. change (S n) with (1 + (0 + n))%nat.
      eapply returns_mbind; [exact Hdelay|]. change (0 =? -1) with false.
      eapply returns_mbind; [exact Hread|]. rewrite bool_decide_true by done. exact Hret.
    + exists true, (r - polltime)%Q, d1. split; [|split; [lra|by exists j]].
      replace (S n) with (1 + (0 + n))%nat by lia.
      eapply returns_mbind; [exact Hdelay|]. change (0 =? -1) with false.
      eapply returns_mbind; [exact Hread|]. rewrite bool_decide_false by done. by apply returns_more with (n := 0%nat), returns_ret.
  - exists false, 0%Q. eexists. split; [|done]. change (S n) with (1 + n)%nat.
    eapply returns_mbind; [exact Hdelay|]. change (-1 =? -1) with true. by apply returns_more with (n := 0%nat), returns_ret.
Qed.
