(* ===== verification/JobsExecutionExamples.v ===== *)
(** * Executing a job on a small platform

    The job of [ServerExamples] runs with an engine that answers every request in
    turn, moving the clock: the hypotheses of the theorems on the execution of
    jobs hold there, and what they say is evaluated. *)

From S2P Require Import Prelude Interfaces Profiles Jobs NumericStrcmp Outputs Machines Workload Tracers Ipp PState Writer NumberParsing Workflow Context ContextFacts Server Actors TaskExecution SwitchProcesses JobsExecution TaskProgress Replay ServerFacts ServerExamples JobsExecutionFacts.

Module JobsExecutionExamples.
Import Concrete MachineExamples JobExamples WorkloadExamples ServerExamples.
#[local] Abbreviation Ctx := (BatsimContext (list Z) engine host json).
#[local] Abbreviation Data := (ServerData (list Z) engine host json).

Definition advance (t : Q) (d : Data) : Data :=
  d <| sd_context ::= fun c => c <| c_engine ::= fun e => mk_engine (e_clock e + t)%Q (e_pstates e) (e_energy e) |> |>.

(** The latency of the loopback of platforms/energy_platform.xml. *)
Definition latency : Q := 3 # 200000.

(** An engine where nothing comes before the timeouts, and a message takes the latency. *)
Definition slow_engine : @oracle Data (list Z) host := fun b =>
  match b as b0 return Data -> answer b0 * Data with
  | sleep_for t => fun d => (tt, advance t d)
  | execute flops => fun d => (tt, advance flops d)
  | wait_ptask _ _ _ (Some t) => fun d => (PtaskTimeout, advance t d)
  | wait_ptask _ _ _ None => fun d => (PtaskFinished, advance 1 d)
  | mailbox_get _ (Some t) => fun d => (None, advance t d)
  | mailbox_get _ None => fun d => (None, d)
  | mailbox_put _ _ => fun d => (tt, d)
  | put_message _ _ => fun d => (tt, advance latency d)
  | await_message _ => fun d => (NoData, d)
  end.
Definition slow (b : blocking (list Z) host) (d : Data) (a : answer b) (d' : Data) : Prop := (a, d') = slow_engine b d.

Lemma advance_within t d : (0 <= t)%Q -> (time_of d <= time_of (advance t d) /\ time_of (advance t d) <= time_of d + t)%Q.
Proof.
  assert (time_of (advance t d) = (time_of d + t)%Q) as -> by reflexivity. generalize (time_of d). intros date Ht. lra.
Qed.

Lemma slow_is_timed jp me : timed_engine jp me latency slow.
Proof.
  constructor; unfold slow.
  - discriminate.
  - intros t d u d' [= -> ->] _. reflexivity.
  - intros hosts comp comm t d o d' [= -> ->] Ht. by apply advance_within.
  - intros mailbox t d rank d' [= -> ->] Ht. by apply advance_within.
  - intros mbox n d u d' [= -> ->]. apply advance_within. discriminate.
  - intros b d a d' Ha. destruct b as [t|f|hosts comp comm [t|]|mailbox [t|]|mailbox rank|mailbox n|mailbox]; by injection Ha as -> ->.
  - intros b d a d' Ha. destruct b as [t|f|hosts comp comm [t|]|mailbox [t|]|mailbox rank|mailbox n|mailbox]; by injection Ha as -> ->.
Qed.

(** The job sends a message to the scheduler then sleeps for 1; its walltime is one half. *)
Definition sending : profile_heap := {[1%positive := mk_Profile SCHEDULER_SEND (SchedulerSendProfileData "hello" 1) "" "d" 0]}.
Definition short_walltime : Data :=
  data3 <| sd_context ::= fun c => with_job 1 (fun j => j <| walltime := (1 # 2)%Q |>) c <| c_store ::= fun st => st <| s_profiles := sending |> |> |>.
Definition running_job : Job (list Z) := default a_job (s_jobs (c_store (sd_context short_walltime)) !! 1%positive).
Definition no_regex (_ _ : string) : bool := false.
Definition process : Data -> result (Data * proc Data (list Z) host unit) :=
  execute_job_process zone_of no_regex 3 3 2%positive alloc true None.
Definition run_process (d : Data) : result (Data * unit) := '(d, p) ← process d; run 3 slow_engine d p.

Lemma run_process_runs d d' u :
  run_process d = Ok (d', u) -> runs slow (execute_job_process zone_of no_regex 3 3 2%positive alloc true None) d u d'.
Proof.
  unfold run_process. intros ([d1 p] & Hp & Hr)%bind_Ok. exists d1, p. split; [exact Hp|].
  eapply run_finishes; [|exact Hr]. intros b d2. unfold slow. by destruct (slow_engine b d2).
Qed.

Definition final_job : option (Job (list Z)) :=
  match run_process short_walltime with Ok (d, _) => s_jobs (c_store (sd_context d)) !! 1%positive | Err _ => None end.
Definition final_messages : option Z :=
  match run_process short_walltime with Ok (d, _) => Some (messages_between w0_1 short_walltime d) | Err _ => None end.

Lemma durations_are_ok : durations_ok (sd_context short_walltime).
Proof.
  intros ptr p. change (s_profiles (c_store (sd_context short_walltime))) with sending.
  unfold sending. intros [_ <-]%lookup_singleton_Some. reflexivity.
Qed.

(** Its walltime is reached, late by the latency: the bound cannot be improved. *)
Example walltime_bounds_runtime_witness :
  exists d' j', run_process short_walltime = Ok (d', tt) /\
    s_jobs (c_store (sd_context d')) !! 1%positive = Some j' /\
    state j' = JOB_STATE_COMPLETED_WALLTIME_REACHED /\ (runtime j' == (1 # 2) + latency)%Q /\
    messages_between w0_1 short_walltime d' = 1 /\
    ((runtime j' <= (1 # 2) + inject_Z (messages_between w0_1 short_walltime d') * latency)%Q \/ runtime j' = epsilon).
Proof.
  destruct (run_process short_walltime) as [[d' []]|e] eqn:E; [|vm_compute in E; discriminate].
  destruct (walltime_bounds_runtime zone_of no_regex slow latency 3 3 2%positive alloc true None short_walltime d'
    running_job
    (slow_is_timed _ _) ltac:(vm_compute; reflexivity) ltac:(reflexivity) durations_are_ok (run_process_runs _ _ _ E))
    as (_ & j' & Hj' & _ & Hle).
  exists d', j'. split; [reflexivity|]. split; [exact Hj'|].
  assert (final_job = Some j') as Hf by (unfold final_job; rewrite E; exact Hj').
  assert (state <$> final_job = Some JOB_STATE_COMPLETED_WALLTIME_REACHED) as Hs by (vm_compute; reflexivity).
  assert ((fun j => Qred (runtime j)) <$> final_job = Some (Qred ((1 # 2) + latency))) as Hr by (vm_compute; reflexivity).
  assert (final_messages = Some 1) as Hm by (vm_compute; reflexivity).
  rewrite Hf in Hs, Hr. unfold final_messages in Hm. rewrite E in Hm.
  split; [by injection Hs|]. split; [apply Qred_eq_iff; by injection Hr|]. split; [by injection Hm|exact Hle].
Defined.

(** The job ends with the code 3, once started. *)
Definition started : Ctx :=
  match start_job zone_of 3 alloc None (sd_context data3) with Ok (_, c) => c | Err _ => ctx end.

Definition just_started : Data := data3 <| sd_context := started |>.

Example finish_job_spec_witness :
  exists d' p j', finish_job zone_of 2%positive alloc true 3 just_started = Ok (d', p) /\
    s_jobs (c_store (sd_context d')) !! 1%positive = Some j' /\ state j' = JOB_STATE_COMPLETED_FAILED /\ (runtime j' = 1 # 100000) /\
    c_sent (sd_context d') = c_sent started ++ [mk_Sent 0 "server" (mk_IPMessage JOB_COMPLETED (JobCompletedMessage 1%positive))] /\
    waits_then_leaves 2 1 (sd_context d') p.
Proof.
  destruct (finish_job zone_of 2%positive alloc true 3 just_started) as [[d' p]|] eqn:E; [|vm_compute in E; discriminate].
  destruct (finish_job_spec zone_of 2%positive alloc true 3 just_started d' p E)
    as (s & j & j' & Hj & Hj' & Hst & Hcode & _ & Hrun & _ & _ & Hsent & _ & Hp).
  exists d', p, j'. split; [reflexivity|]. split; [exact Hj'|].
  split; [rewrite Hst; destruct Hcode as [[_ Hc]|[[Hs _]|[[_ Hc]|[_ Hc]]]]; [discriminate Hc|exact Hs|discriminate Hc|discriminate Hc]|].
  vm_compute in Hj. injection Hj as <-.
  split; [rewrite Hrun; vm_compute; reflexivity|]. split; [|exact Hp].
  change (sd_context just_started) with started in Hsent. assert (now started = 0%Q) as Hnow by (vm_compute; reflexivity).
  rewrite Hnow in Hsent. exact Hsent.
Defined.

(** The job sleeps when it is killed. *)
Definition asleep : BatTask := new_BatTask 1 <| bt_delay_task_start := 0%Q |> <| bt_delay_task_required := 1%Q |>.
Definition sleeping : Ctx := with_job 1 (fun j => j <| task := Some asleep |>) started.

Lemma leaf_path t path u : bt_sub_tasks t = [] -> on_current_path t path u -> path = [] /\ u = t.
Proof.
  intros Hsubs Hpath. inversion Hpath as [|t' s path' u' Hs]; subst; [done|].
  apply vector_get_inv in Hs as [_ Hs]. by rewrite Hsubs in Hs.
Qed.

(** The delay is reported as not advanced yet. *)
Example kill_job_spec_witness :
  exists c' t j', kill_job zone_of JOB_STATE_COMPLETED_KILLED (∅, sleeping) w0_1 = Ok (<[ji_to_string w0_1 := t]> ∅, c') /\
    bt_current_task_progress_ratio t = ((0 - 0) / 1)%Q /\
    s_jobs (c_store c') !! 1%positive = Some j' /\ state j' = JOB_STATE_COMPLETED_KILLED /\ execution_actors j' = ∅.
Proof.
  destruct (kill_job zone_of JOB_STATE_COMPLETED_KILLED (∅, sleeping) w0_1) as [[progress c']|] eqn:E; [|vm_compute in E; discriminate].
  destruct (kill_job_spec zone_of _ _ _ _ _ _ E) as (jp & j & Hjp & Hj & _ & Hcases).
  assert (jp = 1%positive) as ->.
  { enough (Ok (A := positive) jp = Ok 1%positive) as Hjp' by by injection Hjp'. rewrite <- Hjp. vm_compute. reflexivity. }
  assert (state j = JOB_STATE_RUNNING) as Hrunning.
  { enough (Some (state j) = Some JOB_STATE_RUNNING) as Hs by by injection Hs.
    change (Some (state j)) with (state <$> Some j). rewrite <- Hj. vm_compute. reflexivity. }
  assert (task j = Some asleep) as Htask.
  { apply (inj Some). change (Some (task j)) with (task <$> Some j). rewrite <- Hj. vm_compute. reflexivity. }
  destruct Hcases as [(Hs & _)|(_ & _ & _ & _ & t0 & path & leaf & p & t & j' & Ht0 & Hpath & _ & Hp & _ & Ht & Hprog & Hj' & _ & Hcases)];
    [destruct (Hs Hrunning)|].
  rewrite Htask in Ht0. injection Ht0 as <-. apply leaf_path in Hpath as [-> ->]; [|reflexivity].
  assert (p = mk_Profile DELAY (DelayProfileData 1) "" "d" 0) as ->.
  { apply (inj Some). rewrite <- Hp. vm_compute. reflexivity. }
  assert (now sleeping = 0%Q) as Hnow by (vm_compute; reflexivity). rewrite Hnow in Ht. subst t. cbn in Hprog.
  eexists c', _, j'. split; [rewrite Hprog; reflexivity|]. split; [reflexivity|]. split; [exact Hj'|].
  destruct Hcases as [(path & [(u & Hu & Hsome) _] & _)|(_ & _ & _ & Hs & Ha & _)]; [|split; [exact Hs|exact Ha]].
  exfalso. apply leaf_path in Hu as [-> ->]; [|reflexivity]. destruct Hsome as [r Hr]. discriminate Hr.
Defined.

(** A sequence that repeats a delay. *)
Definition two_delays : profile_heap :=
  <[2%positive := mk_Profile SEQUENCE (SequenceProfileData 2 ["d"] [1%positive]) "" "s" 0]> profiles.

Lemma two_delays_linked : linked two_delays Pos.to_nat.
Proof.
  intros ptr p. unfold two_delays, profiles. rewrite lookup_insert_Some, lookup_singleton_Some.
  intros [[<- <-]|[_ [<- <-]]] Ht; [|discriminate Ht].
  exists 2, ["d"], [1%positive]. split; [reflexivity|]. split; [reflexivity|]. split; [reflexivity|].
  intros s ->%list_elem_of_singleton. split; [by eexists|]. change (1 < 2)%nat. lia.
Qed.

Example sequence_tasks_in_order_witness :
  exists t, initialize_sequential_tasks 3 two_delays 2%positive None = Ok t /\
    sub_task_indices 2 1 = [0; 1] /\ task_at t [1] = Ok (new_BatTask 1%positive).
Proof.
  destruct (sequence_tasks_in_order two_delays Pos.to_nat 2 2%positive _ 2 ["d"] [1%positive] two_delays_linked
    ltac:(change (2 < 3)%nat; lia) eq_refl eq_refl eq_refl ltac:(lia) ltac:(reflexivity) ltac:(reflexivity))
    as (t & Ht & _ & _ & Hplaces & Hsub).
  exists t. split; [exact Ht|]. split; [exact Hplaces|].
  destruct (Hsub 1%nat ltac:(reflexivity)) as (s & t' & Hs & Ht' & Hat).
  injection Hs as <-. rewrite (Hat : task_at t [1] = Ok t'), <- Ht'. reflexivity.
Defined.

Definition has_a_message : option bool :=
  match poll_message 2 1%positive 1 (3 # 2) data3 with
  | Ok p => match run 2 slow_engine p.1 p.2 with Ok (_, (has_message, _)) => Some has_message | Err _ => None end
  | Err _ => None
  end.

(** Nobody sends anything to the job: it polls twice. *)
Example poll_message_terminates_witness :
  exists has_message r' d', returns slow_engine 2 (poll_message 2 1%positive 1 (3 # 2)) data3 (has_message, r') d' /\
    has_message = false.
Proof.
  destruct (poll_message_terminates slow_engine 1%positive 1 2 (3 # 2) data3) as (has & r' & d' & Hret & _).
  - intros b d Hd. destruct b as [t|f|hosts comp comm [t|]|mailbox [t|]|mailbox rank|mailbox n|mailbox]; exact Hd.
  - vm_compute. by eexists.
  - reflexivity.
  - discriminate.
  - reflexivity.
  - exists has, r', d'. split; [exact Hret|]. destruct Hret as (d1 & p & Hp & Hr).
    assert (has_a_message = Some has) as Hhas by (unfold has_a_message; rewrite Hp; cbn [fst snd]; rewrite Hr; reflexivity).
    enough (Some has = Some false) as Hf by by injection Hf.
    rewrite <- Hhas. vm_compute. reflexivity.
Defined.
End JobsExecutionExamples.

(** ** A trace of two actions *)
Module ReplayExamples.
Import Concrete ServerExamples.
#[local] Abbreviation Data := (ServerData (list Z) engine host json).
#[local] Abbreviation Log := (list (blocking (list Z) host)).

Definition four_cores (_ : host) : Z := 4.
Definition a_host : host := mk_host 0 "h0" ∅ [1%Q].
Definition half : list string := ["0"; "m_usage"; "0.5"; "100"].
Definition idle : list string := ["0"; "m_usage"; "0"; "7"].
Definition actions_of (actor file : string) : result (list (list string)) := Ok [half; idle].

(** Everything is answered at once. *)
Definition allowed (s : Log) (b : blocking (list Z) host) (d : Data) : answer b -> Data -> Log -> Prop :=
  match b as b0 return answer b0 -> Data -> Log -> Prop with
  | wait_ptask h c m t => fun a d' s' => a = PtaskFinished /\ s' = s ++ [wait_ptask h c m t]
  | b => fun _ _ s' => s' = s ++ [b]
  end.

Lemma allowed_logs : logging_env allowed.
Proof.
  constructor; intros s.
  - intros h comp com d o d' s' [Ho _]. exact Ho.
  - intros b d a d' s' Hal. destruct b; solve [exact Hal|exact (proj2 Hal)].
Qed.

Example usage_trace_is_replayed_witness :
  wp allowed (usage_trace_replayer_process four_cores actions_of a_host ["trace"] "mbox" 0)
    (fun _ _ s' => s' = [wait_ptask (replicate 2 a_host) (replicate 2 100%Q) [] None;
                         wait_ptask [a_host] [7%Q] [] None; mailbox_put "mbox" 0]) data0 [].
Proof.
  exact (proj1 (usage_trace_is_replayed four_cores actions_of allowed allowed_logs a_host ["trace"] "mbox" 0 "trace"
    [half; idle] [(0.5, 100); (0, 7)]%Q data0 [] eq_refl eq_refl ltac:(repeat constructor) ltac:(done))).
Defined.
End ReplayExamples.
