(* ===== verification/SubmittersFacts.v ===== *)
(** * What the submitters guarantee (theorems on src/job_submitter.cpp, src/event_submitter.cpp)

    The static submitter announces each job once, at its submission date; the
    workflow submitter makes a job of each task once, when its parents have all
    completed, and ends when all of them have. *)

From Stdlib Require Import Qminmax.
From S2P Require Import Prelude Interfaces Profiles Jobs NumericStrcmp Outputs Machines Workload Tracers Ipp PState Writer NumberParsing Workflow WorkflowFacts Context ContextFacts Server Actors TaskExecution SwitchProcesses JobsExecution Submitters.
#[local] Open Scope process_scope.

(** ** The order of the jobs *)

Section JobOrder.
Context {IS : Type}.
Implicit Types (a b : positive * Job IS).

Lemma job_le_date a b : job_le a b -> (submission_time a.2 <= submission_time b.2)%Q.
Proof.
  unfold job_le, job_comparator_subtime_number. destruct (_ =?q _)%Q eqn:E; intros Hl; qify; lra.
Qed.

#[export] Instance job_le_total : Total (job_le (IS := IS)).
Proof.
  intros a b. unfold job_le, job_comparator_subtime_number.
  destruct (submission_time b.2 =?q submission_time a.2)%Q eqn:E1, (submission_time a.2 =?q submission_time b.2)%Q eqn:E2;
    qify; try (exfalso; lra).
  - destruct (String.ltb (ji_to_string (id b.2)) (ji_to_string (id a.2))) eqn:E; [right|by left].
    unfold String.ltb in *. rewrite String.compare_antisym.
    destruct (String.compare (ji_to_string (id b.2)) (ji_to_string (id a.2))); done.
  - destruct (submission_time b.2 <?q submission_time a.2)%Q eqn:E; [right|by left]. qify. lra.
Qed.
End JobOrder.

Section Submitters.
Context {IS Engine Host V : Type} `{IntervalSet IS} `{SimGrid Engine Host} `{RapidJson V} `{BoostString}.
Context (str_find : string -> string -> bool) (replace_id : string -> string -> string).
Context (storage_set : string -> string -> result unit).
#[local] Abbreviation Ctx := (BatsimContext IS Engine Host V).
#[local] Abbreviation Data := (ServerData IS Engine Host V).
#[local] Abbreviation M := (Actors.M Data IS Host).
Implicit Types (c : Ctx) (d : Data).

(** When, and which jobs, the submitter of this name has announced. *)
Definition announcement (name : string) (m : SentMessage IS Host) : option (Q * list positive) :=
  match msg_data (sm_message m) with
  | JobSubmittedMessage n jobs => if String.eqb n name then Some (sm_date m, jobs) else None
  | _ => None
  end.
Definition announcements (name : string) c : list (Q * list positive) := omap (announcement name) (c_sent c).

Lemma announcements_app name c l :
  announcements name (c <| c_sent ::= fun sent => sent ++ l |>) = announcements name c ++ omap (announcement name) l.
Proof. unfold announcements. cbn. apply omap_app. Qed.

Lemma announcements_submitted name ty jobs c :
  announcements name (send_message "server" ty (JobSubmittedMessage name jobs) c) = announcements name c ++ [(now c, jobs)].
Proof. unfold send_message. rewrite announcements_app. unfold announcement. cbn. by rewrite String.eqb_refl. Qed.

(** ** Waiting *)

Section Waiting.
Context {S : Type} (allowed : S -> forall b : blocking IS Host, Data -> answer b -> Data -> S -> Prop).
(** How long the network takes at most to bring a message to the server. *)
Context (delay : Q).

(** A date is at most that much after another. *)
Definition shortly_after (date date' : Q) : Prop := (date <= date' /\ date' <= date + delay)%Q.

(** What a static submitter needs while it waits: a sleep lasts as asked, the server
    takes a message within the delay, and messages are not lost. *)
Record timely_env : Prop := {
  sleep_lasts s t d u d' s' : allowed s (sleep_for t) d u d' s' -> (0 <= t)%Q -> (time_of d' == time_of d + t)%Q;
  put_within s mbox n d u d' s' : allowed s (put_message mbox n) d u d' s' -> shortly_after (time_of d) (time_of d');
  messages_stay s b d a d' s' : allowed s b d a d' s' -> exists l, c_sent (sd_context d') = c_sent (sd_context d) ++ l;
}.

(** What is sent last comes after the messages of which [f] tells something, if nothing
    of the kind is sent in the meantime. *)
Lemma bye_comes_last {A} (f : SentMessage IS Host -> option A) s type m n d u d' s' :
  timely_env -> allowed s (put_message "server" n) (posted "server" type m d) u d' s' ->
  omap f (c_sent (sd_context d')) = omap f (c_sent (sd_context (posted "server" type m d))) ->
  exists before bye after, c_sent (sd_context d') = before ++ bye :: after /\ sm_mailbox bye = "server" /\
    sm_message bye = mk_IPMessage type m /\ omap f after = [].
Proof.
  intros Henv Hal Hk. destruct (messages_stay Henv _ _ _ _ _ _ Hal) as [after Hafter].
  exists (c_sent (sd_context d)). eexists. exists after. rewrite Hafter. unfold posted, send_message. cbn. rewrite <- app_assoc.
  split; [done|]. split; [done|]. split; [done|]. rewrite Hafter, omap_app in Hk.
  apply (app_inv_head (omap f (c_sent (sd_context (posted "server" type m d))))). by rewrite app_nil_r.
Qed.
End Waiting.

(** ** The submitter of jobs *)

Section Static.
Context {S : Type} (allowed : S -> forall b : blocking IS Host, Data -> answer b -> Data -> S -> Prop).
Context (delay : Q) (name : string) (sub : positive -> Q).

(** The jobs are there, with their submission dates, and no data storage is used. *)
Definition dated (jobs : list positive) c : Prop :=
  redis_enabled (c_options c) = false /\
  forall jp, jp ∈ jobs -> exists j, s_jobs (c_store c) !! jp = Some j /\ submission_time j = sub jp.

(** What the rest of the simulation may do while the submitter of jobs waits. *)
Record quiet_env (jobs : list positive) : Prop := {
  quiet_timely : timely_env allowed delay;
  announcements_kept s b d a d' s' : allowed s b d a d' s' ->
    announcements name (sd_context d') = announcements name (sd_context d);
  dated_kept s b d a d' s' : allowed s b d a d' s' -> dated jobs (sd_context d) -> dated jobs (sd_context d');
}.

(** The workload is not touched before the submitter has announced anything. *)
Definition hello_keeps_workload (workload_name : string) (w : Workload) d s : Prop :=
  forall n u d' s',
    allowed s (put_message "server" n) (posted "server" SUBMITTER_HELLO (SubmitterHelloMessage name false JOB_SUBMITTER) d) u d' s' ->
    c_workloads (sd_context d') !! workload_name = Some w.

(** Jobs announced when they should be: none before its date, and all of them at most
    that much after it, or after the start for those that are already late. *)
Definition on_time (start : Q) (a : Q * list positive) : Prop :=
  a.2 ≠ [] /\ forall jp, jp ∈ a.2 -> shortly_after delay (Qmax start (sub jp)) a.1.

Lemma submit_jobs_step all jobs d s (Q : unit -> Data -> S -> Prop) start :
  (0 <= delay)%Q -> quiet_env all -> dated all (sd_context d) ->
  (forall jp, jp ∈ jobs -> shortly_after delay (Qmax start (sub jp)) (time_of d)) ->
  (forall d' s', shortly_after delay (time_of d) (time_of d') -> dated all (sd_context d') ->
     (exists l, announcements name (sd_context d') = announcements name (sd_context d) ++ l /\ concat l.*2 = jobs /\
        Forall (on_time start) l) -> Q tt d' s') ->
  wp allowed (submit_jobs_to_server jobs name) Q d s.
Proof.
  intros Hdelay Henv Hd Hdate HQ. destruct jobs as [|job jobs]; cbn [submit_jobs_to_server].
  - apply wp_ret. apply HQ; [unfold shortly_after; lra|done|]. exists []. by rewrite app_nil_r.
  - apply send_wp. intros n u d' s' Hal. apply HQ.
    { exact (put_within _ _ (quiet_timely _ Henv) _ _ _ _ _ _ _ Hal). }
    { by eapply dated_kept. }
    exists [(time_of d, job :: jobs)]. rewrite (announcements_kept _ Henv _ _ _ _ _ _ Hal). split; [|split].
    + exact (announcements_submitted name JOB_SUBMITTED (job :: jobs) (sd_context d)).
    + cbn. by rewrite app_nil_r.
    + constructor; [|constructor]. split; [done|exact Hdate].
Qed.

Lemma submit_in_order_spec (w : Workload) all start jobs : forall to_send date first d s,
  (0 <= delay)%Q -> quiet_env all -> (forall jp, jp ∈ jobs -> jp ∈ all) ->
  dated all (sd_context d) -> time_of d = date -> (start <= date)%Q ->
  StronglySorted (fun a b => (sub a <= sub b)%Q) jobs ->
  (forall jp, jp ∈ to_send -> shortly_after delay (Qmax start (sub jp)) date) ->
  ((date == start)%Q \/ forall jp, jp ∈ jobs -> (date <= sub jp + delay)%Q) ->
  wp allowed (submit_in_order storage_set w name jobs to_send date first)
    (fun _ d' _ => exists l, announcements name (sd_context d') = announcements name (sd_context d) ++ l /\
       concat l.*2 = to_send ++ jobs /\ Forall (on_time start) l) d s.
Proof.
  induction jobs as [|job jobs IH]; intros to_send date first d s Hdelay Henv Hall Hd Ht Hstart Hsort Hsend Hlate; cbn [submit_in_order].
  { eapply submit_jobs_step; [done|done|done|by rewrite Ht|]. intros d' s' _ _ (l & Hl & Hc & Hon). exists l. by rewrite app_nil_r. }
  destruct (proj2 Hd job) as (j & Hj & Hsub); [apply Hall; by left|].
  apply wp_mbind. eapply wp_read; [by apply the_job_Ok|]. apply wp_mbind. rewrite Hsub.
  apply StronglySorted_inv in Hsort as [Hsort Hle]. rewrite Forall_forall in Hle.
  (** What remains once the date is right. *)
  assert (forall to_send1 date1 d1 s1,
    dated all (sd_context d1) -> time_of d1 = date1 -> (start <= date1)%Q ->
    (forall jp, jp ∈ to_send1 -> shortly_after delay (Qmax start (sub jp)) date1) ->
    shortly_after delay (Qmax start (sub job)) date1 -> ((date1 == start)%Q \/ (date1 <= sub job + delay)%Q) ->
    wp allowed (do* store_job storage_set w j in
                do* (if first then note_first_submission else ret tt) in
                submit_in_order storage_set w name jobs (to_send1 ++ [job]) date1 false)
      (fun _ d' _ => exists l, announcements name (sd_context d') = announcements name (sd_context d1) ++ l /\
         concat l.*2 = to_send1 ++ job :: jobs /\ Forall (on_time start) l) d1 s1) as Hrest.
  { intros to_send1 date1 d1 s1 Hd1 Ht1 Hs1 Hsend1 Hjob Hlate1. apply wp_mbind. apply wp_read with (a := tt).
    { by rewrite (proj1 Hd1). }
    assert (forall d2, time_of d2 = time_of d1 -> c_options (sd_context d2) = c_options (sd_context d1) ->
      c_store (sd_context d2) = c_store (sd_context d1) ->
      announcements name (sd_context d2) = announcements name (sd_context d1) ->
      wp allowed (submit_in_order storage_set w name jobs (to_send1 ++ [job]) date1 false)
        (fun _ d' _ => exists l, announcements name (sd_context d') = announcements name (sd_context d1) ++ l /\
           concat l.*2 = to_send1 ++ job :: jobs /\ Forall (on_time start) l) d2 s1) as Hloop.
    { intros d2 Ht2 Ho2 Hst2 Ha2. eapply wp_mono; [eapply IH; try done|].
      - intros jp Hjp. apply Hall. by right.
      - unfold dated. rewrite Ho2, Hst2. exact Hd1.
      - by rewrite Ht2.
      - intros jp [Hjp| ->%list_elem_of_singleton]%elem_of_app; [by apply Hsend1|exact Hjob].
      - destruct Hlate1 as [?|Hd1']; [by left|right]. intros jp Hjp. specialize (Hle jp Hjp). lra.
      - cbn. intros _ d' _ (l & Hl & Hc & Hon). exists l. rewrite Hl, Ha2, Hc, <- app_assoc. done. }
    apply wp_mbind. destruct first; [|apply wp_ret; by apply Hloop].
    eapply wp_change; [done|]. cbn beta. apply Hloop; cbn; by destruct (_ <?q 0)%Q. }
  destruct (date <?q sub job)%Q eqn:Hcmp; qify.
  - apply wp_mbind. eapply submit_jobs_step; [done|done|done|by rewrite Ht|]. intros d1 s1 Ht1 Hd1 (l1 & Hl1 & Hc1 & Hon1).
    apply wp_mbind, wp_block. intros u d2 s2 Hal. apply wp_mbind. eapply wp_read; [done|]. apply wp_ret. cbn beta iota.
    assert (shortly_after delay (sub job) (time_of d2)) as Ht2.
    { pose proof (sleep_lasts _ _ (quiet_timely _ Henv) _ _ _ _ _ _ Hal ltac:(lra)) as Hsl. unfold shortly_after in *. rewrite Ht in *. lra. }
    eapply wp_mono; [apply (Hrest [] (time_of d2)); try done|].
    + by eapply dated_kept.
    + unfold shortly_after in Ht2. lra.
    + by intros jp Hjp%not_elem_of_nil.
    + unfold shortly_after. rewrite Q.max_r by lra. exact Ht2.
    + right. by destruct Ht2.
    + cbn. intros _ d' _ (l & Hl & Hc & Hon). exists (l1 ++ l).
      rewrite Hl, (announcements_kept _ Henv _ _ _ _ _ _ Hal), Hl1, app_assoc, fmap_app, concat_app, Hc1, Hc.
      split; [done|]. split; [done|]. by apply Forall_app_2.
  - apply wp_ret. cbn beta iota.
    assert ((date == start)%Q \/ (date <= sub job + delay)%Q) as Hlate1 by (destruct Hlate as [?|He]; [by left|right; apply He; by left]).
    apply Hrest; try done. unfold shortly_after. split; [by apply Q.max_lub|].
    pose proof (Q.le_max_l start (sub job)). pose proof (Q.le_max_r start (sub job)). destruct Hlate1; lra.
Qed.
End Static.

Lemma sorted_jobs_spec sub c (w : Workload) :
  dated sub (map_to_list (jobs_map (wl_jobs w))).*2 c ->
  exists jobs, sorted_jobs c w = Ok jobs /\ Permutation jobs (map_to_list (jobs_map (wl_jobs w))).*2 /\
    StronglySorted (fun a b => (sub a <= sub b)%Q) jobs.
Proof.
  intros [_ Hd]. unfold sorted_jobs. set (l := map_to_list (jobs_map (wl_jobs w))) in *.
  assert (exists js, mapM_r (fun mit : string * positive => j ← the_job c mit.2; Ok (mit.2, j)) l = Ok js /\ js.*1 = l.*2 /\
            Forall (fun pj : positive * Job IS => submission_time pj.2 = sub pj.1) js) as (js & -> & Hperm & Hdates).
  { clearbody l. induction l as [|[k jp] l IH]; [by exists []|]. cbn [mapM_r].
    destruct (Hd jp) as (j & Hj & Hsub); [by left|]. cbn [fst snd]. rewrite (proj2 (the_job_Ok _ _ _) Hj).
    destruct IH as (js & Hjs & Hp & Hf); [intros jp' Hjp'; apply Hd; by right|]. cbn. rewrite Hjs.
    exists ((jp, j) :: js). split; [done|]. split; [cbn; by rewrite Hp|]. by constructor. }
  cbn. eexists. split; [done|]. split; [by rewrite merge_sort_Permutation, Hperm|].
  rewrite <- (merge_sort_Permutation job_le js) in Hdates. clear Hperm.
  apply Sorted_StronglySorted; [intros x y z; apply Qle_trans|].
  pose proof (Sorted_merge_sort job_le js) as Hs. induction Hs as [|pj js' Hs IH Hle]; [constructor|].
  apply Forall_cons in Hdates as [Hpj Hdates]. cbn. constructor; [by apply IH|].
  destruct Hle as [|pj' js' Hle]; cbn; constructor. apply Forall_cons in Hdates as [Hpj' _].
  rewrite <- Hpj, <- Hpj'. by apply job_le_date.
Qed.

(** C12. The static submitter implements the timetable of its workload: whatever
    happens elsewhere, it ends, it has announced every job exactly once, in the
    order of the submission dates, none before its submission date and none later than
    [delay] after it (or after the start, which is when the server has received the
    hello, for the jobs that are already late), where [delay] bounds the time that the
    server takes to receive one message: the delays do not add up; its goodbye comes
    after all that. *)
Theorem static_job_submitter_follows_dates {S : Type}
    (allowed : S -> forall b : blocking IS Host, Data -> answer b -> Data -> S -> Prop) (delay : Q)
    (sub : positive -> Q) workload_name w d s :
  let name := submitter_of workload_name in
  let all := (map_to_list (jobs_map (wl_jobs w))).*2 in
  c_workloads (sd_context d) !! workload_name = Some w ->
  dated sub all (sd_context d) ->
  (0 <= delay)%Q -> quiet_env allowed delay name sub all -> hello_keeps_workload allowed name workload_name w d s ->
  wp allowed (static_job_submitter_process storage_set workload_name)
    (fun _ d' _ => exists l start,
       announcements name (sd_context d') = announcements name (sd_context d) ++ l /\
       Permutation (concat l.*2) all /\ StronglySorted (fun a b => (sub a <= sub b)%Q) (concat l.*2) /\
       shortly_after delay (time_of d) start /\ Forall (on_time delay sub start) l /\
       exists before m after, c_sent (sd_context d') = before ++ m :: after /\ sm_mailbox m = "server" /\
         sm_message m = mk_IPMessage SUBMITTER_BYE (SubmitterByeMessage name JOB_SUBMITTER false) /\
         omap (announcement name) after = []) d s.
Proof.
  intros name all Hw Hd Hdelay Henv Hkept. unfold static_job_submitter_process.
  apply wp_mbind. eapply wp_read; [by rewrite bool_decide_true by by eexists|].
  apply wp_mbind, send_wp. intros n u d1 s1 Hal. specialize (Hkept _ _ _ _ Hal).
  assert (announcements name (sd_context d1) = announcements name (sd_context d)) as Ha1.
  { rewrite (announcements_kept _ _ _ _ _ Henv _ _ _ _ _ _ Hal). unfold posted, send_message.
    change (sd_context (d <| sd_context ::= ?f |>)) with (f (sd_context d)). cbn beta. rewrite announcements_app. cbn. apply app_nil_r. }
  assert (shortly_after delay (time_of d) (time_of d1)) as Ht1 by exact (put_within _ _ (quiet_timely _ _ _ _ _ Henv) _ _ _ _ _ _ _ Hal).
  assert (dated sub all (sd_context d1)) as Hd1 by (eapply dated_kept; [exact Henv|exact Hal|exact Hd]).
  apply wp_mbind. eapply wp_read; [done|]. apply wp_mbind. eapply wp_read; [unfold Workloads_at; by rewrite Hkept|].
  destruct (sorted_jobs_spec sub (sd_context d1) w Hd1) as (jobs & Hjobs & Hperm & Hsort).
  apply wp_mbind. eapply wp_read; [exact Hjobs|]. apply wp_mbind.
  eapply wp_mono; [apply (submit_in_order_spec allowed delay name sub w all (now (sd_context d1))); try done|].
  - intros jp. by rewrite Hperm.
  - lra.
  - by intros jp Hjp%not_elem_of_nil.
  - by left.
  - cbn beta. intros _ d2 s2 (l & Hl & Hc & Hon). apply send_wp. intros n' u' d3 s3 Hal3. exists l, (time_of d1).
    rewrite (announcements_kept _ _ _ _ _ Henv _ _ _ _ _ _ Hal3). unfold posted, send_message.
    change (sd_context (d2 <| sd_context ::= ?f |>)) with (f (sd_context d2)). cbn beta.
    rewrite announcements_app, app_nil_r, Hl, Ha1, Hc. split; [done|]. split; [exact Hperm|]. split; [exact Hsort|].
    split; [exact Ht1|]. split; [exact Hon|].
    exact (bye_comes_last _ _ _ _ _ _ _ _ _ _ _ (quiet_timely _ _ _ _ _ Henv) Hal3 (announcements_kept _ _ _ _ _ Henv _ _ _ _ _ _ Hal3)).
Qed.
End Submitters.
