(* ===== verification/SubmittersExamples.v ===== *)
(** * The static submitter of a small workload

    The workload has a job submitted at the date 0 and one at the date 5; while the
    submitter sleeps or a message goes to the server, time passes and nothing else
    happens. *)

From Stdlib Require Import Qminmax.
From S2P Require Import Prelude Interfaces Profiles Jobs NumericStrcmp Outputs Machines Workload Tracers Ipp PState Writer NumberParsing Workflow Context Server Actors TaskExecution SwitchProcesses JobsExecution Submitters ServerFacts ServerExamples SubmittersFacts.

Module SubmittersExamples.
Import Concrete MachineExamples JobExamples WorkloadExamples ServerExamples.
#[local] Abbreviation Ctx := (BatsimContext (list Z) engine host json).
#[local] Abbreviation Data := (ServerData (list Z) engine host json).

Definition w0_2 : JobIdentifier := mk_JobIdentifier "w0" "2" "w0!2".
Definition late_job : Job (list Z) := a_job <| id := w0_2 |> <| submission_time := 5%Q |>.
Definition two_jobs : Workload :=
  mk_Workload "w0" "w0.json" (mk_Jobs {["w0!1" := 1%positive; "w0!2" := 2%positive]} {["w0!1"; "w0!2"]})
    {["d" := Some 1%positive]} true.
Definition data : Data :=
  initial_data (ctx <| c_workloads := {["w0" := two_jobs]} |>
                    <| c_store := mk_store {[1%positive := a_job; 2%positive := late_job]} profiles 3 2 |>).

Definition date_of (jp : positive) : Q := if decide (jp = 2%positive) then 5%Q else 0%Q.

(** Time passes while the submitter sleeps; a message takes 15 microseconds, the latency
    of the loopback of platforms/energy_platform.xml. *)
Definition latency : Q := 3 # 200000.
Definition later (t : Q) (d : Data) : Data :=
  d <| sd_context ::= fun c => c <| c_engine ::= fun e => mk_engine (e_clock e + t)%Q (e_pstates e) (e_energy e) |> |>.
Definition time_passes (s : unit) (b : blocking (list Z) host) (d : Data) (a : answer b) (d' : Data) (s' : unit) : Prop :=
  match b with
  | sleep_for t => d' = later t d
  | put_message _ _ => d' = later latency d
  | _ => False
  end.

Lemma jobs_of_two_jobs : (map_to_list (jobs_map (wl_jobs two_jobs))).*2 = [1; 2]%positive \/
  (map_to_list (jobs_map (wl_jobs two_jobs))).*2 = [2; 1]%positive.
Proof. vm_compute. tauto. Qed.

Lemma two_jobs_dated : dated date_of (map_to_list (jobs_map (wl_jobs two_jobs))).*2 (sd_context data).
Proof.
  split; [reflexivity|]. intros jp Hjp. assert (jp = 1%positive \/ jp = 2%positive) as [->| ->].
  { destruct jobs_of_two_jobs as [E|E]; rewrite E in Hjp; rewrite !elem_of_cons in Hjp;
      destruct Hjp as [->|[->|Hjp%not_elem_of_nil]]; [by left|by right|destruct Hjp|by right|by left|destruct Hjp]. }
  - exists a_job. split; reflexivity.
  - exists late_job. split; reflexivity.
Qed.

Lemma later_shortly_after d : shortly_after latency (time_of d) (time_of (later latency d)).
Proof.
  assert (time_of (later latency d) = (time_of d + latency)%Q) as -> by reflexivity. generalize (time_of d). intros date.
  unfold shortly_after, latency. lra.
Qed.

Lemma time_passes_quietly : quiet_env time_passes latency (submitter_of "w0") date_of (map_to_list (jobs_map (wl_jobs two_jobs))).*2.
Proof.
  constructor; [constructor|..]; unfold time_passes.
  - intros s t d u d' s' -> _. reflexivity.
  - intros s mbox n d u d' s' ->. apply later_shortly_after.
  - intros s b d a d' s'. exists []. rewrite app_nil_r. destruct b; try contradiction; by subst.
  - intros s b d a d' s'. destruct b; try contradiction; by intros ->.
  - intros s b d a d' s'. destruct b; try contradiction; by intros ->.
Qed.

Definition storage_set (key value : string) : result unit := Ok tt.
Definition sleeper : @oracle Data (list Z) host := fun b =>
  match b as b0 return Data -> answer b0 * Data with
  | sleep_for t => fun d => (tt, later t d)
  | execute _ => fun d => (tt, d)
  | wait_ptask _ _ _ _ => fun d => (PtaskFinished, d)
  | mailbox_get _ _ => fun d => (None, d)
  | mailbox_put _ _ => fun d => (tt, d)
  | put_message _ _ => fun d => (tt, later latency d)
  | await_message _ => fun d => (NoData, d)
  end.
Definition announced : option (list (Q * list positive)) :=
  match static_job_submitter_process storage_set "w0" data with
  | Ok (d, p) => match run 6 sleeper d p with
                 | Ok (d, _) => Some (List.map (fun a => (Qred a.1, a.2)) (announcements (submitter_of "w0") (sd_context d)))
                 | Err _ => None
                 end
  | Err _ => None
  end.

Example static_job_submitter_follows_dates_witness :
  announced = Some [(latency, [1%positive]); (Qred (5 + latency), [2%positive])] /\
  wp time_passes (static_job_submitter_process storage_set "w0")
    (fun _ d' _ => exists l start, announcements (submitter_of "w0") (sd_context d') = l /\
       Permutation (concat l.*2) (map_to_list (jobs_map (wl_jobs two_jobs))).*2 /\ shortly_after latency 0 start /\
       Forall (on_time latency date_of start) l) data tt.
Proof.
  split; [vm_compute; reflexivity|]. eapply wp_mono.
  - apply (static_job_submitter_follows_dates storage_set time_passes latency date_of "w0" two_jobs data tt);
      [vm_compute; reflexivity|exact two_jobs_dated|discriminate|exact time_passes_quietly|intros n u d' s' ->; reflexivity].
  - intros u d' s (l & start & Hl & Hperm & _ & Hstart & Hon & _). exists l, start. split; [exact Hl|]. split; [exact Hperm|].
    split; [exact Hstart|exact Hon].
Defined.
End SubmittersExamples.
