(* ===== verification/EventSubmitterFacts.v ===== *)
(** * The timetable of a list of events (theorems on src/event_submitter.cpp)

    The static submitter of events sends them in the order of their list, each at its
    date, or at the date reached when that is later. *)

From Stdlib Require Import Qminmax.
From S2P Require Import Prelude Interfaces Profiles Jobs NumericStrcmp Outputs Machines Workload Tracers Ipp PState Writer NumberParsing Workflow Context ContextFacts Server Actors TaskExecution SwitchProcesses JobsExecution Submitters ServerExamples SubmittersFacts SubmittersExamples.
#[local] Open Scope process_scope.

Section EventSubmitter.
Context {IS Engine Host V : Type} `{IntervalSet IS} `{SimGrid Engine Host} `{RapidJson V} `{BoostString}.
#[local] Abbreviation Ctx := (BatsimContext IS Engine Host V).
#[local] Abbreviation Data := (ServerData IS Engine Host V).
#[local] Abbreviation M := (Actors.M Data IS Host).
Implicit Types (c : Ctx) (d : Data) (e : Event IS).

(** ** The specification *)

(** The date of each event: its own, or the one reached before it. *)
Fixpoint timetable (date : Q) (events : list (Event IS)) : list (Q * Event IS) :=
  match events with
  | [] => []
  | e :: events =>
      let date := Qmax date (ev_timestamp e) in
      (date, e) :: timetable date events
  end.

(** When, and which events, the submitter of this name has sent. *)
Definition occurrence (name : string) (m : SentMessage IS Host) : option (Q * list (Event IS)) :=
  match msg_data (sm_message m) with
  | EventOccurredMessage n events => if String.eqb n name then Some (sm_date m, events) else None
  | _ => None
  end.
Definition occurrences (name : string) c : list (Q * list (Event IS)) := omap (occurrence name) (c_sent c).

(** The events sent, with the dates of their messages. *)
Definition dated_events (l : list (Q * list (Event IS))) : list (Q * Event IS) := l ≫= (fun a => (fun e => (a.1, e)) <$> a.2).

(** [delay] is how long the server takes at most to receive a message. *)
Context (delay : Q).

(** The event [a] is sent at the date of [b] in the timetable, or at most that much after. *)
Definition sent_for (a b : Q * Event IS) : Prop := shortly_after delay b.1 a.1 /\ a.2 = b.2.

Lemma sent_together (date : Q) (pending : list (Q * Event IS)) :
  Forall (fun b => shortly_after delay b.1 date) pending -> Forall2 sent_for ((fun e => (date, e)) <$> pending.*2) pending.
Proof. induction 1 as [|b pending Hb _ IH]; constructor; [by split|done]. Qed.

Lemma dated_events_app l l' : dated_events (l ++ l') = dated_events l ++ dated_events l'.
Proof. apply bind_app. Qed.

(** At most one message for each date, and none empty. *)
Record one_message_per_date (from : Q) (l : list (Q * list (Event IS))) : Prop := {
  dates_grow : StronglySorted Qlt l.*1;
  dates_from : Forall (fun a => (from <= a.1)%Q) l;
  none_empty : Forall (fun a => a.2 ≠ []) l;
}.

(** ** The submitter *)

Section Waits.
Context {S : Type} (allowed : S -> forall b : blocking IS Host, Data -> answer b -> Data -> S -> Prop).
Context (name : string).

(** Nobody else sends messages in the name of the submitter, or changes the lists of events. *)
Record quiet_events : Prop := {
  events_timely : timely_env allowed delay;
  occurrences_kept s b d a d' s' : allowed s b d a d' s' ->
    occurrences name (sd_context d') = occurrences name (sd_context d);
  lists_kept s b d a d' s' : allowed s b d a d' s' -> c_event_lists (sd_context d') = c_event_lists (sd_context d);
}.
Context (Henv : quiet_events).

Lemma occurrences_posted type m d :
  match m with EventOccurredMessage _ _ => False | _ => True end ->
  occurrences name (sd_context (posted "server" type m d)) = occurrences name (sd_context d).
Proof. intros Hm. unfold occurrences. cbn. rewrite omap_app. by destruct m; try done; cbn; rewrite app_nil_r. Qed.

Lemma send_events_step (events : list (Event IS)) d s (Q : unit -> Data -> S -> Prop) :
  (0 <= delay)%Q ->
  (forall d' s', shortly_after delay (time_of d) (time_of d') -> c_event_lists (sd_context d') = c_event_lists (sd_context d) ->
     occurrences name (sd_context d') = occurrences name (sd_context d) ++ match events with [] => [] | _ => [(time_of d, events)] end ->
     Q tt d' s') ->
  wp allowed (send_events_to_server events name) Q d s.
Proof.
  intros Hdelay HQ. destruct events as [|e events]; cbn [send_events_to_server].
  - apply wp_ret. apply HQ; [unfold shortly_after; lra|done|]. by rewrite app_nil_r.
  - apply send_wp. intros n u d' s' Hal. apply HQ.
    + exact (put_within _ _ (events_timely Henv) _ _ _ _ _ _ _ Hal).
    + exact (lists_kept Henv _ _ _ _ _ _ Hal).
    + rewrite (occurrences_kept Henv _ _ _ _ _ _ Hal). unfold occurrences. cbn. by rewrite omap_app; cbn; rewrite String.eqb_refl.
Qed.

(** The messages sent from the date [now_] on, when the timetable has reached [date] and
    its entries [pending] are waiting to be sent. *)
Definition sends (now_ date : Q) (pending : list (Q * Event IS)) (events : list (Event IS)) d d' : Prop :=
  exists l, occurrences name (sd_context d') = occurrences name (sd_context d) ++ l /\
    one_message_per_date now_ l /\
    Forall2 sent_for (dated_events l) (pending ++ timetable date events).

Lemma one_message_first (now_ later_ : Q) (to_send : list (Event IS)) l :
  (now_ < later_)%Q -> one_message_per_date later_ l ->
  one_message_per_date now_ (match to_send with [] => [] | _ => [(now_, to_send)] end ++ l).
Proof.
  intros Hlt [Hg Hf Hne].
  assert (Forall (fun a : Q * list (Event IS) => now_ < a.1)%Q l) as Hlater by (eapply Forall_impl; [exact Hf|]; cbn; intros; lra).
  assert (Forall (fun a : Q * list (Event IS) => now_ <= a.1)%Q l) as Hle by (eapply Forall_impl; [exact Hlater|]; cbn; intros; lra).
  destruct to_send as [|e0 to_send]; cbn [app]; constructor; try done.
  - cbn. constructor; [done|]. by apply Forall_fmap.
  - constructor; [cbn; lra|done].
  - by constructor.
Qed.

Lemma pending_sent (now_ : Q) (pending : list (Q * Event IS)) :
  Forall (fun b => shortly_after delay b.1 now_) pending ->
  Forall2 sent_for (dated_events (match pending.*2 with [] => [] | _ => [(now_, pending.*2)] end)) pending.
Proof.
  intros Hp. pose proof (sent_together _ _ Hp) as Hs. destruct pending as [|b pending]; [constructor|].
  change (Forall2 sent_for (((fun e => (now_, e)) <$> (b :: pending).*2) ++ []) (b :: pending)). by rewrite app_nil_r.
Qed.

Lemma occur_in_order_spec (events : list (Event IS)) : forall (pending : list (Q * Event IS)) (date now_ : Q) d s,
  (0 <= delay)%Q -> time_of d = now_ -> shortly_after delay date now_ ->
  Forall (fun b => shortly_after delay b.1 now_) pending ->
  wp allowed (occur_in_order name events pending.*2 now_) (fun _ d' _ => sends now_ date pending events d d') d s.
Proof.
  induction events as [|e events IH]; intros pending date now_ d s Hdelay Ht Hdate Hp; cbn [occur_in_order].
  { apply send_events_step; [done|]. intros d' s' _ _ Ho. eexists. split; [exact Ho|]. rewrite Ht, app_nil_r. split.
    - destruct pending; constructor; repeat constructor; [cbn; lra|done].
    - by apply pending_sent. }
  apply wp_mbind. cbn [timetable]. destruct (now_ <?q ev_timestamp e)%Q eqn:Hlt; qify.
  - apply wp_mbind, send_events_step; [done|]. intros d1 s1 Ht1 _ Ho1. apply wp_mbind, wp_block. intros u d2 s2 Hal.
    apply wp_mbind. eapply wp_read; [done|]. apply wp_ret. cbn beta iota.
    assert (Qmax date (ev_timestamp e) == ev_timestamp e)%Q as Em by (apply Q.max_r; unfold shortly_after in Hdate; lra).
    assert (shortly_after delay (Qmax date (ev_timestamp e)) (time_of d2)) as Ht2.
    { pose proof (sleep_lasts _ _ (events_timely Henv) _ _ _ _ _ _ Hal ltac:(lra)) as Hsl. unfold shortly_after in *.
      rewrite Em, Hsl. rewrite Ht in *. lra. }
    eapply wp_mono; [apply (IH [(Qmax date (ev_timestamp e), e)] (Qmax date (ev_timestamp e)) (time_of d2)); [done|done|done|by constructor]|].
    cbn beta. intros _ d' _ (l & Hl & Hone & Hs).
    exists (match pending.*2 with [] => [] | _ => [(now_, pending.*2)] end ++ l).
    rewrite Hl, (occurrences_kept Henv _ _ _ _ _ _ Hal), Ho1, Ht, <- app_assoc. split; [done|]. split.
    + eapply one_message_first; [|exact Hone]. unfold shortly_after in Ht2. rewrite Em in Ht2. lra.
    + rewrite dated_events_app. apply Forall2_app; [by apply pending_sent|exact Hs].
  - apply wp_ret. cbn beta iota.
    assert (shortly_after delay (Qmax date (ev_timestamp e)) now_) as Hdate'.
    { unfold shortly_after in *. split; [apply Q.max_lub; lra|]. pose proof (Q.le_max_l date (ev_timestamp e)). lra. }
    change (pending.*2 ++ [e]) with (pending.*2 ++ [(Qmax date (ev_timestamp e), e)].*2). rewrite <- fmap_app.
    eapply wp_mono; [apply (IH _ (Qmax date (ev_timestamp e))); [done|done|done|apply Forall_app_2; [done|by constructor]]|].
    cbn beta. intros _ d' _ (l & Hl & Ho & Hs). exists l. split; [done|]. split; [done|]. by rewrite <- app_assoc in Hs.
Qed.
End Waits.

(** C13. The submitter of events implements the timetable of its list: whatever happens
    elsewhere it ends, having sent every event once, in the order of the list, none
    before its date in the timetable, which is its own or the one reached before it
    from the start, and none later than [delay] after it, where [delay] bounds the time
    that the server takes to receive one message: the delays do not add up; there is at
    most one message for each date, never an empty one, and the goodbye comes after
    them.  The start is when the server has received the hello. *)
Theorem static_event_submitter_follows_dates {S : Type}
    (allowed : S -> forall b : blocking IS Host, Data -> answer b -> Data -> S -> Prop) eventList_name events d s :
  let name := submitter_of eventList_name in
  c_event_lists (sd_context d) !! eventList_name = Some events ->
  (0 <= delay)%Q -> quiet_events allowed name ->
  wp allowed (static_event_submitter_process eventList_name)
    (fun _ d' _ => exists l start,
       occurrences name (sd_context d') = occurrences name (sd_context d) ++ l /\
       shortly_after delay (time_of d) start /\
       one_message_per_date start l /\
       Forall2 sent_for (dated_events l) (timetable start events) /\
       exists before bye after, c_sent (sd_context d') = before ++ bye :: after /\ sm_mailbox bye = "server" /\
         sm_message bye = mk_IPMessage SUBMITTER_BYE (SubmitterByeMessage name EVENT_SUBMITTER false) /\
         omap (occurrence name) after = []) d s.
Proof.
  intros name Hl Hdelay Henv. unfold static_event_submitter_process.
  apply wp_mbind. eapply wp_read; [by rewrite bool_decide_true by by eexists|].
  apply wp_mbind, send_wp. intros n u d1 s1 Hal.
  pose proof (put_within _ _ (events_timely _ _ Henv) _ _ _ _ _ _ _ Hal) as Ht1.
  pose proof (lists_kept _ _ Henv _ _ _ _ _ _ Hal) as Hl1. pose proof (occurrences_kept _ _ Henv _ _ _ _ _ _ Hal) as Ho1.
  rewrite occurrences_posted in Ho1 by done.
  apply wp_mbind. eapply wp_read; [done|]. apply wp_mbind. eapply wp_read; [by rewrite Hl1; cbn; rewrite Hl|].
  apply wp_mbind. eapply wp_mono.
  { apply (occur_in_order_spec allowed name Henv events [] (time_of d1) (time_of d1)); [done|done|unfold shortly_after; lra|constructor]. }
  cbn beta. intros _ d2 s2 (l & Hl2 & Hg & Hs).
  apply send_wp. intros n' u' d3 s3 Hal3. exists l, (time_of d1). pose proof (occurrences_kept _ _ Henv _ _ _ _ _ _ Hal3) as Ho3.
  split; [by rewrite Ho3, occurrences_posted, <- Ho1|]. split; [exact Ht1|]. split; [exact Hg|]. split; [exact Hs|].
  exact (bye_comes_last _ _ _ _ _ _ _ _ _ _ _ (events_timely _ _ Henv) Hal3 Ho3).
Qed.
End EventSubmitter.

(** ** A small list of events *)

Module EventSubmitterExamples.
Import Concrete MachineExamples JobExamples WorkloadExamples ServerExamples SubmittersExamples.
#[local] Abbreviation Data := (ServerData (list Z) engine host json).

(** Two events have the same date and the last one is late. *)
Definition event (date : Q) (name : string) : Event (list Z) := mk_Event EVENT_GENERIC date (GenericEventData name).
Definition events : list (Event (list Z)) := [event 1 "a"; event 1 "b"; event 4 "c"; event 2 "d"].
Definition data : Data := initial_data (ctx <| c_event_lists := {["we0" := events]} |>).

Lemma time_passes_without_events : quiet_events latency time_passes (submitter_of "we0").
Proof.
  constructor; [exact (quiet_timely _ _ _ _ _ time_passes_quietly)|..]; unfold time_passes;
    intros s b d a d' s'; destruct b; try contradiction; by intros ->.
Qed.

Definition sent : option (list (Q * list (Event (list Z)))) :=
  match static_event_submitter_process "we0" data with
  | Ok (d, p) => match run 8 sleeper d p with
                 | Ok (d, _) => Some (List.map (fun a => (Qred a.1, a.2)) (occurrences (submitter_of "we0") (sd_context d)))
                 | Err _ => None
                 end
  | Err _ => None
  end.

Example static_event_submitter_follows_dates_witness :
  sent = Some [(1, [event 1 "a"; event 1 "b"]); (Qred (4 + latency), [event 4 "c"; event 2 "d"])]%Q /\
  wp time_passes (static_event_submitter_process "we0")
    (fun _ d' _ => exists l start, occurrences (submitter_of "we0") (sd_context d') = l /\ shortly_after latency 0 start /\
       Forall2 (sent_for latency) (dated_events l) (timetable start events)) data tt.
Proof.
  split; [vm_compute; reflexivity|]. eapply wp_mono.
  - apply (static_event_submitter_follows_dates latency time_passes "we0" events data tt);
      [vm_compute; reflexivity|discriminate|exact time_passes_without_events].
  - intros u d' s (l & start & Hl & Hstart & _ & Hs & _). exists l, start. split; [exact Hl|]. split; [exact Hstart|exact Hs].
Defined.
End EventSubmitterExamples.
