(* ===== verification/ReaderFacts.v ===== *)
(** * What the reader of the scheduler's messages guarantees (theorems on src/protocol.cpp)

    Each event becomes the messages of its type, in the order of the events and not
    before its date, and the last message says that the scheduler is ready; what a
    job or a profile registers is checked; the mapping of an allocation is exactly a
    numbering of the executors from 0. *)

From Stdlib Require Import Qminmax.
From S2P Require Import Prelude Interfaces Profiles Jobs NumericStrcmp Outputs Machines Workload Tracers Ipp PState Writer NumberParsing Workflow Context OutputFiles ContextFacts Server Actors TaskExecution SwitchProcesses JobsExecution Submitters Reader.
#[local] Open Scope process_scope.

(** ** Mappings *)

Lemma write_mapping_Ok nb l : forall k mapping,
  write_mapping nb k l = Ok mapping ->
  l = imap (fun i r => (k + Z.of_nat i, r)) mapping /\ Forall (fun r => 0 <= r < nb) mapping.
Proof.
  induction l as [|[e r] l IH]; intros k mapping; cbn [write_mapping].
  - by intros [= <-].
  - cbn [fst snd]. intros (u & Hk%xbt_assert_Ok & (u' & Hr%xbt_assert_Ok & (m & Hm & [= <-])%bind_Ok)%bind_Ok)%bind_Ok.
    apply Z.eqb_eq in Hk as ->. apply andb_true_iff in Hr as [Hr1%Z.leb_le Hr2%Z.ltb_lt].
    destruct (IH _ _ Hm) as [-> Hf]. split; [|by constructor]. cbn [imap]. rewrite Z.add_0_r. f_equal.
    apply imap_ext. intros i x _. cbn. f_equal. lia.
Qed.

Lemma write_mapping_total nb mapping : forall k,
  Forall (fun r => 0 <= r < nb) mapping ->
  write_mapping nb k (imap (fun i r => (k + Z.of_nat i, r)) mapping) = Ok mapping.
Proof.
  induction mapping as [|r mapping IH]; intros k Hf; [done|]. apply Forall_cons in Hf as [Hr Hf].
  cbn [imap write_mapping fst snd]. rewrite Z.add_0_r, Z.eqb_refl. cbn [xbt_assert]. rewrite Ok_bind.
  rewrite (proj2 (Z.leb_le 0 r)), (proj2 (Z.ltb_lt r nb)) by lia. cbn [andb xbt_assert]. rewrite Ok_bind.
  rewrite (imap_ext _ (fun i r => (k + 1 + Z.of_nat i, r))), IH; [done..|]. intros i x _. cbn. f_equal. lia.
Qed.

#[export] Instance executor_le_trans : Transitive executor_le.
Proof. intros a b c. unfold executor_le. lia. Qed.
#[export] Instance executor_le_total : Total executor_le.
Proof. intros a b. unfold executor_le. lia. Qed.

Lemma imap_executors_sorted mapping : forall k, Sorted executor_le (imap (fun i (r : Z) => (k + Z.of_nat i, r)) mapping).
Proof.
  induction mapping as [|r mapping IH]; intros k; cbn [imap]; [constructor|]. constructor.
  - rewrite (imap_ext _ (fun i r => (k + 1 + Z.of_nat i, r))); [apply IH|]. intros i x _. cbn. f_equal. lia.
  - destruct mapping; cbn; constructor. unfold executor_le. cbn. lia.
Qed.

(** C23. The mapping of an allocation is accepted exactly when its executors are the
    integers from 0, without a hole, and the resource of each is in the allocation;
    it is then the list of these resources, in the order of the executors. *)
Theorem mapping_is_a_numbering nb (mapping_map : gmap Z Z) mapping :
  write_mapping nb 0 (in_executor_order mapping_map) = Ok mapping <->
  Forall (fun r => 0 <= r < nb) mapping /\
  forall e, mapping_map !! e = if decide (0 <= e) then mapping !! Z.to_nat e else None.
Proof.
  set (numbered := imap (fun i (r : Z) => (0 + Z.of_nat i, r)) mapping).
  assert (forall e r, (e, r) ∈ numbered <-> 0 <= e /\ mapping !! Z.to_nat e = Some r) as Hnum.
  { intros e r. unfold numbered. rewrite list_elem_of_lookup. setoid_rewrite list_lookup_imap_Some. split.
    - intros (i & x & Hx & [= -> ->]). rewrite Z.add_0_l, Nat2Z.id. split; [lia|done].
    - intros [He Hr]. exists (Z.to_nat e), r. split; [done|]. f_equal. lia. }
  unfold in_executor_order. pose proof (merge_sort_Permutation executor_le (map_to_list mapping_map)) as Hperm. split.
  - intros (Heq & Hf)%write_mapping_Ok. split; [done|]. fold numbered in Heq. rewrite Heq in Hperm.
    intros e. apply option_eq. intros r. rewrite <- elem_of_map_to_list, <- Hperm, Hnum.
    destruct (decide (0 <= e)); naive_solver.
  - intros [Hf Hm]. assert (merge_sort executor_le (map_to_list mapping_map) = numbered) as ->;
      [|unfold numbered; by apply write_mapping_total].
    apply (Sorted_unique_strong executor_le); [|apply Sorted_merge_sort, _|apply imap_executors_sorted|].
    + intros [e r] [e' r'] Hin [He' Hr']%Hnum Hle Hge. unfold executor_le in Hle, Hge. cbn in Hle, Hge.
      assert (e = e') as -> by lia. rewrite Hperm, elem_of_map_to_list, Hm, decide_True in Hin by done. congruence.
    + rewrite Hperm. apply NoDup_Permutation; [apply NoDup_map_to_list|..].
      * apply NoDup_fmap_1 with (f := fst). unfold numbered. rewrite fmap_imap.
        apply NoDup_alt. intros i j e. rewrite !list_lookup_imap. unfold compose. cbn.
        destruct (mapping !! i), (mapping !! j); cbn; intros; simplify_eq; lia.
      * intros [e r]. rewrite elem_of_map_to_list, Hnum, Hm. destruct (decide (0 <= e)); naive_solver.
Qed.

Lemma Qmax_absorb a b : (Qmax (Qmax a b) b == Qmax a b)%Q.
Proof. apply Q.max_l, Q.le_max_r. Qed.

Section Reader.
Context {IS Engine Host V : Type} `{IntervalSet IS} `{SimGrid Engine Host} `{RapidJson V} `{BoostString} `{FileSystem}.
Context (str_find : string -> string -> bool) (replace_id : string -> string -> string).
Context (storage_get : string -> result string).
#[local] Abbreviation Ctx := (BatsimContext IS Engine Host V).
#[local] Abbreviation Data := (ServerData IS Engine Host V).
#[local] Abbreviation M := (Actors.M Data IS Host).
#[local] Abbreviation Message := (MessageData IS Host).
#[local] Abbreviation Msg := (IPMessage IS Host).
Implicit Types (c : Ctx) (d : Data) (timestamp : Q).

(** ** What a message of the scheduler means *)

(** What an event says does not depend on the simulation, but for the executions and
    the registrations. *)
Definition pure (f : V -> result Message) : V -> Ctx -> result (Message * Ctx) :=
  fun data_object c => m ← f data_object; Ok (m, c).

(** The types of events that are one message, and how its contents is read. *)
Definition message_types : list (string * (IPMessageType * (V -> Ctx -> result (Message * Ctx)))) :=
  [("REJECT_JOB", (SCHED_REJECT_JOB, pure read_reject_job));
   ("EXECUTE_JOB", (SCHED_EXECUTE_JOB, read_execute_job));
   ("CHANGE_JOB_STATE", (SCHED_CHANGE_JOB_STATE, pure read_change_job_state));
   ("CALL_ME_LATER", (SCHED_CALL_ME_LATER, pure read_call_me_later));
   ("KILL_JOB", (SCHED_KILL_JOB, pure read_kill_job));
   ("REGISTER_JOB", (JOB_REGISTERED_BY_DP, read_register_job str_find replace_id storage_get));
   ("REGISTER_PROFILE", (PROFILE_REGISTERED_BY_DP, read_register_profile));
   ("SET_RESOURCE_STATE", (PSTATE_MODIFICATION, pure read_set_resource_state));
   ("SET_JOB_METADATA", (SCHED_SET_JOB_METADATA, pure read_set_job_metadata));
   ("TO_JOB_MSG", (TO_JOB_MSG, pure read_to_job_msg))].

(** The messages of an event, given its type, its data and the state of the simulation,
    and the state with what the event registers. *)
Definition empty_message (type : IPMessageType) : Msg := mk_IPMessage type NoData.
Definition message_type (type : string) : option (IPMessageType * (V -> Ctx -> result (Message * Ctx))) :=
  snd <$> List.find (fun t => String.eqb t.1 type) message_types.

Definition messages_of (type : string) (data_object : V) c : result (list Msg * Ctx) :=
  match message_type type with
  | Some (t, contents) => '(m, c) ← contents data_object c; Ok ([mk_IPMessage t m], c)
  | None =>
      if String.eqb type "QUERY" then
        requests ← read_query data_object;
        types ← mapM_r read_request requests;
        Ok (empty_message <$> (types : list IPMessageType), c)
      else if String.eqb type "NOTIFY" then t ← read_notify data_object; Ok ([empty_message t], c)
      else Ok ([], c)
  end.

Definition event_messages (event_object : V) c : result (list Msg * Ctx) :=
  type ← require_string event_object "type";
  data_object ← member_at event_object "data";
  messages_of type data_object c.
Definition event_date (event_object : V) : Q :=
  match require_number event_object "timestamp" with Ok timestamp => timestamp | Err _ => 0%Q end.

(** ** Messages sent on time *)

(** [delay] is how long the server takes at most to receive a message. *)
Context (delay : Q).

(** Each message sent makes the following ones late by at most this delay. *)
Definition late (k : nat) : Q := (inject_Z (Z.of_nat k) * delay)%Q.

Lemma late_S k : (late (S k) == late k + delay)%Q.
Proof. unfold late. rewrite Nat2Z.inj_succ, <- Z.add_1_r, inject_Z_plus. change (inject_Z 1) with 1%Q. ring. Qed.

(** A message to send at a date, after [k] others. *)
Record Planned := mk_Planned { pl_date : Q; pl_before : nat; pl_message : Msg }.

(** The messages of an event. *)
Fixpoint plan (date : Q) (k : nat) (msgs : list Msg) : list Planned :=
  match msgs with [] => [] | m :: msgs => mk_Planned date k m :: plan date (S k) msgs end.

(** The message has been sent to the server, not before its date, and late at most by
    what the messages before it have taken. *)
Definition sent_as (m : SentMessage IS Host) (p : Planned) : Prop :=
  (pl_date p <= sm_date m /\ sm_date m <= pl_date p + late (pl_before p))%Q /\
  sm_mailbox m = "server" /\ sm_message m = pl_message p.

(** The types of the messages that the reader sends, and no other process. *)
Definition from_scheduler (type : IPMessageType) : bool :=
  match type with
  | SCHED_READY | SCHED_TELL_ME_ENERGY | SCHED_TELL_ME_CARBON_FOOTPRINT | SCHED_TELL_ME_WATER_FOOTPRINT
  | SCHED_REJECT_JOB | SCHED_EXECUTE_JOB | SCHED_CALL_ME_LATER | PSTATE_MODIFICATION | SCHED_SET_JOB_METADATA
  | SCHED_CHANGE_JOB_STATE | END_DYNAMIC_REGISTER | CONTINUE_DYNAMIC_REGISTER | TO_JOB_MSG | SCHED_KILL_JOB
  | JOB_REGISTERED_BY_DP | PROFILE_REGISTERED_BY_DP => true
  | _ => false
  end.
Definition is_from_scheduler (m : SentMessage IS Host) : bool := from_scheduler (msg_type (sm_message m)).

(** From [d] to [d'], exactly these messages of these types have been sent, in this
    order; the others may have sent messages among them. *)
Definition has_sent (l : list Planned) d d' : Prop :=
  exists everything, c_sent (sd_context d') = c_sent (sd_context d) ++ everything /\
    Forall2 sent_as (List.filter is_from_scheduler everything) l.

Lemma has_sent_nothing d d' : c_sent (sd_context d') = c_sent (sd_context d) -> has_sent [] d d'.
Proof. intros Hs. exists []. rewrite app_nil_r. split; [done|]. constructor. Qed.

Lemma has_sent_trans l1 l2 d1 d2 d3 : has_sent l1 d1 d2 -> has_sent l2 d2 d3 -> has_sent (l1 ++ l2) d1 d3.
Proof.
  intros (e1 & Hs1 & Hf1) (e2 & Hs2 & Hf2). exists (e1 ++ e2).
  rewrite Hs2, Hs1, app_assoc, List.filter_app. split; [done|]. by apply Forall2_app.
Qed.

Section Environment.
Context {S : Type} (allowed : S -> forall b : blocking IS Host, Data -> answer b -> Data -> S -> Prop).

(** A sleep lasts as long as asked, the server takes a message within [delay]; the others
    may send messages meanwhile, of other types. *)
Record sleeps : Prop := {
  delay_nonneg : (0 <= delay)%Q;
  sleep_duration s t d u d' s' : allowed s (sleep_for t) d u d' s' -> (0 <= t)%Q -> (time_of d' == time_of d + t)%Q;
  put_within_delay s mbox n d u d' s' : allowed s (put_message mbox n) d u d' s' ->
    (time_of d <= time_of d' /\ time_of d' <= time_of d + delay)%Q;
  others_send s b d a d' s' : allowed s b d a d' s' -> has_sent [] d d';
}.
Context (Henv : sleeps).

(** The reader posts a message, or what the engine and the others do while it waits. *)
Definition step d d' : Prop :=
  (exists type data, d' = posted "server" type data d) \/ (exists s b a s', allowed s b d a d' s').

(** *** The specification

    The messages that a list of events means from the date [date] on, after [k]
    messages: those of each event come at its date, or at the date reached before it,
    as the event is read in the state that the simulation has reached, and last comes,
    at the date [now], that the scheduler is ready. *)
Definition date_after (date timestamp : Q) (msgs : list Msg) : Q :=
  match msgs with [] => date | _ => Qmax date timestamp end.

Inductive meaning (now : Q) : Q -> nat -> list V -> Data -> list Planned -> Prop :=
  | meaning_ready date k d : meaning now date k [] d [mk_Planned (Qmax date now) k (mk_IPMessage SCHED_READY NoData)]
  | meaning_event date k event_object events d msgs c d1 l :
      event_messages event_object (sd_context d) = Ok (msgs, c) -> rtc step (d <| sd_context := c |>) d1 ->
      meaning now (date_after date (event_date event_object) msgs) (k + length msgs) events d1 l ->
      meaning now date k (event_object :: events) d (plan (Qmax date (event_date event_object)) k msgs ++ l).

(** *** Messages *)

(** The clock when [k] messages have been sent since the date [date]. *)
Definition around (date : Q) (k : nat) (clock : Q) : Prop := (date <= clock /\ clock <= date + late k)%Q.

Lemma around_max date k clock timestamp : around date k clock -> around (Qmax date timestamp) k (Qmax clock timestamp).
Proof.
  intros [Hle Hge]. split; [apply Q.max_le_compat_r; exact Hle|].
  assert (0 <= late k)%Q as Hk by (pose proof Hle; lra).
  apply Q.max_lub; [|pose proof (Q.le_max_r date timestamp); lra].
  pose proof (Q.le_max_l date timestamp). lra.
Qed.

(** These messages have been sent for the date [date], after [k] others. *)
Definition emits (date : Q) (k : nat) (msgs : list Msg) d d' : Prop :=
  has_sent (plan date k msgs) d d' /\ rtc step d d' /\
  if decide (msgs = []) then time_of d' = time_of d else around date (k + length msgs) (time_of d').

Lemma emits_nothing date k d : emits date k [] d d.
Proof. split; [by apply has_sent_nothing|]. split; [done|]. by rewrite decide_True. Qed.

Lemma send_message_at_time_spec timestamp type data date k d s :
  from_scheduler type = true -> around date k (Qmax (time_of d) timestamp) -> (timestamp <= date)%Q ->
  wlp allowed (send_message_at_time timestamp "server" type data)
    (fun _ d' _ => emits date k [mk_IPMessage type data] d d' /\ around date (k + 1) (Qmax (time_of d') timestamp)) d s.
Proof.
  intros Htype Harr Hdate. unfold send_message_at_time. apply wlp_mbind, wlp_read. intros clock [= <-]. apply wlp_mbind.
  apply wlp_mono with (Q := fun _ d' _ => has_sent [] d d' /\ rtc step d d' /\ around date k (time_of d')).
  - change (now (sd_context d)) with (time_of d). destruct (time_of d <?q timestamp)%Q eqn:Hlate; qify.
    + apply wlp_block. intros u d' s' Hal. split; [by eapply others_send|]. split; [apply rtc_once; right; by do 4 eexists|].
      unfold around in *. rewrite Q.max_r in Harr by lra. pose proof (sleep_duration Henv _ _ _ _ _ _ Hal ltac:(lra)) as Ht. lra.
    + apply wlp_ret. split; [by apply has_sent_nothing|]. split; [done|]. unfold around in *. by rewrite Q.max_l in Harr.
  - intros _ d' s' (Hs & Hr & Ht). apply send_wlp. intros n u d2 s2 Hal.
    destruct (put_within_delay Henv _ _ _ _ _ _ _ Hal) as [Hle Hge]. change (time_of (posted _ _ _ d')) with (time_of d') in Hle, Hge.
    assert (around date (k + 1) (time_of d2)) as Harr'.
    { unfold around in *. rewrite Nat.add_1_r, late_S. lra. }
    split; [|unfold around in *; rewrite Q.max_l by lra; done]. split; [|split].
    + change (plan date k _) with ([] ++ [mk_Planned date k (mk_IPMessage type data)] ++ []). eapply has_sent_trans; [exact Hs|].
      eapply has_sent_trans; [|by eapply others_send].
      eexists [_]. split; [done|]. cbn. unfold is_from_scheduler. cbn. rewrite Htype. constructor; [|constructor].
      split; [exact Ht|done].
    + etransitivity; [exact Hr|]. eapply rtc_l; [left; by do 2 eexists|]. apply rtc_once. right. by do 4 eexists.
    + rewrite decide_False by done. exact Harr'.
Qed.

(** *** The handlers *)

(** What a registration leaves as it is. *)
Definition same_clock_and_messages c c' : Prop := c_sent c' = c_sent c /\ c_engine c' = c_engine c.

Lemma register_profile_quiet workload_name w profile_name description c c' :
  register_profile workload_name w profile_name description c = Ok c' -> same_clock_and_messages c c'.
Proof. unfold register_profile. intros Hr. inv_ok. done. Qed.

Lemma additional_io_job_quiet job_id v c ptr s c' :
  additional_io_job job_id v c = Ok (ptr, s, c') -> same_clock_and_messages c c'.
Proof.
  unfold additional_io_job. intros Hr. inv_ok. destruct (HasMember v "profile"); [|inv_ok; done].
  destruct (Profiles_exists _ _) in *; [done|]. inv_ok. by eapply register_profile_quiet.
Qed.

Lemma read_execute_job_quiet data_object c m c' :
  read_execute_job data_object c = Ok (m, c') -> same_clock_and_messages c c'.
Proof.
  unfold read_execute_job. intros Hr. inv_ok. destruct (FindMember data_object "additional_io_job"); inv_ok; [|done].
  by eapply additional_io_job_quiet.
Qed.

Lemma read_register_job_quiet data_object c m c' :
  read_register_job str_find replace_id storage_get data_object c = Ok (m, c') -> same_clock_and_messages c c'.
Proof. unfold read_register_job, register_job. intros Hr. inv_ok. by simplify_eq. Qed.

Lemma read_register_profile_quiet data_object c m c' :
  read_register_profile data_object c = Ok (m, c') -> same_clock_and_messages c c'.
Proof.
  unfold read_register_profile, workload_of_profile. intros Hr. inv_ok.
  destruct (Profiles_exists _ _) in *; [done|]. destruct (Workloads_exists _ _) in *; inv_ok; simplify_eq;
    match goal with Hp : register_profile _ _ _ _ _ = Ok _ |- _ => apply (register_profile_quiet _ _ _ _ _ _ Hp) end.
Qed.


Lemma request_type_from name type : request_type name = Ok type -> from_scheduler type = true.
Proof. unfold request_type. repeat (destruct (String.eqb _ _); [by intros [= <-]|]). done. Qed.

Lemma request_from request type : read_request request = Ok type -> from_scheduler type = true.
Proof. unfold read_request. intros Hr. inv_ok. simplify_eq. by eapply request_type_from. Qed.

Lemma answer_requests_spec timestamp requests date : forall k d s,
  around date k (Qmax (time_of d) timestamp) -> (timestamp <= date)%Q ->
  wlp allowed (answer_requests timestamp requests)
    (fun _ d' _ => exists types, mapM_r read_request requests = Ok types /\
       emits date k (empty_message <$> types) d d') d s.
Proof.
  induction requests as [|request requests IH]; intros k d s Harr Hdate; cbn [answer_requests].
  - apply wlp_ret. exists []. split; [done|apply emits_nothing].
  - apply wlp_mbind, wlp_read. intros type Htype. apply wlp_mbind.
    eapply wlp_mono; [apply send_message_at_time_spec; [by eapply request_from|exact Harr|done]|].
    cbn beta. intros _ d1 s1 [(Hs1 & Hr1 & Ht1) Harr1]. rewrite decide_False in Ht1 by done. cbn [length] in Ht1.
    eapply wlp_mono; [by apply (IH (k + 1)%nat)|]. cbn beta. intros _ d2 s2 (types & Htypes & Hs2 & Hr2 & Ht2).
    exists (type :: types). cbn [mapM_r]. rewrite Htype, Ok_bind, Htypes. split; [done|]. split; [|split].
    + rewrite Nat.add_1_r in Hs2. exact (has_sent_trans [_] _ _ _ _ Hs1 Hs2).
    + by etransitivity.
    + rewrite decide_False by done. cbn [fmap list_fmap length]. rewrite length_fmap in *. destruct types as [|t types]; cbn in *.
      * by rewrite Ht2.
      * by replace (k + Datatypes.S (Datatypes.S (length types)))%nat with (k + 1 + Datatypes.S (length types))%nat by lia.
Qed.

(** What the handler of an event of this type does: the messages of the event, as they
    are read in the state that it finds. *)
Definition handled (type : string) (data_object : V) date k d d' : Prop :=
  exists msgs c, messages_of type data_object (sd_context d) = Ok (msgs, c) /\
    same_clock_and_messages (sd_context d) c /\ emits date k msgs (d <| sd_context := c |>) d'.

Lemma handler_with_ctx timestamp type (f : Ctx -> result (Message * Ctx)) date k d s :
  from_scheduler type = true ->
  (forall m c', f (sd_context d) = Ok (m, c') -> same_clock_and_messages (sd_context d) c') ->
  around date k (Qmax (time_of d) timestamp) -> (timestamp <= date)%Q ->
  wlp allowed (let* message := with_ctx f in send_message_at_time timestamp "server" type message)
    (fun _ d' _ => exists m c, f (sd_context d) = Ok (m, c) /\ same_clock_and_messages (sd_context d) c /\
       emits date k [mk_IPMessage type m] (d <| sd_context := c |>) d') d s.
Proof.
  intros Htype Hf Harr Hdate. apply wlp_mbind. intros d1 p Hp. unfold with_ctx in Hp.
  apply bind_Ok in Hp as ([m c'] & Hm & [= <- <-]). destruct (Hf _ _ Hm) as [Hs Ht]. constructor.
  eapply wlp_mono; [apply send_message_at_time_spec; [done| |done]|].
  - unfold time_of, now. cbn. rewrite Ht. exact Harr.
  - cbn beta. intros _ d' _ [Hemit _]. exists m, c'. split; [done|]. by split.
Qed.

Lemma handler_read timestamp type (f : Data -> result Message) date k d s :
  from_scheduler type = true -> around date k (Qmax (time_of d) timestamp) -> (timestamp <= date)%Q ->
  wlp allowed (let* message := read f in send_message_at_time timestamp "server" type message)
    (fun _ d' _ => exists m, f d = Ok m /\ emits date k [mk_IPMessage type m] d d') d s.
Proof.
  intros Htype Harr Hdate. apply wlp_mbind, wlp_read. intros m Hm.
  eapply wlp_mono; [by apply send_message_at_time_spec|]. cbn beta. intros _ d' _ [Hemit _]. by exists m.
Qed.

Lemma same_context d : d <| sd_context := sd_context d |> = d.
Proof. by destruct d. Qed.

(** The messages that are read without the state. *)
Lemma handled_pure type data_object t (f : V -> result Message) date k d d' m :
  message_type type = Some (t, pure f) ->
  f data_object = Ok m -> emits date k [mk_IPMessage t m] d d' -> handled type data_object date k d d'.
Proof.
  intros Hf Hm He. exists [mk_IPMessage t m], (sd_context d). unfold messages_of. rewrite Hf. unfold pure. rewrite Hm.
  split; [done|]. split; [done|]. by rewrite same_context.
Qed.

Lemma handled_with_ctx type data_object t f date k d d' m c :
  message_type type = Some (t, f) ->
  f data_object (sd_context d) = Ok (m, c) -> same_clock_and_messages (sd_context d) c ->
  emits date k [mk_IPMessage t m] (d <| sd_context := c |>) d' -> handled type data_object date k d d'.
Proof. intros Hf Hm Hc He. exists [mk_IPMessage t m], c. unfold messages_of. rewrite Hf, Hm. by split. Qed.

Lemma handler_spec type handler timestamp data_object date k d s :
  handler_of str_find replace_id storage_get type = Some handler ->
  around date k (Qmax (time_of d) timestamp) -> (timestamp <= date)%Q ->
  wlp allowed (handler timestamp data_object) (fun _ d' _ => handled type data_object date k d d') d s.
Proof.
  unfold handler_of. cbn [type_to_handler_map List.find fst snd].
  repeat lazymatch goal with
  | |- context [String.eqb ?name type] => destruct (String.eqb_spec name type) as [<-|_]
  end; [..|done]; intros [= <-] Harr Hdate;
    try (eapply wlp_mono; [by apply handler_read|]; cbn beta; intros _ d' _ (m & Hm & He); by eapply handled_pure).
  - apply wlp_mbind, wlp_read. intros requests Hq. eapply wlp_mono; [by apply answer_requests_spec|]. cbn beta.
    intros _ d' _ (types & Htypes & He). exists (empty_message <$> types), (sd_context d).
    split; [|split; [done|by rewrite same_context]]. change (messages_of "QUERY" data_object (sd_context d)) with
      (requests ← read_query data_object; types ← mapM_r read_request requests; Ok (empty_message <$> (types : list IPMessageType), sd_context d)).
    by rewrite Hq, Ok_bind, Htypes.
  - apply wlp_read. intros u _. exists [], (sd_context d). rewrite same_context. split; [done|]. split; [done|apply emits_nothing].
  - eapply wlp_mono; [apply handler_with_ctx; [done| |done..]|].
    + intros m c' Hm. by apply read_execute_job_quiet in Hm.
    + cbn beta. intros _ d' _ (m & c & Hm & Hc & He). by eapply handled_with_ctx.
  - eapply wlp_mono; [apply handler_with_ctx; [done| |done..]|].
    + intros m c' Hm. by apply read_register_job_quiet in Hm.
    + cbn beta. intros _ d' _ (m & c & Hm & Hc & He). by eapply handled_with_ctx.
  - eapply wlp_mono; [apply handler_with_ctx; [done| |done..]|].
    + intros m c' Hm. by apply read_register_profile_quiet in Hm.
    + cbn beta. intros _ d' _ (m & c & Hm & Hc & He). by eapply handled_with_ctx.
  - apply wlp_mbind, wlp_read. intros t Ht.
    eapply wlp_mono; [apply send_message_at_time_spec; [|exact Harr|done]|].
    + unfold read_notify in Ht. inv_ok. repeat destruct (String.eqb _ _) in *; inv_ok; by simplify_eq.
    + cbn beta. intros _ d' _ [He _]. exists [empty_message t], (sd_context d).
      split; [|split; [done|by rewrite same_context]].
      change (messages_of "NOTIFY" data_object (sd_context d)) with (t ← read_notify data_object; Ok ([empty_message t], sd_context d)).
      by rewrite Ht.
Qed.

Lemma read_event_Ok event_object now timestamp handler data_object :
  read_event str_find replace_id storage_get event_object now = Ok (timestamp, handler, data_object) ->
  event_date event_object = timestamp /\ (timestamp <= now)%Q /\
  exists type, require_string event_object "type" = Ok type /\ FindMember event_object "data" = Some data_object /\
    handler_of str_find replace_id storage_get type = Some handler.
Proof.
  unfold read_event. intros Hr. inv_ok. simplify_eq. unfold event_date.
  match goal with Ht : require_number _ _ = Ok _ |- _ => rewrite Ht end. split; [done|]. split; [by qify|].
  eexists. split; [done|]. split; [by apply member_at_Ok|done].
Qed.

Lemma parse_and_apply_events_spec now events : forall date k d s,
  around date k (time_of d) ->
  wlp allowed (parse_and_apply_events str_find replace_id storage_get events now)
    (fun _ d' _ => exists l date' k', has_sent l d d' /\ around date' k' (time_of d') /\
       meaning now date k events d (l ++ [mk_Planned (Qmax date' now) k' (mk_IPMessage SCHED_READY NoData)])) d s.
Proof.
  induction events as [|event_object events IH]; intros date k d s Hdate; cbn [parse_and_apply_events].
  - apply wlp_ret. exists [], date, k. split; [by apply has_sent_nothing|]. split; [done|constructor].
  - apply wlp_mbind. unfold parse_and_apply_event. apply wlp_mbind, wlp_read. intros [[timestamp handler] data_object] Hread.
    destruct (read_event_Ok _ _ _ _ _ Hread) as (Htime & _ & type & Htype & Hdata & Hhandler). subst timestamp.
    eapply wlp_mono; [apply (handler_spec type _ _ _ (Qmax date (event_date event_object)) k); [done| |apply Q.le_max_r]|].
    { by apply around_max. }
    cbn beta. intros _ d1 s1 (msgs & c & Hmes & [Hsent Hclock] & Hs1 & Hr1 & Ht1).
    assert (around (date_after date (event_date event_object) msgs) (k + length msgs) (time_of d1)) as Harr1.
    { destruct msgs as [|m msgs]; cbn [date_after]; [|exact Ht1]. rewrite Ht1. cbn [length]. rewrite Nat.add_0_r.
      unfold time_of, Context.now. cbn. rewrite Hclock. exact Hdate. }
    eapply wlp_mono; [by apply (IH _ _ _ _ Harr1)|]. cbn beta. intros _ d2 s2 (l & date' & k' & Hl & Ht2 & Hmean).
    exists (plan (Qmax date (event_date event_object)) k msgs ++ l), date', k'.
    split; [|split; [done|]].
    + eapply has_sent_trans; [|exact Hl]. destruct Hs1 as (e & He & Hf). exists e. cbn in He. by rewrite He, Hsent.
    + rewrite <- app_assoc. eapply meaning_event; [|exact Hr1|exact Hmean].
      unfold event_messages. rewrite Htype, Ok_bind. unfold member_at. rewrite Hdata. exact Hmes.
Qed.

(** C11. The reader implements the timetable that the scheduler's message gives: when
    it ends, it has sent exactly the messages of the events, in their order and with the
    contents that each event gives, read in the state reached then, and last that the
    scheduler is ready; each is sent at the date of its event, or at the date reached
    when that is later, and late at most by what the server took to receive the messages
    before it; while the reader waits the others may send messages of other types. *)
Theorem parse_and_apply_message_follows_events message now events d s :
  read_message message = Ok (now, events) ->
  wlp allowed (parse_and_apply_message str_find replace_id storage_get message)
    (fun _ d' _ => exists l, meaning now (time_of d) 0 events d l /\ has_sent l d d') d s.
Proof.
  intros Hm. unfold parse_and_apply_message. apply wlp_mbind, wlp_read. intros [now' events'] Hm'.
  rewrite Hm in Hm'. injection Hm' as <- <-. apply wlp_mbind.
  eapply wlp_mono; [apply (parse_and_apply_events_spec now events (time_of d) 0)|].
  { split; [lra|]. unfold late. change (inject_Z (Z.of_nat 0)) with 0%Q. lra. }
  cbn beta. intros _ d1 s1 (l & date' & k & Hl & Ht1 & Hmean).
  eapply wlp_mono; [apply (send_message_at_time_spec now SCHED_READY NoData (Qmax date' now) k); [done| |apply Q.le_max_r]|].
  { by apply around_max. }
  cbn beta. intros _ d2 s2 [(Hready & _) _].
  eexists. split; [exact Hmean|]. eapply has_sent_trans; [exact Hl|exact Hready].
Qed.
End Environment.

(** ** Events that are refused *)

Lemma handler_of_known type handler :
  handler_of (IS := IS) (Engine := Engine) (Host := Host) (V := V) str_find replace_id storage_get type = Some handler ->
  type ∈ (type_to_handler_map (IS := IS) (Engine := Engine) (Host := Host) (V := V) str_find replace_id storage_get).*1.
Proof.
  unfold handler_of. destruct (List.find _ _) as [[name h]|] eqn:Hf; [|done]. intros [= <-].
  apply List.find_some in Hf as [Hin%list_elem_of_In Heq%String.eqb_eq]. cbn in Heq. subst name.
  apply list_elem_of_fmap. by exists (type, h).
Qed.

(** An event dated after the message, of an unknown type, or without its date,
    its type or its data, stops the simulation before anything is done of it. *)
Theorem bad_event_aborts event_object now d :
  (forall timestamp, require_number event_object "timestamp" = Ok timestamp -> (now < timestamp)%Q) \/
  (forall type, require_string event_object "type" = Ok type ->
     type ∉ (type_to_handler_map (IS := IS) (Engine := Engine) (Host := Host) str_find replace_id storage_get).*1) \/
  FindMember event_object "data" = None ->
  exists e, parse_and_apply_event (IS := IS) (Engine := Engine) (Host := Host) str_find replace_id storage_get event_object now d = Err e.
Proof.
  intros Hbad. unfold parse_and_apply_event, mbind, read.
  destruct (read_event str_find replace_id storage_get event_object now) as [[[timestamp handler] data_object]|e] eqn:Hread;
    [exfalso|by exists e].
  unfold read_event in Hread. inv_ok. simplify_eq. destruct Hbad as [Hbad|[Hbad|Hbad]].
  - match goal with Ht : require_number _ _ = Ok _ |- _ => specialize (Hbad _ Ht) end. qify. lra.
  - match goal with Ht : require_string _ _ = Ok _ |- _ => apply (Hbad _ Ht) end. by eapply handler_of_known.
  - match goal with Hm : member_at _ _ = Ok _ |- _ => apply member_at_Ok in Hm end. congruence.
Qed.

(** ** What a registration adds *)

Definition plain (job_id : JobIdentifier) : Prop :=
  ji_representation job_id = representation (ji_workload_name job_id) (ji_job_name job_id).

Lemma of_names_plain w j job_id : JobIdentifier_of_names w j = Ok job_id -> plain job_id.
Proof. by intros [_ ->]%JobIdentifier_of_names_Ok. Qed.

Lemma of_string_plain s job_id : JobIdentifier_of_string s = Ok job_id -> plain job_id.
Proof.
  unfold JobIdentifier_of_string. destruct (split_compress "!" s) as [|w [|j [|? ?]]]; try done. apply of_names_plain.
Qed.

Lemma Job_from_json_str_plain w ps description (j : Job IS) :
  Job_from_json_str str_find replace_id w ps description = Ok j -> plain (id j).
Proof.
  unfold Job_from_json_str. destruct (parse_json description) as [doc|]; [|done]. unfold Job_from_json. intros Hj. inv_ok.
  match goal with Hid : job_id_of_json _ _ _ = Ok _ |- _ => unfold job_id_of_json in Hid end. inv_ok. cbn.
  destruct (negb _); [by eapply of_names_plain|by eapply of_string_plain].
Qed.

Lemma register_job_Ok job_id description c jp c' :
  plain job_id -> register_job str_find replace_id job_id description c = Ok (jp, c') ->
  exists w j, c_workloads c !! ji_workload_name job_id = Some w /\ (ji_to_string job_id ∉ jobs_met (wl_jobs w)) /\
    Job_from_json_str str_find replace_id (wl_name w) (wl_profiles w) description = Ok j /\ id j = job_id /\
    jp = s_next_job (c_store c) /\ is_Some (s_profiles (c_store c) !! profile j) /\
    s_jobs (c_store c') = <[jp := j <| state := JOB_STATE_SUBMITTED |>]> (s_jobs (c_store c)) /\ s_profiles (c_store c') = s_profiles (c_store c) /\
    c_workloads c' = <[ji_workload_name job_id := w <| wl_jobs := mk_Jobs (<[ji_to_string job_id := jp]> (jobs_map (wl_jobs w)))
                                        ({[ji_to_string job_id]} ∪ jobs_met (wl_jobs w)) |>]> (c_workloads c) /\
    c_options c' = c_options c.
Proof.
  unfold register_job. intros Hplain Hr. inv_ok. simplify_eq.
  match goal with
  | Hw : Workloads_at _ _ = Ok ?w, Hj : Job_from_json_str _ _ _ _ _ = Ok ?j, Ha : add_job _ _ _ = Ok _ |- _ =>
      apply of_option_Ok in Hw; pose proof (Job_from_json_str_plain _ _ _ _ Hj) as Hpj; exists w, j;
      unfold add_job in Ha
  end. inv_ok.
  match goal with
  | E1 : String.eqb (ji_job_name _) _ = true, E2 : String.eqb (ji_workload_name _) _ = true |- _ =>
      apply String.eqb_eq in E1, E2; unfold plain in *; rewrite E1, E2, <- Hplain in Hpj
  end.
  match goal with E1 : ji_job_name (id ?j) = _, E2 : ji_workload_name (id ?j) = _ |- _ =>
    assert (id j = job_id) as Hid by (destruct (id j), job_id; cbn in *; congruence) end.
  unfold Jobs_exists in *. rewrite Hid in *. inv_ok. split_and!; try done.
  match goal with Hc : check_single_job_validity _ _ _ = Ok _ |- _ => unfold check_single_job_validity in Hc; inv_ok end.
  match goal with Hd : deref_profile _ _ = Ok _ |- _ => apply of_option_Ok in Hd; by eexists end.
Qed.

Lemma read_register_job_inv data_object c m c' :
  read_register_job str_find replace_id storage_get data_object c = Ok (m, c') ->
  exists s job_id description jp, require_string data_object "job_id" = Ok s /\ JobIdentifier_of_string s = Ok job_id /\
    job_description_of storage_get job_id data_object c = Ok description /\
    registration_sched_enabled (c_options c) = true /\ c_registration_sched_finished c = false /\
    m = JobRegisteredByDPMessage jp description /\ register_job str_find replace_id job_id description c = Ok (jp, c').
Proof. unfold read_register_job, check_registration. intros Hr. inv_ok. simplify_eq. by do 4 eexists. Qed.

(** The jobs of a workload with one more. *)
Definition with_registered (js : Jobs) (job_id : JobIdentifier) (jp : positive) : Jobs :=
  mk_Jobs (<[ji_to_string job_id := jp]> (jobs_map js)) ({[ji_to_string job_id]} ∪ jobs_met js).

(** C27. The registration of a job, when it is accepted: the option is enabled and the
    registrations are not over; the identifier given by the data is not known in its
    workload, which exists; the job that the description gives has this identifier and
    an existing profile; it is added, submitted, to its workload under this identifier,
    before any message is sent; no other job, workload or profile changes; the message
    for the server holds this job and its description; registering the identifier
    again aborts. *)
Theorem register_job_spec data_object c m c' :
  read_register_job str_find replace_id storage_get data_object c = Ok (m, c') ->
  exists s job_id jp j w description,
    registration_sched_enabled (c_options c) = true /\ c_registration_sched_finished c = false /\
    require_string data_object "job_id" = Ok s /\ JobIdentifier_of_string s = Ok job_id /\
    job_description_of storage_get job_id data_object c = Ok description /\
    m = JobRegisteredByDPMessage jp description /\ jp = s_next_job (c_store c) /\
    c_workloads c !! ji_workload_name job_id = Some w /\ (ji_to_string job_id ∉ jobs_met (wl_jobs w)) /\
    Job_from_json_str str_find replace_id (wl_name w) (wl_profiles w) description = Ok j /\ id j = job_id /\
    is_Some (s_profiles (c_store c) !! profile j) /\
    s_jobs (c_store c') = <[jp := j <| state := JOB_STATE_SUBMITTED |>]> (s_jobs (c_store c)) /\
    s_profiles (c_store c') = s_profiles (c_store c) /\
    c_workloads c' = <[ji_workload_name job_id := w <| wl_jobs ::= fun js => with_registered js job_id jp |>]> (c_workloads c) /\
    job_at (c_workloads c') job_id = Ok jp /\ same_clock_and_messages c c' /\
    exists e, read_register_job str_find replace_id storage_get data_object c' = Err e.
Proof.
  intros Hr. pose proof (read_register_job_quiet _ _ _ _ Hr) as Hquiet.
  apply read_register_job_inv in Hr as (s & job_id & description & jp & Hs & Hid & Hdesc & Hen & Hfin & -> & Hreg).
  pose proof (of_string_plain _ _ Hid) as Hplain.
  destruct (register_job_Ok _ _ _ _ _ Hplain Hreg) as (w & j & Hw & Hmet & Hj & Hjid & -> & Hp & Hjobs & Hprof & Hws & Hopt).
  exists s, job_id, (s_next_job (c_store c)), j, w, description. split_and!; try done.
  { unfold job_at, Workloads_at. rewrite Hws, lookup_insert_eq. cbn [of_option]. rewrite Ok_bind. unfold Jobs_at. cbn.
    by rewrite lookup_insert_eq. }
  destruct (read_register_job str_find replace_id storage_get data_object c') as [[m2 c2]|e] eqn:Hagain; [exfalso|by exists e].
  apply read_register_job_inv in Hagain as (s2 & i2 & description2 & jp2 & Hs2 & Hid2 & _ & _ & _ & _ & Hreg2).
  rewrite Hs in Hs2. injection Hs2 as <-. rewrite Hid in Hid2. injection Hid2 as <-.
  destruct (register_job_Ok _ _ _ _ _ Hplain Hreg2) as (w2 & j2 & Hw2 & Hmet2 & _).
  rewrite Hws, lookup_insert_eq in Hw2. injection Hw2 as <-. apply Hmet2. cbn. apply elem_of_union. left.
  by apply elem_of_singleton.
Qed.

(** ** Executions *)

Lemma FindMember_key (v : V) key x : FindMember v key = Some x -> key ∈ (members v).*1.
Proof.
  unfold FindMember. induction (members v) as [|[k y] l IH]; [done|]. cbn.
  destruct (String.eqb_spec k key) as [->|_]; [by left|]. intros Hf. right. by apply IH.
Qed.

Lemma HasMember_key (v : V) key : HasMember v key = true -> key ∈ (members v).*1.
Proof. unfold HasMember. destruct (FindMember v key) eqn:Hf; [intros _; by eapply FindMember_key|done]. Qed.

(** How many optional parts the data of an execution has. *)
Definition optional_parts (data_object : V) : Z :=
  count_if (HasMember data_object) ["mapping"; "storage_mapping"; "additional_io_job"].

Lemma optional_parts_length (v : V) :
  "job_id" ∈ (members v).*1 -> "alloc" ∈ (members v).*1 -> 2 + optional_parts v <= MemberCount v.
Proof.
  intros Hj Ha. unfold MemberCount. rewrite <- (length_fmap fst).
  assert (forall keys : list string, NoDup keys -> (forall k, k ∈ keys -> k ∈ (members v).*1) ->
    Z.of_nat (length keys) <= Z.of_nat (length (members v).*1)) as Hlen.
  { intros keys Hnd Hin. apply inj_le, submseteq_length, NoDup_submseteq; [done|]. exact Hin. }
  set (present := List.filter (HasMember v) ["mapping"; "storage_mapping"; "additional_io_job"]).
  assert (2 + optional_parts v = Z.of_nat (length ("job_id" :: "alloc" :: present))) as ->.
  { unfold optional_parts, present. cbn. by repeat destruct (HasMember v _). }
  apply Hlen.
  - unfold present. cbn. repeat destruct (HasMember v _); apply (bool_decide_unpack _); vm_compute; exact I.
  - intros k. rewrite !elem_of_cons. intros [->|[->|Hk]]; [done..|]. apply list_elem_of_In, List.filter_In in Hk as [_ Hk].
    by apply HasMember_key.
Qed.

Lemma read_mapping_bounds nb data_object mapping :
  read_mapping nb data_object = Ok mapping -> Forall (fun r => 0 <= r < nb) mapping.
Proof.
  unfold read_mapping. destruct (HasMember data_object "mapping"); intros Hr; inv_ok; [|constructor].
  match goal with Hw : write_mapping _ _ _ = Ok _ |- _ => by apply write_mapping_Ok in Hw as [_ ?] end.
Qed.

Lemma require_string_key (v : V) key x : require_string v key = Ok x -> key ∈ (members v).*1.
Proof. unfold require_string. intros (y & [Hf _]%require_member_Ok & _)%bind_Ok. by eapply FindMember_key. Qed.

(** C33. An execution that is accepted: the job is known, at least one resource is
    allocated, each executor uses one of them, and nothing is registered when no
    additional job is given; but the data cannot have more than one of its optional
    parts, the mapping, the storage mapping and the additional job. *)
Theorem accepted_execute_job data_object c m c' :
  read_execute_job data_object c = Ok (m, c') ->
  exists job_id alloc io_profile, m = ExecuteJobMessage alloc io_profile /\
    job_at (c_workloads c) job_id = Ok (sa_job alloc) /\ 0 < i32 (is_size (sa_machine_ids alloc)) /\
    Forall (fun r => 0 <= r < i32 (is_size (sa_machine_ids alloc))) (sa_mapping alloc) /\
    (io_profile = None -> c' = c /\ sa_io_allocation alloc = is_empty) /\
    optional_parts data_object <= 1.
Proof.
  unfold read_execute_job, check_size. intros Hr. inv_ok.
  match goal with
  | Hj : require_string _ "job_id" = Ok _, Ha : require_string _ "alloc" = Ok _, Hat : job_at _ ?jid = Ok _,
    Hm : read_mapping _ _ = Ok _, Hs : MemberCount _ ∈ _, Hnb : (0 <? _) = true |- _ =>
      pose proof (optional_parts_length _ (require_string_key _ _ _ Hj) (require_string_key _ _ _ Ha)) as Hcount;
      apply read_mapping_bounds in Hm; apply Z.ltb_lt in Hnb; exists jid; rewrite !elem_of_cons in Hs
  end.
  assert (optional_parts data_object <= 1) as Hopt.
  { match goal with Hs : _ \/ _ \/ _ |- _ => destruct Hs as [Hs|[Hs|Hs%not_elem_of_nil]]; [lia|lia|done] end. }
  destruct (FindMember data_object "additional_io_job"); inv_ok; simplify_eq;
    do 2 eexists; (split; [reflexivity|]); split_and!; done.
Qed.

(** A failure of the exchange with the scheduler: a run of the process that succeeds is
    one of the exchange alone; an error that is not a runtime error is left as it is; a
    runtime error ends the execution once the outputs are complete, or with the error
    that closing them meets. *)
Theorem broken_connection_closes_outputs
    (allowed : forall b : blocking IS Host, Data -> answer b -> Data -> Prop) run_info_of scheduler buffer d :
  let process := request_reply str_find replace_id storage_get run_info_of scheduler buffer in
  let body := exchange str_find replace_id storage_get scheduler buffer in
  (forall u d', runs allowed process d u d' <-> runs allowed body d u d') /\
  forall e d', breaks allowed process d e d' <->
    exists e0, breaks allowed body d e0 d' /\
      if is_runtime_error e0 then
        match finalize_batsim_outputs (run_info_of (sd_context d')) (sd_context d') with
        | Ok _ => e = Throw "runtime_error: Execution aborted (connection broken)"
        | Err e1 => e = e1
        end
      else e = e0.
Proof.
  split; [intros u d'; apply runs_catching|]. intros e d'. unfold request_reply. rewrite breaks_catching.
  unfold connection_broken. split; intros (e0 & Hb & He); exists e0; (split; [exact Hb|]);
    destruct (is_runtime_error e0); try done; by destruct (finalize_batsim_outputs _ _).
Qed.
End Reader.
