(* ===== verification/ReaderExamples.v ===== *)
(** * Messages of the scheduler on a small platform

    Messages are read, with [ServerExamples]'s simulation, through an instance of
    the JSON library where every text is the document of the example. *)

From Stdlib Require Import Qminmax.
From S2P Require Import Prelude Interfaces Profiles Jobs NumericStrcmp Outputs Machines Workload Tracers Ipp PState Writer NumberParsing Workflow Context Server Actors TaskExecution SwitchProcesses JobsExecution Submitters Reader ServerFacts ServerExamples SubmittersExamples ReaderFacts.

Module ReaderExamples.
Import Concrete MachineExamples JobExamples WorkloadExamples ServerExamples.
#[local] Abbreviation Ctx := (BatsimContext (list Z) engine host json).
#[local] Abbreviation Data := (ServerData (list Z) engine host json).

Definition three_executors : gmap Z Z := <[0 := 1]> (<[1 := 0]> {[2 := 1]}).
Lemma three_executors_ok : write_mapping 2 0 (in_executor_order three_executors) = Ok [1; 0; 1].
Proof. vm_compute. reflexivity. Qed.

Example mapping_is_a_numbering_witness :
  write_mapping 2 0 (in_executor_order three_executors) = Ok [1; 0; 1] /\
  (forall e, three_executors !! e = if decide (0 <= e) then [1; 0; 1] !! Z.to_nat e else None).
Proof.
  split; [exact three_executors_ok|].
  exact (proj2 (proj1 (mapping_is_a_numbering 2 three_executors [1; 0; 1]) three_executors_ok)).
Defined.

Definition str_find (s w : string) : bool := false.
Definition replace_id (s jid : string) : string := s.
Definition storage_get (key : string) : result string := Err (Abort "no data storage").

(** A query at the date 1, a rejection at the date 3, in a message of the date 4. *)
Definition event (type : string) (timestamp : Z) (data : json) : json :=
  JObj [("timestamp", JInt timestamp); ("type", JStr type); ("data", data)].
Definition events : list json :=
  [event "QUERY" 1 (JObj [("requests", JObj [("consumed_energy", JObj [])])]);
   event "REJECT_JOB" 3 (JObj [("job_id", JStr "w0!1")])].
Definition message : json := JObj [("now", JInt 4); ("events", JArr events)].

(** The JSON library when the text is this document. *)
Definition reading (doc : json) : RapidJson json := {|
  IsObject := IsObject; IsArray := IsArray; IsString := IsString; IsNumber := IsNumber; IsInt := IsInt;
  members := members; array_values := array_values; GetString := GetString; GetDouble := GetDouble; GetInt := GetInt;
  serialize := serialize; parse_json _ := Some doc;
|}.

Definition waits (s : unit) (b : blocking (list Z) host) (d : Data) (a : answer b) (d' : Data) (s' : unit) : Prop :=
  (a, d') = SubmittersExamples.sleeper b d.
Lemma waits_sleeps : sleeps SubmittersExamples.latency waits.
Proof.
  constructor; unfold waits.
  - discriminate.
  - intros s t d u d' s' [= -> ->] _. reflexivity.
  - intros s mbox n d u d' s' [= -> ->]. exact (SubmittersExamples.later_shortly_after d).
  - intros s b d a d' s' Ha. apply has_sent_nothing. by destruct b; injection Ha as -> ->.
Qed.

Definition the_process : Actors.M Data (list Z) host unit :=
  parse_and_apply_message (H1 := reading message) str_find replace_id storage_get "".
Definition sent_in (r : result (Data * unit)) : list (Q * IPMessage (list Z) host) :=
  match r with Ok (d, _) => (fun m => (Qred (sm_date m), sm_message m)) <$> c_sent (sd_context d) | Err _ => [] end.
Definition ends : result (Data * unit) :=
  '(d, p) ← the_process (initial_data ctx); run 6 SubmittersExamples.sleeper d p.

Definition w0_1 : JobIdentifier := mk_JobIdentifier "w0" "1" "w0!1".
Definition energy : IPMessage (list Z) host := mk_IPMessage SCHED_TELL_ME_ENERGY NoData.
Definition reject : IPMessage (list Z) host := mk_IPMessage SCHED_REJECT_JOB (JobRejectedMessage w0_1).
Definition ready : IPMessage (list Z) host := mk_IPMessage SCHED_READY NoData.

(** The first two messages are each late by at most what those before have taken. *)
Lemma meaning_of_events d l :
  meaning (H1 := reading message) str_find replace_id storage_get waits 4 0 0 events d l ->
  l = [mk_Planned 1 0 energy; mk_Planned 3 1 reject; mk_Planned 4 2 ready].
Proof.
  intros Hm. inversion Hm as [|? ? ? ? ? msgs1 c1 d1 l1 He1 _ Hm1]; subst.
  injection He1 as <- _. inversion Hm1 as [|? ? ? ? ? msgs2 c2 d2 l2 He2 _ Hm2]; subst.
  injection He2 as <- _. inversion Hm2; subst. reflexivity.
Qed.

Example parse_and_apply_message_follows_events_witness :
  sent_in ends = [(1%Q, energy); (3%Q, reject); (4%Q, ready)] /\
  wlp waits the_process (fun _ d' _ =>
    has_sent SubmittersExamples.latency [mk_Planned 1 0 energy; mk_Planned 3 1 reject; mk_Planned 4 2 ready] (initial_data ctx) d') (initial_data ctx) tt.
Proof.
  split; [vm_compute; reflexivity|]. eapply wlp_mono.
  - apply (parse_and_apply_message_follows_events (H1 := reading message) str_find replace_id storage_get SubmittersExamples.latency waits waits_sleeps "" 4 events).
    reflexivity.
  - intros u d' s (l & Hmeaning & Hsent). apply meaning_of_events in Hmeaning as ->. exact Hsent.
Defined.

Example bad_event_aborts_witness :
  exists e, parse_and_apply_event str_find replace_id storage_get (event "REJECT" 1 (JObj [])) 4 (initial_data ctx) = Err e.
Proof.
  apply bad_event_aborts. right. left. intros type [= <-]. apply (bool_decide_unpack _). vm_compute. exact I.
Defined.

(** The job w0!9 is registered. *)
Definition new_job : json :=
  JObj [("id", JStr "9"); ("subtime", JInt 0); ("walltime", JInt 5); ("res", JInt 1); ("profile", JStr "d")].
Definition registration : json := JObj [("job_id", JStr "w0!9"); ("job", new_job)].
Definition dynamic_ctx : Ctx := ctx <| c_options := mk_Options false false true true false true false false false false false false false |>.

Example register_job_spec_witness :
  exists m c' j, read_register_job (H1 := reading new_job) str_find replace_id storage_get registration dynamic_ctx = Ok (m, c') /\
    s_jobs (c_store c') !! 2%positive = Some j /\ state j = JOB_STATE_SUBMITTED /\ ji_to_string (id j) = "w0!9".
Proof.
  destruct (read_register_job (H1 := reading new_job) str_find replace_id storage_get registration dynamic_ctx) as [[m c']|] eqn:E;
    [|vm_compute in E; discriminate].
  destruct (register_job_spec (H1 := reading new_job) str_find replace_id storage_get registration dynamic_ctx m c' E)
    as (s & job_id & jp & j & w & description & _ & _ & Hs & Hid & _ & _ & -> & _ & _ & _ & Hj & _ & Hjobs & _).
  assert (Ok (A := string) s = Ok "w0!9") as [= ->] by (rewrite <- Hs; reflexivity).
  exists m, c', (j <| state := JOB_STATE_SUBMITTED |>). split; [reflexivity|]. split; [rewrite Hjobs; apply lookup_insert_eq|].
  split; [reflexivity|]. cbn. rewrite Hj. vm_compute in Hid. injection Hid as <-. reflexivity.
Defined.

(** Two executors on the resources 1 and 2. *)
Definition execution : json :=
  JObj [("job_id", JStr "w0!1"); ("alloc", JStr "1-2"); ("mapping", JObj [("1", JStr "0"); ("0", JInt 1)])].

Definition mapping_in (r : result (MessageData (list Z) host * Ctx)) : option (list Z * option positive) :=
  match r with Ok (ExecuteJobMessage alloc io, _) => Some (sa_mapping alloc, io) | _ => None end.

Example accepted_execute_job_witness :
  exists alloc io, read_execute_job (Host := host) execution ctx = Ok (ExecuteJobMessage alloc io, ctx) /\
    sa_mapping alloc = [1; 0] /\ optional_parts execution <= 1.
Proof.
  destruct (read_execute_job (Host := host) execution ctx) as [[m c']|] eqn:E; [|vm_compute in E; discriminate].
  destruct (accepted_execute_job execution ctx m c' E) as (job_id & alloc & io & -> & _ & _ & _ & Hnone & Hopt).
  assert (mapping_in (read_execute_job (Host := host) execution ctx) = Some ([1; 0], None)) as Hmap by (vm_compute; reflexivity).
  rewrite E in Hmap. cbn in Hmap. injection Hmap as Hmap Hio. destruct (Hnone Hio) as [-> _].
  exists alloc, io. split; [reflexivity|]. split; [exact Hmap|exact Hopt].
Defined.
End ReaderExamples.
