(* ===== verification/WorkflowRuns.v ===== *)
(** * What the workflow submitter guarantees (theorems on src/job_submitter.cpp)

    On an acyclic workflow whose edges are declared once, when the server calls the
    submitter back once for each of its jobs, the submitter makes a job of every
    task, once, and only after it has been called back for the jobs of all its
    parents; and it ends. *)

From S2P Require Import Prelude Interfaces Profiles Jobs NumericStrcmp Outputs Machines Workload Tracers Ipp PState Writer NumberParsing Workflow WorkflowFacts Context ContextFacts Server Actors TaskExecution SwitchProcesses JobsExecution Submitters SubmittersFacts.
#[local] Open Scope process_scope.

(** ** Graphs of tasks *)

Record dag (th : task_heap) (T : list positive) (rank : positive -> nat) : Prop := {
  dag_nodup : NoDup T;
  dag_task t : t ∈ T -> is_Some (th !! t);
  dag_children t x : t ∈ T -> th !! t = Some x -> NoDup (children x) /\
    forall u, u ∈ children x <-> u ∈ T /\ exists y, th !! u = Some y /\ t ∈ parents y;
  dag_parents t x p : t ∈ T -> th !! t = Some x -> p ∈ parents x -> p ∈ T /\ (rank p < rank t)%nat;
  dag_parents_nodup t x : t ∈ T -> th !! t = Some x -> NoDup (parents x) /\ Z.of_nat (length (parents x)) < 2 ^ 31;
  dag_fresh t x : t ∈ T -> th !! t = Some x -> nb_parent_completed x = 0;
  dag_ids t u x y : t ∈ T -> u ∈ T -> th !! t = Some x -> th !! u = Some y -> t_id x = t_id y -> t = u;
}.

(** What never changes in a task. *)
Definition shape (t : Task) := (num_procs t, execution_time t, t_id t, parents t, children t).

Section Graph.
Context (th0 : task_heap) (T : list positive) (rank : positive -> nat) (Hdag : dag th0 T rank).

(** The parents of a task that are in [D]. *)
Definition done_parents (D : list positive) (x : Task) : Z := count_if (fun p => bool_decide (p ∈ D)) (parents x).

(** The heap when the tasks [D] have completed. *)
Definition heap_after (D : list positive) (th : task_heap) : Prop :=
  forall t x0, t ∈ T -> th0 !! t = Some x0 ->
    exists x, th !! t = Some x /\ shape x = shape x0 /\ nb_parent_completed x = done_parents D x0.

Definition all_done (D : list positive) (t : positive) : Prop :=
  forall x0 p, th0 !! t = Some x0 -> p ∈ parents x0 -> p ∈ D.

Lemma heap_after_start : heap_after [] th0.
Proof.
  intros t x0 Ht Hx. exists x0. split; [done|]. split; [done|]. rewrite (dag_fresh _ _ _ Hdag _ _ Ht Hx).
  unfold done_parents. induction (parents x0) as [|p l IH]; [done|]. cbn. rewrite <- IH.
  rewrite bool_decide_false; [done|]. apply not_elem_of_nil.
Qed.

Lemma inc_child_Ok h k x : h !! k = Some x -> inc_child h k = Ok (<[k := x <| nb_parent_completed ::= Z.add 1 |>]> h).
Proof. intros Hx. unfold inc_child, deref_task. by rewrite Hx. Qed.

Lemma bottom_level_Ok parent h k x y :
  h !! k = Some x -> h !! parent = Some y ->
  bottom_level_f parent h k = Ok (<[k := x <| depth := Z.max (depth x) (depth y + 1) |>]> h).
Proof. intros Hx Hy. unfold bottom_level_f, deref_task. by rewrite Hx, Hy. Qed.

Lemma is_ready_Ok h k x :
  h !! k = Some x -> is_ready h k = Ok (nb_parent_completed x =? i32 (Z.of_nat (length (parents x)))).
Proof. intros Hx. unfold is_ready, deref_task. by rewrite Hx. Qed.

Lemma inc_children_spec kids : forall h,
  NoDup kids -> (forall k, k ∈ kids -> is_Some (h !! k)) ->
  exists h', foldM inc_child h kids = Ok h' /\
    forall t x, h !! t = Some x ->
      h' !! t = Some (if decide (t ∈ kids) then x <| nb_parent_completed ::= Z.add 1 |> else x).
Proof.
  induction kids as [|k kids IH]; intros h Hnd Hin; cbn [foldM].
  - exists h. split; [done|]. intros t x Hx. rewrite decide_False by apply not_elem_of_nil. done.
  - apply NoDup_cons in Hnd as [Hk Hnd]. destruct (Hin k) as [xk Hxk]; [by left|].
    rewrite (inc_child_Ok _ _ _ Hxk). cbn [mbind result_bind].
    destruct (IH (<[k:=xk <| nb_parent_completed ::= Z.add 1 |>]> h)) as (h' & Hh & Hspec); [done|..].
    { intros k' Hk'. destruct (decide (k = k')) as [<-|Hne]; [rewrite lookup_insert_eq; by eexists|].
      rewrite lookup_insert_ne by done. apply Hin. by right. }
    exists h'. split; [exact Hh|]. intros t x Hx. destruct (decide (t = k)) as [->|Hne].
    + rewrite Hxk in Hx. injection Hx as <-. rewrite (Hspec k _ (lookup_insert_eq _ _ _)).
      by rewrite decide_False, decide_True by (done || by left).
    + rewrite (Hspec t x) by by rewrite lookup_insert_ne. destruct (decide (t ∈ kids)) as [Hi|Hi].
      * by rewrite decide_True by by right.
      * rewrite decide_False; [done|]. by intros [?|?]%elem_of_cons.
Qed.

Lemma bottom_levels_spec parent kids : forall h,
  is_Some (h !! parent) -> (forall k, k ∈ kids -> is_Some (h !! k)) ->
  exists h', foldM (bottom_level_f parent) h kids = Ok h' /\
    forall t x, h !! t = Some x -> exists x', h' !! t = Some x' /\ shape x' = shape x /\
      nb_parent_completed x' = nb_parent_completed x.
Proof.
  induction kids as [|k kids IH]; intros h Hp Hin; cbn [foldM].
  - exists h. split; [done|]. intros t x Hx. by exists x.
  - destruct (Hin k) as [xk Hxk]; [by left|]. destruct Hp as [xp Hxp].
    rewrite (bottom_level_Ok _ _ _ _ _ Hxk Hxp). cbn [mbind result_bind].
    set (x1 := xk <| depth := _ |>).
    assert (forall t x, h !! t = Some x -> exists x', <[k:=x1]> h !! t = Some x' /\ shape x' = shape x /\
      nb_parent_completed x' = nb_parent_completed x) as Hone.
    { intros t x Hx. destruct (decide (t = k)) as [->|Hne].
      - rewrite lookup_insert_eq. rewrite Hxk in Hx. injection Hx as <-. by exists x1.
      - rewrite lookup_insert_ne by done. by exists x. }
    destruct (IH (<[k:=x1]> h)) as (h' & Hh & Hspec).
    { destruct (Hone _ _ Hxp) as (x' & Hx' & _). by eexists. }
    { intros k' Hk'. destruct (Hin k') as [x Hx]; [by right|]. destruct (Hone _ _ Hx) as (x' & Hx' & _). by eexists. }
    exists h'. split; [exact Hh|]. intros t x Hx. destruct (Hone _ _ Hx) as (x2 & Hx2 & Hs & Hn).
    destruct (Hspec _ _ Hx2) as (x3 & Hx3 & Hs' & Hn'). exists x3. by rewrite Hs', Hs, Hn', Hn.
Qed.

Lemma done_parents_all D x : done_parents D x = Z.of_nat (length (parents x)) <-> forall p, p ∈ parents x -> p ∈ D.
Proof.
  unfold done_parents. induction (parents x) as [|p l IH]; cbn [count_if length].
  - split; [by intros _ p Hp%not_elem_of_nil|done].
  - assert (count_if (fun p => bool_decide (p ∈ D)) l <= Z.of_nat (length l)).
    { clear IH. induction l as [|q l IHl]; cbn [count_if length]; [lia|]. destruct (bool_decide (q ∈ D)); lia. }
    destruct (decide (p ∈ D)) as [Hp|Hp]; [rewrite bool_decide_true by done|rewrite bool_decide_false by done]; split.
    + intros Hc q [->|Hq]%elem_of_cons; [done|]. apply IH; [lia|done].
    + intros Hall. rewrite (proj2 IH); [lia|]. intros q Hq. apply Hall. by right.
    + lia.
    + intros Hall. exfalso. apply Hp, Hall. by left.
Qed.

Lemma done_parents_cons t D x :
  NoDup (parents x) -> t ∉ D -> done_parents (t :: D) x = done_parents D x + (if decide (t ∈ parents x) then 1 else 0).
Proof.
  intros Hnd Ht. unfold done_parents. induction Hnd as [|p l Hp Hnd IH]; cbn [count_if].
  - by rewrite decide_False by apply not_elem_of_nil.
  - rewrite IH. destruct (decide (t = p)) as [<-|Hne].
    + rewrite (bool_decide_true (t ∈ t :: D)), (bool_decide_false (t ∈ D)) by (done || by left).
      rewrite decide_False, decide_True by (done || by left). lia.
    + assert (bool_decide (p ∈ t :: D) = bool_decide (p ∈ D)) as ->.
      { apply bool_decide_ext. rewrite elem_of_cons. naive_solver. }
      destruct (decide (t ∈ l)) as [Hl|Hl].
      * rewrite decide_True by by right. lia.
      * rewrite decide_False; [lia|]. by intros [?|?]%elem_of_cons.
Qed.

(** The children that are found ready. *)
Lemma ready_kids_spec D th kids : forall acc,
  heap_after D th -> (forall k, k ∈ kids -> k ∈ T) -> NoDup kids ->
  exists ready, foldM (fun ready_tasks kiddo =>
      b ← is_ready th kiddo; Ok (if b : bool then ready_tasks ++ [kiddo] else ready_tasks)) acc kids = Ok (acc ++ ready) /\
    NoDup ready /\ forall u, u ∈ ready <-> u ∈ kids /\ all_done D u.
Proof.
  induction kids as [|k kids IH]; intros acc Hh Hk Hnd; cbn [foldM].
  - exists []. rewrite app_nil_r. split; [done|]. split; [constructor|]. intros u. split; [by intros ?%not_elem_of_nil|].
    by intros [?%not_elem_of_nil _].
  - apply NoDup_cons in Hnd as [Hni Hnd]. assert (k ∈ T) as HkT by (apply Hk; by left).
    destruct (dag_task _ _ _ Hdag _ HkT) as [y0 Hy0]. destruct (Hh _ _ HkT Hy0) as (y & Hy & Hs & Hn).
    assert (parents y = parents y0) as Hp by (unfold shape in Hs; congruence).
    rewrite (is_ready_Ok _ _ _ Hy). cbn [mbind result_bind]. rewrite Hn, Hp.
    rewrite i32_small by (pose proof (proj2 (dag_parents_nodup _ _ _ Hdag _ _ HkT Hy0)); lia).
    destruct (Z.eqb_spec (done_parents D y0) (Z.of_nat (length (parents y0)))) as [Heq|Hne]; rewrite !Ok_bind.
    + destruct (IH (acc ++ [k])) as (ready & -> & Hnr & Hr); [done|intros; apply Hk; by right|done|].
      exists (k :: ready). rewrite <- app_assoc. split; [done|]. split.
      { constructor; [|done]. intros [Hin _]%Hr. done. }
      rewrite done_parents_all in Heq. intros u. rewrite !elem_of_cons, Hr. split; [|tauto].
      intros [->|[? ?]]; [|tauto]. split; [by left|]. intros x0 p Hx0. rewrite Hy0 in Hx0. injection Hx0 as <-. apply Heq.
    + destruct (IH acc) as (ready & -> & Hnr & Hr); [done|intros; apply Hk; by right|done|].
      exists ready. split; [done|]. split; [done|]. intros u. rewrite elem_of_cons, Hr. split; [tauto|].
      intros [[->|?] Hd]; [|tauto]. exfalso. apply Hne, done_parents_all. intros p. by apply Hd.
Qed.

(** Completing a task: one more parent for its children, and those whose parents
    have now all completed are ready. *)
Lemma task_completed_spec D th t x0 :
  heap_after D th -> t ∈ T -> t ∉ D -> th0 !! t = Some x0 ->
  exists ready th', task_completed th t = Ok (ready, th') /\ heap_after (t :: D) th' /\ NoDup ready /\
    forall u, u ∈ ready <-> u ∈ children x0 /\ all_done (t :: D) u.
Proof.
  intros Hh Ht HD Hx0. destruct (Hh _ _ Ht Hx0) as (x & Hx & Hshape & _).
  destruct (dag_children _ _ _ Hdag _ _ Ht Hx0) as [Hnd Hkids].
  assert (children x = children x0) as Hch by (unfold shape in Hshape; congruence).
  assert (forall k, k ∈ children x0 -> k ∈ T /\ exists y0 y, th0 !! k = Some y0 /\ th !! k = Some y) as Hk.
  { intros k [HkT (y0 & Hy0 & _)]%Hkids. split; [done|]. destruct (Hh _ _ HkT Hy0) as (y & Hy & _). by exists y0, y. }
  unfold task_completed. rewrite (proj2 (deref_task_Ok _ _ _) Hx). rewrite Ok_bind, Hch.
  destruct (inc_children_spec (children x0) th Hnd) as (h1 & -> & H1').
  { intros k Hin. destruct (Hk k Hin) as (_ & _ & y & _ & Hy). by eexists. }
  rewrite Ok_bind.
  destruct (bottom_levels_spec t (children x0) h1) as (h2 & -> & H2').
  { rewrite (H1' _ _ Hx). by eexists. }
  { intros k Hin. destruct (Hk k Hin) as (_ & _ & y & _ & Hy). rewrite (H1' _ _ Hy). by eexists. }
  rewrite Ok_bind.
  assert (heap_after (t :: D) h2) as Hh2.
  { intros u y0 Hu Hy0. destruct (Hh _ _ Hu Hy0) as (y & Hy & Hs & Hn). pose proof (H1' _ _ Hy) as Hy1.
    destruct (H2' _ _ Hy1) as (y2 & Hy2 & Hs2 & Hn2). exists y2. split; [done|].
    assert (u ∈ children x0 <-> t ∈ parents y0) as Hedge.
    { rewrite Hkids. split; [intros (_ & y' & Hy' & Hp); congruence|]. intros Hp. split; [done|]. by exists y0. }
    rewrite done_parents_cons by (done || by eapply dag_parents_nodup).
    split; [|rewrite Hn2].
    - rewrite Hs2, <- Hs. by destruct (decide (u ∈ children x0)).
    - destruct (decide (u ∈ children x0)) as [Hi|Hi], (decide (t ∈ parents y0)) as [Hp|Hp]; try tauto; cbn; rewrite Hn; lia. }
  destruct (ready_kids_spec (t :: D) h2 (children x0) []) as (ready & -> & Hnr & Hr); [done|by intros k Hin; apply Hk|done|].
  exists ready, h2. split; [done|]. split; [done|]. split; [done|]. exact Hr.
Qed.
End Graph.

(** ** Submitting a task *)

Lemma pretty_go_contains ch x : isdigit ch = false -> forall s, str_contains_char ch (pretty_N_go x s) = str_contains_char ch s.
Proof.
  intros Hch. induction (N.lt_wf_0 x) as [x _ IH]. intros s. destruct (decide (x = 0)%N) as [->|Hx]; [by rewrite pretty_N_go_0|].
  rewrite pretty_N_go_step by lia. rewrite IH by (apply N.div_lt; lia).
  unfold str_contains_char. cbn [list_ascii_of_string existsb].
  destruct (digit_char (x `mod` 10)%N) as [Hd _]; [apply N.mod_lt; lia|].
  destruct (Ascii.eqb_spec ch (pretty_N_char (x `mod` 10))) as [He|]; [|done]. by rewrite <- He, Hch in Hd.
Qed.

(** The decimal text of a natural number has only digits. *)
Lemma fmt_d_contains ch (k : nat) : isdigit ch = false -> str_contains_char ch (fmt_d (Z.of_nat k)) = false.
Proof.
  intros Hch. unfold fmt_d. destruct (Z.of_nat k) as [|q|q] eqn:Hk; [| |lia].
  - unfold str_contains_char. cbn. rewrite orb_false_r. destruct (Ascii.eqb_spec ch "0") as [->|]; done.
  - change (pretty (Z.pos q)) with (pretty (N.pos q)). unfold pretty, pretty_N. rewrite decide_False by done.
    by rewrite pretty_go_contains.
Qed.

Section Run.
Context {IS Engine Host V : Type} `{IntervalSet IS} `{SimGrid Engine Host} `{RapidJson V} `{BoostString}.
Context (str_find : string -> string -> bool) (replace_id : string -> string -> string).
Context (storage_set : string -> string -> result unit).
#[local] Abbreviation Ctx := (BatsimContext IS Engine Host V).
#[local] Abbreviation Data := (ServerData IS Engine Host V).
Implicit Types (c : Ctx) (d : Data).
Context (wn : string) (Hwn : str_contains_char "!" wn = false).
Context (th0 : task_heap) (T : list positive) (rank : positive -> nat) (Hdag : dag th0 T rank).

(** The key of the job number [k], the name of the profile of a task. *)
Definition key (k : nat) : string := representation wn (fmt_d (Z.of_nat k)).
Definition profile_name_of (x : Task) : string := wn +:+ String "_" (t_id x).

Lemma key_inj k k' : key k = key k' -> k = k'.
Proof.
  unfold key, representation. intros Hk%(inj (String.app wn)). injection Hk as Hk. unfold fmt_d in Hk.
  apply (inj pretty) in Hk. lia.
Qed.

(** The text of the job of a task is read back as it has been printed. *)
Definition json_reads_back : Prop := forall ps (k : nat) date t x0 ptr,
  t ∈ T -> th0 !! t = Some x0 -> ps !! profile_name_of x0 = Some (Some ptr) ->
  exists j : Job IS, Job_from_json_str str_find replace_id wn ps
      (task_job_description wn (fmt_d (Z.of_nat k)) date (execution_time x0 + 10)%Q (num_procs x0) (profile_name_of x0)) = Ok j /\
    id j = mk_JobIdentifier wn (fmt_d (Z.of_nat k)) (key k) /\ profile j = ptr.
Context (Hjson : json_reads_back).

(** The job [jp], the [k]-th of the workflow, executes the task [t]. *)
Definition job_of_task c (k : nat) (jp t : positive) : Prop :=
  exists j p x0, s_jobs (c_store c) !! jp = Some j /\ ji_to_string (id j) = key k /\
    s_profiles (c_store c) !! profile j = Some p /\ th0 !! t = Some x0 /\
    p_type p = DELAY /\ p_data p = DelayProfileData (execution_time x0).

(** The jobs [js] have been announced for the tasks [L], in this order; the workload
    has room for the others. *)
Record world (js L : list positive) c : Prop := {
  w_jobs : concat (announcements (submitter_of wn) c).*2 = js;
  w_length : length js = length L;
  w_described k jp t : js !! k = Some jp -> L !! k = Some t -> job_of_task c k jp t;
  w_workload : exists w, c_workloads c !! wn = Some w /\ wl_name w = wn /\
    (forall t x0, t ∈ T -> t ∉ L -> th0 !! t = Some x0 -> wl_profiles w !! profile_name_of x0 = None) /\
    (forall k, (length L <= k)%nat -> key k ∉ jobs_met (wl_jobs w));
  w_counter : c_task_id_counters c !! wn = Some (Z.of_nat (length L));
  w_storage : redis_enabled (c_options c) = false;
  w_fresh_job jp j : s_jobs (c_store c) !! jp = Some j -> (jp < s_next_job (c_store c))%positive;
  w_fresh_profile ptr p : s_profiles (c_store c) !! ptr = Some p -> (ptr < s_next_profile (c_store c))%positive;
}.

(** One step of a computation that does not block. *)
Ltac do_now H := etransitivity; [refine (mbind_now _ _ _ _ _ H)|]; cbv beta.

Lemma read_now {A} (f : Data -> result A) d a : f d = Ok a -> read (IS := IS) (Host := Host) f d = Ok (d, Done a).
Proof. intros Hf. unfold read. by rewrite Hf. Qed.

Lemma read_ctx_now {A} (f : Ctx -> result A) d a : f (sd_context d) = Ok a -> read_ctx (Host := Host) f d = Ok (d, Done a).
Proof. intros Hf. unfold read_ctx, read. by rewrite Hf. Qed.

Lemma with_ctx_now {A} (f : Ctx -> result (A * Ctx)) d a c :
  f (sd_context d) = Ok (a, c) -> with_ctx f d = Ok (d <| sd_context := c |>, Done a).
Proof. intros Hf. unfold with_ctx. by rewrite Hf. Qed.

Lemma next_job_number_now d n :
  c_task_id_counters (sd_context d) !! wn = Some n ->
  next_job_number (V := V) wn d =
    Ok (d <| sd_context := (sd_context d) <| c_task_id_counters ::= <[wn := n + 1]> |> |>, Done (fmt_d n)).
Proof. intros Hn. unfold next_job_number. rewrite Hn. done. Qed.

(** The context with the profile, then the job of a task. *)
Definition profile_added (x : Task) (w : Workload) c : Ctx :=
  let ptr := s_next_profile (c_store c) in
  c <| c_store ::= fun st => st <| s_profiles ::= <[ptr := mk_Profile DELAY (DelayProfileData (execution_time x))
                                     (task_profile_description (execution_time x)) (profile_name_of x) 0]> |>
                                <| s_next_profile ::= Pos.succ |> |>
    <| c_workloads ::= <[wn := w <| wl_profiles ::= <[profile_name_of x := Some ptr]> |>]> |>.

Definition job_added (j : Job IS) (w : Workload) c : Ctx :=
  let ptr := s_next_job (c_store c) in
  c <| c_store ::= fun st => st <| s_jobs ::= <[ptr := j]> |> <| s_next_job ::= Pos.succ |> |>
    <| c_workloads ::= <[wn := w <| wl_jobs := mk_Jobs (<[ji_to_string (id j) := ptr]> (jobs_map (wl_jobs w)))
                                                ({[ji_to_string (id j)]} ∪ jobs_met (wl_jobs w)) |>]> |>.

Lemma add_task_profile_Ok x w c :
  c_workloads c !! wn = Some w -> wl_profiles w !! profile_name_of x = None ->
  add_task_profile wn x c = Ok (profile_name_of x, profile_added x w c).
Proof.
  intros Hw Hp. unfold add_task_profile, Workloads_at. rewrite Hw. cbn [of_option]. rewrite Ok_bind.
  unfold add_profile, Profiles_exists. fold (profile_name_of x). rewrite Hp. done.
Qed.

Lemma add_task_job_Ok (k : nat) x w j c :
  c_workloads c !! wn = Some w -> wl_name w = wn ->
  Job_from_json_str str_find replace_id wn (wl_profiles w)
    (task_job_description wn (fmt_d (Z.of_nat k)) (now c) (execution_time x + 10)%Q (num_procs x) (profile_name_of x)) = Ok j ->
  ji_to_string (id j) ∉ jobs_met (wl_jobs w) ->
  add_task_job str_find replace_id wn (fmt_d (Z.of_nat k)) (profile_name_of x) x c = Ok (s_next_job (c_store c), job_added j w c).
Proof.
  intros Hw Hn Hj Hm. unfold add_task_job, Workloads_at. rewrite Hw. cbn [of_option]. rewrite Ok_bind, Hn, Hj, Ok_bind.
  unfold add_job, Jobs_exists. rewrite bool_decide_false by done. done.
Qed.

Lemma job_of_task_kept c c' k jp t :
  (forall jp j, s_jobs (c_store c) !! jp = Some j -> s_jobs (c_store c') !! jp = Some j) ->
  (forall ptr p, s_profiles (c_store c) !! ptr = Some p -> s_profiles (c_store c') !! ptr = Some p) ->
  job_of_task c k jp t -> job_of_task c' k jp t.
Proof. intros Hj Hp (j & p & x0 & Hj' & Hk & Hp' & Hrest). exists j, p, x0. auto. Qed.

(** What is left once the job has been made: the server is told. *)
Definition send_job (jp : positive) (job_key : string) : Actors.M Data IS Host string :=
  do* send "server" JOB_SUBMITTED (JobSubmittedMessage (submitter_of wn) [jp]) in ret job_key.
Definition announced_job (jp : positive) d : Data :=
  posted "server" JOB_SUBMITTED (JobSubmittedMessage (submitter_of wn) [jp]) d.

Lemma submit_task_spec js L d t x0 x :
  world js L (sd_context d) -> t ∈ T -> t ∉ L -> th0 !! t = Some x0 ->
  ts_heap (c_tasks (sd_context d)) !! t = Some x -> shape x = shape x0 ->
  exists d' jp,
    submit_workflow_task_as_job str_find replace_id storage_set wn (submitter_of wn) t d = send_job jp (key (length L)) d' /\
    world (js ++ [jp]) (L ++ [t]) (sd_context (announced_job jp d')) /\ c_tasks (sd_context d') = c_tasks (sd_context d).
Proof.
  intros [Hjs Hlen Hdesc (w & Hw & Hname & Hprof & Hmet) Hcount Hredis Hfj Hfp] Ht HtL Hx0 Hx Hshape.
  assert (t_id x = t_id x0 /\ execution_time x = execution_time x0 /\ num_procs x = num_procs x0) as (Hid & Hexec & Hprocs)
    by (unfold shape in Hshape; split_and!; congruence).
  assert (profile_name_of x = profile_name_of x0) as Hpn by (unfold profile_name_of; by rewrite Hid).
  set (n := length L) in *. set (c0 := sd_context d) in *.
  set (c1 := c0 <| c_task_id_counters ::= <[wn := Z.of_nat n + 1]> |>).
  set (c2 := profile_added x w c1). set (ptr := s_next_profile (c_store c0)).
  set (w2 := w <| wl_profiles ::= <[profile_name_of x := Some ptr]> |>).
  destruct (Hjson (wl_profiles w2) n (now c2) t x0 ptr Ht Hx0) as (j & Hj & Hjid & Hjp).
  { unfold w2. cbn. by rewrite Hpn, lookup_insert_eq. }
  set (c3 := job_added j w2 c2). set (jp := s_next_job (c_store c0)).
  set (c4 := send_message "server" JOB_SUBMITTED (JobSubmittedMessage (submitter_of wn) [jp]) c3).
  set (d1 := d <| sd_context := c1 |>). set (d2 := d <| sd_context := c2 |>). set (d3 := d <| sd_context := c3 |>).
  exists d3, jp.
  assert (c_workloads c2 !! wn = Some w2) as Hw2 by (unfold c2, profile_added; cbn; by rewrite lookup_insert_eq).
  split; [|split].
  - unfold submit_workflow_task_as_job.
    assert (next_job_number wn d = Ok (d1, Done (fmt_d (Z.of_nat n)))) as Hs1 by exact (next_job_number_now d _ Hcount).
    assert (read_ctx (fun c : Ctx => deref_task (ts_heap (c_tasks c)) t) d1 = Ok (d1, Done x)) as Hs2
      by exact (read_ctx_now _ d1 x (proj2 (deref_task_Ok _ _ _) Hx)).
    assert (with_ctx (add_task_profile wn x) d1 = Ok (d2, Done (profile_name_of x))) as Hs3.
    { refine (with_ctx_now (add_task_profile wn x) d1 _ c2 (add_task_profile_Ok x w c1 Hw _)). rewrite Hpn. by eapply Hprof. }
    assert (get_clock_now d2 = Ok (d2, Done (now c2))) as Hs4 by done.
    assert (with_ctx (add_task_job str_find replace_id wn (fmt_d (Z.of_nat n)) (profile_name_of x) x) d2 = Ok (d3, Done jp)) as Hs5.
    { refine (with_ctx_now _ d2 _ c3 (add_task_job_Ok n x w2 j c2 Hw2 Hname _ _)); [by rewrite Hexec, Hprocs, Hpn|].
      rewrite Hjid. by apply Hmet. }
    set (jid := mk_JobIdentifier wn (fmt_d (Z.of_nat n)) (key n)).
    assert (read (IS := IS) (Host := Host) (fun _ : Data => JobIdentifier_of_names wn (fmt_d (Z.of_nat n))) d3 = Ok (d3, Done jid)) as Hs6.
    { apply (read_now (fun _ : Data => JobIdentifier_of_names wn (fmt_d (Z.of_nat n))) d3 jid). unfold JobIdentifier_of_names, is_lexically_valid. by rewrite Hwn, fmt_d_contains. }
    assert (store_task storage_set wn (profile_name_of x) x (now c2) (fmt_d (Z.of_nat n)) jid d3 = Ok (d3, Done tt)) as Hs7.
    { unfold store_task. refine (read_ctx_now _ d3 tt _). change (c_options (sd_context d3)) with (c_options c0). by rewrite Hredis. }
    do_now Hs1. do_now Hs2. do_now Hs3. do_now Hs4. do_now Hs5. do_now Hs6. do_now Hs7.
    reflexivity.
  - change (sd_context (announced_job jp d3)) with c4.
    assert (forall jp' j', s_jobs (c_store c0) !! jp' = Some j' -> s_jobs (c_store c4) !! jp' = Some j') as Hkj.
    { intros jp' j' Hj'. change (<[jp:=j]> (s_jobs (c_store c0)) !! jp' = Some j'). rewrite lookup_insert_ne; [done|].
      intros <-. apply Hfj in Hj'. unfold jp in Hj'. lia. }
    set (px := mk_Profile DELAY (DelayProfileData (execution_time x)) (task_profile_description (execution_time x)) (profile_name_of x) 0).
    assert (forall p' y, s_profiles (c_store c0) !! p' = Some y -> s_profiles (c_store c4) !! p' = Some y) as Hkp.
    { intros p' y Hy. change (<[ptr:=px]> (s_profiles (c_store c0)) !! p' = Some y). rewrite lookup_insert_ne; [done|].
      intros <-. apply Hfp in Hy. unfold ptr in Hy. lia. }
    split.
    + unfold c4. rewrite announcements_submitted, fmap_app, concat_app. f_equal. exact Hjs.
    + rewrite !length_app. cbn. lia.
    + intros k jp' t' Hjk Htk. destruct (decide (k < n)%nat) as [Hlt|Hge].
      * rewrite lookup_app_l in Hjk, Htk by lia. eapply job_of_task_kept; [exact Hkj|exact Hkp|by apply Hdesc].
      * pose proof (lookup_lt_Some _ _ _ Htk) as Hk. rewrite length_app in Hk. cbn in Hk. assert (k = n) as -> by lia.
        rewrite list_lookup_middle in Hjk, Htk by lia. injection Hjk as <-. injection Htk as <-.
        exists j, px, x0. change (s_jobs (c_store c4)) with (<[jp:=j]> (s_jobs (c_store c0))).
        change (s_profiles (c_store c4)) with (<[ptr:=px]> (s_profiles (c_store c0))).
        rewrite lookup_insert_eq, Hjid, Hjp, lookup_insert_eq. cbn. by rewrite Hexec.
    + eexists. split; [|split; [|split]].
      * change (c_workloads c4) with (<[wn := w2 <| wl_jobs := mk_Jobs (<[ji_to_string (id j) := jp]> (jobs_map (wl_jobs w)))
                                                ({[ji_to_string (id j)]} ∪ jobs_met (wl_jobs w)) |>]> (c_workloads c2)).
        by rewrite lookup_insert_eq.
      * exact Hname.
      * cbn. intros t' y Ht' HtL' Hy. rewrite Hpn, lookup_insert_ne; [apply (Hprof t'); [done| |done]|].
        { intros Hin. apply HtL'. apply elem_of_app. by left. }
        unfold profile_name_of. intros Heq%(inj (String.app wn)). injection Heq as Heq.
        apply HtL', elem_of_app. right. apply list_elem_of_singleton.
        symmetry. by eapply (dag_ids _ _ _ Hdag t t').
      * cbn. rewrite length_app, Hjid. cbn. intros k Hk. apply not_elem_of_union. split; [|apply Hmet; lia].
        rewrite elem_of_singleton. intros Heq%key_inj. lia.
    + change (c_task_id_counters c4) with (<[wn := Z.of_nat n + 1]> (c_task_id_counters c0)).
      rewrite lookup_insert_eq, length_app. cbn. f_equal. lia.
    + exact Hredis.
    + intros jp' j'. change (<[jp:=j]> (s_jobs (c_store c0)) !! jp' = Some j' -> (jp' < Pos.succ (s_next_job (c_store c0)))%positive).
      intros [[<- _]|[_ Hj']]%lookup_insert_Some; [unfold jp; lia|]. apply Hfj in Hj'. lia.
    + intros p' y. change (<[ptr:=px]> (s_profiles (c_store c0)) !! p' = Some y -> (p' < Pos.succ (s_next_profile (c_store c0)))%positive).
      intros [[<- _]|[_ Hy]]%lookup_insert_Some; [unfold ptr; lia|]. apply Hfp in Hy. lia.
  - reflexivity.
Qed.

(** ** The course of a workflow

    The environment is described by what it has done: the jobs it has called the
    submitter back for, each with the number of jobs that had been submitted. *)

Definition submitted_jobs c : list positive := concat (announcements (submitter_of wn) c).*2.

(** While the submitter waits: it is called back once for each of its jobs, and the
    others leave it what it needs. *)
Record calls_back (allowed : list (positive * nat) -> forall b : blocking IS Host, Data -> answer b -> Data -> list (positive * nat) -> Prop)
    : Prop := {
  called_back log d ans d' log' : allowed log (await_message (submitter_of wn)) d ans d' log' ->
    exists jp j, jp ∈ submitted_jobs (sd_context d) /\ (jp ∉ log.*1) /\ s_jobs (c_store (sd_context d)) !! jp = Some j /\
      ans = SubmitterJobCompletionCallbackMessage (id j) /\
      log' = log ++ [(jp, length (submitted_jobs (sd_context d)))];
  sleeps_quietly log t d u d' log' : allowed log (sleep_for t) d u d' log' -> log' = log;
  puts_quietly log mbox n d u d' log' : allowed log (put_message mbox n) d u d' log' -> log' = log;
  messages_stay log b d a d' log' : allowed log b d a d' log' -> exists l, c_sent (sd_context d') = c_sent (sd_context d) ++ l;
  world_kept log b d a d' log' js L : allowed log b d a d' log' -> world js L (sd_context d) -> world js L (sd_context d');
  jobs_kept log b d a d' log' jp j : allowed log b d a d' log' -> s_jobs (c_store (sd_context d)) !! jp = Some j ->
    exists j', s_jobs (c_store (sd_context d')) !! jp = Some j' /\ id j' = id j;
  tasks_kept log b d a d' log' : allowed log b d a d' log' -> c_tasks (sd_context d') = c_tasks (sd_context d);
}.

(** A job of the task [t] was called back while [n] jobs at most were submitted. *)
Definition completed (js L : list positive) (log : list (positive * nat)) (n : nat) (t : positive) : Prop :=
  exists k jp m, L !! k = Some t /\ js !! k = Some jp /\ (jp, m) ∈ log /\ (m <= n)%nat.

Definition parents_completed js L log n (t : positive) : Prop :=
  forall x0 p, th0 !! t = Some x0 -> p ∈ parents x0 -> completed js L log n p.

(** The state of the submitter at the head of its loop. *)
Record running (limit : Z) (js L : list positive) (log : list (positive * nat)) (ready : list positive)
    (submitted : gmap string positive) (nb : Z) d : Prop := {
  r_world : world js L (sd_context d);
  r_nodup : NoDup L;
  r_tasks t : t ∈ L -> t ∈ T;
  r_log_nodup : NoDup log.*1;
  r_log jp m : (jp, m) ∈ log -> jp ∈ js /\ (m <= length L)%nat;
  r_heap : exists D, heap_after th0 T D (ts_heap (c_tasks (sd_context d))) /\
    forall t, t ∈ D <-> completed js L log (length L) t;
  r_submitted ky t : submitted !! ky = Some t <->
    exists k jp, ky = key k /\ L !! k = Some t /\ js !! k = Some jp /\ (jp ∉ log.*1);
  r_ready_nodup : NoDup ready;
  r_ready u : u ∈ ready <-> u ∈ T /\ (u ∉ L) /\ parents_completed js L log (length L) u;
  r_nb : nb = Z.of_nat (length L) - Z.of_nat (length log);
  r_limit : limit = 0 \/ nb <= limit;
  r_parents k t : L !! k = Some t -> parents_completed js L log k t;
  r_pace i jp m : log !! i = Some (jp, m) -> limit = 0 \/ Z.of_nat m - Z.of_nat i <= limit;
}.

Lemma world_nodup js L c : world js L c -> NoDup js.
Proof.
  intros Hw. apply NoDup_alt. intros k k' jp Hk Hk'.
  assert (forall i, js !! i = Some jp -> exists j, s_jobs (c_store c) !! jp = Some j /\ ji_to_string (id j) = key i) as Hkey.
  { intros i Hi. destruct (lookup_lt_is_Some_2 L i) as [t Ht].
    { rewrite <- (w_length _ _ _ Hw). by eapply lookup_lt_Some. }
    destruct (w_described _ _ _ Hw _ _ _ Hi Ht) as (j & _ & _ & Hj & Hid & _). by exists j. }
  destruct (Hkey _ Hk) as (j & Hj & Hid), (Hkey _ Hk') as (j' & Hj' & Hid'). apply key_inj. congruence.
Qed.

Lemma world_tasks js L c f : world js L c -> world js L (c <| c_tasks ::= f |>).
Proof. by intros []; constructor. Qed.

Lemma completed_mono js L log n js' L' log' n' t :
  completed js L log n t -> (n <= n')%nat -> completed (js ++ js') (L ++ L') (log ++ log') n' t.
Proof.
  intros (k & jp & m & Hk & Hj & Hl & Hm) Hn. exists k, jp, m.
  split; [by apply lookup_app_l_Some|]. split; [by apply lookup_app_l_Some|]. split; [apply elem_of_app; by left|lia].
Qed.

Lemma completed_more_jobs js L log n jp' u t :
  NoDup (js ++ [jp']) -> length js = length L -> (forall jp m, (jp, m) ∈ log -> jp ∈ js /\ (m <= length L)%nat) ->
  completed (js ++ [jp']) (L ++ [u]) log n t -> completed js L log (length L) t.
Proof.
  intros Hnd Hlen Hlog (k & jp & m & Hk & Hj & Hl & Hm). destruct (Hlog _ _ Hl) as [Hin HmL].
  apply list_elem_of_lookup in Hin as [i Hi].
  assert (i = k) as -> by (eapply NoDup_lookup; [exact Hnd| |exact Hj]; by apply lookup_app_l_Some).
  exists k, jp, m. split; [|done]. rewrite lookup_app_l in Hk; [done|].
  rewrite <- Hlen. by eapply lookup_lt_Some.
Qed.

Lemma running_submitted limit js L log t ready submitted nb d d' jp :
  running limit js L log (t :: ready) submitted nb d -> limit = 0 \/ nb < limit ->
  world (js ++ [jp]) (L ++ [t]) (sd_context d') -> c_tasks (sd_context d') = c_tasks (sd_context d) ->
  running limit (js ++ [jp]) (L ++ [t]) log ready (<[key (length L) := t]> submitted) (nb + 1) d'.
Proof.
  intros [Hw Hnd HT Hlnd Hlog (D & Hheap & HD) Hsub Hrnd Hready Hnb Hlim Hpar Hpace] Hroom Hw' Htasks.
  apply NoDup_cons in Hrnd as [Hnr Hrnd].
  destruct (proj1 (Hready t) ltac:(by left)) as (HtT & HtL & Hdone).
  pose proof (world_nodup _ _ _ Hw') as Hjnd. pose proof (w_length _ _ _ Hw) as Hlen.
  assert (forall n u, (length L <= n)%nat -> completed (js ++ [jp]) (L ++ [t]) log n u <-> completed js L log (length L) u) as Hc.
  { intros n u Hn. split; [by apply completed_more_jobs|]. intros Hu.
    pose proof (completed_mono _ _ _ _ [jp] [t] [] n u Hu Hn) as Hu'. by rewrite app_nil_r in Hu'. }
  split; try done.
  - apply NoDup_app. split; [done|]. split; [|apply NoDup_singleton].
    intros u Hu ->%list_elem_of_singleton. done.
  - intros u [Hu| ->%list_elem_of_singleton]%elem_of_app; [by apply HT|done].
  - intros jp' m Hin. destruct (Hlog _ _ Hin) as [Hj Hm]. rewrite length_app. split; [apply elem_of_app; by left|lia].
  - exists D. rewrite Htasks. split; [done|]. intros u. rewrite HD, Hc; [done|]. rewrite length_app. lia.
  - intros ky u. split.
    + intros [[<- <-]|[_ (k & jp' & -> & Hk & Hj & Hl)%Hsub]]%lookup_insert_Some.
      * exists (length L), jp. rewrite list_lookup_middle by done. rewrite list_lookup_middle by done. split; [done|]. split; [done|].
        split; [done|]. intros ([jp' m] & -> & Hin)%list_elem_of_fmap. apply Hlog in Hin as [Hin _].
        apply NoDup_app in Hjnd as (_ & Hdisj & _). apply (Hdisj _ Hin), list_elem_of_singleton. done.
      * exists k, jp'. split; [done|]. split; [by apply lookup_app_l_Some|]. split; [by apply lookup_app_l_Some|done].
    + intros (k & jp' & -> & Hk & Hj & Hl). destruct (decide (k = length L)) as [->|Hne].
      * rewrite list_lookup_middle in Hk by done. injection Hk as <-. apply lookup_insert_eq.
      * assert (k < length L)%nat as Hlt.
        { apply lookup_lt_Some in Hk. rewrite length_app in Hk. cbn in Hk. lia. }
        rewrite lookup_insert_ne by by intros Heq%key_inj. rewrite lookup_app_l in Hk, Hj by lia.
        apply Hsub. by exists k, jp'.
  - intros u. assert (u ∈ ready <-> u ∈ t :: ready /\ u ≠ t) as ->.
    { rewrite elem_of_cons. split; [intros Hu; split; [by right|by intros ->]|tauto]. }
    rewrite Hready, elem_of_app, list_elem_of_singleton.
    assert (parents_completed (js ++ [jp]) (L ++ [t]) log (length (L ++ [t])) u <-> parents_completed js L log (length L) u) as ->.
    { unfold parents_completed. setoid_rewrite Hc; [done|]. rewrite length_app. lia. }
    tauto.
  - rewrite length_app. cbn. lia.
  - lia.
  - intros k u Hk x1 p Hx1 Hp. destruct (decide (k = length L)) as [->|Hne].
    + rewrite list_lookup_middle in Hk by done. injection Hk as <-. apply Hc; [done|]. by apply (Hdone x1 p).
    + assert (k < length L)%nat as Hlt.
      { apply lookup_lt_Some in Hk. rewrite length_app in Hk. cbn in Hk. lia. }
      rewrite lookup_app_l in Hk by done. pose proof (Hpar k u Hk x1 p Hx1 Hp) as Hu.
      pose proof (completed_mono _ _ _ _ [jp] [t] [] k p Hu (le_n k)) as Hu'. by rewrite app_nil_r in Hu'.
Qed.

Context (allowed : list (positive * nat) -> forall b : blocking IS Host, Data -> answer b -> Data -> list (positive * nat) -> Prop).
Context (Henv : calls_back allowed).

Lemma running_submit limit js L log t ready submitted nb d (Q : string -> Data -> list (positive * nat) -> Prop) :
  running limit js L log (t :: ready) submitted nb d -> limit = 0 \/ nb < limit ->
  (forall d' jp, running limit (js ++ [jp]) (L ++ [t]) log ready (<[key (length L) := t]> submitted) (nb + 1) d' ->
     Q (key (length L)) d' log) ->
  wp allowed (submit_workflow_task_as_job str_find replace_id storage_set wn (submitter_of wn) t) Q d log.
Proof.
  intros Hr Hroom HQ. pose proof Hr as [Hw Hnd HT Hlnd Hlog (D & Hheap & HD) Hsub Hrnd Hready Hnb Hlim Hpar Hpace].
  destruct (proj1 (Hready t) ltac:(by left)) as (HtT & HtL & Hdone).
  destruct (dag_task _ _ _ Hdag _ HtT) as [x0 Hx0]. destruct (Hheap _ _ HtT Hx0) as (x & Hx & Hshape & _).
  destruct (submit_task_spec js L d t x0 x Hw HtT HtL Hx0 Hx Hshape) as (d1 & jp & Hrun & Hw' & Htasks).
  apply (wp_same allowed _ (send_job jp (key (length L))) Q d d1 log Hrun).
  apply wp_mbind, send_wp. intros n u d2 log2 Hal. rewrite (puts_quietly _ Henv _ _ _ _ _ _ _ Hal) in *.
  apply wp_ret. apply (HQ d2 jp). eapply running_submitted; [exact Hr|exact Hroom| |].
  - eapply world_kept; [exact Henv|exact Hal|exact Hw'].
  - rewrite (tasks_kept _ Henv _ _ _ _ _ _ Hal). exact Htasks.
Qed.

(** The inner loop. *)
Lemma running_submit_all limit ready : forall js L log submitted nb d
    (Q : list positive * gmap string positive * Z -> Data -> list (positive * nat) -> Prop),
  running limit js L log ready submitted nb d ->
  (forall d' js' L' ready' submitted' nb', running limit js' L' log ready' submitted' nb' d' ->
     ready' = [] \/ limit ≠ 0 /\ limit <= nb' -> Q (ready', submitted', nb') d' log) ->
  wp allowed (submit_ready_tasks str_find replace_id storage_set wn limit ready submitted nb) Q d log.
Proof.
  induction ready as [|t ready IH]; intros js L log submitted nb d Q Hr HQ; cbn [submit_ready_tasks].
  - apply wp_ret. apply (HQ d js L); [done|by left].
  - destruct ((limit =? 0) || (nb <? limit)) eqn:Hroom.
    + apply orb_true_iff in Hroom. rewrite Z.eqb_eq, Z.ltb_lt in Hroom.
      apply wp_mbind. eapply running_submit; [exact Hr|exact Hroom|]. intros d1 jp Hr1. by eapply IH.
    + apply orb_false_iff in Hroom as [Hl%Z.eqb_neq Hn%Z.ltb_ge].
      apply wp_ret. apply (HQ d js L); [done|by right].
Qed.

Lemma completed_more_log js L log jp m n t :
  completed js L (log ++ [(jp, m)]) n t <->
  completed js L log n t \/ ((m <= n)%nat /\ exists k, L !! k = Some t /\ js !! k = Some jp).
Proof.
  split.
  - intros (k & jp' & m' & Hk & Hj & [Hin|[= -> ->]%list_elem_of_singleton]%elem_of_app & Hm).
    + left. by exists k, jp', m'.
    + right. split; [done|]. by exists k.
  - intros [(k & jp' & m' & Hk & Hj & Hin & Hm)|[Hm (k & Hk & Hj)]].
    + exists k, jp', m'. split_and!; try done. apply elem_of_app. by left.
    + exists k, jp, m. split_and!; try done. apply elem_of_app. right. by left.
Qed.

Lemma running_complete limit js L log ready submitted nb d jp j :
  running limit js L log ready submitted nb d ->
  jp ∈ js -> jp ∉ log.*1 -> s_jobs (c_store (sd_context d)) !! jp = Some j ->
  exists d' kids, complete_task submitted (ji_to_string (id j)) d = Ok (d', Done kids) /\
    running limit js L (log ++ [(jp, length js)]) (ready ++ kids) (delete (ji_to_string (id j)) submitted) (nb - 1) d'.
Proof.
  intros [Hw Hnd HT Hlnd Hlog (D & Hheap & HD) Hsub Hrnd Hready Hnb Hlim Hpar Hpace] Hjp Hjl Hj.
  pose proof (w_length _ _ _ Hw) as Hlen. pose proof (world_nodup _ _ _ Hw) as Hjnd.
  apply list_elem_of_lookup in Hjp as [k Hk]. destruct (lookup_lt_is_Some_2 L k) as [t Ht].
  { rewrite <- Hlen. by eapply lookup_lt_Some. }
  destruct (w_described _ _ _ Hw _ _ _ Hk Ht) as (j' & _ & _ & Hj' & Hid & _).
  rewrite Hj in Hj'. injection Hj' as <-. rewrite Hid.
  assert (submitted !! key k = Some t) as Hst by (apply Hsub; by exists k, jp).
  pose proof (list_elem_of_lookup_2 _ _ _ Ht) as HtL. pose proof (HT _ HtL) as HtT.
  destruct (dag_task _ _ _ Hdag _ HtT) as [x0 Hx0].
  assert (~ completed js L log (length L) t) as Hnot.
  { intros (k' & jp' & m & Hk' & Hjp' & Hl & _). pose proof (NoDup_lookup _ _ _ _ Hnd Hk' Ht) as ->.
    rewrite Hk in Hjp'. injection Hjp' as <-. apply Hjl. by apply (list_elem_of_fmap_2 fst _ (jp, m)). }
  destruct (task_completed_spec th0 T rank Hdag D _ t x0 Hheap HtT ltac:(by rewrite HD) Hx0) as (kids & th' & Htc & Hheap' & Hknd & Hkids).
  assert (forall u, completed js L (log ++ [(jp, length js)]) (length L) u <-> completed js L log (length L) u \/ u = t) as Hc.
  { intros u. rewrite completed_more_log, Hlen. split; [|intros [?| ->]; [by left|right; split; [done|by exists k]]].
    intros [?|[_ (k' & Hk' & Hjk')]]; [by left|right].
    pose proof (NoDup_lookup _ _ _ _ Hjnd Hjk' Hk) as ->. congruence. }
  (** A task that waits for [t] is neither ready nor submitted. *)
  assert (forall u y, u ∈ T -> th0 !! u = Some y -> t ∈ parents y -> (u ∉ ready) /\ (u ∉ L)) as Hwait.
  { intros u y HuT Hy Hp. split.
    - intros (_ & _ & Hd)%Hready. by apply Hnot, (Hd y t).
    - intros [k' Hk']%list_elem_of_lookup. destruct (Hpar k' u Hk' y t Hy Hp) as (k1 & jp1 & m1 & E1 & E2 & E3 & E4).
      apply Hnot. exists k1, jp1, m1. split_and!; try done. by destruct (Hlog _ _ E3). }
  assert (forall u, u ∈ kids <-> u ∈ T /\ (exists y, th0 !! u = Some y /\ t ∈ parents y) /\
            parents_completed js L (log ++ [(jp, length js)]) (length L) u) as Hkids'.
  { intros u. rewrite Hkids. rewrite (proj2 (dag_children _ _ _ Hdag _ _ HtT Hx0)). unfold all_done, parents_completed.
    setoid_rewrite Hc. setoid_rewrite elem_of_cons. setoid_rewrite HD. split.
    - intros [[HuT Hy] Hall]. split_and!; try done. intros y p Hy' Hp. destruct (Hall y p Hy' Hp); [by right|by left].
    - intros (HuT & Hy & Hall). split_and!; try done. intros y p Hy' Hp. destruct (Hall y p Hy' Hp); [by right|by left]. }
  exists (d <| sd_context := (sd_context d) <| c_tasks ::= fun st => mk_task_store th' (ts_next st) |> |>), kids. split.
  { unfold complete_task. rewrite (mbind_now (read _) _ t d d) by (unfold read; by rewrite Hst).
    unfold with_ctx. rewrite Htc. reflexivity. }
  split; try done.
  - by apply world_tasks.
  - rewrite fmap_app. apply NoDup_app. split; [done|]. split; [|apply NoDup_singleton].
    intros jp' Hin ->%list_elem_of_singleton. done.
  - intros jp' m [Hin|[= -> ->]%list_elem_of_singleton]%elem_of_app; [by apply Hlog|].
    split; [by eapply list_elem_of_lookup_2|lia].
  - exists (t :: D). split; [exact Hheap'|]. intros u. rewrite elem_of_cons, Hc, HD. tauto.
  - intros ky u. rewrite lookup_delete_Some, Hsub, fmap_app. setoid_rewrite elem_of_app. setoid_rewrite list_elem_of_singleton. split.
    + intros [Hne (k' & jp' & -> & E1 & E2 & E3)]. exists k', jp'. split_and!; try done. intros [?| ->]; [done|].
      apply Hne. by rewrite (NoDup_lookup _ _ _ _ Hjnd E2 Hk).
    + intros (k' & jp' & -> & E1 & E2 & E3). split.
      * intros <-%key_inj. rewrite Hk in E2. injection E2 as <-. apply E3. by right.
      * exists k', jp'. split_and!; try done. intros E4. apply E3. by left.
  - apply NoDup_app. split; [done|]. split; [|done]. intros u Hu (HuT & (y & Hy & Hp) & _)%Hkids'. by destruct (Hwait u y).
  - intros u. rewrite elem_of_app, Hready, Hkids'. unfold parents_completed. setoid_rewrite Hc. split.
    + intros [(HuT & HuL & Hd)|(HuT & (y & Hy & Hp) & Hd)]; [|by split_and!; [|apply (Hwait u y)|]].
      split_and!; try done. intros y p Hy Hp. left. by apply (Hd y p).
    + intros (HuT & HuL & Hd). destruct (dag_task _ _ _ Hdag _ HuT) as [y Hy].
      destruct (decide (t ∈ parents y)) as [Hp|Hp]; [right; split_and!; try done; by exists y|left]. split_and!; try done.
      intros y' p Hy' Hp'. rewrite Hy in Hy'. injection Hy' as <-. destruct (Hd y p Hy Hp') as [?| ->]; done.
  - rewrite length_app. cbn. lia.
  - lia.
  - intros k' u Hk' y p Hy Hp. apply completed_more_log. left. by apply (Hpar k' u Hk' y p).
  - intros i jp' m Hi. destruct (decide (i = length log)) as [->|Hne].
    + rewrite list_lookup_middle in Hi by done. injection Hi as <- <-. lia.
    + apply (Hpace i jp'). rewrite lookup_app_l in Hi; [done|].
      apply lookup_lt_Some in Hi. rewrite length_app in Hi. cbn in Hi. lia.
Qed.

(** When nothing is awaited, every job submitted has been called back. *)
Lemma running_all_back limit js L log ready nb d :
  running limit js L log ready ∅ nb d -> Permutation log.*1 js.
Proof.
  intros [Hw Hnd HT Hlnd Hlog _ Hsub _ _ _ _ _ _]. apply NoDup_Permutation; [done|by eapply world_nodup|].
  intros jp. split.
  - intros ([jp' m] & -> & Hin)%list_elem_of_fmap. by apply Hlog in Hin as [? _].
  - intros [k Hk]%list_elem_of_lookup. destruct (decide (jp ∈ log.*1)) as [|Hn]; [done|exfalso].
    destruct (lookup_lt_is_Some_2 L k) as [t Ht]; [rewrite <- (w_length _ _ _ Hw); by eapply lookup_lt_Some|].
    assert ((∅ : gmap string positive) !! key k = Some t) as He by (apply Hsub; by exists k, jp).
    by rewrite lookup_empty in He.
Qed.

(** When nothing is ready either, everything has been done. *)
Lemma running_over limit js L log nb d : running limit js L log [] ∅ nb d -> Permutation L T.
Proof.
  intros Hr. pose proof (running_all_back _ _ _ _ _ _ _ Hr) as Hperm.
  destruct Hr as [Hw Hnd HT _ Hlog _ _ _ Hready _ _ _ _].
  apply NoDup_Permutation; [done|by eapply dag_nodup|].
  assert (forall n t, (rank t < n)%nat -> t ∈ T -> t ∈ L) as Hrank.
  { induction n as [|n IH]; [lia|]. intros t Hn Ht. destruct (decide (t ∈ L)) as [|Hni]; [done|exfalso].
    apply (not_elem_of_nil t), Hready. split_and!; try done. intros x0 p Hx0 Hp.
    destruct (dag_parents _ _ _ Hdag _ _ _ Ht Hx0 Hp) as [HpT Hlt].
    assert (p ∈ L) as [k Hk]%list_elem_of_lookup by (apply IH; [lia|done]).
    destruct (lookup_lt_is_Some_2 js k) as [jp Hj]; [rewrite (w_length _ _ _ Hw); by eapply lookup_lt_Some|].
    pose proof (list_elem_of_lookup_2 _ _ _ Hj) as Hin. rewrite <- Hperm in Hin.
    apply list_elem_of_fmap in Hin as ([jp' m] & -> & Hin).
    exists k, jp', m. split_and!; try done. by apply Hlog in Hin as [_ ?]. }
  intros t. split; [apply HT|]. intros Ht. apply (Hrank (Datatypes.S (rank t))); [lia|done].
Qed.

Lemma running_length limit js L log ready submitted nb d :
  running limit js L log ready submitted nb d -> (length log <= length L <= length T)%nat.
Proof.
  intros [Hw Hnd HT Hlnd Hlog _ _ _ _ _ _ _ _]. split.
  - rewrite <- (w_length _ _ _ Hw), <- (length_fmap fst log). apply submseteq_length, NoDup_submseteq; [done|].
    intros jp ([jp' m] & -> & Hin)%list_elem_of_fmap. by apply Hlog in Hin as [? _].
  - by apply submseteq_length, NoDup_submseteq.
Qed.

(** ** The loop, then the whole process *)

(** What has been done at the end. *)
Record all_tasks_run (limit : Z) d (log : list (positive * nat)) (L : list positive) : Prop := {
  each_task_once : Permutation L T;
  each_job_back_once : Permutation log.*1 (submitted_jobs (sd_context d));
  jobs_of_tasks : length (submitted_jobs (sd_context d)) = length L /\
    forall k jp t, submitted_jobs (sd_context d) !! k = Some jp -> L !! k = Some t -> job_of_task (sd_context d) k jp t;
  parents_first k t : L !! k = Some t -> parents_completed (submitted_jobs (sd_context d)) L log k t;
  limit_respected i jp m : log !! i = Some (jp, m) -> limit = 0 \/ Z.of_nat m - Z.of_nat i <= limit;
}.

Lemma running_kept limit js L log ready submitted nb d d' :
  running limit js L log ready submitted nb d ->
  world js L (sd_context d') -> c_tasks (sd_context d') = c_tasks (sd_context d) ->
  running limit js L log ready submitted nb d'.
Proof. intros [] Hw Ht. split; try done. by rewrite Ht. Qed.

(** Nothing is left when every task has completed. *)
Lemma running_full limit js L log ready submitted nb d :
  running limit js L log ready submitted nb d -> (length T <= length log)%nat -> ready = [] /\ submitted = ∅.
Proof.
  intros Hr Hlen. pose proof (running_length _ _ _ _ _ _ _ _ Hr) as Hle. destruct Hr as [Hw Hnd HT Hlnd Hlog _ Hsub _ Hready _ _ _ _].
  split.
  - destruct ready as [|u ready]; [done|exfalso]. destruct (proj1 (Hready u) ltac:(by left)) as (HuT & HuL & _).
    assert (Permutation L T) as Hp.
    { apply submseteq_length_Permutation; [by apply NoDup_submseteq|lia]. }
    by rewrite Hp in HuL.
  - apply map_empty. intros ky. destruct (submitted !! ky) as [t|] eqn:E; [exfalso|done].
    apply Hsub in E as (k & jp & _ & _ & Hjp & Hn). apply Hn.
    assert (Permutation log.*1 js) as ->; [|by eapply list_elem_of_lookup_2].
    apply submseteq_length_Permutation.
    + apply NoDup_submseteq; [done|]. intros jp' ([jp2 m] & -> & Hin)%list_elem_of_fmap. by apply Hlog in Hin as [? _].
    + rewrite length_fmap, (w_length _ _ _ Hw). lia.
Qed.

(** When nothing is awaited, the limit holds nothing back. *)
Lemma running_idle limit js L log ready nb d :
  running limit js L log ready ∅ nb d -> 0 <= limit -> ready = [] \/ limit ≠ 0 /\ limit <= nb -> ready = [].
Proof.
  intros Hr Hl [|[Hne Hle]]; [done|exfalso]. pose proof (Permutation_length (running_all_back _ _ _ _ _ _ _ Hr)) as Hlen.
  rewrite length_fmap in Hlen. pose proof (w_length _ _ _ (r_world _ _ _ _ _ _ _ _ Hr)).
  pose proof (r_nb _ _ _ _ _ _ _ _ Hr). lia.
Qed.

Lemma workflow_loop_over fuel limit nb d :
  workflow_loop (IS := IS) (Engine := Engine) (Host := Host) (V := V) str_find replace_id storage_set fuel wn limit [] ∅ nb d = Ok (d, Done tt).
Proof. by destruct fuel. Qed.

Lemma workflow_loop_spec limit (Q : unit -> Data -> list (positive * nat) -> Prop) :
  0 <= limit ->
  (forall d log js L nb, running limit js L log [] ∅ nb d -> Q tt d log) ->
  forall fuel js L log ready submitted nb d,
  running limit js L log ready submitted nb d -> (length T - length log <= fuel)%nat ->
  wp allowed (workflow_loop str_find replace_id storage_set fuel wn limit ready submitted nb) Q d log.
Proof.
  intros Hlim HQ. induction fuel as [|fuel IH]; intros js L log ready submitted nb d Hr Hfuel.
  { destruct (running_full _ _ _ _ _ _ _ _ Hr ltac:(lia)) as [-> ->].
    eapply wp_now; [apply workflow_loop_over|]. by eapply HQ. }
  destruct (bool_decide (ready = []) && bool_decide (submitted = ∅)) eqn:Hstop.
  { apply andb_true_iff in Hstop as [->%bool_decide_eq_true ->%bool_decide_eq_true].
    eapply wp_now; [apply workflow_loop_over|]. by eapply HQ. }
  cbn [workflow_loop]. rewrite Hstop. clear Hstop.
  apply wp_mbind. eapply running_submit_all; [exact Hr|]. intros d1 js1 L1 ready1 submitted1 nb1 Hr1 Hwhy. cbv beta iota.
  destruct (decide (submitted1 = ∅)) as [->|Hne].
  { rewrite bool_decide_true by done. pose proof (running_idle _ _ _ _ _ _ _ Hr1 Hlim Hwhy) as ->.
    eapply wp_now; [apply workflow_loop_over|]. by eapply HQ. }
  rewrite bool_decide_false by done. apply wp_mbind. unfold wait_for_job_completion. apply wp_mbind, wp_block.
  intros ans d2 log2 Hal. destruct (called_back _ Henv _ _ _ _ _ Hal) as (jp & j & Hjp & Hjl & Hj & -> & ->).
  apply wp_ret. cbv beta iota. destruct (jobs_kept _ Henv _ _ _ _ _ _ _ _ Hal Hj) as (j2 & Hj2 & <-).
  pose proof (running_kept _ _ _ _ _ _ _ _ _ Hr1 (world_kept _ Henv _ _ _ _ _ _ _ _ Hal (r_world _ _ _ _ _ _ _ _ Hr1))
    (tasks_kept _ Henv _ _ _ _ _ _ Hal)) as Hr2.
  assert (submitted_jobs (sd_context d1) = js1) as Hjs by apply (w_jobs _ _ _ (r_world _ _ _ _ _ _ _ _ Hr1)).
  rewrite Hjs in Hjp |- *.
  destruct (running_complete _ _ _ _ _ _ _ _ _ _ Hr2 Hjp Hjl Hj2) as (d3 & kids & Hc & Hr3).
  apply wp_mbind. eapply wp_now; [exact Hc|]. cbv beta. eapply IH; [exact Hr3|]. rewrite length_app. cbn. lia.
Qed.

(** What the process needs when it starts. *)
Record ready_to_run (wf : Workflow) (limit : Z) d : Prop := {
  rr_workflow : c_workflows (sd_context d) !! wn = Some wf;
  rr_name : wf_name wf = wn;
  rr_tasks : Permutation T (map_to_list (wf_tasks wf)).*2;
  rr_heap : ts_heap (c_tasks (sd_context d)) = th0;
  rr_limit : c_workflow_nb_concurrent_jobs_limit (sd_context d) = limit /\ 0 <= limit;
  rr_world : world [] [] ((sd_context d) <| c_task_id_counters ::= <[wn := 0]> |>);
}.

Lemma tasks_where_Ok test w h :
  (forall t, t ∈ (map_to_list (wf_tasks w)).*2 -> is_Some (h !! t)) ->
  exists l, tasks_where test w h = Ok l /\ forall T', Permutation T' (map_to_list (wf_tasks w)).*2 -> NoDup T' ->
    NoDup l /\ forall u, u ∈ l <-> u ∈ T' /\ exists x, h !! u = Some x /\ test x = true.
Proof.
  intros Hin. unfold tasks_where, in_key_order. set (tasks := merge_sort key_le (map_to_list (wf_tasks w))).
  assert (Permutation tasks.*2 (map_to_list (wf_tasks w)).*2) as Hperm by (unfold tasks; by rewrite merge_sort_Permutation).
  setoid_rewrite <- Hperm in Hin. setoid_rewrite <- Hperm. clearbody tasks. clear Hperm.
  enough (exists l, (forall acc, foldM (fun task_list (it : string * positive) =>
            t ← deref_task h it.2; Ok (if test t then task_list ++ [it.2] else task_list)) acc tasks = Ok (acc ++ l)) /\
          (forall u, u ∈ l <-> u ∈ tasks.*2 /\ exists x, h !! u = Some x /\ test x = true) /\
          (NoDup tasks.*2 -> NoDup l)) as (l & Hl & Hmem & Hnd).
  { exists l. split; [apply (Hl [])|]. intros T' HT' HN. split; [apply Hnd; by rewrite <- HT'|]. intros u. by rewrite Hmem, HT'. }
  induction tasks as [|[ky t] tasks IH].
  { exists []. split; [intros acc; by rewrite app_nil_r|]. split; [|done]. intros u. cbn. split; [by intros ?%not_elem_of_nil|].
    by intros [?%not_elem_of_nil _]. }
  destruct IH as (l & Hl & Hmem & Hnd); [intros u Hu; apply Hin; by right|].
  destruct (Hin t) as [x Hx]; [by left|]. cbn in *.
  exists (if test x then t :: l else l). split; [|split].
  - intros acc. rewrite (proj2 (deref_task_Ok _ _ _) Hx), !Ok_bind, Hl. destruct (test x); [by rewrite <- app_assoc|done].
  - intros u. rewrite elem_of_cons. destruct (test x) eqn:Ht; rewrite ?elem_of_cons, Hmem; split.
    + intros [->|[? ?]]; [split; [by left|by exists x]|tauto].
    + intros [[->|?] ?]; [by left|tauto].
    + intros [? ?]. tauto.
    + intros [[->|?] (y & Hy & Hty)]; [congruence|]. split; [done|by exists y].
  - intros [Hni HN]%NoDup_cons. destruct (test x); [|by apply Hnd]. constructor; [|by apply Hnd].
    by intros [? _]%Hmem.
Qed.

Lemma running_start limit ready d :
  world [] [] (sd_context d) -> ts_heap (c_tasks (sd_context d)) = th0 -> 0 <= limit -> NoDup ready ->
  (forall u, u ∈ ready <-> u ∈ T /\ exists x, th0 !! u = Some x /\ bool_decide (parents x = []) = true) ->
  running limit [] [] [] ready ∅ 0 d.
Proof.
  intros Hw Hh Hl Hnd Hready.
  assert (forall n p, ~ completed [] [] [] n p) as Hno by by intros n p (k & jp & m & Hk & _).
  split; try done.
  - constructor.
  - by intros t ?%not_elem_of_nil.
  - constructor.
  - by intros jp m ?%not_elem_of_nil.
  - exists []. rewrite Hh. split; [by eapply heap_after_start|]. intros t. split; [by intros ?%not_elem_of_nil|]. by intros ?%Hno.
  - intros ky t. rewrite lookup_empty. split; [done|]. by intros (k & jp & _ & Hk & _).
  - intros u. rewrite Hready. split.
    + intros (Hu & x & Hx & Hp%bool_decide_eq_true). split; [done|]. split; [apply not_elem_of_nil|].
      intros x0 p Hx0. rewrite Hx in Hx0. injection Hx0 as <-. rewrite Hp. by intros ?%not_elem_of_nil.
    + intros (Hu & _ & Hd). split; [done|]. destruct (dag_task _ _ _ Hdag _ Hu) as [x Hx]. exists x. split; [done|].
      apply bool_decide_eq_true. destruct (parents x) as [|p l] eqn:Hp; [done|]. exfalso.
      apply (Hno 0%nat p), (Hd x p Hx). rewrite Hp. by left.
  - lia.
Qed.

Lemma world_sent js L c l :
  omap (announcement (submitter_of wn)) l = [] -> world js L c -> world js L (c <| c_sent ::= fun sent => sent ++ l |>).
Proof.
  intros Hl []. constructor; try done. rewrite announcements_app, Hl, app_nil_r. done.
Qed.

Lemma running_done limit js L log nb d : running limit js L log [] ∅ nb d -> all_tasks_run limit d log L.
Proof.
  intros Hr. pose proof (running_over _ _ _ _ _ _ Hr) as HL. pose proof (running_all_back _ _ _ _ _ _ _ Hr) as Hlog.
  destruct Hr as [[<- Hlen Hdesc _ _ _ _ _] _ _ _ _ _ _ _ _ _ _ Hpar Hpace]. split; try done.
Qed.

(** The goodbye; the server may take its time to receive it. *)
Lemma goodbye_comes_last limit js L log nb d :
  running limit js L log [] ∅ nb d ->
  wp allowed (say_bye (submitter_of wn) JOB_SUBMITTER true)
    (fun _ d' log => (exists L, all_tasks_run limit d' log L) /\
       exists before m after, c_sent (sd_context d') = before ++ m :: after /\ sm_mailbox m = "server" /\
         sm_message m = mk_IPMessage SUBMITTER_BYE (SubmitterByeMessage (submitter_of wn) JOB_SUBMITTER true) /\
         concat (omap (announcement (submitter_of wn)) after).*2 = []) d log.
Proof.
  intros Hrun. apply send_wp. intros n u d' log' Hal. rewrite (puts_quietly _ Henv _ _ _ _ _ _ _ Hal).
  pose proof (r_world _ _ _ _ _ _ _ _ Hrun) as Hw.
  assert (world js L (sd_context (posted "server" SUBMITTER_BYE (SubmitterByeMessage (submitter_of wn) JOB_SUBMITTER true) d))) as Hwp
    by by apply world_sent.
  assert (world js L (sd_context d')) as Hw' by (eapply world_kept; [exact Henv|exact Hal|exact Hwp]).
  split.
  - exists L. apply running_done with (js := js) (nb := nb). eapply running_kept; [exact Hrun|exact Hw'|].
    exact (tasks_kept _ Henv _ _ _ _ _ _ Hal).
  - destruct (messages_stay _ Henv _ _ _ _ _ _ Hal) as [after Hafter].
    exists (c_sent (sd_context d)). eexists. exists after. rewrite Hafter. unfold posted, send_message. cbn. rewrite <- app_assoc.
    split; [done|]. split; [done|]. split; [done|].
    pose proof (w_jobs _ _ _ Hw') as Hj. rewrite <- (w_jobs _ _ _ Hwp) in Hj. unfold announcements in Hj.
    rewrite Hafter, omap_app, fmap_app, concat_app in Hj. rewrite <- (app_nil_r (concat (omap (announcement (submitter_of wn)) (c_sent (sd_context (posted _ _ _ _)))).*2)) in Hj at 2.
    by eapply app_inv_head.
Qed.

(** C4. The workflow submitter, on an acyclic workflow whose edges are declared once:
    if each of its jobs is called back once, it ends, whatever the order of the
    callbacks; it has made one job of each task, with the task's duration, and
    submitted it only when the jobs of all the parents had been called back; there
    were never more jobs in progress than the limit; its goodbye comes last. *)
Theorem workflow_submitter_runs_every_task wf limit fuel d :
  ready_to_run wf limit d -> (length T <= fuel)%nat ->
  wp allowed (workflow_submitter_process str_find replace_id storage_set fuel wn)
    (fun _ d' log => (exists L, all_tasks_run limit d' log L) /\
       exists before m after, c_sent (sd_context d') = before ++ m :: after /\ sm_mailbox m = "server" /\
         sm_message m = mk_IPMessage SUBMITTER_BYE (SubmitterByeMessage (submitter_of wn) JOB_SUBMITTER true) /\
         concat (omap (announcement (submitter_of wn)) after).*2 = []) d [].
Proof.
  intros [Hwf Hname HT Hheap [Hlimit Hpos] Hworld] Hfuel. unfold workflow_submitter_process.
  apply wp_mbind. eapply wp_read; [unfold Workflows_at; by rewrite Hwf|].
  apply wp_mbind. eapply wp_read; [done|]. rewrite Hlimit, Hname.
  apply wp_mbind. eapply wp_change; [done|]. cbv beta. set (d1 := _ : Data).
  apply wp_mbind, send_wp. intros n u d2 log Hal. rewrite (puts_quietly _ Henv _ _ _ _ _ _ _ Hal) in *.
  assert (world [] [] (sd_context d2)) as Hw2 by (eapply world_kept; [exact Henv|exact Hal|by apply world_sent]).
  assert (ts_heap (c_tasks (sd_context d2)) = th0) as Hh2.
  { rewrite (tasks_kept _ Henv _ _ _ _ _ _ Hal). exact Hheap. }
  destruct (tasks_where_Ok (fun t => bool_decide (parents t = [])) wf th0) as (ready & Hready & Hr).
  { intros t Ht. apply (dag_task _ _ _ Hdag). by rewrite HT. }
  destruct (Hr T HT (dag_nodup _ _ _ Hdag)) as [Hnd Hmem].
  apply wp_mbind. eapply wp_read; [unfold get_source_tasks; by rewrite Hh2|].
  apply wp_mbind. eapply wp_read; [done|]. apply wp_mbind, wp_block. intros u3 d3 log3 Hal3.
  rewrite (sleeps_quietly _ Henv _ _ _ _ _ _ Hal3) in *. apply wp_mbind.
  eapply workflow_loop_spec with (limit := limit) (js := []) (L := []); try done.
  - intros d4 log4 js L nb Hrun. by eapply goodbye_comes_last.
  - apply running_start; try done.
    + eapply world_kept; [exact Henv|exact Hal3|exact Hw2].
    + by rewrite (tasks_kept _ Henv _ _ _ _ _ _ Hal3).
  - cbn. lia.
Qed.
End Run.
