(* ===== verification/WorkflowExamples.v ===== *)
(** * A workflow of four tasks

    A diamond read from its XML description, and its submitter, whose jobs are
    called back in any order: the hypotheses of the theorems on workflows hold
    there, and what they say is evaluated. *)

From S2P Require Import Prelude Interfaces Profiles Jobs NumericStrcmp Outputs Machines Workload Tracers Ipp PState Writer NumberParsing Workflow WorkflowFacts Context ContextFacts Server Actors TaskExecution SwitchProcesses JobsExecution Submitters ServerFacts ServerExamples SubmittersFacts WorkflowRuns.

Module WorkflowExamples.
Import Concrete MachineExamples JobExamples WorkloadExamples.

(** ** XML nodes *)

Inductive xml := Xml (tag : string) (attributes : list (string * string)) (nodes : list xml).
Definition tag_of (n : xml) : string := match n with Xml tag _ _ => tag end.

Definition job_node (id runtime : string) : xml := Xml "job" [("id", id); ("runtime", runtime)] [].
Definition child_node (id : string) (ps : list string) : xml :=
  Xml "child" [("ref", id)] ((fun p => Xml "parent" [("ref", p)] []) <$> ps).
Definition diamond : xml :=
  Xml "" [] [Xml "adag" [] [job_node "a" "1"; job_node "b" "2"; job_node "c" "3"; job_node "d" "4";
                            child_node "b" ["a"]; child_node "c" ["a"]; child_node "d" ["b"; "c"]]].
(** Two tasks without a parent, the first of which has a child. *)
Definition fork : xml :=
  Xml "" [] [Xml "adag" [] [job_node "a" "5"; job_node "b" "5"; job_node "c" "5"; child_node "c" ["a"]]].

#[export] Instance concrete_xml : PugiXml xml := {
  xml_load_file name := if String.eqb name "/fork.xml" then Some fork else Some diamond;
  xml_children n name := match n with Xml _ _ nodes => List.filter (fun m => String.eqb (tag_of m) name) nodes end;
  xml_attribute n name := match n with
                          | Xml _ attributes _ => snd <$> List.find (fun a => String.eqb a.1 name) attributes
                          end;
}.

Definition loaded : Workflow * task_store :=
  match load_from_xml "diamond.xml" (new_Workflow "wf") (mk_task_store ∅ 1) with
  | Ok r => r
  | Err _ => (new_Workflow "", mk_task_store ∅ 1)
  end.
Definition wf : Workflow := loaded.1.
Definition th0 : task_heap := ts_heap loaded.2.
Definition T : list positive := [1; 2; 3; 4]%positive.

Lemma loaded_ok : load_from_xml "diamond.xml" (new_Workflow "wf") (mk_task_store ∅ 1) = Ok loaded.
Proof. vm_compute. reflexivity. Qed.

Definition a_task (runtime : Q) (id : string) (ps cs : list positive) : Task := mk_Task 1 runtime id None ps cs 0 0.
Definition task_a := a_task 1 "a" [] [2; 3]%positive.
Definition task_b := a_task 2 "b" [1]%positive [4]%positive.
Definition task_c := a_task 3 "c" [1]%positive [4]%positive.
Definition task_d := a_task 4 "d" [2; 3]%positive [].

Lemma th0_tasks : th0 !! 1%positive = Some task_a /\ th0 !! 2%positive = Some task_b /\
  th0 !! 3%positive = Some task_c /\ th0 !! 4%positive = Some task_d.
Proof. vm_compute. repeat split. Qed.

Definition edges : list (positive * positive) := [(1, 2); (1, 3); (2, 4); (3, 4)]%positive.

Example load_from_xml_spec_witness :
  exists t, th0 !! 4%positive = Some t /\ t_id t = "d" /\ 1 <= num_procs t /\ parents t = [2; 3]%positive.
Proof.
  destruct (load_from_xml_spec "diamond.xml" "wf" wf loaded.2 loaded_ok) as (doc & es & Hdoc & Hedges & Hspec).
  injection Hdoc as <-.
  assert (declared_edges wf [child_node "b" ["a"]; child_node "c" ["a"]; child_node "d" ["b"; "c"]] =
          Ok edges) as He by (vm_compute; reflexivity).
  cbn [diamond xml_children concrete_xml List.filter tag_of head] in Hedges.
  pose proof (eq_trans (eq_sym He) Hedges) as [= <-].
  destruct (Hspec "d" 4%positive ltac:(vm_compute; reflexivity)) as (t & Ht & Hid & Hnp & _ & Hp & _).
  exists t. split; [exact Ht|]. split; [exact Hid|]. split; [exact Hnp|]. rewrite Hp. reflexivity.
Defined.

(** ** JSON texts, of which only the members of a job are read *)

Inductive text := Text (s : string) | TextString (s : string) | TextNumber.

Fixpoint until_quote (s : string) : string :=
  match s with
  | EmptyString => EmptyString
  | String ch s => if Ascii.eqb ch "034" then EmptyString else String ch (until_quote s)
  end.
Definition id_of (s : string) : string := until_quote (substring 8 (String.length s) s).
Definition profile_of (s : string) : string := substring (String.length s - 6) 4 s.

#[export] Instance text_json : RapidJson text := {
  IsObject v := match v with Text _ => true | _ => false end;
  IsArray _ := false;
  IsString v := match v with TextString _ => true | _ => false end;
  IsNumber v := match v with TextNumber => true | _ => false end;
  IsInt v := match v with TextNumber => true | _ => false end;
  members v := match v with
               | Text s => [("id", TextString (id_of s)); ("subtime", TextNumber); ("walltime", TextNumber);
                            ("res", TextNumber); ("profile", TextString (profile_of s))]
               | _ => []
               end;
  array_values _ := [];
  GetString v := match v with TextString s => Ok s | _ => Err (Undef "GetString") end;
  GetDouble _ := Ok 1%Q;
  GetInt _ := Ok 1;
  serialize v := match v with Text s => s | _ => "" end;
  parse_json s := Some (Text s);
}.

Lemma until_quote_app s1 s2 : str_contains_char "034" s1 = false -> until_quote (s1 +:+ String "034" s2) = s1.
Proof.
  unfold str_contains_char. induction s1 as [|ch s1 IH]; [done|]. cbn [list_ascii_of_string existsb].
  intros [Hch Hs]%orb_false_iff. change (String ch s1 +:+ String "034" s2) with (String ch (s1 +:+ String "034" s2)).
  cbn [until_quote]. by rewrite Ascii.eqb_sym, Hch, IH.
Qed.

Lemma substring_app n m s1 s2 : substring (String.length s1 + n) m (s1 +:+ s2) = substring n m s2.
Proof. induction s1 as [|ch s1 IH]; [done|]. exact IH. Qed.

Lemma substring_all s : forall n, (String.length s <= n)%nat -> substring 0 n s = s.
Proof. induction s as [|ch s IH]; intros [|n] Hn; cbn in *; [done|done|lia|]. by rewrite IH by lia. Qed.

Lemma profile_of_app s1 s2 : String.length s2 = 6%nat -> profile_of (s1 +:+ s2) = substring 0 4 s2.
Proof.
  intros Hs. unfold profile_of. rewrite str_length_app, Hs. replace (String.length s1 + 6 - 6)%nat with (String.length s1 + 0)%nat by lia.
  apply substring_app.
Qed.

(** ** The initial state *)

#[local] Abbreviation Ctx := (BatsimContext (list Z) engine host text).
#[local] Abbreviation Data := (ServerData (list Z) engine host text).

Definition ctx : Ctx :=
  mk_Context an_engine ServerExamples.options root new_Writer ms {["wf" := new_dynamic_workload "wf"]} (mk_store ∅ ∅ 1 1)
    {["wf" := wf]} loaded.2 1 ∅ ∅ (v_paje v) None
    (mk_EnergyConsumptionTracer None 0 0) None (v_states v) TracerExamples.start ∅ (JObject []) false 0 0 0 0 [] 1 [] [].
Definition data : Data := initial_data ctx.

(** The callbacks come in any order. *)
Definition any_order (log : list (positive * nat)) (b : blocking (list Z) host) (d : Data) (ans : answer b) (d' : Data)
    (log' : list (positive * nat)) : Prop :=
  d' = d /\
  match b as b0 return answer b0 -> Prop with
  | await_message _ => fun ans => exists jp j,
      jp ∈ submitted_jobs "wf" (sd_context d) /\ (jp ∉ log.*1) /\ s_jobs (c_store (sd_context d)) !! jp = Some j /\
      ans = SubmitterJobCompletionCallbackMessage (id j) /\
      log' = log ++ [(jp, length (submitted_jobs "wf" (sd_context d)))]
  | _ => fun _ => log' = log
  end ans.

Lemma any_order_calls_back : calls_back "wf" th0 T any_order.
Proof.
  constructor; unfold any_order.
  - by intros log d ans d' log' [_ ?].
  - by intros log t d u d' log' [_ ?].
  - by intros log mbox n d u d' log' [_ ?].
  - intros log b d a d' log' [-> _]. exists []. by rewrite app_nil_r.
  - by intros log b d a d' log' js L [-> _].
  - intros log b d a d' log' jp j [-> _] Hj. by exists j.
  - by intros log b d a d' log' [-> _].
Qed.

Definition str_find (s w : string) : bool := true.
Definition replace_id (s jid : string) : string := s.
Definition storage_set (key value : string) : result unit := Ok tt.

Definition tasks : list (positive * Task) := [(1, task_a); (2, task_b); (3, task_c); (4, task_d)]%positive.

(** Goes through the four tasks. *)
Ltac each_task Ht :=
  unfold tasks in Ht; rewrite ?elem_of_cons in Ht;
  destruct Ht as [Ht|[Ht|[Ht|[Ht|Ht%not_elem_of_nil]]]]; [| | | |done]; simplify_eq.

Section Diamond.
Context (h : task_heap).
Context (Hh : h !! 1%positive = Some task_a /\ h !! 2%positive = Some task_b /\ h !! 3%positive = Some task_c /\ h !! 4%positive = Some task_d).

Lemma h_elements t x : t ∈ T /\ h !! t = Some x <-> (t, x) ∈ tasks.
Proof.
  destruct Hh as (Ha & Hb & Hc & Hd). unfold T, tasks. rewrite !elem_of_cons. split.
  - intros [[->|[->|[->|[->|Ht%not_elem_of_nil]]]] Hx]; [| | | |done]; rewrite Hx in *; simplify_eq; tauto.
  - intros [[= -> ->]|[[= -> ->]|[[= -> ->]|[[= -> ->]|Ht%not_elem_of_nil]]]]; [tauto..|done].
Qed.

Lemma diamond_is_dag : dag h T Pos.to_nat.
Proof.
  split.
  - apply (bool_decide_unpack _). vm_compute. exact I.
  - destruct Hh as (Ha & Hb & Hc & Hd). unfold T. intros t. rewrite !elem_of_cons.
    intros [->|[->|[->|[->|Ht%not_elem_of_nil]]]]; [by eexists..|done].
  - intros t x Ht Hx. split.
    + pose proof (proj1 (h_elements t x) (conj Ht Hx)) as Hin. each_task Hin; apply (bool_decide_unpack _); vm_compute; exact I.
    + intros u. transitivity (exists y, (u, y) ∈ tasks /\ t ∈ parents y);
        [|setoid_rewrite <- h_elements; naive_solver].
      pose proof (proj1 (h_elements t x) (conj Ht Hx)) as Hin. clear Ht Hx. split.
      * intros Hu. each_task Hin; cbn in Hu; rewrite ?elem_of_cons in Hu;
          repeat (destruct Hu as [->|Hu]); try (by apply not_elem_of_nil in Hu);
          unfold tasks; eexists; rewrite !elem_of_cons; (split; [eauto|cbn; rewrite ?elem_of_cons; tauto]).
      * intros (y & Hy & Hp). each_task Hy; cbn in Hp; rewrite ?elem_of_cons in Hp;
          repeat (destruct Hp as [->|Hp]); try (by apply not_elem_of_nil in Hp); each_task Hin; try done;
          cbn; rewrite ?elem_of_cons; tauto.
  - intros t x p Ht Hx Hp. pose proof (proj1 (h_elements t x) (conj Ht Hx)) as Hin. clear Ht Hx.
    each_task Hin; cbn in Hp; rewrite ?elem_of_cons in Hp; repeat (destruct Hp as [->|Hp]);
      try (by apply not_elem_of_nil in Hp); unfold T; rewrite !elem_of_cons; (split; [tauto|lia]).
  - intros t x Ht Hx. pose proof (proj1 (h_elements t x) (conj Ht Hx)) as Hin.
    each_task Hin; (split; [apply (bool_decide_unpack _); vm_compute; exact I|cbn; lia]).
  - intros t x Ht Hx. pose proof (proj1 (h_elements t x) (conj Ht Hx)) as Hin. by each_task Hin.
  - intros t u x y Ht Hu Hx Hy. pose proof (proj1 (h_elements t x) (conj Ht Hx)) as Hin.
    pose proof (proj1 (h_elements u y) (conj Hu Hy)) as Hin'. clear Ht Hu Hx Hy.
    each_task Hin; each_task Hin'; done.
Qed.
End Diamond.

Lemma diamond_dag : dag th0 T Pos.to_nat.
Proof. exact (diamond_is_dag th0 th0_tasks). Qed.

Lemma description_id_of (k : nat) date exec procs name :
  id_of (task_job_description "wf" (fmt_d (Z.of_nat k)) date exec procs name) = key "wf" k.
Proof.
  unfold id_of. set (s := task_job_description _ _ _ _ _ _). pose (p := "{" +:+ dq +:+ "id" +:+ dq +:+ ": " +:+ dq).
  assert (exists rest, s = p +:+ (key "wf" k +:+ String "034" rest)) as [rest ->].
  { eexists. unfold s, p, task_job_description, json_key, json_string, key, representation. cbn [dq].
    rewrite !str_app_assoc. reflexivity. }
  change 8%nat with (String.length p + 0)%nat. rewrite substring_app, substring_all by (rewrite !str_length_app; lia).
  apply until_quote_app. unfold key, representation, str_contains_char.
  change (list_ascii_of_string ("wf" +:+ String "!" (fmt_d (Z.of_nat k))))
    with (["w"; "f"; "!"]%char ++ list_ascii_of_string (fmt_d (Z.of_nat k))).
  rewrite existsb_app. exact (fmt_d_contains "034" k eq_refl).
Qed.

Lemma description_profile_of (number : string) date exec procs name :
  String.length name = 4%nat ->
  profile_of (task_job_description "wf" number date exec procs name) = name.
Proof.
  intros Hn. unfold task_job_description, json_key, json_string.
  match goal with |- profile_of ?s = _ => assert (exists rest, s = rest +:+ (name +:+ (dq +:+ "}"))) as [rest ->] end.
  { eexists. rewrite <- !str_app_assoc. reflexivity. }
  rewrite profile_of_app by (rewrite str_length_app, Hn; done).
  do 5 (destruct name as [|? name]; try done).
Qed.

Lemma diamond_reads_back : json_reads_back (IS := list Z) str_find replace_id "wf" th0 T.
Proof.
  intros ps k date t x0 ptr Ht Hx Hp. pose proof (proj1 (h_elements th0 th0_tasks t x0) (conj Ht Hx)) as Hin. clear Ht Hx.
  assert (String.length (profile_name_of "wf" x0) = 4%nat) as Hlen by by each_task Hin.
  unfold Job_from_json_str. cbn [parse_json text_json]. unfold Job_from_json.
  set (s := task_job_description _ _ _ _ _ _).
  assert (job_id_of_json str_find "wf" (Text s) = Ok (mk_JobIdentifier "wf" (fmt_d (Z.of_nat k)) (key "wf" k))) as Hid.
  { unfold job_id_of_json. change (job_id_str_of_json (Text s)) with (Ok (id_of s)). rewrite Ok_bind. cbn [str_find negb].
    unfold s. rewrite description_id_of. unfold JobIdentifier_of_string, key, representation.
    rewrite split_compress_pair by (done || by apply fmt_d_contains). cbn.
    unfold JobIdentifier_of_names, is_lexically_valid. by rewrite fmt_d_contains. }
  change (xbt_assert (IsObject (Text s)) "one job is not an object") with (Ok (A := unit) tt).
  rewrite Ok_bind, Hid, Ok_bind.
  change (require_number (Text s) "subtime") with (Ok (A := Q) 1%Q).
  change (walltime_of_json (Text s)) with (Ok (A := Q) 1%Q).
  change (requested_nb_res_of_json (Text s)) with (Ok (A := Z) 1).
  change (require_string (Text s) "profile") with (Ok (A := string) (profile_of s)).
  rewrite !Ok_bind. unfold s. rewrite description_profile_of by done. fold s.
  unfold Profiles_exists, Profiles_at. rewrite Hp. cbn [xbt_assert]. rewrite !Ok_bind.
  change (check_description (V := text) (replace_id (serialize (Text s)) (ji_to_string (mk_JobIdentifier "wf" (fmt_d (Z.of_nat k)) (key "wf" k)))))
    with (Ok (A := unit) tt).
  change (smpi_mapping_of_json 1 (Text s)) with (Ok (A := list Z) []). rewrite !Ok_bind.
  eexists. split; [reflexivity|]. done.
Qed.

Lemma wf_tasks_of_T : Permutation T (map_to_list (wf_tasks wf)).*2.
Proof.
  replace (map_to_list (wf_tasks wf)).*2 with [3; 1; 2; 4]%positive by (vm_compute; reflexivity).
  symmetry. exact (Permutation_middle [1; 2]%positive [4]%positive 3%positive).
Qed.

Definition numbered : Ctx := ctx <| c_task_id_counters ::= <["wf" := 0]> |>.
Lemma diamond_world : world "wf" th0 T [] [] numbered.
Proof.
  constructor.
  - reflexivity.
  - reflexivity.
  - intros k jp t Hk. discriminate Hk.
  - exists (new_dynamic_workload "wf"). split; [vm_compute; reflexivity|]. split; [reflexivity|]. split.
    + intros t x0 _ _ _. apply lookup_empty.
    + intros k _. apply not_elem_of_empty.
  - vm_compute. reflexivity.
  - reflexivity.
  - intros jp j Hj. discriminate Hj.
  - intros ptr p Hp. discriminate Hp.
Qed.

Lemma diamond_ready : ready_to_run "wf" th0 T wf 1 data.
Proof.
  constructor.
  - vm_compute. reflexivity.
  - vm_compute. reflexivity.
  - exact wf_tasks_of_T.
  - reflexivity.
  - split; [reflexivity|]. unfold Z.le. discriminate.
  - exact diamond_world.
Qed.

(** One job at a time: the run below announces the four jobs in order. *)
Definition first_come : @oracle Data (list Z) host := fun b =>
  match b as b0 return Data -> answer b0 * Data with
  | await_message _ => fun d =>
      (match last (submitted_jobs "wf" (sd_context d)) ≫= fun jp => s_jobs (c_store (sd_context d)) !! jp with
       | Some j => SubmitterJobCompletionCallbackMessage (id j)
       | None => NoData
       end, d)
  | sleep_for _ => fun d => (tt, d)
  | execute _ => fun d => (tt, d)
  | wait_ptask _ _ _ _ => fun d => (PtaskFinished, d)
  | mailbox_get _ _ => fun d => (None, d)
  | mailbox_put _ _ | put_message _ _ => fun d => (tt, d)
  end.
Definition process : Actors.M Data (list Z) host unit := workflow_submitter_process str_find replace_id storage_set 4 "wf".
Definition final : option (list positive) :=
  match process data with
  | Ok (d, p) => match run 15 first_come d p with Ok (d, _) => Some (submitted_jobs "wf" (sd_context d)) | Err _ => None end
  | Err _ => None
  end.

Example workflow_submitter_runs_every_task_witness :
  final = Some [1; 2; 3; 4]%positive /\
  wp any_order process (fun _ d' log => exists L, Permutation L T /\ Permutation log.*1 (submitted_jobs "wf" (sd_context d'))) data [].
Proof.
  split; [vm_compute; reflexivity|]. eapply wp_mono.
  - apply (workflow_submitter_runs_every_task str_find replace_id storage_set "wf" eq_refl th0 T Pos.to_nat diamond_dag
             diamond_reads_back any_order any_order_calls_back wf 1 4 data diamond_ready). vm_compute. reflexivity.
  - intros u d' log [[L [Hperm Hback _ _ _]] _]. exists L. split; [exact Hperm|exact Hback].
Defined.
End WorkflowExamples.
