(* ===== verification/Simulation.v ===== *)
(** * A simulation, from the arguments to the outputs (src/batsim.cpp)

    What [main] does between the parsing of the arguments and the run of the
    engine. *)

From S2P Require Import Prelude Interfaces Profiles Jobs Storage NumericStrcmp Outputs Machines Workload Tracers Ipp PState Writer NumberParsing Workflow Context Server Actors SwitchProcesses EnvTrace Main OutputFiles.

(** ** Before the engine runs *)

Section Simulation.
Context {IS Engine Host V N : Type} `{IntervalSet IS} `{SimGrid Engine Host} `{RapidJson V} `{BoostString} `{FileSystem} `{PugiXml N}.
Context (str_find : string -> string -> bool) (replace_id : string -> string -> string).
Context (read_file : string -> option string).
(** [simgrid::s4u::Engine::load_platform]: the hosts, in the order of the engine, and the zone that contains them. *)
Context (load_platform : string -> result (list Host * NetZone Host)).
#[local] Abbreviation Ctx := (BatsimContext IS Engine Host V).
Implicit Types (c : Ctx).

Definition create_the_machines (main_args : MainArguments) (max_nb_machines_to_use : Z) c : result Ctx :=
  '(hosts, root) ← load_platform (platform_filename main_args);
  ms ← create_machines (c_engine c) (energy_used (c_options c)) (hosts_roles_map main_args) hosts root
         max_nb_machines_to_use (c_machines c);
  Ok (c <| c_root_zone := root |> <| c_machines := ms |>).

(** [main], from the configuration of the context to the first processes; without
    the connections to Redis and to the scheduler. *)
Definition prepare_simulation (main_args : MainArguments) c : result Ctx :=
  c ← set_configuration read_file main_args c;
  '(max_nb_machines_to_use, c) ← load_workloads_and_workflows str_find replace_id read_file main_args c;
  c ← load_eventLists main_args c;
  smpi ← Workloads_contains_smpi_job (c_store c) (c_workloads c);
  let c := c <| c_options ::= fun o => o <| smpi_used := smpi |> |> in
  c ← create_the_machines main_args max_nb_machines_to_use c;
  c ← prepare_batsim_outputs c;
  start_initial_simulation_processes main_args (bool_decide (program_type main_args = BATEXEC)) c.

(** *** The libraries *)

(** The calls to SimGrid that set it up. *)
Inductive library_call :=
| xbt_log_control_set (setting : string)
| sg_host_energy_plugin_init
| sg_host_environmental_footprint_plugin_init
| set_config (setting : string)
| SMPI_app_instance_register (name : string) (nb_ranks : Z)
| SMPI_init
| xbt_replay_action_register (name : string).

(** In order; the applications are those of the jobs loaded. *)
Definition library_calls (main_args : MainArguments) (st : store IS) (workloads : Workloads) : result (list library_call) :=
  smpi_used ← Workloads_contains_smpi_job st workloads;
  applications ← (if smpi_used : bool then Workloads_register_smpi_applications st workloads else Ok []);
  Ok ((xbt_log_control_set <$> configure_batsim_logging_output main_args) ++
      (if a_energy_used main_args then [sg_host_energy_plugin_init] else []) ++
      (if a_environmental_footprint_used main_args then [sg_host_environmental_footprint_plugin_init] else []) ++
      (set_config <$> simgrid_config main_args) ++ (xbt_log_control_set <$> simgrid_logging main_args) ++
      [set_config "host/model:ptask_L07"] ++
      ((fun a => SMPI_app_instance_register a.1 a.2) <$> applications) ++ (if smpi_used : bool then [SMPI_init] else []) ++
      [xbt_replay_action_register "m_usage"]).

(** Redis, when there is a scheduler. *)
Definition prepare_storage {Db} `{Redox Db} (main_args : MainArguments) c (storage : RedisStorage Db) : result (RedisStorage Db) :=
  if bool_decide (program_type main_args = BATSIM) && redis_enabled (c_options c) then
    storage ← connect_to_server (redis_hostname main_args) (redis_port main_args)
                (set_instance_key_prefix (redis_prefix main_args) storage);
    '(_, storage) ← Storage.set "nb_res" (fmt_d (nb_machines (c_machines c))) storage;
    Ok storage
  else Ok storage.

(** [main] prints the context and stops, stops with a code, or simulates: the engine
    then runs the processes of the context. *)
Inductive main_outcome (Db : Type) :=
| Prints (execution_context : jvalue V)
| Returns (return_code : Z)
| Simulates (main_args : MainArguments) (calls : list library_call) (context : Ctx) (storage : RedisStorage Db).
Arguments Prints {Db}. Arguments Returns {Db}. Arguments Simulates {Db}.

Definition main {Args Db} `{Docopt Args} `{Redox Db} (file_exists : string -> bool) (getcwd : string)
  (split_on : ascii -> string -> list string) (args : Args) c (storage : RedisStorage Db) : result (main_outcome Db) :=
  '(main_args, return_code, run_simulation) ← parse_main_args file_exists getcwd split_on args;
  if dump_execution_context main_args then Ok (Prints (execution_context main_args))
  else if negb run_simulation then Ok (Returns return_code)
  else
    c ← prepare_simulation main_args c;
    calls ← library_calls main_args (c_store c) (c_workloads c);
    storage ← prepare_storage main_args c storage;
    Ok (Simulates main_args calls c storage).
End Simulation.
Arguments Prints {IS Engine Host V Db}.
Arguments Returns {IS Engine Host V Db}.
Arguments Simulates {IS Engine Host V Db}.

