(* ===== verification/MainFacts.v ===== *)
(** * What the command line and the start guarantee (theorems on src/batsim.cpp)

    The arguments that are accepted, what the return code tells, and that each of
    the first processes finds what it is in charge of. *)

From S2P Require Import Prelude Interfaces Profiles Jobs Storage NumericStrcmp Outputs Machines Workload Tracers Ipp PState Writer NumberParsing Workflow WorkflowFacts Context Server Actors SwitchProcesses EnvTrace Main.

(** ** Accepted arguments *)

Section ParseFacts.
Context {Args : Type} `{Docopt Args}.
Context (file_exists : string -> bool) (getcwd : string) (split_on : ascii -> string -> list string).
Implicit Types (args : Args) (p : parsing).

(** What holds of accepted descriptions: all workloads, those of the workflows
    included, have distinct names. *)
Record inputs_ok (m : MainArguments) : Prop := {
  io_names : NoDup ((wd_name <$> workload_descriptions m) ++ (fd_workload_name <$> workflow_descriptions m));
  io_workflows d : d ∈ workflow_descriptions m -> fd_workload_name d = fd_name d /\ (0 <= fd_start_time d)%Q;
  io_events : NoDup (ed_name <$> eventList_descriptions m);
}.

Lemma fmt_d_inj (i j : nat) : fmt_d (Z.of_nat i) = fmt_d (Z.of_nat j) -> i = j.
Proof. unfold fmt_d. intros Hp%(inj pretty). lia. Qed.

(** A fold over numbered texts keeps a property that speaks of the next number. *)
Lemma foldM_imap {A S} (f : S -> nat * A -> result S) (P : nat -> S -> Prop) (l : list A) : forall k s s',
  (forall i a s s', P i s -> f s (i, a) = Ok s' -> P (Datatypes.S i) s') ->
  P k s -> foldM f s (imap (fun i a => ((k + i)%nat, a)) l) = Ok s' -> exists i, P i s'.
Proof.
  induction l as [|a l IH]; intros k s s' Hf HP; cbn [imap foldM].
  - intros [= <-]. by exists k.
  - rewrite Nat.add_0_r. intros (s1 & Hs1 & Hrest)%bind_Ok. eapply (IH (Datatypes.S k) s1); [exact Hf|by eapply Hf|].
    rewrite <- Hrest. f_equal. apply imap_ext. intros i x _. cbn. f_equal. lia.
Qed.

Lemma foldM_numbered {A S} (f : S -> nat * A -> result S) (P : nat -> S -> Prop) (l : list A) s s' :
  (forall i a s s', P i s -> f s (i, a) = Ok s' -> P (Datatypes.S i) s') ->
  P 0%nat s -> foldM f s (imap pair l) = Ok s' -> exists i, P i s'.
Proof. apply (foldM_imap f P l 0). Qed.

(** The names of these texts are the first ones. *)
Definition below (prefix : string) (k : nat) (names : list string) : Prop :=
  NoDup names /\ forall name, name ∈ names -> exists i : nat, (i < k)%nat /\ name = prefix +:+ fmt_d (Z.of_nat i).

Lemma below_next prefix k names : below prefix k names -> below prefix (Datatypes.S k) (names ++ [prefix +:+ fmt_d (Z.of_nat k)]).
Proof.
  intros [Hnd Hb]. split.
  - apply NoDup_app. split; [done|]. split; [|apply NoDup_singleton]. intros x (i & Hi & ->)%Hb He%list_elem_of_singleton.
    apply (inj (String.app prefix)), fmt_d_inj in He. lia.
  - intros name [(i & Hi & ->)%Hb| ->%list_elem_of_singleton]%elem_of_app; [exists i|exists k]; (split; [lia|done]).
Qed.

Lemma below_more prefix k k' names : below prefix k names -> (k <= k')%nat -> below prefix k' names.
Proof. intros [Hnd Hb] Hk. split; [done|]. intros name (i & Hi & ->)%Hb. exists i. split; [lia|done]. Qed.

Lemma below_start prefix : below prefix 0 [].
Proof. split; [constructor|]. by intros name ?%not_elem_of_nil. Qed.

(** The names of the workflows: those of the option, then the cut ones. *)
Definition workflow_names_ok (names : list string) : Prop :=
  NoDup names /\ forall name, name ∈ names -> exists rest, name = "wf" +:+ rest.

Definition workflows_ok (l : list WorkflowDescription) : Prop :=
  forall d, d ∈ l -> fd_workload_name d = fd_name d /\ (0 <= fd_start_time d)%Q.

Lemma workflows_ok_app l d :
  workflows_ok l -> fd_workload_name d = fd_name d -> (0 <= fd_start_time d)%Q -> workflows_ok (l ++ [d]).
Proof. intros Hl Hn Ht d' [Hd'| ->%list_elem_of_singleton]%elem_of_app; [by apply Hl|done]. Qed.

Lemma fmt_d_head_digit (i : nat) ch rest : fmt_d (Z.of_nat i) = String ch rest -> isdigit ch = true.
Proof.
  unfold fmt_d. destruct (Z.of_nat i) as [|q|q] eqn:Hi; [by intros [= <-]| |lia]. change (pretty (Z.pos q)) with (pretty (N.pos q)).
  destruct (read_pretty (N.pos q)) as (c & p & Hs & Hc & _). intros He. rewrite He in Hs. cbn in Hs. by injection Hs as <- _.
Qed.

Lemma digit_not_c (i : nat) rest : fmt_d (Z.of_nat i) ≠ String "c" rest.
Proof. by intros He%fmt_d_head_digit. Qed.

Lemma cut_workflow_names k1 k2 names cut :
  below "wf" k1 names -> below "wfc" k2 cut -> workflow_names_ok (names ++ cut).
Proof.
  intros [Hn1 Hb1] [Hn2 Hb2]. split.
  - apply NoDup_app. split; [done|]. split; [|done]. intros x (i & _ & ->)%Hb1 (j & _ & He)%Hb2.
    injection He as He. by eapply digit_not_c.
  - intros name [(i & _ & ->)%Hb1|(i & _ & ->)%Hb2]%elem_of_app; eexists; [done|]. by instantiate (1 := "c" +:+ _).
Qed.

Lemma below_nothing prefix names : below prefix 0 names -> names = [].
Proof. intros [_ Hb]. destruct names as [|x names]; [done|]. destruct (Hb x) as (i & Hi & _); [apply list_elem_of_here|lia]. Qed.

(** Over the whole parsing, the return code is zero unless an error was met. *)
Definition code_ok (p : parsing) : Prop := pa_error p = false -> pa_return_code p = 0.

Record descriptions_ok (k1 k2 k3 k4 : nat) (p : parsing) : Prop := {
  do_workloads : below "w" k1 (wd_name <$> workload_descriptions (pa_args p));
  do_names : exists names cut, fd_name <$> workflow_descriptions (pa_args p) = names ++ cut /\ below "wf" k2 names /\ below "wfc" k3 cut;
  do_workflows : workflows_ok (workflow_descriptions (pa_args p));
  do_events : below "we" k4 (ed_name <$> eventList_descriptions (pa_args p));
  do_code : code_ok p;
}.

Lemma failure_ok k1 k2 k3 k4 code p : descriptions_ok k1 k2 k3 k4 p -> descriptions_ok k1 k2 k3 k4 (failure code p).
Proof. by intros [Hw Hf Hwf He Hc]; constructor. Qed.

Lemma descriptions_ok_skip k1 k2 k3 k4 k1' k2' k3' k4' p :
  descriptions_ok k1 k2 k3 k4 p -> (k1 <= k1')%nat -> (k2 <= k2')%nat -> (k3 <= k3')%nat -> (k4 <= k4')%nat ->
  descriptions_ok k1' k2' k3' k4' p.
Proof.
  intros [Hw (names & cut & Hn & Hb1 & Hb2) Hwf He Hc] H1 H2 H3 H4.
  constructor; [by eapply below_more| |done|by eapply below_more|done].
  exists names, cut. split; [done|]. split; by eapply below_more.
Qed.

Lemma add_workload_ok k1 k2 k3 k4 file p p' :
  descriptions_ok k1 k2 k3 k4 p -> add_workload file_exists getcwd p (k1, file) = Ok p' ->
  descriptions_ok (Datatypes.S k1) k2 k3 k4 p'.
Proof.
  intros Hp Ha. unfold add_workload in Ha. destruct (negb _); inv_ok.
  - apply failure_ok. eapply descriptions_ok_skip; [exact Hp|lia..].
  - destruct Hp as [Hw Hf Hwf He Hc]. constructor; [|done..]. cbn. rewrite fmap_app. by apply below_next.
Qed.

Lemma add_workflow_ok k1 k2 k4 file p p' :
  descriptions_ok k1 k2 0 k4 p -> add_workflow file_exists getcwd p (k2, file) = Ok p' ->
  descriptions_ok k1 (Datatypes.S k2) 0 k4 p'.
Proof.
  intros Hp Ha. unfold add_workflow in Ha. destruct (negb _); inv_ok.
  - apply failure_ok. eapply descriptions_ok_skip; [exact Hp|lia..].
  - destruct Hp as [Hw (names & cut & Hn & Hb1 & Hb2) Hwf He Hc]. apply below_nothing in Hb2 as ->.
    rewrite app_nil_r in Hn. constructor; [done| |by apply workflows_ok_app|done..].
    exists (names ++ ["wf" +:+ fmt_d (Z.of_nat k2)]), []. cbn. rewrite fmap_app, Hn, app_nil_r. split; [done|].
    split; [by apply below_next|apply below_start].
Qed.

Lemma add_cut_workflow_ok k1 k2 k3 k4 workflow p p' :
  descriptions_ok k1 k2 k3 k4 p -> add_cut_workflow file_exists getcwd p (k3, workflow) = Ok p' ->
  descriptions_ok k1 k2 (Datatypes.S k3) k4 p'.
Proof.
  intros Hp Ha. assert (descriptions_ok k1 k2 (Datatypes.S k3) k4 p) as Hskip by (eapply descriptions_ok_skip; [exact Hp|lia..]).
  destruct workflow as [file time]. unfold add_cut_workflow in Ha. destruct (negb _); inv_ok; [by apply failure_ok|].
  unfold try_set in *. destruct (stod time) as [start|[]] eqn:Ht; simplify_eq; [|by apply failure_ok].
  destruct (start <?q 0)%Q eqn:Hneg; [by apply failure_ok|].
  destruct Hp as [Hw (names & cut & Hn & Hb1 & Hb2) Hwf He Hc].
  constructor; [done| |apply workflows_ok_app; [done|done|by apply Qltb_ge]|done..].
  exists names, (cut ++ ["wfc" +:+ fmt_d (Z.of_nat k3)]). cbn. rewrite fmap_app, Hn, <- app_assoc. split; [done|].
  split; [done|by apply below_next].
Qed.

Lemma add_events_ok k1 k2 k3 k4 file p p' :
  descriptions_ok k1 k2 k3 k4 p -> add_events file_exists getcwd p (k4, file) = Ok p' ->
  descriptions_ok k1 k2 k3 (Datatypes.S k4) p'.
Proof.
  intros Hp Ha. unfold add_events in Ha. destruct (negb _); inv_ok.
  - apply failure_ok. eapply descriptions_ok_skip; [exact Hp|lia..].
  - destruct Hp as [Hw Hf Hwf He Hc]. constructor; [done..| |done]. cbn. rewrite fmap_app. by apply below_next.
Qed.

Lemma start_ok platform : descriptions_ok 0 0 0 0 (mk_parsing (new_MainArguments <| platform_filename := platform |>) false 0).
Proof. constructor; [apply below_start| |by intros d ?%not_elem_of_nil|apply below_start|done]. exists [], []. split; [done|split; apply below_start]. Qed.

Lemma parse_inputs_ok args p :
  parse_inputs file_exists getcwd args (mk_parsing new_MainArguments false 0) = Ok p ->
  exists k1 k2 k3 k4, descriptions_ok k1 k2 k3 k4 p.
Proof.
  unfold parse_inputs. intros (platform & _ & Hp)%bind_Ok. cbv zeta in Hp. revert Hp.
  intros (ws & _ & (p1 & Hp1 & (wfs & _ & (p2 & Hp2 & (files & _ & (times & _ & (p3 & Hp3 & (evs & _ & Hp)%bind_Ok)%bind_Ok)%bind_Ok)%bind_Ok)%bind_Ok)%bind_Ok)%bind_Ok)%bind_Ok.
  apply (foldM_numbered _ (fun k => descriptions_ok k 0 0 0)) in Hp1 as [k1 Hk1];
    [|intros; by eapply add_workload_ok|by destruct (file_exists platform); [|apply failure_ok]; apply start_ok].
  apply (foldM_numbered _ (fun k => descriptions_ok k1 k 0 0)) in Hp2 as [k2 Hk2]; [|intros; by eapply add_workflow_ok|done].
  assert (exists k3, descriptions_ok k1 k2 k3 0 p3) as [k3 Hk3].
  { destruct (negb _); [injection Hp3 as <-; exists 0%nat; by apply failure_ok|].
    apply (foldM_numbered _ (fun k => descriptions_ok k1 k2 k 0)) in Hp3; [done|intros; by eapply add_cut_workflow_ok|done]. }
  destruct (foldM_numbered (add_events file_exists getcwd) (fun k => descriptions_ok k1 k2 k3 k) evs p3 p) as [k4 Hk4];
    [intros; by eapply add_events_ok|done|exact Hp|by exists k1, k2, k3, k4].
Qed.

(** The rest of the parsing touches neither the descriptions nor the return code,
    and keeps the error. *)
Record keeps (p p' : parsing) : Prop := {
  k_workloads : workload_descriptions (pa_args p') = workload_descriptions (pa_args p);
  k_workflows : workflow_descriptions (pa_args p') = workflow_descriptions (pa_args p);
  k_events : eventList_descriptions (pa_args p') = eventList_descriptions (pa_args p);
  k_code : pa_return_code p' = pa_return_code p;
  k_error : pa_error p' = false -> pa_error p = false;
}.
#[local] Instance keeps_preorder : PreOrder keeps.
Proof. split; [by intros p; constructor|]. intros p1 p2 p3 [] []. constructor; try congruence. auto. Qed.

(** It keeps the values checked before as well. *)
Definition keeps_flags (p p' : parsing) : Prop :=
  profile_reuse_enabled (pa_args p') = profile_reuse_enabled (pa_args p) /\
  dynamic_registration_enabled (pa_args p') = dynamic_registration_enabled (pa_args p).

Definition keeps_all (p p' : parsing) : Prop := keeps p p' /\ keeps_flags p p'.

Lemma try_set_inv {A} (R : parsing -> parsing -> Prop) (value : result A) set on_error p p' :
  (forall a, value = Ok a -> R p (set a p)) -> R p (on_error p) -> try_set value set on_error p = Ok p' -> R p p'.
Proof. unfold try_set. destruct value as [a|[]]; intros Hs He [= <-]; auto. Qed.

(** Setting the other arguments. *)
Lemma keeps_others f p :
  (forall a, workload_descriptions (f a) = workload_descriptions a /\ workflow_descriptions (f a) = workflow_descriptions a /\
     eventList_descriptions (f a) = eventList_descriptions a) -> keeps p (p <| pa_args ::= f |>).
Proof. intros Hf. destruct (Hf (pa_args p)) as (Hw & Hwf & He). by constructor. Qed.

Lemma parse_common_keeps args p p' : parse_common split_on args p = Ok p' -> keeps p p'.
Proof.
  unfold parse_common. intros Hp. inv_ok. cbv zeta in *. inv_ok.
  match goal with E : try_set _ _ _ ?p1 = Ok ?p2 |- _ =>
    transitivity p1; [apply keeps_others; by intros []|transitivity p2; [|by constructor]];
    eapply try_set_inv; [| |exact E]; [intros; apply keeps_others; by intros []|by constructor] end.
Qed.

Lemma parse_outputs_and_jobs_keeps args p p' :
  parse_outputs_and_jobs args p = Ok p' ->
  keeps p p' /\ (pa_error p' = false -> profile_reuse_enabled (pa_args p') = true -> dynamic_registration_enabled (pa_args p') = true).
Proof.
  unfold parse_outputs_and_jobs. intros Hp. inv_ok. cbv zeta in *. case_match; (split; [by constructor|]); [done|]. cbn.
  match goal with E : ?a && negb ?b = false |- _ => by destruct a, b end.
Qed.

Lemma parse_limits_keeps args p p' :
  parse_limits args p = Ok p' ->
  keeps p p' /\ keeps_flags p p' /\ (pa_error p' = false -> 0 <= workflow_nb_concurrent_jobs_limit (pa_args p')).
Proof.
  unfold parse_limits. intros (mmax & _ & (p1 & Hp1 & (by_workload & _ & Hp)%bind_Ok)%bind_Ok)%bind_Ok. cbv zeta in Hp. revert Hp.
  intros ([] & _ & (p2 & Hp2 & (limit & _ & (p3 & Hp3 & (last & _ & Hp)%bind_Ok)%bind_Ok)%bind_Ok)%bind_Ok)%bind_Ok. injection Hp as <-.
  assert (keeps p p1 /\ keeps_flags p p1) as [K1 [F1 G1]].
  { apply (try_set_inv keeps_all) in Hp1; [done|by repeat split..]. }
  match type of Hp2 with try_set _ _ _ ?q = _ => assert (keeps q p2 /\ keeps_flags q p2) as [K2 [F2 G2]] end.
  { apply (try_set_inv keeps_all) in Hp2; [done| |by repeat split].
    intros level _. cbv beta zeta. by destruct (asBool args "--quiet") as [[]|]; repeat split. }
  assert (keeps p2 p3 /\ keeps_flags p2 p3 /\ (pa_error p3 = false -> 0 <= workflow_nb_concurrent_jobs_limit (pa_args p3))) as (K3 & [F3 G3] & L3).
  { apply (try_set_inv (fun p p' => keeps p p' /\ keeps_flags p p' /\
        (pa_error p' = false -> 0 <= workflow_nb_concurrent_jobs_limit (pa_args p')))) in Hp3; [done| |by repeat split].
    intros n _. cbv zeta. destruct (Z.ltb_spec n 0); by repeat split. }
  assert (keeps p p3) as K by (etrans; [exact K1|]; etrans; [|exact K3]; by destruct K2).
  cbn in F2, G2. split; [by destruct K|]. split; [split; cbn; congruence|exact L3].
Qed.

Lemma parse_footprint_keeps args p b p' :
  parse_footprint file_exists args p = Ok (b, p') ->
  keeps p p' /\ keeps_flags p p' /\ workflow_nb_concurrent_jobs_limit (pa_args p') = workflow_nb_concurrent_jobs_limit (pa_args p).
Proof.
  unfold parse_footprint. intros (fixed & _ & Hp)%bind_Ok. destruct fixed; [by simplify_eq|].
  destruct (isString args _); [|by simplify_eq]. apply bind_Ok in Hp as (file & _ & Hp). cbv zeta in Hp.
  by repeat case_match; simplify_eq.
Qed.

Lemma parse_others_keeps args p p' :
  parse_others args p = Ok p' ->
  keeps p p' /\ keeps_flags p p' /\ workflow_nb_concurrent_jobs_limit (pa_args p') = workflow_nb_concurrent_jobs_limit (pa_args p).
Proof. unfold parse_others. intros Hp. by inv_ok. Qed.

Lemma parse_main_args_run args m code :
  parse_main_args file_exists getcwd split_on args = Ok (m, code, true) ->
  exists p0 p1 p2 p, parse_inputs file_exists getcwd args (mk_parsing new_MainArguments false 0) = Ok p0 /\
    keeps p0 p1 /\ (pa_error p1 = false -> profile_reuse_enabled (pa_args p1) = true -> dynamic_registration_enabled (pa_args p1) = true) /\
    keeps_all p1 p2 /\ (pa_error p2 = false -> 0 <= workflow_nb_concurrent_jobs_limit (pa_args p2)) /\
    keeps_all p2 p /\ workflow_nb_concurrent_jobs_limit (pa_args p) = workflow_nb_concurrent_jobs_limit (pa_args p2) /\
    m = pa_args p /\ code = pa_return_code p /\ pa_error p = false.
Proof.
  unfold parse_main_args. intros (version & _ & Hp)%bind_Ok. destruct version; [done|]. revert Hp.
  intros (p0 & Hp0 & (p1 & K1%parse_common_keeps & (p2 & [K2 R2]%parse_outputs_and_jobs_keeps & (p3 & (K3 & F3 & L3)%parse_limits_keeps &
    ([continue p4] & (K4 & F4 & L4)%parse_footprint_keeps & Hp)%bind_Ok)%bind_Ok)%bind_Ok)%bind_Ok)%bind_Ok.
  destruct continue; [|done]. revert Hp. intros (p5 & (K5 & F5 & L5)%parse_others_keeps & [= <- <- He%negb_true_iff])%bind_Ok.
  exists p0, p2, p3, p5. split; [done|]. split; [by etrans|]. split; [done|]. split; [done|]. split; [done|].
  split; [|split; [congruence|done]]. split; [by etrans|]. destruct F4, F5. split; congruence.
Qed.

Lemma accepted_arguments_ok args m code :
  parse_main_args file_exists getcwd split_on args = Ok (m, code, true) ->
  code = 0 /\ inputs_ok m /\
  (profile_reuse_enabled m = true -> dynamic_registration_enabled m = true) /\
  0 <= workflow_nb_concurrent_jobs_limit m.
Proof.
  intros (p0 & p1 & p2 & p & Hp0 & K1 & R1 & [K2 [F2 G2]] & L2 & [K3 [F3 G3]] & L3 & -> & -> & He)%parse_main_args_run.
  assert (keeps p0 p) as [Kw Kf Ke Kc Kr] by (etrans; [exact K1|]; by etrans).
  assert (pa_error p2 = false) as E2 by by apply K3. assert (pa_error p1 = false) as E1 by by apply K2.
  apply parse_inputs_ok in Hp0 as (k1 & k2 & k3 & k4 & Hd). destruct Hd as [Hw (names & cut & Hn & Hb1 & Hb2) Hwf Hev Hc].
  split; [rewrite Kc; auto|]. split; [|split; [rewrite F3, G3, F2, G2 || rewrite F3, G3; auto|rewrite L3; auto]].
  constructor; [|by rewrite Kf|rewrite Ke; by destruct Hev].
  rewrite Kw, Kf. assert (fd_workload_name <$> workflow_descriptions (pa_args p0) = names ++ cut) as ->.
  { rewrite <- Hn. apply list_fmap_ext. intros i d Hd%list_elem_of_lookup_2. by apply Hwf. }
  apply NoDup_app. split; [by destruct Hw|]. destruct (cut_workflow_names _ _ _ _ Hb1 Hb2) as [Hnd Hpre]. split; [|done].
  intros x (i & _ & ->)%(proj2 Hw) (rest & He')%Hpre. injection He' as He'.
  assert (isdigit "f" = true) as Hf; [|done]. by eapply fmt_d_head_digit.
Qed.

(** C28. The arguments with which a simulation runs are consistent: nothing was
    reported (the return code is zero); the workloads, those of the workflows
    included, have distinct names, and so have the lists of events, so that loading
    them never finds a name twice; a workflow starts at a date which is not
    negative; profiles are reused only if jobs can be registered during the
    simulation; the limit of concurrent jobs of workflows is not negative. *)
Theorem accepted_arguments args m code :
  parse_main_args file_exists getcwd split_on args = Ok (m, code, true) ->
  code = 0 /\ inputs_ok m /\
  (profile_reuse_enabled m = true -> dynamic_registration_enabled m = true) /\
  0 <= workflow_nb_concurrent_jobs_limit m.
Proof. apply accepted_arguments_ok. Qed.

(** The return code tells only which input files are wrong: when these are
    right it is zero, even though the simulation is not run because of another
    option (a number that cannot be read, a negative limit, a trace which does not
    exist). *)
Theorem return_code_only_tells_input_errors args m code run :
  asBool args "--simgrid-version" = Ok false ->
  parse_main_args file_exists getcwd split_on args = Ok (m, code, run) ->
  exists p, parse_inputs file_exists getcwd args (mk_parsing new_MainArguments false 0) = Ok p /\
    code = pa_return_code p /\ (pa_error p = false -> code = 0).
Proof.
  intros Hv. unfold parse_main_args. rewrite Hv, Ok_bind.
  intros (p0 & Hp0 & (p1 & K1%parse_common_keeps & (p2 & [K2 _]%parse_outputs_and_jobs_keeps & (p3 & (K3 & _ & _)%parse_limits_keeps &
    ([continue p4] & (K4 & _ & _)%parse_footprint_keeps & Hp)%bind_Ok)%bind_Ok)%bind_Ok)%bind_Ok)%bind_Ok.
  exists p0. split; [done|].
  assert (code = pa_return_code p0) as ->.
  { assert (keeps p0 p4) as K by (do 4 (etrans; [eassumption|]); done).
    destruct continue; [|simplify_eq/=; by destruct K]. revert Hp.
    intros (p5 & (K5 & _ & _)%parse_others_keeps & [= <- <- _])%bind_Ok. by destruct (keeps_preorder.(PreOrder_Transitive) _ _ _ K K5). }
  split; [done|]. apply parse_inputs_ok in Hp0 as (? & ? & ? & ? & []). done.
Qed.

(** ** The trace of the environment *)

Definition no_trace (p : parsing) : Prop := environmental_footprint_trace_file (pa_args p) = "".

Lemma try_set_no_trace {A} (value : result A) set on_error p p' :
  (forall a, no_trace p -> no_trace (set a p)) -> (no_trace p -> no_trace (on_error p)) ->
  no_trace p -> try_set value set on_error p = Ok p' -> no_trace p'.
Proof.
  intros Hs He Hp Ht. revert Hp. change ((fun p p' => no_trace p -> no_trace p') p p').
  eapply try_set_inv; [| |exact Ht]; [|exact He]. intros a _. apply Hs.
Qed.

Lemma foldM_no_trace {A} (f : parsing -> A -> result parsing) l p p' :
  (forall p a p', no_trace p -> f p a = Ok p' -> no_trace p') -> no_trace p -> foldM f p l = Ok p' -> no_trace p'.
Proof. intros Hf Hp. apply foldM_inv; [done|]. intros s a s' _. apply Hf. Qed.

Lemma parse_inputs_no_trace args p p' :
  no_trace p -> parse_inputs file_exists getcwd args p = Ok p' -> no_trace p'.
Proof.
  intros Hp. unfold parse_inputs. intros (platform & _ & Hr)%bind_Ok. cbv zeta in Hr. revert Hr.
  intros (ws & _ & (p1 & Hp1 & (wfs & _ & (p2 & Hp2 & (files & _ & (times & _ & (p3 & Hp3 & (evs & _ & Hp4)%bind_Ok)%bind_Ok)%bind_Ok)%bind_Ok)%bind_Ok)%bind_Ok)%bind_Ok)%bind_Ok.
  assert (no_trace p1) as N1 by (eapply foldM_no_trace; [| |exact Hp1]; [|by destruct (file_exists platform); exact Hp];
    intros a [i f] b Ha Hb; unfold add_workload in Hb; destruct (negb (file_exists f)); inv_ok; exact Ha).
  assert (no_trace p2) as N2 by (eapply foldM_no_trace; [|exact N1|exact Hp2];
    intros a [i f] b Ha Hb; unfold add_workflow in Hb; destruct (negb (file_exists f)); inv_ok; exact Ha).
  assert (no_trace p3) as N3.
  { destruct (negb (bool_decide _)); [by injection Hp3 as <-|]. eapply foldM_no_trace; [|exact N2|exact Hp3].
    intros a [i [f t]] b Ha Hb. unfold add_cut_workflow in Hb. destruct (negb (file_exists f)); [by inv_ok|]. revert Hb. intros (file & _ & Hb)%bind_Ok.
    cbv zeta in Hb. eapply try_set_no_trace; [| |exact Ha|exact Hb]; [|done]. intros start Ha'. cbv beta. by destruct (start <?q 0)%Q; exact Ha'. }
  eapply foldM_no_trace; [|exact N3|exact Hp4]. intros a [i f] b Ha Hb. unfold add_events in Hb. destruct (negb (file_exists f)); inv_ok; exact Ha.
Qed.

Lemma parse_common_no_trace args p p' : no_trace p -> parse_common split_on args p = Ok p' -> no_trace p'.
Proof.
  intros Hp. unfold parse_common. intros Hr. inv_ok. cbv zeta in *. inv_ok.
  match goal with E : try_set _ _ _ _ = Ok ?p2 |- _ => change (no_trace p2); eapply try_set_no_trace; [| | |exact E]; done end.
Qed.

Lemma parse_outputs_and_jobs_no_trace args p p' : no_trace p -> parse_outputs_and_jobs args p = Ok p' -> no_trace p'.
Proof. intros Hp. unfold parse_outputs_and_jobs. intros Hr. inv_ok. cbv zeta in *. by case_match. Qed.

Lemma parse_limits_no_trace args p p' : no_trace p -> parse_limits args p = Ok p' -> no_trace p'.
Proof.
  intros Hp. unfold parse_limits. intros (mmax & _ & (p1 & Hp1 & (by_workload & _ & Hr)%bind_Ok)%bind_Ok)%bind_Ok. cbv zeta in Hr. revert Hr.
  intros ([] & _ & (p2 & Hp2 & (limit & _ & (p3 & Hp3 & (last & _ & [= <-])%bind_Ok)%bind_Ok)%bind_Ok)%bind_Ok)%bind_Ok.
  assert (no_trace p1) as N1 by (eapply try_set_no_trace; [| | |exact Hp1]; done).
  assert (no_trace p2) as N2 by (eapply try_set_no_trace; [| | |exact Hp2]; [|done|done];
    intros level N; cbv beta zeta; by destruct (asBool args "--quiet") as [[]|]).
  change (no_trace p3). eapply try_set_no_trace; [| |exact N2|exact Hp3]; [|done]. intros n Hn. cbv beta zeta. by destruct (n <? 0); exact Hn.
Qed.

Lemma fixed_footprint_no_trace args m code run :
  asBool args "--simgrid-version" = Ok false -> asBool args "--environmental-footprint" = Ok true ->
  parse_main_args file_exists getcwd split_on args = Ok (m, code, run) ->
  a_environmental_footprint_used m = true /\ environmental_footprint_trace_file m = "".
Proof.
  intros Hv Hfix. unfold parse_main_args. rewrite Hv, Ok_bind.
  intros (p0 & Hp0 & (p1 & Hp1 & (p2 & Hp2 & (p3 & Hp3 & ([continue p4] & Hp4 & Hr)%bind_Ok)%bind_Ok)%bind_Ok)%bind_Ok)%bind_Ok.
  assert (no_trace p3) as N3.
  { eapply parse_limits_no_trace; [|exact Hp3]. eapply parse_outputs_and_jobs_no_trace; [|exact Hp2].
    eapply parse_common_no_trace; [|exact Hp1]. by eapply parse_inputs_no_trace; [|exact Hp0]. }
  unfold parse_footprint in Hp4. rewrite Hfix, Ok_bind in Hp4. injection Hp4 as <- <-. cbn [negb] in Hr. revert Hr.
  intros (p5 & Hp5 & [= <- _ _])%bind_Ok. unfold parse_others in Hp5. inv_ok. split; [done|exact N3].
Qed.
End ParseFacts.
