(* ===== verification/SimulationFacts.v ===== *)
(** * What a simulation starts with (theorems on src/batsim.cpp, src/export.cpp)

    The inputs are loaded under their names, each of the first processes finds what
    it is in charge of, the number of machines is limited as asked, and the first
    power states written are those of the machines. *)

From S2P Require Import Prelude Interfaces Profiles Jobs Storage NumericStrcmp Outputs Machines Workload Tracers Ipp PState Writer NumberParsing Workflow Context OutputFiles Server Actors SwitchProcesses EnvTrace Main MainFacts Simulation.

(** ** Power states at the start *)

Section InitialPstates.
Context {IS Engine Host : Type} `{IntervalSetLaws IS} `{SimGrid Engine Host}.
Implicit Types (m : list (Z * IS)).

(** The ranges are in the order of their power states. *)
Definition sorted_pstates m : Prop := StronglySorted Z.lt m.*1.

Definition holds m (p machine : Z) : Prop := exists range, (p, range) ∈ m /\ machine ∈ elements_of range.

Lemma holds_cons p range m q x : holds ((p, range) :: m) q x <-> (q = p /\ x ∈ elements_of range) \/ holds m q x.
Proof. unfold holds. set_solver. Qed.

Lemma elements_singleton x y : y ∈ elements_of (is_insert is_empty x : IS) <-> y = x.
Proof. rewrite is_insert_spec, is_empty_spec. set_solver. Qed.

Lemma add_to_pstate_holds p x m q y : sorted_pstates m -> holds (add_to_pstate p x m) q y <-> (q = p /\ y = x) \/ holds m q y.
Proof.
  induction m as [|[p' range] m IH]; intros Hs; cbn [add_to_pstate].
  - rewrite holds_cons, elements_singleton. done.
  - apply StronglySorted_inv in Hs as [Hs _]. destruct (Z.ltb_spec p p'); [by rewrite holds_cons, elements_singleton|].
    destruct (Z.eqb_spec p p') as [->|]; rewrite !holds_cons; [rewrite is_insert_spec; naive_solver|].
    rewrite IH by done. naive_solver.
Qed.

Lemma add_to_pstate_keys p x m q : q ∈ (add_to_pstate p x m).*1 <-> q = p \/ q ∈ m.*1.
Proof.
  induction m as [|[p' range] m IH]; cbn [add_to_pstate]; [set_solver|].
  destruct (Z.ltb_spec p p'); [set_solver|]. destruct (Z.eqb_spec p p') as [->|]; set_solver.
Qed.

Lemma add_to_pstate_sorted p x m : sorted_pstates m -> sorted_pstates (add_to_pstate p x m).
Proof.
  unfold sorted_pstates. induction m as [|[p' range] m IH]; intros Hs; cbn [add_to_pstate]; [by repeat constructor|].
  cbn in Hs. pose proof Hs as [Hs' Hall]%StronglySorted_inv. rewrite Forall_forall in Hall.
  destruct (Z.ltb_spec p p'); [|destruct (Z.eqb_spec p p') as [->|]; [done|]].
  - cbn. constructor; [done|]. rewrite Forall_forall. intros z [->|Hz]%elem_of_cons; [done|]. specialize (Hall z Hz). lia.
  - cbn. constructor; [by apply IH|]. rewrite Forall_forall. intros z [->|Hz]%add_to_pstate_keys; [lia|by apply Hall].
Qed.

(** The power states written at the start: each power state is written once, in
    increasing order, for the machines that are in it, and no other. *)
Theorem pstate_to_machine_set_spec (e : Engine) (ms : Machines Host) :
  sorted_pstates (pstate_to_machine_set (IS := IS) e ms) /\
  forall p machine_id, holds (pstate_to_machine_set (IS := IS) e ms) p machine_id <->
    exists machine, machine ∈ ms_machines ms /\ m_id machine = machine_id /\ get_pstate e (m_host machine) = p.
Proof.
  unfold pstate_to_machine_set.
  enough (forall m, sorted_pstates m ->
    let m' := foldl (fun m machine => add_to_pstate (get_pstate e (m_host machine)) (m_id machine) m) m (ms_machines ms) in
    sorted_pstates m' /\ forall p x, holds m' p x <-> holds m p x \/ exists machine, machine ∈ ms_machines ms /\ m_id machine = x /\ get_pstate e (m_host machine) = p) as He.
  { destruct (He []) as [Hs Hh]; [constructor|]. split; [done|]. intros p x. rewrite Hh. unfold holds. set_solver. }
  induction (ms_machines ms) as [|machine l IH]; intros m Hs; [set_solver|]. cbn [foldl].
  destruct (IH (add_to_pstate (get_pstate e (m_host machine)) (m_id machine) m)) as [Hs' Hh]; [by apply add_to_pstate_sorted|].
  split; [done|]. intros p x. rewrite Hh, add_to_pstate_holds by done. set_solver.
Qed.
End InitialPstates.

(** ** Loading *)

Section Loading.
Context {IS Engine Host V N : Type} `{IntervalSet IS} `{SimGrid Engine Host} `{RapidJson V} `{BoostString} `{FileSystem} `{PugiXml N}.
Context (str_find : string -> string -> bool) (replace_id : string -> string -> string).
Context (read_file : string -> option string) (load_platform : string -> result (list Host * NetZone Host)).
#[local] Abbreviation Ctx := (BatsimContext IS Engine Host V).
Implicit Types (c : Ctx) (m : MainArguments).

(** What is loaded, and under which name. *)
Definition workload_loaded c (d : WorkloadDescription) : Prop :=
  exists w, c_workloads c !! wd_name d = Some w /\ wl_name w = wd_name d.
Definition workflow_loaded c (d : WorkflowDescription) : Prop :=
  exists wf w, c_workflows c !! fd_name d = Some wf /\ wf_name wf = fd_name d /\ wf_start_time wf = fd_start_time d /\
    wf_filename wf = fd_filename d /\
    c_workloads c !! fd_workload_name d = Some w /\ wl_name w = fd_workload_name d /\ jobs_map (wl_jobs w) = ∅.
Definition events_loaded (unknown_as_generic : bool) c (d : EventListDescription) : Prop :=
  exists events, EventList_load_from_json (V := V) (ed_filename d) unknown_as_generic [] = Ok events /\
    c_event_lists c !! ed_name d = Some events.

(** Loading only adds. *)
Record grows c c' : Prop := {
  g_workloads : c_workloads c ⊆ c_workloads c';
  g_workflows : c_workflows c ⊆ c_workflows c';
  g_events : c_event_lists c' = c_event_lists c;
  g_actors : c_actors c' = c_actors c;
}.
#[local] Instance grows_preorder : PreOrder grows.
Proof. split; [by intros c; constructor|]. intros c1 c2 c3 [] []. constructor; try congruence; by etrans. Qed.

#[local] Instance grows_snd_preorder : PreOrder (fun a b : Z * Ctx => grows a.2 b.2).
Proof. split; [by intros [? ?]|]. intros [? ?] [? ?] [? ?]. cbn. by etrans. Qed.

Lemma workload_loaded_grows c c' d : grows c c' -> workload_loaded c d -> workload_loaded c' d.
Proof. intros [Hw _ _ _] (w & Hl & Hn). exists w. split; [by eapply lookup_weaken|done]. Qed.

Lemma workflow_loaded_grows c c' d : grows c c' -> workflow_loaded c d -> workflow_loaded c' d.
Proof.
  intros [Hw Hf _ _] (wf & w & Hl & E1 & E2 & E3 & Hl' & Hr). exists wf, w. repeat (split; [done || by eapply lookup_weaken|]). done.
Qed.

Lemma not_in_map {A} (ws : gmap string A) name : xbt_assert (negb (bool_decide (is_Some (ws !! name)))) "exists" = Ok tt -> ws !! name = None.
Proof. rewrite xbt_assert_Ok, negb_true_iff, bool_decide_eq_false. apply eq_None_not_Some. Qed.

Lemma insert_workload_Ok name w ws ws' :
  insert_workload name w ws = Ok ws' -> ws' = <[name := w <| wl_name := name |>]> ws /\ ws !! name = None.
Proof.
  unfold insert_workload, Workloads_exists. intros ([] & He & ([] & _ & [= <-])%bind_Ok)%bind_Ok.
  split; [done|]. apply not_in_map. by destruct (negb _).
Qed.

Lemma load_workload_spec k c d k' c' :
  load_workload str_find replace_id read_file (k, c) d = Ok (k', c') ->
  grows c c' /\ workload_loaded c' d /\ exists nb, 0 < nb /\ k' = Z.max k nb.
Proof.
  unfold load_workload. intros (content & _ & ([[nb w] st] & Hw & (ws & [-> Hnone]%insert_workload_Ok & [= <- <-])%bind_Ok)%bind_Ok)%bind_Ok.
  split; [constructor; cbn; [by apply insert_subseteq|done..]|].
  split; [eexists; cbn; rewrite lookup_insert_eq; done|]. exists nb. split; [|done].
  unfold Workload_load_from_json in Hw. inv_ok. by apply Z.ltb_lt.
Qed.

Lemma load_from_xml_keeps file wf st wf' st' :
  load_from_xml file wf st = Ok (wf', st') ->
  wf_name wf' = wf_name wf /\ wf_start_time wf' = wf_start_time wf /\ wf_filename wf' = file.
Proof.
  unfold load_from_xml. intros (doc & _ & ([w st1] & Htasks & (h & _ & [= <- <-])%bind_Ok)%bind_Ok)%bind_Ok. cbn.
  enough (wf_name w = wf_name wf /\ wf_start_time w = wf_start_time wf) as [-> ->] by done. revert Htasks.
  apply (foldM_inv (fun acc => wf_name acc.1 = wf_name wf /\ wf_start_time acc.1 = wf_start_time wf)); [done|].
  intros [w1 s1] job [w2 s2] _ Hk. unfold load_task, add_task. intros Hl. by inv_ok.
Qed.

Lemma load_workflow_spec c d c' :
  load_workflow c d = Ok c' -> fd_workload_name d = fd_name d -> grows c c' /\ workflow_loaded c' d.
Proof.
  unfold load_workflow. intros (ws & [-> Hnone]%insert_workload_Ok & ([wf tasks] & (Hn & Ht & Hf)%load_from_xml_keeps & (wfs & Hins & [= <-])%bind_Ok)%bind_Ok)%bind_Ok Hname.
  assert (wfs = <[fd_name d := wf <| wf_name := fd_name d |>]> (c_workflows c) /\ c_workflows c !! fd_name d = None) as [-> Hnone'].
  { revert Hins. unfold insert_workflow, Workflows_exists. intros ([] & He & ([] & _ & [= <-])%bind_Ok)%bind_Ok.
    split; [done|]. apply not_in_map. by destruct (negb _). }
  split; [constructor; cbn; [by apply insert_subseteq..|done|done]|].
  eexists _, _. cbn. rewrite !lookup_insert_eq. split; [done|]. split; [done|]. split; [done|]. split; [done|]. split; done.
Qed.

(** A fold that only adds, and each step of which adds its element. *)
Lemma foldM_adds {A S} (R : S -> S -> Prop) `{!PreOrder R} (P : S -> A -> Prop) (f : S -> A -> result S) (l : list A) s s' :
  (forall s s' a, R s s' -> P s a -> P s' a) -> (forall s a s', a ∈ l -> f s a = Ok s' -> R s s' /\ P s' a) ->
  foldM f s l = Ok s' -> R s s' /\ forall a, a ∈ l -> P s' a.
Proof.
  intros Hmono. revert s. induction l as [|a l IH]; intros s Hf; cbn [foldM].
  - intros [= <-]. split; [done|]. by intros a ?%not_elem_of_nil.
  - intros (s1 & [R1 P1]%Hf & Hr)%bind_Ok; [|apply list_elem_of_here].
    destruct (IH s1) as [R2 P2]; [intros; apply Hf; [by apply list_elem_of_further|done]|done|].
    split; [by etrans|]. intros x [->|Hx]%elem_of_cons; [by eapply Hmono|auto].
Qed.

(** The machines to use: a limit is given to [create_machines] only when it is
    positive, as it requires; with workloads, it is at most each of the limits
    asked.  Without any workload, [--mmax-workload] cancels [--mmax]. *)
Theorem load_workloads_and_workflows_limit m c n c' :
  load_workloads_and_workflows str_find replace_id read_file m c = Ok (n, c') ->
  (n = -1 \/ 0 < n) /\
  (0 < limit_machines_count m -> workload_descriptions m ≠ [] \/ limit_machines_count_by_workload m = false ->
     0 < n <= limit_machines_count m) /\
  (workload_descriptions m = [] -> limit_machines_count_by_workload m = true -> n = -1).
Proof.
  unfold load_workloads_and_workflows. intros ([k c1] & Hw & (c2 & _ & [= <- <-])%bind_Ok)%bind_Ok.
  assert ((workload_descriptions m = [] /\ k = -1) \/ (workload_descriptions m ≠ [] /\ 0 < k)) as Hk.
  { destruct (workload_descriptions m) as [|d l]; [left; by injection Hw as <- _|right; split; [done|]].
    cbn [foldM] in Hw. revert Hw. intros ([k0 c0] & (_ & _ & nb & Hnb & ->)%load_workload_spec & Hr)%bind_Ok.
    change (0 < (k, c1).1). revert Hr. apply (foldM_inv (fun acc => 0 < acc.1)); [cbn; lia|].
    intros [k2 c3] d2 [k3 c4] _ Hpos (_ & _ & nb2 & _ & ->)%load_workload_spec. cbn in *. lia. }
  unfold max_nb_machines. destruct (limit_machines_count_by_workload m); cbn [andb];
    destruct (Z.ltb_spec 0 (limit_machines_count m)); destruct Hk as [[Hnil ->]|[Hne Hk]]; split_and!; intuition (lia || congruence).
Qed.

Lemma load_workloads_and_workflows_loaded m c n c' :
  inputs_ok m -> load_workloads_and_workflows str_find replace_id read_file m c = Ok (n, c') ->
  grows c c' /\ (forall d, d ∈ workload_descriptions m -> workload_loaded c' d) /\
  (forall d, d ∈ workflow_descriptions m -> workflow_loaded c' d).
Proof.
  intros [_ Hwf _]. unfold load_workloads_and_workflows. intros ([k c1] & Hw & (c2 & Hf & [= _ <-])%bind_Ok)%bind_Ok.
  apply (foldM_adds (fun a b : Z * Ctx => grows a.2 b.2) (fun a d => workload_loaded a.2 d)) in Hw as [G1 L1].
  - apply (foldM_adds grows workflow_loaded) in Hf as [G2 L2].
    + split; [by etrans|]. split; [|done]. intros d Hd. eapply workload_loaded_grows; [exact G2|by apply (L1 d)].
    + intros a b d Hg. by eapply workflow_loaded_grows.
    + intros a d b Hd Hl. eapply load_workflow_spec; [exact Hl|by apply Hwf].
  - intros [? a] [? b] d. apply workload_loaded_grows.
  - intros [k0 a] d [k1 b] _ Hl. by apply load_workload_spec in Hl as (Hg & Hd & _).
Qed.

Lemma load_eventLists_loaded m c c' :
  NoDup (ed_name <$> eventList_descriptions m) -> load_eventLists m c = Ok c' ->
  (exists lists, c' = c <| c_event_lists := lists |>) /\
  forall d, d ∈ eventList_descriptions m -> events_loaded (forward_unknown_events m) c' d.
Proof.
  unfold load_eventLists. generalize (eventList_descriptions m) as l. intros l Hnd. revert c.
  induction l as [|d l IH]; intros c; cbn [foldM].
  - intros [= <-]. split; [exists (c_event_lists c); by destruct c|]. by intros d ?%not_elem_of_nil.
  - apply NoDup_cons in Hnd as [Hd Hnd]. unfold load_eventList at 1.
    intros (c1 & (events & Hev & [= <-])%bind_Ok & Hr)%bind_Ok. destruct (IH Hnd _ Hr) as [[lists ->] Hl].
    split; [by exists lists|]. intros x [->|Hx]%elem_of_cons; [|by apply Hl].
    exists events. split; [done|]. clear Hl IH Hnd.
    enough (forall c2 c3, foldM (load_eventList (forward_unknown_events m)) c2 l = Ok c3 -> c_event_lists c3 !! ed_name d = c_event_lists c2 !! ed_name d) as Hk.
    { rewrite (Hk _ _ Hr). cbn. by rewrite lookup_insert_eq. }
    intros c2 c3. apply (foldM_inv (fun c3 => c_event_lists c3 !! ed_name d = c_event_lists c2 !! ed_name d)); [done|].
    intros c4 d2 c5 Hd2 <-. unfold load_eventList. intros (ev2 & _ & [= <-])%bind_Ok. cbn. rewrite lookup_insert_ne; [done|].
    intros He. apply Hd. rewrite <- He. by apply list_elem_of_fmap_2.
Qed.

(** ** The start *)

(** The inputs and the processes of two contexts are the same. *)
Definition same_inputs c c' : Prop :=
  c_workloads c' = c_workloads c /\ c_workflows c' = c_workflows c /\ c_event_lists c' = c_event_lists c.
Definition same_start c c' : Prop := same_inputs c c' /\ c_actors c' = c_actors c.

#[local] Instance same_inputs_preorder : PreOrder same_inputs.
Proof. split; [by intros c|]. intros c1 c2 c3 (?&?&?) (?&?&?). repeat split; congruence. Qed.

#[local] Instance same_start_preorder : PreOrder same_start.
Proof. split; [by intros c|]. intros c1 c2 c3 [(?&?&?) ?] [(?&?&?) ?]. repeat split; congruence. Qed.

Lemma prepare_batsim_outputs_same c c' : prepare_batsim_outputs c = Ok c' -> same_start c c'.
Proof.
  unfold prepare_batsim_outputs. intros (c1 & E1 & (c2 & E2 & (c3 & E3 & (c4 & E4 & (t & _ & [= <-])%bind_Ok)%bind_Ok)%bind_Ok)%bind_Ok)%bind_Ok.
  assert (same_start c c1) as S1 by (unfold prepare_schedule_trace in E1; destruct (trace_schedule _); by inv_ok).
  assert (same_start c1 c2) as S2 by (unfold prepare_machine_states in E2; destruct (trace_machine_states _); by inv_ok).
  assert (same_start c2 c3) as S3.
  { unfold prepare_energy in E3. destruct (energy_used _); [|by simplify_eq]. revert E3.
    intros (t1 & _ & (t2 & _ & Hf)%bind_Ok)%bind_Ok. revert Hf. apply foldM_inv; [done|].
    intros a mit b _ Ha. unfold pstate_entry. intros (t3 & _ & [= <-])%bind_Ok. exact Ha. }
  assert (same_start c3 c4) as S4 by (unfold prepare_footprint in E4; destruct (environmental_footprint_used _); by inv_ok).
  change (same_start c c4). etrans; [exact S1|]. etrans; [exact S2|]. by etrans.
Qed.

Definition is_env_update (a : Actor IS Host V) : Prop :=
  match a with env_zone_update_actor _ _ _ _ => True | _ => False end.

Lemma create_all_spec (l : list (Actor IS Host V)) c :
  same_inputs c (create_all l c) /\ (c_actors (create_all l c)).*2 = (c_actors c).*2 ++ l.
Proof.
  unfold create_all. revert c. induction l as [|a l IH]; intros c; cbn [foldl]; [by rewrite app_nil_r|].
  destruct (IH (create_actor a c).2) as [[Hw [Hf He]] Ha]. split; [done|]. rewrite Ha. cbn. rewrite fmap_app, <- app_assoc. done.
Qed.

Lemma read_trace_creates file c c' :
  read_trace file c = Ok c' ->
  exists l, Forall is_env_update l /\ same_inputs c c' /\ (c_actors c').*2 = (c_actors c).*2 ++ l.
Proof.
  unfold read_trace. intros (lines & _ & Hf)%bind_Ok. revert Hf.
  apply (foldM_inv (fun c' => exists l, Forall is_env_update l /\ same_inputs c c' /\ (c_actors c').*2 = (c_actors c).*2 ++ l)).
  { exists []. by rewrite app_nil_r. }
  intros c1 line c2 _ (l & Hl & Hs & Ha) Hr.
  assert (c2 = c1 \/ exists a, is_env_update a /\ c2 = (create_actor a c1).2) as [->|(a & Hau & ->)]; [|by exists l|].
  { unfold read_trace_line in Hr. destruct (split_csv_line line) as [|t0 [|zone [|property [|value rest]]]]; [left; congruence..|].
    destruct (stod t0); [|left; congruence]. right. inv_ok. eexists. split; [|reflexivity]. done. }
  exists (l ++ [a]). split; [apply Forall_app_2; [done|by constructor]|]. split; [done|]. cbn. by rewrite fmap_app, Ha, <- app_assoc.
Qed.

(** The processes that do the work of a simulation, in the order of their creation;
    [updates] are those of the trace of the environment. *)
Definition initial_actors m (is_batexec : bool) (updates : list (Actor IS Host V)) : list (Actor IS Host V) :=
  ((fun d => if is_batexec then batexec_job_launcher_actor (wd_name d) else static_job_submitter_actor (wd_name d)) <$> workload_descriptions m)
  ++ ((fun d => workflow_submitter_actor (fd_name d)) <$> workflow_descriptions m)
  ++ ((fun d => static_event_submitter_actor (ed_name d)) <$> eventList_descriptions m)
  ++ updates ++ (if is_batexec then [] else [server_actor]).

Lemma start_spec m is_batexec c c' :
  start_initial_simulation_processes m is_batexec c = Ok c' ->
  same_inputs c c' /\ exists updates, Forall is_env_update updates /\
    (c_actors c').*2 = (c_actors c).*2 ++ initial_actors m is_batexec updates.
Proof.
  unfold start_initial_simulation_processes. intros (master & _ & (c1 & Hc1 & [= <-])%bind_Ok)%bind_Ok.
  match type of Hc1 with (if _ then read_trace _ ?c0 else _) = _ =>
    assert (exists l, Forall is_env_update l /\ same_inputs c0 c1 /\ (c_actors c1).*2 = (c_actors c0).*2 ++ l) as (l & Hl & Hs & Ha) end.
  { destruct (_ && _); [by eapply read_trace_creates|]. injection Hc1 as <-. exists []. by rewrite app_nil_r. }
  rewrite !(proj2 (create_all_spec _ _)) in Ha.
  assert (same_inputs c c1) as Hs' by (etrans; [|exact Hs]; do 2 (etrans; [|apply create_all_spec]); apply create_all_spec).
  split; [destruct is_batexec; [exact Hs'|]; etrans; [exact Hs'|exact (proj1 (create_all_spec [server_actor] c1))]|].
  exists l. split; [done|]. unfold initial_actors. rewrite !app_assoc. destruct is_batexec; [by rewrite app_nil_r, Ha|].
  rewrite <- Ha. exact (proj2 (create_all_spec [server_actor] c1)).
Qed.

(** C16. A simulation whose arguments are accepted starts with everything its
    processes need: each workload, workflow and list of events is loaded under the
    name its submitter is given — the workflows with the date they must start at
    and an empty workload for their jobs, the events as they are in their file —,
    there is one submitter for each of them (or one launcher for each workload when
    there is no scheduler), then the updates of the environment, and the server is
    created last, if there is a scheduler. *)
Theorem prepare_simulation_spec m c c' :
  inputs_ok m ->
  prepare_simulation str_find replace_id read_file load_platform m c = Ok c' ->
  (forall d, d ∈ workload_descriptions m -> workload_loaded c' d) /\
  (forall d, d ∈ workflow_descriptions m -> workflow_loaded c' d) /\
  (forall d, d ∈ eventList_descriptions m -> events_loaded (forward_unknown_events m) c' d) /\
  exists updates, Forall is_env_update updates /\
    (c_actors c').*2 = (c_actors c).*2 ++ initial_actors m (bool_decide (program_type m = BATEXEC)) updates.
Proof.
  intros Hok. unfold prepare_simulation.
  intros (c1 & Hc1 & ([n c2] & Hl & (c3 & Hev & (smpi & _ & Hr)%bind_Ok)%bind_Ok)%bind_Ok)%bind_Ok. cbv zeta in Hr. revert Hr.
  intros (c4 & Hm & (c5 & Ho & Hst)%bind_Ok)%bind_Ok.
  assert (c_actors c1 = c_actors c) as Ea by (unfold set_configuration in Hc1; by inv_ok).
  apply load_workloads_and_workflows_loaded in Hl as (G & Lw & Lf); [|done].
  apply load_eventLists_loaded in Hev as [[lists ->] Le]; [|by destruct Hok].
  assert (same_start (c2 <| c_event_lists := lists |>) c4) as S4.
  { unfold create_the_machines in Hm. revert Hm. intros ([hosts root] & _ & (ms & _ & [= <-])%bind_Ok)%bind_Ok. done. }
  apply prepare_batsim_outputs_same in Ho. assert (same_start (c2 <| c_event_lists := lists |>) c5) as S5 by by etrans.
  apply start_spec in Hst as [(Iw & If & Ie) (updates & Hu & Ha)]. destruct S5 as [(Sw & Sf & Se) Sa].
  assert (c_workloads c' = c_workloads c2) as Ew by (rewrite Iw, Sw; done).
  assert (c_workflows c' = c_workflows c2) as Ef by (rewrite If, Sf; done).
  split; [|split; [|split]].
  - intros d (w & Hw & Hn)%Lw. exists w. by rewrite Ew.
  - intros d Hd%Lf. unfold workflow_loaded. by rewrite Ew, Ef.
  - intros d (events & Hf & Hd)%Le. exists events. by rewrite Ie, Se.
  - exists updates. split; [done|]. rewrite Ha, Sa. change (c_actors (c2 <| c_event_lists := lists |>)) with (c_actors c2).
    destruct G as [_ _ _ ->]. by rewrite Ea.
Qed.

(** With [--environmental-footprint], which needs no trace, the simulation
    cannot start: the name of the trace is empty and not [None], and a file
    without a name cannot be opened. *)
Theorem fixed_footprint_cannot_start {Args} `{Docopt Args} file_exists getcwd split_on (args : Args) m code is_batexec c :
  asBool args "--simgrid-version" = Ok false -> asBool args "--environmental-footprint" = Ok true ->
  parse_main_args file_exists getcwd split_on args = Ok (m, code, true) ->
  fs_lines "" = None ->
  is_ok (start_initial_simulation_processes m is_batexec c) = false.
Proof.
  intros Hv Hfix Hp Hfile. destruct (fixed_footprint_no_trace _ _ _ _ _ _ _ Hv Hfix Hp) as [Hu Ht].
  unfold start_initial_simulation_processes. destruct (master_machine _); [|done]. rewrite Ok_bind, Hu, Ht. cbn.
  unfold read_trace. by rewrite Hfile.
Qed.
End Loading.
