(* ===== verification/SystemStart.v ===== *)
(** * A simulation starts as its processes need (theorems on src/batsim.cpp, src/workload.cpp)

    What [main] prepares satisfies the hypothesis of the theorems on the whole system:
    the jobs are loaded once each, at addresses of their own, and are not submitted;
    nothing has been sent, and the first processes are the submitters and the server. *)

From S2P Require Import Prelude Interfaces Profiles Jobs Storage NumericStrcmp Outputs Machines Workload Tracers Ipp PState Writer NumberParsing Workflow Context ContextFacts ContextSteps OutputFiles Server Actors SwitchProcesses EnvTrace Main Submitters ServerSteps SystemProtocol SystemSubmitters SystemFacts SystemSafety MainFacts Simulation SimulationFacts.

(** ** The jobs of the workloads *)

Section Jobs.
Context {IS : Type} `{IntervalSet IS}.
Implicit Types (st : store IS) (ws : Workloads) (w : Workload).

(** The jobs of a heap are not submitted, and the next addresses are free. *)
Record new_jobs st : Prop := {
  nj_fresh jp : is_Some (s_jobs st !! jp) -> (jp < s_next_job st)%positive;
  nj_state jp j : s_jobs st !! jp = Some j -> state j = JOB_STATE_NOT_SUBMITTED;
}.

Definition owns (js : Jobs) (jp : positive) : Prop := exists key, jobs_map js !! key = Some jp.

(** Each job of the workloads exists, and has one key in one workload. *)
Record well_stored ws st : Prop := {
  ws_new : new_jobs st;
  ws_exist wn w jp : ws !! wn = Some w -> owns (wl_jobs w) jp -> is_Some (s_jobs st !! jp);
  ws_key wn w k1 k2 jp : ws !! wn = Some w ->
    jobs_map (wl_jobs w) !! k1 = Some jp -> jobs_map (wl_jobs w) !! k2 = Some jp -> k1 = k2;
  ws_workload wn1 wn2 w1 w2 jp : ws !! wn1 = Some w1 -> ws !! wn2 = Some w2 ->
    owns (wl_jobs w1) jp -> owns (wl_jobs w2) jp -> wn1 = wn2;
}.

Lemma elem_of_jobs_of w jp : jp ∈ jobs_of w <-> owns (wl_jobs w) jp.
Proof.
  unfold jobs_of, owns. rewrite list_elem_of_fmap. split.
  - intros ([k jp'] & -> & Hin%elem_of_map_to_list). by exists k.
  - intros [k Hk]. exists (k, jp). split; [done|]. by apply elem_of_map_to_list.
Qed.

Lemma jobs_of_NoDup w :
  (forall k1 k2 jp, jobs_map (wl_jobs w) !! k1 = Some jp -> jobs_map (wl_jobs w) !! k2 = Some jp -> k1 = k2) ->
  NoDup (jobs_of w).
Proof.
  intros Hkey. unfold jobs_of. apply NoDup_fmap_2_strong; [|apply NoDup_map_to_list].
  intros [k1 jp1] [k2 jp2] H1'%elem_of_map_to_list H2'%elem_of_map_to_list E. cbn in E. subst jp2.
  by rewrite (Hkey k1 k2 jp1).
Qed.

(** Loading jobs from the address [next]. *)
Record loaded_jobs st0 (next : positive) (acc : Jobs * store IS) : Prop := {
  lj_new : new_jobs acc.2;
  lj_next : (next <= s_next_job acc.2)%positive;
  lj_old jp : is_Some (s_jobs st0 !! jp) -> is_Some (s_jobs acc.2 !! jp);
  lj_keys k1 k2 jp : jobs_map acc.1 !! k1 = Some jp -> jobs_map acc.1 !! k2 = Some jp -> k1 = k2;
  lj_owned jp : owns acc.1 jp -> (next <= jp)%positive /\ is_Some (s_jobs acc.2 !! jp);
}.

Section Load.
Context {V : Type} `{RapidJson V} `{BoostString} `{FileSystem}.
Context (str_find : string -> string -> bool) (replace_id : string -> string -> string).

Lemma Job_from_json_state wn ps (v : V) (j : Job IS) :
  Job_from_json str_find replace_id wn ps v = Ok j -> state j = JOB_STATE_NOT_SUBMITTED.
Proof. unfold Job_from_json. intros Hj. by inv_ok. Qed.

Lemma load_one_job_loaded w st0 next acc v acc' :
  loaded_jobs st0 next acc -> load_one_job str_find replace_id w acc v = Ok acc' -> loaded_jobs st0 next acc'.
Proof.
  destruct acc as [js st]. intros [[Hf Hst] Hn Hold Hk Ho]. cbn in *.
  unfold load_one_job. intros (j & Hj%Job_from_json_state & (u & _ & [= <-])%bind_Ok)%bind_Ok.
  assert (s_jobs st !! s_next_job st = None) as Hfree.
  { destruct (s_jobs st !! s_next_job st) eqn:E; [|done]. specialize (Hf (s_next_job st) ltac:(by eexists)). lia. }
  assert (forall jp, owns js jp -> jp ≠ s_next_job st) as Hother.
  { intros jp [_ [j' Hj']]%Ho ->. congruence. }
  split; cbn.
  - split; cbn; intros jp.
    + destruct (decide (jp = s_next_job st)) as [->|Hne]; [lia|]. rewrite lookup_insert_ne by done. intros Hjp%Hf. lia.
    + intros j'. destruct (decide (jp = s_next_job st)) as [->|Hne];
        [rewrite lookup_insert_eq; by intros [= <-]|rewrite lookup_insert_ne by done; apply Hst].
  - lia.
  - intros jp Hjp%Hold. destruct (decide (jp = s_next_job st)) as [->|Hne]; [rewrite lookup_insert_eq; by eexists|by rewrite lookup_insert_ne].
  - intros k1 k2 jp [[<- <-]|[Hn1 H1']]%lookup_insert_Some [[<- E]|[Hn2 H2']]%lookup_insert_Some; [done| | |by eapply Hk].
    + exfalso. apply (Hother (s_next_job st)); [by exists k2|done].
    + exfalso. apply (Hother jp); [by exists k1|done].
  - intros jp [k Hkey]. cbn in Hkey. apply lookup_insert_Some in Hkey as [[<- <-]|[Hne Hk']].
    + split; [done|]. rewrite lookup_insert_eq. by eexists.
    + destruct (Ho jp) as [Hle Hs]; [by exists k|]. split; [done|]. rewrite lookup_insert_ne; [done|].
      apply not_eq_sym, Hother. by exists k.
Qed.

Lemma remove_unreferenced_jobs ps st ps' st' :
  remove_unreferenced_profiles ps st = (ps', st') -> s_jobs st' = s_jobs st /\ s_next_job st' = s_next_job st.
Proof.
  unfold remove_unreferenced_profiles. generalize ((map_to_list ps).*1) as names. intros names. revert ps st.
  induction names as [|name names IH]; intros ps st; cbn [foldl]; [by intros [= _ <-]|].
  destruct (remove_if_unreferenced (ps, st) name) as [ps1 st1] eqn:E. intros Hr. destruct (IH _ _ Hr) as [-> ->].
  unfold remove_if_unreferenced in E. destruct (ps !! name) as [[ptr|]|]; [|by injection E as _ <-..].
  destruct (_ <? _); by injection E as _ <-.
Qed.

Lemma check_validity_jobs w st st' :
  check_validity w st = Ok st' -> s_jobs st' = s_jobs st /\ s_next_job st' = s_next_job st.
Proof. unfold check_validity. by intros (ph & _ & (u & _ & [= <-])%bind_Ok)%bind_Ok. Qed.

Lemma Workload_load_jobs content file w st nb w' st' :
  jobs_map (wl_jobs w) = ∅ -> new_jobs st ->
  Workload_load_from_json str_find replace_id content file w st = Ok (nb, w', st') ->
  loaded_jobs st (s_next_job st) (wl_jobs w', st').
Proof.
  intros Hw Hst. unfold Workload_load_from_json.
  intros (doc & _ & (u & _ & (v & _ & (n & _ & (u' & _ & ([[ph next] ps] & _ & ([js st1] & Hjobs & (st2 & [Ej En]%check_validity_jobs & Hr)%bind_Ok)%bind_Ok)%bind_Ok)%bind_Ok)%bind_Ok)%bind_Ok)%bind_Ok)%bind_Ok.
  cbn [wl_profiles wl_jobs] in Hr.
  match type of Hr with context [remove_unreferenced_profiles ?p ?s] => destruct (remove_unreferenced_profiles p s) as [ps1 st3] eqn:E end.
  injection Hr as _ <- <-. apply remove_unreferenced_jobs in E as [Ej' En'].
  assert (loaded_jobs st (s_next_job st) (js, st1)) as [[Lf Ls] L2 L3 L4 L5].
  { unfold Jobs_load_from_json in Hjobs. apply bind_Ok in Hjobs as (u2 & _ & (jobs & _ & Hf)%bind_Ok).
    revert Hf. apply foldM_inv; [|intros acc v' acc' _; apply load_one_job_loaded].
    destruct Hst as [Hf Hs]. split; cbn; [done|lia|done|..].
    - intros k1 k2 jp. by rewrite Hw, lookup_empty.
    - intros jp [k Hk]. by rewrite Hw, lookup_empty in Hk. }
  cbn in *. split; cbn; rewrite ?En', ?Ej', ?En, ?Ej; try done. by split; cbn; rewrite ?En', ?Ej', ?En, ?Ej.
Qed.
End Load.

(** A workload with fresh jobs is added. *)
Lemma add_well_stored ws st wn w st' :
  well_stored ws st -> ws !! wn = None -> loaded_jobs st (s_next_job st) (wl_jobs w, st') ->
  well_stored (<[wn := w]> ws) st'.
Proof.
  intros [[Hf Hs] He Hk Hw] Hnone [Lnew Lnext Lold Lkeys Lown]. cbn in *.
  assert (forall wn1 w1 jp, ws !! wn1 = Some w1 -> owns (wl_jobs w1) jp -> ~ owns (wl_jobs w) jp) as Hdis.
  { intros wn1 w1 jp Hw1 Ho1 [Hle _]%Lown. specialize (Hf _ (He _ _ _ Hw1 Ho1)). lia. }
  split; [done|..].
  - intros wn1 w1 jp [[<- <-]|[Hne Hw1]]%lookup_insert_Some Ho; [by apply Lown|]. apply Lold. by eapply He.
  - intros wn1 w1 k1 k2 jp [[<- <-]|[Hne Hw1]]%lookup_insert_Some; [apply Lkeys|by eapply Hk].
  - intros wn1 wn2 w1 w2 jp [[<- <-]|[Hn1 Hw1]]%lookup_insert_Some [[<- <-]|[Hn2 Hw2]]%lookup_insert_Some Ho1 Ho2; [done| | |by eapply Hw].
    + exfalso. by eapply Hdis.
    + exfalso. by eapply Hdis.
Qed.

Lemma nothing_stored st : s_jobs st = ∅ -> well_stored ∅ st.
Proof.
  intros Hj. split; [split|..].
  - intros jp [j Hjp]. by rewrite Hj, lookup_empty in Hjp.
  - intros jp j Hjp. by rewrite Hj, lookup_empty in Hjp.
  - intros wn w jp Hw. by rewrite lookup_empty in Hw.
  - intros wn w k1 k2 jp Hw. by rewrite lookup_empty in Hw.
  - intros wn1 wn2 w1 w2 jp Hw. by rewrite lookup_empty in Hw.
Qed.
End Jobs.

(** ** The start of the simulation *)

Section Start.
Context {IS Engine Host V N : Type} `{IntervalSet IS} `{SimGrid Engine Host} `{RapidJson V} `{BoostString} `{FileSystem} `{PugiXml N}.
Context (str_find : string -> string -> bool) (replace_id : string -> string -> string).
Context (read_file : string -> option string) (load_platform : string -> result (list Host * NetZone Host)).
#[local] Abbreviation Ctx := (BatsimContext IS Engine Host V).
#[local] Abbreviation Act := (Actor IS Host V).
Implicit Types (c : Ctx) (m : MainArguments).

(** What loading leaves as it is. *)
Definition rest_of c := (c_options c, c_sent c, c_actors c, c_next_actor c, c_machines c).
Definition stored c : Prop := well_stored (c_workloads c) (c_store c).
Definition loads c c' : Prop := rest_of c' = rest_of c /\ (stored c -> stored c').

#[local] Instance loads_preorder : PreOrder loads.
Proof. split; [by intros c|]. intros c1 c2 c3 [E1 S1] [E2 S2]. split; [congruence|auto]. Qed.

Lemma load_workload_stored k c d k' c' :
  load_workload str_find replace_id read_file (k, c) d = Ok (k', c') -> loads c c'.
Proof.
  unfold load_workload. intros (content & _ & ([[nb w] st] & Hw & (ws & [-> Hnone]%insert_workload_Ok & [= _ <-])%bind_Ok)%bind_Ok)%bind_Ok.
  split; [done|]. intros Hs. apply (add_well_stored (c_workloads c) (c_store c)); [exact Hs|done|].
  change (loaded_jobs (c_store c) (s_next_job (c_store c)) (wl_jobs w, st)).
  by eapply Workload_load_jobs; [|exact (ws_new _ _ Hs)|exact Hw].
Qed.

Lemma load_workflow_stored c d c' : load_workflow c d = Ok c' -> loads c c'.
Proof.
  unfold load_workflow. intros (ws & [-> Hnone]%insert_workload_Ok & ([wf tasks] & _ & (wfs & _ & [= <-])%bind_Ok)%bind_Ok)%bind_Ok.
  split; [done|]. intros Hs. apply (add_well_stored (c_workloads c) (c_store c)); [exact Hs|done|].
  split; cbn; [exact (ws_new _ _ Hs)|lia|done|..].
  - intros k1 k2 jp. by rewrite lookup_empty.
  - intros jp [k Hk]. cbn in Hk. by rewrite lookup_empty in Hk.
Qed.

Lemma load_all_stored m c n c' :
  load_workloads_and_workflows str_find replace_id read_file m c = Ok (n, c') -> loads c c'.
Proof.
  unfold load_workloads_and_workflows. intros ([k c1] & Hw & (c2 & Hf & [= _ <-])%bind_Ok)%bind_Ok. transitivity c1.
  - change c1 with (k, c1).2. revert Hw. apply (foldM_inv (fun acc => loads c acc.2)); [by split|].
    intros [k1 a] d [k2 b] _ Ha Hl. cbn in *. etrans; [exact Ha|]. exact (load_workload_stored _ _ _ _ _ Hl).
  - revert Hf. apply (foldM_inv (fun c2 => loads c1 c2)); [by split|].
    intros a d b _ Ha Hl. etrans; [exact Ha|]. exact (load_workflow_stored _ _ _ Hl).
Qed.

Lemma load_eventLists_stored m c c' : load_eventLists m c = Ok c' -> loads c c' /\ c_workloads c' = c_workloads c.
Proof.
  unfold load_eventLists. apply (foldM_inv (fun c' => loads c c' /\ c_workloads c' = c_workloads c)); [by split; [split|]|].
  intros a d b _ Ha. unfold load_eventList. by intros (ev & _ & [= <-])%bind_Ok.
Qed.

(** What the opening of the outputs leaves: the machines only learn where to trace. *)
Definition opened c := (core c, ms_nb_machines_in_each_state (c_machines c), ms_machines (c_machines c), ms_storage_nodes (c_machines c)).

Lemma prepare_batsim_outputs_core c c' : prepare_batsim_outputs c = Ok c' -> opened c' = opened c.
Proof.
  unfold prepare_batsim_outputs. intros (c1 & E1 & (c2 & E2 & (c3 & E3 & (c4 & E4 & (t & _ & [= <-])%bind_Ok)%bind_Ok)%bind_Ok)%bind_Ok)%bind_Ok.
  assert (opened c1 = opened c) as S1 by (unfold prepare_schedule_trace in E1; destruct (trace_schedule _); by inv_ok).
  assert (opened c2 = opened c1) as S2 by (unfold prepare_machine_states in E2; destruct (trace_machine_states _); by inv_ok).
  assert (opened c3 = opened c2) as S3.
  { unfold prepare_energy in E3. destruct (energy_used _); [|by simplify_eq]. revert E3.
    intros (t1 & _ & (t2 & _ & Hf)%bind_Ok)%bind_Ok. revert Hf.
    match goal with |- foldM _ ?a _ = _ -> _ => change (opened c2) with (opened a) end.
    apply (foldM_inv (fun b => opened b = opened _)); [done|].
    intros a mit b _ Ha. unfold pstate_entry. intros (t' & _ & [= <-])%bind_Ok. exact Ha. }
  assert (opened c4 = opened c3) as S4 by (unfold prepare_footprint in E4; destruct (environmental_footprint_used _); by inv_ok).
  change (opened c4 = opened c). congruence.
Qed.

(** *** The first processes *)

(** The processes are created, and that is all. *)
Definition only_creates (l : list Act) c c' : Prop :=
  (c_options c', c_store c', c_workloads c', c_sent c', c_machines c') =
    (c_options c, c_store c, c_workloads c, c_sent c, c_machines c) /\
  (actors_ok c -> actors_ok c') /\ (c_actors c').*2 = (c_actors c).*2 ++ l.

Lemma only_creates_trans l1 l2 c1 c2 c3 : only_creates l1 c1 c2 -> only_creates l2 c2 c3 -> only_creates (l1 ++ l2) c1 c3.
Proof. intros (E1 & A1 & L1) (E2 & A2 & L2). split; [congruence|]. split; [auto|]. by rewrite L2, L1, app_assoc. Qed.

Lemma only_creates_nothing c : only_creates [] c c.
Proof. split; [done|]. split; [done|]. by rewrite app_nil_r. Qed.

Lemma create_one (a : Act) c : only_creates [a] c (create_actor a c).2.
Proof.
  split; [done|]. split; [|cbn; by rewrite fmap_app].
  exact (quiet_actors (fun _ => True) _ _ (proj1 (create_actor_calm (fun _ => True) a c I))).
Qed.

Lemma create_all_only (l : list Act) : forall c, only_creates l c (create_all l c).
Proof.
  unfold create_all. induction l as [|a l IH]; intros c; cbn [foldl]; [apply only_creates_nothing|].
  exact (only_creates_trans [a] l _ _ _ (create_one a c) (IH _)).
Qed.

Lemma read_trace_only file c c' : read_trace file c = Ok c' -> exists l, Forall is_env_update l /\ only_creates l c c'.
Proof.
  unfold read_trace. intros (lines & _ & Hf)%bind_Ok. revert Hf.
  apply (foldM_inv (fun c' => exists l, Forall is_env_update l /\ only_creates l c c')).
  { exists []. split; [constructor|apply only_creates_nothing]. }
  intros c1 line c2 _ (l & Hl & Ho) Hr.
  assert (c2 = c1 \/ exists a, is_env_update a /\ c2 = (create_actor a c1).2) as [->|(a & Hau & ->)]; [|by exists l|].
  { unfold read_trace_line in Hr. destruct (split_csv_line line) as [|t0 [|zone [|property [|value rest]]]]; [left; congruence..|].
    destruct (stod t0); [|left; congruence]. right. inv_ok. eexists. split; [|reflexivity]. done. }
  exists (l ++ [a]). split; [apply Forall_app_2; [done|by constructor]|].
  eapply only_creates_trans; [exact Ho|apply create_one].
Qed.

Lemma start_only m c c' :
  start_initial_simulation_processes m false c = Ok c' ->
  exists updates, Forall is_env_update updates /\ only_creates (initial_actors m false updates) c c'.
Proof.
  unfold start_initial_simulation_processes. intros (master & _ & (c1 & Hc1 & [= <-])%bind_Ok)%bind_Ok.
  match type of Hc1 with (if _ then read_trace _ ?c0 else _) = _ =>
    assert (exists l, Forall is_env_update l /\ only_creates l c0 c1) as (l & Hl & Ho) end.
  { destruct (_ && _); [by eapply read_trace_only|]. injection Hc1 as <-. exists []. split; [constructor|apply only_creates_nothing]. }
  exists l. split; [done|]. unfold initial_actors.
  eapply only_creates_trans; [apply create_all_only|]. eapply only_creates_trans; [apply create_all_only|].
  eapply only_creates_trans; [apply create_all_only|]. eapply only_creates_trans; [exact Ho|apply (create_all_only [server_actor])].
Qed.

(** *** The whole start *)

(** The context of [main] before it loads anything. *)
Definition nothing_yet c : Prop :=
  s_jobs (c_store c) = ∅ /\ c_workloads c = ∅ /\ c_actors c = [] /\ c_sent c = [] /\ c_machines c = new_Machines.

Lemma prepared m c c' :
  nothing_yet c -> program_type m ≠ BATEXEC -> prepare_simulation str_find replace_id read_file load_platform m c = Ok c' ->
  stored c' /\ registration_sched_enabled (c_options c') = dynamic_registration_enabled m /\ c_sent c' = [] /\ actors_ok c' /\
  (exists updates, Forall is_env_update updates /\ (c_actors c').*2 = initial_actors m false updates) /\
  ((forall hosts root, load_platform (platform_filename m) = Ok (hosts, root) -> Z.of_nat (length hosts) < 2 ^ 31) ->
     machines_ok (Z.of_nat (length (ms_storage_nodes (c_machines c')))) (c_machines c')).
Proof.
  intros (Hj & Hws & Hact & Hsent & Hmach) Hp. unfold prepare_simulation.
  intros (c1 & Hc1 & ([n c2] & Hl & (c3 & Hev & (smpi & _ & Hr)%bind_Ok)%bind_Ok)%bind_Ok)%bind_Ok. cbv zeta in Hr. revert Hr.
  intros (c4 & Hm & (c5 & Ho%prepare_batsim_outputs_core & Hst)%bind_Ok)%bind_Ok.
  rewrite bool_decide_eq_false_2 in Hst by done. apply start_only in Hst as (updates & Hu & Heq & Ha & El).
  assert (rest_of c1 = (configured_options m (c_options c), [], [], c_next_actor c, new_Machines) /\ stored c1) as [E1 S1].
  { unfold set_configuration in Hc1. apply bind_Ok in Hc1 as (cfg & _ & [= <-]). split; [unfold rest_of; cbn; congruence|].
    unfold stored. cbn. rewrite Hws. by apply nothing_stored. }
  apply load_all_stored in Hl as [E2 S2]. apply load_eventLists_stored in Hev as [[E3 S3] _].
  unfold create_the_machines in Hm. revert Hm. intros ([hosts root] & Hplat & (ms & Hms & [= E4])%bind_Ok)%bind_Ok.
  unfold rest_of in *. rewrite E1 in E2. rewrite E2 in E3. injection E3 as Eo Es Eac En Em.
  assert (core c5 = (c_options c3 <| smpi_used := smpi |>, c_store c3, c_workloads c3, [], [], c_next_actor c)) as Ec5.
  { transitivity (core c4); [exact (f_equal (fun t => t.1.1.1) Ho)|]. subst c4. unfold core. cbn. congruence. }
  unfold core in Ec5. injection Ec5 as F1 F2 F3 F4 F5 F6. injection Heq as G1 G2 G3 G4 G5.
  split; [unfold stored; rewrite G2, G3, F2, F3; by apply S3, S2|]. split; [rewrite G1, F1; exact (f_equal registration_sched_enabled Eo)|].
  split; [congruence|]. split.
  - apply Ha. unfold actors_ok. rewrite F5. split; [constructor|]. by intros a ?%elem_of_nil.
  - split; [exists updates; split; [done|by rewrite El, F5]|]. intros Hsmall. cbn in Hms. rewrite Em in Hms.
    destruct (create_machines_state _ _ _ _ _ _ _ (Hsmall _ _ Hplat) Hms) as [Hfresh Hcount].
    assert (ms_nb_machines_in_each_state (c_machines c5) = ms_nb_machines_in_each_state ms /\
            ms_machines (c_machines c5) = ms_machines ms /\ ms_storage_nodes (c_machines c5) = ms_storage_nodes ms) as (K1 & K2 & K3)
      by (subst c4; split; [exact (f_equal (fun t => t.1.1.2) Ho)|split; [exact (f_equal (fun t => t.1.2) Ho)|exact (f_equal snd Ho)]]).
    rewrite G5, K3. split; rewrite ?K2; [unfold counters_ok; by rewrite K1, K2|..];
      (eapply Forall_impl; [exact Hfresh|]); intros mm (Hidle & _ & Ht); [done|unfold computes; congruence].
Qed.

(** The jobs of a workload, by its name. *)
Definition jobs_named c (wn : string) : list positive := match c_workloads c !! wn with Some w => jobs_of w | None => [] end.

Lemma bind_nil {A B} (f : A -> list B) l : (forall a, a ∈ l -> f a = []) -> l ≫= f = [].
Proof.
  induction l as [|a l IH]; intros Hl; [done|]. cbn. rewrite Hl by by left. apply IH. intros b Hb. apply Hl. by right.
Qed.

(** What the first processes hold: the jobs of the workloads. *)
Lemma first_held m updates c :
  Forall is_env_update updates -> (c_actors c).*2 = initial_actors m false updates ->
  c_actors c ≫= held_by c = (wd_name <$> workload_descriptions m) ≫= jobs_named c.
Proof.
  intros Hu El. set (held := fun a : Act => held_by c (1%positive, a)).
  assert (c_actors c ≫= held_by c = initial_actors m false updates ≫= held) as ->.
  { rewrite <- El. generalize (c_actors c) as l. induction l as [|[i a] l IH]; [done|]. cbn. by rewrite IH. }
  unfold initial_actors. rewrite !bind_app.
  rewrite (bind_nil held ((fun d => workflow_submitter_actor (fd_name d)) <$> _)) by by intros a (d & -> & _)%list_elem_of_fmap.
  rewrite (bind_nil held ((fun d => static_event_submitter_actor (ed_name d)) <$> _)) by by intros a (d & -> & _)%list_elem_of_fmap.
  rewrite (bind_nil held updates), (bind_nil held [server_actor]); [|by intros a ->%list_elem_of_singleton|].
  - rewrite !app_nil_r. generalize (workload_descriptions m) as l. induction l as [|d l IH]; [done|]. cbn. by rewrite IH.
  - intros a Ha. rewrite Forall_forall in Hu. specialize (Hu a Ha). by destruct a.
Qed.

Lemma jobs_named_NoDup c names : stored c -> NoDup names -> NoDup (names ≫= jobs_named c).
Proof.
  intros [_ _ Hkey Hwn] Hnd. induction Hnd as [|wn l Hn Hnd IH]; [constructor|].
  cbn. apply NoDup_app. split; [|split; [|exact IH]].
  - unfold jobs_named. destruct (c_workloads c !! wn) as [w|] eqn:Hw; [|constructor]. apply jobs_of_NoDup. intros k1 k2 jp. by eapply Hkey.
  - intros jp Hjp (wn' & Hjp' & Hwn')%list_elem_of_bind. unfold jobs_named in *.
    destruct (c_workloads c !! wn) as [w|] eqn:Hw; [|by apply elem_of_nil in Hjp].
    destruct (c_workloads c !! wn') as [w'|] eqn:Hw'; [|by apply elem_of_nil in Hjp'].
    apply elem_of_jobs_of in Hjp, Hjp'. rewrite (Hwn wn wn' w w' jp) in Hn; done.
Qed.

Lemma jobs_named_exist c names jp : stored c -> jp ∈ names ≫= jobs_named c -> is_Some (s_jobs (c_store c) !! jp).
Proof.
  intros [_ Hex _ _] (wn & Hjp & _)%list_elem_of_bind. unfold jobs_named in Hjp.
  destruct (c_workloads c !! wn) as [w|] eqn:Hw; [|by apply elem_of_nil in Hjp].
  eapply Hex; [exact Hw|]. by apply elem_of_jobs_of.
Qed.

(** The kinds of the first processes. *)
Lemma first_kinds m updates (a : Act) :
  Forall is_env_update updates -> a ∈ initial_actors m false updates ->
  match a with
  | static_job_submitter_actor wn => wn ∈ wd_name <$> workload_descriptions m
  | workflow_submitter_actor name => exists d, d ∈ workflow_descriptions m /\ name = fd_name d
  | static_event_submitter_actor _ | env_zone_update_actor _ _ _ _ | server_actor => True
  | _ => False
  end.
Proof.
  intros Hu. unfold initial_actors. rewrite !elem_of_app.
  intros [(d & -> & Hd)%list_elem_of_fmap|[(d & -> & Hd)%list_elem_of_fmap|[(d & -> & Hd)%list_elem_of_fmap|[Hin|Hin]]]].
  - by apply list_elem_of_fmap_2.
  - by exists d.
  - done.
  - rewrite Forall_forall in Hu. specialize (Hu _ Hin). by destruct a.
  - apply list_elem_of_singleton in Hin. by subst.
Qed.

Lemma prepare_simulation_prepares m c c' :
  inputs_ok m -> nothing_yet c -> program_type m ≠ BATEXEC -> dynamic_registration_enabled m = false ->
  prepare_simulation str_find replace_id read_file load_platform m c = Ok c' -> well_prepared c'.
Proof.
  intros [Hnames Hwf _] Hn Hp Hdyn Hr. destruct (prepared m c c' Hn Hp Hr) as (Hs & Hreg & Hsent & Hact & (updates & Hu & El) & _).
  apply NoDup_app in Hnames as (Hnd & Hdis & _).
  assert (forall a, a ∈ c_actors c' -> a.2 ∈ initial_actors m false updates) as Hin.
  { intros a Ha. rewrite <- El. by apply list_elem_of_fmap_2. }
  split; rewrite ?(first_held m updates c' Hu El); try done.
  - by rewrite Hreg.
  - intros jp. apply (ws_new _ _ Hs).
  - apply (ws_new _ _ Hs).
  - by apply jobs_named_NoDup.
  - intros jp. by apply jobs_named_exist.
  - intros a Ha%Hin. apply (first_kinds m updates _ Hu) in Ha. destruct a.2; try done. destruct Ha as (d & Hd & ->).
    intros (b & Hb%Hin & Hsome)%elem_of_list_to_set%list_elem_of_omap. apply (first_kinds m updates _ Hu) in Hb.
    unfold static_of in Hsome. destruct b.2; try done. injection Hsome as ->. apply (Hdis _ Hb).
    rewrite <- (proj1 (Hwf d Hd)). by apply list_elem_of_fmap_2.
Qed.

(** *** From the command line *)

(** C15. What [main] hands over to the engine is what the theorems on the whole system
    require.  A simulation is run only when the arguments are accepted, with the return
    code 0; without dynamic registration, and with a scheduler, the jobs of the workloads
    are loaded once each, not submitted, each workload with one submitter that is the
    only one to hold its jobs, and the names of the workflows are not those of workloads.
    The machines are consistent, on a platform whose hosts can be numbered. *)
Theorem main_starts_the_system {Args Db} `{Docopt Args} `{Redox Db} file_exists getcwd split_on (args : Args) c (st : RedisStorage Db) m calls c' st' :
  nothing_yet c ->
  main str_find replace_id read_file load_platform file_exists getcwd split_on args c st = Ok (Simulates m calls c' st') ->
  parse_main_args file_exists getcwd split_on args = Ok (m, 0, true) /\ dump_execution_context m = false /\ inputs_ok m /\
  (program_type m = BATSIM -> dynamic_registration_enabled m = false -> well_prepared c' /\
     ((forall hosts root, load_platform (platform_filename m) = Ok (hosts, root) -> Z.of_nat (length hosts) < 2 ^ 31) ->
        machines_ok (Z.of_nat (length (ms_storage_nodes (c_machines c')))) (c_machines c'))).
Proof.
  intros Hn. unfold main. intros ([[m0 code] run] & Hargs & Hr)%bind_Ok.
  destruct (dump_execution_context m0) eqn:Hdump; [done|]. destruct run; [|done].
  apply bind_Ok in Hr as (c1 & Hp & (calls1 & _ & (st1 & _ & [= -> -> -> ->])%bind_Ok)%bind_Ok).
  destruct (accepted_arguments_ok _ _ _ _ _ _ Hargs) as (-> & Hin & _ & _). split; [done|]. split; [done|]. split; [done|].
  intros Hb Hd. assert (program_type m ≠ BATEXEC) as Hnb by congruence. split.
  - by apply (prepare_simulation_prepares m c c').
  - by destruct (prepared m c c' Hn Hnb Hp) as (_ & _ & _ & _ & _ & Hm).
Qed.
End Start.
