(* ===== verification/SimulationExamples.v ===== *)
(** * A small simulation, from its command line

    Two machines, a workload of one job, a workflow and a list of one event: the
    hypotheses of the theorems on the arguments, the start, the traces and the
    storage hold there, and what they say is evaluated. *)

From S2P Require Import Prelude Interfaces Profiles Jobs Storage NumericStrcmp Outputs Machines Workload Tracers Ipp PState Writer NumberParsing Workflow WorkflowFacts Context OutputFiles Server Actors SwitchProcesses EnvTrace Main TaskExecution JobsExecution Submitters ServerFacts ServerExamples SubmittersFacts WorkflowRuns WorkflowExamples Simulation MainFacts SimulationFacts.

Module SimulationExamples.
Import Concrete MachineExamples JobExamples WorkloadExamples.
#[local] Existing Instance WorkflowExamples.concrete_xml.

(** ** The command line *)

Inductive option_value := OBool (b : bool) | OString (s : string) | OLong (z : Z) | OList (l : list string) | ONone.
Definition wrong_type {A} : result A := Err (Throw "runtime_error: illegal cast").

#[export] Instance concrete_docopt : Docopt (string -> option_value) := {
  asBool args o := match args o with OBool b => Ok b | _ => wrong_type end;
  asString args o := match args o with OString s => Ok s | _ => wrong_type end;
  asLong args o := match args o with OLong z => Ok z | _ => wrong_type end;
  asStringList args o := match args o with OList l => Ok l | _ => wrong_type end;
  isString args o := match args o with OString _ => true | _ => false end;
}.

Definition defaults : gmap string option_value := list_to_map [
  ("--platform", OString "/p.xml"); ("--workload", OList ["/w.json"]); ("--workflow", OList []);
  ("<cut_workflow_file>", OList ["/diamond.xml"]); ("<start_time>", OList ["10"]); ("--events", OList ["/events"]);
  ("--master-host", OString "top"); ("--add-role-to-hosts", OList []); ("--socket-endpoint", OString "tcp://localhost:28000");
  ("--redis-hostname", OString "127.0.0.1"); ("--redis-port", OLong 6379); ("--redis-prefix", OString "default");
  ("--export", OString "out"); ("--mmax", OString "2"); ("--verbosity", OString "information");
  ("--workflow-jobs-limit", OString "0"); ("--sg-cfg", OList []); ("--sg-log", OList [])].
Definition flags : list string := ["--environmental-footprint-dynamic"; "--sched-cfg"; "--sched-cfg-file"].
Definition args (o : string) : option_value :=
  default (if bool_decide (o ∈ flags) then ONone else OBool false) (defaults !! o).
Definition with_option (o : string) (v : option_value) (args : string -> option_value) (o' : string) : option_value :=
  if String.eqb o' o then v else args o'.

Definition file_exists (s : string) : bool := true.
Definition parse (args : string -> option_value) := parse_main_args file_exists "/tmp" split_fun args.
Definition arguments : MainArguments := match parse args with Ok (m, _, _) => m | Err _ => new_MainArguments end.

Lemma parsed : parse args = Ok (arguments, 0, true).
Proof. vm_compute. reflexivity. Qed.

Example accepted_arguments_witness :
  inputs_ok arguments /\ wd_name <$> workload_descriptions arguments = ["w0"] /\
  fd_workload_name <$> workflow_descriptions arguments = ["wfc0"] /\ 0 <= workflow_nb_concurrent_jobs_limit arguments.
Proof.
  destruct (accepted_arguments file_exists "/tmp" split_fun args arguments 0 parsed) as (_ & Hin & _ & Hlim).
  split; [exact Hin|]. split; [vm_compute; reflexivity|]. split; [vm_compute; reflexivity|exact Hlim].
Defined.

Definition negative_limit : string -> option_value := with_option "--workflow-jobs-limit" (OString "-1") args.
Definition rejected : MainArguments := match parse negative_limit with Ok (m, _, _) => m | Err _ => new_MainArguments end.
Lemma no_version o v : (o =? "--simgrid-version")%string = false -> asBool (with_option o v args) "--simgrid-version" = Ok false.
Proof. unfold with_option. cbn [asBool concrete_docopt]. intros Ho. rewrite String.eqb_sym, Ho. vm_compute. reflexivity. Qed.
Lemma rejected_inputs : is_ok (parse_inputs file_exists "/tmp" negative_limit (mk_parsing new_MainArguments false 0)) = true /\
  forall p, parse_inputs file_exists "/tmp" negative_limit (mk_parsing new_MainArguments false 0) = Ok p -> pa_error p = false.
Proof. split; [vm_compute; reflexivity|]. intros p Hp. vm_compute in Hp. injection Hp as <-. reflexivity. Qed.
Lemma rejected_ok : exists code, parse negative_limit = Ok (rejected, code, false).
Proof. eexists. vm_compute. reflexivity. Qed.

Example return_code_only_tells_input_errors_witness : parse negative_limit = Ok (rejected, 0, false).
Proof.
  destruct rejected_ok as [code Hp].
  destruct (return_code_only_tells_input_errors file_exists "/tmp" split_fun negative_limit rejected code false
              (no_version "--workflow-jobs-limit" (OString "-1") eq_refl) Hp) as (p & Hin & _ & Hcode).
  rewrite <- (Hcode (proj2 rejected_inputs p Hin)). exact Hp.
Defined.

(** ** The files *)

Definition a_delay : json := JObj [("type", JStr "delay"); ("delay", JInt 10)].
Definition job_one : json := JObj [("id", JStr "1"); ("subtime", JInt 0); ("walltime", JInt 20); ("res", JInt 1); ("profile", JStr "d")].
Definition workload_file : json := JObj [("nb_res", JInt 4); ("profiles", JObj [("d", a_delay)]); ("jobs", JArr [job_one])].
(** Two messages of the scheduler. *)
Definition nothing_to_do : json := JObj [("now", JInt 0); ("events", JArr [])].
Definition execution : json := JObj [("job_id", JStr "w0!1"); ("alloc", JStr "0")].
Definition execute_the_job : json :=
  JObj [("now", JInt 0); ("events", JArr [JObj [("timestamp", JInt 0); ("type", JStr "EXECUTE_JOB"); ("data", execution)]])].
Definition event_line : json := JObj [("timestamp", JInt 5); ("type", JStr "machine_unavailable"); ("resources", JStr "0")].

#[export] Instance start_json : RapidJson json := {
  IsObject := IsObject; IsArray := IsArray; IsString := IsString; IsNumber := IsNumber; IsInt := IsInt;
  members := members; array_values := array_values; GetString := GetString; GetDouble := GetDouble; GetInt := GetInt;
  serialize := serialize;
  parse_json s := if String.eqb s "workload" then Some workload_file
                  else if String.eqb s "event" then Some event_line
                  else if String.eqb s "nothing" then Some nothing_to_do
                  else if String.eqb s "execute" then Some execute_the_job else Some job_one;
}.
#[export] Instance start_files : FileSystem := {
  fs_is_directory _ := false;
  fs_is_regular_file _ := false;
  fs_parent_path _ := "";
  fs_lines name := if String.eqb name "/events" then Some ["event"]
                   else if String.eqb name "/trace.csv" then Some ["date,zone,property,value"; "7,root,pue,1.5"; "skipped"]
                   else None;
  trim_right s := s;
}.
Definition read_file (name : string) : option string := Some "workload".
Definition platform_hosts : list host :=
  [a_host 0 "m10" "compute_node"; a_host 1 "m2" "compute_node"; mk_host 2 "top" ∅ [1%Q]; a_host 3 "disk" "storage"].
Definition platform_root : NetZone host := mk_NetZone "root" [] platform_hosts [].
Definition load_platform (name : string) : result (list host * NetZone host) := Ok (platform_hosts, platform_root).
Definition str_find (s t : string) : bool := false.
Definition replace_id (s i : string) : string := s.

#[local] Abbreviation Ctx := (BatsimContext (list Z) engine host json).
Definition no_options : Options :=
  mk_Options false false false false true false false false false false false false false.
Definition initial_context : Ctx :=
  mk_Context an_engine no_options root new_Writer new_Machines ∅ (mk_store ∅ ∅ 1 1) ∅ (mk_task_store ∅ 1) 0 ∅ ∅
    (mk_PajeTracer false None ∅ example_colors UNINITIALIZED 0) None (mk_EnergyConsumptionTracer None 0 0) None
    (mk_MachineStateTracer false None) new_JobsTracer ∅ (JObject []) false (-1) 0 0 0 [] 1 [] [].

Definition run (m : MainArguments) : result Ctx := prepare_simulation (N := WorkflowExamples.xml) str_find replace_id read_file load_platform m initial_context.

Definition started : Ctx := match run arguments with Ok c => c | Err _ => initial_context end.
Lemma started_ok : run arguments = Ok started.
Proof. vm_compute. reflexivity. Qed.
Lemma arguments_ok : inputs_ok arguments.
Proof.
  constructor.
  - vm_compute. apply NoDup_cons. split; [|apply NoDup_singleton]. intros He%list_elem_of_singleton. discriminate He.
  - intros d Hd. change (workflow_descriptions arguments) with [mk_WorkflowDescription "/diamond.xml" "wfc0" "wfc0" (10 # 1)] in Hd.
    apply list_elem_of_singleton in Hd as ->. split; [reflexivity|]. unfold Qle. cbn. lia.
  - vm_compute. apply NoDup_singleton.
Qed.

Example prepare_simulation_spec_witness :
  (c_actors started).*2 = [static_job_submitter_actor "w0"; workflow_submitter_actor "wfc0";
                           static_event_submitter_actor "we0"; server_actor] /\
  workflow_loaded started (mk_WorkflowDescription "/diamond.xml" "wfc0" "wfc0" (10 # 1)).
Proof.
  destruct (prepare_simulation_spec (N := WorkflowExamples.xml) str_find replace_id read_file load_platform arguments
              initial_context started arguments_ok started_ok) as (_ & Hwf & _ & _).
  split; [vm_compute; reflexivity|]. apply Hwf.
  change (workflow_descriptions arguments) with [mk_WorkflowDescription "/diamond.xml" "wfc0" "wfc0" (10 # 1)].
  apply list_elem_of_singleton. reflexivity.
Defined.

Definition loaded_inputs : result (Z * Ctx) :=
  load_workloads_and_workflows (N := WorkflowExamples.xml) str_find replace_id read_file arguments initial_context.
Definition loaded_context : Ctx := match loaded_inputs with Ok (_, c) => c | Err _ => initial_context end.
Lemma loaded_inputs_ok : loaded_inputs = Ok (2, loaded_context).
Proof. vm_compute. reflexivity. Qed.

Example load_workloads_and_workflows_limit_witness : 0 < 2 <= limit_machines_count arguments.
Proof.
  destruct (load_workloads_and_workflows_limit (N := WorkflowExamples.xml) str_find replace_id read_file arguments
              initial_context 2 loaded_context loaded_inputs_ok) as (_ & Hlim & _).
  apply Hlim; [vm_compute; reflexivity|left]. vm_compute. discriminate.
Defined.

(** ** The environment *)

Definition with_footprint : string -> option_value := with_option "--environmental-footprint" (OBool true) args.
Definition footprint_arguments : MainArguments := match parse with_footprint with Ok (m, _, _) => m | Err _ => new_MainArguments end.
Lemma footprint_parsed : parse with_footprint = Ok (footprint_arguments, 0, true).
Proof. vm_compute. reflexivity. Qed.

Example fixed_footprint_cannot_start_witness :
  is_ok (start_initial_simulation_processes footprint_arguments false started) = false.
Proof.
  exact (fixed_footprint_cannot_start file_exists "/tmp" split_fun with_footprint footprint_arguments 0 false started
           (no_version "--environmental-footprint" (OBool true) eq_refl) eq_refl footprint_parsed eq_refl).
Defined.

Definition traced : Ctx := match read_trace "/trace.csv" started with Ok c => c | Err _ => started end.
Lemma traced_ok : read_trace "/trace.csv" started = Ok traced.
Proof. vm_compute. reflexivity. Qed.

Example read_trace_spec_witness :
  exists actors, c_actors traced = c_actors started ++ actors /\
    Forall2 (is_process_of (c_root_zone started) (now started)) [(7 # 1, "root", "pue", "1.5")%Q] actors.*2.
Proof.
  destruct (read_trace_spec "/trace.csv" started traced traced_ok) as (lines & actors & Hlines & Ha & Hf).
  injection Hlines as <-. exists actors. split; [exact Ha|exact Hf].
Defined.

(** ** Power states *)

Example pstate_to_machine_set_spec_witness :
  pstate_to_machine_set (IS := list Z) (set_pstate an_engine (a_host 1 "m2" "compute_node") 3) ms = [(0, [0; 2]); (3, [1])] /\
  holds (pstate_to_machine_set (IS := list Z) (set_pstate an_engine (a_host 1 "m2" "compute_node") 3) ms) 3 1.
Proof.
  split; [vm_compute; reflexivity|].
  apply (proj2 (pstate_to_machine_set_spec (IS := list Z) (set_pstate an_engine (a_host 1 "m2" "compute_node") 3) ms)).
  eexists. split; [apply (list_elem_of_lookup_2 _ 1%nat); vm_compute; reflexivity|]. split; vm_compute; reflexivity.
Defined.

(** ** The storage *)

#[export] Instance concrete_redox : Redox (gmap string string) := {
  redox_connect db _ _ := (true, db);
  redox_disconnect db := db;
  redox_get db key := db !! key;
  redox_set db key value := (true, <[key := value]> db);
  redox_del db key := (bool_decide (is_Some (db !! key)), delete key db);
}.
#[export] Instance concrete_redox_laws : RedoxLaws (gmap string string).
Proof.
  constructor; cbn.
  - intros db key value db' [= <-]. apply lookup_insert_eq.
  - intros db key value key' b db' [= _ <-] Hne. by apply lookup_insert_ne.
Qed.

Definition storage : RedisStorage (gmap string string) := mk_RedisStorage true ∅ "default" ":".
Definition w0_1_id : JobIdentifier := mk_JobIdentifier "w0" "1" "w0!1".
Lemma w0_1_id_ok : JobIdentifier_of_names "w0" "1" = Ok w0_1_id.
Proof. vm_compute. reflexivity. Qed.

Example stored_job_is_read_back_witness :
  exists s', Storage.set (job_key w0_1_id) "{}" storage = Ok (true, s') /\ Storage.get (job_key w0_1_id) s' = Ok "{}".
Proof.
  destruct (stored_job_is_read_back storage "w0" "1" "w0" "d" w0_1_id "{}" eq_refl w0_1_id_ok eq_refl)
    as (ret & s' & Hs & _ & Hget & _).
  assert (exists s1, Storage.set (job_key w0_1_id) "{}" storage = Ok (true, s1)) as [s1 Hs1] by (eexists; vm_compute; reflexivity).
  pose proof (eq_trans (eq_sym Hs) Hs1) as [= -> ->].
  exists s1. split; [exact Hs1|exact (Hget eq_refl)].
Defined.
End SimulationExamples.
