(* ===== verification/SystemExamples.v ===== *)
(** * A small simulation, from its command line to the completion of its job

    The simulation of [SimulationExamples] runs with a scheduler that executes the job
    as soon as it is told about it; the properties of the system hold there. *)

From S2P Require Import Prelude Interfaces Profiles Jobs Storage NumericStrcmp Outputs Machines Workload Tracers Ipp PState Writer NumberParsing Workflow Context ContextSteps OutputFiles Server Actors Replay Submitters Reader System ServerFacts SystemProtocol SystemFacts SystemSafety SystemWaits Main MainFacts Simulation SimulationFacts SystemStart WorkflowExamples SimulationExamples.

Module SystemExamples.
Import Concrete MachineExamples JobExamples WorkloadExamples SimulationExamples.
#[local] Existing Instance WorkflowExamples.concrete_xml.
#[local] Abbreviation sys := (system (list Z) engine host json).

Definition world : externals (list Z) engine host json := {|
  x_englobing_zone _ := None;
  x_regex_match _ _ := false;
  x_str_find := str_find;
  x_replace_id := replace_id;
  x_storage_set _ _ := Ok tt;
  x_storage_get _ := Err (Abort "no data storage");
  x_sg_host_set _ e _ _ := e;
  x_get_core_count _ := 1;
  x_read_actions _ _ := Ok [];
  x_smpi_replay_run _ _ _ := ret tt;
  x_print _ := "";
  x_run_info _ := mk_run_info "" 0 0 0 0 false 0 0;
  x_scheduler self _ := Ok (if (self <=? 5)%positive then "nothing" else "execute");
  x_stack := 3; x_polls := 3; x_iterations := 5;
|}.

(** The submitter announces the job, the scheduler executes it, it waits for 10 s; a
    sender goes on when the server has its message. *)
Definition until_submitted : list (label engine) :=
  [StartActor 1; ServerStarts; ServerReceives; MessageIsTaken 1; ServerReceives; MessageIsTaken 1; ServerReceives;
   StartActor 5; ServerReceives; MessageIsTaken 5].
Definition until_started : list (label engine) :=
  [StartActor 6; ServerReceives; MessageIsTaken 6; ServerReceives; MessageIsTaken 6; StartActor 7].
Definition until_completed : list (label engine) := [TimePasses (mk_engine 10 [] 0); WakesUp 7; ServerReceives].

Definition after (ls : list (label engine)) (σ : sys) : sys :=
  match exec_all world ls σ with Some (Ok σ) => σ | _ => σ end.
Definition submitted : sys := after until_submitted (start_of started).
Definition running : sys := after until_started submitted.
Definition completed : sys := after until_completed running.

Definition is_state (r : option (result sys)) : bool := match r with Some (Ok _) => true | _ => false end.
Lemma after_ok ls σ : is_state (exec_all world ls σ) = true -> exec_all world ls σ = Some (Ok (after ls σ)).
Proof. unfold after. by destruct (exec_all world ls σ) as [[?|?]|]. Qed.

Lemma submitted_ok : exec_all world until_submitted (start_of started) = Some (Ok submitted).
Proof. apply after_ok. vm_compute. reflexivity. Qed.
Lemma running_ok : exec_all world until_started submitted = Some (Ok running).
Proof. apply after_ok. vm_compute. reflexivity. Qed.
Lemma completed_ok : exec_all world until_completed running = Some (Ok completed).
Proof. apply after_ok. vm_compute. reflexivity. Qed.

Lemma submitted_reachable : reachable world started submitted.
Proof. apply (exec_all_reachable _ until_submitted), submitted_ok. Qed.
Lemma submitted_runs : rtc (step world) submitted completed.
Proof.
  etransitivity; [exact (exec_all_reachable _ until_started _ _ running_ok)|].
  exact (exec_all_reachable _ until_completed _ _ completed_ok).
Qed.
Lemma completed_reachable : reachable world started completed.
Proof. unfold reachable. etransitivity; [exact submitted_reachable|exact submitted_runs]. Qed.

Lemma world_replays : replay_only_waits world.
Proof. intros i r f d d' p [= <- <-]. by split. Qed.

Lemma nothing_before : nothing_yet initial_context.
Proof. by repeat split. Qed.
Lemma with_scheduler : program_type arguments ≠ BATEXEC.
Proof. by vm_compute. Qed.
Lemma without_registration : dynamic_registration_enabled arguments = false.
Proof. vm_compute. reflexivity. Qed.

Lemma started_well_prepared : well_prepared started.
Proof.
  exact (prepare_simulation_prepares (N := WorkflowExamples.xml) str_find replace_id read_file load_platform arguments
    initial_context started arguments_ok nothing_before with_scheduler without_registration started_ok).
Qed.

Lemma platform_is_small hosts root :
  load_platform (platform_filename arguments) = Ok (hosts, root) -> Z.of_nat (length hosts) < 2 ^ 31.
Proof. intros [= <- <-]. by vm_compute. Qed.

Lemma started_machines_ok : machines_ok (Z.of_nat (length (ms_storage_nodes (c_machines started)))) (c_machines started).
Proof.
  destruct (prepared (N := WorkflowExamples.xml) str_find replace_id read_file load_platform arguments initial_context started
    nothing_before with_scheduler started_ok) as (_ & _ & _ & _ & _ & Hm).
  exact (Hm platform_is_small).
Qed.

Definition storage : RedisStorage (gmap string string) := new_RedisStorage ∅.
Definition main_run :=
  main (N := WorkflowExamples.xml) str_find replace_id read_file load_platform file_exists "/tmp" split_fun args initial_context storage.
Definition first_calls : list library_call :=
  match main_run with Ok (Simulates _ calls _ _) => calls | _ => [] end.
Lemma main_run_ok : main_run = Ok (Simulates arguments first_calls started storage).
Proof.
  assert (match main_run with Ok (Simulates _ _ _ _) => true | _ => false end = true) as E by (vm_compute; reflexivity).
  unfold first_calls. revert E. unfold main_run, main.
  change (parse_main_args file_exists "/tmp" split_fun args) with (parse args). rewrite parsed.
  rewrite !Ok_bind. cbv beta iota zeta. change (dump_execution_context arguments) with false. cbv iota. cbn [negb].
  change (prepare_simulation _ _ _ _ _ _) with (run arguments). rewrite started_ok, !Ok_bind. cbv beta.
  destruct (library_calls _ _ _) as [calls|]; [|discriminate]. rewrite !Ok_bind. cbv beta.
  change (prepare_storage arguments started storage) with (Ok storage). rewrite !Ok_bind. reflexivity.
Qed.

Example main_starts_the_system_witness : well_prepared started /\ inputs_ok arguments.
Proof.
  destruct (main_starts_the_system (N := WorkflowExamples.xml) str_find replace_id read_file load_platform file_exists "/tmp" split_fun args
    initial_context storage arguments first_calls started storage nothing_before main_run_ok) as (_ & _ & Hin & Hp).
  split; [|exact Hin]. apply Hp; vm_compute; reflexivity.
Defined.

(** The machines while the job runs. *)
Definition machines_now (σ : sys) := c_machines (sy_context σ).
Lemma running_counts : count_of (ms_nb_machines_in_each_state (machines_now running)) COMPUTING = 1.
Proof. vm_compute. reflexivity. Qed.
Lemma running_reachable : reachable world started running.
Proof. unfold reachable. etransitivity; [exact submitted_reachable|]. exact (exec_all_reachable _ until_started _ _ running_ok). Qed.

Example system_machines_consistent_witness :
  nb_in_state COMPUTING (ms_machines (machines_now running)) = 1 /\
  forall m, m ∈ ms_machines (machines_now running) -> m_state m = COMPUTING -> m_jobs_being_computed m ≠ [].
Proof.
  destruct (system_machines_consistent world started running _ started_well_prepared world_replays started_machines_ok running_reachable)
    as [Hc Hm].
  split.
  - specialize (Hc COMPUTING). fold (machines_now running) in Hc. rewrite running_counts, decide_False, Z.sub_0_r in Hc by done. symmetry. exact Hc.
  - intros m Hin. exact (proj2 (proj2 (Hm m Hin))).
Defined.

Lemma completed_started : sy_server_started completed = true.
Proof. vm_compute. reflexivity. Qed.
Lemma completed_counters :
  nb_submitted_jobs (sy_data completed) = 1 /\ nb_completed_jobs (sy_data completed) = 1 /\ nb_running_jobs (sy_data completed) = 0.
Proof. vm_compute. repeat split. Qed.

(** The job has been submitted, executed and completed; none waits. *)
Example system_job_accounting_witness :
  nb_submitted_jobs (sy_data completed) = 1 /\ nb_completed_jobs (sy_data completed) = 1 /\
  jobs_in JOB_STATE_SUBMITTED ∅ (job_states (sy_data completed)) = 0.
Proof.
  destruct (system_job_accounting world started completed started_well_prepared world_replays completed_reachable completed_started) as [Ha _].
  destruct completed_counters as (E1 & E2 & E3). split; [exact E1|]. split; [exact E2|]. rewrite E1, E2, E3 in Ha. lia.
Defined.

Example system_refines_server_witness :
  exists c1 data0, server_start c1 = Ok data0 /\ rtc (server_step (fun _ => None) 3) (∅, data0) (∅, sy_data completed).
Proof.
  destruct (system_refines_server world started completed started_well_prepared world_replays completed_reachable completed_started)
    as (c1 & d0 & _ & Hs & Hr).
  exists c1, d0. split; [exact Hs|exact Hr].
Defined.

Lemma announced_jobs : submissions (messages (sy_context completed)) = [1%positive].
Proof. vm_compute. reflexivity. Qed.

Example jobs_announced_once_witness :
  submissions (messages (sy_context completed)) = [1%positive] /\ NoDup (submissions (messages (sy_context completed))).
Proof.
  split; [exact announced_jobs|].
  exact (proj1 (jobs_announced_once world started completed started_well_prepared world_replays completed_reachable)).
Defined.

Lemma job_message :
  exists m, m ∈ messages (sy_context submitted) /\ m = mk_IPMessage JOB_SUBMITTED (JobSubmittedMessage "w0_submitter" [1%positive]).
Proof.
  eexists. split; [|reflexivity]. apply list_elem_of_In.
  assert ((nth_error (messages (sy_context submitted)) 1) = Some (mk_IPMessage JOB_SUBMITTED (JobSubmittedMessage "w0_submitter" [1%positive])))
    as E by (vm_compute; reflexivity).
  by eapply nth_error_In.
Qed.

Example messages_have_their_types_witness :
  exists m : IPMessage (list Z) host, msg_type m = JOB_SUBMITTED /\ destroy_message m = Ok tt.
Proof.
  destruct job_message as (m & Hin & Em). exists m. split; [rewrite Em; reflexivity|].
  exact (proj2 (messages_have_their_types world started submitted m started_well_prepared world_replays submitted_reachable Hin)).
Defined.
End SystemExamples.

(** ** The same simulation without its workflow *)

Module WithoutWorkflow.
Import Concrete MachineExamples JobExamples WorkloadExamples SimulationExamples SystemExamples.
#[local] Existing Instance WorkflowExamples.concrete_xml.
#[local] Abbreviation sys := (system (list Z) engine host json).

Definition args : string -> option_value :=
  with_option "<cut_workflow_file>" (OList []) (with_option "<start_time>" (OList []) SimulationExamples.args).
Definition arguments : MainArguments := match parse args with Ok (m, _, _) => m | Err _ => new_MainArguments end.
Lemma parsed_alone : parse args = Ok (arguments, 0, true).
Proof. vm_compute. reflexivity. Qed.
Lemma arguments_ok_alone : inputs_ok arguments.
Proof. exact (proj1 (proj2 (accepted_arguments_ok file_exists "/tmp" split_fun args arguments 0 parsed_alone))). Qed.

Definition start : result (BatsimContext (list Z) engine host json) :=
  prepare_simulation (N := WorkflowExamples.xml) str_find replace_id read_file load_platform arguments initial_context.
Definition started := match start with Ok c => c | Err _ => initial_context end.
Lemma started_ok_alone : start = Ok started.
Proof. vm_compute. reflexivity. Qed.
Lemma without_registration_alone : dynamic_registration_enabled arguments = false.
Proof. vm_compute. reflexivity. Qed.
Lemma with_scheduler_alone : program_type arguments ≠ BATEXEC.
Proof. by vm_compute. Qed.

Lemma started_well_prepared_alone : well_prepared started.
Proof.
  exact (prepare_simulation_prepares (N := WorkflowExamples.xml) str_find replace_id read_file load_platform arguments
    initial_context started arguments_ok_alone nothing_before with_scheduler_alone without_registration_alone started_ok_alone).
Qed.

(** No submitter of a workflow, and no scheduler that answers, executable. *)
Lemma no_workflow_submitter a : a ∈ c_actors started -> is_workflow a = false.
Proof.
  assert (forallb (fun a => negb (is_workflow a)) (c_actors started) = true) as E by (vm_compute; reflexivity).
  rewrite forallb_forall in E. by intros Ha%list_elem_of_In%E%negb_true_iff.
Qed.
Definition no_answer_b (σ : sys) : bool :=
  forallb (fun m => negb (bool_decide (msg_type m = SCHED_WAIT_ANSWER))) (messages (sy_context σ)).
Lemma no_answer_b_sound (σ : sys) : no_answer_b σ = true -> no_answer σ.
Proof.
  unfold no_answer_b. rewrite forallb_forall. by intros E m Hm%list_elem_of_In%E%negb_true_iff%bool_decide_eq_false.
Qed.

(** The server has received the hello of the submitter, which has then sent its next
    message and waits for the server. *)
Definition sent : sys := after [StartActor 1; ServerStarts; ServerReceives; MessageIsTaken 1] (start_of started).
Lemma sent_ok : exec_all world [StartActor 1; ServerStarts; ServerReceives; MessageIsTaken 1] (start_of started) = Some (Ok sent).
Proof. apply after_ok. vm_compute. reflexivity. Qed.
Lemma sent_reachable : reachable world started sent.
Proof. exact (exec_all_reachable _ _ _ _ sent_ok). Qed.
Lemma sent_no_answer : no_answer sent.
Proof. apply no_answer_b_sound. vm_compute. reflexivity. Qed.
Lemma sent_runs : server_runs sent = true /\ end_of_simulation_ack_received (sy_data sent) = false.
Proof. vm_compute. split; reflexivity. Qed.
Definition waits_for_put (σ : sys) (self : positive) : bool :=
  match waiting_of σ self with Some (_, Waiting (put_message mbox _) _) => String.eqb mbox "server" | _ => false end.
Lemma waits_for_put_sound (σ : sys) self :
  waits_for_put σ self = true -> exists since n resume, waiting_of σ self = Some (since, Waiting (put_message "server" n) resume).
Proof.
  unfold waits_for_put. destruct (waiting_of σ self) as [[since [u|b resume]]|]; [done| |done].
  destruct b as [| | | | |mbox n|]; try done. intros ->%String.eqb_eq. by exists since, n, resume.
Qed.
Lemma sent_waits : waits_for_put sent 1 = true.
Proof. vm_compute. reflexivity. Qed.
Lemma sent_not_taken : exec world (MessageIsTaken 1) sent = None.
Proof.
  assert (match exec world (MessageIsTaken 1) sent with None => true | _ => false end = true) as E by (vm_compute; reflexivity).
  revert E. by destruct (exec world (MessageIsTaken 1) sent).
Qed.

(** The second message of the submitter is not received yet: the server can receive. *)
Example senders_are_served_witness : exists r, exec world ServerReceives sent = Some r.
Proof.
  destruct (waits_for_put_sound sent 1 sent_waits) as (since & n & resume & Hw).
  destruct (senders_are_served world started sent 1 since n resume started_well_prepared_alone world_replays no_workflow_submitter
    sent_reachable sent_no_answer (proj1 sent_runs) (proj2 sent_runs) Hw) as [[r Hr]|He]; [|exact He].
  rewrite sent_not_taken in Hr. discriminate Hr.
Defined.
End WithoutWorkflow.
