(* ===== verification/WaitsExamples.v ===== *)
(** * A workflow whose simulation stops

    Two tasks complete at the same date, and the first one has a child: the submitter
    sends the job of the child to the server while the server tells it about the
    completion of the other task. *)

From S2P Require Import Prelude Interfaces Profiles Jobs Storage NumericStrcmp Outputs Machines Workload Tracers Ipp PState Writer NumberParsing Workflow Context ContextSteps OutputFiles Server Actors Replay Submitters Reader System ServerFacts SystemProtocol SystemFacts SystemSafety SystemWaits Main MainFacts Simulation SimulationFacts SystemStart WorkflowExamples SimulationExamples.

Module WaitsExamples.
Import Concrete MachineExamples JobExamples WorkloadExamples.
Import SimulationExamples (option_value, OList, with_option, start_files, concrete_docopt).
#[local] Existing Instance WorkflowExamples.concrete_xml.
#[local] Abbreviation sys := (system (list Z) engine host json).

(** ** The simulation *)

Definition args : string -> option_value :=
  with_option "--workload" (OList []) (with_option "--workflow" (OList ["/fork.xml"]) (with_option "--events" (OList [])
    (with_option "<cut_workflow_file>" (OList []) (with_option "<start_time>" (OList []) SimulationExamples.args)))).
Definition arguments : MainArguments :=
  match SimulationExamples.parse args with Ok (m, _, _) => m | Err _ => new_MainArguments end.

(** The job of a task, and the message of a scheduler that executes both jobs. *)
Definition profile_of (s : string) : string := substring (String.length s - 7) 5 s.
Definition task_job (s : string) : json :=
  JObj [("id", JStr (WorkflowExamples.id_of s)); ("subtime", JInt 0); ("walltime", JInt 20); ("res", JInt 1);
        ("profile", JStr (profile_of s))].
Definition execution (job machine : string) : json :=
  JObj [("timestamp", JInt 0); ("type", JStr "EXECUTE_JOB"); ("data", JObj [("job_id", JStr job); ("alloc", JStr machine)])].
Definition execute_both : json :=
  JObj [("now", JInt 0); ("events", JArr [execution "wf0!0" "0"; execution "wf0!1" "1"])].

#[export] Instance fork_json : RapidJson json := {
  IsObject := IsObject; IsArray := IsArray; IsString := IsString; IsNumber := IsNumber; IsInt := IsInt;
  members := members; array_values := array_values; GetString := GetString; GetDouble := GetDouble; GetInt := GetInt;
  serialize := serialize;
  parse_json s := if String.eqb s "nothing" then Some SimulationExamples.nothing_to_do
                  else if String.eqb s "both" then Some execute_both else Some (task_job s);
}.
Definition str_find (s t : string) : bool := true.

Definition start : result (BatsimContext (list Z) engine host json) :=
  prepare_simulation (N := WorkflowExamples.xml) str_find SimulationExamples.replace_id SimulationExamples.read_file
    SimulationExamples.load_platform arguments SimulationExamples.initial_context.
Definition started := match start with Ok c => c | Err _ => SimulationExamples.initial_context end.

Definition world : externals (list Z) engine host json := {|
  x_englobing_zone _ := None;
  x_regex_match _ _ := false;
  x_str_find := str_find;
  x_replace_id := SimulationExamples.replace_id;
  x_storage_set _ _ := Ok tt;
  x_storage_get _ := Err (Abort "no data storage");
  x_sg_host_set _ e _ _ := e;
  x_get_core_count _ := 1;
  x_read_actions _ _ := Ok [];
  x_smpi_replay_run _ _ _ := ret tt;
  x_print _ := "";
  x_run_info _ := mk_run_info "" 0 0 0 0 false 0 0;
  x_scheduler self _ := Ok (if (self <=? 3)%positive then "nothing" else "both");
  x_stack := 3; x_polls := 3; x_iterations := 5;
|}.

(** ** The run *)

(** The submitter announces the first two tasks. *)
Definition announced : list (label engine) :=
  [StartActor 1; ServerStarts; ServerReceives; MessageIsTaken 1; WakesUp 1; ServerReceives; MessageIsTaken 1;
   ServerReceives; MessageIsTaken 1].
(** The scheduler executes them. *)
Definition executed : list (label engine) :=
  [StartActor 3; ServerReceives; MessageIsTaken 3; StartActor 4; ServerReceives; MessageIsTaken 4; ServerReceives;
   MessageIsTaken 4; ServerReceives; MessageIsTaken 4; StartActor 5; StartActor 6].
(** They end; the server tells the submitter about the first, which sends the child;
    the server handles the end of the second. *)
Definition completed : list (label engine) :=
  [TimePasses (mk_engine 5 [] 0); WakesUp 5; WakesUp 6; ServerReceives; MessageIsTaken 5; ReceivesMessage 1;
   ServerGoesOn; ServerReceives; MessageIsTaken 6].

Definition final : option (result sys) := exec_all world (announced ++ executed ++ completed) (start_of started).
Definition stuck : sys := match final with Some (Ok σ) => σ | _ => start_of started end.
Lemma stuck_ok : final = Some (Ok stuck).
Proof.
  assert (match final with Some (Ok _) => true | _ => false end = true) as E by (vm_compute; reflexivity).
  unfold stuck. by destruct final as [[?|?]|].
Qed.

Lemma stuck_reachable : reachable world started stuck.
Proof. exact (exec_all_reachable _ _ _ _ stuck_ok). Qed.

Lemma stuck_waits : everyone_waits stuck.
Proof. apply everyone_waits_b_sound. vm_compute. reflexivity. Qed.

Lemma stuck_counters :
  nb_submitted_jobs (sy_data stuck) = 2 /\ nb_completed_jobs (sy_data stuck) = 1 /\
  (msg_type <$> unread stuck "server") = [JOB_SUBMITTED].
Proof. vm_compute. repeat split. Qed.

(** Started by accepted arguments, the simulation stops there for ever: one of two
    completions has been counted, and the third task is never submitted. *)
Example everyone_waits_forever_witness :
  start = Ok started /\ reachable world started stuck /\
  forall σ, rtc (step world) stuck σ -> everyone_waits σ /\ nb_submitted_jobs (sy_data σ) = 2 /\ nb_completed_jobs (sy_data σ) = 1.
Proof.
  split; [vm_compute; reflexivity|]. split; [exact stuck_reachable|]. intros σ Hr.
  destruct (everyone_waits_forever world stuck σ stuck_waits Hr) as [Hw [e ->]]. split; [exact Hw|].
  destruct stuck_counters as (E1 & E2 & _), (later_counters e stuck) as [-> ->]. split; [exact E1|exact E2].
Defined.
End WaitsExamples.
